(* ===== verification/_CoqProject ===== *)
-Q . S2P
Prelude.v
PyStr.v
PyRe.v
PyDict.v
PyPath.v
Effect.v
Os.v
PyFloat.v
Util.v
ArgParse.v
Instance.v
BpfGen.v
LivePatch.v
Concord.v
FsType.v
Pipeline.v
Confine.v
CallGraph.v
CpuInfo.v
FxParser.v
Shell.v
OptParse.v
PerfMon.v
FxBench.v
FxRunner.v
Qmp.v
QmpSpec.v
PinVcpu.v
LockTable.v
Kibt.v
XDir.v
WillItScale.v
Reports.v
Plotter.v
B85.v
GetPip.v
Inflate.v
PipMembers.v
PipZip.v
Metis.v
