(* ===== verification/Prelude.v ===== *)
(** * DMon-TCLock

    The repository builds, installs and measures lock policies for the Linux kernel.  This
    development models its Python programs and proves what they do; paths below are under
    src/.

    ** The program and its parts

    - src/concord turns a directory with a lock policy into an eBPF program and a live
      patch.  The driver (concord.py) picks the files of the policy, runs the eBPF
      generator (bpfgen.py) through the phases of instance.py (ready, setup, build, check),
      and then the live patch generator (livepatch.py) through the same phases; all use
      the helpers of util.py and the paths of config.py.
    - scripts holds the client of the QEMU monitor (qmp.py), the script that pins virtual
      processors with it (pin-vcpu.py), and the bootstrap of pip (get-pip.py).
    - benchmarks measures the result: DMon_filter follows lock calls through the kernel
      sources, fxmark runs file system benchmarks over all configurations and logs them,
      and parses and plots the logs; xDir-rename, will-it-scale, leveldb and metis are
      smaller benchmarks with their reports.

    ** The language and the machine

    - [Prelude]: tactics, hint databases and generic lemmas.
    - [PyStr], [PyRe], [PyDict], [PyPath]: texts, regular expressions with backtracking and
      groups, dictionaries that keep insertion order, and path names, as Python has them.
    - [Effect]: a state and exception monad.  A computation ends by returning, by an
      exception of a class of the hierarchy, or by leaving the program with a status;
      [try_except] and [finally] catch as Python does.  [frame] and [keeps] say that a
      computation leaves a part of the state alone, [preserves] and [yields] that it keeps
      an invariant however it ends.
    - [Os]: the world of a program: a file tree with modes, working directory, environment,
      log with the level of its logger, and console.  Programs that are started are the field [spawn] of the class
      [Host], which every theorem quantifies over.
    - [PyFloat], [Shell], [OptParse], [ArgParse]: floating point numbers (a class, since
      their rounding is the machine's), commands given to the shell, and the two parsers of
      command lines, from the words to the values.  For argparse, an inductive relation
      ([spelled]) says which words spell a sequence of options, and the parser reads them
      back.

    ** The components and what is proved of them

    - [Util] (util.py): each context manager, command runner and file helper.  A directory
      change and a changed environment variable are undone however the body ends; an
      in-place replacement line by line is the replacement in the whole text; captured
      output ends up in its files; a checkout is refused on a dirty repository.
    - [Instance] (config.py, instance.py), [BpfGen] (bpfgen.py, list_APIs.h), [LivePatch]
      (livepatch.py), [Concord] (concord.py): the generators are records, their phases the
      methods of the class [Tool], whose instances the two generators are.  Shown are the
      files the eBPF generator writes, the header and the patch the live patch generator
      prepares, from a patch of the user or merged from its parts, that the APIs read from
      list_APIs.h are exactly the declared ones, the verdict of the check phase on the
      sections of a program with the file it changes, how the command line is read, what
      the driver has made when it returns and what each exit status of the process says
      (a phase that fails logs itself and ends with 0), and that the driver leaves the
      working directory as it was.
    - [FsType], [Pipeline], [Confine]: the tool of src/concord as a whole.  [FsType]: every
      run keeps the file tree, the working directory and the objects of the generators
      well formed, on every path.  [Pipeline]: with the inputs in place, the
      program goes from the words of the command line through all phases; the tree is known
      each time it starts make or kpatch-build ([prepared], [patch_prepared]), and from the
      tree this one run leaves ([ran]) the next part goes on.  Of these programs nothing is
      assumed in general: a theorem takes the result of the run on the tree at hand, and
      says what follows from it, up to the exit status, which tells a module that was built
      from one that was not.  A failed build of the kernel stops the program before the
      module.  Each phase is a step at one directory ([step_at]), and what the next phases
      need is carried over such steps.  [Confine]: whatever happens, the file tree changes
      by what the program does in the output directories and the kernel sources and by
      what the commands listed there do ([tool_step]); nothing is assumed of the commands.
    - [Qmp] (qmp.py), [QmpSpec], [PinVcpu] (pin-vcpu.py): the client is a state with its
      socket, and [QmpSpec] gives its contract as a mailbox, a step relation over calls
      and replies.  Every sequence of calls refines a run of the mailbox, so that events
      are delivered once each and in order and answers go to commands in order; waiting for
      events that arrive, with any pauses, returns them all; the list get_events returns is
      shared with the client.  The pinning script is verified on top of the client: it sends
      the two commands it should and pins each thread to its processor.
    - [B85], [GetPip], [Inflate], [PipMembers], [PipZip] (get-pip.py): decoding inverts
      base85, and accepts exactly digits in range, with the error it raises otherwise; the
      bootstrap unpacks, runs the pip it unpacked with the arguments it should and removes
      its directory however pip ends, also when it makes the directory itself; the embedded
      data has the directory of an archive whose members lie without gaps and which has all
      modules the bootstrap imports, and every member of the packages of these modules is
      unpacked ([Inflate]) to its size and checksum; and each of the modules defines the
      name that is imported from it.
    - [CallGraph] (adapt_to_bpf.py, find_call_graph.py): a call that is reported is a chain
      of calls in the sources, and the search always returns.
    - [CpuInfo], [FxParser], [PerfMon], [FxBench], [FxRunner], [Plotter], [LockTable], [Kibt]
      (cpuinfo.py, parser.py, perfmon.py, run-filebench.py and run-dbench.py,
      run-fxmark.py, plotter.py, fs_locking_table.py, kibt.py of fxmark): processor ranges
      and log lines are read back as they were written, a search of a log is complete and
      sorted, the configurations that are run are exactly the filtered ones, every run ends
      with the file system unmounted, reported figures are the differences of the samples,
      the lock table counts what it says, and inlined backtraces are chains of the listing.
    - [XDir], [WillItScale], [Reports], [Metis]: the smaller benchmarks and reports; a
      directory is brought to the number of files asked for, a table of plain fields is
      read back, and the tasks of the Metis benchmark are set up in their order.

    ** Bounds

    - [CallGraph]: the depth of the search is the room on the interpreter's stack; at depth
      zero the interpreter's RecursionError is raised, which each level catches.  One level
      is enough for the search to return.
    - [FxBench] and [FxRunner]: a loop that polls a program takes a number of rounds; when
      they are used up the computation ends in [CUnfinished], which nothing catches.  The
      theorems say which outputs end the loop, and how many rounds suffice.
    - [Qmp]: what arrives on a connection is a list, so reading it ends; a pause is an
      element of it, which a read that waits goes past.
    - [PipZip]: the directory is read with the number of entries it declares.  [Inflate]: a
      symbol takes a bit or more and a block a byte or more, so as many rounds as the data
      has bits and bytes are enough.

    ** Not modelled

    - The C programs, kernel patches, policies and shell scripts, and src/kpatch, which is
      a copy of another project: the development is of the Python programs.
    - The other packed members in the data of get-pip.py, some 21,400 lines of base85: they
      are the rest of a copy of pip in compressed form, which the script passes on without
      looking inside; what pip does is a parameter.  The directory of the archive and the
      packages the script imports from are transcribed, one definition for each member;
      the rest is a pair of variables.
    - The empty src/concord/__init__.py, and the texts of help and of usage errors, which
      the two parsers of command lines print.
    - Pipes that fill up before a command is waited for, parts of a line that a read on the
      monitor gives up on, and the room the helper functions of the call graph search take
      on the interpreter's stack.
    - Libraries (json, git, psutil, numa, mparts, support, cscope, gnuplot and the like),
      which are parameters; times of day and sleeping, which have no effect here. *)

From stdpp Require Export base list strings gmap.
From Stdlib Require Export Ascii ZArith Lia.
#[global] Open Scope Z_scope.

(** * Automation *)

(** Equations on strings that every component rewrites with. *)
Create Rewrite HintDb pystr.

(** Facts about the operations of the language model, applied backwards. *)
Create HintDb pyfacts discriminated.

(** Case analysis on the innermost [if] or [match] of the goal. *)
Ltac case_if :=
  match goal with
  | |- context [if ?b then _ else _] =>
      lazymatch b with
      | context [if _ then _ else _] => fail
      | _ => let E := fresh "E" in destruct b eqn:E
      end
  end.

Ltac case_match_in H :=
  match type of H with
  | context [match ?x with _ => _ end] => let E := fresh "E" in destruct x eqn:E
  end.

(** Turn boolean tests into the propositions they decide. *)
Ltac bool_to_prop :=
  repeat match goal with
  | H : (_ && _) = true |- _ => apply andb_true_iff in H as [? ?]
  | H : (_ || _) = false |- _ => apply orb_false_iff in H as [? ?]
  | H : negb _ = true |- _ => apply negb_true_iff in H
  | H : negb _ = false |- _ => apply negb_false_iff in H
  | H : (_ =? _)%Z = true |- _ => apply Z.eqb_eq in H
  | H : (_ =? _)%Z = false |- _ => apply Z.eqb_neq in H
  | H : (_ =? _)%nat = true |- _ => apply Nat.eqb_eq in H
  | H : (_ =? _)%nat = false |- _ => apply Nat.eqb_neq in H
  | H : (_ <=? _)%nat = true |- _ => apply Nat.leb_le in H
  | H : (_ <=? _)%nat = false |- _ => apply Nat.leb_gt in H
  | H : (_ <? _)%nat = true |- _ => apply Nat.ltb_lt in H
  | H : (_ <? _)%nat = false |- _ => apply Nat.ltb_ge in H
  | H : (_ <=? _)%Z = true |- _ => apply Z.leb_le in H
  | H : (_ <=? _)%Z = false |- _ => apply Z.leb_gt in H
  | H : (_ <? _)%Z = true |- _ => apply Z.ltb_lt in H
  | H : (_ <? _)%Z = false |- _ => apply Z.ltb_ge in H
  | H : (_ =? _)%string = true |- _ => apply String.eqb_eq in H
  | H : (_ =? _)%string = false |- _ => apply String.eqb_neq in H
  | H : (_ =? _)%char = true |- _ => apply Ascii.eqb_eq in H
  | H : (_ =? _)%char = false |- _ => apply Ascii.eqb_neq in H
  | H : bool_decide _ = true |- _ => apply bool_decide_eq_true in H
  | H : bool_decide _ = false |- _ => apply bool_decide_eq_false in H
  end.

(** * Strings as sequences *)

Lemma app_cons_str c (s t : string) : String c s +:+ t = String c (s +:+ t).
Proof. done. Qed.

Lemma app_nil_str (t : string) : "" +:+ t = t.
Proof. done. Qed.

Lemma app_str_nil (s : string) : s +:+ "" = s.
Proof. induction s as [|c s IH]; [done|]. by rewrite app_cons_str, IH. Qed.

Lemma app_str_assoc (s t u : string) : (s +:+ t) +:+ u = s +:+ (t +:+ u).
Proof. induction s as [|c s IH]; [done|]. by rewrite !app_cons_str, IH. Qed.

#[export] Hint Rewrite app_cons_str app_nil_str app_str_nil app_str_assoc : pystr.

Lemma length_app_str (s t : string) :
  String.length (s +:+ t) = (String.length s + String.length t)%nat.
Proof. induction s as [|c s IH]; [done|]. rewrite app_cons_str. simpl. by rewrite IH. Qed.

#[export] Hint Rewrite length_app_str : pystr.

Ltac str_simpl := repeat (autorewrite with pystr; simpl).
Ltac str_simpl_in H := repeat (autorewrite with pystr in H; simpl in H).

Lemma app_str_inj_r (s s' t : string) : s +:+ t = s' +:+ t → s = s'.
Proof.
  revert s'. induction s as [|c s IH]; intros [|c' s'] H; [done|..];
    rewrite ?app_cons_str, ?app_nil_str in H.
  - apply (f_equal String.length) in H. simpl in H. rewrite length_app_str in H. lia.
  - apply (f_equal String.length) in H. simpl in H. rewrite length_app_str in H. lia.
  - injection H as -> H. f_equal. by apply IH.
Qed.

Lemma app_str_eq_nil (s t : string) : s +:+ t = "" → s = "" ∧ t = "".
Proof. by destruct s. Qed.

(** Membership of a character, as a boolean and as a quantifier over the text. *)
Fixpoint str_forall (p : ascii → bool) (s : string) : bool :=
  match s with
  | EmptyString => true
  | String c s' => p c && str_forall p s'
  end.

Definition no_char (c : ascii) (s : string) : bool :=
  str_forall (fun d => negb (Ascii.eqb c d)) s.

#[global] Arguments no_char : simpl never.
#[global] Arguments Ascii.eqb : simpl never.

Lemma no_char_cons c d s : no_char c (String d s) = negb (Ascii.eqb c d) && no_char c s.
Proof. done. Qed.

Lemma no_char_nil c : no_char c "" = true.
Proof. done. Qed.

Lemma str_forall_app p s t : str_forall p (s +:+ t) = str_forall p s && str_forall p t.
Proof.
  induction s as [|c s IH]; [done|]. rewrite app_cons_str. simpl. rewrite IH.
  by rewrite andb_assoc.
Qed.

Lemma no_char_app c s t : no_char c (s +:+ t) = no_char c s && no_char c t.
Proof. apply str_forall_app. Qed.

#[export] Hint Rewrite str_forall_app no_char_app no_char_cons no_char_nil : pystr.

Lemma str_forall_impl (p q : ascii → bool) s :
  (∀ c, p c = true → q c = true) → str_forall p s = true → str_forall q s = true.
Proof.
  intros Hpq. induction s as [|c s IH]; [done|]. simpl. intros [H1 H2]%andb_true_iff.
  by rewrite Hpq, IH.
Qed.
