(* ===== verification/PyStr.v ===== *)
(** The operations of Python's [str] that the sources use, on texts whose code
    points are below 256 (one [ascii] per code point), with the lemmas the
    components share: searching, splitting, replacing, stripping, reading and
    printing integers. *)

From S2P Require Import Prelude.
From Stdlib Require Import DecimalString DecimalN.
From Stdlib Require DecimalFacts DecimalPos.

(** * Characters *)

Definition code (c : ascii) : N := N_of_ascii c.

Definition LF : ascii := "010".
Definition CR : ascii := "013".
Definition nl : string := String LF "".

(** [str.isspace] below 256 (Python 3): tab to CR, FS to US, space, NEL, NBSP. *)
Definition isspace (c : ascii) : bool :=
  let n := code c in
  ((9 <=? n) && (n <=? 13) || (28 <=? n) && (n <=? 32) || (n =? 133) || (n =? 160))%N.

(** The whitespace of a Python 2 byte string in the C locale. *)
Definition isspace2 (c : ascii) : bool :=
  let n := code c in ((9 <=? n) && (n <=? 13) || (n =? 32))%N.

#[global] Arguments isspace : simpl never.
#[global] Arguments isspace2 : simpl never.

Definition isdigit_char (c : ascii) : bool :=
  let n := code c in ((48 <=? n) && (n <=? 57))%N.

(** * Slices and searching *)

Fixpoint stake (n : nat) (s : string) : string :=
  match n, s with
  | S n', String c s' => String c (stake n' s')
  | _, _ => ""
  end.

Fixpoint sdrop (n : nat) (s : string) : string :=
  match n, s with
  | O, _ => s
  | S n', String _ s' => sdrop n' s'
  | S _, EmptyString => ""
  end.

(** A Python index, negative ones counted from the end, clipped to the text. *)
Definition clip (s : string) (i : Z) : nat :=
  let n := Z.of_nat (String.length s) in
  Z.to_nat (Z.min n (Z.max 0 (if i <? 0 then i + n else i))).

(** [s[a:b]] *)
Definition slice (s : string) (a b : Z) : string :=
  stake (clip s b - clip s a) (sdrop (clip s a) s).

(** [s[a:]] and [s[:b]] *)
Definition slice_from (s : string) (a : Z) : string := sdrop (clip s a) s.
Definition slice_to (s : string) (b : Z) : string := stake (clip s b) s.

(** [s[i]]: [None] is [IndexError]. *)
Definition char_at (s : string) (i : Z) : option ascii :=
  let n := Z.of_nat (String.length s) in
  let j := if i <? 0 then i + n else i in
  if (j <? 0) || (n <=? j) then None else String.get (Z.to_nat j) s.

Definition startswith (s p : string) : bool := String.prefix p s.
#[global] Arguments startswith : simpl never.

Fixpoint srev_app (s acc : string) : string :=
  match s with EmptyString => acc | String c s' => srev_app s' (String c acc) end.
Definition srev (s : string) : string := srev_app s "".

Definition endswith (s p : string) : bool := startswith (srev s) (srev p).

(** The first position at which [sub] occurs. *)
Fixpoint find_opt (sub s : string) : option nat :=
  if startswith s sub then Some O
  else match s with
       | EmptyString => None
       | String _ s' => S <$> find_opt sub s'
       end.

(** The last position at which [sub] occurs. *)
Fixpoint rfind_opt (sub s : string) : option nat :=
  match s with
  | EmptyString => if startswith s sub then Some O else None
  | String _ s' =>
      match rfind_opt sub s' with
      | Some i => Some (S i)
      | None => if startswith s sub then Some O else None
      end
  end.

(** [s.find(sub)], [s.rfind(sub)], [sub in s] *)
Definition find (s sub : string) : Z :=
  match find_opt sub s with Some i => Z.of_nat i | None => -1 end.
Definition rfind (s sub : string) : Z :=
  match rfind_opt sub s with Some i => Z.of_nat i | None => -1 end.
Definition contains (s sub : string) : bool :=
  match find_opt sub s with Some _ => true | None => false end.

(** * Splitting and joining *)

(** [s.split(sep)] for a non-empty separator: [skip] counts the characters of a
    separator already recognised. *)
Fixpoint split_go (sep : string) (skip : nat) (s : string) : list string :=
  match s with
  | EmptyString => [""]
  | String c s' =>
      match skip with
      | S k => split_go sep k s'
      | O =>
          if startswith s sep then "" :: split_go sep (pred (String.length sep)) s'
          else match split_go sep O s' with
               | h :: t => String c h :: t
               | [] => [String c ""]
               end
      end
  end.

Definition split (s sep : string) : list string := split_go sep O s.

(** [s.split(sep, 1)] *)
Definition split1 (s sep : string) : list string :=
  match find_opt sep s with
  | None => [s]
  | Some i => [stake i s; sdrop (i + String.length sep) s]
  end.

(** Splitting at every character of a class. *)
Fixpoint split_pred (p : ascii → bool) (s : string) : list string :=
  match s with
  | EmptyString => [""]
  | String c s' =>
      if p c then "" :: split_pred p s'
      else match split_pred p s' with
           | h :: t => String c h :: t
           | [] => [String c ""]
           end
  end.

Definition nonempty (s : string) : bool := negb (String.eqb s "").

(** [s.split()]: maximal runs of non-blank characters. *)
Definition words (s : string) : list string :=
  List.filter nonempty (split_pred isspace s).

(** [sep.join(l)] *)
Fixpoint join (sep : string) (l : list string) : string :=
  match l with
  | [] => ""
  | [x] => x
  | x :: l' => x +:+ sep +:+ join sep l'
  end.

(** [s.splitlines()] *)
Definition is_linebreak (c : ascii) : bool :=
  let n := code c in
  ((10 <=? n) && (n <=? 13) || (28 <=? n) && (n <=? 30) || (n =? 133))%N.

Fixpoint splitlines_at (brk : ascii → bool) (s : string) : list string :=
  match s with
  | EmptyString => []
  | String c s' =>
      if Ascii.eqb c CR then
        match s' with
        | String d s'' =>
            if Ascii.eqb d LF then "" :: splitlines_at brk s'' else "" :: splitlines_at brk s'
        | EmptyString => [""]
        end
      else if brk c then "" :: splitlines_at brk s'
      else match splitlines_at brk s' with
           | h :: t => String c h :: t
           | [] => [String c ""]
           end
  end.

Definition splitlines : string → list string := splitlines_at is_linebreak.

(** [splitlines] and [strip] of Python 2 byte strings *)
Definition splitlines2 : string → list string := splitlines_at (Ascii.eqb LF).

(** Universal newlines: what a text read from a file looks like. *)
Fixpoint universal_newlines (s : string) : string :=
  match s with
  | EmptyString => ""
  | String c s' =>
      if Ascii.eqb c CR then
        match s' with
        | String d s'' =>
            if Ascii.eqb d LF then String LF (universal_newlines s'')
            else String LF (universal_newlines s')
        | EmptyString => nl
        end
      else String c (universal_newlines s')
  end.

(** Iteration over an open text file, and [readlines]: lines with their end. *)
Fixpoint file_lines (s : string) : list string :=
  match s with
  | EmptyString => []
  | String c s' =>
      if Ascii.eqb c LF then nl :: file_lines s'
      else match file_lines s' with
           | h :: t => String c h :: t
           | [] => [String c ""]
           end
  end.

(** * Stripping *)

Fixpoint lstrip_pred (p : ascii → bool) (s : string) : string :=
  match s with
  | EmptyString => ""
  | String c s' => if p c then lstrip_pred p s' else s
  end.

Fixpoint rstrip_pred (p : ascii → bool) (s : string) : string :=
  match s with
  | EmptyString => ""
  | String c s' =>
      match rstrip_pred p s' with
      | EmptyString => if p c then "" else String c ""
      | t => String c t
      end
  end.

Definition strip_pred (p : ascii → bool) (s : string) : string :=
  lstrip_pred p (rstrip_pred p s).

Definition strip : string → string := strip_pred isspace.
Definition rstrip : string → string := rstrip_pred isspace.
Definition strip2 : string → string := strip_pred isspace2.

Definition char_in (cs : string) (c : ascii) : bool := negb (no_char c cs).

(** [s.rstrip(chars)] *)
Definition rstrip_chars (s cs : string) : string := rstrip_pred (char_in cs) s.

(** * Replacing *)

Fixpoint replace_go (needle rep : string) (skip : nat) (s : string) : string :=
  match s with
  | EmptyString => ""
  | String c s' =>
      match skip with
      | S k => replace_go needle rep k s'
      | O =>
          if startswith s needle
          then rep +:+ replace_go needle rep (pred (String.length needle)) s'
          else String c (replace_go needle rep O s')
      end
  end.

Fixpoint intersperse (rep s : string) : string :=
  match s with
  | EmptyString => rep
  | String c s' => rep +:+ String c (intersperse rep s')
  end.

(** [s.replace(needle, rep)] *)
Definition replace (s needle rep : string) : string :=
  match needle with
  | EmptyString => intersperse rep s
  | _ => replace_go needle rep O s
  end.

(** * Integers *)

(** [s.isdigit()] *)
Definition isdigit (s : string) : bool := nonempty s && str_forall isdigit_char s.

(** The digits of an integer literal: single underscores may separate digits. *)
Fixpoint int_digits (prev : bool) (s : string) : option string :=
  match s with
  | EmptyString => if prev then Some "" else None
  | String c s' =>
      if Ascii.eqb c "_" then (if prev then int_digits false s' else None)
      else if isdigit_char c then String c <$> int_digits true s'
      else None
  end.

Definition digits_value (s : string) : option Z :=
  Z.of_N ∘ N.of_uint <$> NilEmpty.uint_of_string s.

(** [int(s)]: [None] is [ValueError]. *)
Definition py_int (s : string) : option Z :=
  match strip s with
  | String c s' =>
      if Ascii.eqb c "-" then Z.opp <$> (int_digits false s' ≫= digits_value)
      else if Ascii.eqb c "+" then int_digits false s' ≫= digits_value
      else int_digits false (String c s') ≫= digits_value
  | EmptyString => None
  end.

(** [int(s)] of Python 2: no underscores. *)
Definition py_int2 (s : string) : option Z :=
  let digits t := if isdigit t then digits_value t else None in
  match strip2 s with
  | String c s' =>
      if Ascii.eqb c "-" then Z.opp <$> digits s'
      else if Ascii.eqb c "+" then digits s'
      else digits (String c s')
  | EmptyString => None
  end.

(** [str(n)] and [%d] *)
Definition str_N (n : N) : string := NilEmpty.string_of_uint (N.to_uint n).
Definition str_Z (z : Z) : string :=
  if z <? 0 then String "-" (str_N (Z.to_N (- z))) else str_N (Z.to_N z).
Definition str_nat (n : nat) : string := str_N (N.of_nat n).

Fixpoint repeat_char (c : ascii) (n : nat) : string :=
  match n with O => "" | S k => String c (repeat_char c k) end.

(** [%0wd]: zeros between the sign and the digits. *)
Definition fmt_0d (w : nat) (z : Z) : string :=
  if z <? 0
  then let d := str_N (Z.to_N (- z)) in
       String "-" (repeat_char "0" (w - 1 - String.length d) +:+ d)
  else let d := str_N (Z.to_N z) in repeat_char "0" (w - String.length d) +:+ d.

(** [%wd]: padded with spaces on the left. *)
Definition fmt_d (w : nat) (z : Z) : string :=
  let d := str_Z z in repeat_char " " (w - String.length d) +:+ d.

(** * [repr] of texts and of lists of texts *)

Definition hex_digit (n : N) : ascii := ascii_of_N (if (n <? 10)%N then 48 + n else 87 + n)%N.

Definition printable (c : ascii) : bool :=
  let n := code c in
  ((32 <=? n) && (n <=? 126) || (161 <=? n) && negb (n =? 173))%N.

Definition repr_char (q c : ascii) : string :=
  if Ascii.eqb c q || Ascii.eqb c "\" then String "\" (String c "")
  else if Ascii.eqb c "009" then "\t"
  else if Ascii.eqb c LF then "\n"
  else if Ascii.eqb c CR then "\r"
  else if printable c then String c ""
  else "\x" +:+ String (hex_digit (code c / 16)) (String (hex_digit (code c mod 16)) "").

Fixpoint repr_chars (q : ascii) (s : string) : string :=
  match s with EmptyString => "" | String c s' => repr_char q c +:+ repr_chars q s' end.

(** [str(b)] of bytes shows ASCII only. *)
Definition ascii_printable (c : ascii) : bool := let n := code c in ((32 <=? n) && (n <=? 126))%N.

Definition repr_byte (q c : ascii) : string :=
  if printable c && negb (ascii_printable c)
  then "\x" +:+ String (hex_digit (code c / 16)) (String (hex_digit (code c mod 16)) "")
  else repr_char q c.

Fixpoint repr_bytes_in (q : ascii) (s : string) : string :=
  match s with EmptyString => "" | String c s' => repr_byte q c +:+ repr_bytes_in q s' end.

(** Double quotes are used only when the text has a single quote and no double one. *)
Definition repr_str (s : string) : string :=
  let q := if contains s "'" && negb (contains s (String "034" "")) then "034"%char else "'"%char in
  String q (repr_chars q s +:+ String q "").

Definition repr_bytes (s : string) : string :=
  let q := if contains s "'" && negb (contains s (String "034" "")) then "034"%char else "'"%char in
  String "b" (String q (repr_bytes_in q s +:+ String q "")).

Definition repr_list (l : list string) : string := "[" +:+ join ", " (map repr_str l) +:+ "]".

(** * Lemmas: slices and searching *)

Lemma stake_app (s t : string) : stake (String.length s) (s +:+ t) = s.
Proof. induction s as [|c s IH]; rewrite ?app_cons_str; simpl; [by destruct t|]. by f_equal. Qed.

Lemma sdrop_app (s t : string) : sdrop (String.length s) (s +:+ t) = t.
Proof. induction s as [|c s IH]; rewrite ?app_cons_str; simpl; [by destruct t|]. done. Qed.

Lemma stake_sdrop n (s : string) : stake n s +:+ sdrop n s = s.
Proof.
  revert n. induction s as [|c s IH]; intros [|n]; simpl; try done.
  by rewrite app_cons_str, IH.
Qed.

Lemma sdrop_sdrop m n (s : string) : sdrop m (sdrop n s) = sdrop (n + m) s.
Proof.
  revert n. induction s as [|c s IH]; intros [|n]; simpl; try done.
  by destruct m.
Qed.

Lemma sdrop_add_app (s t : string) k : sdrop (String.length s + k) (s +:+ t) = sdrop k t.
Proof. by rewrite <- sdrop_sdrop, sdrop_app. Qed.

Lemma sdrop_nil n : sdrop n "" = "".
Proof. by destruct n. Qed.

Lemma length_sdrop n (s : string) : String.length (sdrop n s) = (String.length s - n)%nat.
Proof. revert n. induction s as [|c s IH]; intros [|n]; simpl; auto. Qed.

Lemma length_stake n (s : string) : String.length (stake n s) = Nat.min n (String.length s).
Proof. revert n. induction s as [|c s IH]; intros [|n]; simpl; auto. Qed.

Lemma stake_all n (s : string) : (String.length s ≤ n)%nat → stake n s = s.
Proof.
  revert n. induction s as [|c s IH]; intros [|n] H; simpl in *; try done; [lia|].
  f_equal. apply IH. lia.
Qed.

Lemma startswith_app (p t : string) : startswith (p +:+ t) p = true.
Proof.
  unfold startswith. induction p as [|c p IH]; [by destruct t|].
  rewrite app_cons_str. simpl. by destruct (ascii_dec c c).
Qed.

Lemma startswith_refl (p : string) : startswith p p = true.
Proof. rewrite <- (app_str_nil p) at 1. apply startswith_app. Qed.

Lemma startswith_inv (s p : string) : startswith s p = true → s = p +:+ sdrop (String.length p) s.
Proof.
  unfold startswith. revert s. induction p as [|c p IH]; intros s H; [by destruct s|].
  destruct s as [|d s]; [done|]. simpl in H. destruct (ascii_dec c d) as [->|]; [|done].
  simpl. rewrite app_cons_str. f_equal. by apply IH.
Qed.

Lemma startswith_iff (s p : string) : startswith s p = true ↔ ∃ t, s = p +:+ t.
Proof.
  split; [intros H; eexists; by apply startswith_inv|]. intros [t ->]. apply startswith_app.
Qed.

Lemma startswith_cons c s d p :
  startswith (String c s) (String d p) = Ascii.eqb d c && startswith s p.
Proof.
  unfold startswith. simpl. destruct (ascii_dec d c) as [->|Hne].
  - by rewrite Ascii.eqb_refl.
  - by apply Ascii.eqb_neq in Hne as ->.
Qed.

Lemma startswith_nil_r (s : string) : startswith s "" = true.
Proof. by destruct s. Qed.

Lemma startswith_length (s p : string) :
  startswith s p = true → (String.length p ≤ String.length s)%nat.
Proof. intros [t ->]%startswith_iff. rewrite length_app_str. lia. Qed.

(** A prefix test that does not reach the end of the first part ignores the rest. *)
Lemma startswith_app_short (s t p : string) :
  (String.length p ≤ String.length s)%nat → startswith (s +:+ t) p = startswith s p.
Proof.
  revert p. induction s as [|c s IH]; intros [|d p] H; simpl in H; try lia.
  - by rewrite !startswith_nil_r.
  - by rewrite !startswith_nil_r.
  - rewrite app_cons_str, !startswith_cons. rewrite IH by lia. done.
Qed.

Lemma find_opt_Some (sub s : string) i :
  find_opt sub s = Some i →
  s = stake i s +:+ sub +:+ sdrop (i + String.length sub) s ∧ (i ≤ String.length s)%nat.
Proof.
  revert i. induction s as [|c s IH]; intros i; simpl.
  - destruct (startswith "" sub) eqn:E; [|done]. intros [= <-]. simpl.
    rewrite app_nil_str. split; [by apply startswith_inv|lia].
  - destruct (startswith (String c s) sub) eqn:E.
    + intros [= <-]. simpl. rewrite app_nil_str. split; [by apply startswith_inv|lia].
    + destruct (find_opt sub s) as [j|] eqn:Ej; [|done]. intros [= <-]. simpl.
      destruct (IH j eq_refl) as [H1 H2]. split; [|lia]. rewrite app_cons_str. by f_equal.
Qed.

Lemma find_opt_None (sub s : string) :
  find_opt sub s = None ↔ ∀ a b, s ≠ a +:+ sub +:+ b.
Proof.
  split.
  - induction s as [|c s IH]; simpl.
    + destruct (startswith "" sub) eqn:E; [done|]. intros _ a b H.
      symmetry in H. apply app_str_eq_nil in H as [-> H].
      apply app_str_eq_nil in H as [-> ->]. by rewrite startswith_nil_r in E.
    + destruct (startswith (String c s) sub) eqn:E; [done|].
      destruct (find_opt sub s) as [j|] eqn:Ej; [done|]. intros _ [|d a] b H.
      * rewrite app_nil_str in H. rewrite H, startswith_app in E. done.
      * rewrite app_cons_str in H. injection H as -> H. by apply (IH eq_refl a b).
  - intros H. destruct (find_opt sub s) as [i|] eqn:E; [|done].
    apply find_opt_Some in E as [E _]. by apply H in E.
Qed.

Lemma contains_iff (s sub : string) : contains s sub = true ↔ ∃ a b, s = a +:+ sub +:+ b.
Proof.
  unfold contains. destruct (find_opt sub s) as [i|] eqn:E; split; try done.
  - intros _. apply find_opt_Some in E as [E _]. eauto.
  - intros (a & b & ->). by apply find_opt_None with (a := a) (b := b) in E.
Qed.

(** [find] returns the leftmost occurrence. *)
Lemma find_opt_first (sub s : string) i j a b :
  find_opt sub s = Some i → s = a +:+ sub +:+ b → String.length a = j → (i ≤ j)%nat.
Proof.
  revert i j a. induction s as [|c s IH]; intros i j a; simpl.
  - destruct (startswith "" sub); [intros [= <-]|done]. lia.
  - destruct (startswith (String c s) sub) eqn:E; [intros [= <-]; lia|].
    destruct (find_opt sub s) as [k|] eqn:Ek; [|done]. intros [= <-] H <-.
    destruct a as [|d a].
    + rewrite app_nil_str in H. rewrite H, startswith_app in E. done.
    + rewrite app_cons_str in H. injection H as -> H. simpl.
      specialize (IH k _ a eq_refl H eq_refl). lia.
Qed.

Lemma find_nonneg_iff (s sub : string) : find s sub ≠ -1 ↔ contains s sub = true.
Proof. unfold find, contains. destruct (find_opt sub s); split; intros; try done; lia. Qed.

(** The last separator of a text. *)
Lemma rfind_opt_last (c : ascii) (s t : string) :
  no_char c t = true → rfind_opt (String c "") (s +:+ String c t) = Some (String.length s).
Proof.
  intros Ht. assert (Hno : rfind_opt (String c "") t = None).
  { clear s. induction t as [|d t IH]; [done|]. rewrite no_char_cons in Ht.
    apply andb_true_iff in Ht as [Hd Ht]. simpl. rewrite IH by done.
    rewrite startswith_cons. apply negb_true_iff in Hd. by rewrite Hd. }
  induction s as [|d s IH].
  - rewrite app_nil_str. simpl. rewrite Hno, startswith_cons, Ascii.eqb_refl. by rewrite startswith_nil_r.
  - rewrite app_cons_str. simpl. by rewrite IH.
Qed.

Lemma slice_from_app (s t : string) : slice_from (s +:+ t) (Z.of_nat (String.length s)) = t.
Proof.
  unfold slice_from, clip. rewrite length_app_str. case_if; bool_to_prop; [lia|].
  replace (Z.to_nat _) with (String.length s) by lia. apply sdrop_app.
Qed.

Lemma slice_to_app (s t : string) : slice_to (s +:+ t) (Z.of_nat (String.length s)) = s.
Proof.
  unfold slice_to, clip. rewrite length_app_str. case_if; bool_to_prop; [lia|].
  replace (Z.to_nat _) with (String.length s) by lia. apply stake_app.
Qed.

Lemma get_app (s t : string) n : String.get (String.length s + n) (s +:+ t) = String.get n t.
Proof. rewrite Nat.add_comm. symmetry. apply String.append_correct2. Qed.

Lemma char_at_app (s t : string) c :
  char_at (s +:+ String c t) (Z.of_nat (String.length s)) = Some c.
Proof.
  unfold char_at. rewrite length_app_str. simpl.
  destruct (Z.ltb_spec (Z.of_nat (String.length s)) 0); [lia|].
  destruct (Z.ltb_spec (Z.of_nat (String.length s)) 0); [lia|]. simpl.
  destruct (Z.leb_spec (Z.of_nat (String.length s + S (String.length t))) (Z.of_nat (String.length s)));
    [lia|].
  rewrite Nat2Z.id. replace (String.length s) with (String.length s + 0)%nat by lia. by rewrite get_app.
Qed.

(** Reversing, for suffixes. *)
Lemma srev_app_spec (s acc : string) : srev_app s acc = srev s +:+ acc.
Proof.
  unfold srev. revert acc. induction s as [|c s IH]; intros acc; simpl; [done|].
  rewrite (IH (String c acc)), (IH (String c "")). by rewrite app_str_assoc.
Qed.

Lemma srev_cons c (s : string) : srev (String c s) = srev s +:+ String c "".
Proof. unfold srev at 1. simpl. apply srev_app_spec. Qed.

Lemma srev_append (s t : string) : srev (s +:+ t) = srev t +:+ srev s.
Proof.
  induction s as [|c s IH]; [by rewrite app_nil_str, app_str_nil|].
  by rewrite app_cons_str, !srev_cons, IH, app_str_assoc.
Qed.

Lemma srev_involutive (s : string) : srev (srev s) = s.
Proof. induction s as [|c s IH]; [done|]. rewrite srev_cons, srev_append, IH. done. Qed.

Lemma endswith_app (s p : string) : endswith (s +:+ p) p = true.
Proof. unfold endswith. rewrite srev_append. apply startswith_app. Qed.

(** A text with a suffix is not one without it. *)
Lemma suffix_ne (s p t : string) : endswith t p = false → s +:+ p ≠ t.
Proof. intros Ht <-. by rewrite endswith_app in Ht. Qed.

(** * Lemmas: lines *)

Definition sconcat (l : list string) : string := join "" l.

Lemma sconcat_cons x l : sconcat (x :: l) = x +:+ sconcat l.
Proof. unfold sconcat. destruct l; simpl; [by rewrite app_str_nil|]. by rewrite app_nil_str. Qed.

Lemma sconcat_app l1 l2 : sconcat (l1 ++ l2) = sconcat l1 +:+ sconcat l2.
Proof.
  induction l1 as [|x l1 IH]; [done|]. simpl (_ ++ _).
  rewrite !sconcat_cons, IH. by rewrite app_str_assoc.
Qed.

Lemma sconcat_file_lines (s : string) : sconcat (file_lines s) = s.
Proof.
  induction s as [|c s IH]; simpl; [done|]. destruct (Ascii.eqb_spec c LF) as [->|Hne].
  - rewrite sconcat_cons, IH. done.
  - destruct (file_lines s) as [|h t] eqn:E.
    + simpl in IH. by subst s.
    + rewrite sconcat_cons in IH |- *. by rewrite app_cons_str, IH.
Qed.

(** A line of a file: no newline but possibly a final one. *)
Definition is_line (l : string) : Prop :=
  ∃ body, no_char LF body = true ∧ (l = body +:+ nl ∨ l = body).

Lemma file_lines_is_line (s : string) : Forall is_line (file_lines s).
Proof.
  induction s as [|c s IH]; simpl; [constructor|].
  destruct (Ascii.eqb_spec c LF) as [->|Hne].
  - constructor; [|done]. exists "". auto.
  - assert (Hc : negb (Ascii.eqb LF c) = true).
    { apply negb_true_iff, Ascii.eqb_neq. congruence. }
    destruct (file_lines s) as [|h t].
    + repeat constructor. exists (String c ""). rewrite no_char_cons, Hc. auto.
    + inversion IH as [|? ? (b & Hb & Hl) Ht]; subst. constructor; [|done].
      exists (String c b). rewrite no_char_cons, Hc, Hb. split; [done|].
      destruct Hl as [-> | ->]; [left|right]; done.
Qed.

Lemma file_lines_app_nl (b s : string) :
  no_char LF b = true → file_lines (b +:+ nl +:+ s) = (b +:+ nl) :: file_lines s.
Proof.
  intros Hb. induction b as [|c b IH].
  - rewrite !app_nil_str. done.
  - rewrite no_char_cons in Hb. apply andb_true_iff in Hb as [Hc Hb].
    rewrite !app_cons_str. simpl. rewrite Ascii.eqb_sym in Hc.
    apply negb_true_iff in Hc as ->. by rewrite (IH Hb).
Qed.

Lemma file_lines_no_nl (s : string) :
  no_char LF s = true → s ≠ "" → file_lines s = [s].
Proof.
  induction s as [|c s IH]; [done|]. rewrite no_char_cons, Ascii.eqb_sym. simpl.
  intros [Hc Hs]%andb_true_iff _. apply negb_true_iff in Hc as ->.
  destruct (decide (s = "")) as [->|Hne]; [done|]. by rewrite IH.
Qed.

(** A text is one line, or a line with its newline followed by a text. *)
Lemma nl_cases (s : string) :
  no_char LF s = true ∨ ∃ b r, no_char LF b = true ∧ s = b +:+ nl +:+ r.
Proof.
  induction s as [|c s IH]; [by left|]. destruct (Ascii.eqb_spec LF c) as [<-|Hc].
  - right. by exists "", s.
  - apply Ascii.eqb_neq in Hc. rewrite no_char_cons, Hc. simpl.
    destruct IH as [->|(b & r & Hb & ->)]; [by left|]. right.
    exists (String c b), r. by rewrite no_char_cons, Hc.
Qed.

(** * Lemmas: replacing *)

Lemma replace_go_skip needle rep k (s : string) :
  replace_go needle rep k s = replace_go needle rep O (sdrop k s).
Proof. revert k. induction s as [|c s IH]; intros [|k]; simpl; done. Qed.

(** A text without a newline that is a prefix of [a ++ nl ++ b] is a prefix of [a]. *)
Lemma startswith_before_nl (p a b : string) :
  no_char LF p = true → startswith (a +:+ nl +:+ b) p = true → startswith a p = true.
Proof.
  revert a. induction p as [|c p IH]; intros a Hp H; [apply startswith_nil_r|].
  rewrite no_char_cons in Hp. apply andb_true_iff in Hp as [Hc Hp].
  destruct a as [|d a].
  - rewrite app_nil_str in H. unfold nl in H. rewrite app_cons_str, startswith_cons in H.
    apply andb_true_iff in H as [H _]. rewrite Ascii.eqb_sym in Hc.
    by rewrite H in Hc.
  - rewrite app_cons_str, startswith_cons in H. apply andb_true_iff in H as [H1 H2].
    rewrite startswith_cons, H1. simpl. by apply IH.
Qed.

(** Replacing a needle that has no newline works line by line. *)
Lemma replace_go_nl needle rep (a b : string) :
  needle ≠ "" → no_char LF needle = true →
  replace_go needle rep O (a +:+ nl +:+ b) =
  replace_go needle rep O (a +:+ nl) +:+ replace_go needle rep O b.
Proof.
  intros Hne Hnl. remember (String.length a) as n eqn:Hn.
  revert a Hn. induction n as [n IH] using lt_wf_ind. intros a ->.
  destruct needle as [|d needle]; [done|]. destruct a as [|c a].
  - rewrite !app_nil_str. unfold nl. rewrite !app_cons_str, app_nil_str. cbn [replace_go].
    rewrite !startswith_cons. rewrite no_char_cons in Hnl.
    apply andb_true_iff in Hnl as [H _]. rewrite Ascii.eqb_sym in H.
    apply negb_true_iff in H. rewrite H. simpl. by rewrite app_cons_str.
  - rewrite !app_cons_str. cbn [replace_go].
    assert (Hst : startswith (String c (a +:+ nl +:+ b)) (String d needle) =
                  startswith (String c (a +:+ nl)) (String d needle)).
    { apply eq_true_iff_eq. rewrite <- !app_cons_str.
      split; intros H.
      - apply startswith_before_nl in H; [|done].
        apply startswith_iff in H as [t ->]. rewrite app_str_assoc. apply startswith_app.
      - rewrite <- (app_str_nil (String c a +:+ nl)), app_str_assoc in H.
        apply startswith_before_nl in H; [|done].
        apply startswith_iff in H as [t ->]. rewrite app_str_assoc. apply startswith_app. }
    rewrite Hst. destruct (startswith (String c (a +:+ nl)) (String d needle)) eqn:E.
    + rewrite <- app_cons_str in Hst. apply startswith_before_nl in Hst; [|done].
      apply startswith_inv in Hst as E'. rewrite app_str_assoc. f_equal.
      rewrite !(replace_go_skip _ _ (pred _)).
      assert (Ha : ∃ a', a = needle +:+ a').
      { rewrite app_cons_str in E'. injection E' as _ E'. eauto. }
      destruct Ha as [a' ->]. cbn [String.length pred].
      rewrite !app_str_assoc, !sdrop_app. apply (IH (String.length a')); [|done].
      simpl. rewrite length_app_str. lia.
    + rewrite app_cons_str. f_equal. apply (IH (String.length a)); [simpl; lia|done].
Qed.

(** Replacing in every line of a file is replacing in the whole file. *)
Lemma replace_file_lines needle rep (s : string) :
  needle ≠ "" → no_char LF needle = true →
  sconcat (map (fun line => replace line needle rep) (file_lines s)) = replace s needle rep.
Proof.
  intros Hne Hnl. destruct needle as [|d needle]; [done|]. unfold replace.
  remember (String.length s) as n eqn:Hn.
  revert s Hn. induction n as [n IH] using lt_wf_ind. intros s ->.
  destruct (nl_cases s) as [Hs|(b & r & Hb & ->)].
  - destruct (decide (s = "")) as [->|Hs0]; [done|].
    rewrite file_lines_no_nl by done. cbn [map]. rewrite sconcat_cons. by rewrite app_str_nil.
  - rewrite file_lines_app_nl by done. cbn [map]. rewrite sconcat_cons, replace_go_nl by done.
    f_equal. apply (IH (String.length r)); [|done]. rewrite !length_app_str. simpl. lia.
Qed.

(** * Lemmas: splitting, joining, stripping *)

Definition sep_of (c : ascii) : string := String c "".

Lemma split_cons_ne (c d : ascii) (s : string) :
  Ascii.eqb c d = false →
  split (String d s) (sep_of c) =
  match split s (sep_of c) with h :: t => String d h :: t | [] => [String d ""] end.
Proof. intros H. unfold split, sep_of. simpl. by rewrite startswith_cons, H. Qed.

Lemma split_cons_eq (c : ascii) (s : string) :
  split (String c s) (sep_of c) = "" :: split s (sep_of c).
Proof.
  unfold split, sep_of. simpl. by rewrite startswith_cons, Ascii.eqb_refl, startswith_nil_r.
Qed.

Lemma split_nonnil (c : ascii) (s : string) : split s (sep_of c) ≠ [].
Proof.
  destruct s as [|d s]; [done|]. destruct (Ascii.eqb c d) eqn:E.
  - apply Ascii.eqb_eq in E as <-. by rewrite split_cons_eq.
  - rewrite split_cons_ne by done. by destruct (split s (sep_of c)).
Qed.

Lemma split_no_sep (c : ascii) (s : string) : no_char c s = true → split s (sep_of c) = [s].
Proof.
  induction s as [|d s IH]; [done|]. rewrite no_char_cons. intros [H1 H2]%andb_true_iff.
  apply negb_true_iff in H1. rewrite split_cons_ne by done. by rewrite IH.
Qed.

Lemma split_app_sep (c : ascii) (a s : string) :
  no_char c a = true → split (a +:+ sep_of c +:+ s) (sep_of c) = a :: split s (sep_of c).
Proof.
  induction a as [|d a IH]; intros H; [apply split_cons_eq|].
  rewrite no_char_cons in H. apply andb_true_iff in H as [H1 H2].
  apply negb_true_iff in H1. rewrite !app_cons_str, split_cons_ne by done. by rewrite IH.
Qed.

Lemma join_cons (sep x : string) (l : list string) :
  l ≠ [] → join sep (x :: l) = x +:+ sep +:+ join sep l.
Proof. by destruct l. Qed.

(** Splitting at the separator undoes joining with it. *)
Lemma split_app (c : ascii) (s t : string) :
  split (s +:+ sep_of c +:+ t) (sep_of c) = split s (sep_of c) ++ split t (sep_of c).
Proof.
  induction s as [|d s IH]; [apply split_cons_eq|]. rewrite app_cons_str.
  destruct (Ascii.eqb c d) eqn:E.
  - apply Ascii.eqb_eq in E as <-. by rewrite !split_cons_eq, IH.
  - rewrite !split_cons_ne, IH by done. pose proof (split_nonnil c s).
    by destruct (split s (sep_of c)).
Qed.

Lemma split_join (c : ascii) (l : list string) :
  l ≠ [] → Forall (fun x => no_char c x = true) l → split (join (sep_of c) l) (sep_of c) = l.
Proof.
  induction l as [|x l IH]; intros Hne Hl; [done|]. inversion Hl as [|? ? Hx Hl']; subst.
  destruct l as [|y l]; [by apply split_no_sep|].
  rewrite join_cons, split_app_sep by done. by rewrite IH.
Qed.

(** Joining undoes splitting. *)
Lemma join_split (c : ascii) (s : string) : join (sep_of c) (split s (sep_of c)) = s.
Proof.
  induction s as [|d s IH]; [done|]. destruct (Ascii.eqb c d) eqn:E.
  - apply Ascii.eqb_eq in E as <-. rewrite split_cons_eq, join_cons by apply split_nonnil.
    by rewrite IH.
  - rewrite split_cons_ne by done. destruct (split s (sep_of c)) as [|h t] eqn:Es.
    + by apply split_nonnil in Es.
    + destruct t as [|y t]; [by rewrite <- IH|].
      rewrite join_cons in IH |- * by done. by rewrite app_cons_str, IH.
Qed.

Lemma split1_first (a t : string) c :
  no_char c a = true → split1 (a +:+ String c t) (String c "") = [a; t].
Proof.
  intros Ha. unfold split1.
  assert (Hf : find_opt (String c "") (a +:+ String c t) = Some (String.length a)).
  { induction a as [|d a IH].
    - rewrite app_nil_str. simpl. by rewrite startswith_cons, Ascii.eqb_refl, startswith_nil_r.
    - rewrite no_char_cons in Ha. apply andb_true_iff in Ha as [Hd%negb_true_iff Ha].
      rewrite app_cons_str. simpl. rewrite startswith_cons, Hd. simpl. by rewrite IH. }
  rewrite Hf. rewrite stake_app.
  replace (String.length a + String.length (String c ""))%nat with (String.length a + 1)%nat by done.
  rewrite sdrop_add_app. done.
Qed.

Lemma split_pieces_no_sep (c : ascii) (s : string) :
  Forall (fun x => no_char c x = true) (split s (sep_of c)).
Proof.
  induction s as [|d s IH]; [by repeat constructor|]. destruct (Ascii.eqb c d) eqn:E.
  - apply Ascii.eqb_eq in E as <-. rewrite split_cons_eq. by constructor.
  - rewrite split_cons_ne by done. destruct (split s (sep_of c)) as [|h t].
    + repeat constructor. by rewrite no_char_cons, E.
    + inversion IH; subst. constructor; [|done]. by rewrite no_char_cons, E.
Qed.

Lemma rstrip_pred_id p (s : string) :
  str_forall (fun c => negb (p c)) s = true → rstrip_pred p s = s.
Proof.
  induction s as [|c s IH]; [done|]. simpl. intros [Hc Hs]%andb_true_iff.
  apply negb_true_iff in Hc. rewrite IH by done. rewrite Hc. by destruct s.
Qed.

Lemma strip_pred_id p (s : string) :
  str_forall (fun c => negb (p c)) s = true → strip_pred p s = s.
Proof.
  intros H. unfold strip_pred. rewrite rstrip_pred_id by done.
  destruct s as [|c s]; [done|]. simpl in *. apply andb_true_iff in H as [Hc _].
  apply negb_true_iff in Hc. by rewrite Hc.
Qed.

(** Stripping is idempotent. *)
Lemma rstrip_pred_idemp p (s : string) : rstrip_pred p (rstrip_pred p s) = rstrip_pred p s.
Proof.
  induction s as [|c s IH]; [done|]. simpl. destruct (rstrip_pred p s) as [|d t] eqn:E.
  - destruct (p c) eqn:Hc; [done|]. simpl. by rewrite Hc.
  - change (rstrip_pred p (String c (String d t))) with
      (match rstrip_pred p (String d t) with
       | "" => if p c then "" else String c "" | u => String c u end).
    by rewrite IH.
Qed.

(** What stands after a part that has no blanks is stripped on its own. *)
Lemma rstrip_pred_app p (x s t : string) :
  str_forall (fun c => negb (p c)) s = true → s ≠ "" → rstrip_pred p (x +:+ s +:+ t) = x +:+ s +:+ rstrip_pred p t.
Proof.
  intros Hs Hne. assert (H : rstrip_pred p (s +:+ t) = s +:+ rstrip_pred p t).
  { clear x. induction s as [|c s IH]; [done|]. simpl in Hs. apply andb_true_iff in Hs as [Hc%negb_true_iff Hs].
    rewrite !app_cons_str. cbn [rstrip_pred]. destruct (decide (s = "")) as [->|Hn].
    - rewrite !app_nil_str. destruct (rstrip_pred p t); [by rewrite Hc|done].
    - rewrite IH by done. by destruct s. }
  induction x as [|c x IH]; [by rewrite !app_nil_str|]. rewrite !app_cons_str. cbn [rstrip_pred]. rewrite IH.
  destruct x; [|done]. rewrite !app_nil_str. by destruct s.
Qed.

Lemma lstrip_pred_app p (x s t : string) :
  str_forall p x = true → str_forall (fun c => negb (p c)) s = true → s ≠ "" →
  lstrip_pred p (x +:+ s +:+ t) = s +:+ t.
Proof.
  intros Hx Hs Hne. induction x as [|c x IH].
  - rewrite app_nil_str. destruct s as [|c s]; [done|]. simpl in Hs. apply andb_true_iff in Hs as [Hc%negb_true_iff _].
    rewrite app_cons_str. simpl. by rewrite Hc.
  - simpl in Hx. apply andb_true_iff in Hx as [Hc Hx]. rewrite app_cons_str. simpl. rewrite Hc. by apply IH.
Qed.

(** * Lemmas: integers *)

Lemma isdigit_char_not_space c : isdigit_char c = true → isspace c = false.
Proof.
  unfold isdigit_char, isspace. generalize (code c). intros n H.
  apply andb_true_iff in H as [H1%N.leb_le H2%N.leb_le].
  repeat match goal with |- context [(?a <=? ?b)%N] => destruct (N.leb_spec a b); try lia
         | |- context [(?a =? ?b)%N] => destruct (N.eqb_spec a b); try lia end; done.
Qed.

Lemma isdigit_char_not c d : isdigit_char c = true → isdigit_char d = false → Ascii.eqb c d = false.
Proof. intros H1 H2. apply Ascii.eqb_neq. intros ->. congruence. Qed.

Lemma string_of_uint_digits d : str_forall isdigit_char (NilEmpty.string_of_uint d) = true.
Proof. induction d; simpl; done. Qed.

Lemma str_N_digits n : str_forall isdigit_char (str_N n) = true.
Proof. apply string_of_uint_digits. Qed.

Lemma str_N_nonempty n : str_N n ≠ "".
Proof.
  unfold str_N. intros H. destruct (N.to_uint n) eqn:E; try done.
  pose proof (Unsigned.of_to n) as Hn. rewrite E in Hn. simpl in Hn. subst n. done.
Qed.

Lemma isdigit_str_N n : isdigit (str_N n) = true.
Proof.
  unfold isdigit, nonempty. rewrite str_N_digits.
  by rewrite (proj2 (String.eqb_neq _ _) (str_N_nonempty n)).
Qed.

Lemma int_digits_of_digits (s : string) b :
  s ≠ "" ∨ b = true → str_forall isdigit_char s = true → int_digits b s = Some s.
Proof.
  revert b. induction s as [|c s IH]; intros b Hb H; simpl in *.
  - destruct Hb as [?| ->]; done.
  - apply andb_true_iff in H as [Hc Hs]. rewrite (isdigit_char_not c "_") by done.
    rewrite Hc. by rewrite IH by auto.
Qed.

Lemma digits_value_str_N n : digits_value (str_N n) = Some (Z.of_N n).
Proof.
  unfold digits_value, str_N. rewrite NilEmpty.usu. simpl. by rewrite Unsigned.of_to.
Qed.

Lemma digits_not_space (s : string) :
  str_forall isdigit_char s = true → str_forall (fun c => negb (isspace c)) s = true.
Proof. apply str_forall_impl. intros c H. by rewrite isdigit_char_not_space. Qed.

(** Reading back a printed natural number, and a printed integer. *)
Lemma py_int_str_N n : py_int (str_N n) = Some (Z.of_N n).
Proof.
  unfold py_int, strip. rewrite strip_pred_id by apply digits_not_space, str_N_digits.
  pose proof (str_N_digits n) as Hd. destruct (str_N n) as [|c s] eqn:E.
  - by apply str_N_nonempty in E.
  - simpl in Hd. apply andb_true_iff in Hd as [Hc Hs].
    rewrite !(isdigit_char_not c) by done.
    rewrite int_digits_of_digits; [|by left|simpl; by rewrite Hc, Hs].
    rewrite <- E. apply digits_value_str_N.
Qed.

Lemma py_int_str_Z z : py_int (str_Z z) = Some z.
Proof.
  unfold str_Z. destruct (Z.ltb_spec z 0) as [Hz|Hz].
  - unfold py_int, strip. rewrite strip_pred_id.
    + rewrite Ascii.eqb_refl. rewrite int_digits_of_digits.
      * simpl. rewrite digits_value_str_N. simpl. f_equal. lia.
      * left. apply str_N_nonempty.
      * apply str_N_digits.
    + simpl. by rewrite digits_not_space by apply str_N_digits.
  - rewrite py_int_str_N. f_equal. lia.
Qed.

Lemma py_int_str_nat n : py_int (str_nat n) = Some (Z.of_nat n).
Proof. unfold str_nat. rewrite py_int_str_N. f_equal. lia. Qed.

Lemma str_Z_inj z1 z2 : str_Z z1 = str_Z z2 → z1 = z2.
Proof. intros H. pose proof (py_int_str_Z z1) as H1. rewrite H, py_int_str_Z in H1. congruence. Qed.

Lemma isdigit_char_not_space2 c : isdigit_char c = true → isspace2 c = false.
Proof.
  unfold isdigit_char, isspace2. generalize (code c). intros n H.
  apply andb_true_iff in H as [H1%N.leb_le H2%N.leb_le].
  repeat match goal with |- context [(?a <=? ?b)%N] => destruct (N.leb_spec a b); try lia
                       | |- context [(?a =? ?b)%N] => destruct (N.eqb_spec a b); try lia end; done.
Qed.

Lemma digits_no_char c (s : string) :
  isdigit_char c = false → str_forall isdigit_char s = true → no_char c s = true.
Proof.
  intros Hc. induction s as [|d s IH]; [done|]. simpl. intros [Hd Hs]%andb_true_iff.
  rewrite no_char_cons, IH by done. rewrite Ascii.eqb_sym. by rewrite (isdigit_char_not d c).
Qed.

(** The text of a number that is not negative. *)
Lemma str_Z_digits z : 0 ≤ z → str_forall isdigit_char (str_Z z) = true.
Proof. intros Hz. unfold str_Z. destruct (Z.ltb_spec z 0); [lia|]. apply str_N_digits. Qed.

Lemma isdigit_str_Z z : 0 ≤ z → isdigit (str_Z z) = true.
Proof. intros Hz. unfold str_Z. destruct (Z.ltb_spec z 0); [lia|]. apply isdigit_str_N. Qed.

Lemma py_int2_str_Z z : 0 ≤ z → py_int2 (str_Z z) = Some z.
Proof.
  intros Hz. unfold py_int2, strip2. rewrite strip_pred_id.
  2:{ eapply str_forall_impl; [|by apply str_Z_digits]. intros c Hc.
      by rewrite isdigit_char_not_space2. }
  pose proof (isdigit_str_Z z Hz) as Hi. pose proof (str_Z_digits z Hz) as Hd.
  unfold str_Z in *. destruct (Z.ltb_spec z 0); [lia|]. destruct (str_N (Z.to_N z)) as [|c s] eqn:E.
  - by apply str_N_nonempty in E.
  - simpl in Hd. apply andb_true_iff in Hd as [Hc _].
    rewrite !(isdigit_char_not c) by done. rewrite Hi, <- E, digits_value_str_N. f_equal. lia.
Qed.

(** * Lemmas: decimal texts and their order *)

Definition digit_val (c : ascii) : N := (code c - 48)%N.

(** The value of a text of digits. *)
Fixpoint dval (s : string) : N :=
  match s with
  | EmptyString => 0
  | String c s' => digit_val c * 10 ^ N.of_nat (String.length s') + dval s'
  end%N.

Lemma of_uint_acc_val d acc :
  N.pos (Pos.of_uint_acc d acc) = (N.pos acc * 10 ^ DecimalPos.Unsigned.usize d + N.of_uint d)%N.
Proof.
  rewrite DecimalPos.Unsigned.of_uint_acc_rev. unfold N.of_uint.
  rewrite DecimalPos.Unsigned.of_uint_alt. lia.
Qed.

Lemma uint_of_string_digit c s d :
  isdigit_char c = true → NilEmpty.uint_of_string s = Some d →
  DecimalPos.Unsigned.usize d = N.of_nat (String.length s) →
  ∃ d', NilEmpty.uint_of_string (String c s) = Some d' ∧
    DecimalPos.Unsigned.usize d' = N.of_nat (String.length (String c s)) ∧
    N.of_uint d' = (digit_val c * 10 ^ N.of_nat (String.length s) + N.of_uint d)%N.
Proof.
  intros Hc Hs Hd. destruct c as [[] [] [] [] [] [] [] []]; vm_compute in Hc; try done;
    simpl NilEmpty.uint_of_string; rewrite Hs; eexists; (split; [reflexivity|]);
    (split; [simpl DecimalPos.Unsigned.usize; rewrite Hd; simpl String.length; lia|]);
    rewrite <- Hd; unfold N.of_uint; simpl Pos.of_uint;
    rewrite ?of_uint_acc_val; unfold N.of_uint; vm_compute digit_val; lia.
Qed.

Lemma digits_value_dval (s : string) :
  str_forall isdigit_char s = true → digits_value s = Some (Z.of_N (dval s)).
Proof.
  intros Hs. assert (H : ∃ d, NilEmpty.uint_of_string s = Some d ∧
    DecimalPos.Unsigned.usize d = N.of_nat (String.length s) ∧ N.of_uint d = dval s).
  { induction s as [|c s IH]; [by exists Decimal.Nil|]. simpl in Hs.
    apply andb_true_iff in Hs as [Hc Hs]. destruct (IH Hs) as (d & H1 & H2 & H3).
    destruct (uint_of_string_digit c s d Hc H1 H2) as (d' & H4 & H5 & H6).
    exists d'. split; [done|]. split; [done|]. rewrite H6, H3. done. }
  destruct H as (d & H1 & _ & H3). unfold digits_value. rewrite H1. simpl. by rewrite H3.
Qed.

Lemma digit_val_lt c : isdigit_char c = true → (digit_val c < 10)%N.
Proof.
  unfold isdigit_char, digit_val. intros [H1%N.leb_le H2%N.leb_le]%andb_true_iff. lia.
Qed.

Lemma dval_lt (s : string) :
  str_forall isdigit_char s = true → (dval s < 10 ^ N.of_nat (String.length s))%N.
Proof.
  induction s as [|c s IH]; [done|]. simpl str_forall.
  intros [Hc%digit_val_lt Hs]%andb_true_iff. specialize (IH Hs). simpl dval.
  change (String.length (String c s)) with (S (String.length s)).
  rewrite Nat2N.inj_succ, N.pow_succ_r'. nia.
Qed.

Lemma N_compare_add k a b : (k + a ?= k + b)%N = (a ?= b)%N.
Proof.
  destruct (N.compare_spec a b) as [->|H|H]; [apply N.compare_refl|..];
    [apply N.compare_lt_iff|apply N.compare_gt_iff]; lia.
Qed.

(** Texts of digits of the same length are in the order of their values. *)
Lemma digits_compare (s t : string) :
  str_forall isdigit_char s = true → str_forall isdigit_char t = true →
  String.length s = String.length t → String.compare s t = (dval s ?= dval t)%N.
Proof.
  revert t. induction s as [|c s IH]; intros [|d t] Hs Ht Hl; try done. simpl in Hs, Ht, Hl.
  apply andb_true_iff in Hs as [Hc Hs]. apply andb_true_iff in Ht as [Hd Ht]. injection Hl as Hl.
  pose proof (dval_lt s Hs) as Bs. pose proof (dval_lt t Ht) as Bt. rewrite <- Hl in Bt.
  simpl. rewrite <- Hl. unfold Ascii.compare.
  assert (Hcode : ∀ x, isdigit_char x = true → (N_of_ascii x = 48 + digit_val x)%N).
  { unfold isdigit_char, digit_val, code. intros x [H1%N.leb_le _]%andb_true_iff. lia. }
  rewrite (Hcode c Hc), (Hcode d Hd). rewrite N_compare_add.
  set (P := (10 ^ N.of_nat (String.length s))%N) in *.
  destruct (N.compare_spec (digit_val c) (digit_val d)) as [E|L|G].
  - rewrite E, N_compare_add. by apply IH.
  - symmetry. apply N.compare_lt_iff. nia.
  - symmetry. apply N.compare_gt_iff. nia.
Qed.

Lemma dval_str_N n : dval (str_N n) = n.
Proof.
  pose proof (digits_value_str_N n) as H. rewrite digits_value_dval in H by apply str_N_digits.
  injection H as H. lia.
Qed.

(** No leading zeros. *)
Lemma to_uint_head n d : N.to_uint n = Decimal.D0 d → d = Decimal.Nil.
Proof.
  intros H. pose proof (DecimalN.Unsigned.to_of (N.to_uint n)) as H1.
  rewrite DecimalN.Unsigned.of_to, H in H1. unfold Decimal.unorm in H1. simpl in H1.
  pose proof (DecimalFacts.nb_digits_nzhead d) as Hle.
  destruct (Decimal.nzhead d) as [|x|x|x|x|x|x|x|x|x|x] eqn:E; [by injection H1|..];
    rewrite <- H1 in Hle; simpl in Hle; lia.
Qed.

Lemma length_str_N n k : (n < 10 ^ N.of_nat k)%N → (0 < k)%nat → (String.length (str_N n) ≤ k)%nat.
Proof.
  intros Hn Hk. destruct (le_lt_dec (String.length (str_N n)) k) as [|Hlt]; [done|]. exfalso.
  pose proof (dval_str_N n) as Hv. pose proof (str_N_digits n) as Hd.
  destruct (str_N n) as [|c s] eqn:E; [simpl in Hlt; lia|]. simpl in Hd, Hlt.
  apply andb_true_iff in Hd as [Hc Hs]. simpl dval in Hv.
  assert (Hpos : (1 ≤ digit_val c)%N).
  { destruct (N.eq_dec (digit_val c) 0) as [E0|]; [|lia]. exfalso.
    unfold str_N in E. destruct (N.to_uint n) as [|x|x|x|x|x|x|x|x|x|x] eqn:Eu; try done;
      injection E as <- <-; try done.
    apply to_uint_head in Eu as ->. simpl in Hlt. lia. }
  assert (Hp : (10 ^ N.of_nat k ≤ 10 ^ N.of_nat (String.length s))%N) by (apply N.pow_le_mono_r; lia).
  nia.
Qed.

(** Padding with zeros. *)
Lemma length_repeat_char c n : String.length (repeat_char c n) = n.
Proof. induction n as [|n IH]; simpl; [done|]. by rewrite IH. Qed.

Lemma zeros_digits n s :
  str_forall isdigit_char s = true → str_forall isdigit_char (repeat_char "0" n +:+ s) = true.
Proof.
  intros Hs. induction n as [|n IH]; [done|].
  change (repeat_char "0" (S n) +:+ s) with (String "0" (repeat_char "0" n +:+ s)). exact IH.
Qed.

Lemma dval_zeros n s : dval (repeat_char "0" n +:+ s) = dval s.
Proof.
  induction n as [|n IH]; [done|].
  change (repeat_char "0" (S n) +:+ s) with (String "0" (repeat_char "0" n +:+ s)). exact IH.
Qed.

Lemma fmt_0d_digits w z :
  0 ≤ z → str_forall isdigit_char (fmt_0d w z) = true ∧ dval (fmt_0d w z) = Z.to_N z.
Proof.
  intros Hz. unfold fmt_0d. destruct (Z.ltb_spec z 0); [lia|].
  rewrite zeros_digits, dval_zeros, dval_str_N by apply str_N_digits. done.
Qed.

Lemma length_fmt_0d w z :
  0 ≤ z < 10 ^ Z.of_nat w → (0 < w)%nat → String.length (fmt_0d w z) = w.
Proof.
  intros Hz Hw. unfold fmt_0d. destruct (Z.ltb_spec z 0); [lia|].
  assert (Hl : (String.length (str_N (Z.to_N z)) ≤ w)%nat) by (apply length_str_N; [lia|done]).
  rewrite length_app_str, length_repeat_char. lia.
Qed.

(** Padded numbers sort like numbers. *)
Lemma fmt_0d_compare w a b :
  0 ≤ a < 10 ^ Z.of_nat w → 0 ≤ b < 10 ^ Z.of_nat w → (0 < w)%nat →
  String.compare (fmt_0d w a) (fmt_0d w b) = (a ?= b).
Proof.
  intros Ha Hb Hw. destruct (fmt_0d_digits w a) as [H1 H2]; [lia|].
  destruct (fmt_0d_digits w b) as [H3 H4]; [lia|].
  rewrite digits_compare, H2, H4; [|done|done|by rewrite !length_fmt_0d].
  destruct (Z.compare_spec a b); [apply N.compare_eq_iff|apply N.compare_lt_iff|apply N.compare_gt_iff]; lia.
Qed.

Lemma py_int_digits s :
  s ≠ "" → str_forall isdigit_char s = true → py_int s = Some (Z.of_N (dval s)).
Proof.
  intros Hne Hd. unfold py_int, strip. rewrite strip_pred_id by by apply digits_not_space.
  destruct s as [|c s]; [done|]. pose proof Hd as Hd'. simpl in Hd'.
  apply andb_true_iff in Hd' as [Hc Hs]. rewrite !(isdigit_char_not c) by done.
  rewrite int_digits_of_digits; [|by left|done]. by apply digits_value_dval.
Qed.

Lemma py_int_fmt_0d w z : py_int (fmt_0d w z) = Some z.
Proof.
  unfold fmt_0d. destruct (Z.ltb_spec z 0) as [Hz|Hz].
  - set (ds := repeat_char "0" _ +:+ _).
    assert (Hd : str_forall isdigit_char ds = true) by apply zeros_digits, str_N_digits.
    unfold py_int, strip. rewrite strip_pred_id by (simpl; by rewrite digits_not_space by done).
    rewrite Ascii.eqb_refl. rewrite int_digits_of_digits; [|left|done].
    + simpl. rewrite digits_value_dval by done. simpl. unfold ds. rewrite dval_zeros, dval_str_N.
      f_equal. lia.
    + unfold ds. intros E%app_str_eq_nil. by apply (str_N_nonempty (Z.to_N (- z))), E.
  - rewrite py_int_digits.
    + rewrite dval_zeros, dval_str_N. f_equal. lia.
    + intros E%app_str_eq_nil. by apply (str_N_nonempty (Z.to_N z)), E.
    + apply zeros_digits, str_N_digits.
Qed.

(** * Lemmas: words *)

(** A word: not empty, no blanks. *)
Definition is_word (s : string) : bool := nonempty s && str_forall (fun c => negb (isspace c)) s.

Lemma split_pred_nonnil p (s : string) : split_pred p s ≠ [].
Proof. destruct s as [|c s]; simpl; [done|]. destruct (p c); [done|]. by destruct (split_pred p s). Qed.

Lemma split_pred_none p (s : string) :
  str_forall (fun c => negb (p c)) s = true → split_pred p s = [s].
Proof.
  induction s as [|c s IH]; [done|]. simpl. intros [Hc%negb_true_iff Hs]%andb_true_iff.
  by rewrite Hc, IH.
Qed.

Lemma split_pred_app p (s t : string) c :
  str_forall (fun c => negb (p c)) s = true → p c = true →
  split_pred p (s +:+ String c t) = s :: split_pred p t.
Proof.
  intros Hs Hc. induction s as [|d s IH]; [rewrite app_nil_str; simpl; by rewrite Hc|].
  simpl in Hs. apply andb_true_iff in Hs as [Hd%negb_true_iff Hs].
  rewrite app_cons_str. simpl. by rewrite Hd, IH.
Qed.

Lemma words_single w : is_word w = true → words w = [w].
Proof.
  intros [Hn Hs]%andb_true_iff. unfold words. rewrite split_pred_none by done. simpl. by rewrite Hn.
Qed.

Lemma words_app w t c :
  is_word w = true → isspace c = true → words (w +:+ String c t) = w :: words t.
Proof.
  intros [Hn Hs]%andb_true_iff Hc. unfold words. rewrite split_pred_app by done. simpl. by rewrite Hn.
Qed.

Lemma words_join ws : Forall (fun w => is_word w = true) ws → words (join " " ws) = ws.
Proof.
  induction 1 as [|w ws Hw Hws IH]; [done|]. destruct ws as [|w' ws].
  - by apply words_single.
  - rewrite join_cons by done. change (" " +:+ ?t) with (String " " t).
    rewrite words_app by done. by rewrite IH.
Qed.

Lemma split_pred_blank p (t : string) :
  str_forall p t = true → split_pred p t = replicate (S (String.length t)) "".
Proof.
  induction t as [|c t IH]; [done|]. simpl. intros [Hc Ht]%andb_true_iff. by rewrite Hc, IH.
Qed.

Lemma split_pred_app_blank p (s t : string) :
  str_forall p t = true → split_pred p (s +:+ t) = split_pred p s ++ replicate (String.length t) "".
Proof.
  intros Ht. induction s as [|c s IH].
  - rewrite app_nil_str. by rewrite split_pred_blank.
  - rewrite app_cons_str. simpl. rewrite IH. destruct (p c); [done|].
    destruct (split_pred p s) as [|h l] eqn:E; [by destruct (split_pred_nonnil p s)|done].
Qed.

Lemma words_app_blank (s t : string) : str_forall isspace t = true → words (s +:+ t) = words s.
Proof.
  intros Ht. unfold words. rewrite split_pred_app_blank by done.
  rewrite List.filter_app. rewrite <- (app_nil_r (List.filter nonempty (split_pred isspace s))) at 2.
  f_equal. induction (String.length t) as [|n IH]; [done|]. apply IH.
Qed.

Lemma rstrip_pred_rest p (s : string) : ∃ t, s = rstrip_pred p s +:+ t ∧ str_forall p t = true.
Proof.
  induction s as [|c s (t & Hs & Ht)]; [by exists ""|]. simpl.
  destruct (rstrip_pred p s) as [|d u].
  - rewrite app_nil_str in Hs. subst t. destruct (p c) eqn:Hc.
    + exists (String c s). split; [done|]. simpl. by rewrite Hc, Ht.
    + exists s. by split.
  - exists t. split; [|done]. rewrite Hs at 1. by rewrite !app_cons_str.
Qed.

Lemma words_lstrip (s : string) : words (lstrip_pred isspace s) = words s.
Proof.
  induction s as [|c s IH]; [done|]. simpl. destruct (isspace c) eqn:Hc; [|done].
  rewrite IH. unfold words. simpl. by rewrite Hc.
Qed.

(** Blanks around a text do not change its words. *)
Lemma words_strip (s : string) : words (strip s) = words s.
Proof.
  unfold strip, strip_pred. rewrite words_lstrip.
  destruct (rstrip_pred_rest isspace s) as (t & Hs & Ht). rewrite Hs at 2. by rewrite words_app_blank.
Qed.

Lemma no_char_word c (s : string) : isspace c = true → is_word s = true → no_char c s = true.
Proof.
  intros Hc [_ Hs]%andb_true_iff. induction s as [|d s IH]; [done|]. simpl in Hs.
  apply andb_true_iff in Hs as [Hd%negb_true_iff Hs]. rewrite no_char_cons, (IH Hs), andb_true_r.
  apply negb_true_iff, Ascii.eqb_neq. intros <-. congruence.
Qed.

Lemma no_char_words c ws :
  isspace c = true → c ≠ " "%char → Forall (fun w => is_word w = true) ws → no_char c (join " " ws) = true.
Proof.
  intros Hc Hne. induction 1 as [|w ws Hw Hws IH]; [done|]. destruct ws as [|w' ws].
  - by apply no_char_word.
  - rewrite join_cons by done. rewrite !no_char_app, IH, no_char_word by done. simpl.
    rewrite no_char_cons. simpl. by rewrite (proj2 (Ascii.eqb_neq _ _) Hne).
Qed.

Lemma universal_newlines_id (s : string) : no_char CR s = true → universal_newlines s = s.
Proof.
  induction s as [|c s IH]; [done|]. rewrite no_char_cons. intros [Hc%negb_true_iff Hs]%andb_true_iff.
  simpl. rewrite Ascii.eqb_sym in Hc. rewrite Hc, (IH Hs). done.
Qed.

Lemma is_word_str_Z z : is_word (str_Z z) = true.
Proof.
  unfold is_word. apply andb_true_iff. split.
  - unfold nonempty. apply negb_true_iff, String.eqb_neq. intros E.
    pose proof (py_int_str_Z z) as H. by rewrite E in H.
  - unfold str_Z. destruct (z <? 0); simpl; apply digits_not_space, str_N_digits.
Qed.

(** What is before and after the first occurrence. *)
Lemma find_opt_parts (sub s : string) i :
  find_opt sub s = Some i →
  ∃ a b, s = a +:+ sub +:+ b ∧ slice_from s (Z.of_nat i + Z.of_nat (String.length sub)) = b.
Proof.
  intros [E Hi]%find_opt_Some. eexists _, _. split; [exact E|]. unfold slice_from. f_equal.
  unfold clip. destruct (Z.ltb_spec (Z.of_nat i + Z.of_nat (String.length sub)) 0); [lia|].
  pose proof (f_equal String.length E) as HL. rewrite !length_app_str, length_sdrop in HL.
  pose proof (f_equal String.length (stake_sdrop i s)) as HS. rewrite length_app_str, length_sdrop in HS.
  lia.
Qed.

Lemma str_Z_no_char c z : isdigit_char c = false → c ≠ "-"%char → no_char c (str_Z z) = true.
Proof.
  intros Hc Hm. assert (Hd : ∀ s, str_forall isdigit_char s = true → no_char c s = true).
  { induction s as [|d s IH]; [done|]. simpl. intros [H1 H2]%andb_true_iff.
    rewrite no_char_cons, (IH H2), andb_true_r. apply negb_true_iff, Ascii.eqb_neq. intros <-. congruence. }
  unfold str_Z. destruct (z <? 0).
  - rewrite no_char_cons, Hd by apply str_N_digits. by rewrite (proj2 (Ascii.eqb_neq _ _) Hm).
  - apply Hd, str_N_digits.
Qed.
