(* ===== verification/PyRe.v ===== *)
(** Python's [re] on the fragment the sources use: character classes, sequence,
    alternation, greedy and lazy repetition of a class, numbered groups and [^]
    under MULTILINE.  The matcher backtracks in the order of the [re] module; it
    is proved sound and complete for a relational reading of the expressions. *)

From S2P Require Import Prelude PyStr.

Inductive re :=
| REps
| RChar (p : ascii → bool)
| RSeq (a b : re)
| RAlt (a b : re)
| RStar (greedy : bool) (p : ascii → bool)
| RGroup (g : nat) (a : re)
| RBol.

(** A position: the character before it and the text after it. *)
Record pos := Pos { prev : option ascii; rest : string }.

(** The texts captured by the groups, latest first. *)
Abbreviation caps := (list (nat * string)).

Definition at_bol (x : pos) : bool :=
  match prev x with None => true | Some c => Ascii.eqb c LF end.

(** The text between a position and a later one. *)
Definition between (x y : pos) : string :=
  stake (String.length (rest x) - String.length (rest y)) (rest x).

Section Star.
Context (p : ascii → bool) (k : pos → option (pos * caps)).

Fixpoint star_greedy (pr : option ascii) (s : string) : option (pos * caps) :=
  match s with
  | EmptyString => k (Pos pr s)
  | String c s' =>
      if p c then
        match star_greedy (Some c) s' with
        | Some r => Some r
        | None => k (Pos pr s)
        end
      else k (Pos pr s)
  end.

Fixpoint star_lazy (pr : option ascii) (s : string) : option (pos * caps) :=
  match k (Pos pr s) with
  | Some r => Some r
  | None =>
      match s with
      | EmptyString => None
      | String c s' => if p c then star_lazy (Some c) s' else None
      end
  end.
End Star.

Fixpoint rmatch (r : re) (k : pos → caps → option (pos * caps)) (x : pos) (cs : caps) :
    option (pos * caps) :=
  match r with
  | REps => k x cs
  | RChar p =>
      match rest x with
      | String c s' => if p c then k (Pos (Some c) s') cs else None
      | EmptyString => None
      end
  | RSeq a b => rmatch a (fun y cs' => rmatch b k y cs') x cs
  | RAlt a b =>
      match rmatch a k x cs with
      | Some res => Some res
      | None => rmatch b k x cs
      end
  | RStar true p => star_greedy p (fun y => k y cs) (prev x) (rest x)
  | RStar false p => star_lazy p (fun y => k y cs) (prev x) (rest x)
  | RGroup g a => rmatch a (fun y cs' => k y ((g, between x y) :: cs')) x cs
  | RBol => if at_bol x then k x cs else None
  end.

Definition run (r : re) (x : pos) : option (pos * caps) :=
  rmatch r (fun y cs => Some (y, cs)) x [].

(** [pattern.match(s)] *)
Definition re_match (r : re) (s : string) : option caps :=
  snd <$> run r (Pos None s).

(** [m.group(g)]; an unmatched group is the empty text, as in [findall]. *)
Definition group (g : nat) (cs : caps) : string :=
  match List.find (fun gc => Nat.eqb (fst gc) g) cs with
  | Some (_, t) => t
  | None => ""
  end.

(** [pattern.findall(s)] as the list of captures, and the texts of the matches.
    The expressions below never match the empty text. *)
Fixpoint findall_go (r : re) (skip : nat) (pr : option ascii) (s : string) :
    list (string * caps) :=
  match s with
  | EmptyString => []
  | String c s' =>
      match skip with
      | S k => findall_go r k (Some c) s'
      | O =>
          match run r (Pos pr s) with
          | Some (y, cs) =>
              let t := between (Pos pr s) y in
              (t, cs) :: findall_go r (pred (String.length t)) (Some c) s'
          | None => findall_go r O (Some c) s'
          end
      end
  end.

Definition findall (r : re) (s : string) : list (string * caps) := findall_go r O None s.

(** [re.split(pattern, s)] for an expression without groups. *)
Fixpoint re_split_go (r : re) (skip : nat) (pr : option ascii) (s : string) : list string :=
  match s with
  | EmptyString => [""]
  | String c s' =>
      match skip with
      | S k => re_split_go r k (Some c) s'
      | O =>
          match run r (Pos pr s) with
          | Some (y, _) =>
              "" :: re_split_go r (pred (String.length (between (Pos pr s) y))) (Some c) s'
          | None =>
              match re_split_go r O (Some c) s' with
              | h :: t => String c h :: t
              | [] => [String c ""]
              end
          end
      end
  end.

Definition re_split (r : re) (s : string) : list string := re_split_go r O None s.

(** ** Building blocks *)

Definition is_char (c d : ascii) : bool := Ascii.eqb c d.

(** A literal text. *)
Fixpoint rlit (s : string) : re :=
  match s with
  | EmptyString => REps
  | String c s' => RSeq (RChar (is_char c)) (rlit s')
  end.

(** [x+] *)
Definition rplus (p : ascii → bool) : re := RSeq (RChar p) (RStar true p).

(** [.] *)
Definition dot (c : ascii) : bool := negb (Ascii.eqb c LF).

(** [\w] below 256 *)
Definition word_char (c : ascii) : bool :=
  let n := code c in
  ((48 <=? n) && (n <=? 57) || (65 <=? n) && (n <=? 90) || (n =? 95)
   || (97 <=? n) && (n <=? 122) || (n =? 170) || (178 <=? n) && (n <=? 179) || (n =? 181)
   || (185 <=? n) && (n <=? 186) || (188 <=? n) && (n <=? 190)
   || (192 <=? n) && (n <=? 214) || (216 <=? n) && (n <=? 246) || (248 <=? n))%N.

#[global] Arguments is_char : simpl never.
#[global] Arguments dot : simpl never.
#[global] Arguments word_char : simpl never.

(** * The relational reading *)

Inductive matches : re → pos → caps → pos → caps → Prop :=
| M_eps x cs : matches REps x cs x cs
| M_char (p : ascii → bool) pr c s cs :
    p c = true → matches (RChar p) (Pos pr (String c s)) cs (Pos (Some c) s) cs
| M_seq a b x cs y cs' z cs'' :
    matches a x cs y cs' → matches b y cs' z cs'' → matches (RSeq a b) x cs z cs''
| M_alt_l a b x cs y cs' : matches a x cs y cs' → matches (RAlt a b) x cs y cs'
| M_alt_r a b x cs y cs' : matches b x cs y cs' → matches (RAlt a b) x cs y cs'
| M_star_nil g p x cs : matches (RStar g p) x cs x cs
| M_star_cons g (p : ascii → bool) pr c s cs y :
    p c = true → matches (RStar g p) (Pos (Some c) s) cs y cs →
    matches (RStar g p) (Pos pr (String c s)) cs y cs
| M_group g a x cs y cs' :
    matches a x cs y cs' → matches (RGroup g a) x cs y ((g, between x y) :: cs')
| M_bol x cs : at_bol x = true → matches RBol x cs x cs.

#[export] Hint Constructors matches : pyfacts.

Lemma star_greedy_sound p k pr s res cs g :
  star_greedy p k pr s = Some res →
  ∃ y, matches (RStar g p) (Pos pr s) cs y cs ∧ k y = Some res.
Proof.
  revert pr. induction s as [|c s IH]; intros pr H; simpl in H; [eauto with pyfacts|].
  destruct (p c) eqn:Hc; [|eauto with pyfacts].
  destruct (star_greedy p k (Some c) s) as [r|] eqn:E; [|eauto with pyfacts].
  injection H as ->. destruct (IH _ E) as (y & H1 & H2). eauto with pyfacts.
Qed.

Lemma star_lazy_sound p k pr s res cs g :
  star_lazy p k pr s = Some res →
  ∃ y, matches (RStar g p) (Pos pr s) cs y cs ∧ k y = Some res.
Proof.
  revert pr. induction s as [|c s IH]; intros pr H; simpl in H.
  - destruct (k (Pos pr "")) as [r|] eqn:E; [|done]. injection H as ->. eauto with pyfacts.
  - destruct (k (Pos pr (String c s))) as [r|] eqn:E.
    { injection H as ->. eauto with pyfacts. }
    destruct (p c) eqn:Hc; [|done]. destruct (IH _ H) as (y & H1 & H2). eauto with pyfacts.
Qed.

(** The matcher only reports matches. *)
Lemma rmatch_sound r k x cs res :
  rmatch r k x cs = Some res →
  ∃ y cs', matches r x cs y cs' ∧ k y cs' = Some res.
Proof.
  revert k x cs. induction r as [|p|a IHa b IHb|a IHa b IHb|g p|g a IHa|];
    intros k x cs H; simpl in H.
  - eauto with pyfacts.
  - destruct x as [pr [|c s]]; simpl in H; [done|]. destruct (p c) eqn:Hc; [|done].
    eauto with pyfacts.
  - apply IHa in H as (y & cs' & H1 & H2). apply IHb in H2 as (z & cs'' & H3 & H4).
    eauto 6 with pyfacts.
  - destruct (rmatch a k x cs) as [r|] eqn:E.
    + injection H as ->. apply IHa in E as (y & cs' & H1 & H2). eauto with pyfacts.
    + apply IHb in H as (y & cs' & H1 & H2). eauto with pyfacts.
  - destruct x as [pr s], g; simpl in H.
    + eapply star_greedy_sound in H as (y & H1 & H2). eauto.
    + eapply star_lazy_sound in H as (y & H1 & H2). eauto.
  - apply IHa in H as (y & cs' & H1 & H2). eauto with pyfacts.
  - destruct (at_bol x) eqn:E; [|done]. eauto with pyfacts.
Qed.

Lemma star_complete g p (k : pos → caps → option (pos * caps)) x cs y :
  matches (RStar g p) x cs y cs → k y cs ≠ None → rmatch (RStar g p) k x cs ≠ None.
Proof.
  intros H. remember (RStar g p) as r eqn:Hr. remember cs as cs' eqn:Hcs in H at 2.
  revert Hr Hcs. induction H; intros Hr Hcs Hk; try done; injection Hr as -> ->.
  - destruct x as [pr s], g; simpl; destruct s as [|c s]; simpl; try done.
    + destruct (p c); [|done]. by destruct (star_greedy _ _ _ _).
    + by destruct (k _ _).
    + by destruct (k _ _).
  - specialize (IHmatches eq_refl eq_refl Hk). destruct g; simpl in IHmatches |- *; rewrite H.
    + by destruct (star_greedy _ _ _ _).
    + destruct (k (Pos pr (String c s)) cs); [done|]. apply IHmatches.
Qed.

(** It finds a match whenever one continues successfully. *)
Lemma rmatch_complete r k x cs y cs' :
  matches r x cs y cs' → k y cs' ≠ None → rmatch r k x cs ≠ None.
Proof.
  intros H. revert k. induction H; intros k Hk; simpl; auto.
  - by rewrite H.
  - specialize (IHmatches k Hk). by destruct (rmatch a k x cs).
  - specialize (IHmatches k Hk). by destruct (rmatch a k x cs).
  - apply (star_complete g p k x cs x); auto with pyfacts.
  - apply (star_complete g p k (Pos pr (String c s)) cs y); auto with pyfacts.
  - by rewrite H.
Qed.

Lemma run_sound r x y cs : run r x = Some (y, cs) → matches r x [] y cs.
Proof. intros H. apply rmatch_sound in H as (z & cs' & H1 & [= -> ->]). done. Qed.

Lemma run_complete r x y cs : matches r x [] y cs → is_Some (run r x).
Proof.
  intros H. apply not_eq_None_Some. by apply (rmatch_complete r _ x [] y cs).
Qed.

(** ** What a match consumes *)

(** The character before a position reached after reading [t]. *)
Fixpoint last_char (pr : option ascii) (t : string) : option ascii :=
  match t with EmptyString => pr | String c t' => last_char (Some c) t' end.

Lemma between_eq x y t : rest x = t +:+ rest y → between x y = t.
Proof.
  intros H. unfold between. rewrite H, length_app_str.
  replace (String.length t + String.length (rest y) - String.length (rest y))%nat
    with (String.length t) by lia.
  apply stake_app.
Qed.

Lemma matches_rest r x cs y cs' : matches r x cs y cs' → ∃ t, rest x = t +:+ rest y.
Proof.
  induction 1 as [| | ? ? ? ? ? ? ? ? ? [t1 IH1] ? [t2 IH2] | | | | ? ? ? ? ? ? ? ? ? [t IH] | |];
    try done; try by exists "".
  - by exists (String c "").
  - exists (t1 +:+ t2). by rewrite IH1, IH2, app_str_assoc.
  - exists (String c t). simpl in *. by rewrite IH.
Qed.

Lemma matches_between r x cs y cs' : matches r x cs y cs' → rest x = between x y +:+ rest y.
Proof. intros [t H]%matches_rest. by rewrite (between_eq _ _ _ H). Qed.

Lemma matches_lit t x cs y cs' :
  matches (rlit t) x cs y cs' → rest x = t +:+ rest y ∧ cs' = cs.
Proof.
  revert x cs. induction t as [|c t IH]; intros x cs H; simpl in H.
  - inversion H; subst. done.
  - inversion H; subst. match goal with H : matches (RChar _) _ _ _ _ |- _ => inversion H; subst end.
    match goal with H : is_char _ _ = true |- _ => apply Ascii.eqb_eq in H; subst end.
    match goal with H : matches (rlit _) _ _ _ _ |- _ => apply IH in H as [H ->] end.
    simpl in *. split; [|done]. rewrite app_cons_str. by f_equal.
Qed.

Lemma lit_matches t pr s cs : matches (rlit t) (Pos pr (t +:+ s)) cs (Pos (last_char pr t) s) cs.
Proof.
  revert pr. induction t as [|c t IH]; intros pr; simpl; [constructor|].
  econstructor; [|apply IH]. constructor. apply Ascii.eqb_refl.
Qed.

Lemma matches_star g p x cs y cs' :
  matches (RStar g p) x cs y cs' →
  cs' = cs ∧ ∃ t, rest x = t +:+ rest y ∧ str_forall p t = true.
Proof.
  remember (RStar g p) as r eqn:Hr. intros H. revert Hr.
  induction H; intros Hr; try done; injection Hr as -> ->.
  - split; [done|]. by exists "".
  - destruct (IHmatches eq_refl) as [_ (t & H1 & H2)]. split; [done|].
    exists (String c t). simpl in *. rewrite H1, H. auto.
Qed.

Lemma star_matches g p t pr s cs :
  str_forall p t = true →
  matches (RStar g p) (Pos pr (t +:+ s)) cs (Pos (last_char pr t) s) cs.
Proof.
  revert pr. induction t as [|c t IH]; intros pr H; simpl in *; [constructor|].
  apply andb_true_iff in H as [Hc Ht]. constructor; [done|]. by apply IH.
Qed.

Lemma matches_plus p x cs y cs' :
  matches (rplus p) x cs y cs' →
  cs' = cs ∧ ∃ c t, rest x = String c t +:+ rest y ∧ str_forall p (String c t) = true.
Proof.
  intros H. inversion H; subst.
  match goal with H : matches (RChar _) _ _ _ _ |- _ => inversion H; subst end.
  match goal with H : matches (RStar _ _) _ _ _ _ |- _ =>
    apply matches_star in H as [-> (t & Ht & Hp)] end.
  split; [done|]. simpl in *. eexists _, t. rewrite app_cons_str, Ht. split; [done|].
  simpl. match goal with H : p _ = true |- _ => by rewrite H end.
Qed.

Lemma matches_seq_inv a b x cs z cs'' :
  matches (RSeq a b) x cs z cs'' → ∃ y cs', matches a x cs y cs' ∧ matches b y cs' z cs''.
Proof. intros H. inversion H; subst. eauto. Qed.

Lemma matches_group_inv g a x cs y cs'' :
  matches (RGroup g a) x cs y cs'' →
  ∃ cs', matches a x cs y cs' ∧ cs'' = (g, between x y) :: cs'.
Proof. intros H. inversion H; subst. eauto. Qed.

Lemma matches_alt_inv a b x cs y cs' :
  matches (RAlt a b) x cs y cs' → matches a x cs y cs' ∨ matches b x cs y cs'.
Proof. intros H. inversion H; subst; auto. Qed.

Lemma matches_bol_inv x cs y cs' : matches RBol x cs y cs' → x = y ∧ cs' = cs.
Proof. intros H. inversion H; subst; auto. Qed.

(** Taking apart a match of a composed expression. *)
Ltac match_inv :=
  repeat match goal with
  | H : matches (RSeq _ _) _ _ _ _ |- _ =>
      let y := fresh "y" in let cs := fresh "cs" in
      let H1 := fresh "M" in apply matches_seq_inv in H as (y & cs & H1 & H)
  | H : matches (RGroup _ _) _ _ _ _ |- _ =>
      let cs := fresh "cs" in apply matches_group_inv in H as (cs & H & ->)
  | H : matches (rlit _) _ _ _ _ |- _ =>
      let E := fresh "L" in apply matches_lit in H as [E ->]
  | H : matches (RStar _ _) _ _ _ _ |- _ =>
      let t := fresh "t" in let E := fresh "S" in let F := fresh "F" in
      apply matches_star in H as [-> (t & E & F)]
  | H : matches (rplus _) _ _ _ _ |- _ =>
      let c := fresh "c" in let t := fresh "t" in let E := fresh "S" in let F := fresh "F" in
      apply matches_plus in H as [-> (c & t & E & F)]
  | H : matches RBol _ _ _ _ |- _ => apply matches_bol_inv in H as [-> ->]
  end.

Lemma str_forall_dot t : str_forall dot t = no_char LF t.
Proof.
  induction t as [|c t IH]; [done|]. rewrite no_char_cons. simpl. rewrite IH.
  unfold dot. by rewrite Ascii.eqb_sym.
Qed.

(** Every reported match of [findall] is a match at some place of the text. *)
Lemma findall_go_sound r skip pr s t cs :
  (t, cs) ∈ findall_go r skip pr s →
  ∃ x y a, matches r x [] y cs ∧ between x y = t ∧ s = a +:+ rest x.
Proof.
  revert skip pr. induction s as [|c s IH]; intros skip pr H; simpl in H.
  { by apply not_elem_of_nil in H. }
  assert (Hrec : ∀ k, (t, cs) ∈ findall_go r k (Some c) s →
    ∃ x y a, matches r x [] y cs ∧ between x y = t ∧ String c s = a +:+ rest x).
  { intros k Hk. destruct (IH _ _ Hk) as (x & y & a & H1 & H2 & ->).
    exists x, y, (String c a). by rewrite app_cons_str. }
  destruct skip as [|k]; [|eauto]. destruct (run r (Pos pr (String c s))) as [[y cs0]|] eqn:E;
    [|eauto].
  apply elem_of_cons in H as [[= -> ->]|H]; [|eauto].
  apply run_sound in E. by exists (Pos pr (String c s)), y, "".
Qed.

Lemma findall_sound r s t cs :
  (t, cs) ∈ findall r s → ∃ x y a, matches r x [] y cs ∧ between x y = t ∧ s = a +:+ rest x.
Proof. apply findall_go_sound. Qed.
