(* ===== verification/PyDict.v ===== *)
(** Python dictionaries as association lists in insertion order: a key has at
    most one entry, updating a key keeps its place, a new key goes last. *)

From S2P Require Import Prelude.

Section Dict.
Context {K V : Type} `{EqDecision K}.
Implicit Types (d : list (K * V)) (k : K) (v : V).

Fixpoint dget k d : option V :=
  match d with
  | [] => None
  | (k', v) :: d' => if decide (k = k') then Some v else dget k d'
  end.

Fixpoint dset k v d : list (K * V) :=
  match d with
  | [] => [(k, v)]
  | (k', v') :: d' => if decide (k = k') then (k, v) :: d' else (k', v') :: dset k v d'
  end.

Fixpoint ddel k d : list (K * V) :=
  match d with
  | [] => []
  | (k', v') :: d' => if decide (k = k') then d' else (k', v') :: ddel k d'
  end.

Definition keys d : list K := map fst d.

(** The invariant of a dictionary. *)
Definition dict_wf d : Prop := NoDup (keys d).

Lemma dget_dset_eq k v d : dget k (dset k v d) = Some v.
Proof.
  induction d as [|[k' v'] d IH]; simpl; [by rewrite decide_True|].
  case_decide as Hk; simpl; [by rewrite decide_True|]. by rewrite decide_False.
Qed.

Lemma dget_dset_ne k k' v d : k' ≠ k → dget k' (dset k v d) = dget k' d.
Proof.
  intros Hne. induction d as [|[k0 v0] d IH]; simpl; [by rewrite decide_False|].
  case_decide as Hk; simpl.
  - subst k0. by rewrite !decide_False.
  - case_decide; [done|]. apply IH.
Qed.

Lemma dget_dset k k' v d :
  dget k' (dset k v d) = if decide (k' = k) then Some v else dget k' d.
Proof. case_decide as H; [subst; apply dget_dset_eq|by apply dget_dset_ne]. Qed.

Lemma dget_None k d : dget k d = None ↔ k ∉ keys d.
Proof.
  induction d as [|[k' v'] d IH]; simpl; [split; [by intros _ ?%not_elem_of_nil|done]|].
  case_decide as Hk; [subst; set_solver|]. rewrite IH. set_solver.
Qed.

Lemma dget_is_Some k d : is_Some (dget k d) ↔ k ∈ keys d.
Proof.
  rewrite <- not_eq_None_Some, dget_None.
  split; [intros H; destruct (decide (k ∈ keys d)); done|tauto].
Qed.

Lemma dget_elem k v d : dget k d = Some v → (k, v) ∈ d.
Proof.
  induction d as [|[k' v'] d IH]; simpl; [done|].
  case_decide as Hk; [intros [= <-]; subst; left|]. intros H. right. auto.
Qed.

Lemma elem_dget k v d : dict_wf d → (k, v) ∈ d → dget k d = Some v.
Proof.
  unfold dict_wf. induction d as [|[k' v'] d IH]; simpl; intros Hwf H;
    [by apply not_elem_of_nil in H|].
  apply NoDup_cons in Hwf as [Hn Hwf]. apply elem_of_cons in H as [[= -> ->]|H].
  - by rewrite decide_True.
  - rewrite decide_False; [auto|]. intros ->. apply Hn.
    apply list_elem_of_fmap. by exists (k', v).
Qed.

(** Looking through a dictionary for what only one key gives. *)
Lemma omap_dget {B} (f : K * V → option B) k v d :
  dict_wf d → dget k d = Some v → (∀ e, e ∈ d → e.1 ≠ k → f e = None) →
  omap f d = match f (k, v) with Some x => [x] | None => [] end.
Proof.
  unfold dict_wf. induction d as [|[k' v'] d IH]; [done|]. simpl. intros [Hn Hwf]%NoDup_cons Hd Hf.
  case_decide as Hk.
  - subst k'. injection Hd as ->. assert (Hr : omap f d = []).
    { clear IH Hwf. induction d as [|e d IH]; [done|]. simpl in *. rewrite (Hf e); [|set_solver|].
      - apply IH; [set_solver|]. intros e' He'. apply Hf. set_solver.
      - intros <-. set_solver. }
    destruct (f (k, v)); [by f_equal|exact Hr].
  - rewrite (Hf (k', v')); [|set_solver|done]. apply IH; [done..|]. intros e He. apply Hf. set_solver.
Qed.

Lemma keys_dset k v d : keys (dset k v d) = if decide (k ∈ keys d) then keys d else keys d ++ [k].
Proof.
  induction d as [|[k' v'] d IH]; simpl; [done|].
  destruct (decide (k = k')) as [->|Hk]; simpl.
  - rewrite decide_True by set_solver. done.
  - rewrite IH. destruct (decide (k ∈ keys d)) as [Hin|Hin].
    + rewrite decide_True by set_solver. done.
    + rewrite decide_False by set_solver. done.
Qed.

Lemma dset_wf k v d : dict_wf d → dict_wf (dset k v d).
Proof.
  unfold dict_wf. rewrite keys_dset. case_decide as H; [done|]. intros Hd.
  apply NoDup_app. split; [done|]. split; [|apply NoDup_singleton]. set_solver.
Qed.

Lemma dset_dset k v v' d : dset k v' (dset k v d) = dset k v' d.
Proof.
  induction d as [|[k0 v0] d IH]; simpl; [by rewrite decide_True|].
  case_decide as Hk; simpl; [by rewrite decide_True|]. rewrite decide_False by done. by rewrite IH.
Qed.

Lemma dget_ddel_ne k k' d : k' ≠ k → dget k' (ddel k d) = dget k' d.
Proof.
  intros Hne. induction d as [|[k0 v0] d IH]; simpl; [done|].
  case_decide as Hk; simpl; [subst; by rewrite decide_False|]. by rewrite IH.
Qed.

Lemma dget_ddel_eq k d : dict_wf d → dget k (ddel k d) = None.
Proof.
  unfold dict_wf. induction d as [|[k0 v0] d IH]; simpl; [done|].
  intros [Hn Hd]%NoDup_cons. case_decide as Hk; [subst; by apply dget_None|].
  simpl. rewrite decide_False by done. auto.
Qed.

Lemma keys_ddel_sub k d k' : k' ∈ keys (ddel k d) → k' ∈ keys d.
Proof.
  induction d as [|[k0 v0] d IH]; simpl; [done|].
  case_decide; simpl; [set_solver|]. set_solver.
Qed.

Lemma ddel_wf k d : dict_wf d → dict_wf (ddel k d).
Proof.
  unfold dict_wf. induction d as [|[k0 v0] d IH]; simpl; [done|].
  intros [Hn Hd]%NoDup_cons. case_decide; [done|]. simpl. apply NoDup_cons.
  split; [|auto]. intros Hk%keys_ddel_sub. done.
Qed.

Lemma length_dset_new k v d : k ∉ keys d → length (dset k v d) = S (length d).
Proof.
  intros Hk. rewrite <- (length_map fst), <- (length_map fst d). fold (keys (dset k v d)) (keys d).
  rewrite keys_dset, decide_False by done. rewrite length_app. simpl. lia.
Qed.

Lemma length_ddel k d : k ∈ keys d → S (length (ddel k d)) = length d.
Proof.
  induction d as [|[k' v'] d IH]; simpl; [by intros ?%elem_of_nil|].
  intros Hk. destruct (decide (k = k')) as [->|Hne]; [done|]. simpl.
  rewrite IH; [done|]. by apply elem_of_cons in Hk as [?|?].
Qed.
End Dict.

#[export] Hint Resolve dset_wf ddel_wf : pyfacts.
