(* ===== verification/PyPath.v ===== *)
(** [os.path] on POSIX, for the functions the sources call: [join], [basename],
    [dirname], [splitext], [normpath], [abspath], [expanduser].  Paths are texts;
    [components] reads an absolute path as the list of its names. *)

From S2P Require Import Prelude PyStr.

Definition slash : ascii := "/".

Definition is_slash (c : ascii) : bool := Ascii.eqb c slash.

(** [os.path.join(a, b)] *)
Definition join2 (a b : string) : string :=
  if startswith b "/" then b
  else if String.eqb a "" || endswith a "/" then a +:+ b
  else a +:+ "/" +:+ b.

Definition path_join (a : string) (l : list string) : string := foldl join2 a l.

(** The last piece of a text at a separator. *)
Definition last_piece (l : list string) : string := List.last l "".

(** [os.path.basename(p)]: what follows the last slash. *)
Definition basename (p : string) : string := last_piece (split p "/").

(** [os.path.dirname(p)]: what precedes it, without trailing slashes unless it
    is made of slashes only. *)
Definition dirname (p : string) : string :=
  let head := slice_to p (rfind p "/" + 1) in
  if str_forall is_slash head then head else rstrip_chars head "/".

(** [os.path.splitext(p)]: the last dot of the last name, if a character other
    than a dot precedes it there. *)
Definition splitext (p : string) : string * string :=
  let sep := rfind p "/" in
  let dot := rfind p "." in
  if sep <? dot then
    if str_forall (fun c => Ascii.eqb c ".") (slice p (sep + 1) dot) then (p, "")
    else (slice_to p dot, slice_from p dot)
  else (p, "").

(** The loop of [os.path.normpath] over the names, kept reversed. *)
Fixpoint norm_comps (absolute : bool) (acc : list string) (l : list string) : list string :=
  match l with
  | [] => rev acc
  | c :: l' =>
      if String.eqb c "" || String.eqb c "." then norm_comps absolute acc l'
      else if negb (String.eqb c "..") then norm_comps absolute (c :: acc) l'
      else match acc with
           | [] => if absolute then norm_comps absolute acc l' else norm_comps absolute (c :: acc) l'
           | d :: acc' =>
               if String.eqb d ".." then norm_comps absolute (c :: acc) l'
               else norm_comps absolute acc' l'
           end
  end.

Definition leading_slashes (p : string) : nat :=
  if startswith p "/" then
    if startswith p "//" && negb (startswith p "///") then 2%nat else 1%nat
  else 0%nat.

(** [os.path.normpath(p)] *)
Definition normpath (p : string) : string :=
  if String.eqb p "" then "."
  else
    let n := leading_slashes p in
    let s := repeat_char slash n +:+ join "/" (norm_comps (negb (Nat.eqb n 0)) [] (split p "/")) in
    if String.eqb s "" then "." else s.

(** [os.path.abspath(p)] in the working directory [cwd]. *)
Definition abspath (cwd p : string) : string := normpath (join2 cwd p).

(** The names an absolute path stands for (no symbolic links). *)
Definition components (p : string) : list string := norm_comps true [] (split p "/").

(** The file a path denotes in the working directory [cwd]. *)
Definition resolve (cwd p : string) : list string := components (join2 cwd p).

(** [os.path.expanduser(p)]: [env] holds HOME, [pwd u] is the home directory of
    the user [u] in the password database, the current user's for [""]. *)
Definition expanduser (home : option string) (pwd : string → option string) (p : string) : string :=
  if negb (startswith p "~") then p
  else
    let i := match find_opt "/" p with Some i => i | None => String.length p end in
    let user_home :=
      if Nat.eqb i 1 then match home with Some h => Some h | None => pwd "" end
      else pwd (slice p 1 (Z.of_nat i)) in
    match user_home with
    | None => p
    | Some h =>
        let r := rstrip_chars h "/" +:+ sdrop i p in
        if String.eqb r "" then "/" else r
    end.

(** * Lemmas *)

Lemma join2_absolute a b : startswith b "/" = true → join2 a b = b.
Proof. intros H. unfold join2. by rewrite H. Qed.

(** A plain name: not empty, no slash, not a dot name. *)
Definition plain (n : string) : bool :=
  nonempty n && no_char slash n && negb (String.eqb n ".") && negb (String.eqb n "..").

Lemma plain_spec n :
  plain n = true ↔ n ≠ "" ∧ no_char slash n = true ∧ n ≠ "." ∧ n ≠ "..".
Proof.
  unfold plain, nonempty. rewrite !andb_true_iff, !negb_true_iff, !String.eqb_neq. tauto.
Qed.

Lemma norm_comps_plain b acc l :
  Forall (fun n => plain n = true) l → norm_comps b acc l = rev acc ++ l.
Proof.
  intros Hl. revert acc. induction Hl as [|n l Hn Hl IH]; intros acc; simpl.
  - by rewrite app_nil_r.
  - apply plain_spec in Hn as (H1 & _ & H2 & H3).
    rewrite (proj2 (String.eqb_neq _ _) H1), (proj2 (String.eqb_neq _ _) H2),
      (proj2 (String.eqb_neq _ _) H3). simpl. rewrite IH. simpl. by rewrite <- app_assoc.
Qed.

(** The absolute path of a list of names. *)
Definition abs_path (l : list string) : string := "/" +:+ join "/" l.

Lemma components_abs l :
  Forall (fun n => plain n = true) l → components (abs_path l) = l.
Proof.
  intros Hl. unfold components, abs_path. change "/" with (sep_of slash).
  destruct (decide (l = [])) as [->|Hne]; [done|].
  change (sep_of slash +:+ join (sep_of slash) l) with (String slash (join (sep_of slash) l)).
  rewrite split_cons_eq, split_join; [|done|].
  - simpl. rewrite norm_comps_plain by done. done.
  - eapply Forall_impl; [exact Hl|]. intros n Hn. by apply plain_spec in Hn as (_ & ? & _).
Qed.

Lemma join2_plain a n :
  a ≠ "" → endswith a "/" = false → plain n = true → join2 a n = a +:+ "/" +:+ n.
Proof.
  intros Ha He Hn. unfold join2. apply plain_spec in Hn as (H1 & H2 & _).
  destruct n as [|c n]; [done|]. change "/" with (String slash "") at 1.
  rewrite startswith_cons. rewrite no_char_cons in H2. apply andb_true_iff in H2 as [H2 _].
  apply negb_true_iff in H2. rewrite H2. simpl.
  by rewrite (proj2 (String.eqb_neq _ _) Ha), He.
Qed.

Lemma norm_comps_Forall acc l :
  Forall (fun n => plain n = true) acc → Forall (fun n => no_char slash n = true) l →
  Forall (fun n => plain n = true) (norm_comps true acc l).
Proof.
  intros Hacc Hl. revert acc Hacc. induction Hl as [|c l Hc Hl IH]; intros acc Hacc; simpl.
  - by apply Forall_rev.
  - destruct (String.eqb_spec c "") as [->|H1]; simpl; [auto|].
    destruct (String.eqb_spec c ".") as [->|H2]; simpl; [auto|].
    destruct (String.eqb_spec c "..") as [->|H3]; simpl.
    + destruct acc as [|d acc]; [auto|]. inversion Hacc as [|? ? Hd Hacc']; subst.
      apply plain_spec in Hd as (_ & _ & _ & Hd).
      rewrite (proj2 (String.eqb_neq _ _) Hd). auto.
    + apply IH. constructor; [|done]. by apply plain_spec.
Qed.

(** Resolving a path leaves plain names only. *)
Lemma components_plain p : Forall (fun n => plain n = true) (components p).
Proof. apply norm_comps_Forall; [constructor|]. apply (split_pieces_no_sep slash). Qed.

(** A directory name as [os.getcwd] returns it. *)
Definition cwd_norm (d : string) : Prop := d = abs_path (components d).

#[export] Instance cwd_norm_dec d : Decision (cwd_norm d).
Proof. unfold cwd_norm. apply _. Defined.

Lemma cwd_norm_absolute d : cwd_norm d → startswith d "/" = true.
Proof. unfold cwd_norm. intros ->. apply startswith_app. Qed.

Lemma norm_comps_app b acc l ns :
  Forall (fun n => plain n = true) ns → norm_comps b acc (l ++ ns) = norm_comps b acc l ++ ns.
Proof.
  intros Hns. revert acc. induction l as [|c l IH]; intros acc; simpl;
    [by apply norm_comps_plain|].
  repeat case_match; apply IH.
Qed.

(** The names below an absolute directory. *)
Lemma resolve_below d p ns :
  startswith p "/" = true → endswith p "/" = false → ns ≠ [] →
  Forall (fun n => plain n = true) ns →
  resolve d (join2 p (join "/" ns)) = resolve d p ++ ns.
Proof.
  intros Hp He Hne Hns.
  assert (Hp0 : p ≠ "") by by intros ->.
  destruct ns as [|n ns]; [done|]. inversion Hns as [|? ? Hn Hns']; subst.
  apply plain_spec in Hn as (H1 & H2 & _).
  assert (Hj : join2 p (join "/" (n :: ns)) = p +:+ "/" +:+ join "/" (n :: ns)).
  { unfold join2. destruct n as [|c n]; [done|]. rewrite no_char_cons in H2.
    apply andb_true_iff in H2 as [H2%negb_true_iff _].
    assert (Hs : startswith (join "/" (String c n :: ns)) "/" = false).
    { change "/" with (String slash "") at 2.
      destruct ns as [|m ns]; [|rewrite join_cons by done; rewrite app_cons_str];
        simpl join; rewrite startswith_cons, H2; done. }
    rewrite Hs, (proj2 (String.eqb_neq _ _) Hp0), He. done. }
  unfold resolve. rewrite Hj, !join2_absolute; [|done|].
  - unfold components. change "/" with (sep_of slash). rewrite split_app, split_join; [|done|].
    + by apply norm_comps_app.
    + eapply Forall_impl; [exact Hns|]. intros m Hm. by apply plain_spec in Hm as (_ & ? & _).
  - apply startswith_iff in Hp as [t ->]. rewrite app_str_assoc. apply startswith_app.
Qed.

(** A plain name under a path. *)
Lemma resolve_child d p n :
  p ≠ "" → plain n = true → resolve d (p +:+ "/" +:+ n) = resolve d p ++ [n].
Proof.
  intros Hp Hn.
  assert (Hj : join2 d (p +:+ "/" +:+ n) = join2 d p +:+ "/" +:+ n).
  { unfold join2. destruct p as [|c p]; [done|]. rewrite app_cons_str.
    rewrite !startswith_cons, !startswith_nil_r.
    destruct (Ascii.eqb "/" c && true); [by rewrite app_cons_str|].
    destruct (String.eqb d "" || _); by rewrite ?app_str_assoc, ?app_cons_str. }
  unfold resolve. rewrite Hj. unfold components. change "/"%string with (sep_of slash).
  rewrite split_app. rewrite (split_no_sep slash n) by by apply plain_spec.
  apply (norm_comps_app true [] _ [n]). by repeat constructor.
Qed.

(** The absolute path of a directory other than the root does not end in a slash. *)
Lemma abs_path_no_slash l :
  l ≠ [] → Forall (fun n => plain n = true) l → endswith (abs_path l) "/" = false.
Proof.
  intros Hne Hl. destruct (endswith (abs_path l) "/") eqn:E; [|done]. exfalso.
  unfold endswith in E. apply startswith_iff in E as [u Hu].
  assert (Hs : abs_path l = srev u +:+ sep_of slash +:+ "").
  { rewrite <- (srev_involutive (abs_path l)), Hu, srev_append. done. }
  assert (Hp : split (abs_path l) (sep_of slash) = "" :: l).
  { unfold abs_path. change ("/" +:+ join "/" l) with (String slash (join (sep_of slash) l)).
    rewrite split_cons_eq, split_join; [done|done|].
    eapply Forall_impl; [exact Hl|]. intros n Hn. by apply plain_spec in Hn as (_ & ? & _). }
  rewrite Hs, split_app in Hp. destruct (exists_last Hne) as (l' & x & ->).
  change (split "" (sep_of slash)) with [""] in Hp. rewrite app_comm_cons in Hp.
  apply app_inj_tail in Hp as [_ <-]. apply Forall_app in Hl as [_ Hx]. inversion Hx; subst. done.
Qed.

(** A plain name in a working directory. *)
Lemma resolve_name l n :
  Forall (fun n => plain n = true) l → plain n = true → resolve (abs_path l) n = l ++ [n].
Proof.
  intros Hl Hn. unfold resolve.
  assert (Hj : join2 (abs_path l) n = abs_path (l ++ [n])).
  { destruct (decide (l = [])) as [->|Hne].
    - apply plain_spec in Hn as (H1 & H2 & _). unfold join2. destruct n as [|c n]; [done|].
      rewrite no_char_cons in H2. apply andb_true_iff in H2 as [H2%negb_true_iff _].
      change "/" with (String slash "") at 1. by rewrite startswith_cons, H2.
    - rewrite join2_plain by (first [done|by apply abs_path_no_slash]). unfold abs_path.
      rewrite !app_str_assoc. f_equal. clear Hl. induction l as [|x l IH]; [done|].
      destruct l as [|y l]; [done|]. rewrite (join_cons "/" x (y :: l)) by done.
      change ((x :: y :: l) ++ [n]) with (x :: (y :: l) ++ [n]). rewrite (join_cons "/" x) by done.
      rewrite !app_str_assoc, IH by done. done. }
  rewrite Hj. apply components_abs. apply Forall_app. split; [done|]. by repeat constructor.
Qed.

(** An absolute path made in an absolute directory. *)
Lemma join2_is_absolute d p : startswith d "/" = true → startswith (join2 d p) "/" = true.
Proof.
  intros [t ->]%startswith_iff. unfold join2. destruct (startswith p "/") eqn:E; [done|].
  case_match; rewrite ?app_str_assoc; apply startswith_app.
Qed.

Lemma abspath_absolute d p : startswith d "/" = true → startswith (abspath d p) "/" = true.
Proof.
  intros Hd. apply (join2_is_absolute d p) in Hd. unfold abspath, normpath.
  destruct (String.eqb_spec (join2 d p) "") as [E|_]; [by rewrite E in Hd|].
  unfold leading_slashes. rewrite Hd.
  destruct (startswith (join2 d p) "//" && negb (startswith (join2 d p) "///"));
    match goal with |- startswith (if _ then _ else _ +:+ ?x) _ = true => generalize x end; intros x;
    [exact (startswith_app "/" ("/" +:+ x))|exact (startswith_app "/" x)].
Qed.

(** Normalising an absolute path keeps what it denotes. *)
Lemma components_slash s : components (String slash s) = components s.
Proof. unfold components. change "/" with (sep_of slash). by rewrite split_cons_eq. Qed.

Lemma components_normpath p : startswith p "/" = true → components (normpath p) = components p.
Proof.
  intros Hp. unfold normpath. destruct (String.eqb_spec p "") as [->|_]; [done|].
  unfold leading_slashes. rewrite Hp.
  assert (Hc : ∀ l, Forall (fun n => plain n = true) l → components (join "/" l) = l).
  { intros l Hl. rewrite <- components_slash. exact (components_abs l Hl). }
  destruct (startswith p "//" && negb (startswith p "///")); cbn [Nat.eqb negb]; fold (components p).
  - change (components (String slash (String slash (join "/" (components p)))) = components p).
    rewrite !components_slash. apply Hc, components_plain.
  - change (components (String slash (join "/" (components p))) = components p).
    rewrite components_slash. apply Hc, components_plain.
Qed.

Lemma resolve_abspath d p : startswith d "/" = true → resolve d (abspath d p) = resolve d p.
Proof.
  intros Hd. unfold resolve at 1. rewrite join2_absolute by by apply abspath_absolute.
  unfold abspath. by rewrite components_normpath by by apply join2_is_absolute.
Qed.

(** A path that ends with a plain name does not end with a slash. *)
Lemma endswith_plain a n : plain n = true → endswith (a +:+ n) "/" = false.
Proof.
  intros (H1 & H2 & _)%plain_spec. destruct (endswith (a +:+ n) "/") eqn:E; [|done]. exfalso.
  unfold endswith in E. rewrite srev_append in E. destruct (srev n) as [|c s] eqn:Es.
  - apply H1. by rewrite <- (srev_involutive n), Es.
  - change (srev "/") with (String slash "") in E. rewrite app_cons_str, startswith_cons in E.
    apply andb_true_iff in E as [<-%Ascii.eqb_eq _].
    rewrite <- (srev_involutive n), Es, srev_cons, no_char_app in H2. by apply andb_true_iff in H2 as [_ H2].
Qed.

(** Two plain names below an absolute directory. *)
Lemma resolve_below2 d p a b :
  startswith p "/" = true → endswith p "/" = false → plain a = true → plain b = true →
  resolve d (join2 (join2 p a) b) = resolve d p ++ [a; b] ∧
  startswith (join2 (join2 p a) b) "/" = true ∧ endswith (join2 (join2 p a) b) "/" = false.
Proof.
  intros Hp He Ha Hb. assert (Hp0 : p ≠ "") by by intros ->.
  assert (Hj : join2 p a = (p +:+ "/") +:+ a) by (rewrite join2_plain by done; by rewrite app_str_assoc).
  assert (Hn : join2 p a ≠ "") by (rewrite Hj; by destruct p).
  assert (Hs : startswith (join2 p a) "/" = true) by by apply join2_is_absolute.
  assert (Hx : endswith (join2 p a) "/" = false) by (rewrite Hj; by apply endswith_plain).
  split_and!; [|by apply join2_is_absolute|].
  - pose proof (resolve_below d (join2 p a) [b] Hs Hx ltac:(done) ltac:(by repeat constructor)) as Hr.
    pose proof (resolve_below d p [a] Hp He ltac:(done) ltac:(by repeat constructor)) as Hr'.
    simpl join in Hr, Hr'. by rewrite Hr, Hr', <- app_assoc.
  - rewrite (join2_plain (join2 p a) b) by done. rewrite <- app_str_assoc. by apply endswith_plain.
Qed.
