(* ===== verification/Effect.v ===== *)
(** The effects of the sources as a state and exception monad: raising and
    catching exceptions by class, [finally], [sys.exit], loops over lists, with
    the laws the components rewrite with and the frame predicates they are
    verified against. *)

From S2P Require Import Prelude PyStr.
From Stdlib Require Export Morphisms Setoid.

(** * Exceptions *)

Inductive exn_class :=
| CException | CRuntimeError | CRecursionError | CAssertionError
| COSError | CFileNotFoundError | CFileExistsError | CNotADirectoryError | CIsADirectoryError
| CPermissionError
| CIndexError | CKeyError | CValueError | CTypeError | CAttributeError
| CNameError | CUnboundLocalError | CZeroDivisionError
| CQMPError | CQMPConnectError | CQMPCapabilitiesError | CEOFError | CSocketError
| CKeyboardInterrupt
(** a loop that used up the number of rounds it was given *)
| CUnfinished.

#[export] Instance exn_class_eq_dec : EqDecision exn_class.
Proof. solve_decision. Defined.

(** The class directly above a class; [KeyboardInterrupt] is not an [Exception], and
    nothing catches [CUnfinished], which is no exception of the language. *)
Definition parent (c : exn_class) : option exn_class :=
  match c with
  | CException | CKeyboardInterrupt | CUnfinished => None
  | CRecursionError => Some CRuntimeError
  | CFileNotFoundError | CFileExistsError | CNotADirectoryError | CIsADirectoryError
  | CPermissionError => Some COSError
  | CUnboundLocalError => Some CNameError
  | CQMPConnectError | CQMPCapabilitiesError => Some CQMPError
  | _ => Some CException
  end.

Definition is_subclass (c d : exn_class) : bool :=
  bool_decide (c = d) ||
  match parent c with
  | None => false
  | Some p => bool_decide (p = d) || match parent p with Some q => bool_decide (q = d) | None => false end
  end.

Record exn := Exn { ecls : exn_class; emsg : string }.

(** How a call ends: a value, an exception, or the interpreter leaving with a
    status ([sys.exit], which [except Exception] does not catch). *)
Inductive outcome (A : Type) :=
| Ret (a : A)
| Raise (e : exn)
| Exit (code : Z).
Arguments Ret {A}. Arguments Raise {A}. Arguments Exit {A}.

Definition M (S A : Type) : Type := S → outcome A * S.

Section Monad.
Context {S : Type}.

Definition ret {A} (a : A) : M S A := fun s => (Ret a, s).

Definition bind {A B} (m : M S A) (k : A → M S B) : M S B := fun s =>
  match m s with
  | (Ret a, s') => k a s'
  | (Raise e, s') => (Raise e, s')
  | (Exit c, s') => (Exit c, s')
  end.

Definition raise {A} (c : exn_class) (m : string) : M S A := fun s => (Raise (Exn c m), s).
Definition sys_exit {A} (code : Z) : M S A := fun s => (Exit code, s).

Definition get : M S S := fun s => (Ret s, s).
Definition gets {A} (f : S → A) : M S A := fun s => (Ret (f s), s).
Definition modify (f : S → S) : M S unit := fun s => (Ret tt, f s).

(** [try: m except c as e: h e] *)
Definition try_except {A} (m : M S A) (c : exn_class) (h : exn → M S A) : M S A := fun s =>
  match m s with
  | (Raise e, s') => if is_subclass (ecls e) c then h e s' else (Raise e, s')
  | r => r
  end.

(** [try: m finally: f]: what [f] raises replaces the outcome of [m]. *)
Definition finally {A} (m : M S A) (f : M S unit) : M S A := fun s =>
  let (o, s') := m s in
  match f s' with
  | (Ret _, s'') => (o, s'')
  | (Raise e, s'') => (Raise e, s'')
  | (Exit c, s'') => (Exit c, s'')
  end.

(** The computation was followed for a bounded number of rounds of a loop and had not
    ended: what it returns then says nothing about the program. *)
Definition unfinished {A} (o : outcome A) : bool :=
  match o with Raise e => bool_decide (ecls e = CUnfinished) | _ => false end.

(** [x] of an optional value, or an exception. *)
Definition of_option {A} (o : option A) (c : exn_class) (m : string) : M S A :=
  match o with Some a => ret a | None => raise c m end.

Definition when (b : bool) (m : M S unit) : M S unit := if b then m else ret tt.

Fixpoint for_each {A} (l : list A) (f : A → M S unit) : M S unit :=
  match l with
  | [] => ret tt
  | x :: l' => bind (f x) (fun _ => for_each l' f)
  end.

(** A loop that threads an accumulator. *)
Fixpoint fold_each {A B} (l : list A) (f : B → A → M S B) (b : B) : M S B :=
  match l with
  | [] => ret b
  | x :: l' => bind (f b x) (fun b' => fold_each l' f b')
  end.

Definition map_each {A B} (l : list A) (f : A → M S B) : M S (list B) :=
  fold_each l (fun acc x => bind (f x) (fun y => ret (acc ++ [y]))) [].
End Monad.

Declare Scope eff_scope.
Delimit Scope eff_scope with eff.
Bind Scope eff_scope with M.

Notation "'do' x <- m ; k" := (bind m (fun x => k))
  (at level 10, x name, m at level 100, k at level 200) : eff_scope.
Notation "'do' ' p <- m ; k" := (bind m (fun x => match x with p => k end))
  (at level 10, p pattern, m at level 100, k at level 200) : eff_scope.
Notation "m ;; k" := (bind m (fun _ => k))
  (at level 100, k at level 200, right associativity) : eff_scope.

#[global] Open Scope eff_scope.

(** * Equality of computations *)

Definition meq {S A} (m1 m2 : M S A) : Prop := ∀ s, m1 s = m2 s.
Infix "=m=" := meq (at level 70).

#[export] Instance meq_equiv {S A} : Equivalence (@meq S A).
Proof. split; [done|by intros ? ? H s|intros ? ? ? H1 H2 s; by rewrite H1]. Qed.

#[export] Instance bind_proper {S A B} :
  Proper (meq ==> pointwise_relation A meq ==> meq) (@bind S A B).
Proof. intros m1 m2 Hm k1 k2 Hk s. unfold bind. rewrite Hm. destruct (m2 s) as [[]]; auto. apply Hk. Qed.

#[export] Instance finally_proper {S A} : Proper (meq ==> meq ==> meq) (@finally S A).
Proof. intros m1 m2 Hm f1 f2 Hf s. unfold finally. rewrite Hm. destruct (m2 s). by rewrite Hf. Qed.

Lemma bind_ret_l {S A B} (a : A) (k : A → M S B) : bind (ret a) k =m= k a.
Proof. done. Qed.

Lemma bind_ret_r {S A} (m : M S A) : bind m ret =m= m.
Proof. intros s. unfold bind. by destruct (m s) as [[]]. Qed.

Lemma bind_assoc {S A B C} (m : M S A) (k : A → M S B) (h : B → M S C) :
  bind (bind m k) h =m= bind m (fun a => bind (k a) h).
Proof. intros s. unfold bind. by destruct (m s) as [[]]. Qed.

Lemma finally_ret {S A} (m : M S A) : finally m (ret tt) =m= m.
Proof. intros s. unfold finally. by destruct (m s). Qed.

Lemma for_each_app {S A} (l1 l2 : list A) (f : A → M S unit) :
  for_each (l1 ++ l2) f =m= (for_each l1 f ;; for_each l2 f).
Proof.
  induction l1 as [|x l1 IH]; intros s; [done|]. simpl.
  rewrite (bind_assoc (f x) (fun _ => for_each l1 f) (fun _ => for_each l2 f) s).
  unfold bind. destruct (f x s) as [[]]; [|done|done]. apply IH.
Qed.

Lemma fold_each_app {S A B} (l1 l2 : list A) (f : B → A → M S B) b :
  fold_each (l1 ++ l2) f b =m= bind (fold_each l1 f b) (fold_each l2 f).
Proof.
  revert b. induction l1 as [|x l1 IH]; intros b s; [done|]. simpl.
  unfold bind. destruct (f b x s) as [[b'|e|c] s']; [|done|done]. apply (IH b' s').
Qed.

(** * Running *)

Lemma bind_Ret {S A B} (m : M S A) (k : A → M S B) s a s' :
  m s = (Ret a, s') → bind m k s = k a s'.
Proof. intros H. unfold bind. by rewrite H. Qed.

(** Evaluating only how a computation ends. *)
Lemma surjective_pairing_Ret {S A} (r : outcome A * S) o : r.1 = o → r = (o, r.2).
Proof. by destruct r; intros <-. Qed.

Lemma bind_Raise {S A B} (m : M S A) (k : A → M S B) s e s' :
  m s = (Raise e, s') → bind m k s = (Raise e, s').
Proof. intros H. unfold bind. by rewrite H. Qed.

Lemma bind_Exit {S A B} (m : M S A) (k : A → M S B) s c s' :
  m s = (Exit c, s') → bind m k s = (Exit c, s').
Proof. intros H. unfold bind. by rewrite H. Qed.

Lemma bind_Ret_inv {S A B} (m : M S A) (k : A → M S B) s b s'' :
  bind m k s = (Ret b, s'') → ∃ a s', m s = (Ret a, s') ∧ k a s' = (Ret b, s'').
Proof. unfold bind. destruct (m s) as [[a|e|c] s'] eqn:E; try done. eauto. Qed.

(** * Frames: parts of the state a computation leaves alone *)

(** Whatever happens, the observation is unchanged. *)
Definition frame {S A V} (obs : S → V) (m : M S A) : Prop := ∀ s, obs (m s).2 = obs s.

(** A normal end leaves the observation unchanged. *)
Definition keeps {S A V} (obs : S → V) (m : M S A) : Prop :=
  ∀ s a s', m s = (Ret a, s') → obs s' = obs s.

Create HintDb frames discriminated.

Lemma frame_keeps {S A V} (obs : S → V) (m : M S A) : frame obs m → keeps obs m.
Proof. intros H s a s' E. specialize (H s). by rewrite E in H. Qed.

Lemma frame_ret {S A V} (obs : S → V) (a : A) : frame obs (ret (S := S) a).
Proof. done. Qed.

Lemma frame_raise {S A V} (obs : S → V) c m : frame obs (raise (S := S) (A := A) c m).
Proof. done. Qed.

Lemma frame_exit {S A V} (obs : S → V) c : frame obs (sys_exit (S := S) (A := A) c).
Proof. done. Qed.

Lemma frame_gets {S A V} (obs : S → V) (f : S → A) : frame obs (gets f).
Proof. done. Qed.

Lemma frame_bind {S A B V} (obs : S → V) (m : M S A) (k : A → M S B) :
  frame obs m → (∀ a, frame obs (k a)) → frame obs (bind m k).
Proof.
  intros Hm Hk s. unfold bind. specialize (Hm s). destruct (m s) as [[a|e|c] s']; simpl in *.
  - by rewrite Hk. - done. - done.
Qed.

Lemma frame_try {S A V} (obs : S → V) (m : M S A) c h :
  frame obs m → (∀ e, frame obs (h e)) → frame obs (try_except m c h).
Proof.
  intros Hm Hh s. unfold try_except. specialize (Hm s). destruct (m s) as [[a|e|x] s']; simpl in *;
    try done. case_if; [|done]. by rewrite Hh.
Qed.

Lemma frame_finally {S A V} (obs : S → V) (m : M S A) f :
  frame obs m → frame obs f → frame obs (finally m f).
Proof.
  intros Hm Hf s. unfold finally. specialize (Hm s). destruct (m s) as [o s']. specialize (Hf s').
  destruct (f s') as [[]]; simpl in *; congruence.
Qed.

Lemma frame_for_each {S A V} (obs : S → V) (l : list A) (f : A → M S unit) :
  (∀ x, frame obs (f x)) → frame obs (for_each l f).
Proof. intros H. induction l as [|x l IH]; [done|]. simpl. by apply frame_bind. Qed.

Lemma frame_fold_each {S A B V} (obs : S → V) (l : list A) (f : B → A → M S B) b :
  (∀ b x, frame obs (f b x)) → frame obs (fold_each l f b).
Proof. intros H. revert b. induction l as [|x l IH]; intros b; [done|]. simpl. by apply frame_bind. Qed.

Lemma frame_of_option {S A V} (obs : S → V) (o : option A) c m :
  frame obs (of_option (S := S) o c m).
Proof. by destruct o. Qed.

Lemma frame_when {S V} (obs : S → V) b (m : M S unit) : frame obs m → frame obs (when b m).
Proof. by destruct b. Qed.

#[export] Hint Resolve frame_ret frame_raise frame_exit frame_gets frame_bind frame_try
  frame_finally frame_for_each frame_fold_each frame_of_option frame_when : frames.

Lemma keeps_ret {S A V} (obs : S → V) (a : A) : keeps obs (ret (S := S) a).
Proof. by intros s b s' [= _ ->]. Qed.

Lemma keeps_bind {S A B V} (obs : S → V) (m : M S A) (k : A → M S B) :
  keeps obs m → (∀ a, keeps obs (k a)) → keeps obs (bind m k).
Proof.
  intros Hm Hk s b s'' (a & s' & H1 & H2)%bind_Ret_inv.
  rewrite (Hk _ _ _ _ H2). eauto.
Qed.

Lemma keeps_for_each {S A V} (obs : S → V) (l : list A) (f : A → M S unit) :
  (∀ x, keeps obs (f x)) → keeps obs (for_each l f).
Proof.
  intros H. induction l as [|x l IH]; [apply keeps_ret|]. simpl. by apply keeps_bind.
Qed.

Lemma keeps_try_exit {S A V} (obs : S → V) (m : M S A) c h :
  keeps obs m → (∀ e s a s', h e s ≠ (Ret a, s')) → keeps obs (try_except m c h).
Proof.
  intros Hm Hh s a s'. unfold try_except. destruct (m s) as [[b|e|x] s1] eqn:E; try done.
  - intros [= <- <-]. eauto.
  - case_if; [|done]. intros H. by apply Hh in H.
Qed.

#[export] Hint Resolve keeps_ret keeps_bind keeps_for_each : frames.

(** The same for a start in which the observation has a property. *)
Definition keeps_if {S A V} (P : V → Prop) (obs : S → V) (m : M S A) : Prop :=
  ∀ s a s', P (obs s) → m s = (Ret a, s') → obs s' = obs s.

Lemma keeps_if_frame {S A V} P (obs : S → V) (m : M S A) : frame obs m → keeps_if P obs m.
Proof. intros H s a s' _ E. specialize (H s). by rewrite E in H. Qed.

Lemma keeps_if_bind {S A B V} P (obs : S → V) (m : M S A) (k : A → M S B) :
  keeps_if P obs m → (∀ a, keeps_if P obs (k a)) → keeps_if P obs (bind m k).
Proof.
  intros Hm Hk s b s'' HP (a & s' & H1 & H2)%bind_Ret_inv.
  specialize (Hm _ _ _ HP H1). rewrite <- Hm in HP |- *. by apply (Hk a s' b).
Qed.

Lemma keeps_if_for_each {S A V} P (obs : S → V) (l : list A) (f : A → M S unit) :
  (∀ x, keeps_if P obs (f x)) → keeps_if P obs (for_each l f).
Proof.
  intros H. induction l as [|x l IH]; [by apply keeps_if_frame|]. simpl. by apply keeps_if_bind.
Qed.

Lemma keeps_if_try_exit {S A V} P (obs : S → V) (m : M S A) c h :
  keeps_if P obs m → (∀ e s a s', h e s ≠ (Ret a, s')) → keeps_if P obs (try_except m c h).
Proof.
  intros Hm Hh s a s' HP. unfold try_except. destruct (m s) as [[b|e|x] s1] eqn:E; try done.
  - intros [= <- <-]. eauto.
  - case_if; [|done]. intros H. by apply Hh in H.
Qed.

#[export] Hint Resolve keeps_if_bind keeps_if_for_each : frames.

(** * Invariants: what holds of the state however a computation ends *)

Definition preserves {S A} (P : S → Prop) (m : M S A) : Prop := ∀ s, P s → P (m s).2.

Section Preserves.
Context {S : Type} (P : S → Prop).

Lemma preserves_same {A} (m : M S A) : (∀ s, (m s).2 = s) → preserves P m.
Proof. intros Hm s Hs. by rewrite Hm. Qed.

Lemma preserves_modify f : (∀ s, P s → P (f s)) → preserves P (modify f).
Proof. intros Hf s. apply Hf. Qed.

Lemma preserves_bind {A B} (m : M S A) (k : A → M S B) :
  preserves P m → (∀ a, preserves P (k a)) → preserves P (bind m k).
Proof.
  intros Hm Hk s Hs. unfold bind. specialize (Hm s Hs). destruct (m s) as [[a|e|c] s']; [|done..].
  by apply Hk.
Qed.

(** After [get] the state that was read is the state there is. *)
Lemma preserves_get {A} (k : S → M S A) : (∀ s, P s → P (k s s).2) → preserves P (bind get k).
Proof. intros Hk s. apply Hk. Qed.

Lemma preserves_try {A} (m : M S A) c h :
  preserves P m → (∀ e, preserves P (h e)) → preserves P (try_except m c h).
Proof.
  intros Hm Hh s Hs. unfold try_except. specialize (Hm s Hs). destruct (m s) as [[a|e|x] s']; [done| |done].
  case_match; [|done]. by apply Hh.
Qed.

Lemma preserves_finally {A} (m : M S A) f : preserves P m → preserves P f → preserves P (finally m f).
Proof.
  intros Hm Hf s Hs. unfold finally. specialize (Hm s Hs). destruct (m s) as [o s'].
  specialize (Hf s' Hm). by destruct (f s') as [[]].
Qed.

Lemma preserves_for_each {A} (l : list A) (f : A → M S unit) :
  (∀ x, preserves P (f x)) → preserves P (for_each l f).
Proof. intros Hf. induction l as [|x l IH]; [by intros s|]. by apply preserves_bind. Qed.

Lemma preserves_fold_each {A B} (l : list A) (f : B → A → M S B) b :
  (∀ b x, preserves P (f b x)) → preserves P (fold_each l f b).
Proof.
  intros Hf. revert b. induction l as [|x l IH]; intros b; [by intros s|]. apply preserves_bind; [done|apply IH].
Qed.

Lemma preserves_when b (m : M S unit) : preserves P m → preserves P (when b m).
Proof. destruct b; [done|by intros _ s]. Qed.

(** The same, with what is known of a value that is returned. *)
Definition yields {A} (m : M S A) (R : A → Prop) : Prop :=
  ∀ s, P s → P (m s).2 ∧ ∀ a, (m s).1 = Ret a → R a.

Lemma yields_preserves {A} (m : M S A) R : yields m R → preserves P m.
Proof. intros Hm s Hs. by apply Hm. Qed.

Lemma yields_bind {A B} (m : M S A) (k : A → M S B) R R' :
  yields m R → (∀ a, R a → yields (k a) R') → yields (bind m k) R'.
Proof.
  intros Hm Hk s Hs. unfold bind. destruct (Hm s Hs) as [H1 H2]. destruct (m s) as [[a|e|c] s']; [|by split..].
  apply Hk; [by apply H2|exact H1].
Qed.

Lemma yields_after {A B} (m : M S A) (k : A → M S B) R :
  preserves P m → (∀ a, yields (k a) R) → yields (bind m k) R.
Proof.
  intros Hm Hk. apply (yields_bind m k (fun _ => True)); [|done]. intros s Hs. split; [by apply Hm|done].
Qed.

Lemma yields_ret {A} (a : A) (R : A → Prop) : R a → yields (ret a) R.
Proof. intros Ha s Hs. split; [done|]. by intros b [= <-]. Qed.

Lemma yields_fold_each {A B} (l : list A) (f : B → A → M S B) b R :
  R b → (∀ b x, R b → yields (f b x) R) → yields (fold_each l f b) R.
Proof.
  intros Hb Hf. revert b Hb. induction l as [|x l IH]; intros b Hb; [by apply yields_ret|].
  eapply yields_bind; [by apply Hf|]. intros b'. apply IH.
Qed.
End Preserves.

(** * Leaving the program *)

(** A computation that leaves the program does so with one of these statuses. *)
Definition exits {S A} (P : Z → Prop) (m : M S A) : Prop := ∀ s c s', m s = (Exit c, s') → P c.

Section Exits.
Context {S : Type} (P : Z → Prop).

Lemma exits_bind {A B} (m : M S A) (k : A → M S B) :
  exits P m → (∀ a, exits P (k a)) → exits P (bind m k).
Proof.
  intros Hm Hk s c s'. unfold bind. destruct (m s) as [[a|e|x] s1] eqn:E; [|done|].
  - apply Hk.
  - intros [= <- <-]. by eapply Hm.
Qed.

Lemma exits_for_each {A} (l : list A) (f : A → M S unit) :
  (∀ x, exits P (f x)) → exits P (for_each l f).
Proof. intros H. induction l as [|x l IH]; [done|]. by apply exits_bind. Qed.

Lemma exits_fold_each {A B} (l : list A) (f : B → A → M S B) b :
  (∀ b x, exits P (f b x)) → exits P (fold_each l f b).
Proof. intros H. revert b. induction l as [|x l IH]; intros b; [done|]. by apply exits_bind. Qed.

Lemma exits_try {A} (m : M S A) c h :
  exits P m → (∀ e, exits P (h e)) → exits P (try_except m c h).
Proof.
  intros Hm Hh s x s'. unfold try_except. destruct (m s) as [[a|e|y] s1] eqn:E; [done| |].
  - case_if; [apply Hh|done].
  - intros [= <- <-]. by eapply Hm.
Qed.

Lemma exits_finally {A} (m : M S A) f : exits P m → exits P f → exits P (finally m f).
Proof.
  intros Hm Hf s x s'. unfold finally. destruct (m s) as [o s1] eqn:E.
  destruct (f s1) as [[u|e|y] s2] eqn:E2; [|done|].
  - intros [= -> <-]. by eapply Hm.
  - intros [= <- <-]. by eapply Hf.
Qed.

Lemma exits_exit {A} c : P c → exits P (sys_exit (S := S) (A := A) c).
Proof. by intros Hc s c' s' [= <- _]. Qed.
End Exits.

(** How a result can be other than a value: the exceptions satisfy [X], and the statuses with
    the states in which the program is left satisfy [Q]. *)
Definition ended {S A} (X : exn → Prop) (Q : Z → S → Prop) (r : outcome A * S) : Prop :=
  match r with (Ret _, _) => True | (Raise e, _) => X e | (Exit c, s) => Q c s end.

Definition ends {S A} (X : exn → Prop) (Q : Z → S → Prop) (m : M S A) : Prop := ∀ s, ended X Q (m s).

Section Ends.
Context {S : Type} (X : exn → Prop) (Q : Z → S → Prop).

Lemma ended_bind {A B} (m : M S A) (k : A → M S B) s :
  ended X Q (m s) → (∀ a s', m s = (Ret a, s') → ended X Q (k a s')) → ended X Q (bind m k s).
Proof. intros Hm Hk. unfold bind. destruct (m s) as [[a|e|c] s']; [by apply Hk|done..]. Qed.

Lemma ends_bind {A B} (m : M S A) (k : A → M S B) :
  ends X Q m → (∀ a, ends X Q (k a)) → ends X Q (bind m k).
Proof. intros Hm Hk s. apply ended_bind; [done|]. intros a s' _. apply Hk. Qed.

Lemma ends_for_each {A} (l : list A) (f : A → M S unit) : (∀ x, ends X Q (f x)) → ends X Q (for_each l f).
Proof. intros Hf. induction l as [|x l IH]; [done|]. by apply ends_bind. Qed.

Lemma ends_fold_each {A B} (l : list A) (f : B → A → M S B) b :
  (∀ b x, ends X Q (f b x)) → ends X Q (fold_each l f b).
Proof. intros Hf. revert b. induction l as [|x l IH]; intros b; [done|]. by apply ends_bind. Qed.

(** What [except] catches does not go further. *)
Lemma ends_try {A} (m : M S A) c h :
  ends (fun e => is_subclass (ecls e) c = true ∨ X e) Q m → (∀ e, ends X Q (h e)) → ends X Q (try_except m c h).
Proof.
  intros Hm Hh s. specialize (Hm s). unfold try_except. destruct (m s) as [[a|e|x] s']; [done| |done].
  simpl in Hm. destruct (is_subclass (ecls e) c); [apply Hh|by destruct Hm].
Qed.
End Ends.

Lemma ended_mono {S A} (X X' : exn → Prop) (Q Q' : Z → S → Prop) (r : outcome A * S) :
  (∀ e, X e → X' e) → (∀ c s, Q c s → Q' c s) → ended X Q r → ended X' Q' r.
Proof. intros HX HQ. destruct r as [[a|e|c] s]; [done|apply HX|apply HQ]. Qed.

Lemma ends_mono {S A} (X X' : exn → Prop) (Q Q' : Z → S → Prop) (m : M S A) :
  (∀ e, X e → X' e) → (∀ c s, Q c s → Q' c s) → ends X Q m → ends X' Q' m.
Proof. intros HX HQ Hm s. by eapply ended_mono. Qed.

(** Only exceptions that [except Exception] catches. *)
Definition ordinary {S A} (m : M S A) : Prop :=
  ends (fun e => is_subclass (ecls e) CException = true) (fun _ _ => False) m.

Lemma ordinary_finally {S A} (m : M S A) f : ordinary m → ordinary f → ordinary (finally m f).
Proof.
  intros Hm Hf s. specialize (Hm s). unfold finally. destruct (m s) as [o s']. specialize (Hf s').
  destruct (f s') as [[u|e|c] s'']; [|done..]. by destruct o.
Qed.

(** A loop that collects what each round returns. *)
Lemma fold_each_collect {S A B} (l : list A) (f : A → M S B) (g : A → B) (s : S) acc :
  Forall (fun x => f x s = (Ret (g x), s)) l →
  fold_each l (fun acc x => bind (f x) (fun y => ret (acc ++ [y]))) acc s = (Ret (acc ++ map g l), s).
Proof.
  intros Hl. revert acc. induction Hl as [|x l Hx Hl IH]; intros acc; simpl.
  - by rewrite app_nil_r.
  - rewrite (bind_Ret _ _ _ (acc ++ [g x]) s); [by rewrite IH, <- app_assoc|].
    by rewrite (bind_Ret _ _ _ _ _ Hx).
Qed.

Lemma map_each_Ret {S A B} (l : list A) (f : A → M S B) (g : A → B) (s : S) :
  Forall (fun x => f x s = (Ret (g x), s)) l → map_each l f s = (Ret (map g l), s).
Proof. intros Hl. unfold map_each. by rewrite (fold_each_collect l f g s []). Qed.
