(* ===== verification/Os.v ===== *)
(** The operating system as the sources see it: a file tree, the working
    directory, the environment variables, the log and the console, and the
    programs they start.  A program that is started, the processor count and the
    password database are not part of the repository; they are the fields of the
    class [Host]. *)

From S2P Require Import Prelude PyStr PyDict PyPath Effect.

(** * File trees *)

(** A file has its text and its mode bits; a directory lists its entries in the
    order a directory scan returns them. *)
Inductive node :=
| File (text : string) (mode : Z)
| Dir (entries : list (string * node)).

Section NodeInd.
Context (P : node → Prop)
  (HF : ∀ t m, P (File t m))
  (HD : ∀ es, Forall (fun e => P e.2) es → P (Dir es)).

Fixpoint node_ind' (t : node) : P t :=
  match t with
  | File x m => HF x m
  | Dir es =>
      HD es ((fix go (l : list (string * node)) : Forall (fun e => P e.2) l :=
                match l with
                | [] => List.Forall_nil _
                | e :: l' => List.Forall_cons _ e l' (node_ind' e.2) (go l')
                end) es)
  end.
End NodeInd.

(** Every directory lists a name once. *)
Fixpoint tree_wf (t : node) : Prop :=
  match t with
  | File _ _ => True
  | Dir es =>
      NoDup (keys es) ∧
      (fix go (l : list (string * node)) : Prop :=
         match l with [] => True | e :: l' => tree_wf e.2 ∧ go l' end) es
  end.

(** The node at a list of names. *)
Fixpoint tget (p : list string) (t : node) : option node :=
  match p with
  | [] => Some t
  | c :: p' =>
      match t with
      | File _ _ => None
      | Dir es => match dget c es with Some n => tget p' n | None => None end
      end
  end.

(** Putting a node at a list of names: the directory that holds it must exist. *)
Fixpoint tput (p : list string) (n t : node) : option node :=
  match p with
  | [] => Some n
  | c :: p' =>
      match t with
      | File _ _ => None
      | Dir es =>
          match p' with
          | [] => Some (Dir (dset c n es))
          | _ => match dget c es with
                 | Some m => (fun m' => Dir (dset c m' es)) <$> tput p' n m
                 | None => None
                 end
          end
      end
  end.

(** Removing the node at a non-empty list of names. *)
Fixpoint tdel (p : list string) (t : node) : option node :=
  match p, t with
  | c :: p', Dir es =>
      match dget c es with
      | None => None
      | Some m =>
          match p' with
          | [] => Some (Dir (ddel c es))
          | _ => (fun m' => Dir (dset c m' es)) <$> tdel p' m
          end
      end
  | _, _ => None
  end.

(** Creating a directory and the missing ones above it; [None] when a file is in
    the way. *)
Fixpoint tmkdirs (p : list string) (t : node) : option node :=
  match t with
  | File _ _ => None
  | Dir es =>
      match p with
      | [] => Some t
      | c :: p' =>
          (fun m' => Dir (dset c m' es)) <$>
            tmkdirs p' (match dget c es with Some m => m | None => Dir [] end)
      end
  end.

(** [os.walk(top)]: the directories below [top] with the names of their files,
    each directory before those it contains. *)
Definition is_dir (t : node) : bool := match t with Dir _ => true | File _ _ => false end.

Definition file_names (es : list (string * node)) : list string :=
  map fst (List.filter (fun e => negb (is_dir e.2)) es).

Fixpoint walk (top : string) (t : node) : list (string * list string) :=
  match t with
  | File _ _ => []
  | Dir es =>
      (top, file_names es) ::
      (fix go (l : list (string * node)) : list (string * list string) :=
         match l with
         | [] => []
         | e :: l' => walk (join2 top e.1) e.2 ++ go l'
         end) es
  end.

(** * The state of the process *)

Inductive level := DEBUG | INFO | WARNING | ERROR | CRITICAL.

#[export] Instance level_eq_dec : EqDecision level.
Proof. solve_decision. Defined.

(** The numbers logging gives the levels. *)
Definition level_no (l : level) : Z :=
  match l with DEBUG => 10 | INFO => 20 | WARNING => 30 | ERROR => 40 | CRITICAL => 50 end.

(** A handler of the root logger, for a file or for the standard error ([None]), with the
    level below which it drops records, if any; handlers are told apart by their number. *)
Record handler := Handler { hid : nat; hpath : option string; hlevel : option level }.

#[export] Instance handler_eq_dec : EqDecision handler.
Proof. solve_decision. Defined.

(** [log] has every record that was issued; [log_level] is the level of the root logger. *)
Record world := World {
  root : node;
  cwd : string;
  env : gmap string string;
  log : list (level * string);
  console : list string;
  handlers : list handler;
  level_names : list (level * string);
  log_level : level
}.

Definition set_root (r : node) (w : world) : world :=
  World r (cwd w) (env w) (log w) (console w) (handlers w) (level_names w) (log_level w).
Definition set_cwd (d : string) (w : world) : world :=
  World (root w) d (env w) (log w) (console w) (handlers w) (level_names w) (log_level w).
Definition set_env (e : gmap string string) (w : world) : world :=
  World (root w) (cwd w) e (log w) (console w) (handlers w) (level_names w) (log_level w).
Definition set_log (l : list (level * string)) (w : world) : world :=
  World (root w) (cwd w) (env w) l (console w) (handlers w) (level_names w) (log_level w).
Definition set_console (c : list string) (w : world) : world :=
  World (root w) (cwd w) (env w) (log w) c (handlers w) (level_names w) (log_level w).
Definition set_handlers (h : list handler) (w : world) : world :=
  World (root w) (cwd w) (env w) (log w) (console w) h (level_names w) (log_level w).
Definition set_level_names (n : list (level * string)) (w : world) : world :=
  World (root w) (cwd w) (env w) (log w) (console w) (handlers w) n (log_level w).
Definition set_log_level (v : level) (w : world) : world :=
  World (root w) (cwd w) (env w) (log w) (console w) (handlers w) (level_names w) v.

(** How a started program ends. *)
Inductive proc_end := Exited (rc : Z) | TimedOut.

(** What is outside the repository.  [spawn] takes the command line, the working
    directory, the environment, the time limit and the file tree; [None] stands
    for a program that is not found, otherwise it gives the end of the program,
    the tree it leaves and the texts it wrote to its standard output and error. *)
Class Host := {
  spawn : list string → string → gmap string string → option Z → node →
          option (proc_end * node * (string * string));
  cpu_count : Z;
  pw_home : string → option string
}.

Abbreviation IO := (M world).

(** ** Console and log *)

Definition logging (l : level) (m : string) : IO unit :=
  modify (fun w => set_log (log w ++ [(l, m)]) w).

(** [logging.basicConfig(level=v)]: nothing if the root logger has a handler. *)
Definition basicConfig (v : level) : IO unit :=
  do hs <- gets handlers;
  match hs with
  | [] => modify (fun w => set_log_level v (set_handlers [Handler O None None] w))
  | _ => ret tt
  end.

(** The records of the level of the root logger and above. *)
Definition shown (w : world) : list (level * string) :=
  List.filter (fun r => level_no (log_level w) <=? level_no r.1) (log w).

Definition print (s : string) : IO unit :=
  modify (fun w => set_console (console w ++ [s]) w).

(** ** Files *)

Definition at_path (w : world) (p : string) : option node := tget (resolve (cwd w) p) (root w).

Definition file_text (w : world) (p : string) : option string :=
  match at_path w p with Some (File t _) => Some t | _ => None end.

Definition path_exists (p : string) : IO bool :=
  gets (fun w => match at_path w p with Some _ => true | None => false end).

Definition is_directory (p : string) : IO bool :=
  gets (fun w => match at_path w p with Some (Dir _) => true | _ => false end).

Definition no_such_file (p : string) : string :=
  "[Errno 2] No such file or directory: '" +:+ p +:+ "'".

(** [open(p).read()] in text mode *)
Definition read_file (p : string) : IO string :=
  do w <- get;
  match at_path w p with
  | Some (File t _) => ret (universal_newlines t)
  | Some (Dir _) => raise CIsADirectoryError ("[Errno 21] Is a directory: '" +:+ p +:+ "'")
  | None => raise CFileNotFoundError (no_such_file p)
  end.

(** [file(p).read()] of Python 2, and binary mode: the bytes as they are. *)
Definition read_raw (p : string) : IO string :=
  do w <- get;
  match at_path w p with
  | Some (File t _) => ret t
  | Some (Dir _) => raise CIsADirectoryError ("[Errno 21] Is a directory: '" +:+ p +:+ "'")
  | None => raise CFileNotFoundError (no_such_file p)
  end.

(** The tree operations lift to the process: [None] is the exception given. *)
Definition update_root (f : node → option node) (c : exn_class) (m : string) : IO unit :=
  do w <- get;
  match f (root w) with
  | Some r => modify (set_root r)
  | None => raise c m
  end.

(** Mode of a new file: 0o666 without the bits of the usual mask 0o022. *)
Definition default_mode : Z := 420.

(** [open(p, 'w').write(t)]: the file is created or cut, its mode kept. *)
Definition write_file (p t : string) : IO unit :=
  do w <- get;
  let q := resolve (cwd w) p in
  match tget q (root w) with
  | Some (Dir _) => raise CIsADirectoryError ("[Errno 21] Is a directory: '" +:+ p +:+ "'")
  | Some (File _ m) => update_root (tput q (File t m)) COSError p
  | None => update_root (tput q (File t default_mode)) CFileNotFoundError (no_such_file p)
  end.

(** [shutil.rmtree(p)] *)
Definition rmtree (p : string) : IO unit :=
  do w <- get;
  let q := resolve (cwd w) p in
  match tget q (root w) with
  | Some (Dir _) => update_root (tdel q) COSError p
  | Some (File _ _) => raise CNotADirectoryError ("[Errno 20] Not a directory: '" +:+ p +:+ "'")
  | None => raise CFileNotFoundError (no_such_file p)
  end.

(** [os.makedirs(p, exist_ok=True)] *)
Definition makedirs (p : string) : IO unit :=
  do w <- get;
  let q := resolve (cwd w) p in
  match tget q (root w) with
  | Some (File _ _) => raise CFileExistsError ("[Errno 17] File exists: '" +:+ p +:+ "'")
  | _ => update_root (tmkdirs q) CNotADirectoryError ("[Errno 20] Not a directory: '" +:+ p +:+ "'")
  end.

(** [os.mkdir(p)]: the directory above must exist. *)
Definition mkdir (p : string) : IO unit :=
  do w <- get;
  let q := resolve (cwd w) p in
  match tget q (root w) with
  | Some _ => raise CFileExistsError ("[Errno 17] File exists: '" +:+ p +:+ "'")
  | None => update_root (tput q (Dir [])) CFileNotFoundError (no_such_file p)
  end.

(** [shutil.copytree(src, dst)] *)
Definition copytree (src dst : string) : IO unit :=
  do w <- get;
  match at_path w src with
  | None => raise CFileNotFoundError (no_such_file src)
  | Some (File _ _) => raise CNotADirectoryError ("[Errno 20] Not a directory: '" +:+ src +:+ "'")
  | Some (Dir es) =>
      let q := resolve (cwd w) dst in
      match tget q (root w) with
      | Some _ => raise CFileExistsError ("[Errno 17] File exists: '" +:+ dst +:+ "'")
      | None =>
          update_root (fun t => tmkdirs q t ≫= tput q (Dir es)) CNotADirectoryError
            ("[Errno 20] Not a directory: '" +:+ dst +:+ "'")
      end
  end.

(** [os.rename(a, b)]: a file replaces a file, a directory an empty directory. *)
Definition rename (a b : string) : IO unit :=
  do w <- get;
  match at_path w a, at_path w b with
  | None, _ => raise CFileNotFoundError (no_such_file a)
  | Some (File _ _), Some (Dir _) =>
      raise CIsADirectoryError ("[Errno 21] Is a directory: '" +:+ a +:+ "' -> '" +:+ b +:+ "'")
  | Some (Dir _), Some (File _ _) =>
      raise CNotADirectoryError ("[Errno 20] Not a directory: '" +:+ a +:+ "' -> '" +:+ b +:+ "'")
  | Some (Dir _), Some (Dir (_ :: _)) =>
      raise COSError ("[Errno 39] Directory not empty: '" +:+ a +:+ "' -> '" +:+ b +:+ "'")
  | Some n, _ =>
      update_root (fun t => tdel (resolve (cwd w) a) t ≫= tput (resolve (cwd w) b) n)
        CFileNotFoundError (no_such_file b)
  end.

(** [os.unlink(p)] *)
Definition unlink (p : string) : IO unit :=
  do w <- get;
  let q := resolve (cwd w) p in
  match tget q (root w) with
  | Some (File _ _) => update_root (tdel q) COSError p
  | Some (Dir _) => raise CIsADirectoryError ("[Errno 21] Is a directory: '" +:+ p +:+ "'")
  | None => raise CFileNotFoundError (no_such_file p)
  end.

(** [os.listdir(p)] *)
Definition listdir (p : string) : IO (list string) :=
  do w <- get;
  match at_path w p with
  | Some (Dir es) => ret (keys es)
  | Some (File _ _) => raise CNotADirectoryError ("[Errno 20] Not a directory: '" +:+ p +:+ "'")
  | None => raise CFileNotFoundError (no_such_file p)
  end.

(** [os.getcwd()]: the working directory may have been removed. *)
Definition getcwd : IO string :=
  do w <- get;
  match tget (components (cwd w)) (root w) with
  | Some (Dir _) => ret (cwd w)
  | _ => raise CFileNotFoundError "[Errno 2] No such file or directory"
  end.

(** [os.path.abspath(p)] asks for the working directory only for a relative path. *)
Definition os_abspath (p : string) : IO string :=
  if startswith p "/" then ret (normpath p) else do d <- getcwd; ret (abspath d p).

(** [os.chdir(p)] *)
Definition chdir (p : string) : IO unit :=
  do w <- get;
  match at_path w p with
  | Some (Dir _) => modify (set_cwd (abs_path (resolve (cwd w) p)))
  | Some (File _ _) => raise CNotADirectoryError ("[Errno 20] Not a directory: '" +:+ p +:+ "'")
  | None => raise CFileNotFoundError (no_such_file p)
  end.

(** * Lemmas: trees *)

(** Two paths neither of which leads to the other. *)
Definition apart (p q : list string) : Prop := ¬ p `prefix_of` q ∧ ¬ q `prefix_of` p.

#[export] Instance apart_dec p q : Decision (apart p q).
Proof. unfold apart. apply _. Defined.

Lemma apart_cons c d p q : apart (c :: p) (d :: q) → c = d → apart p q.
Proof. intros [H1 H2] ->. split; intros H; [apply H1|apply H2]; by apply prefix_cons. Qed.

Lemma apart_sym p q : apart p q → apart q p.
Proof. intros [? ?]. by split. Qed.

Lemma apart_nil_l q : ¬ apart [] q.
Proof. intros [H _]. apply H, prefix_nil. Qed.

Lemma apart_nil_r p : ¬ apart p [].
Proof. intros [_ H]. apply H, prefix_nil. Qed.

Lemma apart_last p a b : a ≠ b → apart (p ++ [a]) (p ++ [b]).
Proof.
  intros Hab. split; intros H%prefix_app_inv; apply prefix_cons_inv_1 in H; congruence.
Qed.

Lemma apart_app p q q' : apart q q' → apart (p ++ q) (p ++ q').
Proof. intros [H1 H2]. split; intros H%prefix_app_inv; auto. Qed.

Lemma apart_below p q x : apart p q → apart (p ++ x) q.
Proof.
  intros [H1 H2]. split; intros H.
  - apply H1. etrans; [|exact H]. by apply prefix_app_r.
  - destruct (prefix_weak_total q p (p ++ x)); [done|by apply prefix_app_r|done|done].
Qed.

Lemma apart_head a b p q : a ≠ b → apart (a :: p) (b :: q).
Proof. intros Hab. split; intros H; apply prefix_cons_inv_1 in H; congruence. Qed.

Lemma tget_app p q t : tget (p ++ q) t = tget p t ≫= tget q.
Proof.
  revert t. induction p as [|c p IH]; intros t; simpl; [done|].
  destruct t as [|es]; [done|]. destruct (dget c es); [|done]. apply IH.
Qed.

Lemma tput_Some_inv c p n t t' :
  tput (c :: p) n t = Some t' →
  ∃ es, t = Dir es ∧
    ((p = [] ∧ t' = Dir (dset c n es)) ∨
     (p ≠ [] ∧ ∃ m m', dget c es = Some m ∧ tput p n m = Some m' ∧ t' = Dir (dset c m' es))).
Proof.
  simpl. destruct t as [|es]; [done|]. intros H. exists es. split; [done|].
  destruct p as [|d p]; [left; split; congruence|right]. split; [done|].
  destruct (dget c es) as [m|] eqn:E; [|done].
  destruct (tput (d :: p) n m) as [m'|] eqn:E'; [|done]. injection H as <-. eauto.
Qed.

Lemma tget_tput_eq p n t t' : tput p n t = Some t' → tget p t' = Some n.
Proof.
  revert t t'. induction p as [|c p IH]; intros t t' H; [simpl in *; congruence|].
  apply tput_Some_inv in H as (es & -> & [[-> ->]|(Hp & m & m' & H1 & H2 & ->)]);
    simpl; rewrite dget_dset_eq; [done|eauto].
Qed.

Lemma tget_tput_ne p q n t t' : apart p q → tput p n t = Some t' → tget q t' = tget q t.
Proof.
  revert q t t'. induction p as [|c p IH]; intros q t t' Ha H; [by apply apart_nil_l in Ha|].
  destruct q as [|d q]; [by apply apart_nil_r in Ha|].
  apply tput_Some_inv in H as (es & -> & [[-> ->]|(Hp & m & m' & H1 & H2 & ->)]); simpl;
    rewrite dget_dset; case_decide as Hd; try done; subst d.
  - exfalso. destruct Ha as [Ha _]. apply Ha. by apply prefix_cons, prefix_nil.
  - rewrite H1. eapply IH; [|done]. by eapply apart_cons.
Qed.

(** A put succeeds when the directory above is there. *)
Lemma tput_is_Some p c n t es :
  tget p t = Some (Dir es) → is_Some (tput (p ++ [c]) n t).
Proof.
  revert t. induction p as [|d p IH]; intros t H; simpl in H.
  - injection H as ->. simpl. eauto.
  - destruct t as [|es']; [done|]. simpl. destruct (dget d es') as [m|]; [|done].
    destruct (IH m H) as [m' Hm']. destruct (p ++ [c]) eqn:E; [by destruct p|].
    rewrite <- E in Hm' |- *. rewrite Hm'. simpl. eauto.
Qed.

Lemma tput_exists p n m t : tget p t = Some m → is_Some (tput p n t).
Proof.
  revert t. induction p as [|c p IH]; intros t H; simpl; [eauto|].
  destruct t as [|es]; [done|]. simpl in H. destruct (dget c es) as [m'|]; [|done].
  destruct p as [|d p]; [eauto|]. destruct (IH m' H) as [x ->]. simpl. eauto.
Qed.

Lemma dset_same {K V} `{EqDecision K} (k : K) (v : V) d : dget k d = Some v → dset k v d = d.
Proof.
  induction d as [|[k' v'] d IH]; simpl; [done|]. case_decide as Hk; [by intros [= ->]; subst|].
  intros Hd. by rewrite IH.
Qed.

Lemma tput_same p n t : tget p t = Some n → tput p n t = Some t.
Proof.
  revert t. induction p as [|c p IH]; intros t H; [simpl in *; congruence|].
  simpl in H |- *. destruct t as [|es]; [done|]. destruct (dget c es) as [m|] eqn:E; [|done].
  destruct p as [|d p]; [simpl in H; injection H as ->; by rewrite dset_same|].
  rewrite (IH m H). simpl. by rewrite dset_same.
Qed.

(** A put leaves the directories above it, with their other entries. *)
Lemma tget_tput_above p q c n t t' es :
  tput (p ++ c :: q) n t = Some t' → tget p t = Some (Dir es) →
  ∃ m, tget p t' = Some (Dir (dset c m es)).
Proof.
  revert t t'. induction p as [|d p IH]; intros t t' H Hp; simpl app in H.
  - simpl in Hp. injection Hp as ->.
    apply tput_Some_inv in H as (es' & [= <-] & [[-> ->]|(_ & m & m' & _ & _ & ->)]); simpl; eauto.
  - apply tput_Some_inv in H as (es' & -> & [[Hn _]|(_ & m & m' & H1 & H2 & ->)]).
    { by destruct p. }
    simpl in *. rewrite H1 in Hp. rewrite dget_dset_eq. eauto.
Qed.

Lemma tmkdirs_cons c p es :
  tmkdirs (c :: p) (Dir es) =
  (fun m' => Dir (dset c m' es)) <$>
    tmkdirs p (match dget c es with Some m => m | None => Dir [] end).
Proof. done. Qed.

Lemma tmkdirs_is_dir p t t' : tmkdirs p t = Some t' → ∃ es, tget p t' = Some (Dir es).
Proof.
  revert t t'. induction p as [|c p IH]; intros t t' H; simpl in H.
  - destruct t as [|es]; [done|]. injection H as <-. simpl. eauto.
  - destruct t as [|es]; [done|].
    destruct (tmkdirs p _) as [m'|] eqn:E; [|done]. injection H as <-. simpl.
    rewrite dget_dset_eq. eauto.
Qed.

(** Making directories loses nothing that was there. *)
Lemma tmkdirs_keeps p q t t' n :
  tmkdirs p t = Some t' → tget q t = Some n → is_dir n = false → tget q t' = Some n.
Proof.
  revert q t t'. induction p as [|c p IH]; intros q t t' H Hq Hn; simpl in H.
  - destruct t as [|es]; [done|]. by injection H as <-.
  - destruct t as [|es]; [done|].
    destruct (tmkdirs p _) as [m'|] eqn:E; [|done]. injection H as <-.
    destruct q as [|d q]; [simpl in Hq; by injection Hq as <-|]. simpl in *.
    rewrite dget_dset. case_decide as Hd; [subst d|done].
    destruct (dget c es) as [m|]; [|done]. eauto.
Qed.

(** A directory that did not exist is created empty. *)
Lemma tmkdirs_new p t t' : tmkdirs p t = Some t' → tget p t = None → tget p t' = Some (Dir []).
Proof.
  revert t t'. induction p as [|c p IH]; intros t t' H Hp; [done|]. simpl in *.
  destruct t as [|es]; [done|].
  destruct (tmkdirs p _) as [m'|] eqn:E; [|done]. injection H as <-. simpl.
  rewrite dget_dset_eq. destruct (dget c es) as [m|]; [eauto|].
  destruct p as [|d p]; [simpl in E; by injection E as <-|].
  by apply (IH (Dir []) m').
Qed.

Lemma tree_wf_entry es c m : tree_wf (Dir es) → dget c es = Some m → tree_wf m.
Proof.
  intros [_ Hwf] E%dget_elem. induction es as [|e es IH]; [by apply not_elem_of_nil in E|].
  destruct Hwf as [H1 H2]. apply elem_of_cons in E as [<-|E]; auto.
Qed.

Lemma tree_wf_get p t m : tree_wf t → tget p t = Some m → tree_wf m.
Proof.
  revert t. induction p as [|c p IH]; intros t Hwf H; simpl in H; [by injection H as <-|].
  destruct t as [|es]; [done|]. destruct (dget c es) as [n|] eqn:E; [|done].
  eapply IH; [|done]. by eapply tree_wf_entry.
Qed.

(** Removing what is at a path does not stop directories from being made there. *)
Lemma tmkdirs_after_tdel p t t' :
  is_Some (tmkdirs p t) → tdel p t = Some t' → tree_wf t → is_Some (tmkdirs p t').
Proof.
  revert t t'. induction p as [|c p IH]; intros t t' [x Hx] Hd Hwf; [done|].
  destruct t as [|es]; [done|]. simpl in Hd, Hx.
  destruct (dget c es) as [m|] eqn:E; [|done].
  destruct (tmkdirs p m) as [m1|] eqn:Em; [|done].
  destruct p as [|d p].
  - injection Hd as <-. simpl. rewrite dget_ddel_eq by apply Hwf. simpl. eauto.
  - destruct (tdel (d :: p) m) as [m'|] eqn:E'; [|done]. injection Hd as <-.
    destruct (IH m m' (ex_intro _ _ Em) E' (tree_wf_entry _ _ _ Hwf E)) as [y Hy].
    rewrite tmkdirs_cons, dget_dset_eq, Hy. simpl. eauto.
Qed.

Lemma tdel_is_Some p t m : p ≠ [] → tget p t = Some m → is_Some (tdel p t).
Proof.
  revert t. induction p as [|c p IH]; intros t Hp H; [done|]. simpl in H |- *.
  destruct t as [|es]; [done|]. destruct (dget c es) as [n|]; [|done].
  destruct p as [|d p]; [eauto|]. destruct (IH n) as [x ->]; [done..|]. simpl. eauto.
Qed.

Lemma tdel_gone p t t' :
  tdel p t = Some t' → tree_wf t → tget p t' = None.
Proof.
  revert t t'. induction p as [|c p IH]; intros t t' H Hwf; [done|].
  destruct t as [|es]; [done|]. simpl in H. destruct (dget c es) as [m|] eqn:E; [|done].
  destruct Hwf as [Hnd Hwf]. destruct p as [|d p].
  - injection H as <-. simpl. by rewrite dget_ddel_eq.
  - destruct (tdel (d :: p) m) as [m'|] eqn:E'; [|done]. injection H as <-. simpl tget.
    rewrite dget_dset_eq. eapply (IH m); [done|]. by eapply (tree_wf_entry es c).
Qed.

Lemma app_nonnil {A} (l : list A) x : l ++ [x] ≠ [].
Proof. by destruct l. Qed.

Lemma tdel_above p c t t' es :
  tdel (p ++ [c]) t = Some t' → tget p t = Some (Dir es) → ∃ es', tget p t' = Some (Dir es').
Proof.
  revert t t'. induction p as [|d p IH]; intros t t' H Hp; simpl in H, Hp.
  - injection Hp as ->. destruct (dget c es); [|done]. injection H as <-. simpl. eauto.
  - destruct t as [|es0]; [done|]. destruct (dget d es0) as [m|] eqn:E; [|done].
    destruct (p ++ [c]) as [|d' p'] eqn:Ep; [by destruct p|].
    destruct (tdel (d' :: p') m) as [m'|] eqn:E'; [|done]. simpl in H. injection H as <-.
    simpl. rewrite dget_dset_eq. by eapply IH.
Qed.

(** A removal leaves the directory above it with its other entries. *)
Lemma tget_tdel_above p c t t' es :
  tdel (p ++ [c]) t = Some t' → tget p t = Some (Dir es) → tget p t' = Some (Dir (ddel c es)).
Proof.
  revert t t'. induction p as [|d p IH]; intros t t' H Hp; simpl in H, Hp.
  - injection Hp as ->. destruct (dget c es); [|done]. by injection H as <-.
  - destruct t as [|es0]; [done|]. destruct (dget d es0) as [m|] eqn:E; [|done].
    destruct (p ++ [c]) as [|d' p'] eqn:Ep; [by destruct p|].
    destruct (tdel (d' :: p') m) as [m'|] eqn:E'; [|done]. simpl in H. injection H as <-.
    simpl. rewrite dget_dset_eq. by eapply IH.
Qed.

Lemma tget_tdel_ne p q t t' : apart p q → tdel p t = Some t' → tget q t' = tget q t.
Proof.
  revert q t t'. induction p as [|c p IH]; intros q t t' Ha H; [done|].
  destruct q as [|d q]; [by apply apart_nil_r in Ha|].
  destruct t as [|es]; [done|]. simpl in H. destruct (dget c es) as [m|] eqn:E; [|done].
  destruct p as [|x p].
  - injection H as <-. simpl. destruct (decide (d = c)) as [->|Hd].
    + exfalso. destruct Ha as [Ha _]. apply Ha. by apply prefix_cons, prefix_nil.
    + by rewrite dget_ddel_ne.
  - destruct (tdel (x :: p) m) as [m'|] eqn:E'; [|done]. injection H as <-. simpl tget.
    rewrite dget_dset. case_decide as Hd; [subst d|done]. rewrite E.
    eapply IH; [|done]. by eapply apart_cons.
Qed.

(** ** The directory walk *)

Lemma walk_go_elem top es x :
  x ∈ (fix go (l : list (string * node)) : list (string * list string) :=
         match l with
         | [] => []
         | e :: l' => walk (join2 top e.1) e.2 ++ go l'
         end) es ↔ ∃ e, e ∈ es ∧ x ∈ walk (join2 top e.1) e.2.
Proof.
  induction es as [|e es IH]; [set_solver|]. rewrite elem_of_app, IH. set_solver.
Qed.

(** The walk visits exactly the directories below its top, each with its files. *)
Lemma walk_spec t :
  ∀ top d fs, tree_wf t →
  (d, fs) ∈ walk top t ↔
  ∃ ns es, tget ns t = Some (Dir es) ∧ d = foldl join2 top ns ∧ fs = file_names es.
Proof.
  induction t as [x m|es IH] using node_ind'; intros top d fs Hwf; simpl.
  { split; [by intros ?%not_elem_of_nil|]. intros ([|n ns] & es & ? & _); done. }
  rewrite elem_of_cons, walk_go_elem. split.
  - intros [[= -> ->]|(e & He & Hin)]; [by exists [], es|].
    rewrite Forall_forall in IH. destruct e as [n m]. simpl in *.
    assert (Hn : dget n es = Some m) by (apply elem_dget; [apply Hwf|done]).
    apply (IH _ He) in Hin as (ns & es' & H1 & H2 & H3); [|by eapply tree_wf_entry].
    exists (n :: ns), es'. simpl. by rewrite Hn.
  - intros ([|n ns] & es' & H1 & H2 & H3); simpl in *.
    + left. congruence.
    + right. destruct (dget n es) as [m|] eqn:E; [|done]. exists (n, m).
      apply dget_elem in E as He. split; [done|]. rewrite Forall_forall in IH.
      apply (IH _ He); [by eapply tree_wf_entry|]. eauto.
Qed.

Lemma elem_file_names es n :
  NoDup (keys es) → n ∈ file_names es ↔ ∃ x m, dget n es = Some (File x m).
Proof.
  intros Hnd. unfold file_names. rewrite list_elem_of_fmap. split.
  - intros ([k v] & -> & [Hin Hf]%list_elem_of_In%filter_In%and_comm).
    apply list_elem_of_In in Hf. simpl in *. destruct v as [x m|]; [|done].
    exists x, m. by apply elem_dget.
  - intros (x & m & E%dget_elem). exists (n, File x m). split; [done|].
    apply list_elem_of_In, filter_In. by split; [apply list_elem_of_In|].
Qed.

(** * Lemmas: what an operation leaves alone *)

Lemma frame_get {V} (obs : world → V) : frame obs (get (S := world)).
Proof. done. Qed.

Lemma frame_modify {V} (obs : world → V) f : (∀ w, obs (f w) = obs w) → frame obs (modify f).
Proof. intros H w. apply H. Qed.

(** Observations of the process that file operations do not touch. *)
Class NotRoot {V} (obs : world → V) := not_root : ∀ r w, obs (set_root r w) = obs w.

#[export] Instance cwd_not_root : NotRoot cwd.
Proof. done. Qed.
#[export] Instance env_not_root : NotRoot env.
Proof. done. Qed.
#[export] Instance handlers_not_root : NotRoot handlers.
Proof. done. Qed.
#[export] Instance log_not_root : NotRoot log.
Proof. done. Qed.

Section NotRootFrames.
Context {V : Type} (obs : world → V) `{!NotRoot obs}.

Lemma frame_set_root r : frame obs (modify (set_root r)).
Proof. apply frame_modify, not_root. Qed.

Lemma frame_update_root f c m : frame obs (update_root f c m).
Proof.
  apply frame_bind; [apply frame_get|]. intros w. case_match; [apply frame_set_root|done].
Qed.

Ltac file_op :=
  apply frame_bind; [apply frame_get|]; intros w; simpl; repeat case_match;
  first [apply frame_update_root | apply frame_ret | apply frame_raise].

Lemma frame_read_file p : frame obs (read_file p).
Proof. file_op. Qed.
Lemma frame_write_file p t : frame obs (write_file p t).
Proof. file_op. Qed.
Lemma frame_rmtree p : frame obs (rmtree p).
Proof. file_op. Qed.
Lemma frame_makedirs p : frame obs (makedirs p).
Proof. file_op. Qed.
Lemma frame_mkdir p : frame obs (mkdir p).
Proof. file_op. Qed.
Lemma frame_copytree a b : frame obs (copytree a b).
Proof. file_op. Qed.
Lemma frame_rename a b : frame obs (rename a b).
Proof. file_op. Qed.
Lemma frame_unlink p : frame obs (unlink p).
Proof. file_op. Qed.
Lemma frame_path_exists p : frame obs (path_exists p).
Proof. apply frame_gets. Qed.
Lemma frame_is_directory p : frame obs (is_directory p).
Proof. apply frame_gets. Qed.
End NotRootFrames.

Lemma frame_getcwd {V} (obs : world → V) : frame obs getcwd.
Proof. apply frame_bind; [apply frame_get|]. intros w. by repeat case_match. Qed.

#[export] Hint Resolve frame_get frame_set_root frame_update_root frame_read_file
  frame_write_file frame_rmtree frame_makedirs frame_mkdir frame_copytree frame_rename
  frame_unlink frame_path_exists frame_is_directory frame_getcwd : frames.

Lemma frame_os_abspath {V} (obs : world → V) p : frame obs (os_abspath p).
Proof. unfold os_abspath. case_if; [done|]. apply frame_bind; [apply frame_getcwd|done]. Qed.

#[export] Hint Resolve frame_os_abspath : frames.

Lemma exits_os_abspath P p : exits P (os_abspath p).
Proof.
  unfold os_abspath, getcwd. case_if; [done|]. apply exits_bind; [|done]. apply exits_bind; [done|].
  intros w. by repeat case_match.
Qed.

Lemma os_abspath_Ret p w es :
  tget (components (cwd w)) (root w) = Some (Dir es) → os_abspath p w = (Ret (abspath (cwd w) p), w).
Proof.
  intros Hw. unfold os_abspath, abspath. destruct (startswith p "/") eqn:Hp; [by rewrite join2_absolute|].
  unfold bind, getcwd, bind, get. by rewrite Hw.
Qed.
#[export] Hint Resolve cwd_not_root env_not_root handlers_not_root log_not_root : frames typeclass_instances.

(** The log and the console are not observed by [cwd], [env], [root]. *)
Lemma frame_logging_cwd l m : frame cwd (logging l m).
Proof. done. Qed.
Lemma frame_logging_env l m : frame env (logging l m).
Proof. done. Qed.
Lemma frame_logging_root l m : frame root (logging l m).
Proof. done. Qed.
Lemma frame_print_cwd s : frame cwd (print s).
Proof. done. Qed.
Lemma frame_print_env s : frame env (print s).
Proof. done. Qed.
Lemma frame_print_root s : frame root (print s).
Proof. done. Qed.

#[export] Hint Resolve frame_logging_cwd frame_logging_env frame_logging_root
  frame_print_cwd frame_print_env frame_print_root : frames.

(** * Lemmas: reading and writing *)

Lemma read_file_Ret w p t :
  file_text w p = Some t → read_file p w = (Ret (universal_newlines t), w).
Proof.
  unfold file_text, read_file, bind, get. destruct (at_path w p) as [[t' m|]|]; try done.
  by intros [= <-].
Qed.

(** Writing a file that exists: its text changes, its mode and every path apart
    from it do not. *)
Lemma write_file_existing w p t t0 m :
  at_path w p = Some (File t0 m) →
  ∃ r, write_file p t w = (Ret tt, set_root r w) ∧
       tput (resolve (cwd w) p) (File t m) (root w) = Some r.
Proof.
  intros H. unfold at_path in H. unfold write_file, bind, get. rewrite H.
  destruct (tput_exists _ (File t m) _ _ H) as [r Hr]. exists r. split; [|done].
  unfold update_root, bind, get. by rewrite Hr.
Qed.

Lemma at_path_put w p n r :
  tput (resolve (cwd w) p) n (root w) = Some r → at_path (set_root r w) p = Some n.
Proof. intros H. unfold at_path. simpl. by eapply tget_tput_eq. Qed.

Lemma at_path_put_apart w p q n r :
  tput (resolve (cwd w) p) n (root w) = Some r → apart (resolve (cwd w) p) (resolve (cwd w) q) →
  at_path (set_root r w) q = at_path w q.
Proof. intros H Ha. unfold at_path. simpl. by eapply tget_tput_ne. Qed.

Lemma file_at w p t : file_text w p = Some t → ∃ m, at_path w p = Some (File t m).
Proof. unfold file_text. destruct (at_path w p) as [[t' m|]|]; [|done|done]. intros [= <-]. eauto. Qed.

(** A file that was written holds what was written. *)
Lemma write_file_text w p t w' : write_file p t w = (Ret tt, w') → file_text w' p = Some t.
Proof.
  unfold write_file, update_root, bind, get. unfold file_text.
  destruct (tget (resolve (cwd w) p) (root w)) as [[t0 m|]|]; [|done|];
    destruct (tput _ _ _) as [r|] eqn:Hr; try done; intros [= <-]; by rewrite (at_path_put _ _ _ _ Hr).
Qed.

(** Writing a file leaves every directory a directory. *)
Definition dirs_kept (r r' : node) : Prop :=
  ∀ q es, tget q r = Some (Dir es) → ∃ es', tget q r' = Some (Dir es').

Lemma dirs_kept_trans r1 r2 r3 : dirs_kept r1 r2 → dirs_kept r2 r3 → dirs_kept r1 r3.
Proof. intros H1 H2 q es [es' Hq]%H1. by eapply H2. Qed.

Lemma tput_dirs_kept p x m t t' :
  tput p (File x m) t = Some t' → (∀ es, tget p t ≠ Some (Dir es)) → dirs_kept t t'.
Proof.
  intros Hp Hf q es Hq. destruct (decide (p `prefix_of` q)) as [[z ->]|H1].
  { rewrite tget_app in Hq. destruct (tget p t) as [[y k|es']|] eqn:E; simpl in Hq; [|by destruct (Hf es')|done].
    by destruct z. }
  destruct (decide (q `prefix_of` p)) as [[[|c z] ->]|H2].
  - rewrite app_nil_r in H1. by destruct H1.
  - destruct (tget_tput_above _ _ _ _ _ _ _ Hp Hq) as [n Hn]. eauto.
  - rewrite (tget_tput_ne p q _ _ _) with (2 := Hp); [by exists es|done].
Qed.

(** Directories that are not at or below a path stay directories. *)
Definition dirs_kept_but (p : list string) (r r' : node) : Prop :=
  ∀ q es, ¬ p `prefix_of` q → tget q r = Some (Dir es) → ∃ es', tget q r' = Some (Dir es').

Lemma dirs_kept_but_trans p r1 r2 r3 : dirs_kept_but p r1 r2 → dirs_kept_but p r2 r3 → dirs_kept_but p r1 r3.
Proof. intros H1 H2 q es Hp [es' Hq]%H1; [|done]. by eapply H2. Qed.

Lemma dirs_kept_weaken p r r' : dirs_kept r r' → dirs_kept_but p r r'.
Proof. intros Hd q es _. apply Hd. Qed.

Lemma tmkdirs_dirs_kept p t t' : tmkdirs p t = Some t' → dirs_kept t t'.
Proof.
  revert t t'. induction p as [|c p IH]; intros t t' Ht q es Hq; simpl in Ht.
  - destruct t; [done|]. injection Ht as <-. by exists es.
  - destruct t as [|es0]; [done|]. destruct (tmkdirs p _) as [m'|] eqn:E; [|done]. injection Ht as <-.
    destruct q as [|d q]; [by eexists|]. simpl in *. rewrite dget_dset.
    case_decide as Hd; [subst d|by exists es]. destruct (dget c es0) as [m|]; [|done]. by eapply IH.
Qed.

Lemma tdel_dirs_kept p t t' : tdel p t = Some t' → dirs_kept_but p t t'.
Proof.
  revert t t'. induction p as [|c p IH]; intros t t' Ht q es Hp Hq; [done|].
  destruct t as [|es0]; [done|]. simpl in Ht. destruct (dget c es0) as [m|] eqn:E; [|done].
  destruct q as [|d q]; [destruct p; [|destruct (tdel _ m); [|done]]; injection Ht as <-; by eexists|].
  simpl in Hq. destruct p as [|x p].
  - injection Ht as <-. simpl. rewrite dget_ddel_ne; [by exists es|]. intros ->. apply Hp.
    by apply prefix_cons, prefix_nil.
  - destruct (tdel (x :: p) m) as [m'|] eqn:E'; [|done]. injection Ht as <-. simpl. rewrite dget_dset.
    case_decide as Hd; [subst d|by exists es]. rewrite E in Hq. eapply IH; [exact E'| |exact Hq].
    intros Hx. apply Hp. by apply prefix_cons.
Qed.

Lemma tput_dirs_kept_but p n t t' : tput p n t = Some t' → dirs_kept_but p t t'.
Proof.
  intros Hp q es H1 Hq. destruct (decide (q `prefix_of` p)) as [[[|c z] ->]|H2].
  - rewrite app_nil_r in H1. by destruct H1.
  - destruct (tget_tput_above _ _ _ _ _ _ _ Hp Hq) as [x Hx]. eauto.
  - rewrite (tget_tput_ne p q _ _ _) with (2 := Hp); [by exists es|done].
Qed.

(** Writing a plain name in a directory. *)
Lemma write_file_child w p n t es :
  startswith p "/" = true → endswith p "/" = false → plain n = true →
  at_path w p = Some (Dir es) → (∀ es', dget n es ≠ Some (Dir es')) →
  ∃ r m, write_file (join2 p n) t w = (Ret tt, set_root r w) ∧
         tput (resolve (cwd w) p ++ [n]) (File t m) (root w) = Some r.
Proof.
  intros Hp He Hn Ha Hd. pose proof (resolve_below (cwd w) p [n] Hp He ltac:(done) ltac:(by constructor)) as Hr.
  simpl join in Hr. unfold write_file, update_root, bind, get. rewrite Hr. unfold at_path in Ha.
  rewrite tget_app, Ha. simpl. destruct (dget n es) as [[t0 m|es']|] eqn:E; [|by destruct (Hd es')|].
  - destruct (tput_is_Some _ n (File t m) _ _ Ha) as [r Hr']. exists r, m. by rewrite Hr'.
  - destruct (tput_is_Some _ n (File t default_mode) _ _ Ha) as [r Hr']. exists r, default_mode. by rewrite Hr'.
Qed.

Lemma tget_parent p c t n : tget (p ++ [c]) t = Some n → ∃ es, tget p t = Some (Dir es).
Proof.
  rewrite tget_app. destruct (tget p t) as [[|es]|]; simpl; try done. eauto.
Qed.

(** ** The tree operations keep the tree well formed *)

Lemma tree_wf_dir es : tree_wf (Dir es) ↔ NoDup (keys es) ∧ Forall (fun e => tree_wf e.2) es.
Proof.
  simpl. apply and_iff_compat_l. induction es as [|e es IH]; [done|].
  rewrite Forall_cons. by rewrite IH.
Qed.

Lemma tree_wf_dset c n es : tree_wf (Dir es) → tree_wf n → tree_wf (Dir (dset c n es)).
Proof.
  rewrite !tree_wf_dir. intros [H1 H2] Hn. split; [by apply (dset_wf c n)|]. clear H1.
  induction H2 as [|[k v] es Hv Hes IH]; simpl; [by apply Forall_singleton|].
  case_decide; by constructor.
Qed.

Lemma tree_wf_ddel c es : tree_wf (Dir es) → tree_wf (Dir (ddel c es)).
Proof.
  rewrite !tree_wf_dir. intros [H1 H2]. split; [by apply (ddel_wf c es)|]. clear H1.
  induction H2 as [|[k v] es Hv Hes IH]; simpl; [done|]. case_decide; [done|]. by constructor.
Qed.

Lemma tput_wf p n t t' : tput p n t = Some t' → tree_wf t → tree_wf n → tree_wf t'.
Proof.
  revert t t'. induction p as [|c p IH]; intros t t' H Ht Hn; [simpl in H; congruence|].
  apply tput_Some_inv in H as (es & -> & [[-> ->]|(Hp & m & m' & H1 & H2 & ->)]);
    apply tree_wf_dset; try done. eapply IH; [exact H2| |done]. by eapply tree_wf_entry.
Qed.

Lemma tdel_wf p t t' : tdel p t = Some t' → tree_wf t → tree_wf t'.
Proof.
  revert t t'. induction p as [|c p IH]; intros t t' H Ht; [done|].
  destruct t as [|es]; [done|]. simpl in H. destruct (dget c es) as [m|] eqn:E; [|done].
  destruct p as [|d p]; [injection H as <-; by apply tree_wf_ddel|].
  destruct (tdel (d :: p) m) as [m'|] eqn:E'; [|done]. injection H as <-.
  apply tree_wf_dset; [done|]. eapply IH; [done|]. by eapply tree_wf_entry.
Qed.

Lemma tmkdirs_wf p t t' : tmkdirs p t = Some t' → tree_wf t → tree_wf t'.
Proof.
  revert t t'. induction p as [|c p IH]; intros t t' H Ht; simpl in H; destruct t as [|es]; try done.
  - by injection H as <-.
  - destruct (tmkdirs p _) as [m'|] eqn:E; [|done]. injection H as <-. apply tree_wf_dset; [done|].
    eapply IH; [exact E|]. destruct (dget c es) eqn:E'; [by eapply tree_wf_entry|].
    apply tree_wf_dir. split; constructor.
Qed.

(** Two trees that agree on every path apart from the given ones. *)
Definition same_but (ps : list (list string)) (r r' : node) : Prop :=
  ∀ q, Forall (fun p => apart p q) ps → tget q r' = tget q r.

Lemma same_but_trans ps ps' r1 r2 r3 :
  same_but ps r1 r2 → same_but ps' r2 r3 → same_but (ps ++ ps') r1 r3.
Proof. intros H1 H2 q [Ha Hb]%Forall_app. by rewrite (H2 q Hb), (H1 q Ha). Qed.

Lemma same_but_tput p n t t' : tput p n t = Some t' → same_but [p] t t'.
Proof. intros H q Hq. rewrite Forall_singleton in Hq. exact (tget_tput_ne _ _ _ _ _ Hq H). Qed.

Lemma same_but_refl ps r : same_but ps r r.
Proof. done. Qed.

(** What is done below a path is done at it. *)
Lemma same_but_below S ps r r' :
  same_but ps r r' → Forall (fun p => S `prefix_of` p) ps → same_but [S] r r'.
Proof.
  intros Hs Hps q Hq; rewrite Forall_singleton in Hq. apply Hs. eapply Forall_impl; [exact Hps|].
  intros p [x ->]. by apply apart_below.
Qed.

Lemma same_but_step S r1 r2 r3 : same_but [S] r1 r2 → same_but [S] r2 r3 → same_but [S] r1 r3.
Proof. intros H1 H2 q Hq. by rewrite (H2 q Hq), (H1 q Hq). Qed.

Lemma tget_tmkdirs_ne p q t t' : apart p q → tmkdirs p t = Some t' → tget q t' = tget q t.
Proof.
  revert q t t'. induction p as [|c p IH]; intros q t t' Ha H; [by apply apart_nil_l in Ha|].
  destruct q as [|d q]; [by apply apart_nil_r in Ha|]. simpl in H. destruct t as [|es]; [done|].
  destruct (tmkdirs p _) as [m'|] eqn:E; [|done]. injection H as <-. simpl. rewrite dget_dset.
  case_decide as Hd; [subst d|done]. apply apart_cons in Ha; [|done]. rewrite (IH _ _ _ Ha E).
  destruct (dget c es); [done|]. destruct q; [by apply apart_nil_r in Ha|done].
Qed.

(** Directories can be made along a path exactly when no file is in the way. *)
Lemma tmkdirs_iff p t :
  is_Some (tmkdirs p t) ↔ ∀ q x m, q `prefix_of` p → tget q t ≠ Some (File x m).
Proof.
  revert t. induction p as [|c p IH]; intros t.
  - destruct t as [x m|es]; simpl.
    + split; [by intros []|]. intros H. by destruct (H [] x m).
    + split; [intros _ q x m ->%prefix_nil_inv; done|by eexists].
  - destruct t as [x m|es].
    { split; [by intros []|]. intros H. by destruct (H [] x m (prefix_nil _)). }
    rewrite tmkdirs_cons, fmap_is_Some, IH. split.
    + intros H [|d q] x m; [done|]. intros Hq. pose proof (prefix_cons_inv_1 _ _ _ _ Hq) as ->.
      apply prefix_cons_inv_2 in Hq. specialize (H q x m Hq). simpl. by destruct (dget c es).
    + intros H q x m Hq. specialize (H (c :: q) x m (prefix_cons c _ _ Hq)). simpl in H.
      destruct (dget c es); [done|]. by destruct q.
Qed.

(** The directories above one that is there. *)
Lemma tget_above q p t es : q `prefix_of` p → tget p t = Some (Dir es) → ∃ es', tget q t = Some (Dir es').
Proof.
  intros [x ->]. rewrite tget_app. destruct (tget q t) as [[y m|es']|]; simpl; [|by eexists|done].
  by destruct x.
Qed.

(** Work at a path that ends with a directory there leaves the other directories. *)
Lemma same_but_dirs S r r' es :
  same_but [S] r r' → tget S r' = Some (Dir es) → dirs_kept_but S r r'.
Proof.
  intros Hs Hd q eq Hq E. destruct (decide (q `prefix_of` S)) as [Hp|Hp]; [by eapply tget_above|].
  exists eq. rewrite Hs; [done|]. by apply Forall_singleton.
Qed.

Lemma same_but_tmkdirs S p r r' es :
  same_but [S] r r' → tget S r' = Some (Dir es) → apart S p → is_Some (tmkdirs p r) → is_Some (tmkdirs p r').
Proof.
  rewrite !tmkdirs_iff. intros Hs Hd Hap Hp q x m Hq. destruct (decide (q `prefix_of` S)) as [Hqs|Hqs].
  - destruct (tget_above _ _ _ _ Hqs Hd) as [es' ->]. done.
  - rewrite Hs; [by apply Hp|]. apply Forall_singleton. split; [|done]. intros HS.
    destruct Hap as [Hap _]. apply Hap. etrans; [exact HS|exact Hq].
Qed.

(** ** What an operation on a path works on, however it ends *)

Lemma update_root_same S f c m w :
  (∀ r, f (root w) = Some r → same_but [S] (root w) r) →
  same_but [S] (root w) (root (update_root f c m w).2) ∧ cwd (update_root f c m w).2 = cwd w.
Proof.
  intros Hf. unfold update_root. rewrite (bind_Ret _ _ _ w w) by done.
  destruct (f (root w)) as [r|]; [|done]. split; [by apply Hf|done].
Qed.

(** The computation works at the path [p] only. *)
Definition works_at {A} (p : string) (m : IO A) : Prop :=
  ∀ w, same_but [resolve (cwd w) p] (root w) (root (m w).2) ∧ cwd (m w).2 = cwd w.

Lemma works_at_bind {A B} p (m : IO A) (k : A → IO B) :
  works_at p m → (∀ a, works_at p (k a)) → works_at p (bind m k).
Proof.
  intros Hm Hk w. destruct (Hm w) as [H1 H2]. unfold bind. destruct (m w) as [[a|e|c] w']; [|done..].
  simpl in *. destruct (Hk a w') as [H3 H4]. rewrite H2 in H3. split; [by eapply same_but_step|congruence].
Qed.

Lemma works_at_read {A} p (m : IO A) : (∀ w, (m w).2 = w) → works_at p m.
Proof. intros Hm w. by rewrite Hm. Qed.

Lemma works_at_rmtree p : works_at p (rmtree p).
Proof.
  intros w. unfold rmtree. rewrite (bind_Ret _ _ _ w w) by done. cbv zeta.
  destruct (tget _ (root w)) as [[|es]|]; [done| |done]. apply update_root_same.
  intros r E q Hq; rewrite Forall_singleton in Hq. by eapply tget_tdel_ne.
Qed.

Lemma works_at_makedirs p : works_at p (makedirs p).
Proof.
  intros w. unfold makedirs. rewrite (bind_Ret _ _ _ w w) by done. cbv zeta.
  destruct (tget _ (root w)) as [[|es]|]; [done|..]; apply update_root_same;
    intros r E q Hq; rewrite Forall_singleton in Hq; by eapply tget_tmkdirs_ne.
Qed.

Lemma works_at_copytree a p : works_at p (copytree a p).
Proof.
  intros w. unfold copytree. rewrite (bind_Ret _ _ _ w w) by done. cbv zeta.
  destruct (at_path w a) as [[|es]|]; [done| |done]. destruct (tget _ (root w)); [done|].
  apply update_root_same. intros r (t1 & E1 & E2)%bind_Some q Hq; rewrite Forall_singleton in Hq.
  by rewrite (tget_tput_ne _ _ _ _ _ Hq E2), (tget_tmkdirs_ne _ _ _ _ Hq E1).
Qed.

(** Moving a file inside a directory. *)
Lemma rename_file w a b d x y t m :
  resolve (cwd w) a = d ++ [x] → resolve (cwd w) b = d ++ [y] → x ≠ y → tree_wf (root w) →
  at_path w a = Some (File t m) → at_path w b = None →
  ∃ r, rename a b w = (Ret tt, set_root r w) ∧ tget (d ++ [y]) r = Some (File t m) ∧
    tget (d ++ [x]) r = None ∧ same_but [d ++ [x]; d ++ [y]] (root w) r ∧ tree_wf r.
Proof.
  intros Ha Hb Hxy Hwf Hat Hbt. unfold rename, bind, get. rewrite Hat, Hbt, Ha, Hb.
  unfold at_path in Hat. rewrite Ha in Hat. destruct (tget_parent _ _ _ _ Hat) as [es Hd].
  destruct (tdel_is_Some (d ++ [x]) _ _ (app_nonnil d x) Hat) as [r1 H1].
  destruct (tdel_above _ _ _ _ _ H1 Hd) as [es' Hd1].
  destruct (tput_is_Some d y (File t m) r1 es' Hd1) as [r2 H2].
  exists r2. unfold update_root, bind, get. rewrite H1. simpl. rewrite H2.
  pose proof (apart_last d y x (not_eq_sym Hxy)) as Hap.
  split; [done|]. split; [by eapply tget_tput_eq|]. split.
  - rewrite (tget_tput_ne _ _ _ _ _ Hap H2). by eapply tdel_gone.
  - split; [|by eapply tput_wf; [|eapply tdel_wf|]].
    intros q Hq. rewrite Forall_cons, Forall_singleton in Hq. destruct Hq as [Hq1 Hq2].
    by rewrite (tget_tput_ne _ _ _ _ _ Hq2 H2), (tget_tdel_ne _ _ _ _ Hq1 H1).
Qed.

(** * A process to evaluate the operations in *)

(** A machine of eight processors on which every program ends well after writing one
    line to each of its streams. *)
Definition demo_host : Host := {|
  spawn _ _ _ _ t := Some (Exited 0, t, ("out" +:+ nl, "err" +:+ nl));
  cpu_count := 8;
  pw_home _ := None
|}.

Definition demo_root : node :=
  Dir [("work", Dir [("Makefile", File ("NAME=${N}" +:+ nl +:+ "SRC=${N}.c" +:+ nl) 420);
                     ("out", File "" 420); ("err", File "" 420);
                     ("sub", Dir [("a.pfile", File "a" 420); ("b.h", File "b" 420)])]);
       ("tmp", Dir [])].

Definition demo_world : world := World demo_root "/work" ∅ [] [] [] [] WARNING.
