(* ===== verification/PyFloat.v ===== *)
(** The floating point numbers of the interpreter, as far as the sources use them.  Their
    representation and rounding are those of the machine; the operations are the fields
    of a class. *)

From S2P Require Import Prelude PyStr Effect.

Class Float := {
  float : Type;
  (** [float(s)]: [None] is [ValueError] *)
  float_of : string → option float;
  fof_Z : Z → float;
  fadd : float → float → float;
  fsub : float → float → float;
  fmul : float → float → float;
  fdiv : float → float → float;
  (** [x == 0] *)
  fzero : float → bool;
  fltb : float → float → bool;
  (** [int(x)] and [math.ceil(x)] *)
  ftrunc : float → Z;
  fceil : float → Z;
  (** [str(x)], ["%g" % x] and ["%.3f" % x] *)
  frepr : float → string;
  fmt_g : float → string;
  fmt_f : nat → float → string
}.

Section Float.
Context `{Float} {S : Type}.

Definition to_float (s : string) : M S float :=
  of_option (float_of s) CValueError ("could not convert string to float: " +:+ repr_str s).

(** [x / y] *)
Definition fdivide (x y : float) : M S float :=
  if fzero y then raise CZeroDivisionError "float division by zero" else ret (fdiv x y).

(** [sum(l)] *)
Definition fsum (l : list float) : float := foldl fadd (fof_Z 0) l.
End Float.

(** [str] of a float is one word, from which [float] reads the same number. *)
Class FloatText `{Float} := {
  frepr_word : ∀ x, is_word (frepr x) = true;
  float_of_frepr : ∀ x, float_of (frepr x) = Some x
}.

(** Whole numbers, to evaluate the operations with. *)
Definition whole_float : Float := {|
  float := Z; float_of := py_int; fof_Z z := z;
  fadd := Z.add; fsub := Z.sub; fmul := Z.mul; fdiv := Z.div;
  fzero z := z =? 0; fltb := Z.ltb; ftrunc z := z; fceil z := z;
  frepr := str_Z; fmt_g := str_Z; fmt_f _ := str_Z
|}.

#[export] Instance whole_float_text : @FloatText whole_float.
Proof. split; [apply is_word_str_Z|apply py_int_str_Z]. Qed.
