(* ===== verification/Util.v ===== *)
(** src/concord/util.py: context managers, command execution, file and
    filesystem helpers, the process pool, git and logging helpers. *)

From S2P Require Import Prelude PyStr PyRe PyDict PyPath Effect Os.

(** Where the output of a command goes: the console, /dev/null, or an open file. *)
Inductive sink := Console | Null | ToFile (path : list string).

Section Util.
Context `{Host}.

(** ** with statements *)

Definition cd {A} (pn : string) (body : IO A) : IO A :=
  do cur <- getcwd;
  do home <- gets (fun w => env w !! "HOME");
  chdir (expanduser home pw_home pn) ;;
  finally body (chdir cur).

Definition _set_env (key : string) (value : option string) : IO unit :=
  match value with
  | None => modify (fun w => set_env (delete key (env w)) w)
  | Some v => modify (fun w => set_env (<[key := v]> (env w)) w)
  end.

(** The value the variable has inside the block. *)
Definition new_env_value (value concat old_value : option string) (prepend : bool) :
    option string :=
  match value, concat, old_value with
  | Some v, Some c, Some o => Some (if prepend then v +:+ c +:+ o else o +:+ c +:+ v)
  | _, _, _ => value
  end.

Definition environ {A} (key : string) (value concat : option string) (prepend : bool)
    (body : IO A) : IO A :=
  do old_value <- gets (fun w => env w !! key);
  _set_env key (new_env_value value concat old_value prepend) ;;
  finally body (_set_env key old_value).

Definition envpaths {A} (path : list string) (body : IO A) : IO A :=
  environ "PATH" (Some (join ":" path)) (Some ":") true body.

Definition envldpaths {A} (path : list string) (body : IO A) : IO A :=
  environ "LD_LIBRARY_PATH" (Some (join ":" path)) (Some ":") true body.

Definition envpreload {A} (path : string) (body : IO A) : IO A :=
  environ "LD_PRELOAD" (Some path) None true body.

Definition nop {A} (body : IO A) : IO A := body.

(** ** command execution *)

(** The text a command wrote reaches its destination. *)
Definition deliver (s : sink) (text : string) : IO unit :=
  match s with
  | Console => if String.eqb text "" then ret tt else print text
  | Null => ret tt
  | ToFile q =>
      modify (fun w =>
        match tget q (root w) with
        | Some (File t m) =>
            match tput q (File (t +:+ text) m) (root w) with
            | Some r => set_root r w
            | None => w
            end
        | _ => w
        end)
  end.

Definition execute (cmd : list string) (stdout stderr : sink) (timeout : option Z) : IO unit :=
  do w <- get;
  match spawn cmd (cwd w) (env w) timeout (root w) with
  | None => raise CFileNotFoundError (no_such_file (hd "" cmd))
  | Some (e, r, (o, err)) =>
      modify (set_root r) ;; deliver stdout o ;; deliver stderr err ;;
      match e with
      | Exited rc =>
          if negb (rc =? 0)
          then raise CRuntimeError
                 ("Failed to execute " +:+ join " " cmd +:+ ": exit code " +:+ str_Z rc)
          else ret tt
      | TimedOut =>
          raise CRuntimeError ("Failed to execute " +:+ join " " cmd +:+ ": timed out")
      end
  end.

(** [execute(cmd)] with the default arguments. *)
Definition execute_default (cmd : list string) : IO unit := execute cmd Console Console None.

Definition execute1 (cmd : list string) (timeout : option Z) : IO unit :=
  execute cmd Null Null timeout.

(** [with open(p, 'w') as f: body f] *)
Definition with_output (p : string) (body : sink → IO unit) : IO unit :=
  write_file p "" ;;
  do w <- get;
  body (ToFile (resolve (cwd w) p)).

Definition execute3 (cmd : list string) (pout perr : string) (timeout : option Z) : IO unit :=
  with_output pout (fun stdout =>
    with_output perr (fun stderr => execute cmd stdout stderr timeout)).

Definition execute2 (cmd : list string) (path_log : string) (timeout : option Z) : IO unit :=
  let path_out := path_log +:+ ".out" in
  let path_err := path_log +:+ ".err" in
  with_output path_out (fun stdout =>
    with_output path_err (fun stderr => execute cmd stdout stderr timeout)).

(** ** file operations *)

Definition inplace_replace (filepath needle rep : string) : IO unit :=
  do text <- read_file filepath;
  let tmp := sconcat (map (fun line => replace line needle rep) (file_lines text)) in
  write_file filepath tmp.

Definition copy_all_files (src_path dst_path : string) (override : bool) : IO unit :=
  do ex <- path_exists dst_path;
  when (override && ex) (rmtree dst_path) ;;
  copytree src_path dst_path.

Definition prepdn (path : string) (override : bool) : IO unit :=
  do ex <- path_exists path;
  when (ex && override) (rmtree path) ;;
  makedirs path.

Definition prepfn (path : string) (override : bool) : IO unit :=
  do ex <- path_exists path;
  when (ex && override) (unlink path) ;;
  makedirs (dirname path).

Definition find_all_files (base : string) (regex : option re) : IO (list string) :=
  do w <- get;
  let found (name : string) : bool :=
    match regex with
    | None => true
    | Some r => match re_match r name with Some _ => true | None => false end
    end in
  ret (match at_path w base with
       | None => []
       | Some t =>
           concat (map (fun '(dirpath, files) => map (join2 dirpath) (List.filter found files))
                       (walk base t))
       end).

Definition S_IEXEC : Z := 64.

Definition enable_exec (path : string) : IO unit :=
  do w <- get;
  match at_path w path with
  | Some (File t m) =>
      update_root (tput (resolve (cwd w) path) (File t (Z.lor m S_IEXEC))) COSError path
  | Some (Dir _) => ret tt
  | None => raise CFileNotFoundError (no_such_file path)
  end.

(** ** multi-processing: [func] runs in the workers and returns or raises an exception. *)

(** [pool.map]: the results in the order of the arguments; when calls raise, the exception
    that is reported first, which [first] tells among them. *)
Definition pool_map {T R} (func : T → exn + R) (args : list T) (first : nat) : outcome (list R) :=
  let outs := map func args in
  match omap (fun o => match o with inl e => Some e | inr _ => None end) outs with
  | [] => Ret (omap (fun o => match o with inl _ => None | inr r => Some r end) outs)
  | e :: es => Raise (nth first (e :: es) e)
  end.

(** [interrupted] says that the wait for the results is interrupted from the keyboard. *)
Definition parralize {T R} (func : T → exn + R) (args : list T) (interrupted : bool) (first : nat) :
    outcome (list R) :=
  if interrupted then Raise (Exn CRuntimeError "Interrupted") else pool_map func args first.

(** ** logging utils *)

Definition fresh_hid (l : list handler) : nat := S (foldr (fun h n => Nat.max (hid h) n) O l).

(** [logging.FileHandler(path, mode)] opens the file. *)
Definition open_handler (path mode : string) : IO unit :=
  if String.eqb mode "w" then write_file path ""
  else do ex <- path_exists path; when (negb ex) (write_file path "").

Definition multiplex_logging {A} (path mode : string) (body : IO A) : IO A :=
  open_handler path mode ;;
  do hs <- gets handlers;
  let h := Handler (fresh_hid hs) (Some path) (Some DEBUG) in
  modify (fun w => set_handlers (handlers w ++ [h]) w) ;;
  finally body (modify (fun w => set_handlers (List.filter (fun h' => negb (bool_decide (h' = h)))
                                                 (handlers w)) w)).

Definition level_name (l : level) (names : list (level * string)) : string :=
  match dget l names with
  | Some n => n
  | None => match l with DEBUG => "DEBUG" | INFO => "INFO" | WARNING => "WARNING"
            | ERROR => "ERROR" | CRITICAL => "CRITICAL" end
  end.

Definition esc : string := String "027" "".

Definition colored (color : string) (s : string) : string :=
  esc +:+ "[1;" +:+ color +:+ "m" +:+ s +:+ esc +:+ "[1;0m".

Definition addLevelName (l : level) (color : string) : IO unit :=
  modify (fun w =>
    set_level_names (dset l (colored color (level_name l (level_names w))) (level_names w)) w).

Definition enable_coloring_in_logging : IO unit :=
  addLevelName CRITICAL "31" ;; addLevelName ERROR "31" ;; addLevelName WARNING "33" ;;
  addLevelName INFO "32" ;; addLevelName DEBUG "35".
End Util.

(** ** git utils *)

(** What GitPython reports of a repository: the names of its remotes, whether it
    is dirty, the references of the remote, the commit a reference names, and
    the files of the archive of a commit (or the text of the failure). *)
Record repo := MkRepo {
  remotes : list string;
  is_dirty : bool;
  remote_refs : list string;
  rev_parse : string → option string;
  archive : string → string + list (list string * string)
}.

Section Git.
Context `{Host} (Repo : string → outcome repo).

(** The reference that is looked up: the remote branch of that name if any. *)
Definition checkout_refs (refs : string) (mod_ : repo) : string :=
  let name := "origin" +:+ "/" +:+ refs in
  if existsb (String.eqb name) (remote_refs mod_) then name else refs.

(** Extracting one file of an archive below a directory. *)
Definition extract (dst : list string) (f : list string * string) (t : node) : option node :=
  let p := dst ++ f.1 in
  tmkdirs (removelast p) t ≫= tput p (File f.2 default_mode).

Definition extractall (path : string) (files : list (list string * string)) : IO unit :=
  do w <- get;
  for_each files (fun f =>
    update_root (extract (resolve (cwd w) path) f) COSError path).

Definition git_checkout (repo_ refs path : string) : IO unit :=
  match Repo repo_ with
  | Raise e => fun w => (Raise e, w)
  | Exit c => sys_exit c
  | Ret mod_ =>
      (if negb (Nat.eqb (length (remotes mod_)) 1) then raise CAssertionError "" else ret tt) ;;
      (if negb (String.eqb (hd "" (remotes mod_)) "origin") then raise CAssertionError "" else ret tt) ;;
      (if is_dirty mod_ then raise CAssertionError "" else ret tt) ;;
      match rev_parse mod_ (checkout_refs refs mod_) with
      | None => raise CException (checkout_refs refs mod_)
      | Some commit =>
          match archive mod_ commit with
          | inl ex =>
              raise CRuntimeError
                ("Failed to archive refs '" +:+ commit +:+ "' on repo " +:+ repo_ +:+ ": " +:+ ex)
          | inr files => extractall path files
          end
      end
  end.

Definition git_patch (repo_ patch : string) : IO unit :=
  cd repo_ (execute_default ["patch"; "-p1"; "-i"; patch]).
End Git.

(** * Correctness *)

Section Facts.
Context `{Host}.

(** *** Working directory *)

Lemma chdir_back w d es :
  cwd_norm d → tget (components d) (root w) = Some (Dir es) →
  chdir d w = (Ret tt, set_cwd d w).
Proof.
  intros Hn Hd. unfold chdir, bind, get, at_path, resolve.
  rewrite join2_absolute by by apply cwd_norm_absolute. rewrite Hd. unfold modify.
  by rewrite <- Hn.
Qed.

Lemma chdir_gone w d :
  cwd_norm d → tget (components d) (root w) = None →
  chdir d w = (Raise (Exn CFileNotFoundError (no_such_file d)), w).
Proof.
  intros Hn Hd. unfold chdir, bind, get, at_path, resolve.
  rewrite join2_absolute by by apply cwd_norm_absolute. by rewrite Hd.
Qed.

Lemma chdir_norm w p w' : chdir p w = (Ret tt, w') → cwd_norm (cwd w').
Proof.
  unfold chdir, bind, get. destruct (at_path w p) as [[]|]; try done. intros [= <-]. simpl.
  unfold cwd_norm. rewrite components_abs; [done|]. apply components_plain.
Qed.

Lemma getcwd_Ret w es :
  tget (components (cwd w)) (root w) = Some (Dir es) → getcwd w = (Ret (cwd w), w).
Proof. intros Hw. unfold getcwd, bind, get. by rewrite Hw. Qed.

Lemma getcwd_inv w d w' : getcwd w = (Ret d, w') → d = cwd w.
Proof.
  unfold getcwd, bind, get. destruct (tget _ _) as [[]|]; unfold ret; try done.
  by intros [= <- _].
Qed.

(** Entering the block, running it, and coming back. *)
Lemma cd_run {A} pn (body : IO A) w es w1 o w2 :
  tget (components (cwd w)) (root w) = Some (Dir es) →
  chdir (expanduser (env w !! "HOME") pw_home pn) w = (Ret tt, w1) → body w1 = (o, w2) →
  cd pn body w =
    match chdir (cwd w) w2 with
    | (Ret _, w3) => (o, w3)
    | (Raise e, w3) => (Raise e, w3)
    | (Exit c, w3) => (Exit c, w3)
    end.
Proof.
  intros Hc Hd Hb. unfold cd. rewrite (bind_Ret _ _ _ _ _ (getcwd_Ret _ _ Hc)).
  unfold gets. unfold bind at 1. rewrite (bind_Ret _ _ _ _ _ Hd).
  unfold finally. by rewrite Hb.
Qed.

Lemma expanduser_absolute home pn : startswith pn "/" = true → expanduser home pw_home pn = pn.
Proof.
  intros Hp. unfold expanduser. destruct pn as [|c pn]; [done|]. rewrite startswith_cons in Hp |- *.
  apply andb_true_iff in Hp as [Hc _]. by apply Ascii.eqb_eq in Hc as <-.
Qed.

(** A block that ends normally gives back the working directory it was entered in. *)
(** A block that returns and leaves the former working directory in place. *)
Lemma cd_ended {A} pn (body : IO A) w es d o w2 es' :
  cwd_norm (cwd w) → tget (components (cwd w)) (root w) = Some (Dir es) →
  startswith pn "/" = true → at_path w pn = Some (Dir d) →
  body (set_cwd (abs_path (resolve (cwd w) pn)) w) = (o, w2) →
  tget (components (cwd w)) (root w2) = Some (Dir es') →
  cd pn body w = (o, set_cwd (cwd w) w2).
Proof.
  intros Hn Hw Hp Hd Hb Hw2.
  pose proof (expanduser_absolute (env w !! "HOME") pn Hp) as Hx.
  rewrite (cd_run pn body w es (set_cwd (abs_path (resolve (cwd w) pn)) w) o w2 Hw); [|rewrite Hx|done].
  - by rewrite (chdir_back _ _ _ Hn Hw2).
  - unfold chdir, bind, get. by rewrite Hd.
Qed.

Lemma cd_Ret {A} pn (body : IO A) w es d a w2 es' :
  cwd_norm (cwd w) → tget (components (cwd w)) (root w) = Some (Dir es) →
  startswith pn "/" = true → at_path w pn = Some (Dir d) →
  body (set_cwd (abs_path (resolve (cwd w) pn)) w) = (Ret a, w2) →
  tget (components (cwd w)) (root w2) = Some (Dir es') →
  cd pn body w = (Ret a, set_cwd (cwd w) w2).
Proof. apply cd_ended. Qed.

Lemma cd_keeps_cwd {A} pn (body : IO A) w a w' :
  cwd_norm (cwd w) → cd pn body w = (Ret a, w') → cwd w' = cwd w.
Proof.
  intros Hn. unfold cd. intros (d & w0 & H1 & H2)%bind_Ret_inv.
  apply getcwd_inv in H1 as ->.
  apply bind_Ret_inv in H2 as (h & wh & _ & H2). apply bind_Ret_inv in H2 as (u & w1 & _ & H2).
  unfold finally in H2. destruct (body w1) as [o w2].
  destruct (chdir (cwd w) w2) as [[[]|e|c] w3] eqn:E; [|done|done].
  injection H2 as -> <-. unfold chdir, bind, get in E.
  destruct (at_path w2 (cwd w)) as [[]|]; try done. injection E as <-. simpl.
  unfold resolve. rewrite join2_absolute by by apply cwd_norm_absolute. by rewrite <- Hn.
Qed.

(** *** Files *)

Lemma inplace_replace_text w p needle rep t m :
  needle ≠ "" → no_char LF needle = true → at_path w p = Some (File t m) →
  ∃ r, inplace_replace p needle rep w = (Ret tt, set_root r w) ∧
    tput (resolve (cwd w) p) (File (replace (universal_newlines t) needle rep) m) (root w) = Some r.
Proof.
  intros Hne Hnl Hp. unfold inplace_replace.
  erewrite bind_Ret by (apply read_file_Ret; unfold file_text; by rewrite Hp).
  rewrite replace_file_lines by done. by eapply write_file_existing.
Qed.

Lemma rmtree_Ret w p es :
  resolve (cwd w) p ≠ [] → at_path w p = Some (Dir es) →
  ∃ r, rmtree p w = (Ret tt, set_root r w) ∧ tdel (resolve (cwd w) p) (root w) = Some r.
Proof.
  intros Hne Hp. unfold at_path in Hp. unfold rmtree, bind, get. rewrite Hp.
  destruct (tdel_is_Some _ _ _ Hne Hp) as [r Hr]. exists r. split; [|done].
  unfold update_root, bind, get. by rewrite Hr.
Qed.

Lemma makedirs_Ret w p :
  is_Some (tmkdirs (resolve (cwd w) p) (root w)) →
  ∃ r, makedirs p w = (Ret tt, set_root r w) ∧ tmkdirs (resolve (cwd w) p) (root w) = Some r.
Proof.
  intros [r Hr]. exists r. split; [|done]. unfold makedirs, bind, get.
  destruct (tget (resolve (cwd w) p) (root w)) as [[x m|]|] eqn:E.
  - exfalso. apply (tmkdirs_keeps _ _ _ _ _ Hr) in E; [|done].
    apply tmkdirs_is_dir in Hr as [es Hr]. congruence.
  - unfold update_root, bind, get. by rewrite Hr.
  - unfold update_root, bind, get. by rewrite Hr.
Qed.

(** Below a path at which directories can be made there is no file. *)
Lemma tmkdirs_not_file p t : is_Some (tmkdirs p t) → ∀ x m, tget p t ≠ Some (File x m).
Proof.
  intros [t' Ht] x m Hp. pose proof (tmkdirs_keeps _ _ _ _ _ Ht Hp eq_refl) as H1.
  apply tmkdirs_is_dir in Ht as [es Ht]. congruence.
Qed.
End Facts.

Lemma inplace_replace_at w r p q needle rep t m :
  needle ≠ "" → no_char LF needle = true → resolve (cwd w) p = q → tree_wf r →
  tget q r = Some (File t m) →
  ∃ r', inplace_replace p needle rep (set_root r w) = (Ret tt, set_root r' w) ∧
    tget q r' = Some (File (replace (universal_newlines t) needle rep) m) ∧
    same_but [q] r r' ∧ tree_wf r' ∧ dirs_kept r r'.
Proof.
  intros Hne Hnl <- Hwf Hp.
  destruct (inplace_replace_text (set_root r w) _ _ rep _ _ Hne Hnl Hp) as (r' & -> & Hr).
  exists r'. split; [done|]. simpl in Hr. split_and!;
    [by eapply tget_tput_eq|by eapply same_but_tput|by eapply tput_wf|].
  eapply tput_dirs_kept; [exact Hr|]. intros es. by rewrite Hp.
Qed.

(** The two ways to start with a directory of one's own work there only. *)
Lemma works_at_prepdn p o : works_at p (prepdn p o).
Proof.
  unfold prepdn. apply works_at_bind; [by apply works_at_read|intros ex].
  apply works_at_bind; [|intros _; apply works_at_makedirs].
  destruct (ex && o); [apply works_at_rmtree|by apply works_at_read].
Qed.

Lemma works_at_copy_all_files a p o : works_at p (copy_all_files a p o).
Proof.
  unfold copy_all_files. apply works_at_bind; [by apply works_at_read|intros ex].
  apply works_at_bind; [|intros _; apply works_at_copytree].
  destruct (o && ex); [apply works_at_rmtree|by apply works_at_read].
Qed.

(** Every file apart from a path is in both trees. *)
Definition files_kept (p : list string) (r r' : node) : Prop :=
  ∀ q x m, apart p q → tget q r = Some (File x m) → tget q r' = Some (File x m).

Lemma copytree_fresh w a b es :
  at_path w a = Some (Dir es) → tree_wf (root w) → at_path w b = None →
  is_Some (tmkdirs (resolve (cwd w) b) (root w)) →
  ∃ r, copytree a b w = (Ret tt, set_root r w) ∧ tget (resolve (cwd w) b) r = Some (Dir es) ∧
    files_kept (resolve (cwd w) b) (root w) r ∧ tree_wf r ∧
    dirs_kept_but (resolve (cwd w) b) (root w) r.
Proof.
  intros Ha Hwf Hb [r1 H1]. unfold copytree, bind, get. rewrite Ha.
  unfold at_path in Hb. rewrite Hb. destruct (tmkdirs_is_dir _ _ _ H1) as [es1 Hd].
  destruct (tput_exists _ (Dir es) _ _ Hd) as [r2 H2]. exists r2.
  unfold update_root, bind, get. rewrite H1. simpl. rewrite H2. split; [done|].
  split; [by eapply tget_tput_eq|]. split_and!.
  - intros q x m Hq Hx. rewrite (tget_tput_ne _ _ _ _ _ Hq H2). by eapply tmkdirs_keeps.
  - eapply tput_wf; [exact H2|by eapply tmkdirs_wf|]. by eapply tree_wf_get.
  - eapply dirs_kept_but_trans; [by eapply dirs_kept_weaken, tmkdirs_dirs_kept|by eapply tput_dirs_kept_but].
Qed.

(** [copy_all_files(a, b, True)] ends with a copy of [a] at [b]. *)
Lemma copy_all_files_fresh w a b es :
  at_path w a = Some (Dir es) → tree_wf (root w) → resolve (cwd w) b ≠ [] →
  apart (resolve (cwd w) b) (resolve (cwd w) a) →
  is_Some (tmkdirs (resolve (cwd w) b) (root w)) →
  ∃ r, copy_all_files a b true w = (Ret tt, set_root r w) ∧
    tget (resolve (cwd w) b) r = Some (Dir es) ∧
    files_kept (resolve (cwd w) b) (root w) r ∧ tree_wf r ∧
    dirs_kept_but (resolve (cwd w) b) (root w) r.
Proof.
  intros Ha Hwf Hne Hap Hmk. unfold copy_all_files, path_exists, gets. unfold bind at 1.
  destruct (at_path w b) as [[x m|es0]|] eqn:Hb.
  - exfalso. by eapply tmkdirs_not_file.
  - simpl. destruct (rmtree_Ret w b es0 Hne Hb) as (r1 & H1 & H2).
    rewrite (bind_Ret _ _ _ _ _ H1).
    destruct (copytree_fresh (set_root r1 w) a b es) as (r & H3 & H4 & H5 & H6 & H7).
    + unfold at_path. simpl. by rewrite (tget_tdel_ne _ _ _ _ Hap H2).
    + by eapply tdel_wf.
    + unfold at_path. simpl. by eapply tdel_gone.
    + by eapply tmkdirs_after_tdel.
    + exists r. split; [exact H3|]. split; [exact H4|]. split_and!; [|done|].
      * intros q x m Hq Hx. apply H5; [done|]. simpl. by rewrite (tget_tdel_ne _ _ _ _ Hq H2).
      * eapply dirs_kept_but_trans; [by eapply tdel_dirs_kept|exact H7].
  - simpl. by apply copytree_fresh.
Qed.

(** The documented behaviour of cp on a file and another path: the text is at the
    destination, unless that is a directory, and nothing else changes. *)
Class CpCopies (host : Host) : Prop := cp_copies :
  ∀ a b d e limit t x m,
    tget (resolve d a) t = Some (File x m) → resolve d a ≠ resolve d b →
    (∀ es, tget (resolve d b) t ≠ Some (Dir es)) →
    (∃ es, tget (removelast (resolve d b)) t = Some (Dir es)) →
    ∃ m' t', spawn ["cp"; a; b] d e limit t = Some (Exited 0, t', ("", "")) ∧
             tput (resolve d b) (File x m') t = Some t'.

(** A machine with cp on which every other program does nothing. *)
Definition cp_host : Host := {|
  spawn cmd d e limit t :=
    match cmd with
    | ["cp"; a; b] =>
        if bool_decide (resolve d a = resolve d b)
        then Some (Exited 1, t, ("", "cp: the files are the same file" +:+ nl))
        else match tget (resolve d a) t, tget (resolve d b) t with
        | _, Some (Dir _) => Some (Exited 1, t, ("", "cp: the target is a directory" +:+ nl))
        | Some (File x m), _ =>
            match tput (resolve d b) (File x m) t with
            | Some t' => Some (Exited 0, t', ("", ""))
            | None => Some (Exited 1, t, ("", "cp: cannot create regular file" +:+ nl))
            end
        | _, _ => Some (Exited 1, t, ("", "cp: cannot stat" +:+ nl))
        end
    | _ => Some (Exited 0, t, ("", ""))
    end;
  cpu_count := 8;
  pw_home _ := None
|}.

#[export] Instance cp_host_copies : CpCopies cp_host.
Proof.
  intros a b d e limit t x m Ha Hab Hb [es Hp]. exists m. simpl. rewrite (bool_decide_false _ Hab), Ha.
  destruct (decide (resolve d b = [])) as [E|Hne]; [rewrite E in *; by apply Hb in Hp|].
  assert (Hput : is_Some (tput (resolve d b) (File x m) t)).
  { rewrite (app_removelast_last "" Hne). by eapply tput_is_Some. }
  destruct Hput as [t' ->]. exists t'.
  by destruct (tget (resolve d b) t) as [[|es']|] eqn:E; [|by destruct (Hb es')|].
Qed.

Lemma execute_cp `{H : Host} `{!CpCopies H} w a b x m es :
  at_path w a = Some (File x m) → resolve (cwd w) a ≠ resolve (cwd w) b → tree_wf (root w) →
  (∀ es, at_path w b ≠ Some (Dir es)) →
  tget (removelast (resolve (cwd w) b)) (root w) = Some (Dir es) →
  ∃ m' r, execute_default ["cp"; a; b] w = (Ret tt, set_root r w) ∧
    tget (resolve (cwd w) b) r = Some (File x m') ∧
    same_but [resolve (cwd w) b] (root w) r ∧ tree_wf r ∧ dirs_kept (root w) r.
Proof.
  intros Ha Hab Hwf Hb Hp.
  destruct (cp_copies a b (cwd w) (env w) None (root w) x m Ha Hab Hb (ex_intro _ _ Hp))
    as (m' & r & H1 & H2).
  exists m', r. split.
  - unfold execute_default, execute. unfold bind at 1, get. by rewrite H1.
  - split_and!; [by eapply tget_tput_eq|by eapply same_but_tput|by eapply tput_wf|by eapply tput_dirs_kept].
Qed.

Lemma deliver_file w q text t m :
  tget q (root w) = Some (File t m) →
  ∃ r, deliver (ToFile q) text w = (Ret tt, set_root r w) ∧
       tput q (File (t +:+ text) m) (root w) = Some r.
Proof.
  intros Hq. destruct (tput_exists _ (File (t +:+ text) m) _ _ Hq) as [r Hr].
  exists r. split; [|done]. unfold deliver, modify. by rewrite Hq, Hr.
Qed.

(** ** Properties *)

(** C37: a [with cd(pn)] block runs its body in [pn] and then gives the process its
    former working directory back, whatever way the body ends; only if that directory
    has disappeared meanwhile is the end of the body replaced by an exception. *)
Theorem cd_restores `{Host} {A} pn (body : IO A) w es w1 :
  cwd_norm (cwd w) → tget (components (cwd w)) (root w) = Some (Dir es) →
  chdir (expanduser (env w !! "HOME") pw_home pn) w = (Ret tt, w1) →
  cd pn body w =
    let (o, w2) := body w1 in
    match tget (components (cwd w)) (root w2) with
    | Some (Dir _) => (o, set_cwd (cwd w) w2)
    | Some (File _ _) =>
        (Raise (Exn CNotADirectoryError ("[Errno 20] Not a directory: '" +:+ cwd w +:+ "'")), w2)
    | None => (Raise (Exn CFileNotFoundError (no_such_file (cwd w))), w2)
    end.
Proof.
  intros Hn Hw Hd. destruct (body w1) as [o w2] eqn:Hb. rewrite (cd_run _ _ _ _ _ _ _ Hw Hd Hb).
  destruct (tget (components (cwd w)) (root w2)) as [[x m|es']|] eqn:E.
  - unfold chdir, bind, get, at_path, resolve.
    rewrite join2_absolute by by apply cwd_norm_absolute. by rewrite E.
  - by rewrite (chdir_back _ _ _ Hn E).
  - by rewrite (chdir_gone _ _ Hn E).
Qed.

Lemma cd_restores_witness :
  cd (H := demo_host) "sub" (write_file "c" "new" ;; raise CRuntimeError "stop") demo_world =
    let (o, w2) := (write_file "c" "new" ;; raise CRuntimeError "stop")
                     (set_cwd "/work/sub" demo_world) in
    (o : outcome unit, set_cwd "/work" w2).
Proof.
  rewrite (cd_restores (H := demo_host) "sub" _ demo_world
             (match tget ["work"] demo_root with Some (Dir es) => es | _ => [] end)
             (set_cwd "/work/sub" demo_world)); [vm_compute; reflexivity|..].
  - vm_compute. reflexivity.
  - vm_compute. reflexivity.
  - vm_compute. reflexivity.
Defined.

(** Inside [with environ(key, ...)] the variable has the value, or the value
    concatenated with the former one on the chosen side; after the block it has its
    former value again (or is unset again), whatever way the body ends and whatever the
    body did to it, and every other variable is as the body left it. *)
Theorem environ_scoped {A} key value concat prepend (body : IO A) w :
  let v := new_env_value value concat (env w !! key) prepend in
  ∃ w1, env w1 !! key = v ∧ (∀ k, k ≠ key → env w1 !! k = env w !! k) ∧
    let (o, w2) := body w1 in
    ∃ w3, environ key value concat prepend body w = (o, w3) ∧
      env w3 !! key = env w !! key ∧ (∀ k, k ≠ key → env w3 !! k = env w2 !! k) ∧
      root w3 = root w2 ∧ cwd w3 = cwd w2.
Proof.
  intros v. unfold environ, gets. unfold bind at 1. fold v.
  destruct v as [nv|] eqn:Ev; [exists (set_env (<[key := nv]> (env w)) w)|
                               exists (set_env (delete key (env w)) w)];
    (split; [by simplify_map_eq|]); (split; [intros k Hk; simpl; by simplify_map_eq|]);
    simpl; unfold bind, modify, finally; destruct (body _) as [o w2];
    destruct (env w !! key) as [ov|]; simpl; eexists; (split; [done|]); simpl;
    (split; [by simplify_map_eq|]); (split; [intros k Hk; by simplify_map_eq|]); done.
Qed.

(** C36: [inplace_replace] reads the file line by line, but its effect is that of one
    replacement over the whole text: for a needle that is not empty and holds no newline
    the file ends up with every needle replaced, keeps its mode, and nothing else in the
    tree changes. *)
Theorem inplace_replace_whole w p needle rep t m :
  needle ≠ "" → no_char LF needle = true → at_path w p = Some (File t m) →
  ∃ w', inplace_replace p needle rep w = (Ret tt, w') ∧
    at_path w' p = Some (File (replace (universal_newlines t) needle rep) m) ∧
    (∀ q, apart (resolve (cwd w) p) q → tget q (root w') = tget q (root w)) ∧
    cwd w' = cwd w ∧ env w' = env w.
Proof.
  intros Hne Hnl Hp. destruct (inplace_replace_text _ _ _ rep _ _ Hne Hnl Hp) as (r & -> & Hr).
  eexists. split; [done|]. split; [by eapply at_path_put|]. split; [|done].
  intros q Hq. simpl. by eapply tget_tput_ne.
Qed.

Lemma inplace_replace_whole_witness :
  ∃ w', inplace_replace "Makefile" "${N}" "numa" demo_world = (Ret tt, w') ∧
    at_path w' "Makefile" = Some (File ("NAME=numa" +:+ nl +:+ "SRC=numa.c" +:+ nl) 420).
Proof.
  destruct (inplace_replace_whole demo_world "Makefile" "${N}" "numa"
              ("NAME=${N}" +:+ nl +:+ "SRC=${N}.c" +:+ nl) 420) as (w' & H1 & H2 & _);
    [done|vm_compute; reflexivity..|].
  exists w'. split; [exact H1|]. rewrite H2. vm_compute. reflexivity.
Defined.

Lemma prepdn_fresh w p :
  tree_wf (root w) → resolve (cwd w) p ≠ [] → is_Some (tmkdirs (resolve (cwd w) p) (root w)) →
  ∃ r, prepdn p true w = (Ret tt, set_root r w) ∧
    tget (resolve (cwd w) p) r = Some (Dir []) ∧
    files_kept (resolve (cwd w) p) (root w) r ∧ tree_wf r ∧
    dirs_kept_but (resolve (cwd w) p) (root w) r.
Proof.
  intros Hwf Hne Hmk. unfold prepdn, path_exists, gets. unfold bind at 1.
  destruct (at_path w p) as [[x m|es]|] eqn:E; simpl.
  - by apply tmkdirs_not_file with (x := x) (m := m) in Hmk.
  - destruct (rmtree_Ret w p es Hne E) as (r & Hr1 & Hr2).
    rewrite (bind_Ret _ _ _ _ _ Hr1). unfold at_path in E.
    destruct (makedirs_Ret (set_root r w) p) as (r' & Hr3 & Hr4).
    { by apply (tmkdirs_after_tdel _ _ _ Hmk Hr2). }
    rewrite Hr3. exists r'. split; [done|]. simpl in *. split_and!.
    + apply (tmkdirs_new _ _ _ Hr4). by eapply tdel_gone.
    + intros q x m Hq Hx. apply (tmkdirs_keeps _ _ _ _ _ Hr4); [|done].
      by rewrite (tget_tdel_ne _ _ _ _ Hq Hr2).
    + eapply tmkdirs_wf; [exact Hr4|]. by eapply tdel_wf.
    + eapply dirs_kept_but_trans; [by eapply tdel_dirs_kept|by eapply dirs_kept_weaken, tmkdirs_dirs_kept].
  - destruct (makedirs_Ret w p Hmk) as (r & Hr1 & Hr2). unfold bind, ret. rewrite Hr1.
    exists r. split; [done|]. split_and!; [by apply (tmkdirs_new _ _ _ Hr2)| |by eapply tmkdirs_wf|].
    + intros q x m Hq Hx. by apply (tmkdirs_keeps _ _ _ _ _ Hr2).
    + by eapply dirs_kept_weaken, tmkdirs_dirs_kept.
Qed.

(** [prepdn(path, True)] always ends with an empty directory at [path], creating the
    directories above it, removing what was there, and leaving every file elsewhere as it
    was, provided no file is in the way. *)
Theorem prepdn_override_fresh w p :
  tree_wf (root w) → resolve (cwd w) p ≠ [] → is_Some (tmkdirs (resolve (cwd w) p) (root w)) →
  ∃ w', prepdn p true w = (Ret tt, w') ∧ at_path w' p = Some (Dir []) ∧
    (∀ q x m, apart (resolve (cwd w) p) q → tget q (root w) = Some (File x m) →
              tget q (root w') = Some (File x m)) ∧
    cwd w' = cwd w ∧ env w' = env w.
Proof.
  intros Hwf Hne Hmk. destruct (prepdn_fresh w p Hwf Hne Hmk) as (r & H1 & H2 & H3 & _).
  exists (set_root r w). auto.
Qed.

Lemma prepdn_override_fresh_witness :
  ∃ w', prepdn "sub" true demo_world = (Ret tt, w') ∧ at_path w' "sub" = Some (Dir []).
Proof.
  destruct (prepdn_override_fresh demo_world "sub") as (w' & H1 & H2 & _); [..|by exists w'].
  - vm_compute. repeat first [split | apply (bool_decide_unpack (NoDup _)); vm_compute; exact I].
  - vm_compute. done.
  - vm_compute. by eexists.
Defined.

(** [find_all_files] returns exactly the paths of the files below the base directory
    whose name the expression matches from its start. *)
Lemma find_all_files_spec w base t regex p :
  at_path w base = Some t → tree_wf t →
  ∃ l, find_all_files base regex w = (Ret l, w) ∧
  (p ∈ l ↔
   ∃ ns name x m, tget (ns ++ [name]) t = Some (File x m) ∧
     (match regex with None => True | Some r => is_Some (re_match r name) end) ∧
     p = join2 (foldl join2 base ns) name).
Proof.
  intros Ht Hwf. eexists. split; [done|]. rewrite Ht.
  rewrite list_elem_of_In, in_concat. setoid_rewrite in_map_iff. split.
  - intros (l & ([d fs] & <- & Hd) & Hp). apply list_elem_of_In in Hd.
    apply walk_spec in Hd as (ns & es & H1 & -> & ->); [|done].
    apply in_map_iff in Hp as (n & <- & [Hn Hf]%filter_In).
    apply list_elem_of_In, elem_file_names in Hn as (x & m & Hx);
      [|by apply (tree_wf_get _ _ _ Hwf) in H1 as [? _]].
    exists ns, n, x, m. rewrite tget_app, H1. simpl. rewrite Hx. split; [done|]. split; [|done].
    destruct regex as [r|]; [|done]. destruct (re_match r n); [by eexists|done].
  - intros (ns & n & x & m & H1 & H2 & ->). rewrite tget_app in H1.
    destruct (tget ns t) as [[|es]|] eqn:E; simpl in H1; try done.
    destruct (dget n es) as [v|] eqn:En; [|done]. injection H1 as ->.
    exists (map (join2 (foldl join2 base ns)) (List.filter
      (fun name => match regex with None => true
                   | Some r => match re_match r name with Some _ => true | None => false end end)
      (file_names es))). split.
    + exists (foldl join2 base ns, file_names es). split; [done|].
      apply list_elem_of_In, walk_spec; [done|]. eauto.
    + apply in_map, filter_In. split.
      * apply list_elem_of_In, elem_file_names; [|eauto].
        by apply (tree_wf_get _ _ _ Hwf) in E as [? _].
      * destruct regex as [r|]; [|done]. by destruct H2 as [c ->].
Qed.

(** [execute3] creates or empties its two files, runs the command, gives each file
    the text the command wrote to that stream, and ends as the command ended, when the
    command leaves the two open files alone. *)
Theorem execute3_captures `{Host} cmd pout perr timeout w w1 w2 mo me e r o err :
  let qo := resolve (cwd w) pout in
  let qe := resolve (cwd w) perr in
  apart qo qe →
  write_file pout "" w = (Ret tt, w1) → write_file perr "" w1 = (Ret tt, w2) →
  spawn cmd (cwd w) (env w) timeout (root w2) = Some (e, r, (o, err)) →
  tget qo r = Some (File "" mo) → tget qe r = Some (File "" me) →
  ∃ w', execute3 cmd pout perr timeout w =
          (match e with
           | Exited rc =>
               if rc =? 0 then Ret tt
               else Raise (Exn CRuntimeError
                      ("Failed to execute " +:+ join " " cmd +:+ ": exit code " +:+ str_Z rc))
           | TimedOut =>
               Raise (Exn CRuntimeError ("Failed to execute " +:+ join " " cmd +:+ ": timed out"))
           end, w') ∧
    at_path w' pout = Some (File o mo) ∧ at_path w' perr = Some (File err me) ∧
    (∀ q, apart qo q → apart qe q → tget q (root w') = tget q r).
Proof.
  intros qo qe Ha Ho He Hs Hro Hre.
  pose proof (frame_keeps cwd _ (frame_write_file _ pout "") _ _ _ Ho) as Hc1.
  pose proof (frame_keeps cwd _ (frame_write_file _ perr "") _ _ _ He) as Hc2.
  pose proof (frame_keeps env _ (frame_write_file _ pout "") _ _ _ Ho) as Hv1.
  pose proof (frame_keeps env _ (frame_write_file _ perr "") _ _ _ He) as Hv2.
  unfold execute3, with_output. rewrite (bind_Ret _ _ _ _ _ Ho).
  unfold bind at 1, get at 1. rewrite (bind_Ret _ _ _ _ _ He).
  unfold bind at 1, get at 1. unfold execute. unfold bind at 1, get at 1.
  rewrite Hc2, Hc1, Hv2, Hv1, Hs.
  fold qo qe. erewrite (bind_Ret (modify (set_root r))) by done.
  destruct (deliver_file (set_root r w2) qo o "" mo Hro) as (r1 & Hd1 & Hr1).
  rewrite (bind_Ret _ _ _ _ _ Hd1).
  assert (Hre1 : tget qe r1 = Some (File "" me)) by by rewrite (tget_tput_ne _ _ _ _ _ Ha Hr1).
  destruct (deliver_file (set_root r1 (set_root r w2)) qe err "" me Hre1) as (r2 & Hd2 & Hr2).
  rewrite (bind_Ret _ _ _ _ _ Hd2). simpl in Hr1, Hr2.
  exists (set_root r2 w2). split.
  { destruct e as [rc|]; [|done]. by destruct (rc =? 0). }
  unfold at_path. simpl. rewrite Hc2, Hc1. fold qo qe. apply apart_sym in Ha.
  split; [by rewrite (tget_tput_ne _ _ _ _ _ Ha Hr2), (tget_tput_eq _ _ _ _ Hr1)|].
  split; [by rewrite (tget_tput_eq _ _ _ _ Hr2)|]. intros q H1 H2.
  by rewrite (tget_tput_ne _ _ _ _ _ H2 Hr2), (tget_tput_ne _ _ _ _ _ H1 Hr1).
Qed.

Lemma execute3_captures_witness :
  ∃ w', execute3 (H := demo_host) ["cc"; "x.c"] "out" "log" None demo_world = (Ret tt, w') ∧
    at_path w' "out" = Some (File ("out" +:+ nl) 420) ∧
    at_path w' "log" = Some (File ("err" +:+ nl) 420).
Proof.
  edestruct (execute3_captures (H := demo_host) ["cc"; "x.c"] "out" "log" None demo_world)
    as (w' & H1 & H2 & H3 & _);
    [vm_compute; split; intros [k Hk]; done|vm_compute; reflexivity..|].
  exists w'. split; [exact H1|]. split; [exact H2|exact H3].
Defined.

(** C38: [git_checkout] writes nothing unless the repository has the single remote
    [origin] and no uncommitted change; then it extracts the commit of the remote branch
    of the given name when there is one, and of the reference itself otherwise. *)
Theorem git_checkout_guarded Repo repo_ refs path m w :
  Repo repo_ = Ret m →
  if Nat.eqb (length (remotes m)) 1 && String.eqb (hd "" (remotes m)) "origin" && negb (is_dirty m)
  then
    ∀ commit files,
      rev_parse m (if decide (("origin/" +:+ refs) ∈ remote_refs m)
                   then "origin/" +:+ refs else refs) = Some commit →
      archive m commit = inr files →
      git_checkout Repo repo_ refs path w = extractall path files w
  else git_checkout Repo repo_ refs path w = (Raise (Exn CAssertionError ""), w).
Proof.
  intros Hm. unfold git_checkout. rewrite Hm.
  destruct (Nat.eqb (length (remotes m)) 1); [|done].
  destruct (String.eqb (hd "" (remotes m)) "origin"); [|done]. destruct (is_dirty m); [done|].
  simpl. intros commit files Hr Hf. unfold bind, ret. unfold checkout_refs.
  change ("origin" +:+ "/" +:+ refs) with ("origin/" +:+ refs).
  assert (Hex : existsb (String.eqb ("origin/" +:+ refs)) (remote_refs m) =
                bool_decide (("origin/" +:+ refs) ∈ remote_refs m)).
  { apply eq_true_iff_eq. rewrite existsb_exists, bool_decide_eq_true, list_elem_of_In.
    split; [intros (x & Hx & ->%String.eqb_eq)|]; [done|]. intros Hx. eexists.
    split; [done|]. apply String.eqb_refl. }
  rewrite Hex. case_decide as Hd.
  - rewrite bool_decide_true by done. by rewrite Hr, Hf.
  - rewrite bool_decide_false by done. by rewrite Hr, Hf.
Qed.

Definition demo_repo : repo := {|
  remotes := ["origin"]; is_dirty := false; remote_refs := ["origin/main"];
  rev_parse r := if String.eqb r "origin/main" then Some "c0ffee" else None;
  archive c := inr [(["README"], "text")]
|}.

Lemma git_checkout_guarded_witness :
  git_checkout (fun _ => Ret demo_repo) "repo" "main" "sub" demo_world =
    extractall "sub" [(["README"], "text")] demo_world.
Proof.
  apply (git_checkout_guarded (fun _ => Ret demo_repo) "repo" "main" "sub" demo_repo demo_world
           eq_refl "c0ffee"); vm_compute; reflexivity.
Defined.

(** ** What the helpers leave alone *)

Section UtilFrames.
Context `{Host} {V : Type} (obs : world → V) `{!NotRoot obs}
  (Hcon : ∀ c w, obs (set_console c w) = obs w).

Lemma frame_deliver s t : frame obs (deliver s t).
Proof.
  destruct s as [| |q]; simpl; [|done|].
  { case_if; [done|]. by apply frame_modify. }
  apply frame_modify. intros w. by repeat case_match; try apply not_root.
Qed.

Lemma frame_execute cmd so se t : frame obs (execute cmd so se t).
Proof.
  apply frame_bind; [apply frame_get|]. intros w. destruct (spawn _ _ _ _ _) as [[[e r] [o er]]|];
    [|done].
  apply frame_bind; [by apply frame_set_root|]. intros _.
  apply frame_bind; [apply frame_deliver|]. intros _.
  apply frame_bind; [apply frame_deliver|]. intros _. destruct e; [|done]. by case_if.
Qed.

Lemma frame_inplace_replace p n r : frame obs (inplace_replace p n r).
Proof. apply frame_bind; [by apply frame_read_file|]. intros t. by apply frame_write_file. Qed.

Lemma frame_copy_all_files a b o : frame obs (copy_all_files a b o).
Proof.
  apply frame_bind; [by apply frame_path_exists|]. intros ex. apply frame_bind.
  - by apply frame_when, frame_rmtree.
  - intros _. by apply frame_copytree.
Qed.

Lemma frame_prepdn p o : frame obs (prepdn p o).
Proof.
  apply frame_bind; [by apply frame_path_exists|]. intros ex. apply frame_bind.
  - by apply frame_when, frame_rmtree.
  - intros _. by apply frame_makedirs.
Qed.

Lemma frame_find_all_files b r : frame obs (find_all_files b r).
Proof. apply frame_bind; [apply frame_get|]. intros w. apply frame_ret. Qed.
End UtilFrames.

(** *** The pool *)

(** Calls that all return give their results in the order of the arguments; otherwise the
    exception of one of the calls is raised. *)
Lemma parralize_result {T R} (func : T → exn + R) args first :
  match parralize func args false first with
  | Ret rs => Forall2 (fun a r => func a = inr r) args rs
  | Raise e => ∃ a, a ∈ args ∧ func a = inl e
  | Exit _ => False
  end.
Proof.
  unfold parralize, pool_map.
  set (fails := fun o : exn + R => match o with inl e => Some e | inr _ => None end).
  assert (Hin : ∀ e, e ∈ omap fails (map func args) → ∃ a, a ∈ args ∧ func a = inl e).
  { intros e (o & Ho & Hf)%list_elem_of_omap. apply list_elem_of_fmap in Ho as (a & -> & Ha).
    exists a. split; [done|]. destruct (func a); simpl in Hf; congruence. }
  destruct (omap fails (map func args)) as [|e es] eqn:E; [clear Hin|].
  - induction args as [|a args IH]; [constructor|]. simpl in E |- *.
    destruct (func a) as [e|r] eqn:Ea; simpl in E |- *; [discriminate|]. constructor; [done|by apply IH].
  - apply Hin. destruct (Nat.ltb_spec first (length (e :: es))) as [Hl|Hl].
    + apply list_elem_of_In. by apply nth_In.
    + rewrite nth_overflow by done. apply list_elem_of_In. by left.
Qed.
