(* ===== verification/ArgParse.v ===== *)
(** The part of argparse the programs use: options without a value and options with one, and
    positional arguments of one word each.  The words of the command line are classified first, then the
    options act in their order; an error leaves with status 2.  The rules are those of
    Python 3.11, but for a value that is [--] itself, which is kept as in later releases.
    The texts of the help and of the errors are not modelled. *)

From S2P Require Import Prelude PyStr PyDict Effect Os.

(** The state of a parse: the arguments that are not recognised, and the namespace. *)
Section Parser.
Context {A B NS : Type}.

(** [table] is [_option_string_actions], in the order of declaration; [takes_one] says which
    actions have a value, [call] is the action itself, and [call_pos] that of a positional
    argument. *)
Context (table : list (string * A)) (takes_one : A → bool) (call : A → option string → NS → IO NS).
Context (call_pos : B → string → NS → IO NS).

(** [parser.error(...)] *)
Definition error {S T} : M S T := sys_exit 2.

(** An option found in a word: its action, its name and a value given in the same word.  The
    first is [None] for what looks like an option and is none of the parser. *)
Inductive pattern :=
| PatA
| PatDash
| PatO (found : option (A * string * option string)).

Definition is_dash (c : ascii) : bool := Ascii.eqb c "-".

(** The text before the first sign [=] and the one after it. *)
Definition split_eq (s : string) : string * option string :=
  match split1 s "=" with
  | [a; b] => (a, Some b)
  | _ => (s, None)
  end.

(** [_get_option_tuples]: the options a word may stand for.  A long one may be cut short;
    after a single dash the first letter may be an option and the others its value. *)
Definition get_option_tuples (s : string) : list (A * string * option string) :=
  match s with
  | String _ (String c _) =>
      if is_dash c then
        let (prefix, explicit) := split_eq s in
        map (fun e => (e.2, e.1, explicit)) (List.filter (fun e => startswith e.1 prefix) table)
      else
        omap (fun e =>
          if String.eqb e.1 (slice_to s 2) then Some (e.2, e.1, Some (slice_from s 2))
          else if startswith e.1 s then Some (e.2, e.1, None) else None) table
  | _ => []
  end.

(** [^-\d+$|^-\d*\.\d+$]; the end may be before a last line feed. *)
Definition negative_number (s : string) : bool :=
  let body := if endswith s nl then slice_to s (-1) else s in
  match body with
  | String c s' =>
      is_dash c &&
      (isdigit s' ||
       match split s' "." with
       | [a; b] => str_forall isdigit_char a && isdigit b
       | _ => false
       end)
  | EmptyString => false
  end.

(** [_parse_optional] *)
Definition parse_optional (s : string) : option pattern :=
  match s with
  | EmptyString => Some PatA
  | String c s' =>
      if negb (is_dash c) then Some PatA
      else match dget s table with
      | Some a => Some (PatO (Some (a, s, None)))
      | None =>
          if String.eqb s' "" then Some PatA
          else
            let (name, explicit) := split_eq s in
            match explicit, dget name table with
            | Some e, Some a => Some (PatO (Some (a, name, Some e)))
            | _, _ =>
                match get_option_tuples s with
                | _ :: _ :: _ => None
                | [t] => Some (PatO (Some t))
                | [] =>
                    if negative_number s || contains s " " then Some PatA else Some (PatO None)
                end
            end
      end
  end.

(** The pattern of the words; [None] is an ambiguous option. *)
Fixpoint classify (args : list string) : option (list (string * pattern)) :=
  match args with
  | [] => Some []
  | s :: rest =>
      if String.eqb s "--" then Some ((s, PatDash) :: map (fun x => (x, PatA)) rest)
      else p ← parse_optional s; ps ← classify rest; Some ((s, p) :: ps)
  end.

(** The options in one word: those before the last, the last and its value, if in the word. *)
Fixpoint cluster (a : A) (name e : string) : option (list A * A * option string) :=
  if takes_one a then Some ([], a, Some e)
  else match e with
  | EmptyString => None
  | String c e' =>
      let name' := String "-" (String c "") in
      if match name with String _ (String d _) => is_dash d | _ => true end then None
      else
        a' ← dget name' table;
        if String.eqb e' "" then Some ([a], a', None)
        else '(l, b, x) ← cluster a' name' e'; Some (a :: l, b, x)
  end.

(** The flags of one word act in their order. *)
Definition take_flags (l : list A) (ns : NS) : IO NS := fold_each l (fun ns a => call a None ns) ns.

(** [consume_optional] for the options of one word; [next] is what follows it.  All values
    are found before any action is taken. *)
Definition consume_optional (t : A * string * option string) (next : list (string * pattern)) (ns : NS) :
    IO (NS * bool) :=
  let '(a, name, explicit) := t in
  match match explicit with None => Some ([], a, None) | Some e => cluster a name e end with
  | None => error
  | Some (l, b, Some e) => do ns <- take_flags l ns; do ns <- call b (Some e) ns; ret (ns, false)
  | Some (l, b, None) =>
      if takes_one b then
        match next with
        | (v, PatA) :: _ => do ns <- take_flags l ns; do ns <- call b (Some v) ns; ret (ns, true)
        | _ => error
        end
      else do ns <- take_flags l ns; do ns <- call b None ns; ret (ns, false)
  end.

(** The options and the positional arguments in turn; [skip] says that a word was taken as a
    value, [after] that the last word was a positional argument.  The mark [--] belongs to a
    positional argument beside it; a word that is none of these is extra. *)
Fixpoint consume (words : list (string * pattern)) (skip : bool) (pos : list B) (after : bool) (ns : NS)
    (extras : list string) : IO (NS * list B * list string) :=
  match words with
  | [] => ret (ns, pos, extras)
  | (s, p) :: rest =>
      if skip then consume rest false pos false ns extras
      else match p, pos with
      | PatO (Some t), _ => do r <- consume_optional t rest ns; consume rest r.2 pos false r.1 extras
      | PatA, b :: pos' => do ns <- call_pos b s ns; consume rest false pos' true ns extras
      | PatDash, _ =>
          if after || match pos, rest with _ :: _, _ :: _ => true | _, _ => false end
          then consume rest false pos true ns extras
          else consume rest false pos false ns (extras ++ [s])
      | _, _ => consume rest false pos false ns (extras ++ [s])
      end
  end.

(** [parse_args(argv)]: a required argument that is missing and an extra word are errors. *)
Definition parse_args (positionals : list B) (complete : NS → bool) (argv : list string) (ns : NS) : IO NS :=
  match classify argv with
  | None => error
  | Some words =>
      do r <- consume words false positionals false ns [];
      let '(ns, pos, extras) := r in
      match complete ns, pos, extras with
      | true, [], [] => ret ns
      | _, _, _ => error
      end
  end.
End Parser.

(** * Facts *)

(** Without the sign the word is not split. *)
Lemma split_eq_none s : no_char "=" s = true → split_eq s = (s, None).
Proof.
  intros Hs. unfold split_eq, split1. destruct (find_opt "=" s) as [i|] eqn:E; [|done]. exfalso.
  assert (Hc : contains s "=" = true) by (unfold contains; by rewrite E).
  apply contains_iff in Hc as (a & b & ->). by rewrite !no_char_app, andb_false_r in Hs.
Qed.

Lemma split_eq_first name v : no_char "=" name = true → split_eq (name +:+ "=" +:+ v) = (name, Some v).
Proof.
  intros Hn. unfold split_eq. change ("=" +:+ v) with (String "=" v). by rewrite split1_first.
Qed.

Section Facts.
Context {A B NS : Type} (table : list (string * A)) (takes_one : A → bool) (call : A → option string → NS → IO NS).
Context (call_pos : B → string → NS → IO NS).

(** The names of a parser: a letter after a dash, or more after two; none has the sign. *)
Definition short_name (s : string) : bool :=
  match s with String d (String c "") => is_dash d && negb (is_dash c) | _ => false end.

Definition option_name (s : string) : bool :=
  no_char "=" s && (short_name s || (startswith s "--" && negb (String.eqb s "--"))).

Definition table_ok : Prop := dict_wf table ∧ Forall (fun e => option_name e.1 = true) table.

(** A word that stands for an option: its name, or the beginning of a long name that no
    other name has. *)
Definition stands_for (s : string) (a : A) : Prop :=
  no_char "=" s = true ∧
  (dget s table = Some a ∨
   dget s table = None ∧ startswith s "--" = true ∧ s ≠ "--" ∧
   ∃ full, List.filter (fun e => startswith e.1 s) table = [(full, a)]).

(** The letter [c] is a flag. *)
Definition flag_letter (c : ascii) (a : A) : Prop :=
  dget (String "-" (String c "")) table = Some a ∧ takes_one a = false.

(** The words that spell a sequence of options with their values. *)
Inductive spelled : list (A * option string) → list string → Prop :=
| SpNil : spelled [] []
| SpFlag s a evs ws :
    stands_for s a → takes_one a = false → spelled evs ws → spelled ((a, None) :: evs) (s :: ws)
| SpFlags cs l evs ws :
    (2 ≤ length cs)%nat → Forall2 flag_letter cs l → no_char "=" (String.string_of_list_ascii cs) = true →
    spelled evs ws →
    spelled (map (fun a => (a, None)) l ++ evs) (String "-" (String.string_of_list_ascii cs) :: ws)
| SpEq s a v evs ws :
    stands_for s a → takes_one a = true → spelled evs ws →
    spelled ((a, Some v) :: evs) ((s +:+ "=" +:+ v) :: ws)
| SpNext s a v evs ws :
    stands_for s a → takes_one a = true → startswith v "-" = false → spelled evs ws →
    spelled ((a, Some v) :: evs) (s :: v :: ws).

Context (Hok : table_ok).

Lemma table_name s a : dget s table = Some a → option_name s = true.
Proof.
  intros Hs. destruct Hok as [_ Hf]. apply dget_elem in Hs.
  by apply (proj1 (Forall_forall _ _) Hf) in Hs.
Qed.

Lemma option_name_inv s :
  option_name s = true → no_char "=" s = true ∧ s ≠ "--" ∧
  ∃ c t, s = String "-" (String c t) ∧ (is_dash c = false → t = "").
Proof.
  unfold option_name, short_name. intros [He Hs]%andb_true_iff. split; [done|].
  apply orb_true_iff in Hs as [Hs|Hs].
  - destruct s as [|d [|c [|? ?]]]; try done. apply andb_true_iff in Hs as [Hd Hc].
    apply Ascii.eqb_eq in Hd as ->. apply negb_true_iff in Hc. split; [intros [= ->]; done|]. by exists c, "".
  - apply andb_true_iff in Hs as [Hs Hne]. apply startswith_iff in Hs as [t ->].
    split; [intros E; by rewrite E in Hne|].
    by exists "-"%char, t.
Qed.

Lemma parse_value v : startswith v "-" = false → parse_optional table v = Some PatA.
Proof.
  destruct v as [|c v]; [done|]. rewrite startswith_cons, startswith_nil_r, andb_true_r. intros Hc.
  unfold parse_optional, is_dash. rewrite Ascii.eqb_sym, Hc. done.
Qed.

Lemma parse_stands s a :
  stands_for s a → s ≠ "--" ∧ ∃ full, parse_optional table s = Some (PatO (Some (a, full, None))).
Proof.
  intros [He [Hd|(Hd & Hs & Hne & full & Hf)]].
  - destruct (option_name_inv _ (table_name _ _ Hd)) as (_ & Hne & c & t & -> & _). split; [done|].
    exists (String "-" (String c t)). unfold parse_optional. simpl is_dash. cbn [negb]. by rewrite Hd.
  - split; [done|]. exists full. apply startswith_iff in Hs as [t ->].
    change ("--" +:+ t) with (String "-" (String "-" t)) in *.
    unfold parse_optional, get_option_tuples. cbn [is_dash negb Ascii.eqb Bool.eqb]. rewrite Hd.
    cbn [String.eqb]. by rewrite (split_eq_none _ He), Hf.
Qed.

Lemma parse_stands_eq s a v :
  stands_for s a →
  ∃ full, parse_optional table (s +:+ "=" +:+ v) = Some (PatO (Some (a, full, Some v))).
Proof.
  intros [He Hs].
  assert (Hnone : dget (s +:+ "=" +:+ v) table = None).
  { destruct (dget (s +:+ "=" +:+ v) table) eqn:E; [|done]. apply table_name, option_name_inv in E as [E _].
    by rewrite !no_char_app, andb_false_r in E. }
  pose proof (split_eq_first s v He) as Hsplit.
  destruct Hs as [Hd|(Hd & Hs & Hne & full & Hf)].
  - destruct (option_name_inv _ (table_name _ _ Hd)) as (_ & _ & c & t & -> & _).
    exists (String "-" (String c t)). unfold parse_optional. rewrite !app_cons_str in *.
    rewrite Hnone. cbn [is_dash negb Ascii.eqb Bool.eqb String.eqb]. by rewrite Hsplit, Hd.
  - exists full. apply startswith_iff in Hs as [t ->]. change ("--" +:+ t) with (String "-" (String "-" t)) in *.
    unfold parse_optional, get_option_tuples. rewrite !app_cons_str in *. rewrite Hnone.
    cbn [is_dash negb Ascii.eqb Bool.eqb String.eqb]. by rewrite Hsplit, Hd, Hf.
Qed.

(** A word of several letters. *)
Lemma parse_letters c a t :
  dget (String "-" (String c "")) table = Some a → t ≠ "" → no_char "=" (String c t) = true →
  String "-" (String c t) ≠ "--" ∧
  parse_optional table (String "-" (String c t)) =
    Some (PatO (Some (a, String "-" (String c ""), Some t))).
Proof.
  intros Hd Ht He. destruct (option_name_inv _ (table_name _ _ Hd)) as (_ & Hne & c' & t' & [= <- <-] & _).
  assert (Hc : is_dash c = false).
  { destruct (is_dash c) eqn:E; [|done]. apply Ascii.eqb_eq in E as ->. done. }
  split; [intros [= _ E]; done|].
  assert (Hother : ∀ e, e ∈ table → startswith e.1 (String "-" (String c t)) = false).
  { intros e Hin. destruct (startswith e.1 _) eqn:E; [|done]. exfalso. apply startswith_iff in E as [u E].
    apply (proj1 (Forall_forall _ _) (proj2 Hok)), option_name_inv in Hin as (_ & _ & d & x & E' & Hx).
    rewrite E' in E. injection E as -> E. rewrite (Hx Hc) in E. destruct t; [done|discriminate E]. }
  assert (Hw : dget (String "-" (String c t)) table = None).
  { destruct (dget (String "-" (String c t)) table) as [b|] eqn:E; [|done]. apply dget_elem, Hother in E. cbn [fst] in E.
    by rewrite startswith_refl in E. }
  unfold parse_optional, get_option_tuples. cbn [is_dash negb Ascii.eqb Bool.eqb String.eqb]. rewrite Hw.
  rewrite split_eq_none by done. fold (is_dash c). rewrite Hc.
  replace (slice_to (String "-" (String c t)) 2) with (String "-" (String c ""))
    by exact (eq_sym (slice_to_app (String "-" (String c "")) t)).
  replace (slice_from (String "-" (String c t)) 2) with t
    by exact (eq_sym (slice_from_app (String "-" (String c "")) t)).
  rewrite (omap_dget _ (String "-" (String c "")) a) by (try apply Hok; try done;
    intros e Hin Hne'; rewrite (proj2 (String.eqb_neq _ _)), Hother by done; done).
  simpl fst. by rewrite String.eqb_refl.
Qed.

(** The letters of a word are its flags in order. *)
Lemma cluster_letters c a cs l :
  is_dash c = false → takes_one a = false → cs ≠ [] → Forall2 flag_letter cs l →
  ∃ init b, cluster table takes_one a (String "-" (String c "")) (String.string_of_list_ascii cs) =
              Some (init, b, None) ∧ takes_one b = false ∧ a :: l = init ++ [b].
Proof.
  intros Hc Ha Hne Hl. revert c a Hc Ha Hne.
  induction Hl as [|c' b cs l [Hd Hb] Hl IH]; intros c a Hc Ha Hne; [done|]. simpl. rewrite Ha, Hc, Hd. simpl.
  destruct Hl as [|c2 b2 cs l Hb2 Hl].
  - by exists [a], b.
  - destruct (IH c' b) as (init & b' & E & H1 & H2); [|done|done|].
    + destruct (is_dash c') eqn:E; [|done]. apply Ascii.eqb_eq in E as ->.
      by apply table_name, option_name_inv in Hd as (_ & ? & _).
    + exists (a :: init), b'. rewrite E. simpl. by rewrite H2.
Qed.

Definition take_event (ns : NS) (e : A * option string) : IO NS := call e.1 e.2 ns.

Abbreviation acted evs ns := (fold_each evs take_event ns).

Lemma take_flags_acted l ns : take_flags call l ns =m= acted (map (fun a => (a, None)) l) ns.
Proof.
  revert ns. induction l as [|a l IH]; intros ns s; [done|]. unfold take_flags in *. simpl. unfold bind.
  unfold take_event at 1. simpl. destruct (call a None ns s) as [[ns'|e|c] s']; [|done|done]. apply IH.
Qed.

(** The options of one word, then those of the others. *)
Lemma consume_word t s words skip es evs pos after ns extras :
  consume_optional table takes_one call t words ns =m= (do ns <- acted es ns; ret (ns, skip)) →
  (∀ ns, consume table takes_one call call_pos words skip pos false ns extras =m=
     (do ns <- acted evs ns; ret (ns, pos, extras))) →
  consume table takes_one call call_pos ((s, PatO (Some t)) :: words) false pos after ns extras =m=
    (do ns <- acted (es ++ evs) ns; ret (ns, pos, extras)).
Proof.
  intros H1 H2. rewrite fold_each_app, bind_assoc. simpl. rewrite H1, bind_assoc.
  apply bind_proper; [done|]. intros ns'. rewrite bind_ret_l. apply H2.
Qed.

(** A flag, or the letters of a word, with no value. *)
Lemma consume_flags t words l ns init b :
  (let '(a, name, explicit) := t in
   match explicit with None => Some ([], a, None) | Some e => cluster table takes_one a name e end) =
    Some (init, b, None) → takes_one b = false → l = init ++ [b] →
  consume_optional table takes_one call t words ns =m=
    (do ns <- acted (map (fun a => (a, None)) l) ns; ret (ns, false)).
Proof.
  destruct t as [[a name] explicit]. intros E Hb ->. unfold consume_optional. rewrite E, Hb.
  rewrite map_app, fold_each_app, take_flags_acted, bind_assoc. apply bind_proper; [done|]. intros ns'.
  simpl. rewrite bind_assoc. apply bind_proper; [done|]. by intros ns''.
Qed.

(** A value, in the word of the option or in the next. *)
Lemma consume_value a full v explicit words ns (skip : bool) :
  takes_one a = true →
  (if skip then explicit = None ∧ ∃ rest, words = (v, PatA) :: rest else explicit = Some v) →
  consume_optional table takes_one call (a, full, explicit) words ns =m=
    (do ns <- acted [(a, Some v)] ns; ret (ns, skip)).
Proof.
  intros Ha Hv. cbn [fold_each]. rewrite bind_ret_r. unfold consume_optional. destruct skip.
  - destruct Hv as [-> [rest ->]]. by rewrite Ha.
  - subst explicit. destruct v; simpl; by rewrite Ha.
Qed.

Lemma classify_cons s p rest words :
  s ≠ "--" → parse_optional table s = Some p → classify table rest = Some words →
  classify table (s :: rest) = Some ((s, p) :: words).
Proof. intros Hs Hp Hr. unfold classify at 1. fold (classify table). by rewrite (proj2 (String.eqb_neq _ _) Hs), Hp, Hr. Qed.

(** Words that spell options are read as these options, which act in their order. *)
Lemma consume_spelled evs ws :
  spelled evs ws →
  ∃ words, classify table ws = Some words ∧
    ∀ pos after ns extras, consume table takes_one call call_pos words false pos after ns extras =m=
      (do ns <- acted evs ns; ret (ns, pos, extras)).
Proof.
  induction 1 as [|s a evs ws Hs Ha Hw (words & E & IH)|cs l evs ws Hlen Hl He Hw (words & E & IH)
    |s a v evs ws Hs Ha Hw (words & E & IH)|s a v evs ws Hs Ha Hv Hw (words & E & IH)].
  - by exists [].
  - destruct (parse_stands s a Hs) as [Hne [full Hp]]. exists ((s, PatO (Some (a, full, None))) :: words).
    split; [by apply classify_cons|]. intros pos after ns extras.
    apply (consume_word _ _ _ false [(a, None)]); [|intros; apply IH]. by apply (consume_flags _ _ [a] ns [] a).
  - destruct Hl as [|c a cs l [Hd Ha] Hl]; [simpl in Hlen; lia|].
    destruct Hl as [|c2 a2 cs l Ha2 Hl]; [simpl in Hlen; lia|].
    destruct (parse_letters c a (String.string_of_list_ascii (c2 :: cs)) Hd) as [Hne Hp]; [done|done|].
    eexists (_ :: words). split; [by apply (classify_cons _ _ _ _ Hne Hp)|]. intros pos after ns extras.
    apply (consume_word _ _ _ false (map (fun a => (a, None)) (a :: a2 :: l))); [|intros; apply IH].
    destruct (cluster_letters c a (c2 :: cs) (a2 :: l)) as (init & b & Ec & Hb & Hi); [|done|done|by constructor|].
    + destruct (is_dash c) eqn:Ed; [|done]. apply Ascii.eqb_eq in Ed as ->.
      by apply table_name, option_name_inv in Hd as (_ & ? & _).
    + by apply (consume_flags _ _ _ ns init b).
  - destruct (parse_stands_eq s a v Hs) as [full Hp]. eexists (_ :: words). split.
    + apply (fun Hne => classify_cons _ _ _ _ Hne Hp E). intros Heq.
      assert (Hx : no_char "=" (s +:+ "=" +:+ v) = true) by (by rewrite Heq).
      by rewrite !no_char_app, andb_false_r in Hx.
    + intros pos after ns extras. apply (consume_word _ _ _ false [(a, Some v)]); [|intros; apply IH].
      by apply consume_value.
  - destruct (parse_stands s a Hs) as [Hne [full Hp]].
    exists ((s, PatO (Some (a, full, None))) :: (v, PatA) :: words). split.
    + apply classify_cons; [done..|]. apply classify_cons; [by intros ->|by apply parse_value|done].
    + intros pos after ns extras. apply (consume_word _ _ _ true [(a, Some v)]); [|intros; apply IH].
      apply consume_value; [done|]. split; [done|]. by eexists.
Qed.

(** What the parser gives on such words. *)
Lemma parse_args_spelled complete evs ws ns :
  spelled evs ws →
  parse_args table takes_one call call_pos [] complete ws ns =m=
    (do ns <- acted evs ns; if complete ns then ret ns else error).
Proof.
  intros (words & E & IH)%consume_spelled. unfold parse_args. rewrite E, IH, bind_assoc.
  apply bind_proper; [done|]. intros ns'. rewrite bind_ret_l. simpl. by destruct (complete ns').
Qed.
End Facts.

(** ** What a parse leaves alone *)

Section Effects.
Context {A B NS V : Type} (table : list (string * A)) (takes_one : A → bool) (call : A → option string → NS → IO NS).
Context (call_pos : B → string → NS → IO NS) (positionals : list B).

Lemma frame_parse_args (obs : world → V) complete argv ns :
  (∀ a v ns, frame obs (call a v ns)) → (∀ b v ns, frame obs (call_pos b v ns)) →
  frame obs (parse_args table takes_one call call_pos positionals complete argv ns).
Proof.
  intros Hc Hb. assert (Hf : ∀ l ns, frame obs (take_flags call l ns)) by (intros; by apply frame_fold_each).
  assert (Ho : ∀ t next ns, frame obs (consume_optional table takes_one call t next ns)).
  { intros [[a name] explicit] next ns0. unfold consume_optional.
    repeat case_match; try done; repeat (apply frame_bind; [done|intros ?]); done. }
  assert (Hw : ∀ words skip pos after ns extras,
    frame obs (consume table takes_one call call_pos words skip pos after ns extras)).
  { induction words as [|[s p] words IH]; intros skip pos after ns0 extras; [done|]. simpl.
    destruct skip; [done|]. destruct p as [| |[t|]], pos as [|b pos]; repeat case_match; try done;
      (apply frame_bind; [done|intros r; apply IH]). }
  unfold parse_args. destruct (classify table argv); [|done]. apply frame_bind; [done|intros r].
  by repeat case_match.
Qed.

Lemma exits_parse_args (P : Z → Prop) complete argv ns :
  P 2 → (∀ a v ns, exits P (call a v ns)) → (∀ b v ns, exits P (call_pos b v ns)) →
  exits P (parse_args table takes_one call call_pos positionals complete argv ns).
Proof.
  intros H2 Hc Hb.
  assert (He : ∀ T, exits P (error (S := world) (T := T))) by (intros T; by apply exits_exit).
  assert (Hf : ∀ l ns, exits P (take_flags call l ns)) by (intros; by apply exits_fold_each).
  assert (Ho : ∀ t next ns, exits P (consume_optional table takes_one call t next ns)).
  { intros [[a name] explicit] next ns0. unfold consume_optional.
    repeat case_match; try done; repeat (apply exits_bind; [done|intros ?]); done. }
  assert (Hw : ∀ words skip pos after ns extras,
    exits P (consume table takes_one call call_pos words skip pos after ns extras)).
  { induction words as [|[s p] words IH]; intros skip pos after ns0 extras; [done|]. simpl.
    destruct skip; [done|]. destruct p as [| |[t|]], pos as [|b pos]; repeat case_match; try done;
      (apply exits_bind; [done|intros r; apply IH]). }
  unfold parse_args. destruct (classify table argv); [|done]. apply exits_bind; [done|intros r].
  by repeat case_match.
Qed.
End Effects.
