(* ===== verification/Instance.v ===== *)
(** src/concord/config.py and src/concord/instance.py: the paths of the tool and
    the life cycle (ready, setup, build, check) that every generator shares.  The
    abstract methods of [Instance] are the class [Tool]; the life cycle is
    written, and verified, against it. *)

From S2P Require Import Prelude PyStr PyPath Effect Os Util.

(** * config.py *)

Record config := Config {
  PATH : string;
  BPF_PATH : string;
  KPATCH_PATH : string;
  PATCH_PATH : string;
  PATH_OUTS : string;
  POLICY_PATH : string;
  POLICY_AUX_DATA : string;
  API_PATH : string;
  NCPU : Z
}.

(** [file] is [__file__] and [dir] the working directory when it is loaded. *)
Definition load_config `{Host} (dir file : string) : config :=
  let path := abspath dir (join2 file "..") in
  let policy := join2 path "policy" in
  Config path (join2 path "bpf") (path_join path [".."; "kpatch"]) (join2 path "patch")
    (join2 path "output") policy (join2 policy "lock_policy.h") (join2 path "list_APIs.h") cpu_count.

Definition BPF_SKELETON_KERN : string := "skeleton_kern.c".
Definition BPF_SKELETON_USER : string := "skeleton_user.c".
Definition KPATCH_PRE_CALL : string := "pre_patch_callback.patch".
Definition KPATCH_RESULT : string := "concord.patch".
Definition KPATCH_MODULE : string := "livepatch-concord.ko".
Definition POLICY_PIN : string := "/sys/fs/bpf/".

(** * instance.py *)

(** [Instance.__init__]: the base name and the output directory. *)
Record instance := Instance { name : string; path_src : string }.

Definition init_instance (CONFIG : config) (prog name_ : string) : instance :=
  let n := basename name_ in
  Instance n (path_join (PATH_OUTS CONFIG) [n; prog]).

(** A generator object [O] beside the process: its attributes change with its methods. *)
Abbreviation OM O := (M (world * O)).

Definition lift {O A} (m : IO A) : OM O A := fun s =>
  let (o, w') := m (fst s) in (o, (w', snd s)).

Definition self {O} : OM O O := gets snd.
Definition set_self {O} (f : O → O) : OM O unit := modify (fun s => (fst s, f (snd s))).

(** [with cd(pn): body] around methods of the object. *)
Definition ocd `{Host} {O A} (pn : string) (body : OM O A) : OM O A :=
  do cur <- lift getcwd;
  do home <- lift (gets (fun w => env w !! "HOME"));
  lift (chdir (expanduser home pw_home pn)) ;;
  finally body (lift (chdir cur)).

(** The abstract methods. *)
Class Tool (O : Type) := {
  base : O → instance;
  _ready_impl : bool → OM O unit;
  _setup_impl : bool → OM O unit;
  _build_impl : bool → OM O unit;
  _check_impl : OM O unit
}.

Section Lifecycle.
Context `{Host} {O : Type} `{Tool O}.

(** [except Exception as e: logging.error(m); print(e); sys.exit()] *)
Definition fail (m : string) (e : exn) : OM O unit :=
  lift (logging ERROR m) ;; lift (print (emsg e)) ;; sys_exit 0.

Definition ready (override : bool) : OM O unit :=
  do o <- self;
  let p := path_src (base o) in
  do ex <- lift (path_exists p);
  if ex && negb override
  then lift (logging INFO ("Path " +:+ p +:+ " existed, do nothing"))
  else
    lift (prepdn p override) ;;
    try_except (_ready_impl override ;; lift (logging INFO "[Done] Ready"))
      CException (fail "[Fail] Ready").

Definition setup (override : bool) : OM O unit :=
  try_except (_setup_impl override ;; lift (logging INFO "[Done] Setup"))
    CException (fail "[Fail] Setup").

Definition build (override : bool) : OM O unit :=
  try_except (_build_impl override ;; lift (logging INFO "[Done] Build"))
    CException (fail "[Fail] Build").

Definition check : OM O unit :=
  try_except (_check_impl ;; lift (logging INFO "[Done] Check"))
    CException (fail "[Fail] Check").
End Lifecycle.

(** * Facts *)

Lemma lift_Ret {O A} (m : IO A) w (ob : O) a w' :
  m w = (Ret a, w') → lift m (w, ob) = (Ret a, (w', ob)).
Proof. intros H. unfold lift. simpl. by rewrite H. Qed.

Lemma lift_bind {O A B} (m : IO A) (k : A → IO B) :
  lift (O := O) (bind m k) =m= bind (lift m) (fun a => lift (k a)).
Proof. intros [w ob]. unfold lift, bind. simpl. by destruct (m w) as [[]]. Qed.

Lemma frame_lift {O A V} (obs : world → V) (m : IO A) :
  frame obs m → frame (fun s : world * O => obs s.1) (lift m).
Proof. intros Hm [w ob]. specialize (Hm w). unfold lift. simpl. by destruct (m w). Qed.

Lemma frame_lift_self {O A V} (obs : O → V) (m : IO A) : frame (fun s : world * O => obs s.2) (lift m).
Proof. intros [w ob]. unfold lift. simpl. by destruct (m w). Qed.

Section LifecycleFacts.
Context `{Host} {O : Type} `{Tool O}.

(** A guarded method: how its end becomes the end of the phase. *)
Lemma guarded_run (m : OM O unit) done_ failed s :
  try_except (m ;; lift (logging INFO done_)) CException (fail failed) s =
  match m s with
  | (Ret _, (w', ob)) => (Ret tt, (set_log (log w' ++ [(INFO, done_)]) w', ob))
  | (Raise e, (w', ob)) =>
      if is_subclass (ecls e) CException
      then (Exit 0, (set_console (console w' ++ [emsg e])
                       (set_log (log w' ++ [(ERROR, failed)]) w'), ob))
      else (Raise e, (w', ob))
  | (Exit c, s') => (Exit c, s')
  end.
Proof.
  unfold try_except, bind. destruct (m s) as [[[]|e|c] [w' ob]]; try done.
Qed.
End LifecycleFacts.

(** ** How phases end *)

(** The program is left with status 0, an error being the last entry of the log. *)
Definition error_logged (c : Z) (w : world) : Prop := c = 0 ∧ ∃ m, last (log w) = Some (ERROR, m).
Definition error_exit {O} (c : Z) (s : world * O) : Prop := error_logged c s.1.

Lemma ends_lift {O A} (X : exn → Prop) (Q : Z → world * O → Prop) (m : IO A) :
  ends X (fun _ _ => False) m → ends X Q (lift m).
Proof. intros Hm [w ob]. specialize (Hm w). unfold lift. simpl. by destruct (m w) as [[a|e|c] w']. Qed.

Lemma ends_lift_error {O A} (X : exn → Prop) (m : IO A) : ends X error_logged m → ends X error_exit (lift (O := O) m).
Proof. intros Hm [w ob]. specialize (Hm w). unfold lift. simpl. by destruct (m w) as [[a|e|c] w']. Qed.

Lemma ends_error_logged {A} (X : exn → Prop) m : ends X error_logged (logging ERROR m ;; sys_exit 0 : IO A).
Proof. intros w. split; [done|]. exists m. simpl. by rewrite last_snoc. Qed.

Lemma ends_error_exit {O A} (X : exn → Prop) m :
  ends X error_exit (lift (logging ERROR m) ;; sys_exit 0 : OM O A).
Proof. intros [w ob]. split; [done|]. exists m. simpl. by rewrite last_snoc. Qed.

Lemma ends_fail {O} (X : exn → Prop) m e : ends X error_exit (fail (O := O) m e).
Proof. intros [w ob]. split; [done|]. exists m. simpl. by rewrite last_snoc. Qed.

(** No exception leaves a guarded method. *)
Lemma ends_phase {O} (m : OM O unit) done_ failed :
  ends (fun e => is_subclass (ecls e) CException = true) error_exit m →
  ends (fun _ => False) error_exit (try_except (m ;; lift (logging INFO done_)) CException (fail failed)).
Proof.
  intros Hm. apply ends_try; [|intros e; apply ends_fail]. apply ends_bind; [|intros _; by apply ends_lift].
  eapply ends_mono; [| |exact Hm]; [by left|done].
Qed.

(** An exception that leaves [ready] is one of making the output directory. *)
Lemma ended_ready `{Host} {O} `{Tool O} w (ob : O) :
  ends (fun e => is_subclass (ecls e) CException = true) error_exit (_ready_impl true) →
  ended (fun e => (prepdn (path_src (base ob)) true w).1 = Raise e) error_exit (ready true (w, ob)).
Proof.
  intros Hm. unfold ready. rewrite (bind_Ret _ _ _ ob (w, ob)) by reflexivity. erewrite bind_Ret by reflexivity.
  rewrite andb_false_r. apply ended_bind.
  - assert (Hp : exits (fun _ => False) (prepdn (path_src (base ob)) true)).
    { unfold prepdn, path_exists, when, rmtree, makedirs, update_root.
      repeat first [apply exits_bind; [|intros ?] | case_match | done]. }
    unfold lift. simpl. destruct (prepdn _ true w) as [[u|e|c] w'] eqn:E; [done..|]. by apply Hp in E.
  - intros u s' _. eapply ended_mono; [| |by apply ends_phase]; [done|done].
Qed.

(** ** What phases log *)

(** A normal end adds to the log. *)
Definition grows {S A} (lg : S → list (level * string)) (m : M S A) : Prop :=
  ∀ s a s', m s = (Ret a, s') → lg s `prefix_of` lg s'.

Section Grows.
Context {S : Type} (lg : S → list (level * string)).

Lemma grows_frame {A} (m : M S A) : frame lg m → grows lg m.
Proof. intros Hm s a s' E. specialize (Hm s). rewrite E in Hm. simpl in Hm. by rewrite Hm. Qed.

Lemma grows_bind {A B} (m : M S A) (k : A → M S B) : grows lg m → (∀ a, grows lg (k a)) → grows lg (bind m k).
Proof. intros Hm Hk s b s' (a & s1 & H1 & H2)%bind_Ret_inv. etrans; [by eapply Hm|by eapply Hk]. Qed.

Lemma grows_for_each {A} (l : list A) f : (∀ x, grows lg (f x)) → grows lg (for_each l f).
Proof. intros Hf. induction l as [|x l IH]; [by apply grows_frame|]. by apply grows_bind. Qed.

Lemma grows_fold_each {A B} (l : list A) (f : B → A → M S B) b : (∀ b x, grows lg (f b x)) → grows lg (fold_each l f b).
Proof. intros Hf. revert b. induction l as [|x l IH]; intros b; [by apply grows_frame|]. by apply grows_bind. Qed.

Lemma grows_try {A} (m : M S A) c h : grows lg m → (∀ e s, ∃ x s', h e s = (Exit x, s')) → grows lg (try_except m c h).
Proof.
  intros Hm Hh s a s'. unfold try_except. destruct (m s) as [[b|e|x] s1] eqn:E; [|case_if; [|done]|done].
  - intros [= <- <-]. by eapply Hm.
  - destruct (Hh e s1) as (x & s2 & ->). done.
Qed.

Lemma grows_finally {A} (m : M S A) f : grows lg m → frame lg f → grows lg (finally m f).
Proof.
  intros Hm Hf s a s'. unfold finally. destruct (m s) as [o s1] eqn:E. specialize (Hf s1).
  destruct (f s1) as [[u|e|c] s2]; [|done..]. intros [= -> <-]. simpl in Hf. rewrite Hf. by eapply Hm.
Qed.
End Grows.

Lemma grows_lift {O A} (m : IO A) : grows log m → grows (fun s : world * O => log s.1) (lift m).
Proof.
  intros Hm [w ob] a [w' ob']. unfold lift. simpl. destruct (m w) as [o w1] eqn:E. intros [= -> <- <-]. by eapply Hm.
Qed.

(** A normal end adds to the log, the entries [ds] among others. *)
Definition logs {O A} (ds : list (level * string)) (m : OM O A) : Prop :=
  ∀ s a s', m s = (Ret a, s') → ∃ l, log s'.1 = log s.1 ++ l ∧ ds `sublist_of` l.

Lemma logs_bind {O A B} d1 d2 (m : OM O A) (k : A → OM O B) :
  logs d1 m → (∀ a, logs d2 (k a)) → logs (d1 ++ d2) (bind m k).
Proof.
  intros Hm Hk s b s' (a & s1 & H1 & H2)%bind_Ret_inv. destruct (Hm _ _ _ H1) as (l1 & E1 & S1).
  destruct (Hk _ _ _ _ H2) as (l2 & E2 & S2). exists (l1 ++ l2). split; [by rewrite E2, E1, app_assoc|].
  by apply sublist_app.
Qed.

Lemma logs_grows {O A} (m : OM O A) : grows (fun s => log s.1) m → logs [] m.
Proof. intros Hm s a s' E. destruct (Hm _ _ _ E) as [l Hl]. exists l. split; [done|apply sublist_nil_l]. Qed.

(** A phase that returns is logged as done, so its method returned. *)
Lemma logs_phase {O} (m : OM O unit) done_ failed :
  grows (fun s => log s.1) m →
  logs [(INFO, done_)] (try_except (m ;; lift (logging INFO done_)) CException (fail failed)).
Proof.
  intros Hm s a s'. rewrite guarded_run. destruct (m s) as [[u|e|c] [w1 o1]] eqn:E; [|by case_if|done].
  intros [= _ <-]. destruct (Hm _ _ _ E) as [l Hl]. simpl in Hl. exists (l ++ [(INFO, done_)]). simpl.
  split; [by rewrite Hl, app_assoc|by apply sublist_inserts_l].
Qed.

Lemma logs_ready `{Host} {O} `{Tool O} :
  grows (fun s : world * O => log s.1) (_ready_impl true) → logs [(INFO, "[Done] Ready")] (ready (O := O) true).
Proof.
  intros Hm [w ob] a s'. unfold ready. rewrite (bind_Ret _ _ _ ob (w, ob)) by reflexivity.
  erewrite bind_Ret by reflexivity. rewrite andb_false_r. intros (u & [w1 o1] & E1 & E2)%bind_Ret_inv.
  apply logs_phase in E2 as (l & El & Hl); [|done]. exists l. split; [|done].
  rewrite El. cbn [fst] in *. unfold lift in E1. cbn [fst snd] in E1.
  pose proof (frame_prepdn log (path_src (base ob)) true w) as Hf.
  destruct (prepdn _ true w) as [o w2]. injection E1 as -> <- <-. simpl in Hf. by rewrite Hf.
Qed.

(** ** Properties *)

(** In every phase of a generator a method that raises an exception ends the program
    with exit status 0, after logging the failed phase and printing the exception; a
    method that returns lets the program go on with the phase logged as done.  The
    status does not tell a failed build from a successful one. *)
Theorem failed_phase_exits_zero `{Host} {O} `{Tool O} (override : bool) s :
  let ends (m : OM O unit) (phase : OM O unit) (what : string) :=
    match m s with
    | (Ret _, (w', ob)) =>
        phase s = (Ret tt, (set_log (log w' ++ [(INFO, "[Done] " +:+ what)]) w', ob))
    | (Raise e, (w', ob)) =>
        is_subclass (ecls e) CException = true →
        phase s = (Exit 0, (set_console (console w' ++ [emsg e])
                             (set_log (log w' ++ [(ERROR, "[Fail] " +:+ what)]) w'), ob))
    | (Exit c, s') => phase s = (Exit c, s')
    end in
  ends (_setup_impl override) (setup override) "Setup" ∧
  ends (_build_impl override) (build override) "Build" ∧
  ends _check_impl check "Check".
Proof.
  intros ends. unfold ends, setup, build, check. rewrite !guarded_run.
  split; [destruct (_setup_impl override s) as [[[]|e|c] [w' ob]]|split;
    [destruct (_build_impl override s) as [[[]|e|c] [w' ob]]|
     destruct (_check_impl s) as [[[]|e|c] [w' ob]]]]; try done; by intros ->.
Qed.

(** [ready] without override leaves an existing output directory alone and does not
    run the generator; with override, [_ready_impl] starts from an empty output directory
    and its end decides the end of the phase. *)
Theorem ready_prepares `{Host} {O} `{Tool O} w (ob : O) :
  let p := path_src (base ob) in
  (is_Some (at_path w p) →
   ready false (w, ob) =
     (Ret tt, (set_log (log w ++ [(INFO, "Path " +:+ p +:+ " existed, do nothing")]) w, ob))) ∧
  (tree_wf (root w) → resolve (cwd w) p ≠ [] → is_Some (tmkdirs (resolve (cwd w) p) (root w)) →
   ∃ r, tget (resolve (cwd w) p) r = Some (Dir []) ∧
     match _ready_impl true (set_root r w, ob) with
     | (Ret _, (w', ob')) =>
         ready true (w, ob) = (Ret tt, (set_log (log w' ++ [(INFO, "[Done] Ready")]) w', ob'))
     | (Raise e, (w', ob')) =>
         is_subclass (ecls e) CException = true →
         ready true (w, ob) = (Exit 0, (set_console (console w' ++ [emsg e])
                                 (set_log (log w' ++ [(ERROR, "[Fail] Ready")]) w'), ob'))
     | (Exit c, s') => ready true (w, ob) = (Exit c, s')
     end).
Proof.
  intros p. split.
  - intros [n Hn]. unfold ready, bind, self, gets, lift, path_exists, gets. simpl. fold p. by rewrite Hn.
  - intros Hwf Hne Hmk. destruct (prepdn_fresh w p Hwf Hne Hmk) as (r & H1 & H2 & _).
    exists r. split; [done|].
    assert (Hr : ready true (w, ob) =
      try_except (_ready_impl true ;; lift (logging INFO "[Done] Ready")) CException
        (fail "[Fail] Ready") (set_root r w, ob)).
    { unfold ready. unfold bind at 1, self at 1, gets at 1. simpl. fold p.
      unfold bind at 1, lift at 1, path_exists, gets. simpl. rewrite andb_false_r.
      by rewrite (bind_Ret _ _ _ _ _ (lift_Ret _ _ _ _ _ H1)). }
    rewrite Hr, guarded_run.
    destruct (_ready_impl true (set_root r w, ob)) as [[[]|e|c] [w' ob']]; try done. by intros ->.
Qed.
