(* ===== verification/BpfGen.v ===== *)
(** src/concord/bpfgen.py: the list of lock APIs and the generator of the eBPF
    program of a policy. *)

From S2P Require Import Prelude PyStr PyRe PyDict PyPath Effect Os Util Instance.

(** * CONCORD_API *)

Definition ret_type : list string := ["void"; "bool"; "int"].
Definition arg_type : list string := ["struct __lock_policy_args*"].

Definition str_in (s : string) (l : list string) : bool := existsb (String.eqb s) l.

Record CONCORD_API := ConcordApi {
  ret_ : string;
  func_name : string;
  num_arg : Z;
  args : list string
}.

(** [CONCORD_API(ret, func_name, num_arg)]: a failed assertion leaves the program. *)
Definition init_api (ret0 func_name0 : string) (num_arg0 : Z) : IO CONCORD_API :=
  if str_in ret0 ret_type && (0 <? Z.of_nat (String.length func_name0))
  then ret (ConcordApi ret0 func_name0 num_arg0 [])
  else logging ERROR "Wrong API usage" ;; print "" ;; sys_exit 0.

Definition add_arg (api : CONCORD_API) (arg : string) : IO CONCORD_API :=
  if num_arg api <=? Z.of_nat (length (args api))
  then logging ERROR "Wrong API usage: too many args" ;; sys_exit 0
  else if str_in arg arg_type
  then ret (ConcordApi (ret_ api) (func_name api) (num_arg api) (args api ++ [arg]))
  else logging ERROR "Wrong API usage: args not defined" ;; sys_exit 0.

Definition api_repr (api : CONCORD_API) : string :=
  let retstr := ret_ api +:+ " " +:+ func_name api +:+ "(" in
  let retstr := foldl (fun r arg => r +:+ arg +:+ ",") retstr (args api) in
  rstrip_chars retstr ", " +:+ ")".

Definition api_str (api : CONCORD_API) : string :=
  let retstr := ret_ api +:+ " " +:+ func_name api +:+ "(" in
  let retstr := foldl (fun r arg => r +:+ arg +:+ ", ") retstr (args api) in
  rstrip_chars retstr ", " +:+ ")".

(** * The expressions *)

Definition quote : string := String "034" "".

(** [SEC\(\"(.*?)\"\)] *)
Definition sec_re : re :=
  RSeq (rlit ("SEC(" +:+ quote)) (RSeq (RGroup 1 (RStar false dot)) (rlit (quote +:+ ")"))).

(** The declaration of an API, multi-line and verbose. *)
Definition api_re : re :=
  RSeq RBol (RSeq (RStar true isspace)
  (RSeq (RGroup 1 (RAlt (rlit "void") (RAlt (rlit "bool") (rlit "int"))))
  (RSeq (rplus isspace)
  (RSeq (RGroup 2 (rplus word_char))
  (RSeq (RStar true isspace)
  (RSeq (rlit "(")
  (RSeq (RGroup 3 (RStar true (fun c => negb (is_char ")" c))))
  (RSeq (rlit ")")
  (RSeq (RStar true isspace) (rlit ";")))))))))).

(** [,\s*] *)
Definition comma_re : re := RSeq (rlit ",") (RStar true isspace).

(** * EBPF_GEN *)

Record EBPF_GEN := EbpfGen {
  ebpf_base : instance;
  linux_src : string;
  policy_files : list string;
  map_file : string;
  aux_data : string;
  list_API : list (string * CONCORD_API)
}.

Definition set_list_API (l : list (string * CONCORD_API)) (g : EBPF_GEN) : EBPF_GEN :=
  EbpfGen (ebpf_base g) (linux_src g) (policy_files g) (map_file g) (aux_data g) l.

Section EbpfGen.
Context `{Host} (CONFIG : config).

Definition init_ebpf_gen (name_ linux_src0 : string) (policy_files0 : list string)
    (map_file0 aux_data0 : string) : EBPF_GEN :=
  EbpfGen (init_instance CONFIG "eBPFGen" name_) linux_src0 policy_files0 map_file0 aux_data0 [].

Definition g_name (g : EBPF_GEN) : string := name (ebpf_base g).
Definition g_src (g : EBPF_GEN) : string := path_src (ebpf_base g).

(** The sections named in a program text. *)
Definition sections_of (text : string) : list string :=
  map (fun m => group 1 m.2) (findall sec_re text).

Definition get_section : OM EBPF_GEN (list string) :=
  do g <- self;
  try_except
    (let bpf_kern := join2 (g_src g) (g_name g +:+ "_kern.c") in
     do text <- lift (read_file bpf_kern);
     ret (sections_of text))
    CException
    (fun e => lift (logging ERROR "Section not found") ;; lift (print (emsg e)) ;; sys_exit 0).

Definition pin_name (policy_file : string) : string :=
  let policy_name := (splitext (basename policy_file)).1 in
  quote +:+ POLICY_PIN +:+ policy_name +:+ quote.

Definition ready_makefile (g : EBPF_GEN) : IO unit :=
  let makefile := join2 (g_src g) "Makefile" in
  inplace_replace makefile "${POLICY_NAME}" (g_name g) ;;
  inplace_replace makefile "${LINUX_SRC}" (linux_src g).

Definition ready_kern (g : EBPF_GEN) : IO unit :=
  let bpf_kern_init := join2 (g_src g) BPF_SKELETON_KERN in
  do contents <-
    (if 0 <? Z.of_nat (String.length (map_file g))
     then do t <- read_file (map_file g); ret [t]
     else ret []);
  do contents <- fold_each (policy_files g)
    (fun cs policy_file => do t <- read_file policy_file; ret (cs ++ [t])) contents;
  inplace_replace bpf_kern_init "${API_CONTENTS}" (join nl contents) ;;
  rename bpf_kern_init (join2 (g_src g) (g_name g +:+ "_kern.c")).

Definition ready_user (g : EBPF_GEN) : IO unit :=
  let bpf_user_init := join2 (g_src g) BPF_SKELETON_USER in
  inplace_replace bpf_user_init "${NUM_POLICY}" (str_nat (length (policy_files g))) ;;
  let policy_list := join ", " (map pin_name (policy_files g)) in
  inplace_replace bpf_user_init "${POLICY_LIST}" policy_list ;;
  rename bpf_user_init (join2 (g_src g) (g_name g +:+ "_user.c")).

Definition ready_header (g : EBPF_GEN) : IO unit :=
  let bpf_header_init := join2 (g_src g) "include/concord.h" in
  logging INFO ("Number of CPUs: " +:+ str_Z cpu_count) ;;
  inplace_replace bpf_header_init "${NCPU}" (str_Z cpu_count).

Definition ebpf_ready_impl (override : bool) : OM EBPF_GEN unit :=
  do g <- self;
  lift (logging INFO "[Start] EBPF Ready: Prepare eBPF source code..." ;;
        copy_all_files (BPF_PATH CONFIG) (g_src g) true ;;
        execute_default ["cp"; aux_data g; join2 (g_src g) "include/concord.h"] ;;
        ready_makefile g ;;
        ready_kern g ;;
        ready_user g ;;
        ready_header g).

Definition ebpf_setup_impl (override : bool) : OM EBPF_GEN unit := ret tt.

Definition ebpf_build_impl (override : bool) : OM EBPF_GEN unit :=
  lift (logging INFO "[Start] EBPF Build: compile eBPF policy...") ;;
  do g <- self;
  lift (cd (g_src g) (execute_default ["make"])).

(** The type of a parameter: the text before its last blank, with the star of
    its name. *)
Definition parse_arg (arg : string) : IO string :=
  let name_index := rfind arg " " in
  let ty := slice_to arg name_index in
  match char_at arg (name_index + 1) with
  | None => raise CIndexError "string index out of range"
  | Some c => ret (if Ascii.eqb c "*" then ty +:+ "*" else ty)
  end.

(** The parameters of a declaration. *)
Definition arg_texts (args_text : string) : list string := re_split comma_re (strip args_text).

Definition parse_func (func : string * string * string) : IO CONCORD_API :=
  let '(f0, f1, f2) := func in
  let argl := arg_texts f2 in
  do api_func <- init_api f0 f1 (Z.of_nat (length argl));
  fold_each argl (fun api arg => do ty <- parse_arg arg; add_arg api ty) api_func.

(** The declarations found in a header. *)
Definition declarations (lines : string) : list (string * string * string) :=
  map (fun m => (group 1 m.2, group 2 m.2, group 3 m.2)) (findall api_re lines).

Definition read_API_list : OM EBPF_GEN unit :=
  do lines <- lift (read_file (API_PATH CONFIG));
  for_each (declarations lines) (fun func =>
    do api_func <- lift (parse_func func);
    set_self (fun g => set_list_API (dset func.1.2 api_func (list_API g)) g)).

Definition print_API : OM EBPF_GEN unit :=
  lift (logging INFO "=== API List ===") ;;
  do g <- self;
  for_each (list_API g) (fun item => lift (print (String "009" "> " +:+ api_str item.2))).

Definition check_section (section : string) : OM EBPF_GEN unit :=
  lift (logging INFO ("SEC = " +:+ quote +:+ section +:+ quote)) ;;
  if startswith section "maps" then
    do g <- self;
    lift (inplace_replace (join2 (g_src g) (g_name g +:+ "_user.c"))
            "#define MAP 0" "#define MAP 1")
  else if startswith section "license" then ret tt
  else if startswith section "lock_" then ret tt
  else lift (logging ERROR "Bad Section") ;; sys_exit 0.

Definition ebpf_check_impl : OM EBPF_GEN unit :=
  lift (logging INFO "[Start] EBPF Check: Checking APIs...") ;;
  read_API_list ;;
  print_API ;;
  do sections <- get_section;
  for_each sections check_section.

#[export] Instance ebpf_tool : Tool EBPF_GEN := {|
  base := ebpf_base;
  _ready_impl := ebpf_ready_impl;
  _setup_impl := ebpf_setup_impl;
  _build_impl := ebpf_build_impl;
  _check_impl := ebpf_check_impl
|}.
End EbpfGen.

(** * Facts *)

Lemma str_in_iff s l : str_in s l = true ↔ s ∈ l.
Proof.
  unfold str_in. rewrite existsb_exists, list_elem_of_In. split.
  - by intros (x & Hx & ->%String.eqb_eq).
  - intros Hs. exists s. split; [done|]. apply String.eqb_refl.
Qed.

(** An API object at any time: a known return type, a name, no more arguments than
    declared, all of a known type. *)
Definition api_wf (api : CONCORD_API) : Prop :=
  ret_ api ∈ ret_type ∧ func_name api ≠ "" ∧
  Z.of_nat (length (args api)) ≤ num_arg api ∧ Forall (fun a => a ∈ arg_type) (args api).

Lemma init_api_ok r n k w :
  r ∈ ret_type → n ≠ "" → init_api r n k w = (Ret (ConcordApi r n k []), w).
Proof.
  intros Hr Hn. unfold init_api. rewrite (proj2 (str_in_iff _ _) Hr).
  destruct n; [done|]. done.
Qed.

Lemma init_api_wf r n k w api w' :
  0 ≤ k → init_api r n k w = (Ret api, w') → api_wf api.
Proof.
  intros Hk. unfold init_api. case_if; [|done]. intros [= <- _]. bool_to_prop.
  apply str_in_iff in H. split; [done|]. split; [simpl; intros ->; simpl in *; lia|]. by split.
Qed.

Lemma add_arg_wf api a w api' w' :
  api_wf api → add_arg api a w = (Ret api', w') →
  api_wf api' ∧ length (args api') = S (length (args api)) ∧ num_arg api' = num_arg api ∧
  func_name api' = func_name api.
Proof.
  intros (H1 & H2 & H3 & H4). unfold add_arg. case_if; [done|]. case_if; [|done].
  intros [= <- _]. bool_to_prop. unfold api_wf. simpl. rewrite length_app. simpl.
  split; [|split; [lia|by split]]. split; [done|]. split; [done|]. split; [lia|].
  apply Forall_app. split; [done|]. by apply Forall_singleton, str_in_iff.
Qed.

Lemma add_args_wf l api w api' w' :
  api_wf api →
  fold_each l (fun api arg => do ty <- parse_arg arg; add_arg api ty) api w = (Ret api', w') →
  api_wf api' ∧ length (args api') = (length (args api) + length l)%nat ∧
  num_arg api' = num_arg api ∧ func_name api' = func_name api.
Proof.
  revert api w. induction l as [|a l IH]; intros api w Hwf H; simpl in H.
  - injection H as <- _. split; [done|]. split; [simpl; lia|by split].
  - apply bind_Ret_inv in H as (api1 & w1 & H1 & H2).
    apply bind_Ret_inv in H1 as (ty & w2 & _ & H1). apply add_arg_wf in H1 as (Ha & Hb & Hc & Hd); [|done].
    apply IH in H2 as (He & Hf & Hg & Hh); [|done]. split; [done|]. simpl. split; [lia|].
    split; congruence.
Qed.

(** A parsed declaration is well formed and has all the arguments it declares. *)
Lemma parse_func_wf d w api w' :
  parse_func d w = (Ret api, w') →
  api_wf api ∧ Z.of_nat (length (args api)) = num_arg api ∧ func_name api = d.1.2.
Proof.
  destruct d as [[r n] a]. unfold parse_func. intros (api0 & w0 & H1 & H2)%bind_Ret_inv.
  pose proof (init_api_wf _ _ _ _ _ _ (Nat2Z.is_nonneg _) H1) as Hwf.
  apply add_args_wf in H2 as (H3 & H4 & H5 & H6); [|done]. split; [done|].
  unfold init_api in H1. case_match; [|done]. injection H1 as <- _. simpl in *. split; [lia|done].
Qed.

(** What the expression for declarations captures. *)
Lemma declarations_sound lines r n a :
  (r, n, a) ∈ declarations lines →
  r ∈ ret_type ∧ n ≠ "" ∧ str_forall word_char n = true ∧ no_char ")" a = true.
Proof.
  unfold declarations. intros ([t cs] & [= -> -> ->] & Hin)%list_elem_of_fmap.
  apply findall_sound in Hin as (x & y & b & Hm & _ & _). unfold api_re in Hm. match_inv.
  cbn [fst snd group List.find Nat.eqb].
  repeat match goal with H : rest ?x = ?t +:+ rest ?y |- context [between ?x ?y] =>
    rewrite (between_eq x y t H) end.
  split; [|split; [done|split; [done|]]].
  - match goal with H : matches (RAlt _ _) _ _ _ _ |- _ =>
      apply matches_alt_inv in H as [H|[H|H]%matches_alt_inv] end; match_inv;
      match goal with H : rest ?x = ?t +:+ rest ?y |- context [between ?x ?y] =>
        rewrite (between_eq x y t H) end; unfold ret_type; set_solver.
  - match goal with H : str_forall (fun c => negb (is_char ")" c)) _ = true |- _ => exact H end.
Qed.

(** * The header of the repository *)

(** list_APIs.h *)
Definition list_APIs_h : string := join nl
  ["// ============ Available APIs ============"; "";
   "// -- General --";
   "void lock_to_acquire(struct __lock_policy_args *args);";
   "void lock_acquired(struct __lock_policy_args *args);";
   "void lock_to_release(struct __lock_policy_args *args);";
   "void lock_released(struct __lock_policy_args *args);"; "";
   "// -- Fastpath --";
   "void lock_to_enter_slowpath(struct __lock_policy_args *args);";
   "bool lock_enable_fastpath(struct __lock_policy_args *args);"; "";
   "// -- Reordering --";
   "bool should_reorder(struct __lock_policy_args *args);";
   "bool skip_reorder(struct __lock_policy_args *args);"; "";
   "// -- Bypass --";
   "bool lock_bypass_acquire(struct __lock_policy_args *args);";
   "bool lock_bypass_release(struct __lock_policy_args *args);"; ""].

Example declarations_list_APIs :
  map (fun d => (d.1.1, d.1.2)) (declarations list_APIs_h) =
  [("void", "lock_to_acquire"); ("void", "lock_acquired"); ("void", "lock_to_release");
   ("void", "lock_released"); ("void", "lock_to_enter_slowpath"); ("bool", "lock_enable_fastpath");
   ("bool", "should_reorder"); ("bool", "skip_reorder"); ("bool", "lock_bypass_acquire");
   ("bool", "lock_bypass_release")].
Proof. vm_compute. reflexivity. Qed.

(** * Properties *)

(** The dictionary of APIs: one entry per name, under the name of the API it holds. *)
Definition apis_wf (l : list (string * CONCORD_API)) : Prop :=
  dict_wf l ∧
  Forall (fun e => e.1 = func_name e.2 ∧ api_wf e.2 ∧
                   Z.of_nat (length (args e.2)) = num_arg e.2) l.

Lemma apis_wf_set l api :
  apis_wf l → api_wf api → Z.of_nat (length (args api)) = num_arg api →
  apis_wf (dset (func_name api) api l).
Proof.
  intros [H1 H2] H3 H4. split; [by apply dset_wf|]. clear H1.
  induction l as [|[k v] l IH]; simpl; [by apply Forall_singleton|].
  inversion H2; subst. case_decide; constructor; auto.
Qed.

(** Reading the API list keeps the dictionary well formed however it ends (normally,
    by an exception, or by leaving the program): one entry per function name, filed under
    that name, with a known return type, and exactly the declared number of arguments, all
    of the known argument type. *)
Theorem read_API_list_wf CONFIG w g :
  apis_wf (list_API g) → apis_wf (list_API (read_API_list CONFIG (w, g)).2.2).
Proof.
  intros Hg. unfold read_API_list, bind at 1, lift at 1. simpl.
  destruct (read_file (API_PATH CONFIG) w) as [[lines|e|c] w1]; simpl; [|done|done].
  generalize (declarations lines) as ds. intros ds. revert w1 g Hg.
  induction ds as [|d ds IH]; intros w1 g Hg; [done|]. simpl.
  destruct (parse_func d w1) as [[api|e|c] w2] eqn:E.
  - unfold bind at 1. unfold bind at 1, lift at 1. simpl. rewrite E.
    pose proof (parse_func_wf _ _ _ _ E) as (H1 & H2 & H3).
    apply (IH w2 (set_list_API (dset d.1.2 api (list_API g)) g)). simpl. rewrite <- H3.
    by apply apis_wf_set.
  - unfold bind at 1. unfold bind at 1, lift at 1. simpl. by rewrite E.
  - unfold bind at 1. unfold bind at 1, lift at 1. simpl. by rewrite E.
Qed.

Lemma read_API_list_wf_witness :
  let g := EbpfGen (Instance "numa" "/out") "/linux" [] "" "" [] in
  let w := World (Dir [("c", Dir [("list_APIs.h", File list_APIs_h 420)])]) "/" ∅ [] [] [] [] WARNING in
  let l := list_API (read_API_list (load_config (H := demo_host) "/" "/c/config.py") (w, g)).2.2 in
  apis_wf l ∧ length l = 10%nat.
Proof. split; [apply read_API_list_wf; split; constructor|vm_compute; reflexivity]. Defined.

(** Every declaration the header expression captures passes the assertions of the
    [CONCORD_API] constructor, so reading a header never stops there. *)
Theorem declarations_construct lines r n a k w :
  (r, n, a) ∈ declarations lines → init_api r n k w = (Ret (ConcordApi r n k []), w).
Proof. intros (H1 & H2 & _)%declarations_sound. by apply init_api_ok. Qed.

Lemma declarations_construct_witness :
  ∃ r n a, (r, n, a) ∈ declarations list_APIs_h ∧
    init_api r n 1 demo_world = (Ret (ConcordApi r n 1 []), demo_world).
Proof.
  exists "void", "lock_to_acquire", "struct __lock_policy_args *args".
  assert (Hin : ("void", "lock_to_acquire", "struct __lock_policy_args *args") ∈
                  declarations list_APIs_h).
  { apply (bool_decide_unpack _). vm_compute. exact I. }
  split; [exact Hin|]. exact (declarations_construct _ _ _ _ 1 demo_world Hin).
Defined.

(** The ten APIs that list_APIs.h declares. *)
Definition own_APIs : list (string * CONCORD_API) :=
  map (fun '(r, n) => (n, ConcordApi r n 1 ["struct __lock_policy_args*"]))
    [("void", "lock_to_acquire"); ("void", "lock_acquired"); ("void", "lock_to_release");
     ("void", "lock_released"); ("void", "lock_to_enter_slowpath");
     ("bool", "lock_enable_fastpath"); ("bool", "should_reorder"); ("bool", "skip_reorder");
     ("bool", "lock_bypass_acquire"); ("bool", "lock_bypass_release")].

Lemma read_own_APIs CONFIG w g m :
  at_path w (API_PATH CONFIG) = Some (File list_APIs_h m) → list_API g = [] →
  read_API_list CONFIG (w, g) = (Ret tt, (w, set_list_API own_APIs g)).
Proof.
  intros Hf Hg. unfold read_API_list.
  rewrite (bind_Ret _ _ _ (universal_newlines list_APIs_h) (w, g)).
  - destruct g as [b ls pf mf ad l]. simpl in Hg. subst l. vm_compute. reflexivity.
  - apply lift_Ret, read_file_Ret. unfold file_text. by rewrite Hf.
Qed.

(** Reading the repository's own list_APIs.h gives the ten lock APIs it declares, in
    its order, each with its return type and its one policy argument. *)
Theorem read_list_APIs CONFIG w g m :
  at_path w (API_PATH CONFIG) = Some (File list_APIs_h m) → list_API g = [] →
  read_API_list CONFIG (w, g) =
    (Ret tt, (w, set_list_API
      (map (fun '(r, n) => (n, ConcordApi r n 1 ["struct __lock_policy_args*"]))
         [("void", "lock_to_acquire"); ("void", "lock_acquired"); ("void", "lock_to_release");
          ("void", "lock_released"); ("void", "lock_to_enter_slowpath");
          ("bool", "lock_enable_fastpath"); ("bool", "should_reorder"); ("bool", "skip_reorder");
          ("bool", "lock_bypass_acquire"); ("bool", "lock_bypass_release")]) g)).
Proof. apply read_own_APIs. Qed.

Lemma read_list_APIs_witness :
  let g := EbpfGen (Instance "numa" "/out") "/linux" [] "" "" [] in
  let w := World (Dir [("c", Dir [("list_APIs.h", File list_APIs_h 420)])]) "/" ∅ [] [] [] [] WARNING in
  length (list_API (read_API_list (load_config (H := demo_host) "/" "/c/config.py") (w, g)).2.2)
    = 10%nat.
Proof.
  intros g w. rewrite (read_list_APIs (load_config (H := demo_host) "/" "/c/config.py") w g 420);
    [reflexivity|vm_compute; reflexivity|reflexivity].
Defined.

Lemma parse_arg_pointer x w :
  no_char " " x = true →
  parse_arg ("struct __lock_policy_args *" +:+ x) w = (Ret "struct __lock_policy_args*", w).
Proof.
  intros Hx. unfold parse_arg.
  change ("struct __lock_policy_args *" +:+ x) with
    ("struct __lock_policy_args" +:+ String " " ("*" +:+ x)).
  unfold rfind. change " "%string with (String " " "").
  rewrite rfind_opt_last by (rewrite no_char_app; done). rewrite slice_to_app.
  replace (Z.of_nat (String.length "struct __lock_policy_args") + 1)
    with (Z.of_nat (String.length "struct __lock_policy_args ")) by done.
  change ("struct __lock_policy_args" +:+ String " " ("*" +:+ x)) with
    ("struct __lock_policy_args " +:+ String "*" x).
  by rewrite char_at_app.
Qed.

(** An API declared without parameters cannot be read: splitting the empty parameter
    text gives one empty parameter, whose first character is then indexed, and the
    resulting exception ends the check phase. *)
Theorem no_parameters_rejected r n w :
  r ∈ ret_type → n ≠ "" →
  parse_func (r, n, "") w = (Raise (Exn CIndexError "string index out of range"), w).
Proof.
  intros Hr Hn. unfold parse_func. rewrite (bind_Ret _ _ _ _ _ (init_api_ok _ _ _ _ Hr Hn)). done.
Qed.

Lemma no_parameters_rejected_witness :
  parse_func ("void", "lock_tick", "") demo_world =
    (Raise (Exn CIndexError "string index out of range"), demo_world).
Proof. apply no_parameters_rejected; [apply (bool_decide_unpack _); exact I|done]. Defined.

(** Every section name the generator reports is the text between the quotes of a
    [SEC("...")] of the program, on one line. *)
Theorem sections_sound text s :
  s ∈ sections_of text →
  (∃ a b, text = a +:+ "SEC(" +:+ quote +:+ s +:+ quote +:+ ")" +:+ b) ∧ no_char LF s = true.
Proof.
  unfold sections_of. intros ([t cs] & -> & Hin)%list_elem_of_fmap.
  apply findall_sound in Hin as (x & y & b & Hm & _ & ->). unfold sec_re in Hm. match_inv.
  cbn [snd group List.find Nat.eqb fst].
  match goal with H : rest ?x = ?t +:+ rest ?y |- context [between ?x ?y] =>
    rewrite (between_eq x y t H) end.
  split; [|by rewrite <- str_forall_dot]. exists b, (rest y).
  repeat match goal with H : rest _ = _ |- _ => rewrite H; clear H end.
  by rewrite !app_str_assoc.
Qed.

Lemma sections_sound_witness :
  ∃ a b, "SEC(" +:+ quote +:+ "maps" +:+ quote +:+ ")" =
         a +:+ "SEC(" +:+ quote +:+ "maps" +:+ quote +:+ ")" +:+ b.
Proof.
  apply (sections_sound ("SEC(" +:+ quote +:+ "maps" +:+ quote +:+ ")") "maps").
  apply (bool_decide_unpack _). vm_compute. exact I.
Defined.

(** ** Preparing the source of the eBPF program *)

(** The effect of one [inplace_replace] on the text of a file. *)
Definition subst_text (t needle rep : string) : string := replace (universal_newlines t) needle rep.

Section Ready.
Context `{H : Host} (g : EBPF_GEN) (w : world).

Let S : list string := resolve (cwd w) (g_src g).
Context (Habs : startswith (g_src g) "/" = true) (Hend : endswith (g_src g) "/" = false)
  (Hname : no_char slash (g_name g) = true).

Lemma src_file n : plain n = true → resolve (cwd w) (join2 (g_src g) n) = S ++ [n].
Proof. intros Hn. apply (resolve_below _ _ [n]); [done..|]. by apply Forall_singleton. Qed.

Lemma src_header : resolve (cwd w) (join2 (g_src g) "include/concord.h") = S ++ ["include"; "concord.h"].
Proof. apply (resolve_below _ _ ["include"; "concord.h"]); [done..|]. by repeat constructor. Qed.

(** The names of the two generated programs. *)
Lemma plain_program c sfx :
  no_char slash sfx = true → (3 ≤ String.length sfx)%nat → c = g_name g +:+ sfx → plain c = true.
Proof.
  intros Hs Hl ->. apply plain_spec. rewrite no_char_app, Hname, Hs.
  assert (Hle : (3 ≤ String.length (g_name g +:+ sfx))%nat) by (rewrite length_app_str; lia).
  repeat split; intros E; rewrite E in Hle; simpl in Hle; lia.
Qed.

Lemma ready_makefile_run (r : node) t m :
  tree_wf r → tget (S ++ ["Makefile"]) r = Some (File t m) →
  ∃ r', ready_makefile g (set_root r w) = (Ret tt, set_root r' w) ∧
    tget (S ++ ["Makefile"]) r' =
      Some (File (subst_text (subst_text t "${POLICY_NAME}" (g_name g)) "${LINUX_SRC}" (linux_src g)) m) ∧
    same_but [S ++ ["Makefile"]] r r' ∧ tree_wf r'.
Proof.
  intros Hwf Ht. unfold ready_makefile.
  destruct (inplace_replace_at w r (join2 (g_src g) "Makefile") (S ++ ["Makefile"])
              "${POLICY_NAME}" (g_name g) t m) as (r1 & E1 & H1 & K1 & W1 & _);
    [done|done|by apply src_file|done|done|]. rewrite (bind_Ret _ _ _ _ _ E1).
  destruct (inplace_replace_at w r1 (join2 (g_src g) "Makefile") (S ++ ["Makefile"])
              "${LINUX_SRC}" (linux_src g) (subst_text t "${POLICY_NAME}" (g_name g)) m)
    as (r2 & E2 & H2 & K2 & W2 & _); [done|done|by apply src_file|done|done|].
  exists r2. split; [exact E2|]. split; [exact H2|]. split; [|done].
  intros q Hq. by rewrite (K2 q Hq), (K1 q Hq).
Qed.

(** Replacing in a skeleton and moving it to its final name. *)
Lemma ready_rename (r : node) skel final t m :
  plain skel = true → plain final = true → skel ≠ final → tree_wf r →
  tget (S ++ [skel]) r = Some (File t m) → tget (S ++ [final]) r = None →
  ∃ r', rename (join2 (g_src g) skel) (join2 (g_src g) final) (set_root r w) =
          (Ret tt, set_root r' w) ∧
    tget (S ++ [final]) r' = Some (File t m) ∧ tget (S ++ [skel]) r' = None ∧
    same_but [S ++ [skel]; S ++ [final]] r r' ∧ tree_wf r'.
Proof.
  intros H1 H2 Hne Hwf Ht Hn.
  destruct (rename_file (set_root r w) (join2 (g_src g) skel) (join2 (g_src g) final) S skel final t m)
    as (r' & E & Ha & Hb & K & W).
  - by apply src_file.
  - by apply src_file.
  - done.
  - done.
  - unfold at_path. simpl. by rewrite src_file.
  - unfold at_path. simpl. by rewrite src_file.
  - exists r'. done.
Qed.

(** Reading the texts that make the program. *)
Definition readable (r : node) (p t : string) : Prop := ∃ m, tget (resolve (cwd w) p) r = Some (File t m).

Lemma read_readable r p t :
  readable r p t → read_file p (set_root r w) = (Ret (universal_newlines t), set_root r w).
Proof.
  intros [m Hm]. apply read_file_Ret. unfold file_text, at_path. simpl. by rewrite Hm.
Qed.

Lemma read_policies r ps ts cs :
  Forall2 (readable r) ps ts →
  fold_each ps (fun cs p => do t <- read_file p; ret (cs ++ [t])) cs (set_root r w) =
    (Ret (cs ++ map universal_newlines ts), set_root r w).
Proof.
  intros Hp. revert cs. induction Hp as [|p t ps ts Hp Hps IH]; intros cs; simpl.
  - by rewrite app_nil_r.
  - unfold bind at 1. unfold bind at 1. rewrite (read_readable _ _ _ Hp). simpl.
    rewrite IH, <- app_assoc. done.
Qed.

(** The contents put into the kernel side: the map file, if any, then the policies. *)
Definition map_texts (mt : string) : list string := if String.eqb (map_file g) "" then [] else [mt].

Lemma ready_kern_run (r : node) t m mt ts :
  let final := g_name g +:+ "_kern.c" in
  tree_wf r → tget (S ++ [BPF_SKELETON_KERN]) r = Some (File t m) → tget (S ++ [final]) r = None →
  (map_file g ≠ "" → readable r (map_file g) mt) → Forall2 (readable r) (policy_files g) ts →
  ∃ r', ready_kern g (set_root r w) = (Ret tt, set_root r' w) ∧
    tget (S ++ [final]) r' =
      Some (File (subst_text t "${API_CONTENTS}"
                    (join nl (map universal_newlines (map_texts mt ++ ts)))) m) ∧
    tget (S ++ [BPF_SKELETON_KERN]) r' = None ∧
    same_but [S ++ [BPF_SKELETON_KERN]; S ++ [final]] r r' ∧ tree_wf r'.
Proof.
  intros final Hwf Ht Hn Hmap Hps. unfold ready_kern.
  erewrite (bind_Ret _ _ _ (map universal_newlines (map_texts mt)) (set_root r w)).
  2:{ unfold map_texts. destruct (map_file g) as [|c f] eqn:Ef; [done|]. simpl.
      unfold bind. by rewrite (read_readable _ _ _ (Hmap ltac:(done))). }
  rewrite (bind_Ret _ _ _ _ _ (read_policies _ _ _ _ Hps)), <- map_app.
  destruct (inplace_replace_at w r (join2 (g_src g) BPF_SKELETON_KERN)
              (S ++ [BPF_SKELETON_KERN]) "${API_CONTENTS}"
              (join nl (map universal_newlines (map_texts mt ++ ts))) t m)
    as (r1 & E1 & H1 & K1 & W1 & _); [done|done|by apply src_file|done|done|].
  rewrite (bind_Ret _ _ _ _ _ E1).
  assert (Hpl : plain final = true) by (apply (plain_program _ "_kern.c"); [done|simpl; lia|done]).
  assert (Hap : apart (S ++ [BPF_SKELETON_KERN]) (S ++ [final])).
  { apply apart_last. intros E. by rewrite <- E, Ht in Hn. }
  edestruct (ready_rename r1 BPF_SKELETON_KERN final) as (r2 & E2 & H2 & H3 & K2 & W2).
  - done.
  - done.
  - intros E. by rewrite <- E, Ht in Hn.
  - done.
  - exact H1.
  - rewrite (K1 (S ++ [final])) by by apply Forall_singleton. exact Hn.
  - exists r2. split; [exact E2|]. split; [exact H2|]. split; [exact H3|]. split; [|done].
    intros q Hq. rewrite (K2 q Hq). rewrite Forall_cons in Hq. apply K1, Forall_singleton, Hq.
Qed.

Lemma ready_user_run (r : node) t m :
  let final := g_name g +:+ "_user.c" in
  tree_wf r → tget (S ++ [BPF_SKELETON_USER]) r = Some (File t m) → tget (S ++ [final]) r = None →
  ∃ r', ready_user g (set_root r w) = (Ret tt, set_root r' w) ∧
    tget (S ++ [final]) r' =
      Some (File (subst_text (subst_text t "${NUM_POLICY}" (str_nat (length (policy_files g))))
                    "${POLICY_LIST}" (join ", " (map pin_name (policy_files g)))) m) ∧
    tget (S ++ [BPF_SKELETON_USER]) r' = None ∧
    same_but [S ++ [BPF_SKELETON_USER]; S ++ [final]] r r' ∧ tree_wf r'.
Proof.
  intros final Hwf Ht Hn. unfold ready_user.
  destruct (inplace_replace_at w r (join2 (g_src g) BPF_SKELETON_USER) (S ++ [BPF_SKELETON_USER])
              "${NUM_POLICY}" (str_nat (length (policy_files g))) t m)
    as (r1 & E1 & H1 & K1 & W1 & _); [done|done|by apply src_file|done|done|].
  rewrite (bind_Ret _ _ _ _ _ E1).
  edestruct (inplace_replace_at w r1 (join2 (g_src g) BPF_SKELETON_USER) (S ++ [BPF_SKELETON_USER])
              "${POLICY_LIST}" (join ", " (map pin_name (policy_files g))))
    as (r2 & E2 & H2 & K2 & W2 & _); [done|done|by apply src_file|done|exact H1|].
  rewrite (bind_Ret _ _ _ _ _ E2).
  assert (Hpl : plain final = true) by (apply (plain_program _ "_user.c"); [done|simpl; lia|done]).
  assert (Hap : apart (S ++ [BPF_SKELETON_USER]) (S ++ [final])).
  { apply apart_last. intros E. by rewrite <- E, Ht in Hn. }
  edestruct (ready_rename r2 BPF_SKELETON_USER final) as (r3 & E3 & H3 & H4 & K3 & W3).
  - done.
  - done.
  - intros E. by rewrite <- E, Ht in Hn.
  - done.
  - exact H2.
  - by rewrite (K2 (S ++ [final])), (K1 (S ++ [final])) by by apply Forall_singleton.
  - exists r3. split; [exact E3|]. split; [exact H3|]. split; [exact H4|]. split; [|done].
    intros q Hq. rewrite (K3 q Hq). rewrite Forall_cons in Hq.
    rewrite (K2 q), (K1 q); [done|apply Forall_singleton, Hq..].
Qed.
End Ready.

(** The directories and files [ready] works on: the skeleton directory with its four
    parts, the header and the policy files, all outside the output directory. *)
Record ready_inputs (CONFIG : config) (g : EBPF_GEN) (w : world)
    (es inc : list (string * node)) (mk kern user aux mt : string) (ts : list string) : Prop := {
  ri_wf : tree_wf (root w);
  ri_abs : startswith (g_src g) "/" = true ∧ endswith (g_src g) "/" = false;
  ri_name : no_char slash (g_name g) = true;
  ri_src : resolve (cwd w) (g_src g) ≠ [] ∧ is_Some (tmkdirs (resolve (cwd w) (g_src g)) (root w));
  ri_bpf : at_path w (BPF_PATH CONFIG) = Some (Dir es) ∧
           apart (resolve (cwd w) (g_src g)) (resolve (cwd w) (BPF_PATH CONFIG));
  ri_makefile : ∃ m, dget "Makefile" es = Some (File mk m);
  ri_kern : ∃ m, dget BPF_SKELETON_KERN es = Some (File kern m);
  ri_user : ∃ m, dget BPF_SKELETON_USER es = Some (File user m);
  ri_include : dget "include" es = Some (Dir inc) ∧ ∀ d, dget "concord.h" inc ≠ Some (Dir d);
  ri_new : dget (g_name g +:+ "_kern.c") es = None ∧ dget (g_name g +:+ "_user.c") es = None;
  ri_aux : readable w (root w) (aux_data g) aux ∧
           apart (resolve (cwd w) (g_src g)) (resolve (cwd w) (aux_data g));
  ri_map : map_file g ≠ "" → readable w (root w) (map_file g) mt ∧
             apart (resolve (cwd w) (g_src g)) (resolve (cwd w) (map_file g));
  ri_policies : Forall2 (fun p t => readable w (root w) p t ∧
                   apart (resolve (cwd w) (g_src g)) (resolve (cwd w) p)) (policy_files g) ts
}.

(** The paths of the generated files are apart from each other. *)
Ltac src_apart :=
  repeat first [apply List.Forall_nil | apply List.Forall_cons];
  first [ assumption
        | apply apart_app, apart_head;
          first [ discriminate | congruence
                | apply suffix_ne; vm_compute; reflexivity
                | apply not_eq_sym, suffix_ne; vm_compute; reflexivity
                | intros E%(inj (String.append _)); discriminate E ]
        | apply apart_below; assumption ].

(** Carrying what is known of a tree over a change elsewhere. *)
Ltac carry K :=
  repeat match goal with
  | Hx : tget ?q ?r = _ |- _ =>
      match type of K with same_but _ r _ => rewrite <- (K q) in Hx by src_apart end
  end.

(** After the copies the output directory holds the skeleton and the header. *)
Lemma ready_copied `{H : Host} `{!CpCopies H} CONFIG g w es inc mk kern user aux mt ts :
  ready_inputs CONFIG g w es inc mk kern user aux mt ts →
  let S := resolve (cwd w) (g_src g) in
  ∃ r m, (copy_all_files (BPF_PATH CONFIG) (g_src g) true ;;
          execute_default ["cp"; aux_data g; join2 (g_src g) "include/concord.h"]) w =
           (Ret tt, set_root r w) ∧ tree_wf r ∧
    (∀ n, n ≠ "include" → tget (S ++ [n]) r = dget n es) ∧
    tget (S ++ ["include"; "concord.h"]) r = Some (File aux m) ∧ files_kept S (root w) r ∧
    same_but [S] (root w) r.
Proof.
  intros [Hwf [Ha He] Hn [Hne Hmk] [Hb Hbap] _ _ _ [Hi Hic] _ [[m4 Haux] Hauxap] _ _] S.
  destruct (copy_all_files_fresh w (BPF_PATH CONFIG) (g_src g) es Hb Hwf Hne Hbap Hmk)
    as (r1 & E1 & D1 & F1 & W1 & _). fold S in D1, F1.
  destruct (works_at_copy_all_files (BPF_PATH CONFIG) (g_src g) true w) as [B1 _].
  rewrite E1 in B1. change (same_but [S] (root w) r1) in B1. rewrite (bind_Ret _ _ _ _ _ E1).
  assert (Hsub : ∀ p, tget (S ++ p) r1 = tget p (Dir es)) by (intros p; by rewrite tget_app, D1).
  pose proof (src_header g w Ha He) as Hh. fold S in Hh.
  destruct (execute_cp (set_root r1 w) (aux_data g) (join2 (g_src g) "include/concord.h") aux m4 inc)
    as (m' & r2 & E2 & H2 & K2 & W2 & _).
  - by apply F1.
  - simpl. rewrite Hh. intros E. destruct Hauxap as [Hx _]. apply Hx. rewrite E. by apply prefix_app_r.
  - done.
  - intros d. unfold at_path. simpl. rewrite Hh, Hsub. simpl. rewrite Hi.
    specialize (Hic d). by destruct (dget "concord.h" inc).
  - simpl. rewrite Hh. replace (removelast _) with (S ++ ["include"]) by by rewrite removelast_app.
    rewrite Hsub. simpl. by rewrite Hi.
  - simpl in H2, K2. rewrite Hh in H2, K2. exists r2, m'. split; [exact E2|]. split; [done|].
    split; [|split; [done|split]].
    + intros n Hn'. rewrite (K2 (S ++ [n])), Hsub by (apply Forall_singleton; src_apart).
      simpl. by destruct (dget n es).
    + intros q x m Hq Hx. rewrite (K2 q); [by apply F1|]. apply Forall_singleton. src_apart.
    + eapply same_but_step; [exact B1|]. eapply same_but_below; [exact K2|].
      apply Forall_singleton. by apply prefix_app_r.
Qed.

Lemma readable_kept w S r r' p t :
  files_kept S r r' → apart S (resolve (cwd w) p) → readable w r p t → readable w r' p t.
Proof. intros HK Hp [m Hm]. exists m. by apply HK. Qed.

Lemma readable_same w ps r r' p t :
  same_but ps r r' → Forall (fun q => apart q (resolve (cwd w) p)) ps →
  readable w r p t → readable w r' p t.
Proof. intros HK Hp [m Hm]. exists m. by rewrite HK. Qed.

(** The sources of the eBPF program in the output directory: the Makefile, the two sides and
    the header; the skeletons are gone. *)
Definition generated `{Host} (g : EBPF_GEN) (w' : world) (mk kern user aux mt : string) (ts : list string) : Prop :=
  let file n := file_text w' (join2 (g_src g) n) in
  file "Makefile" =
    Some (subst_text (subst_text mk "${POLICY_NAME}" (g_name g)) "${LINUX_SRC}" (linux_src g)) ∧
  file (g_name g +:+ "_kern.c") =
    Some (subst_text kern "${API_CONTENTS}"
            (join nl (map universal_newlines (map_texts g mt ++ ts)))) ∧
  file (g_name g +:+ "_user.c") =
    Some (subst_text (subst_text user "${NUM_POLICY}" (str_nat (length (policy_files g))))
            "${POLICY_LIST}" (join ", " (map pin_name (policy_files g)))) ∧
  file "include/concord.h" = Some (subst_text aux "${NCPU}" (str_Z cpu_count)) ∧
  at_path w' (join2 (g_src g) BPF_SKELETON_KERN) = None ∧
  at_path w' (join2 (g_src g) BPF_SKELETON_USER) = None.

Lemma ebpf_ready_run `{H : Host} `{!CpCopies H} CONFIG g w es inc mk kern user aux mt ts o :
  ready_inputs CONFIG g w es inc mk kern user aux mt ts →
  ∃ w', ebpf_ready_impl CONFIG o (w, g) = (Ret tt, (w', g)) ∧
    generated g w' mk kern user aux mt ts ∧ cwd w' = cwd w ∧ env w' = env w ∧ tree_wf (root w') ∧
    same_but [resolve (cwd w) (g_src g)] (root w) (root w').
Proof.
  intros Hin. set (S := resolve (cwd w) (g_src g)).
  set (w0 := set_log (log w ++ [(INFO, "[Start] EBPF Ready: Prepare eBPF source code...")]) w).
  destruct (ready_copied CONFIG g w0 es inc mk kern user aux mt ts) as (r1 & mh & E1 & W1 & D1 & H1 & F1 & B1);
    [by destruct Hin; constructor|].
  destruct Hin as [_ [Ha He] Hn _ _ [m1 Hmf] [m2 Hk] [m3 Hu] _ [Hnk Hnu] _ Hmap Hpol].
  change (resolve (cwd w0) (g_src g)) with S in *.
  rewrite <- (D1 "Makefile") in Hmf by done. rewrite <- (D1 BPF_SKELETON_KERN) in Hk by done.
  rewrite <- (D1 BPF_SKELETON_USER) in Hu by done.
  rewrite <- (D1 (g_name g +:+ "_kern.c")) in Hnk by by apply suffix_ne.
  rewrite <- (D1 (g_name g +:+ "_user.c")) in Hnu by by apply suffix_ne.
  destruct (ready_makefile_run g w0 Ha He r1 mk m1 W1 Hmf) as (r2 & E2 & H2 & K2 & W2).
  carry K2.
  destruct (ready_kern_run g w0 Ha He Hn r2 kern m2 mt ts W2 Hk Hnk) as (r3 & E3 & H3 & G3 & K3 & W3).
  { intros Hm. destruct (Hmap Hm) as [Hr Hap]. eapply readable_same; [exact K2|src_apart|].
    by eapply readable_kept. }
  { eapply Forall2_impl; [exact Hpol|]. intros p t [Hr Hap].
    eapply readable_same; [exact K2|src_apart|]. by eapply readable_kept. }
  carry K3. pose proof K2 as B2. clear K2 Hmap Hpol.
  destruct (ready_user_run g w0 Ha He Hn r3 user m3 W3 Hu Hnu) as (r4 & E4 & H4 & G4 & K4 & W4).
  carry K4. set (w1 := set_log (log w0 ++ [(INFO, "Number of CPUs: " +:+ str_Z cpu_count)]) w0).
  destruct (inplace_replace_at w1 r4 (join2 (g_src g) "include/concord.h")
              (S ++ ["include"; "concord.h"]) "${NCPU}" (str_Z cpu_count) aux mh)
    as (r5 & E5 & H5 & K5 & W5 & _); [done|done|by apply src_header|done|done|].
  carry K5. exists (set_root r5 w1). split_and!; [| |done|done|done|].
  - unfold ebpf_ready_impl. erewrite bind_Ret by reflexivity. apply lift_Ret.
    erewrite (bind_Ret (logging _ _)) by reflexivity. fold w0.
    rewrite <- (bind_assoc (copy_all_files _ _ _) _ _ w0), (bind_Ret _ _ _ _ _ E1).
    rewrite (bind_Ret _ _ _ _ _ E2), (bind_Ret _ _ _ _ _ E3), (bind_Ret _ _ _ _ _ E4). exact E5.
  - unfold generated. cbv zeta. unfold file_text, at_path. simpl. rewrite src_header, !src_file; try done;
      [|by apply (plain_program g Hn _ "_user.c"); [|simpl; lia|]
       |by apply (plain_program g Hn _ "_kern.c"); [|simpl; lia|]].
    fold S. change (resolve (cwd w0) (g_src g)) with S in *. by rewrite H2, H3, H4, H5, G3, G4.
  - assert (HB : ∀ ps a b, same_but ps a b → Forall (fun p => S `prefix_of` p) ps → same_but [S] a b)
      by (intros; by eapply same_but_below).
    eapply same_but_step; [exact B1|]. eapply same_but_step; [eapply HB; [exact B2|]|].
    2: eapply same_but_step; [eapply HB; [exact K3|]|].
    3: eapply same_but_step; [eapply HB; [exact K4|]|eapply HB; [exact K5|]].
    all: repeat first [apply List.Forall_nil | apply List.Forall_cons]; by apply prefix_app_r.
Qed.

(** C8: under the documented behaviour of cp, preparing the eBPF program succeeds and
    leaves in the output directory the Makefile with the policy name and the kernel path,
    the kernel side with the texts of the map and policy files in their order, the user
    side with the number and the pin paths of the policies, and the header with the
    processor count; the two skeletons are gone. *)
Theorem ebpf_ready_generates `{H : Host} `{!CpCopies H} CONFIG g w es inc mk kern user aux mt ts o :
  ready_inputs CONFIG g w es inc mk kern user aux mt ts →
  ∃ w', ebpf_ready_impl CONFIG o (w, g) = (Ret tt, (w', g)) ∧
    let file n := file_text w' (join2 (g_src g) n) in
    file "Makefile" =
      Some (subst_text (subst_text mk "${POLICY_NAME}" (g_name g)) "${LINUX_SRC}" (linux_src g)) ∧
    file (g_name g +:+ "_kern.c") =
      Some (subst_text kern "${API_CONTENTS}"
              (join nl (map universal_newlines (map_texts g mt ++ ts)))) ∧
    file (g_name g +:+ "_user.c") =
      Some (subst_text (subst_text user "${NUM_POLICY}" (str_nat (length (policy_files g))))
              "${POLICY_LIST}" (join ", " (map pin_name (policy_files g)))) ∧
    file "include/concord.h" = Some (subst_text aux "${NCPU}" (str_Z cpu_count)) ∧
    at_path w' (join2 (g_src g) BPF_SKELETON_KERN) = None ∧
    at_path w' (join2 (g_src g) BPF_SKELETON_USER) = None.
Proof. intros Hin. destruct (ebpf_ready_run CONFIG g w es inc mk kern user aux mt ts o Hin) as (w' & E & G & _). by exists w'. Qed.

(** A checkout with a policy directory "numa" of one policy and one map. *)
Definition demo_bpf : list (string * node) :=
  [("Makefile", File ("P=${POLICY_NAME}" +:+ nl +:+ "L=${LINUX_SRC}" +:+ nl) 420);
   (BPF_SKELETON_KERN, File ("${API_CONTENTS}" +:+ nl) 420);
   (BPF_SKELETON_USER, File ("n=${NUM_POLICY}" +:+ nl +:+ "l={${POLICY_LIST}}" +:+ nl) 420);
   ("include", Dir [("bpf_helpers.h", File "" 420)])].

Definition demo_section (s : string) : string := "SEC(" +:+ quote +:+ s +:+ quote +:+ ")" +:+ nl.

Definition demo_checkout : node :=
  Dir [("c", Dir [("bpf", Dir demo_bpf); ("list_APIs.h", File list_APIs_h 420);
                  ("policy", Dir [("lock_policy.h", File ("#define NCPU ${NCPU}" +:+ nl) 420)])]);
       ("numa", Dir [("a.pfile", File (demo_section "lock_to_acquire") 420);
                     ("m.map", File (demo_section "maps") 420)])].

Definition demo_config : config := load_config (H := cp_host) "/" "/c/config.py".
Definition demo_start : world := World demo_checkout "/" ∅ [] [] [] [] WARNING.
Definition demo_ebpf : EBPF_GEN :=
  init_ebpf_gen demo_config "/numa" "/linux" ["/numa/a.pfile"] "/numa/m.map" "/c/policy/lock_policy.h".

Lemma ebpf_ready_generates_witness :
  ∃ w', ebpf_ready_impl (H := cp_host) demo_config true (demo_start, demo_ebpf) =
          (Ret tt, (w', demo_ebpf)) ∧
    file_text w' "/c/output/numa/eBPFGen/numa_kern.c" =
      Some (demo_section "maps" +:+ nl +:+ demo_section "lock_to_acquire" +:+ nl) ∧
    file_text w' "/c/output/numa/eBPFGen/include/concord.h" = Some ("#define NCPU 8" +:+ nl).
Proof.
  destruct (ebpf_ready_generates (H := cp_host) demo_config demo_ebpf demo_start demo_bpf
    [("bpf_helpers.h", File "" 420)]
    ("P=${POLICY_NAME}" +:+ nl +:+ "L=${LINUX_SRC}" +:+ nl) ("${API_CONTENTS}" +:+ nl)
    ("n=${NUM_POLICY}" +:+ nl +:+ "l={${POLICY_LIST}}" +:+ nl)
    ("#define NCPU ${NCPU}" +:+ nl) (demo_section "maps") [demo_section "lock_to_acquire"] true)
    as (w' & H1 & _ & H2 & _ & H3 & _).
  - constructor; vm_compute;
      repeat first [ reflexivity | apply (bool_decide_unpack (NoDup _)); vm_compute; exact I
                   | apply List.Forall2_nil | apply List.Forall2_cons | split | eexists
                   | intros [? ?]; discriminate | intros; discriminate | intros _ ].
  - exists w'. split; [exact H1|]. split; (etrans; [first [exact H2|exact H3]|vm_compute; reflexivity]).
Defined.

(** ** The verdict on the sections of the program *)

Definition section_ok (s : string) : bool :=
  startswith s "maps" || startswith s "license" || startswith s "lock_".

Definition map_switched (t : string) : string := subst_text t "#define MAP 0" "#define MAP 1".

Definition is_maps (s : string) : bool := startswith s "maps".

(** What checking a section leaves alone. *)
Record checked (user : list string) (w w' : world) : Prop := {
  ck_cwd : cwd w' = cwd w;
  ck_env : env w' = env w;
  ck_wf : tree_wf (root w) → tree_wf (root w');
  ck_same : same_but [user] (root w) (root w')
}.

Lemma checked_trans user w1 w2 w3 : checked user w1 w2 → checked user w2 w3 → checked user w1 w3.
Proof. intros [] []. split; [congruence|congruence|auto|by eapply same_but_step]. Qed.

Lemma check_section_run g w s t m :
  let user := join2 (g_src g) (g_name g +:+ "_user.c") in
  at_path w user = Some (File t m) → tree_wf (root w) →
  ∃ w1, check_section s (w, g) = (if section_ok s then Ret tt else Exit 0, (w1, g)) ∧
    at_path w1 user = Some (File (if is_maps s then map_switched t else t) m) ∧
    checked (resolve (cwd w) user) w w1 ∧ (section_ok s = false → last (log w1) = Some (ERROR, "Bad Section")).
Proof.
  intros user Ht Hwf. unfold check_section, section_ok, is_maps.
  set (w1 := set_log (log w ++ [(INFO, "SEC = " +:+ quote +:+ s +:+ quote)]) w).
  rewrite (bind_Ret _ _ _ tt (w1, g)) by reflexivity.
  destruct (startswith s "maps"); simpl.
  - destruct (inplace_replace_at w1 (root w1) user (resolve (cwd w1) user) "#define MAP 0" "#define MAP 1" t m)
      as (r & E & H1 & K & W & _); [done..|].
    exists (set_root r w1). rewrite (bind_Ret _ _ _ g (w1, g)) by reflexivity.
    split; [|by split_and!]. apply lift_Ret. fold user. rewrite <- E. by destruct w.
  - destruct (startswith s "license"); [exists w1; by split_and!|].
    destruct (startswith s "lock_"); [exists w1; by split_and!|]. eexists. split; [reflexivity|].
    split_and!; [done|done|]. intros _. simpl. by rewrite last_snoc.
Qed.

Lemma check_sections_run g w secs t m :
  let user := join2 (g_src g) (g_name g +:+ "_user.c") in
  at_path w user = Some (File t m) → tree_wf (root w) →
  ∃ w', for_each secs check_section (w, g) =
          (if forallb section_ok secs then Ret tt else Exit 0, (w', g)) ∧
    (if forallb section_ok secs
     then at_path w' user = Some (File (Nat.iter (length (List.filter is_maps secs)) map_switched t) m)
     else last (log w') = Some (ERROR, "Bad Section")) ∧
    checked (resolve (cwd w) user) w w'.
Proof.
  intros user. revert w t. induction secs as [|s secs IH]; intros w t Ht Hwf; [by eexists|].
  destruct (check_section_run g w s t m Ht Hwf) as (w1 & E & H1 & K1 & L1). simpl.
  destruct (section_ok s); simpl.
  - destruct (IH w1 _ H1 (ck_wf _ _ _ K1 Hwf)) as (w' & H2 & H3 & K2). exists w'. split_and!.
    + by rewrite (bind_Ret _ _ _ _ _ E).
    + destruct (forallb section_ok secs); [|done]. rewrite H3. destruct (is_maps s); [|done]. by rewrite Nat.iter_swap.
    + rewrite (ck_cwd _ _ _ K1) in K2. by eapply checked_trans.
  - exists w1. rewrite (bind_Exit _ _ _ _ _ E). split_and!; [done|by apply L1|done].
Qed.

Lemma print_API_run g w :
  ∃ w', print_API (w, g) = (Ret tt, (w', g)) ∧ cwd w' = cwd w ∧ env w' = env w ∧ root w' = root w.
Proof.
  unfold print_API. set (w0 := set_log (log w ++ [(INFO, "=== API List ===")]) w).
  rewrite (bind_Ret _ _ _ tt (w0, g)) by reflexivity. rewrite (bind_Ret _ _ _ g (w0, g)) by reflexivity.
  assert (Hl : ∀ (l : list (string * CONCORD_API)) w1,
    ∃ w', for_each l (fun item => lift (print (String "009" "> " +:+ api_str item.2))) (w1, g) =
    (Ret tt, (w', g)) ∧ cwd w' = cwd w1 ∧ env w' = env w1 ∧ root w' = root w1).
  { induction l as [|x l IH]; intros w1; [by exists w1|]. simpl.
    destruct (IH (set_console (console w1 ++ [String "009" "> " +:+ api_str x.2]) w1)) as (w' & E & C & R).
    exists w'. by rewrite (bind_Ret _ _ _ tt (set_console (console w1 ++ [String "009" "> " +:+ api_str x.2]) w1, g)). }
  destruct (Hl (list_API g) w0) as (w' & E & C & R). by exists w'.
Qed.

(** The whole phase, from the list of the APIs to the verdict. *)
Lemma ebpf_check_run `{H : Host} CONFIG g w kern t m k :
  let user := join2 (g_src g) (g_name g +:+ "_user.c") in
  let secs := sections_of (universal_newlines kern) in
  at_path w (API_PATH CONFIG) = Some (File list_APIs_h k) → list_API g = [] →
  file_text w (join2 (g_src g) (g_name g +:+ "_kern.c")) = Some kern →
  at_path w user = Some (File t m) → tree_wf (root w) →
  ∃ w', check (H0 := ebpf_tool CONFIG) (w, g) =
          (if forallb section_ok secs then Ret tt else Exit 0, (w', set_list_API own_APIs g)) ∧
    (if forallb section_ok secs
     then at_path w' user = Some (File (Nat.iter (length (List.filter is_maps secs)) map_switched t) m) ∧
          last (log w') = Some (INFO, "[Done] Check")
     else last (log w') = Some (ERROR, "Bad Section")) ∧
    checked (resolve (cwd w) user) w w'.
Proof.
  intros user secs Hapi Hl Hk Hu Hwf. set (g' := set_list_API own_APIs g).
  set (w0 := set_log (log w ++ [(INFO, "[Start] EBPF Check: Checking APIs...")]) w).
  destruct (print_API_run g' w0) as (w1 & E1 & C1 & N1 & R1).
  assert (Hu1 : at_path w1 (join2 (g_src g') (g_name g' +:+ "_user.c")) = Some (File t m))
    by (unfold at_path; by rewrite C1, R1).
  destruct (check_sections_run g' w1 secs t m Hu1) as (w2 & E2 & U2 & K2); [by rewrite R1|].
  assert (K : checked (resolve (cwd w) user) w w2).
  { rewrite C1 in K2. apply (checked_trans _ _ w1); [|exact K2]. split; [by rewrite C1|by rewrite N1|by rewrite R1|].
    rewrite R1. apply same_but_refl. }
  assert (E : check (H0 := ebpf_tool CONFIG) (w, g) =
    if forallb section_ok secs then (Ret tt, (set_log (log w2 ++ [(INFO, "[Done] Check")]) w2, g')) else (Exit 0, (w2, g'))).
  { unfold check. rewrite guarded_run. simpl _check_impl. unfold ebpf_check_impl.
    rewrite (bind_Ret _ _ _ tt (w0, g)) by reflexivity.
    rewrite (bind_Ret _ _ _ _ _ (read_own_APIs CONFIG w0 g k Hapi Hl)). fold g'.
    rewrite (bind_Ret _ _ _ _ _ E1). rewrite (bind_Ret _ _ _ secs (w1, g')).
    - rewrite E2. by destruct (forallb section_ok secs).
    - unfold get_section. rewrite (bind_Ret _ _ _ g' (w1, g')) by reflexivity. unfold try_except.
      rewrite (bind_Ret _ _ _ (universal_newlines kern) (w1, g')); [done|].
      apply lift_Ret, read_file_Ret. unfold file_text, at_path in *. by rewrite C1, R1. }
  rewrite E. destruct (forallb section_ok secs).
  - exists (set_log (log w2 ++ [(INFO, "[Done] Check")]) w2). split_and!; [done|exact U2|simpl; by rewrite last_snoc|].
    by destruct K.
  - by exists w2.
Qed.

(** C32: the verdict of the check phase.  With the list of the APIs of the repository in its
    place and both sides of the generated program in the output directory, the phase accepts
    the program exactly when each section its kernel side names starts with maps, license or
    lock_, and otherwise leaves the program with status 0 and an error in the log; when it
    accepts, the user side has had its map support switched on once per map section.
    Nothing but the user side is changed. *)
Theorem check_sections_verdict `{H : Host} CONFIG g w kern t m k :
  let user := join2 (g_src g) (g_name g +:+ "_user.c") in
  let secs := sections_of (universal_newlines kern) in
  at_path w (API_PATH CONFIG) = Some (File list_APIs_h k) → list_API g = [] →
  file_text w (join2 (g_src g) (g_name g +:+ "_kern.c")) = Some kern →
  at_path w user = Some (File t m) → tree_wf (root w) →
  ∃ w', check (H0 := ebpf_tool CONFIG) (w, g) =
          (if forallb section_ok secs then Ret tt else Exit 0, (w', set_list_API own_APIs g)) ∧
    (if forallb section_ok secs
     then at_path w' user = Some (File (Nat.iter (length (List.filter is_maps secs)) map_switched t) m) ∧
          last (log w') = Some (INFO, "[Done] Check")
     else last (log w') = Some (ERROR, "Bad Section")) ∧
    cwd w' = cwd w ∧ same_but [resolve (cwd w) user] (root w) (root w').
Proof.
  intros user secs H1 H2 H3 H4 H5.
  destruct (ebpf_check_run CONFIG g w kern t m k H1 H2 H3 H4 H5) as (w' & E & V & []). by exists w'.
Qed.

Lemma check_sections_verdict_witness :
  let g := EbpfGen (Instance "numa" "/out") "/linux" [] "" "" [] in
  let w := World (Dir [("out", Dir [("numa_kern.c", File (demo_section "license" +:+ demo_section "maps" +:+
                                                          demo_section "lock_bypass_acquire") 420);
                                    ("numa_user.c", File ("#define MAP 0" +:+ nl) 420)]);
                       ("c", Dir [("list_APIs.h", File list_APIs_h 420)])]) "/" ∅ [] [] [] [] WARNING in
  ∃ w', check (H0 := ebpf_tool (H := demo_host) demo_config) (w, g) = (Ret tt, (w', set_list_API own_APIs g)) ∧
    at_path w' "/out/numa_user.c" = Some (File ("#define MAP 1" +:+ nl) 420).
Proof.
  intros g w.
  destruct (check_sections_verdict (H := demo_host) demo_config g w
              (demo_section "license" +:+ demo_section "maps" +:+ demo_section "lock_bypass_acquire")
              ("#define MAP 0" +:+ nl) 420 420) as (w' & H1 & [H2 _] & _).
  - vm_compute. reflexivity.
  - reflexivity.
  - vm_compute. reflexivity.
  - vm_compute. reflexivity.
  - vm_compute. repeat first [split | apply (bool_decide_unpack (NoDup _)); vm_compute; exact I].
  - exists w'. split; [exact H1|]. etrans; [exact H2|vm_compute; reflexivity].
Defined.
