(* ===== verification/LivePatch.v ===== *)
(** src/concord/livepatch.py: the generator of the kernel live patch. *)

From S2P Require Import Prelude PyStr PyDict PyPath Effect Os Util Instance.

(** [livepatch] is [None] when no patch file was given; [module] is an attribute
    that only [_check_impl] creates: [None] stands for an unset attribute, [Some
    None] for the value [None]. *)
Record PATCH_GEN := PatchGen {
  patch_base : instance;
  p_linux_src : string;
  policy_name : string;
  p_aux_data : string;
  livepatch : option string;
  module_ : option (option string)
}.

Definition set_module (m : option string) (g : PATCH_GEN) : PATCH_GEN :=
  PatchGen (patch_base g) (p_linux_src g) (policy_name g) (p_aux_data g) (livepatch g) (Some m).

Section PatchGen.
Context `{Host} (CONFIG : config).

Definition init_patch_gen (name_ linux_src pname aux_data : string) (lp : option string) : PATCH_GEN :=
  PatchGen (init_instance CONFIG "LivePatchGen" name_) linux_src pname aux_data lp None.

Definition l_src (g : PATCH_GEN) : string := path_src (patch_base g).

Definition patch_setup_impl (override : bool) : OM PATCH_GEN unit :=
  lift (logging INFO "[Start] PATCH Setup: Patch kernel to expose CONCORD APIs...") ;;
  do g <- self;
  lift (cd (p_linux_src g)
    (let header := join2 (p_linux_src g) "include/linux/lock_policy.h" in
     execute_default ["cp"; p_aux_data g; header] ;;
     inplace_replace header "${NCPU}" (str_Z cpu_count))).

Definition patch_ready_impl (override : bool) : OM PATCH_GEN unit :=
  lift (logging INFO "[Start] PATCH Ready: Create patch file for kpatch...") ;;
  do g <- self;
  lift
    match livepatch g with
    | None =>
        copy_all_files (PATCH_PATH CONFIG) (l_src g) true ;;
        (let prepatch := join2 (l_src g) KPATCH_PRE_CALL in
         inplace_replace prepatch "${API_NAME}" "custom_cmp_func" ;;
         inplace_replace prepatch "${POLICY_NAME}" (policy_name g)) ;;
        cd (l_src g)
          (logging DEBUG "merge patches for lock type + applying granularity" ;;
           with_output "temp.patch" (fun stdout =>
             execute ["combinediff"; "rwsem_custom_cmp_func.patch"; "single_lock.patch"]
               stdout Console None) ;;
           logging DEBUG "merge with pre patch callback function" ;;
           with_output KPATCH_RESULT (fun stdout =>
             execute ["combinediff"; "temp.patch"; KPATCH_PRE_CALL] stdout Console None))
    | Some lp =>
        cd (l_src g)
          (execute_default ["cp"; lp; KPATCH_RESULT] ;;
           inplace_replace KPATCH_RESULT "${NCPU}" (str_Z cpu_count))
    end.

Definition kpatch_cmd (g : PATCH_GEN) : list string :=
  [KPATCH_PATH CONFIG +:+ "/kpatch-build/kpatch-build"; "-j"; str_Z (NCPU CONFIG);
   "-t"; "vmlinux"; "-s"; p_linux_src g; "--vmlinux"; p_linux_src g +:+ "/vmlinux"; KPATCH_RESULT].

Definition patch_build_impl (override : bool) : OM PATCH_GEN unit :=
  lift (logging INFO "[Start] Build: compile livepatch module...") ;;
  do g <- self;
  lift (cd (p_linux_src g) (execute_default ["make"; "-j"; str_Z (NCPU CONFIG)]) ;;
        cd (l_src g)
          (logging DEBUG (repr_list (kpatch_cmd g)) ;;
           logging WARNING "This might take time! kpatch builds kernel twice" ;;
           execute_default (kpatch_cmd g))).

Definition patch_check_impl : OM PATCH_GEN unit :=
  lift (logging INFO "[Start] Check: Checking livepatch ...") ;;
  do g <- self;
  do mod_path <- lift (os_abspath (join2 (l_src g) KPATCH_MODULE));
  do ex <- lift (path_exists mod_path);
  if ex
  then lift (logging DEBUG ("Found module: " +:+ mod_path)) ;; set_self (set_module (Some mod_path))
  else lift (logging ERROR "Compiled module not found") ;; set_self (set_module None).

#[export] Instance patch_tool : Tool PATCH_GEN := {|
  base := patch_base;
  _ready_impl := patch_ready_impl;
  _setup_impl := patch_setup_impl;
  _build_impl := patch_build_impl;
  _check_impl := patch_check_impl
|}.
End PatchGen.

(** * Facts *)

(** The text of a file after [inplace_replace]. *)
Definition replaced (t needle rep : string) : string := replace (universal_newlines t) needle rep.

(** A working directory as the system has it, and a directory to change to. *)
Record in_place (w : world) (pn : string) : Prop := {
  ip_wf : tree_wf (root w);
  ip_norm : cwd_norm (cwd w);
  ip_cwd : ∃ es, tget (components (cwd w)) (root w) = Some (Dir es);
  ip_abs : startswith pn "/" = true ∧ endswith pn "/" = false;
  ip_dir : ∃ es, at_path w pn = Some (Dir es)
}.

(** Copying a file in a directory and filling in the processor count, from within [pn]. *)
Lemma copy_and_fill `{H : Host} `{!CpCopies H} w pn src dst x m es :
  in_place w pn → startswith src "/" = true → at_path w src = Some (File x m) →
  let d := abs_path (resolve (cwd w) pn) in
  let q := resolve d dst in
  resolve (cwd w) src ≠ q → (∀ es, tget q (root w) ≠ Some (Dir es)) →
  tget (removelast q) (root w) = Some (Dir es) →
  ∃ r m', cd pn (execute_default ["cp"; src; dst] ;; inplace_replace dst "${NCPU}" (str_Z cpu_count)) w =
      (Ret tt, set_root r w) ∧
    tget q r = Some (File (replaced x "${NCPU}" (str_Z cpu_count)) m') ∧
    same_but [q] (root w) r ∧ tree_wf r ∧ dirs_kept (root w) r.
Proof.
  intros [Hwf Hn [ec Hc] [Ha He] [ed Hd]] Hs Hx d q Hq Hnd Hpar. set (w1 := set_cwd d w).
  assert (Hsrc : resolve (cwd w1) src = resolve (cwd w) src) by (unfold resolve; by rewrite !join2_absolute).
  destruct (execute_cp w1 src dst x m es) as (m' & r1 & E1 & H1 & K1 & W1 & D1);
    [unfold at_path; by rewrite Hsrc|by rewrite Hsrc|done|done|done|].
  destruct (inplace_replace_at w1 r1 dst q "${NCPU}" (str_Z cpu_count) x m') as (r2 & E2 & H2 & K2 & W2 & D2);
    [done..|].
  pose proof (dirs_kept_trans _ _ _ D1 D2) as D. destruct (D _ _ Hc) as [ec' Hc'].
  exists r2, m'. split_and!; [|done| |done|done].
  - rewrite (cd_Ret pn _ w ec ed tt (set_root r2 w1) ec'); [by destruct w|done..| |done].
    fold d w1. by rewrite (bind_Ret _ _ _ _ _ E1).
  - intros p Hp. by rewrite (K2 p), (K1 p).
Qed.

Lemma patch_setup_run `{H : Host} `{!CpCopies H} w g o x m es :
  let header := resolve (cwd w) (p_linux_src g) ++ ["include"; "linux"; "lock_policy.h"] in
  in_place w (p_linux_src g) → startswith (p_aux_data g) "/" = true →
  at_path w (p_aux_data g) = Some (File x m) → resolve (cwd w) (p_aux_data g) ≠ header →
  (∀ es, tget header (root w) ≠ Some (Dir es)) →
  tget (resolve (cwd w) (p_linux_src g) ++ ["include"; "linux"]) (root w) = Some (Dir es) →
  ∃ w' m', patch_setup_impl o (w, g) = (Ret tt, (w', g)) ∧ cwd w' = cwd w ∧
    tget header (root w') = Some (File (replaced x "${NCPU}" (str_Z cpu_count)) m') ∧
    same_but [header] (root w) (root w') ∧ tree_wf (root w') ∧ dirs_kept (root w) (root w') ∧ env w' = env w.
Proof.
  intros header Hi Hs Hx Hq Hnd Hpar. set (dst := join2 (p_linux_src g) "include/linux/lock_policy.h").
  set (w0 := set_log (log w ++ [(INFO, "[Start] PATCH Setup: Patch kernel to expose CONCORD APIs...")]) w).
  assert (Hdst : ∀ d, resolve d dst = header).
  { intros d. destruct (ip_abs _ _ Hi) as [Ha He]. unfold dst.
    change "include/linux/lock_policy.h" with (join "/" ["include"; "linux"; "lock_policy.h"]).
    rewrite resolve_below by (first [done|by repeat constructor]).
    unfold header, resolve. by rewrite !join2_absolute. }
  destruct (copy_and_fill w0 (p_linux_src g) (p_aux_data g) dst x m es) as (r & m' & E & H1 & K & W & D).
  - by destruct Hi.
  - done.
  - done.
  - by rewrite Hdst.
  - by rewrite Hdst.
  - rewrite Hdst. unfold header. by rewrite removelast_app.
  - rewrite Hdst in H1, K. exists (set_root r w0), m'. split_and!; [|done..].
    unfold patch_setup_impl. rewrite (bind_Ret _ _ _ tt (w0, g)) by reflexivity.
    rewrite (bind_Ret _ _ _ g (w0, g)) by reflexivity. apply lift_Ret. exact E.
Qed.

(** C11: under the documented behaviour of cp, the setup of the live patch installs the header
    of the policy in the kernel sources, with the processor count filled in, changes nothing
    else, and comes back to the working directory. *)
Theorem patch_setup_installs `{H : Host} `{!CpCopies H} w g o x m es :
  let header := resolve (cwd w) (p_linux_src g) ++ ["include"; "linux"; "lock_policy.h"] in
  in_place w (p_linux_src g) → startswith (p_aux_data g) "/" = true →
  at_path w (p_aux_data g) = Some (File x m) → resolve (cwd w) (p_aux_data g) ≠ header →
  (∀ es, tget header (root w) ≠ Some (Dir es)) →
  tget (resolve (cwd w) (p_linux_src g) ++ ["include"; "linux"]) (root w) = Some (Dir es) →
  ∃ w' m', patch_setup_impl o (w, g) = (Ret tt, (w', g)) ∧ cwd w' = cwd w ∧
    tget header (root w') = Some (File (replaced x "${NCPU}" (str_Z cpu_count)) m') ∧
    same_but [header] (root w) (root w').
Proof.
  intros header Hi Hs Hx Hq Hnd Hpar.
  destruct (patch_setup_run w g o x m es Hi Hs Hx Hq Hnd Hpar) as (w' & m' & E & C & T & K & _). by exists w', m'.
Qed.

(** The output of a command that leaves the tree alone, captured in a file of the working
    directory. *)
Lemma capture_output `{H : Host} w l n cmd o es :
  cwd w = abs_path l → Forall (fun n => plain n = true) l → plain n = true → tree_wf (root w) →
  tget l (root w) = Some (Dir es) → (∀ d, tget (l ++ [n]) (root w) ≠ Some (Dir d)) →
  (∀ t, same_but [l ++ [n]] (root w) t → spawn cmd (cwd w) (env w) None t = Some (Exited 0, t, (o, ""))) →
  ∃ r m, with_output n (fun stdout => execute cmd stdout Console None) w = (Ret tt, set_root r w) ∧
    tget (l ++ [n]) r = Some (File o m) ∧ same_but [l ++ [n]] (root w) r ∧ tree_wf r ∧ dirs_kept (root w) r.
Proof.
  intros Hc Hl Hn Hwf Hd Hnd Hs.
  assert (Hq : resolve (cwd w) n = l ++ [n]) by (rewrite Hc; by apply resolve_name).
  assert (Hw : ∃ r m, write_file n "" w = (Ret tt, set_root r w) ∧ tput (l ++ [n]) (File "" m) (root w) = Some r).
  { unfold write_file, update_root, bind, get. rewrite Hq.
    destruct (tget (l ++ [n]) (root w)) as [[t0 m|d]|]; [|by destruct (Hnd d)|].
    - destruct (tput_is_Some _ n (File "" m) _ _ Hd) as [r Hr]. exists r, m. by rewrite Hr.
    - destruct (tput_is_Some _ n (File "" default_mode) _ _ Hd) as [r Hr]. exists r, default_mode. by rewrite Hr. }
  destruct Hw as (r1 & m & E1 & P1).
  destruct (deliver_file (set_root r1 w) (l ++ [n]) o "" m (tget_tput_eq _ _ _ _ P1)) as (r2 & E2 & P2).
  rewrite app_nil_str in P2. change (root (set_root r1 w)) with r1 in P2. exists r2, m. split_and!.
  - unfold with_output. rewrite (bind_Ret _ _ _ _ _ E1). rewrite (bind_Ret _ _ _ _ _ (eq_refl : get _ = (Ret _, _))).
    change (cwd (set_root r1 w)) with (cwd w). rewrite Hq. unfold execute.
    rewrite (bind_Ret _ _ _ _ _ (eq_refl : get _ = (Ret _, _))).
    change (cwd (set_root r1 w)) with (cwd w). change (env (set_root r1 w)) with (env w).
    rewrite (Hs (root (set_root r1 w))) by (by eapply same_but_tput).
    rewrite (bind_Ret _ _ _ tt (set_root r1 w)) by done. by rewrite (bind_Ret _ _ _ _ _ E2).
  - by eapply tget_tput_eq.
  - intros p Hp. inversion Hp as [|? ? Hp1 _]; subst.
    by rewrite (tget_tput_ne _ _ _ _ _ Hp1 P2), (tget_tput_ne _ _ _ _ _ Hp1 P1).
  - eapply tput_wf; [exact P2| |done]. by eapply tput_wf.
  - eapply dirs_kept_trans; [by eapply tput_dirs_kept|]. eapply tput_dirs_kept; [exact P2|].
    intros d. simpl. by rewrite (tget_tput_eq _ _ _ _ P1).
Qed.

(** The documented behaviour of combinediff: it prints the merge of two patches, if they
    combine; nothing is said of patches that do not. *)
Class CombineDiff (host : Host) (merge : string → string → option string) : Prop := combinediff_merges :
  ∀ a b d e limit t x m y k z,
    tget (resolve d a) t = Some (File x m) → tget (resolve d b) t = Some (File y k) → merge x y = Some z →
    spawn ["combinediff"; a; b] d e limit t = Some (Exited 0, t, (z, "")).

Lemma patch_ready_copied `{H : Host} `{!CpCopies H} CONFIG w g o lp x m :
  let result := resolve (cwd w) (l_src g) ++ [KPATCH_RESULT] in
  livepatch g = Some lp → in_place w (l_src g) → startswith lp "/" = true →
  at_path w lp = Some (File x m) → resolve (cwd w) lp ≠ result →
  (∀ es, tget result (root w) ≠ Some (Dir es)) →
  ∃ w' m', patch_ready_impl CONFIG o (w, g) = (Ret tt, (w', g)) ∧ cwd w' = cwd w ∧
    tget result (root w') = Some (File (replaced x "${NCPU}" (str_Z cpu_count)) m') ∧
    same_but [result] (root w) (root w') ∧ tree_wf (root w') ∧ dirs_kept (root w) (root w') ∧ env w' = env w.
Proof.
  intros result Hg Hi Hs Hx Hq Hnd.
  set (w0 := set_log (log w ++ [(INFO, "[Start] PATCH Ready: Create patch file for kpatch...")]) w).
  destruct (ip_dir _ _ Hi) as [ed Hd].
  assert (Hres : resolve (abs_path (resolve (cwd w) (l_src g))) KPATCH_RESULT = result)
    by (apply resolve_name; [apply components_plain|done]).
  destruct (copy_and_fill w0 (l_src g) lp KPATCH_RESULT x m ed) as (r & m' & E & H1 & K & W & D);
    change (cwd w0) with (cwd w) in *; rewrite ?Hres in *; [by destruct Hi|done..| |].
  - unfold result. by rewrite removelast_last.
  - exists (set_root r w0), m'. split_and!; [|done..].
    unfold patch_ready_impl. rewrite (bind_Ret _ _ _ tt (w0, g)) by reflexivity.
    rewrite (bind_Ret _ _ _ g (w0, g)) by reflexivity. rewrite Hg. apply lift_Ret. exact E.
Qed.

Lemma patch_ready_run `{H : Host} `{!CpCopies H} CONFIG w g lp x m :
  let S := resolve (cwd w) (l_src g) in
  livepatch g = Some lp → tree_wf (root w) → cwd_norm (cwd w) →
  (∃ ec, tget (components (cwd w)) (root w) = Some (Dir ec)) → ¬ S `prefix_of` components (cwd w) →
  startswith (l_src g) "/" = true → endswith (l_src g) "/" = false →
  S ≠ [] → is_Some (tmkdirs S (root w)) →
  startswith lp "/" = true → at_path w lp = Some (File x m) → apart S (resolve (cwd w) lp) →
  ∃ w' m', ready (H0 := patch_tool CONFIG) true (w, g) = (Ret tt, (w', g)) ∧ cwd w' = cwd w ∧
    tget (S ++ [KPATCH_RESULT]) (root w') = Some (File (replaced x "${NCPU}" (str_Z cpu_count)) m') ∧
    same_but [S] (root w) (root w') ∧ tree_wf (root w') ∧ (∃ es, tget S (root w') = Some (Dir es)) ∧
    tget (S ++ [KPATCH_MODULE]) (root w') = None ∧ env w' = env w.
Proof.
  intros S Hg Hwf Hn [ec Hc] Hnc Ha He Hne Hmk Hs Hx Hap.
  destruct (prepdn_fresh w (l_src g) Hwf Hne Hmk) as (r & E1 & Hd & F1 & W1 & K1). fold S in Hd, F1, K1.
  destruct (works_at_prepdn (l_src g) true w) as [B1 _]. rewrite E1 in B1. change (same_but [S] (root w) r) in B1.
  assert (Hx1 : tget (resolve (cwd w) lp) r = Some (File x m)) by (by apply F1).
  destruct (patch_ready_copied CONFIG (set_root r w) g true lp x m) as (w' & m' & E2 & Hw & Ht & K2 & W2 & D2 & N2).
  - done.
  - destruct (K1 _ _ Hnc Hc) as [ec' Hc']. constructor; [done|done|by exists ec'|done|by exists []].
  - done.
  - done.
  - change (cwd (set_root r w)) with (cwd w). fold S. intros E. destruct Hap as [Hap _]. apply Hap. rewrite E.
    by apply prefix_app_r.
  - intros es. change (tget (S ++ [KPATCH_RESULT]) r ≠ Some (Dir es)). by rewrite tget_app, Hd.
  - exists (set_log (log w' ++ [(INFO, "[Done] Ready")]) w'), m'. split_and!; [|done|done|..].
    + unfold ready. rewrite (bind_Ret _ _ _ g (w, g)) by reflexivity.
      erewrite (bind_Ret _ _ (w, g)) by reflexivity. rewrite andb_false_r.
      rewrite (bind_Ret _ _ _ tt (set_root r w, g)) by (by apply lift_Ret).
      rewrite guarded_run. simpl _ready_impl. by rewrite E2.
    + eapply same_but_step; [exact B1|]. eapply same_but_below; [exact K2|].
      apply Forall_singleton. by apply prefix_app_r.
    + exact W2.
    + by eapply (D2 S).
    + transitivity (tget (S ++ [KPATCH_MODULE]) r); [apply K2|by rewrite tget_app, Hd].
      apply List.Forall_cons; [by apply apart_last|apply List.Forall_nil].
    + exact N2.
Qed.

(** C9: the ready phase with a patch of the user, from scratch: whatever the output directory
    held before, it holds the patch with the processor count filled in, the phase ends
    without an error, the working directory is as before, and every file outside the
    output directory is untouched. *)
Theorem patch_ready_user `{H : Host} `{!CpCopies H} CONFIG w g lp x m :
  let S := resolve (cwd w) (l_src g) in
  livepatch g = Some lp → tree_wf (root w) → cwd_norm (cwd w) →
  (∃ ec, tget (components (cwd w)) (root w) = Some (Dir ec)) → ¬ S `prefix_of` components (cwd w) →
  startswith (l_src g) "/" = true → endswith (l_src g) "/" = false →
  S ≠ [] → is_Some (tmkdirs S (root w)) →
  startswith lp "/" = true → at_path w lp = Some (File x m) → apart S (resolve (cwd w) lp) →
  ∃ w' m', ready (H0 := patch_tool CONFIG) true (w, g) = (Ret tt, (w', g)) ∧ cwd w' = cwd w ∧
    tget (S ++ [KPATCH_RESULT]) (root w') = Some (File (replaced x "${NCPU}" (str_Z cpu_count)) m') ∧
    files_kept S (root w) (root w').
Proof.
  intros S Hg Hwf Hn Hc Hnc Ha He Hne Hmk Hs Hx Hap.
  destruct (patch_ready_run CONFIG w g lp x m Hg Hwf Hn Hc Hnc Ha He Hne Hmk Hs Hx Hap)
    as (w' & m' & E & C & T & K & _). exists w', m'. split_and!; [done..|].
  intros q y k Hq Hy. rewrite K; [done|]. by apply List.Forall_cons; [|apply List.Forall_nil].
Qed.

(** What the merge of the patches works on: the directory with the parts, outside the output
    directory, in which the process is not. *)
Record merge_inputs (CONFIG : config) (g : PATCH_GEN) (w : world) (es : list (string * node))
    (rw sl pre : string) : Prop := {
  mi_wf : tree_wf (root w);
  mi_norm : cwd_norm (cwd w);
  mi_cwd : (∃ ec, tget (components (cwd w)) (root w) = Some (Dir ec)) ∧
           ¬ resolve (cwd w) (l_src g) `prefix_of` components (cwd w);
  mi_abs : startswith (l_src g) "/" = true ∧ endswith (l_src g) "/" = false;
  mi_src : resolve (cwd w) (l_src g) ≠ [] ∧ is_Some (tmkdirs (resolve (cwd w) (l_src g)) (root w));
  mi_parts : at_path w (PATCH_PATH CONFIG) = Some (Dir es) ∧
             apart (resolve (cwd w) (l_src g)) (resolve (cwd w) (PATCH_PATH CONFIG));
  mi_pre : ∃ m, dget KPATCH_PRE_CALL es = Some (File pre m);
  mi_rwsem : ∃ m, dget "rwsem_custom_cmp_func.patch" es = Some (File rw m);
  mi_single : ∃ m, dget "single_lock.patch" es = Some (File sl m);
  mi_free : ∀ d, dget "temp.patch" es ≠ Some (Dir d) ∧ dget KPATCH_RESULT es ≠ Some (Dir d)
}.

(** The callback with the names of the function and of the policy. *)
Definition callback (g : PATCH_GEN) (pre : string) : string :=
  replaced (replaced pre "${API_NAME}" "custom_cmp_func") "${POLICY_NAME}" (policy_name g).

(** The parts in the output directory, the callback filled in. *)
Lemma merge_prepared `{Host} CONFIG g w es rw sl pre :
  merge_inputs CONFIG g w es rw sl pre →
  let S := resolve (cwd w) (l_src g) in
  let prepatch := join2 (l_src g) KPATCH_PRE_CALL in
  ∃ r m, (copy_all_files (PATCH_PATH CONFIG) (l_src g) true ;;
          (inplace_replace prepatch "${API_NAME}" "custom_cmp_func" ;;
           inplace_replace prepatch "${POLICY_NAME}" (policy_name g))) w = (Ret tt, set_root r w) ∧
    tree_wf r ∧ (∃ es', tget S r = Some (Dir es')) ∧
    tget (S ++ [KPATCH_PRE_CALL]) r = Some (File (callback g pre) m) ∧
    (∀ n, n ≠ KPATCH_PRE_CALL → tget (S ++ [n]) r = dget n es) ∧
    ∃ ec, tget (components (cwd w)) r = Some (Dir ec).
Proof.
  intros [Hwf Hn [[ec Hc] Hnc] [Ha He] [Hne Hmk] [Hp Hap] [m Hpre] _ _ _] S prepatch.
  destruct (copy_all_files_fresh w (PATCH_PATH CONFIG) (l_src g) es Hp Hwf Hne Hap Hmk)
    as (r1 & E1 & D1 & F1 & W1 & K1). fold S in D1, F1, K1.
  assert (Hq : resolve (cwd w) prepatch = S ++ [KPATCH_PRE_CALL])
    by (apply (resolve_below (cwd w) (l_src g) [KPATCH_PRE_CALL]); [done|done|done|by repeat constructor]).
  assert (Hsub : ∀ n, tget (S ++ [n]) r1 = dget n es).
  { intros n. rewrite tget_app, D1. simpl. by destruct (dget n es). }
  destruct (inplace_replace_at w r1 prepatch (S ++ [KPATCH_PRE_CALL]) "${API_NAME}" "custom_cmp_func" pre m)
    as (r2 & E2 & H2 & K2 & W2 & D2); [done..|by rewrite Hsub|].
  destruct (inplace_replace_at w r2 prepatch (S ++ [KPATCH_PRE_CALL]) "${POLICY_NAME}" (policy_name g)
              (replaced pre "${API_NAME}" "custom_cmp_func") m)
    as (r3 & E3 & H3 & K3 & W3 & D3); [done..|].
  pose proof (dirs_kept_trans _ _ _ D2 D3) as D. exists r3, m. split_and!; [|done|by eapply D|done| |].
  - rewrite (bind_Ret _ _ _ _ _ E1). by rewrite (bind_Ret _ _ _ _ _ E2).
  - intros n Hn'. assert (Hx : apart (S ++ [KPATCH_PRE_CALL]) (S ++ [n])) by (apply apart_last; congruence).
    by rewrite (K3 (S ++ [n])), (K2 (S ++ [n])) by (by apply List.Forall_cons; [|apply List.Forall_nil]).
  - destruct (K1 _ _ Hnc Hc) as [ec' Hc']. by eapply D.
Qed.

(** The two merges, from within the output directory. *)
Lemma merge_run `{H : Host} merge `{!CombineDiff H merge} w l rw sl pre es z1 z2 :
  merge rw sl = Some z1 → merge z1 pre = Some z2 →
  cwd w = abs_path l → Forall (fun n => plain n = true) l → tree_wf (root w) →
  tget l (root w) = Some (Dir es) →
  (∃ m, tget (l ++ ["rwsem_custom_cmp_func.patch"]) (root w) = Some (File rw m)) →
  (∃ m, tget (l ++ ["single_lock.patch"]) (root w) = Some (File sl m)) →
  (∃ m, tget (l ++ [KPATCH_PRE_CALL]) (root w) = Some (File pre m)) →
  (∀ d, tget (l ++ ["temp.patch"]) (root w) ≠ Some (Dir d)) →
  (∀ d, tget (l ++ [KPATCH_RESULT]) (root w) ≠ Some (Dir d)) →
  ∃ r m lg, (logging DEBUG "merge patches for lock type + applying granularity" ;;
           with_output "temp.patch" (fun stdout =>
             execute ["combinediff"; "rwsem_custom_cmp_func.patch"; "single_lock.patch"]
               stdout Console None) ;;
           logging DEBUG "merge with pre patch callback function" ;;
           with_output KPATCH_RESULT (fun stdout =>
             execute ["combinediff"; "temp.patch"; KPATCH_PRE_CALL] stdout Console None)) w =
      (Ret tt, set_root r (set_log lg w)) ∧
    tget (l ++ [KPATCH_RESULT]) r = Some (File z2 m) ∧ dirs_kept (root w) r.
Proof.
  intros Hz1 Hz2 Hc Hl Hwf Hd [m1 H1] [m2 H2] [m3 H3] Hft Hfr.
  assert (Hres : ∀ n, plain n = true → resolve (cwd w) n = l ++ [n]) by (intros n Hn; rewrite Hc; by apply resolve_name).
  assert (Hap : ∀ a b, a ≠ b → Forall (fun p => apart p (l ++ [b])) [l ++ [a]]).
  { intros a b Hab. apply List.Forall_cons; [|apply List.Forall_nil]. by apply apart_last. }
  set (w1 := set_log (log w ++ [(DEBUG, "merge patches for lock type + applying granularity")]) w).
  destruct (capture_output w1 l "temp.patch" ["combinediff"; "rwsem_custom_cmp_func.patch"; "single_lock.patch"]
              z1 es) as (r1 & k1 & E1 & T1 & K1 & W1 & D1);
    [exact Hc|exact Hl|done|exact Hwf|exact Hd|exact Hft| |].
  { intros t K. apply (combinediff_merges _ _ _ _ _ _ rw m1 sl m2); [..|exact Hz1].
    - change (cwd w1) with (cwd w). rewrite Hres by done. rewrite K; [done|by apply Hap].
    - change (cwd w1) with (cwd w). rewrite Hres by done. rewrite K; [done|by apply Hap]. }
  set (w2 := set_log (log w1 ++ [(DEBUG, "merge with pre patch callback function")]) (set_root r1 w1)).
  destruct (D1 l es Hd) as [es2 Hd2].
  destruct (capture_output w2 l KPATCH_RESULT ["combinediff"; "temp.patch"; KPATCH_PRE_CALL]
              z2 es2) as (r2 & k2 & E2 & T2 & K2 & W2 & D2);
    [exact Hc|exact Hl|done|exact W1|exact Hd2| | |].
  { intros d. change (root w2) with r1. rewrite K1; [done|by apply Hap]. }
  { intros t K. apply (combinediff_merges _ _ _ _ _ _ z1 k1 pre m3); [..|exact Hz2].
    - change (cwd w2) with (cwd w). rewrite Hres by done. rewrite K; [done|by apply Hap].
    - change (cwd w2) with (cwd w). rewrite Hres by done. rewrite K by by apply Hap.
      change (root w2) with r1. rewrite K1; [done|by apply Hap]. }
  exists r2, k2, (log w2). split_and!; [|done|by eapply dirs_kept_trans].
  rewrite (bind_Ret _ _ _ tt w1) by reflexivity. rewrite (bind_Ret _ _ _ _ _ E1).
  rewrite (bind_Ret _ _ _ tt w2) by reflexivity. exact E2.
Qed.

(** C10: without a patch of the user, under the documented behaviour of combinediff, and when
    the patches combine: the patch that is built is the merge of the two parts of the
    skeleton, merged with the callback in which the names of the function and of the policy
    are filled in; and the generator comes back to the working directory. *)
Theorem patch_ready_merges `{H : Host} merge `{!CombineDiff H merge} CONFIG g w o es rw sl pre z1 z2 :
  livepatch g = None → merge_inputs CONFIG g w es rw sl pre →
  merge rw sl = Some z1 → merge z1 (callback g pre) = Some z2 →
  ∃ w' m, patch_ready_impl CONFIG o (w, g) = (Ret tt, (w', g)) ∧ cwd w' = cwd w ∧
    tget (resolve (cwd w) (l_src g) ++ [KPATCH_RESULT]) (root w') =
      Some (File z2 m).
Proof.
  intros Hg Hi Hz1 Hz2. set (S := resolve (cwd w) (l_src g)).
  set (w0 := set_log (log w ++ [(INFO, "[Start] PATCH Ready: Create patch file for kpatch...")]) w).
  destruct (merge_prepared CONFIG g w0 es rw sl pre) as (r & m & E & W & [es' Hs] & Hpre & Hsub & [ec' Hc']);
    [by destruct Hi|].
  change (resolve (cwd w0) (l_src g)) with S in *. change (cwd w0) with (cwd w) in *.
  destruct Hi as [_ Hn _ [Ha _] _ _ _ [m1 Hrw] [m2 Hsl] Hfree].
  destruct (merge_run merge (set_cwd (abs_path S) (set_root r w0)) S rw sl (callback g pre) es' z1 z2)
    as (r' & k & lg & E' & Hr & D); [done|done|done|apply components_plain|done|done|..].
  - exists m1. simpl. by rewrite Hsub.
  - exists m2. simpl. by rewrite Hsub.
  - by exists m.
  - intros d. simpl. rewrite Hsub by done. apply Hfree.
  - intros d. simpl. rewrite Hsub by done. apply Hfree.
  - destruct (D _ _ Hc') as [ec2 Hc2].
    exists (set_cwd (cwd w) (set_root r' (set_log lg (set_cwd (abs_path S) (set_root r w0))))), k.
    split_and!; [|done|exact Hr]. unfold patch_ready_impl. rewrite (bind_Ret _ _ _ tt (w0, g)) by reflexivity.
    rewrite (bind_Ret _ _ _ g (w0, g)) by reflexivity. rewrite Hg. apply lift_Ret.
    rewrite <- (bind_assoc (copy_all_files _ _ _) _ _ w0), (bind_Ret _ _ _ _ _ E).
    apply (cd_Ret (l_src g) _ (set_root r w0) ec' es' tt _ ec2); [done|done|done|done| |done].
    exact E'.
Qed.

(** ** A checkout to evaluate the generator on *)

Definition demo_patches : list (string * node) :=
  [(KPATCH_PRE_CALL, File ("+ ${API_NAME} ${POLICY_NAME}" +:+ nl) 420);
   ("rwsem_custom_cmp_func.patch", File "r" 420); ("single_lock.patch", File "s" 420)].

Definition patch_world : world :=
  World (Dir [("linux", Dir [("include", Dir [("linux", Dir [])])]);
              ("c", Dir [("patch", Dir demo_patches); ("output", Dir [("numa", Dir [])])]);
              ("p", Dir [("lock_policy.h", File ("#define NCPU ${NCPU}" +:+ nl) 420);
                         ("numa.patch", File ("+ ${NCPU}" +:+ nl) 420)]);
              ("out", Dir [])]) "/c" ∅ [] [] [] [] WARNING.

Definition demo_patch_gen (lp : option string) : PATCH_GEN :=
  PatchGen (Instance "numa" "/out") "/linux" "numa" "/p/lock_policy.h" lp None.

Definition patch_config : config := Config "/c" "" "" "/c/patch" "/c/output" "" "" "" 8.

(** A combinediff that prints both patches. *)
Definition merge_host : Host := {|
  spawn cmd d e limit t :=
    match cmd with
    | ["combinediff"; a; b] =>
        match tget (resolve d a) t, tget (resolve d b) t with
        | Some (File x _), Some (File y _) => Some (Exited 0, t, (x +:+ y, ""))
        | _, _ => Some (Exited 1, t, ("", ""))
        end
    | _ => None
    end;
  cpu_count := 8;
  pw_home _ := None
|}.

Definition both (x y : string) : option string := Some (x +:+ y).

#[export] Instance merge_host_merges : CombineDiff merge_host both.
Proof. intros a b d e limit t x m y k z Hx Hy [= <-]. simpl. by rewrite Hx, Hy. Qed.

Ltac wf_tree := vm_compute; repeat first [split | apply (bool_decide_unpack (NoDup _)); vm_compute; exact I].

Lemma patch_setup_installs_witness :
  ∃ w' m', patch_setup_impl (H := cp_host) true (patch_world, demo_patch_gen None) =
      (Ret tt, (w', demo_patch_gen None)) ∧
    tget ["linux"; "include"; "linux"; "lock_policy.h"] (root w') = Some (File ("#define NCPU 8" +:+ nl) m').
Proof.
  destruct (patch_setup_installs (H := cp_host) patch_world (demo_patch_gen None) true
              ("#define NCPU ${NCPU}" +:+ nl) 420 []) as (w' & m' & E & _ & Ht & _); try reflexivity; try done.
  - constructor; [wf_tree|by apply (bool_decide_unpack _)|by eexists|done|by eexists].
  - exists w', m'. split; [exact E|]. etrans; [exact Ht|]. vm_compute. reflexivity.
Defined.

Lemma patch_ready_user_witness :
  ∃ w' m', ready (H0 := patch_tool (H := cp_host) patch_config) true
      (patch_world, demo_patch_gen (Some "/p/numa.patch")) = (Ret tt, (w', demo_patch_gen (Some "/p/numa.patch"))) ∧
    tget ["out"; KPATCH_RESULT] (root w') = Some (File ("+ 8" +:+ nl) m').
Proof.
  destruct (patch_ready_user (H := cp_host) patch_config patch_world (demo_patch_gen (Some "/p/numa.patch"))
              "/p/numa.patch" ("+ ${NCPU}" +:+ nl) 420) as (w' & m' & E & _ & Ht & _); try reflexivity; try done.
  1: wf_tree.
  all: try (by eexists); try (by apply (bool_decide_unpack _)).
  exists w', m'. split; [exact E|]. etrans; [exact Ht|]. vm_compute. reflexivity.
Defined.

Lemma patch_ready_merges_witness :
  ∃ w' m, patch_ready_impl (H := merge_host) patch_config true (patch_world, demo_patch_gen None) =
      (Ret tt, (w', demo_patch_gen None)) ∧
    tget ["out"; KPATCH_RESULT] (root w') = Some (File ("rs+ custom_cmp_func numa" +:+ nl) m).
Proof.
  destruct (patch_ready_merges (H := merge_host) both patch_config (demo_patch_gen None) patch_world true
              demo_patches "r" "s" ("+ ${API_NAME} ${POLICY_NAME}" +:+ nl)
              "rs" ("rs+ custom_cmp_func numa" +:+ nl)) as (w' & m & E & _ & Ht);
    [done| |reflexivity|vm_compute; reflexivity|].
  - constructor; [wf_tree|by apply (bool_decide_unpack _)|split; [by eexists|by apply (bool_decide_unpack _)]|done
      |split; [done|by eexists]|split; [done|by apply (bool_decide_unpack _)]|by eexists..|by split].
  - exists w', m. split; [exact E|]. etrans; [exact Ht|]. vm_compute. reflexivity.
Defined.
