(* ===== verification/Concord.v ===== *)
(** src/concord/concord.py: the driver that chooses the files of a policy, builds
    its eBPF program and, unless only that is asked for, the live patch. *)

From S2P Require Import Prelude PyStr PyRe PyDict PyPath Effect Os Util ArgParse Instance BpfGen LivePatch.

(** * LockGen *)

Record LockGen := MkLockGen {
  lg_linux_src : string;
  policy_dir : string;
  lg_livepatch : string;
  bpfonly : Z;
  lg_aux_data : string;
  patched_lock_module : option string;
  lock_ebpf : option EBPF_GEN;
  lg_map_file : option string
}.

(** A greedy group of any characters, then the literal extension; the expression is
    not anchored at the end of the name. *)
Definition suffix_re (ext : string) : re :=
  RSeq (RGroup 1 (RStar true dot)) (rlit ext).

Definition pfile_re : re := suffix_re ".pfile".
Definition map_re : re := suffix_re ".map".
Definition header_re : re := suffix_re ".h".

Section LockGen.
Context `{Host} (CONFIG : config).

Definition init_lockgen (linux_src policy_dir0 livepatch : string) (bpfonly0 : Z) : LockGen :=
  MkLockGen linux_src policy_dir0 livepatch bpfonly0 (POLICY_AUX_DATA CONFIG) None None None.

Definition set_aux_data (a : string) (l : LockGen) : LockGen :=
  MkLockGen (lg_linux_src l) (policy_dir l) (lg_livepatch l) (bpfonly l) a
    (patched_lock_module l) (lock_ebpf l) (lg_map_file l).
Definition set_map_file (m : string) (l : LockGen) : LockGen :=
  MkLockGen (lg_linux_src l) (policy_dir l) (lg_livepatch l) (bpfonly l) (lg_aux_data l)
    (patched_lock_module l) (lock_ebpf l) (Some m).
Definition set_lock_ebpf (g : EBPF_GEN) (l : LockGen) : LockGen :=
  MkLockGen (lg_linux_src l) (policy_dir l) (lg_livepatch l) (bpfonly l) (lg_aux_data l)
    (patched_lock_module l) (Some g) (lg_map_file l).
Definition set_patched (m : option string) (l : LockGen) : LockGen :=
  MkLockGen (lg_linux_src l) (policy_dir l) (lg_livepatch l) (bpfonly l) (lg_aux_data l)
    m (lock_ebpf l) (lg_map_file l).

(** Running the methods of another object from a method of this one. *)
Definition with_object {O O' A} (ob : O') (m : OM O' A) : OM O (O' * A) := fun s =>
  let (o, s') := m (fst s, ob) in
  (match o with Ret a => Ret (snd s', a) | Raise e => Raise e | Exit c => Exit c end,
   (fst s', snd s)).

(** The choice of the header and of the map file of a policy directory. *)
Definition choose_aux (aux : list string) : OM LockGen unit :=
  match aux with
  | [a] => set_self (set_aux_data a)
  | _ :: _ :: _ =>
      lift (logging ERROR "policy directory can contain one header file") ;; sys_exit 0
  | [] => ret tt
  end.

Definition choose_map (maps aux : list string) : OM LockGen unit :=
  match maps with
  | [m] => set_self (set_map_file m)
  | _ =>
      if 1 <? Z.of_nat (length aux)
      then lift (logging ERROR "SynCord currently support single hashmap usage") ;; sys_exit 0
      else set_self (set_map_file "")
  end.

Definition run_ebpf : OM EBPF_GEN unit :=
  ready (H0 := ebpf_tool CONFIG) true ;;
  check (H0 := ebpf_tool CONFIG) ;;
  build (H0 := ebpf_tool CONFIG) false.

Definition _check_and_gen_ebpf : OM LockGen EBPF_GEN :=
  do l <- self;
  do pfiles <- lift (find_all_files (policy_dir l) (Some pfile_re));
  do maps <- lift (find_all_files (policy_dir l) (Some map_re));
  do aux <- lift (find_all_files (policy_dir l) (Some header_re));
  choose_aux aux ;;
  choose_map maps aux ;;
  do l <- self;
  let ebpf_gen := init_ebpf_gen CONFIG (policy_dir l) (lg_linux_src l) pfiles
                    (default "" (lg_map_file l)) (lg_aux_data l) in
  do r <- with_object ebpf_gen run_ebpf;
  ret r.1.

Definition run_patch : OM PATCH_GEN unit :=
  setup (H0 := patch_tool CONFIG) false ;;
  ready (H0 := patch_tool CONFIG) true ;;
  build (H0 := patch_tool CONFIG) false ;;
  check (H0 := patch_tool CONFIG).

Definition _patch_kernel : OM LockGen PATCH_GEN :=
  do l <- self;
  let lock_name := (splitext (basename (lg_livepatch l))).1 in
  match lock_ebpf l with
  | None => raise CAttributeError "'NoneType' object has no attribute 'name'"
  | Some g =>
      let livepatch_gen := init_patch_gen CONFIG lock_name (lg_linux_src l) (g_name g)
                             (lg_aux_data l) (Some (lg_livepatch l)) in
      do r <- with_object livepatch_gen run_patch;
      ret r.1
  end.

Definition generate_lock_code : OM LockGen Z :=
  do g <- _check_and_gen_ebpf;
  set_self (set_lock_ebpf g) ;;
  do l <- self;
  match lock_ebpf l with
  | None => ret (-2)
  | Some _ =>
      lift (logging INFO (str_Z (bpfonly l))) ;;
      if bpfonly l =? 1 then ret 0
      else
        do p <- _patch_kernel;
        match module_ p with
        | None => raise CAttributeError "'PATCH_GEN' object has no attribute 'module'"
        | Some m =>
            set_self (set_patched m) ;;
            match m with
            | None => ret (-1)
            | Some _ => ret 0
            end
        end
  end.

(** [_setup] refers to a function that the module does not import. *)
Definition _setup : OM LockGen unit := raise CNameError "name 'prepdn' is not defined".

Definition _verify : OM LockGen (option EBPF_GEN) := gets (fun s => lock_ebpf s.2).

(** ** The command line *)

(** The options [main] declares, in their order; argparse adds the first. *)
Inductive action :=
| HelpAction
| CountVerbose
| CountBpfonly
| StoreLinuxSrc
| StorePolicy
| StoreLivepatch.

Definition option_string_actions : list (string * action) :=
  [("-h", HelpAction); ("--help", HelpAction);
   ("-v", CountVerbose); ("--verbose", CountVerbose);
   ("-e", CountBpfonly); ("--bpfonly", CountBpfonly);
   ("--linux_src", StoreLinuxSrc); ("--policy", StorePolicy); ("--livepatch", StoreLivepatch)].

Definition stores (a : action) : bool :=
  match a with StoreLinuxSrc | StorePolicy | StoreLivepatch => true | _ => false end.

Record namespace := Namespace {
  a_verbose : Z;
  a_bpfonly : Z;
  a_linux_src : option string;
  a_policy : option string;
  a_livepatch : option string
}.

Definition default_args : namespace := Namespace 1 0 None None None.

(** What an option does: [count], or storing the path made absolute. *)
Definition act (a : action) (v : option string) (ns : namespace) : IO namespace :=
  let '(Namespace vb b l p s) := ns in
  match a, v with
  | HelpAction, _ => sys_exit 0
  | CountVerbose, _ => ret (Namespace (vb + 1) b l p s)
  | CountBpfonly, _ => ret (Namespace vb (b + 1) l p s)
  | StoreLinuxSrc, Some x => do q <- os_abspath x; ret (Namespace vb b (Some q) p s)
  | StorePolicy, Some x => do q <- os_abspath x; ret (Namespace vb b l (Some q) s)
  | StoreLivepatch, Some x => do q <- os_abspath x; ret (Namespace vb b l p (Some q))
  | _, None => ret ns
  end.

(** The three paths are required. *)
Definition complete (ns : namespace) : bool :=
  match a_linux_src ns, a_policy ns, a_livepatch ns with
  | Some _, Some _, Some _ => true
  | _, _, _ => false
  end.

(** There are no positional arguments. *)
Definition no_positional (b : Empty_set) (v : string) (ns : namespace) : IO namespace := match b with end.

Definition parse_args (argv : list string) : IO namespace :=
  ArgParse.parse_args option_string_actions stores act no_positional [] complete argv default_args.

Definition LOG_LEVEL (verbose : Z) : level :=
  if verbose =? 0 then WARNING else if verbose =? 1 then INFO else DEBUG.

(** The generator [main] makes of its arguments. *)
Definition lockgen_of (args : namespace) : LockGen :=
  init_lockgen (default "" (a_linux_src args)) (default "" (a_policy args))
    (default "" (a_livepatch args)) (a_bpfonly args).

(** [lockgen.generate_lock_code()] *)
Definition run_lockgen (l : LockGen) : IO Z := fun w =>
  let (o, s) := generate_lock_code (w, l) in (o, s.1).

(** [main(argv)]: the value is what [main] returns, [None] included. *)
Definition main (argv : list string) : IO (option Z) :=
  do args <- parse_args argv;
  enable_coloring_in_logging ;;
  basicConfig (LOG_LEVEL (a_verbose args)) ;;
  do r <- run_lockgen (lockgen_of args);
  ret (if negb (r =? 1) then Some r else None).

(** The status of the process that runs [sys.exit(main(sys.argv[1:]))]. *)
Definition exit_status (argv : list string) (w : world) : Z :=
  match (main argv w).1 with
  | Ret None => 0
  | Ret (Some r) => r mod 256
  | Raise _ => 1
  | Exit c => c mod 256
  end.
End LockGen.

(** * Facts *)

(** What the unanchored expressions select. *)
Lemma suffix_re_spec ext n :
  is_Some (re_match (suffix_re ext) n) ↔ ∃ a b, n = a +:+ ext +:+ b ∧ no_char LF a = true.
Proof.
  unfold re_match. rewrite fmap_is_Some. split.
  - intros [[y cs] Hrun]. apply run_sound in Hrun. unfold suffix_re in Hrun. match_inv. simpl in *.
    match goal with
    | H1 : n = ?a +:+ rest ?x, H2 : rest ?x = ?e +:+ rest ?y, H3 : str_forall dot ?a = true |- _ =>
        exists a, (rest y); rewrite H1, H2; split; [done|]; by rewrite <- str_forall_dot
    end.
  - intros (a & b & -> & Ha). rewrite <- str_forall_dot in Ha. eapply run_complete.
    econstructor; [econstructor; by apply star_matches|apply lit_matches].
Qed.

Section Outcome.
Context `{Host} (CONFIG : config).

Lemma lift_run {O A} (m : IO A) w (ob : O) :
  lift m (w, ob) = let (o, w') := m w in (o, (w', ob)).
Proof. done. Qed.

Lemma choose_aux_Ret aux w l w' l' :
  choose_aux aux (w, l) = (Ret tt, (w', l')) →
  (length aux ≤ 1)%nat ∧ w' = w ∧
  l' = match aux with a :: _ => set_aux_data a l | [] => l end.
Proof. destruct aux as [|a [|b aux]]; simpl; try done; intros [= <- <-]; (split; [lia|done]). Qed.

Lemma choose_map_Ret maps aux w l :
  (length aux ≤ 1)%nat →
  choose_map maps aux (w, l) =
    (Ret tt, (w, set_map_file (match maps with [m] => m | _ => "" end) l)).
Proof.
  intros Ha. unfold choose_map. destruct maps as [|m [|m' maps]]; [|done|];
    (destruct (Z.ltb_spec 1 (Z.of_nat (length aux))); [lia|done]).
Qed.

Lemma with_object_Ret {O O' A} (ob : O') (m : OM O' A) (s : world * O) r s' :
  with_object ob m s = (Ret r, s') → m (s.1, ob) = (Ret r.2, (s'.1, r.1)) ∧ s'.2 = s.2.
Proof.
  unfold with_object. destruct (m (s.1, ob)) as [[a|e|c] [w1 o1]]; try done.
  by intros [= <- <-].
Qed.

(** What the choice of the files and the generators leave alone. *)
Definition job (l : LockGen) : Z * option string * string * string :=
  (bpfonly l, patched_lock_module l, policy_dir l, lg_livepatch l).

Lemma frame_choose_aux aux : frame (fun s => job s.2) (choose_aux aux).
Proof. unfold choose_aux. destruct aux as [|? [|? ?]]; by apply frame_bind || done. Qed.

Lemma frame_choose_map maps aux : frame (fun s => job s.2) (choose_map maps aux).
Proof. unfold choose_map. destruct maps as [|? [|? ?]]; try case_if; by apply frame_bind || done. Qed.

Lemma frame_object {O O' A V} (obs : O → V) (ob : O') (m : OM O' A) :
  frame (fun s : world * O => obs s.2) (with_object ob m).
Proof. intros [w o]. unfold with_object. by destruct (m _) as [[] []]. Qed.

Lemma frame_check_and_gen : frame (fun s => job s.2) (_check_and_gen_ebpf CONFIG).
Proof.
  repeat (apply frame_bind; [done || apply (frame_lift_self job)|intros ?]).
  apply frame_bind; [apply frame_choose_aux|intros _]. apply frame_bind; [apply frame_choose_map|intros _].
  apply frame_bind; [done|intros l]. apply frame_bind; [apply frame_object|done].
Qed.

(** The phases before the check do not change the generator of the live patch. *)
Lemma frame_phase_self {O} (m : OM O unit) done_ failed :
  frame snd m → frame snd (try_except (m ;; lift (logging INFO done_)) CException (fail failed)).
Proof. intros Hm. apply frame_try; [by apply frame_bind|done]. Qed.

Lemma frame_patch_phases b :
  frame snd (setup (H0 := patch_tool CONFIG) b) ∧ frame snd (ready (H0 := patch_tool CONFIG) b) ∧
  frame snd (build (H0 := patch_tool CONFIG) b).
Proof.
  assert (Hl : ∀ A (m : IO A), frame (@snd world PATCH_GEN) (lift m)) by (intros; apply (frame_lift_self id)).
  split_and!.
  - apply frame_phase_self. simpl. unfold patch_setup_impl. by repeat (apply frame_bind; [by auto|intros ?]).
  - unfold ready. do 2 (apply frame_bind; [by auto|intros ?]). case_if; [by auto|].
    apply frame_bind; [by auto|intros _]. apply frame_phase_self. simpl. unfold patch_ready_impl.
    by repeat (apply frame_bind; [by auto|intros ?]).
  - apply frame_phase_self. simpl. unfold patch_build_impl. by repeat (apply frame_bind; [by auto|intros ?]).
Qed.

(** The place of the module, and what the generator says of it: its path if there is something,
    otherwise nothing. *)
Definition module_found (w : world) (mp : string) (mo : option string) : Prop :=
  match mo with
  | Some m => m = mp ∧ is_Some (at_path w mp)
  | None => at_path w mp = None
  end.

Lemma os_abspath_value p w q w' : os_abspath p w = (Ret q, w') → q = abspath (cwd w) p ∧ w' = w.
Proof.
  unfold os_abspath, abspath. destruct (startswith p "/") eqn:Hp; [intros [= <- <-]; by rewrite join2_absolute|].
  unfold bind, getcwd, bind, get. destruct (tget _ _) as [[|]|]; [done| |done]. by intros [= <- <-].
Qed.

Lemma patch_check_Ret w g w' g' :
  check (H0 := patch_tool CONFIG) (w, g) = (Ret tt, (w', g')) →
  ∃ mo, module_ g' = Some mo ∧ module_found w' (abspath (cwd w') (join2 (l_src g) KPATCH_MODULE)) mo.
Proof.
  unfold check. rewrite guarded_run. simpl. unfold patch_check_impl.
  rewrite (bind_Ret _ _ _ tt (set_log (log w ++ [(INFO, "[Start] Check: Checking livepatch ...")]) w, g))
    by reflexivity.
  erewrite (bind_Ret self) by reflexivity. unfold bind at 1, lift at 1. simpl.
  destruct (os_abspath _ _) as [[d|e|c] w1] eqn:Ed; [|by destruct (is_subclass _ _)|done].
  apply os_abspath_value in Ed as [-> ->]. unfold bind at 1, lift at 1, path_exists, gets. simpl.
  match goal with |- context [at_path ?x ?q] => destruct (at_path x q) eqn:Em end; simpl;
    intros [= <- <-]; eexists; (split; [done|]); [|exact Em]. by split; [|eexists].
Qed.

(** The generator of the live patch the driver makes. *)
Definition patch_dir_of (lp : string) : string :=
  path_src (init_instance CONFIG "LivePatchGen" (splitext (basename lp)).1).

Lemma patch_kernel_Ret w l p w' l' :
  _patch_kernel CONFIG (w, l) = (Ret p, (w', l')) →
  l' = l ∧ ∃ mo, module_ p = Some mo ∧
    module_found w' (abspath (cwd w') (join2 (patch_dir_of (lg_livepatch l)) KPATCH_MODULE)) mo.
Proof.
  unfold _patch_kernel. erewrite (bind_Ret self) by reflexivity. cbn [snd].
  destruct (lock_ebpf l) as [g|]; [|done]. intros ([p' []] & [w3 l3] & H2 & [= <- <- <-])%bind_Ret_inv.
  apply with_object_Ret in H2 as [H2 Hl]. cbn [fst snd] in H2, Hl. split; [done|].
  destruct (frame_patch_phases false) as (F1 & _ & F3). destruct (frame_patch_phases true) as (_ & F2 & _).
  unfold run_patch in H2. apply bind_Ret_inv in H2 as (u1 & [w4 p4] & E1 & H2).
  apply bind_Ret_inv in H2 as (u2 & [w5 p5] & E2 & H2). apply bind_Ret_inv in H2 as (u3 & [w6 p6] & E3 & H2).
  specialize (F1 (w, init_patch_gen CONFIG (splitext (basename (lg_livepatch l))).1 (lg_linux_src l) (g_name g)
                       (lg_aux_data l) (Some (lg_livepatch l)))). specialize (F2 (w4, p4)). specialize (F3 (w5, p5)).
  rewrite E1 in F1. rewrite E2 in F2. rewrite E3 in F3. cbn [snd] in F1, F2, F3. subst p4 p5 p6.
  by apply patch_check_Ret in H2.
Qed.
End Outcome.

(** ** The working directory *)

Section Cwd.
Context `{Host} (CONFIG : config).

Abbreviation stays := (keeps_if cwd_norm cwd).
Abbreviation ostays := (keeps_if cwd_norm (fun s => cwd (fst s))).

Lemma stays_lift {O A} (m : IO A) : stays m → keeps_if cwd_norm (fun s : world * O => cwd s.1) (lift m).
Proof.
  intros Hm [w ob] a [w' ob'] HP. unfold lift. simpl. destruct (m w) as [o w1] eqn:E.
  intros [= -> <- <-]. by eapply Hm.
Qed.

Lemma stays_cd {A} pn (body : IO A) : stays (cd pn body).
Proof. intros w a w' HP. by apply cd_keeps_cwd. Qed.

Lemma stays_execute cmd a b t : stays (execute cmd a b t).
Proof. by apply keeps_if_frame, frame_execute. Qed.

Lemma stays_phase {O} `{Tool O} (m : OM O unit) done_ failed :
  ostays m → ostays (try_except (m ;; lift (logging INFO done_)) CException (fail failed)).
Proof.
  intros Hm. apply keeps_if_try_exit; [|done].
  apply keeps_if_bind; [done|]. intros _. by apply stays_lift, keeps_if_frame.
Qed.

Lemma stays_object {O O' A} (ob : O') (m : OM O' A) :
  ostays m → keeps_if cwd_norm (fun s : world * O => cwd s.1) (with_object ob m).
Proof.
  intros Hm [w o] r [w' o'] HP [E _]%with_object_Ret. exact (Hm (w, ob) _ _ HP E).
Qed.

(** Goals of the shape [stays m], by the structure of [m]. *)
Ltac stays :=
  repeat match goal with
  | |- keeps_if _ _ (bind _ _) => apply keeps_if_bind; [|intros ?]
  | |- keeps_if _ _ (lift _) => apply stays_lift
  | |- keeps_if _ _ (for_each _ _) => apply keeps_if_for_each; intros ?
  | |- keeps_if _ _ (cd _ _) => apply stays_cd
  | |- keeps_if _ _ (execute _ _ _ _) => apply stays_execute
  | |- keeps_if _ _ (inplace_replace _ _ _) => by apply keeps_if_frame, frame_inplace_replace
  | |- keeps_if _ _ (copy_all_files _ _ _) => by apply keeps_if_frame, frame_copy_all_files
  | |- keeps_if _ _ (prepdn _ _) => by apply keeps_if_frame, frame_prepdn
  | |- keeps_if _ _ (find_all_files _ _) => by apply keeps_if_frame, frame_find_all_files
  | |- keeps_if _ _ (read_file _) => by apply keeps_if_frame, frame_read_file
  | |- keeps_if _ _ (rename _ _) => by apply keeps_if_frame, frame_rename
  | |- keeps_if _ _ (os_abspath _) => by apply keeps_if_frame, frame_os_abspath
  | |- keeps_if _ _ (try_except _ _ _) => apply keeps_if_try_exit; [|done]
  | |- keeps_if _ _ (with_object _ _) => apply stays_object
  | |- keeps_if _ _ (if ?b then _ else _) => destruct b
  | |- keeps_if _ _ (match ?b with _ => _ end) => destruct b
  | |- keeps_if _ _ _ => by apply keeps_if_frame
  end.

Lemma stays_ebpf_ready o : ostays (ebpf_ready_impl CONFIG o).
Proof.
  unfold ebpf_ready_impl, execute_default, ready_makefile, ready_kern, ready_user, ready_header.
  stays. apply keeps_if_frame, frame_fold_each. intros cs x.
  apply frame_bind; [by apply frame_read_file|done].
Qed.

Lemma stays_ebpf_check : ostays (ebpf_check_impl CONFIG).
Proof.
  unfold ebpf_check_impl, read_API_list, print_API, get_section, check_section. stays.
  apply keeps_if_frame. destruct x as [[rt fn] al]. apply frame_bind.
  - unfold init_api. by case_if.
  - intros api. apply frame_fold_each. intros ap ar. apply frame_bind.
    + unfold parse_arg. by case_match.
    + intros ty. unfold add_arg. case_if; [done|]. by case_if.
Qed.

Lemma stays_run_ebpf : ostays (run_ebpf CONFIG).
Proof.
  unfold run_ebpf, ready, check, build. stays; simpl.
  - apply stays_ebpf_ready.
  - apply stays_ebpf_check.
  - unfold ebpf_build_impl. stays.
Qed.

Lemma stays_run_patch : ostays (run_patch CONFIG).
Proof.
  unfold run_patch, setup, ready, check, build. stays; simpl;
    unfold patch_setup_impl, patch_ready_impl, patch_build_impl, patch_check_impl, execute_default;
    stays.
Qed.
End Cwd.

(** ** How a run ends that does not return *)

Lemma ends_object {O O' A} (X : exn → Prop) (ob : O') (m : OM O' A) :
  ends X error_exit m → ends X error_exit (with_object (O := O) ob m).
Proof. intros Hm [w o]. specialize (Hm (w, ob)). unfold with_object. simpl. by destruct (m (w, ob)) as [[a|e|c] []]. Qed.

(** By the structure of the computation. *)
Ltac ends :=
  repeat match goal with
  | |- ordinary ?m => unfold ordinary
  | |- ends _ error_exit (lift (logging ERROR _) ;; sys_exit 0) => apply ends_error_exit
  | |- ends _ _ (bind _ _) => apply ends_bind; [|intros ?]
  | |- ends _ _ (lift _) => apply ends_lift
  | |- ends _ _ (for_each _ _) => apply ends_for_each; intros ?
  | |- ends _ _ (fold_each _ _ _) => apply ends_fold_each; intros ? ?
  | |- ends _ _ (finally _ _) => apply ordinary_finally
  | |- ends _ _ (if ?b then _ else _) => destruct b
  | |- ends _ _ (match ?b with _ => _ end) => destruct b
  | |- ends _ _ (update_root _ _ _) => unfold update_root
  | |- ends _ _ (deliver _ _) => unfold deliver
  | |- ends _ _ _ => done
  end.

Section EndsConcord.
Context `{Host} (CONFIG : config).

Lemma ordinary_execute cmd a b t : ordinary (execute cmd a b t).
Proof. unfold execute. ends. Qed.
Lemma ordinary_execute_default cmd : ordinary (execute_default cmd).
Proof. apply ordinary_execute. Qed.
Lemma ordinary_replace p a b : ordinary (inplace_replace p a b).
Proof. unfold inplace_replace, read_file, write_file. ends. Qed.
Lemma ordinary_copy a b o : ordinary (copy_all_files a b o).
Proof. unfold copy_all_files, path_exists, when, rmtree, copytree. ends. Qed.
Lemma ordinary_rename a b : ordinary (rename a b).
Proof. unfold rename. ends. Qed.
Lemma ordinary_read p : ordinary (read_file p).
Proof. unfold read_file. ends. Qed.
Lemma ordinary_cd {A} p (m : IO A) : ordinary m → ordinary (cd p m).
Proof. intros Hm. unfold cd, getcwd, chdir. ends. Qed.

Ltac ends_io :=
  first [ apply ordinary_execute_default | apply ordinary_execute | apply ordinary_replace | apply ordinary_copy
        | apply ordinary_rename | apply ordinary_read ].

(** The methods of the generators raise exceptions, or leave the program with an error. *)
Abbreviation method m := (ends (fun e => is_subclass (ecls e) CException = true) error_exit m).

Lemma method_ebpf_ready o : method (ebpf_ready_impl CONFIG o).
Proof. unfold ebpf_ready_impl, ready_makefile, ready_kern, ready_user, ready_header. ends; ends_io. Qed.

Lemma ends_parse_func d : ends (fun e => is_subclass (ecls e) CException = true) error_logged (parse_func d).
Proof.
  destruct d as [[r n] a]. unfold parse_func. apply ends_bind.
  - unfold init_api. case_if; [done|]. intros w. split; [done|]. eexists. simpl. by rewrite last_snoc.
  - intros api. apply ends_fold_each. intros ap x. apply ends_bind; [unfold parse_arg; ends|intros ty].
    unfold add_arg. case_if; [apply ends_error_logged|]. case_if; [done|apply ends_error_logged].
Qed.

Lemma method_ebpf_check : method (ebpf_check_impl CONFIG).
Proof.
  unfold ebpf_check_impl. apply ends_bind; [by apply ends_lift|intros _]. apply ends_bind; [|intros _].
  { unfold read_API_list. apply ends_bind; [apply ends_lift, ordinary_read|intros lines]. apply ends_for_each.
    intros d. apply ends_bind; [|done]. apply ends_lift_error, ends_parse_func. }
  unfold print_API, check_section. ends; try ends_io.
  - unfold get_section. apply ends_bind; [done|intros g]. apply ends_try.
    2: { intros e [w ob]. split; [done|]. eexists. simpl. by rewrite last_snoc. }
    apply ends_bind; [|done]. apply ends_lift. eapply ends_mono; [| |apply ordinary_read]; [by left|done].
Qed.

Lemma method_ebpf_build o : method (ebpf_build_impl o).
Proof. unfold ebpf_build_impl. ends. apply ordinary_cd. ends_io. Qed.

Lemma method_patch_setup o : method (patch_setup_impl o).
Proof. unfold patch_setup_impl. ends. apply ordinary_cd. ends; ends_io. Qed.

Lemma method_patch_ready o : method (patch_ready_impl CONFIG o).
Proof.
  unfold patch_ready_impl. ends; try ends_io; apply ordinary_cd; unfold with_output, write_file; ends; ends_io.
Qed.

Lemma method_patch_build o : method (patch_build_impl CONFIG o).
Proof. unfold patch_build_impl. ends; apply ordinary_cd; ends; ends_io. Qed.

Lemma method_patch_check : method patch_check_impl.
Proof. unfold patch_check_impl, os_abspath, getcwd. ends. Qed.

(** An exception that leaves a generator is one of making its output directory. *)
Lemma ended_run_ebpf w g :
  ended (fun e => (prepdn (g_src g) true w).1 = Raise e) error_exit (run_ebpf CONFIG (w, g)).
Proof.
  unfold run_ebpf. apply ended_bind; [exact (ended_ready (H0 := ebpf_tool CONFIG) w g (method_ebpf_ready true))|]. intros u s' _.
  apply (ended_mono (fun _ => False) _ error_exit); [done|done|].
  apply ended_bind; [apply ends_phase, method_ebpf_check|]. intros u' s'' _. apply ends_phase, method_ebpf_build.
Qed.

Lemma ended_run_patch w p :
  ended (fun e => ∃ w1, (prepdn (l_src p) true w1).1 = Raise e) error_exit (run_patch CONFIG (w, p)).
Proof.
  unfold run_patch. apply ended_bind.
  { eapply ended_mono; [| |apply ends_phase, method_patch_setup]; [done|done]. }
  intros u [w1 p1] E. destruct (frame_patch_phases CONFIG false) as (F & _). specialize (F (w, p)).
  rewrite E in F. cbn [snd] in F. subst p1. apply ended_bind.
  { eapply ended_mono; [| |exact (ended_ready (H0 := patch_tool CONFIG) w1 p (method_patch_ready true))]; [|done].
    intros e He. by exists w1. }
  intros u' s' _. apply (ended_mono (fun _ => False) _ error_exit); [done|done|].
  apply ended_bind; [apply ends_phase, method_patch_build|]. intros u'' s'' _. apply ends_phase, method_patch_check.
Qed.

Definition ebpf_dir_of (policy : string) : string := path_src (init_instance CONFIG "eBPFGen" policy).

(** The exceptions of the driver: one of the two output directories cannot be made. *)
Definition no_output_dir (l : LockGen) (e : exn) : Prop :=
  ∃ p w, (p = ebpf_dir_of (policy_dir l) ∨ bpfonly l ≠ 1 ∧ p = patch_dir_of CONFIG (lg_livepatch l)) ∧
    (prepdn p true w).1 = Raise e.

Lemma ended_object {O O' A} (X : exn → Prop) (ob : O') (m : OM O' A) (s : world * O) :
  ended X error_exit (m (s.1, ob)) → ended X error_exit (with_object ob m s).
Proof. intros Hm. unfold with_object. by destruct (m (s.1, ob)) as [[a|e|c] []]. Qed.

Lemma ended_check_and_gen w l : ended (no_output_dir l) error_exit (_check_and_gen_ebpf CONFIG (w, l)).
Proof.
  unfold _check_and_gen_ebpf. rewrite (bind_Ret _ _ _ l (w, l)) by reflexivity.
  do 3 (erewrite (bind_Ret (lift (find_all_files _ _))) by reflexivity). cbn [fst snd].
  match goal with |- context [choose_aux ?a] => set (aux := a) end.
  match goal with |- context [choose_map ?a _] => set (maps := a) end.
  apply ended_bind; [unfold choose_aux; destruct aux as [|? [|? ?]]; [done|done|apply ends_error_exit]|].
  intros u [w1 l1] E1. pose proof (frame_choose_aux aux (w, l)) as F1. rewrite E1 in F1.
  apply ended_bind; [unfold choose_map; destruct maps as [|? [|? ?]]; try case_if; first [apply ends_error_exit|done]|].
  intros u' [w2 l2] E2. pose proof (frame_choose_map maps aux (w1, l1)) as F2. rewrite E2 in F2.
  cbn [snd] in F1, F2. rewrite F1 in F2. injection F2 as Hb Hm Hp Hl.
  rewrite (bind_Ret _ _ _ l2 (w2, l2)) by reflexivity. apply ended_bind; [|done]. apply ended_object.
  eapply ended_mono; [| |apply ended_run_ebpf]; [|done]. intros e He. exists (ebpf_dir_of (policy_dir l)), w2.
  split; [by left|]. unfold ebpf_dir_of. rewrite <- Hp. exact He.
Qed.

Lemma ended_generate w l : ended (no_output_dir l) error_exit (generate_lock_code CONFIG (w, l)).
Proof.
  unfold generate_lock_code. apply ended_bind; [apply ended_check_and_gen|]. intros g [w1 l1] E1.
  pose proof (frame_check_and_gen CONFIG (w, l)) as F. rewrite E1 in F. injection F as Hb Hm Hp Hl.
  erewrite (bind_Ret (set_self _)) by reflexivity. erewrite (bind_Ret self) by reflexivity. cbn [fst snd].
  change (lock_ebpf (set_lock_ebpf g l1)) with (Some g). change (bpfonly (set_lock_ebpf g l1)) with (bpfonly l1).
  rewrite Hb. erewrite (bind_Ret (lift (logging _ _))) by reflexivity.
  destruct (Z.eqb_spec (bpfonly l) 1) as [|Hne]; [done|]. apply ended_bind.
  - unfold _patch_kernel. erewrite (bind_Ret self) by reflexivity. cbn [fst snd].
    change (lock_ebpf (set_lock_ebpf g l1)) with (Some g). apply ended_bind; [|done]. apply ended_object.
    eapply ended_mono; [| |apply ended_run_patch]; [|done]. intros e (w3 & He).
    exists (patch_dir_of CONFIG (lg_livepatch l)), w3. split; [by right|]. unfold patch_dir_of. rewrite <- Hl. exact He.
  - intros p [w3 l3] E3. apply patch_kernel_Ret in E3 as (_ & mo & -> & _). by destruct mo.
Qed.
End EndsConcord.

(** ** What a run that returns has logged *)

Lemma logs_object {O O' A} ds (ob : O') (m : OM O' A) : logs ds m → logs ds (with_object (O := O) ob m).
Proof. intros Hm s r s' [E _]%with_object_Ret. by apply Hm in E. Qed.

Lemma grows_cd `{Host} {A} p (m : IO A) : grows log m → grows log (cd p m).
Proof.
  intros Hm. assert (Hc : ∀ q, frame log (chdir q)).
  { intros q w. unfold chdir, bind, get. by destruct (at_path w q) as [[]|]. }
  unfold cd. apply grows_bind; [by apply grows_frame, frame_getcwd|intros d].
  apply grows_bind; [by apply grows_frame|intros h]. apply grows_bind; [by apply grows_frame|intros _].
  by apply grows_finally.
Qed.

(** By the structure of the computation. *)
Ltac grows :=
  repeat match goal with
  | |- grows _ (bind _ _) => apply grows_bind; [|intros ?]
  | |- grows _ (lift _) => apply grows_lift
  | |- grows _ (for_each _ _) => apply grows_for_each; intros ?
  | |- grows _ (fold_each _ _ _) => apply grows_fold_each; intros ? ?
  | |- grows _ (if ?b then _ else _) => destruct b
  | |- grows _ (match ?b with _ => _ end) => destruct b
  | |- grows _ (logging _ _) => intros ? ? ? [= _ <-]; by apply prefix_app_r
  | |- grows _ (inplace_replace _ _ _) => by apply grows_frame, frame_inplace_replace
  | |- grows _ (copy_all_files _ _ _) => by apply grows_frame, frame_copy_all_files
  | |- grows _ (execute_default _) => by apply grows_frame, frame_execute
  | |- grows _ (execute _ _ _ _) => by apply grows_frame, frame_execute
  | |- grows _ (read_file _) => by apply grows_frame, frame_read_file
  | |- grows _ (write_file _ _) => by apply grows_frame, frame_write_file
  | |- grows _ (rename _ _) => by apply grows_frame, frame_rename
  | |- grows _ (os_abspath _) => by apply grows_frame, frame_os_abspath
  | |- grows _ (cd _ _) => apply grows_cd
  | |- grows _ (sys_exit _) => done
  | |- grows _ (raise _ _) => done
  | |- grows _ _ => by apply grows_frame
  end.

Section GrowsConcord.
Context `{Host} (CONFIG : config).

Lemma grows_parse_func d : grows log (parse_func d).
Proof. destruct d as [[r n] a]. unfold parse_func, init_api, parse_arg, add_arg. grows. Qed.

Definition done_of (phases : list string) : list (level * string) := map (fun p => (INFO, "[Done] " +:+ p)) phases.

Lemma logs_run_ebpf : logs (done_of ["Ready"; "Check"; "Build"]) (run_ebpf CONFIG).
Proof.
  unfold run_ebpf. apply (logs_bind [_] (done_of ["Check"; "Build"])); [apply logs_ready|intros _].
  - simpl. unfold ebpf_ready_impl, ready_makefile, ready_kern, ready_user, ready_header. grows.
  - apply (logs_bind [_] [_]); [apply logs_phase|intros _; apply logs_phase]; simpl.
    + unfold ebpf_check_impl, read_API_list, print_API, check_section. grows; [apply grows_parse_func|].
      unfold get_section. grows. apply grows_try; [grows|]. intros e s0. by eexists _, _.
    + unfold ebpf_build_impl. grows.
Qed.

Lemma logs_run_patch : logs (done_of ["Setup"; "Ready"; "Build"; "Check"]) (run_patch CONFIG).
Proof.
  unfold run_patch. apply (logs_bind [_] (done_of ["Ready"; "Build"; "Check"])); [apply logs_phase|intros _].
  { simpl. unfold patch_setup_impl. grows. }
  apply (logs_bind [_] (done_of ["Build"; "Check"])); [apply logs_ready|intros _].
  { simpl. unfold patch_ready_impl, with_output. grows. }
  apply (logs_bind [_] [_]); [apply logs_phase|intros _; apply logs_phase]; simpl.
  - unfold patch_build_impl. grows.
  - unfold patch_check_impl. grows.
Qed.

(** The phases of a run, in their order. *)
Definition phases (only : Z) : list string :=
  ["Ready"; "Check"; "Build"] ++ if only =? 1 then [] else ["Setup"; "Ready"; "Build"; "Check"].

Lemma logs_check_and_gen : logs (done_of ["Ready"; "Check"; "Build"]) (_check_and_gen_ebpf CONFIG).
Proof.
  unfold _check_and_gen_ebpf.
  do 4 (apply (logs_bind [] (done_of ["Ready"; "Check"; "Build"])); [apply logs_grows; grows|intros ?]).
  apply (logs_bind [] (done_of ["Ready"; "Check"; "Build"])); [apply logs_grows; unfold choose_aux; grows|intros _].
  apply (logs_bind [] (done_of ["Ready"; "Check"; "Build"])); [apply logs_grows; unfold choose_map; grows|intros _].
  apply (logs_bind [] (done_of ["Ready"; "Check"; "Build"])); [apply logs_grows; grows|intros l].
  apply (logs_bind (done_of ["Ready"; "Check"; "Build"]) []); [apply logs_object, logs_run_ebpf|].
  intros r. apply logs_grows. grows.
Qed.

Lemma logs_patch_kernel : logs (done_of ["Setup"; "Ready"; "Build"; "Check"]) (_patch_kernel CONFIG).
Proof.
  unfold _patch_kernel. apply (logs_bind [] (done_of ["Setup"; "Ready"; "Build"; "Check"])); [apply logs_grows; grows|].
  intros l. destruct (lock_ebpf l) as [g|]; [|done].
  apply (logs_bind (done_of ["Setup"; "Ready"; "Build"; "Check"]) []); [apply logs_object, logs_run_patch|].
  intros r. apply logs_grows. grows.
Qed.
End GrowsConcord.

(** * Properties *)

(** C40: the policy files are the files anywhere below the policy directory whose name
    has ".pfile" anywhere in it: the expression is not anchored, so a name that only
    contains the extension, such as an editor's backup, is compiled into the program
    too. *)
Theorem policy_files_selected w dir t p :
  at_path w dir = Some t → tree_wf t →
  ∃ l, find_all_files dir (Some pfile_re) w = (Ret l, w) ∧
    (p ∈ l ↔ ∃ ns a b x m, tget (ns ++ [a +:+ ".pfile" +:+ b]) t = Some (File x m) ∧
       no_char LF a = true ∧ p = join2 (foldl join2 dir ns) (a +:+ ".pfile" +:+ b)).
Proof.
  intros Ht Hwf. destruct (find_all_files_spec w dir t (Some pfile_re) p Ht Hwf) as (l & H1 & H2).
  exists l. split; [done|]. rewrite H2. split.
  - intros (ns & n & x & m & Hn & Hre & ->). apply suffix_re_spec in Hre as (a & b & -> & Ha).
    by exists ns, a, b, x, m.
  - intros (ns & a & b & x & m & Hn & Ha & ->). exists ns, (a +:+ ".pfile" +:+ b), x, m.
    split; [done|]. split; [|done]. apply suffix_re_spec. eauto.
Qed.

Lemma policy_files_selected_witness :
  ∃ l, find_all_files "sub" (Some pfile_re) demo_world = (Ret l, demo_world) ∧ "sub/a.pfile" ∈ l.
Proof.
  destruct (policy_files_selected demo_world "sub" (default (Dir []) (tget ["work"; "sub"] demo_root))
              "sub/a.pfile") as (l & H1 & H2).
  - vm_compute. reflexivity.
  - vm_compute. repeat first [split | apply (bool_decide_unpack (NoDup _)); vm_compute; exact I].
  - exists l. split; [exact H1|]. apply H2. exists [], "a", "", "a", 420. done.
Defined.

(** The choice of the map file after the choice of the header: exactly one map file
    is used, and with two or more of them none is, without the error the code has for
    that case: its guard counts the headers again. *)
Theorem map_file_choice maps aux w l w1 l1 :
  choose_aux aux (w, l) = (Ret tt, (w1, l1)) →
  choose_map maps aux (w1, l1) =
    (Ret tt, (w1, set_map_file (match maps with [m] => m | _ => "" end) l1)) ∧
  lg_aux_data l1 = match aux with a :: _ => a | [] => lg_aux_data l end.
Proof.
  intros (Ha & -> & ->)%choose_aux_Ret. split; [by apply choose_map_Ret|]. by destruct aux.
Qed.

Lemma map_file_choice_witness :
  let l := MkLockGen "/linux" "/numa" "/x.patch" 0 "/default.h" None None None in
  choose_map ["a.map"; "b.map"] ["u.h"] (demo_world, set_aux_data "u.h" l) =
    (Ret tt, (demo_world, set_map_file "" (set_aux_data "u.h" l))).
Proof.
  intros l. apply (map_file_choice ["a.map"; "b.map"] ["u.h"] demo_world l demo_world
                     (set_aux_data "u.h" l)). reflexivity.
Defined.

(** The steps of a run that returns. *)
Record generated_code `{Host} (CONFIG : config) (w : world) (l : LockGen) (r : Z) (w' : world) (l' : LockGen)
    (g : EBPF_GEN) (w1 : world) (l1 : LockGen) : Prop := {
  gc_ebpf : _check_and_gen_ebpf CONFIG (w, l) = (Ret g, (w1, l1)) ∧ lock_ebpf l' = Some g;
  gc_only : bpfonly l = 1 → r = 0 ∧ w' = set_log (log w1 ++ [(INFO, "1")]) w1 ∧
              patched_lock_module l' = patched_lock_module l;
  gc_patch : bpfonly l ≠ 1 →
    (∃ p l2, _patch_kernel CONFIG (set_log (log w1 ++ [(INFO, str_Z (bpfonly l))]) w1, l2) = (Ret p, (w', l2)) ∧
       module_ p = Some (patched_lock_module l')) ∧
    module_found w' (abspath (cwd w') (join2 (patch_dir_of CONFIG (lg_livepatch l)) KPATCH_MODULE))
      (patched_lock_module l') ∧
    r = match patched_lock_module l' with Some _ => 0 | None => -1 end
}.

Lemma generate_lock_code_Ret `{Host} CONFIG w l r w' l' :
  generate_lock_code CONFIG (w, l) = (Ret r, (w', l')) →
  ∃ g w1 l1, generated_code CONFIG w l r w' l' g w1 l1.
Proof.
  unfold generate_lock_code. intros (g & [w1 l1] & H1 & H2)%bind_Ret_inv. exists g, w1, l1.
  pose proof (frame_check_and_gen CONFIG (w, l)) as Hf. rewrite H1 in Hf. injection Hf as Hb Hp _ Hl.
  erewrite (bind_Ret (set_self _)) in H2 by reflexivity.
  erewrite (bind_Ret self) in H2 by reflexivity. cbn [fst snd] in H2.
  change (lock_ebpf (set_lock_ebpf g l1)) with (Some g) in H2.
  change (bpfonly (set_lock_ebpf g l1)) with (bpfonly l1) in H2. rewrite Hb in H2.
  erewrite (bind_Ret (lift (logging _ _))) in H2 by reflexivity.
  destruct (Z.eqb_spec (bpfonly l) 1) as [Hone|Hne].
  { injection H2 as <- <- <-. split; [done|intros _|done]. by rewrite Hone. }
  apply bind_Ret_inv in H2 as (p & [w2 l2] & H2 & H3).
  destruct (patch_kernel_Ret _ _ _ _ _ _ H2) as (-> & mo & Hm & Hex). rewrite Hm in H3.
  erewrite (bind_Ret (set_self _)) in H3 by reflexivity. cbn [fst snd] in Hex, H2.
  change (lg_livepatch (set_lock_ebpf g l1)) with (lg_livepatch l1) in Hex.
  rewrite Hl in Hex. destruct mo as [m|]; injection H3 as <- <- <-; split; try done; intros _; (split; [|done]);
    by exists p, (set_lock_ebpf g l1).
Qed.

(** Every phase of a run that returns was logged as done. *)
Lemma logs_generate `{Host} CONFIG w l r w' l' :
  generate_lock_code CONFIG (w, l) = (Ret r, (w', l')) →
  ∃ new, log w' = log w ++ new ∧ done_of (phases (bpfonly l)) `sublist_of` new.
Proof.
  intros (g & w1 & l1 & [[H1 _] H2 H3])%generate_lock_code_Ret.
  destruct (logs_check_and_gen CONFIG _ _ _ H1) as (n1 & E1 & S1). unfold phases.
  destruct (Z.eqb_spec (bpfonly l) 1) as [Hb|Hb].
  - destruct (H2 Hb) as (_ & -> & _). exists (n1 ++ [(INFO, "1")]). simpl in *.
    split; [by rewrite E1, app_assoc|by apply sublist_inserts_r].
  - destruct (H3 Hb) as ((p & l2 & E2 & _) & _). destruct (logs_patch_kernel CONFIG _ _ _ E2) as (n2 & E3 & S2).
    exists (n1 ++ [(INFO, str_Z (bpfonly l))] ++ n2). simpl in *. rewrite E3, E1. split; [by rewrite <- !app_assoc|].
    apply (sublist_app (done_of ["Ready"; "Check"; "Build"]) _ (done_of ["Setup"; "Ready"; "Build"; "Check"])); [done|].
    by apply (sublist_inserts_l [_]).
Qed.

Lemma generate_lock_code_shape `{Host} CONFIG s r s' :
  generate_lock_code CONFIG s = (Ret r, s') → r = 0 ∨ r = -1.
Proof.
  destruct s as [w l], s' as [w' l']. intros (g & w1 & l1 & [_ H1 H2])%generate_lock_code_Ret.
  destruct (Z.eq_dec (bpfonly l) 1) as [Hb|Hb]; [left; by apply H1|].
  destruct (H2 Hb) as (_ & _ & ->). destruct (patched_lock_module l'); auto.
Qed.

(** C6: when [generate_lock_code] returns, the eBPF program was generated and its generator is
    set.  With [-e] given once the value is 0 and nothing was done after that but to write a
    line in the log, so no live patch was made.  Otherwise the generator of the live patch
    ran to its end after it, and the value is 0 with the path of the module, which exists, or
    -1 when there is none in its place.  The value -2 is never returned. *)
Theorem generate_lock_code_result `{Host} CONFIG w l r w' l' :
  generate_lock_code CONFIG (w, l) = (Ret r, (w', l')) →
  ∃ g w1 l1, _check_and_gen_ebpf CONFIG (w, l) = (Ret g, (w1, l1)) ∧ lock_ebpf l' = Some g ∧
    let w2 := set_log (log w1 ++ [(INFO, str_Z (bpfonly l))]) w1 in
    let mp := abspath (cwd w') (join2 (patch_dir_of CONFIG (lg_livepatch l)) KPATCH_MODULE) in
    if bpfonly l =? 1 then r = 0 ∧ w' = w2 ∧ patched_lock_module l' = patched_lock_module l
    else (∃ p l2, _patch_kernel CONFIG (w2, l2) = (Ret p, (w', l2)) ∧ module_ p = Some (patched_lock_module l')) ∧
      ((r = 0 ∧ patched_lock_module l' = Some mp ∧ is_Some (at_path w' mp)) ∨
       (r = -1 ∧ patched_lock_module l' = None ∧ at_path w' mp = None)).
Proof.
  intros (g & w1 & l1 & [[H1 H2] H3 H4])%generate_lock_code_Ret. exists g, w1, l1. split_and!; [done..|]. cbv zeta.
  destruct (Z.eqb_spec (bpfonly l) 1) as [Hb|Hb]; [rewrite Hb; by apply H3|].
  destruct (H4 Hb) as (Hp & Hm & ->). split; [done|]. unfold module_found in Hm.
  destruct (patched_lock_module l') as [m|]; [left; by destruct Hm as [-> ?]|by right].
Qed.

(** The demonstration checkout with a kernel tree and a live patch beside it. *)
Definition demo_full : world :=
  World (Dir [("c", default (Dir []) (tget ["c"] demo_checkout));
              ("numa", default (Dir []) (tget ["numa"] demo_checkout));
              ("linux", Dir [("include", Dir [("linux", Dir [])])]);
              ("numa.patch", File ("+ ${NCPU}" +:+ nl) 420)]) "/" ∅ [] [] [] [] WARNING.

Lemma generate_lock_code_result_witness :
  let l := init_lockgen demo_config "/linux" "/numa" "/numa.patch" 0 in
  ∃ w' l', generate_lock_code (H := cp_host) demo_config (demo_full, l) = (Ret (-1), (w', l')) ∧
    is_Some (lock_ebpf l') ∧ patched_lock_module l' = None.
Proof.
  intros l.
  assert (E : (generate_lock_code (H := cp_host) demo_config (demo_full, l)).1 = Ret (-1))
    by (vm_compute; reflexivity).
  destruct (generate_lock_code (H := cp_host) demo_config (demo_full, l)) as [o [w' l']] eqn:Eg.
  simpl in E. subst o. exists w', l'. split; [reflexivity|].
  destruct (generate_lock_code_result (H := cp_host) _ _ _ _ _ _ Eg) as (g & w1 & l1 & _ & H1 & _ & [[? _]|(_ & H2 & _)]);
    [done|]. split; [by exists g|exact H2].
Defined.

(** C33: a run of [generate_lock_code] that returns gives the process its working directory
    back, through every directory change of the four phases of both generators. *)
Theorem generate_keeps_cwd `{Host} CONFIG w l r w' l' :
  cwd_norm (cwd w) → generate_lock_code CONFIG (w, l) = (Ret r, (w', l')) → cwd w' = cwd w.
Proof.
  intros Hn Hg.
  assert (Hs : keeps_if cwd_norm (fun s => cwd s.1) (generate_lock_code CONFIG)).
  { unfold generate_lock_code, _check_and_gen_ebpf, _patch_kernel.
    repeat first
      [ apply keeps_if_bind; [|intros ?]
      | apply stays_lift; by apply keeps_if_frame
      | apply stays_object; first [apply stays_run_ebpf | apply stays_run_patch]
      | apply keeps_if_frame; first [done | by apply frame_lift, frame_find_all_files]
      | case_match ]; apply keeps_if_frame;
      unfold choose_aux, choose_map; repeat case_match; try done; by apply frame_bind. }
  exact (Hs (w, l) _ _ Hn Hg).
Qed.

Lemma generate_keeps_cwd_witness :
  let l := init_lockgen demo_config "/linux" "/numa" "/numa.patch" 0 in
  ∃ w' l', generate_lock_code (H := cp_host) demo_config (demo_full, l) = (Ret (-1), (w', l')) ∧
    cwd w' = "/".
Proof.
  intros l.
  assert (E : (generate_lock_code (H := cp_host) demo_config (demo_full, l)).1 = Ret (-1))
    by (vm_compute; reflexivity).
  destruct (generate_lock_code (H := cp_host) demo_config (demo_full, l)) as [o [w' l']] eqn:Eg.
  simpl in E. subst o. exists w', l'. split; [reflexivity|].
  apply (generate_keeps_cwd (H := cp_host) _ _ _ _ _ _ (eq_refl : cwd_norm (cwd demo_full)) Eg).
Defined.

(** ** The command line *)

(** What a command line asks for. *)
Inductive opt :=
| Verbose
| Bpfonly
| LinuxSrc (p : string)
| Policy (p : string)
| Livepatch (p : string).

Definition event (o : opt) : action * option string :=
  match o with
  | Verbose => (CountVerbose, None)
  | Bpfonly => (CountBpfonly, None)
  | LinuxSrc p => (StoreLinuxSrc, Some p)
  | Policy p => (StorePolicy, Some p)
  | Livepatch p => (StoreLivepatch, Some p)
  end.

(** The words that spell options of the driver. *)
Definition spells (opts : list opt) (argv : list string) : Prop :=
  spelled option_string_actions stores (map event opts) argv.

(** The namespace options mean in the working directory [d]. *)
Definition apply_opt (d : string) (a : namespace) (o : opt) : namespace :=
  let '(Namespace v b l p s) := a in
  match o with
  | Verbose => Namespace (v + 1) b l p s
  | Bpfonly => Namespace v (b + 1) l p s
  | LinuxSrc x => Namespace v b (Some (abspath d x)) p s
  | Policy x => Namespace v b l (Some (abspath d x)) s
  | Livepatch x => Namespace v b l p (Some (abspath d x))
  end.

Definition read_opts (d : string) (opts : list opt) : namespace := foldl (apply_opt d) default_args opts.

Lemma actions_ok : table_ok option_string_actions.
Proof.
  split; [apply (bool_decide_unpack _); vm_compute; exact I|].
  repeat (apply List.Forall_cons; [reflexivity|]). apply List.Forall_nil.
Qed.

Lemma act_events opts ns w es :
  tget (components (cwd w)) (root w) = Some (Dir es) →
  fold_each (map event opts) (take_event act) ns w = (Ret (foldl (apply_opt (cwd w)) ns opts), w).
Proof.
  intros Hw. revert ns. induction opts as [|o opts IH]; intros ns; [done|]. simpl.
  rewrite (bind_Ret _ _ _ (apply_opt (cwd w) ns o) w); [apply IH|].
  destruct ns as [v b l p s]. destruct o; unfold take_event; simpl; try done;
    by rewrite (bind_Ret _ _ _ _ _ (os_abspath_Ret _ _ _ Hw)).
Qed.

Lemma parse_args_opts opts argv w es :
  tget (components (cwd w)) (root w) = Some (Dir es) → spells opts argv →
  parse_args argv w =
    let args := read_opts (cwd w) opts in
    (if complete args then Ret args else Exit 2, w).
Proof.
  intros Hw Hs. unfold parse_args. rewrite (parse_args_spelled _ _ act no_positional actions_ok complete _ _ _ Hs w).
  rewrite (bind_Ret _ _ _ _ _ (act_events opts default_args w es Hw)). cbv zeta. unfold read_opts.
  by destruct (complete _).
Qed.

(** A parse leaves the process as it is, and leaves the program with status 0 or 2. *)
Lemma frame_parse {V} (obs : world → V) argv : frame obs (parse_args argv).
Proof.
  apply frame_parse_args; [|by intros []]. intros a v [vb b l p s]. destruct a, v; try done; simpl;
    (apply frame_bind; [apply frame_os_abspath|done]).
Qed.

Lemma exits_parse argv : exits (fun c => c = 0 ∨ c = 2) (parse_args argv).
Proof.
  apply exits_parse_args; [by right| |by intros []]. intros a v [vb b l p s].
  destruct a, v; simpl; try done; try (apply exits_exit; by left);
    (apply exits_bind; [apply exits_os_abspath|done]).
Qed.

Lemma coloring_run w : ∃ n, enable_coloring_in_logging w = (Ret tt, set_level_names n w).
Proof. eexists. unfold enable_coloring_in_logging, addLevelName, bind, modify. by destruct w. Qed.

Lemma basicConfig_run lv w :
  ∃ h v, basicConfig lv w = (Ret tt, set_log_level v (set_handlers h w)) ∧ (handlers w = [] → v = lv).
Proof.
  unfold basicConfig, gets, bind. destruct (handlers w) as [|h hs] eqn:E; [by eexists _, _|].
  exists (handlers w), (log_level w). split; [by destruct w|done].
Qed.

(** C39: the status of the program.  A command line that is refused, or asks for help, ends it
    with status 2 or 0 before anything is changed.  Once it is accepted: a run that returns
    has logged every one of its phases as done and ends with status 0, for eBPF only or with
    the module in its place, or with 255 when the module is not there; an exception ends it
    with status 1, and is one of making an output directory, the one step outside the guarded
    phases that fails; every other failure, in any phase, ends it with status 0, as a success
    does, with an error as the last entry of the log. *)
Theorem exit_status_values `{Host} CONFIG argv w :
  match (parse_args argv w).1 with
  | Ret args =>
      let l := lockgen_of CONFIG args in
      match main CONFIG argv w with
      | (Ret r, w') =>
          let mp := abspath (cwd w') (join2 (patch_dir_of CONFIG (lg_livepatch l)) KPATCH_MODULE) in
          (∃ new, log w' = log w ++ new ∧ done_of (phases (a_bpfonly args)) `sublist_of` new) ∧
          ((r = Some 0 ∧ exit_status CONFIG argv w = 0 ∧ (a_bpfonly args ≠ 1 → is_Some (at_path w' mp))) ∨
          (r = Some (-1) ∧ exit_status CONFIG argv w = 255 ∧ a_bpfonly args ≠ 1 ∧ at_path w' mp = None))
      | (Raise e, _) => no_output_dir CONFIG l e ∧ exit_status CONFIG argv w = 1
      | (Exit c, w') => exit_status CONFIG argv w = 0 ∧ ∃ m, last (log w') = Some (ERROR, m)
      end
  | Raise e => main CONFIG argv w = (Raise e, w) ∧ exit_status CONFIG argv w = 1
  | Exit c => main CONFIG argv w = (Exit c, w) ∧ (c = 0 ∨ c = 2) ∧ exit_status CONFIG argv w = c
  end.
Proof.
  pose proof (frame_parse (fun w => w) argv w) as Hf. pose proof (exits_parse argv w) as Hx.
  unfold exit_status. destruct (parse_args argv w) as [[args|e|c] w0] eqn:E; simpl in Hf; subst w0; simpl.
  - unfold main. rewrite (bind_Ret _ _ _ _ _ E).
    destruct (coloring_run w) as [n En]. rewrite (bind_Ret _ _ _ _ _ En).
    destruct (basicConfig_run (LOG_LEVEL (a_verbose args)) (set_level_names n w)) as (h & v & Eb & _).
    rewrite (bind_Ret _ _ _ _ _ Eb). set (w2 := set_log_level v _). unfold run_lockgen, bind. set (l := lockgen_of CONFIG args).
    pose proof (ended_generate CONFIG w2 l) as He.
    destruct (generate_lock_code CONFIG (w2, l)) as [[r|e|c] [w' l']] eqn:Eg; simpl in He |- *.
    + split; [by apply logs_generate in Eg|].
      apply generate_lock_code_Ret in Eg as (g & w3 & l3 & [_ H3 H4]). destruct (Z.eq_dec (a_bpfonly args) 1) as [Hb|Hb].
      { destruct (H3 Hb) as (-> & _). by left. }
      destruct (H4 Hb) as (_ & Hm & ->). unfold module_found in Hm.
      destruct (patched_lock_module l') as [m|]; [left|by right]. by destruct Hm.
    + done.
    + destruct He as [-> Hl]. done.
  - unfold main. by rewrite (bind_Raise _ _ _ _ _ E).
  - unfold main. rewrite (bind_Exit _ _ _ _ _ E). destruct (Hx _ _ eq_refl) as [->| ->]; auto.
Qed.

(** The options of a command line of one kind. *)
Definition is_Bpfonly (o : opt) : bool := match o with Bpfonly => true | _ => false end.
Definition is_Verbose (o : opt) : bool := match o with Verbose => true | _ => false end.

Lemma read_opts_counts d opts :
  a_verbose (read_opts d opts) = 1 + Z.of_nat (length (List.filter is_Verbose opts)) ∧
  a_bpfonly (read_opts d opts) = Z.of_nat (length (List.filter is_Bpfonly opts)).
Proof.
  unfold read_opts. induction opts as [|o opts IH] using rev_ind; [done|].
  rewrite foldl_app, !List.filter_app, !length_app. simpl.
  destruct (foldl (apply_opt d) default_args opts) as [v b l p s]. simpl in IH.
  destruct o; simpl; lia.
Qed.

(** The eBPF-only mode is on exactly when [-e] is given once: given twice the count is
    2 and the kernel is patched after all.  The level is never WARNING, because the count
    of [-v] starts at one. *)
Lemma bpfonly_once d opts :
  (a_bpfonly (read_opts d opts) =? 1) = Nat.eqb (length (List.filter is_Bpfonly opts)) 1 ∧
  LOG_LEVEL (a_verbose (read_opts d opts)) = (if existsb is_Verbose opts then DEBUG else INFO).
Proof.
  destruct (read_opts_counts d opts) as [-> ->]. split.
  - destruct (Nat.eqb_spec (length (List.filter is_Bpfonly opts)) 1); lia.
  - assert (He : existsb is_Verbose opts = negb (Nat.eqb (length (List.filter is_Verbose opts)) 0)).
    { induction opts as [|o opts IH]; [done|]. simpl. destruct (is_Verbose o); [done|]. apply IH. }
    rewrite He. unfold LOG_LEVEL. destruct (Nat.eqb_spec (length (List.filter is_Verbose opts)) 0);
      simpl; repeat case_if; bool_to_prop; try done; lia.
Qed.

(** C7: the command line.  Words that spell options, long ones in full or cut short as long
    as no other begins so, with a value in the same word or in the next, and flags by their
    letters, one to a word or several, are read as these options: the paths are made
    absolute in the working directory, the last of a kind counts, and a missing path ends
    the program with status 2; nothing is changed.  The eBPF-only mode is on exactly when
    its flag is given once, and the level of the log is DEBUG exactly when the flag for it
    is given. *)
Theorem command_line_read opts argv w es :
  tget (components (cwd w)) (root w) = Some (Dir es) → spells opts argv →
  let args := read_opts (cwd w) opts in
  parse_args argv w = (if complete args then Ret args else Exit 2, w) ∧
  (a_bpfonly args =? 1) = Nat.eqb (length (List.filter is_Bpfonly opts)) 1 ∧
  LOG_LEVEL (a_verbose args) = (if existsb is_Verbose opts then DEBUG else INFO).
Proof. intros Hw Hs args. split; [by eapply parse_args_opts|apply bpfonly_once]. Qed.

Lemma command_line_read_witness :
  let argv := ["-ev"; "--linux"; "/home/syncord/SynCord-linux-base"; "--policy"; "policy/numa-grouping";
               "--livepatch=/home/syncord/template.patch"] in
  parse_args argv demo_full =
    (Ret (Namespace 2 1 (Some "/home/syncord/SynCord-linux-base") (Some "/policy/numa-grouping")
            (Some "/home/syncord/template.patch")), demo_full).
Proof.
  intros argv.
  destruct (command_line_read
    [Bpfonly; Verbose; LinuxSrc "/home/syncord/SynCord-linux-base"; Policy "policy/numa-grouping";
     Livepatch "/home/syncord/template.patch"] argv demo_full
    match root demo_full with Dir es => es | _ => [] end) as [H _].
  - reflexivity.
  - apply (SpFlags _ _ ["e"; "v"]%char [CountBpfonly; CountVerbose]); [simpl; lia| |reflexivity|].
    { apply List.Forall2_cons; [split; reflexivity|]. apply List.Forall2_cons; [split; reflexivity|].
      apply List.Forall2_nil. }
    apply SpNext; [|reflexivity|reflexivity|].
    { split; [reflexivity|right]. split; [reflexivity|]. split; [reflexivity|]. split; [discriminate|].
      exists "--linux_src". reflexivity. }
    apply SpNext; [split; [reflexivity|by left]|reflexivity|reflexivity|].
    apply (SpEq _ _ "--livepatch" StoreLivepatch "/home/syncord/template.patch");
      [split; [reflexivity|by left]|reflexivity|apply SpNil].
  - etrans; [exact H|]. vm_compute. reflexivity.
Defined.
