(* ===== verification/FsType.v ===== *)
(** The type of the file system: what every operation of the operating system the tool uses,
    and so the whole tool of src/concord, keeps true of the file tree and of the working
    directory, on every path, the ones that end in an exception included. *)

From S2P Require Import Prelude PyStr PyDict PyPath Effect Os Util Instance BpfGen LivePatch Concord.

(** A tree is a directory in which no directory lists a name twice; the working directory
    is written the way the system writes it. *)
Definition tree_ok (t : node) : Prop := tree_wf t ∧ is_dir t = true.

Definition world_ok (w : world) : Prop := tree_ok (root w) ∧ cwd_norm (cwd w).

(** The programs the tool starts leave a tree behind. *)
Class SoundHost (host : Host) : Prop := spawn_ok :
  ∀ cmd d e limit t x t' o, tree_ok t → spawn cmd d e limit t = Some (x, t', o) → tree_ok t'.

(** * The operations on trees *)

Lemma tput_ok p n t t' : p ≠ [] → tree_wf n → tree_ok t → tput p n t = Some t' → tree_ok t'.
Proof.
  intros Hp Hn [Hwf Hd] E. split; [by eapply tput_wf|]. destruct p as [|c p]; [done|].
  by apply tput_Some_inv in E as (es & -> & [[_ ->]|(_ & m & m' & _ & _ & ->)]).
Qed.

Lemma tdel_ok p t t' : tree_ok t → tdel p t = Some t' → tree_ok t'.
Proof.
  intros [Hwf Hd] E. split; [by eapply tdel_wf|]. destruct p as [|c p]; [done|]. destruct t as [|es]; [done|].
  simpl in E. destruct (dget c es) as [m|]; [|done]. destruct p; [by injection E as <-|].
  destruct (tdel _ m); [by injection E as <-|done].
Qed.

Lemma tmkdirs_ok p t t' : tree_ok t → tmkdirs p t = Some t' → tree_ok t'.
Proof.
  intros [Hwf Hd] E. split; [by eapply tmkdirs_wf|]. destruct t as [|es]; [by destruct p|].
  destruct p as [|c p]; [by injection E as <-|]. simpl in E. destruct (tmkdirs p _); [by injection E as <-|done].
Qed.

Lemma tree_wf_file x m : tree_wf (File x m).
Proof. done. Qed.

Lemma tree_wf_empty : tree_wf (Dir []).
Proof. split; [constructor|done]. Qed.

(** A place that holds a file, or nothing, is not the root of a tree. *)
Lemma file_not_root p t : tree_ok t → match tget p t with Some (Dir _) => False | _ => True end → p ≠ [].
Proof. intros [_ Hd] Hp ->. destruct t; done. Qed.

(** * The operations of the system *)

Abbreviation safe := (preserves world_ok).

Lemma update_root_safe f c m w :
  world_ok w → (∀ r, f (root w) = Some r → tree_ok r) → world_ok (update_root f c m w).2.
Proof.
  intros [Ht Hc] Hf. unfold update_root. rewrite (bind_Ret _ _ _ w w) by done.
  destruct (f (root w)) as [r|]; [|done]. split; [by apply Hf|done].
Qed.

Lemma safe_logging l m : safe (logging l m).
Proof. by apply preserves_modify. Qed.

Lemma safe_print s : safe (print s).
Proof. by apply preserves_modify. Qed.

Lemma safe_read_file p : safe (read_file p).
Proof. apply preserves_get. intros w Hw. cbv zeta. by destruct (at_path w p) as [[]|]. Qed.

Lemma safe_write_file p t : safe (write_file p t).
Proof.
  apply preserves_get. intros w Hw. cbv zeta. pose proof (file_not_root (resolve (cwd w) p) (root w)) as Hn.
  destruct (tget (resolve (cwd w) p) (root w)) as [[x m|es]|]; [|done|];
    (apply update_root_safe; [done|]; intros r E; eapply tput_ok; [apply Hn|apply tree_wf_file| |exact E]; by try apply Hw).
Qed.

Lemma safe_rmtree p : safe (rmtree p).
Proof.
  apply preserves_get. intros w Hw. cbv zeta. destruct (tget _ (root w)) as [[x m|es]|]; [done| |done].
  apply update_root_safe; [done|]. intros r. apply tdel_ok, Hw.
Qed.

Lemma safe_makedirs p : safe (makedirs p).
Proof.
  apply preserves_get. intros w Hw. cbv zeta.
  assert (Hu : ∀ c m, world_ok (update_root (tmkdirs (resolve (cwd w) p)) c m w).2).
  { intros c m. apply update_root_safe; [done|]. intros r. apply tmkdirs_ok, Hw. }
  destruct (tget _ (root w)) as [[x m|es]|]; [done|apply Hu..].
Qed.

Lemma safe_copytree a b : safe (copytree a b).
Proof.
  apply preserves_get. intros w Hw. cbv zeta. destruct (at_path w a) as [[x m|es]|] eqn:Ea; [done| |done].
  pose proof (file_not_root (resolve (cwd w) b) (root w)) as Hn.
  destruct (tget (resolve (cwd w) b) (root w)) as [n|] eqn:E; [done|].
  apply update_root_safe; [done|]. intros r (t1 & E1 & E2)%bind_Some.
  eapply tput_ok; [by apply Hn, I; apply Hw| | |exact E2].
  - eapply tree_wf_get; [apply Hw|exact Ea].
  - eapply tmkdirs_ok; [apply Hw|exact E1].
Qed.

(** A directory can take the place of an empty directory, but not that of the root: the root
    has it as an entry. *)
Lemma safe_rename a b : safe (rename a b).
Proof.
  apply preserves_get. intros w Hw. pose proof Hw as [Ht Hc].
  assert (Hu : ∀ n, at_path w a = Some n → (resolve (cwd w) b = [] → resolve (cwd w) a = []) →
    world_ok (update_root (fun t => tdel (resolve (cwd w) a) t ≫= tput (resolve (cwd w) b) n)
                CFileNotFoundError (no_such_file b) w).2).
  { intros n Hn Hab. apply update_root_safe; [done|]. intros r (t1 & E1 & E2)%bind_Some.
    eapply tput_ok; [|eapply tree_wf_get; [apply Ht|exact Hn]|by eapply tdel_ok|exact E2].
    intros Hb. by rewrite (Hab Hb) in E1. }
  destruct Ht as [Hwf Hd]. destruct (root w) as [|es] eqn:Er; [done|].
  destruct (at_path w a) as [na|] eqn:Ea; [|done].
  destruct (at_path w b) as [[x m|eb]|] eqn:Eb.
  - destruct na; [|done]. apply Hu; [done|]. intros Hb. unfold at_path in Eb. by rewrite Hb, Er in Eb.
  - destruct na as [|ea]; [done|]. destruct eb as [|e eb]; [|done]. apply Hu; [done|]. intros Hb.
    unfold at_path in Ea, Eb. rewrite Hb, Er in Eb. injection Eb as ->. rewrite Er in Ea.
    by destruct (resolve (cwd w) a).
  - assert (resolve (cwd w) b ≠ []) by (intros Hb; unfold at_path in Eb; by rewrite Hb in Eb).
    destruct na; by apply Hu.
Qed.

Lemma safe_getcwd : safe getcwd.
Proof. apply preserves_get. intros w Hw. cbv zeta. by destruct (tget _ _) as [[]|]. Qed.

Lemma safe_chdir p : safe (chdir p).
Proof.
  apply preserves_get. intros w Hw. cbv zeta. destruct (at_path w p) as [[x m|es]|]; [done| |done].
  split; [apply Hw|]. unfold cwd_norm. simpl. rewrite components_abs; [done|]. apply components_plain.
Qed.

Create HintDb safe discriminated.

#[export] Hint Resolve safe_logging safe_print safe_read_file safe_write_file safe_rmtree safe_makedirs
  safe_copytree safe_rename safe_getcwd safe_chdir : safe.

(** Goals of the shape [preserves world_ok m], by the structure of [m]. *)
Ltac safe :=
  repeat match goal with
  | |- preserves _ (bind _ _) => apply preserves_bind; [|intros ?]
  | |- preserves _ (for_each _ _) => apply preserves_for_each; intros ?
  | |- preserves _ (fold_each _ _ _) => apply preserves_fold_each; intros ? ?
  | |- preserves _ (try_except _ _ _) => apply preserves_try; [|intros ?]
  | |- preserves _ (finally _ _) => apply preserves_finally
  | |- preserves _ (when _ _) => apply preserves_when
  | |- preserves _ (if ?b then _ else _) => destruct b
  | |- preserves _ (match ?b with _ => _ end) => destruct b
  | |- preserves _ _ => solve [auto with safe | by apply preserves_same | by apply preserves_modify]
  end.

(** * The helpers of util.py *)

Section Tool.
Context `{Hh : Host} `{!SoundHost Hh}.

Lemma safe_deliver s t : safe (deliver s t).
Proof.
  destruct s as [| |q]; simpl; safe. apply preserves_modify. intros w Hw.
  pose proof (file_not_root q (root w)) as Hn.
  destruct (tget q (root w)) as [[x m|es]|]; [|done..]. destruct (tput _ _ _) as [r|] eqn:E; [|done].
  split; [|apply Hw]. eapply tput_ok; [apply Hn|apply tree_wf_file| |exact E]; by try apply Hw.
Qed.

Lemma safe_execute cmd a b t : safe (execute cmd a b t).
Proof.
  intros w Hw. unfold execute. rewrite (bind_Ret _ _ _ w w) by done.
  destruct (spawn cmd (cwd w) (env w) t (root w)) as [[[x r] [o err]]|] eqn:E; [|exact Hw].
  assert (Hr : world_ok (set_root r w)) by (split; [eapply spawn_ok; [apply Hw|exact E]|apply Hw]).
  rewrite (bind_Ret _ _ _ tt (set_root r w)) by done. revert Hr. generalize (set_root r w).
  change (safe (deliver a o ;; deliver b err ;;
    match x with
    | Exited rc =>
        if negb (rc =? 0)
        then raise CRuntimeError ("Failed to execute " +:+ join " " cmd +:+ ": exit code " +:+ str_Z rc)
        else ret tt
    | TimedOut => raise CRuntimeError ("Failed to execute " +:+ join " " cmd +:+ ": timed out")
    end)).
  apply preserves_bind; [apply safe_deliver|intros _]. apply preserves_bind; [apply safe_deliver|intros _]. safe.
Qed.

Lemma safe_execute_default cmd : safe (execute_default cmd).
Proof. apply safe_execute. Qed.

Lemma safe_with_output p body : (∀ s, safe (body s)) → safe (with_output p body).
Proof. intros Hb. unfold with_output. safe. Qed.

Lemma safe_cd {A} p (body : IO A) : safe body → safe (cd p body).
Proof. intros Hb. unfold cd. safe. Qed.

Lemma safe_inplace_replace p a b : safe (inplace_replace p a b).
Proof. unfold inplace_replace. safe. Qed.

Lemma safe_copy_all_files a b o : safe (copy_all_files a b o).
Proof. unfold copy_all_files, path_exists. safe. Qed.

Lemma safe_prepdn p o : safe (prepdn p o).
Proof. unfold prepdn, path_exists. safe. Qed.

Lemma safe_find_all_files d r : safe (find_all_files d r).
Proof. unfold find_all_files. safe. Qed.

(** An object beside the process, with an invariant of its own. *)
Definition beside {O} (Q : O → Prop) (s : world * O) : Prop := world_ok s.1 ∧ Q s.2.

Lemma safe_lift {O A} (Q : O → Prop) (m : IO A) : safe m → preserves (beside Q) (lift m).
Proof. intros Hm [w ob] [Hw Hq]. specialize (Hm w Hw). unfold lift. simpl in *. by destruct (m w). Qed.

Lemma yields_lift {O A} (Q : O → Prop) (m : IO A) R : yields world_ok m R → yields (beside Q) (lift m) R.
Proof.
  intros Hm [w ob] [Hw Hq]. destruct (Hm w Hw) as [H1 H2]. unfold lift. simpl in *. by destruct (m w).
Qed.

Lemma yields_object {O O' A} (Q : O → Prop) (Q' : O' → Prop) (ob : O') (m : OM O' A) :
  Q' ob → preserves (beside Q') m → yields (beside Q) (with_object ob m) (fun r => Q' r.1).
Proof.
  intros Hob Hm [w o] [Hw Hq]. destruct (Hm (w, ob) (conj Hw Hob)) as [H1 H2]. unfold with_object. simpl in *.
  destruct (m (w, ob)) as [[a|e|c] [w' ob']]; (split; [by split|]); simpl; [|done..]. by intros r [= <-].
Qed.
End Tool.

#[export] Hint Resolve safe_execute safe_execute_default safe_inplace_replace safe_copy_all_files safe_prepdn
  safe_find_all_files : safe.

(** The same for the methods of an object. *)
Ltac osafe :=
  safe; try (match goal with
  | |- preserves _ (lift _) => apply safe_lift
  | |- preserves _ (cd _ _) => apply safe_cd
  | |- preserves _ (with_output _ _) => apply safe_with_output; intros ?
  | |- preserves _ (fail _ _) => unfold fail
  end; osafe).

(** * The tool *)

(** What the generators keep in their objects: a dictionary of well-formed APIs, and for a
    module that was found, an absolute path. *)
Definition ebpf_ok (g : EBPF_GEN) : Prop := apis_wf (list_API g).

Definition path_ok (m : option string) : Prop :=
  match m with Some p => startswith p "/" = true | None => True end.

Definition patch_ok (g : PATCH_GEN) : Prop := path_ok (default None (module_ g)).

Definition lockgen_ok (l : LockGen) : Prop :=
  match lock_ebpf l with Some g => ebpf_ok g | None => True end ∧ path_ok (patched_lock_module l).

Section Generators.
Context `{Hh : Host} `{!SoundHost Hh} (CONFIG : config).

Lemma parse_func_yields d :
  yields world_ok (parse_func d) (fun api => api_wf api ∧ Z.of_nat (length (args api)) = num_arg api ∧
                                             func_name api = d.1.2).
Proof.
  intros w Hw. split.
  - revert w Hw. change (safe (parse_func d)). destruct d as [[r n] a].
    unfold parse_func, init_api, parse_arg, add_arg. osafe.
  - intros api E. apply (parse_func_wf d w api (parse_func d w).2). by apply surjective_pairing_Ret.
Qed.

Lemma read_API_list_ok : preserves (beside ebpf_ok) (read_API_list CONFIG).
Proof.
  unfold read_API_list. apply preserves_bind; [osafe|intros lines]. apply preserves_for_each. intros d.
  apply (yields_preserves _ _ (fun _ => True)). eapply yields_bind; [apply yields_lift, parse_func_yields|].
  intros api (H1 & H2 & H3) [w g] [Hw Hg]. split; [|done]. split; [done|].
  unfold ebpf_ok. simpl. rewrite <- H3. by apply apis_wf_set.
Qed.

Lemma run_ebpf_ok : preserves (beside ebpf_ok) (run_ebpf CONFIG).
Proof.
  unfold run_ebpf, ready, check, build. osafe; simpl.
  - unfold ebpf_ready_impl, ready_makefile, ready_kern, ready_user, ready_header. osafe.
  - unfold ebpf_check_impl, print_API, get_section, check_section. osafe. apply read_API_list_ok.
  - unfold ebpf_build_impl. osafe.
Qed.

Lemma os_abspath_yields p : yields world_ok (os_abspath p) (fun q => startswith q "/" = true).
Proof.
  intros w Hw. split.
  { pose proof (frame_os_abspath (fun w => w) p w) as Hf. simpl in Hf. by rewrite Hf. }
  unfold os_abspath. destruct (startswith p "/") eqn:Hp.
  - intros q [= <-]. pose proof (abspath_absolute "/" p eq_refl) as Ha. unfold abspath in Ha.
    by rewrite join2_absolute in Ha.
  - unfold getcwd, bind, get. destruct (tget _ _) as [[]|]; [done| |done]. intros d [= <-].
    apply abspath_absolute, cwd_norm_absolute, Hw.
Qed.

Lemma patch_check_ok : preserves (beside patch_ok) patch_check_impl.
Proof.
  unfold patch_check_impl. apply preserves_bind; [osafe|intros _]. apply preserves_bind; [osafe|intros g].
  apply (yields_preserves _ _ (fun _ => True)). eapply yields_bind; [apply yields_lift, os_abspath_yields|intros q Hq].
  apply yields_after; [unfold path_exists; osafe|intros ex].
  destruct ex; (apply yields_after; [osafe|intros _]); intros [w g'] [Hw _];
    (split; [split; [done|]|done]); [exact Hq|done].
Qed.

Lemma run_patch_ok : preserves (beside patch_ok) (run_patch CONFIG).
Proof.
  unfold run_patch, ready, setup, check, build. osafe; simpl; [..|apply patch_check_ok];
    unfold patch_setup_impl, patch_ready_impl, patch_build_impl; osafe.
Qed.

Lemma check_and_gen_yields : yields (beside lockgen_ok) (_check_and_gen_ebpf CONFIG) ebpf_ok.
Proof.
  unfold _check_and_gen_ebpf. do 4 (apply yields_after; [osafe|intros ?]).
  apply yields_after; [|intros ?].
  { unfold choose_aux. osafe. }
  apply yields_after; [|intros ?].
  { unfold choose_map. osafe. }
  apply yields_after; [osafe|intros l']. eapply yields_bind.
  - apply (yields_object _ ebpf_ok); [split; constructor|apply run_ebpf_ok].
  - intros r Hr. by apply yields_ret.
Qed.

Lemma patch_kernel_yields : yields (beside lockgen_ok) (_patch_kernel CONFIG) patch_ok.
Proof.
  unfold _patch_kernel. apply yields_after; [osafe|intros l]. destruct (lock_ebpf l) as [g|].
  - eapply yields_bind; [apply (yields_object _ patch_ok); [exact I|apply run_patch_ok]|].
    intros r Hr. by apply yields_ret.
  - intros s Hs. by split.
Qed.

(** C5: the tool keeps its state well typed.  Started in a file tree in which every
    directory lists a name once and in a working directory as the system writes it, a run
    of the tool ends in such a state again, with well-formed APIs in the object of the
    eBPF generator and an absolute path for a module: when it returns, when it leaves the
    program, and when an exception goes through all phases.  Of the programs it starts,
    only that they leave such a tree. *)
Theorem generate_well_typed w l :
  world_ok w → lockgen_ok l →
  world_ok (generate_lock_code CONFIG (w, l)).2.1 ∧ lockgen_ok (generate_lock_code CONFIG (w, l)).2.2.
Proof.
  intros Hw Hl. assert (Hp : preserves (beside lockgen_ok) (generate_lock_code CONFIG)).
  { unfold generate_lock_code. apply (yields_preserves _ _ (fun _ => True)). eapply yields_bind; [apply check_and_gen_yields|].
    intros g Hg. apply yields_after; [apply preserves_modify; intros [w' l'] [? []]; by split|intros _].
    apply yields_after; [osafe|intros l1]. destruct (lock_ebpf l1) as [g'|]; [|by apply yields_ret].
    apply yields_after; [osafe|intros _]. destruct (bpfonly l1 =? 1); [by apply yields_ret|].
    eapply yields_bind; [apply patch_kernel_yields|]. intros p Hm. unfold patch_ok in Hm.
    destruct (module_ p) as [m|]; [|intros s Hs; by split]. apply yields_after.
    - apply preserves_modify. intros [w' l'] [? []]. by split.
    - intros _. destruct m; by apply yields_ret. }
  exact (Hp (w, l) (conj Hw Hl)).
Qed.
End Generators.

#[export] Instance cp_host_sound : SoundHost cp_host.
Proof.
  intros cmd d e limit t x t' o Ht. simpl. pose proof Ht as Ht'. destruct Ht' as [_ Hd].
  repeat case_match; intros [= <- <- <-]; try exact Ht;
    (eapply tput_ok; [|apply tree_wf_file|exact Ht|eassumption]; intros E; destruct t; [done|]; by rewrite E in *).
Qed.

Lemma generate_well_typed_witness :
  let r := generate_lock_code (H := cp_host) demo_config
             (demo_full, init_lockgen demo_config "/linux" "/numa" "/numa.patch" 0) in
  world_ok r.2.1 ∧ lockgen_ok r.2.2.
Proof.
  apply (generate_well_typed (Hh := cp_host)); [|done]. split; [split|]; [|reflexivity..].
  vm_compute. repeat first [split | apply (bool_decide_unpack (NoDup _)); vm_compute; exact I].
Defined.
