(* ===== verification/Pipeline.v ===== *)
(** The tool of src/concord from end to end: the phases of the two generators composed by
    the driver, around the programs they start, of which only the result of each run counts. *)

From S2P Require Import Prelude PyStr PyRe PyDict PyPath Effect Os Util Instance BpfGen LivePatch Concord.

(** * Programs that are run *)

(** The run of a command in a directory, with the environment [e], on the tree [t]: it ends with
    the status [rc] and leaves the tree [t']. *)
Definition ran `{Host} (cmd : list string) (q : list string) e (t : node) (rc : Z) (t' : node) : Prop :=
  ∃ out, spawn cmd (abs_path q) e None t = Some (Exited rc, t', out).

(** There is a directory at [q]. *)
Definition stands (q : list string) (t : node) : Prop := ∃ es, tget q t = Some (Dir es).

(** What was done from [t] to [t'] was done at [q] only, where there is a directory now. *)
Definition worked_in (q : list string) (t t' : node) : Prop := tree_wf t' ∧ same_but [q] t t' ∧ stands q t'.

(** The exception for a command that failed. *)
Definition failed_command (cmd : list string) (rc : Z) : exn :=
  Exn CRuntimeError ("Failed to execute " +:+ join " " cmd +:+ ": exit code " +:+ str_Z rc).

(** A command that ends with a status: its tree, and an exception unless the status is 0. *)
Lemma execute_exited `{Host} cmd w rc t o err :
  spawn cmd (cwd w) (env w) None (root w) = Some (Exited rc, t, (o, err)) →
  ∃ w', execute_default cmd w =
      (if rc =? 0 then Ret tt else Raise (failed_command cmd rc), w') ∧
    cwd w' = cwd w ∧ root w' = t ∧ env w' = env w ∧ log w' = log w.
Proof.
  intros E. unfold execute_default, execute. rewrite (bind_Ret _ _ _ w w) by done. rewrite E.
  rewrite (bind_Ret _ _ _ tt (set_root t w)) by done. unfold deliver.
  set (w1 := if String.eqb o "" then set_root t w else set_console (console (set_root t w) ++ [o]) (set_root t w)).
  rewrite (bind_Ret _ _ _ tt w1) by (unfold w1; by destruct (String.eqb o "")).
  set (w2 := if String.eqb err "" then w1 else set_console (console w1 ++ [err]) w1).
  rewrite (bind_Ret _ _ _ tt w2) by (unfold w2; by destruct (String.eqb err "")).
  exists w2. unfold w2, w1. split_and!;
    [by destruct (rc =? 0)|by destruct (String.eqb o ""), (String.eqb err "")..].
Qed.

(** * Where the process is *)

(** The process is in a directory, which is not at or below [q]. *)
Record place (w : world) (q : list string) : Prop := {
  pl_wf : tree_wf (root w);
  pl_norm : cwd_norm (cwd w);
  pl_cwd : stands (components (cwd w)) (root w);
  pl_away : ¬ q `prefix_of` components (cwd w)
}.

(** What a step at [q] does: it works there only, and leaves a directory there. *)
Record step_at (q : list string) (w w' : world) : Prop := {
  st_cwd : cwd w' = cwd w;
  st_env : env w' = env w;
  st_wf : tree_wf (root w');
  st_same : same_but [q] (root w) (root w');
  st_dir : stands q (root w')
}.

Lemma step_trans q w1 w2 w3 : step_at q w1 w2 → step_at q w2 w3 → step_at q w1 w3.
Proof. intros [] []. split; [congruence|congruence|done|by eapply same_but_step|done]. Qed.

Lemma step_place q p w w' : step_at q w w' → place w q → place w p → place w' p.
Proof.
  intros [Hc _ Hwf Hs [es Hd]] [_ _ _ Hq] [_ Hn [ec Hcwd] Hp]. rewrite <- Hc in Hn, Hq, Hp. split; [done..| |done].
  rewrite Hc in Hq |- *. by eapply (same_but_dirs _ _ _ _ Hs Hd).
Qed.

Lemma step_get q p w w' : step_at q w w' → apart q p → tget p (root w') = tget p (root w).
Proof. intros Hs Hp. apply (st_same _ _ _ Hs). by apply List.Forall_cons; [|apply List.Forall_nil]. Qed.

Lemma step_at_path q p w w' : step_at q w w' → apart q (resolve (cwd w) p) → at_path w' p = at_path w p.
Proof. intros Hs Hp. unfold at_path. rewrite (st_cwd _ _ _ Hs). by eapply step_get. Qed.

Lemma step_mkdirs q p w w' :
  step_at q w w' → apart q p → is_Some (tmkdirs p (root w)) → is_Some (tmkdirs p (root w')).
Proof. intros [_ _ _ Hs [es Hd]] Hp. by eapply same_but_tmkdirs. Qed.

(** Logging is no step at all. *)
Lemma step_log q w w' l : step_at q w w' → step_at q w (set_log l w').
Proof. by intros []. Qed.

(** A program run in a directory, from a directory that is still there when it is done. *)
Lemma cd_ran `{Host} w pn cmd rc t :
  let q := resolve (cwd w) pn in
  place w q → startswith pn "/" = true → (∃ es, at_path w pn = Some (Dir es)) →
  ran cmd q (env w) (root w) rc t → stands (components (cwd w)) t →
  ∃ w', cd pn (execute_default cmd) w = (if rc =? 0 then Ret tt else Raise (failed_command cmd rc), w') ∧
    cwd w' = cwd w ∧ root w' = t ∧ env w' = env w ∧ log w' = log w.
Proof.
  intros q [Hwf Hn [ec Hc] Haw] Ha [ed Hd] [[o err] E] [ec' Hc'].
  destruct (execute_exited cmd (set_cwd (abs_path q) w) rc t o err E) as (w1 & E1 & C1 & R1 & N1 & L1).
  exists (set_cwd (cwd w) w1). split_and!; [|done..].
  apply (cd_ended pn _ w ec ed _ w1 ec'); [done..|by rewrite R1].
Qed.

Lemma worked_step q t w : worked_in q (root w) t → step_at q w (set_root t w).
Proof. intros (W & K & D). by split. Qed.

(** What is in a directory has the directory above it, and the root. *)
Lemma stands_above q n k t : tget (q ++ [n]) t = Some k → stands q t.
Proof. apply tget_parent. Qed.

Lemma stands_root q t : stands q t → stands [] t.
Proof. intros [es Hd]. eapply tget_above, Hd. apply prefix_nil. Qed.

(** * The eBPF program *)

Lemma ready_inputs_step CONFIG g w w' es inc mk kern user aux mt ts :
  step_at (resolve (cwd w) (g_src g)) w w' →
  ready_inputs CONFIG g w es inc mk kern user aux mt ts → ready_inputs CONFIG g w' es inc mk kern user aux mt ts.
Proof.
  intros Hs [Hwf Ha Hn [Hne Hmk] [Hb Hbap] H1 H2 H3 H4 H5 [[m Hx] Hxap] Hmap Hpol].
  assert (Hread : ∀ p t, readable w (root w) p t ∧ apart (resolve (cwd w) (g_src g)) (resolve (cwd w) p) →
    readable w' (root w') p t ∧ apart (resolve (cwd w') (g_src g)) (resolve (cwd w') p)).
  { intros p t [[k Hk] Hp]. rewrite (st_cwd _ _ _ Hs). split; [|done]. exists k.
    rewrite (st_cwd _ _ _ Hs). by rewrite (step_get _ _ _ _ Hs Hp). }
  constructor; [apply Hs|done|done|..]; rewrite ?(st_cwd _ _ _ Hs).
  - split; [done|]. destruct (st_dir _ _ _ Hs) as [es' Hd]. apply tmkdirs_iff. intros q x k Hq.
    destruct (tget_above _ _ _ _ Hq Hd) as [? ->]. done.
  - split; [|done]. by rewrite (step_at_path _ _ _ _ Hs Hbap).
  - done.
  - done.
  - done.
  - done.
  - done.
  - rewrite <- (st_cwd _ _ _ Hs). apply Hread. split; [by exists m|done].
  - intros Hm. rewrite <- (st_cwd _ _ _ Hs). by apply Hread, Hmap.
  - rewrite <- (st_cwd _ _ _ Hs). eapply Forall2_impl; [exact Hpol|]. intros p t. apply Hread.
Qed.

(** The text of the kernel side that is generated. *)
Definition kern_text (g : EBPF_GEN) (kern mt : string) (ts : list string) : string :=
  subst_text kern "${API_CONTENTS}" (join nl (map universal_newlines (map_texts g mt ++ ts))).

Section Ebpf.
Context `{H : Host} `{!CpCopies H} (CONFIG : config) (g : EBPF_GEN).

Abbreviation src w := (resolve (cwd w) (g_src g)).

Lemma prepdn_step w p :
  let q := resolve (cwd w) p in
  tree_wf (root w) → q ≠ [] → is_Some (tmkdirs q (root w)) →
  ∃ r, prepdn p true w = (Ret tt, set_root r w) ∧ step_at q w (set_root r w) ∧ tget q r = Some (Dir []).
Proof.
  intros q Hwf Hne Hmk. destruct (prepdn_fresh w p Hwf Hne Hmk) as (r & E & Hd & _ & W & _).
  destruct (works_at_prepdn p true w) as [B _]. rewrite E in B. exists r. split_and!; [done| |done].
  split; [done|done|done|exact B|by exists []].
Qed.

Lemma ebpf_ready_step w es inc mk kern user aux mt ts :
  ready_inputs CONFIG g w es inc mk kern user aux mt ts →
  ∃ w', ready (H0 := ebpf_tool CONFIG) true (w, g) = (Ret tt, (w', g)) ∧ step_at (src w) w w' ∧
    generated g w' mk kern user aux mt ts.
Proof.
  intros Hin. pose proof Hin as [Hwf [Ha He] Hn [Hne Hmk] _ _ _ _ _ _ _ _ _].
  destruct (prepdn_step w (g_src g) Hwf Hne Hmk) as (r & E & Hs & _).
  destruct (ebpf_ready_run CONFIG g (set_root r w) es inc mk kern user aux mt ts true) as (w' & E' & G & C & N & W & K);
    [by eapply ready_inputs_step|].
  exists (set_log (log w' ++ [(INFO, "[Done] Ready")]) w'). split_and!; [| |exact G].
  - unfold ready. rewrite (bind_Ret _ _ _ g (w, g)) by reflexivity.
    erewrite (bind_Ret _ _ (w, g)) by reflexivity. rewrite andb_false_r.
    rewrite (bind_Ret _ _ _ tt (set_root r w, g)) by (by apply lift_Ret).
    rewrite guarded_run. simpl _ready_impl. by rewrite E'.
  - apply step_log. eapply step_trans; [exact Hs|]. split; [done|done|done|exact K|].
    destruct G as (G & _). unfold file_text, at_path in G. rewrite C in G.
    change (cwd (set_root r w)) with (cwd w) in G. rewrite (src_file g w Ha He "Makefile") in G by done.
    destruct (tget (src w ++ ["Makefile"]) (root w')) as [n|] eqn:En; [|done].
    by apply tget_parent in En.
Qed.

End Ebpf.

(** The sources make builds the eBPF program from, in the output directory [q]: those of the
    ready phase, the user side as the check leaves it. *)
Record prepared `{Host} (g : EBPF_GEN) (q : list string) (t : node) (mk kern user aux mt : string)
    (ts : list string) : Prop := {
  pr_makefile : ∃ m, tget (q ++ ["Makefile"]) t =
    Some (File (subst_text (subst_text mk "${POLICY_NAME}" (g_name g)) "${LINUX_SRC}" (linux_src g)) m);
  pr_kern : ∃ m, tget (q ++ [g_name g +:+ "_kern.c"]) t = Some (File (kern_text g kern mt ts) m);
  pr_user : ∃ m, tget (q ++ [g_name g +:+ "_user.c"]) t =
    Some (File (Nat.iter (length (List.filter is_maps (sections_of (universal_newlines (kern_text g kern mt ts)))))
                  map_switched
                  (subst_text (subst_text user "${NUM_POLICY}" (str_nat (length (policy_files g))))
                     "${POLICY_LIST}" (join ", " (map pin_name (policy_files g))))) m);
  pr_header : ∃ m, tget (q ++ ["include"; "concord.h"]) t = Some (File (subst_text aux "${NCPU}" (str_Z cpu_count)) m)
}.

Section EbpfBuild.
Context `{H : Host} `{!CpCopies H} (CONFIG : config) (g : EBPF_GEN).

Abbreviation src w := (resolve (cwd w) (g_src g)).

(** Up to the build. *)
Lemma ebpf_prepared w es inc mk kern user aux mt ts m :
  ready_inputs CONFIG g w es inc mk kern user aux mt ts → list_API g = [] →
  at_path w (API_PATH CONFIG) = Some (File list_APIs_h m) → apart (src w) (resolve (cwd w) (API_PATH CONFIG)) →
  forallb section_ok (sections_of (universal_newlines (kern_text g kern mt ts))) = true →
  ∃ w', (ready (H0 := ebpf_tool CONFIG) true ;; check (H0 := ebpf_tool CONFIG)) (w, g) =
      (Ret tt, (w', set_list_API own_APIs g)) ∧
    step_at (src w) w w' ∧ prepared g (src w) (root w') mk kern user aux mt ts.
Proof.
  intros Hin Hl Hapi Hap Hsec. pose proof Hin as [_ [Ha He] Hn _ _ _ _ _ _ _ _ _ _].
  destruct (ebpf_ready_step CONFIG g w es inc mk kern user aux mt ts Hin) as (w1 & E1 & S1 & G).
  pose proof (st_cwd _ _ _ S1) as C1. destruct G as (Gm & Gk & Gu & Gh & _).
  apply file_at in Gu as [mu Gu], Gm as [mm Gm], Gh as [mh Gh].
  rewrite <- (step_at_path _ _ _ _ S1 Hap) in Hapi.
  destruct (ebpf_check_run CONFIG g w1 (kern_text g kern mt ts) _ mu m Hapi Hl Gk Gu (st_wf _ _ _ S1))
    as (w2 & E2 & V & [C2 N2 W2 K2]).
  rewrite Hsec in E2, V. destruct V as [V _]. apply file_at in Gk as [mk' Gk].
  assert (Hu : plain (g_name g +:+ "_user.c") = true) by (by apply (plain_program g Hn _ "_user.c"); [|simpl; lia|]).
  assert (Hk : plain (g_name g +:+ "_kern.c") = true) by (by apply (plain_program g Hn _ "_kern.c"); [|simpl; lia|]).
  unfold at_path in Gm, Gk, Gu, Gh, V. rewrite C2, C1 in V. rewrite C1 in Gm, Gk, Gu, Gh, K2.
  rewrite (src_file g w Ha He) in Gm, Gk, V, K2 by done. rewrite (src_header g w Ha He) in Gh.
  assert (Hsame : ∀ p, apart (src w ++ [g_name g +:+ "_user.c"]) p → tget p (root w2) = tget p (root w1)).
  { intros p Hp. apply K2. by apply List.Forall_cons; [|apply List.Forall_nil]. }
  exists w2. split_and!; [by rewrite (bind_Ret _ _ _ _ _ E1)| |].
  - apply (step_trans _ _ w1); [done|]. split; [done|done|by apply W2, S1| |by apply tget_parent in V].
    eapply same_but_below; [exact K2|]. apply List.Forall_cons; [by apply prefix_app_r|apply List.Forall_nil].
  - split; [exists mm|exists mk'|exists mu|exists mh]; [|..|exact V|]; rewrite ?Hsame; try done;
      apply apart_app, apart_head; first [by apply not_eq_sym, suffix_ne | by apply suffix_ne |
        intros E%(inj (String.append _)); discriminate E].
Qed.

(** The whole generator: whatever make does on the prepared sources. *)
Lemma run_ebpf_ran w es inc mk kern user aux mt ts m :
  place w (src w) → ready_inputs CONFIG g w es inc mk kern user aux mt ts → list_API g = [] →
  at_path w (API_PATH CONFIG) = Some (File list_APIs_h m) → apart (src w) (resolve (cwd w) (API_PATH CONFIG)) →
  forallb section_ok (sections_of (universal_newlines (kern_text g kern mt ts))) = true →
  ∃ t, prepared g (src w) t mk kern user aux mt ts ∧ worked_in (src w) (root w) t ∧
    ∀ rc t', ran ["make"] (src w) (env w) t rc t' → stands (components (cwd w)) t' →
    ∃ w', run_ebpf CONFIG (w, g) = (if rc =? 0 then Ret tt else Exit 0, (w', set_list_API own_APIs g)) ∧
      cwd w' = cwd w ∧ env w' = env w ∧ root w' = t' ∧
      (rc ≠ 0 → last (log w') = Some (ERROR, "[Fail] Build")).
Proof.
  intros Hpl Hin Hl Hapi Hap Hsec. destruct (ebpf_prepared w es inc mk kern user aux mt ts m Hin Hl Hapi Hap Hsec)
    as (w2 & E2 & S2 & Hp). pose proof Hin as [_ [Ha _] _ _ _ _ _ _ _ _ _ _ _].
  exists (root w2). split; [done|]. split; [by destruct S2|]. intros rc t' Hran Hcwd.
  set (g' := set_list_API own_APIs g) in *.
  set (w3 := set_log (log w2 ++ [(INFO, "[Start] EBPF Build: compile eBPF policy...")]) w2).
  assert (S3 : step_at (src w) w w3) by by apply step_log.
  assert (C3 : resolve (cwd w3) (g_src g') = src w) by by rewrite (st_cwd _ _ _ S3).
  destruct (cd_ran w3 (g_src g') ["make"] rc t') as (w4 & E4 & C4 & R4 & N4 & L4); rewrite ?C3.
  - by eapply step_place.
  - done.
  - unfold at_path. rewrite C3. apply S3.
  - rewrite (st_env _ _ _ S3). exact Hran.
  - by rewrite (st_cwd _ _ _ S3).
  - rewrite (st_cwd _ _ _ S3) in C4. rewrite (st_env _ _ _ S3) in N4.
    exists (if rc =? 0 then set_log (log w4 ++ [(INFO, "[Done] Build")]) w4
            else set_console (console w4 ++ [emsg (failed_command ["make"] rc)])
                   (set_log (log w4 ++ [(ERROR, "[Fail] Build")]) w4)).
    split_and!; [|by destruct (rc =? 0)..|].
    + assert (Er : run_ebpf CONFIG (w, g) = build (H0 := ebpf_tool CONFIG) false (w2, g')).
      { unfold run_ebpf. rewrite <- (bind_assoc (ready true) _ _ (w, g)). by rewrite (bind_Ret _ _ _ _ _ E2). }
      rewrite Er. unfold build. rewrite guarded_run. simpl _build_impl. unfold ebpf_build_impl.
      rewrite (bind_Ret _ _ _ tt (w3, g')) by reflexivity. rewrite (bind_Ret _ _ _ g' (w3, g')) by reflexivity.
      unfold lift. cbn [fst snd]. rewrite E4. by destruct (rc =? 0).
    + intros Hrc. rewrite (proj2 (Z.eqb_neq _ _) Hrc). simpl. by rewrite last_snoc.
Qed.
End EbpfBuild.

(** * The live patch *)

(** The patch of the user and the output directory, apart from each other. *)
Record patch_source (p : PATCH_GEN) (w : world) (lp y : string) : Prop := {
  ps_place : place w (resolve (cwd w) (l_src p));
  ps_abs : startswith (l_src p) "/" = true ∧ endswith (l_src p) "/" = false;
  ps_mkdirs : resolve (cwd w) (l_src p) ≠ [] ∧ is_Some (tmkdirs (resolve (cwd w) (l_src p)) (root w));
  ps_patch : livepatch p = Some lp ∧ startswith lp "/" = true ∧ ∃ m, at_path w lp = Some (File y m);
  ps_apart : apart (resolve (cwd w) (l_src p)) (resolve (cwd w) lp)
}.

Lemma patch_source_step q p w w' lp y :
  step_at q w w' → place w q → apart q (resolve (cwd w) (l_src p)) → apart q (resolve (cwd w) lp) →
  patch_source p w lp y → patch_source p w' lp y.
Proof.
  intros St Hq Hp Hl [H1 H2 [H3 H4] (H5 & H6 & [m H7]) H8]. split; rewrite ?(st_cwd _ _ _ St); [|done| | |done].
  - by eapply step_place.
  - split; [done|by eapply step_mkdirs].
  - split_and!; [done..|]. exists m. by rewrite (step_at_path _ _ _ _ St Hl).
Qed.

(** What the generator of the live patch works on: the kernel sources, the header, and the
    patch of the user, which are apart from each other. *)
Record patch_inputs (p : PATCH_GEN) (w : world) (x lp y : string) : Prop := {
  pi_linux : place w (resolve (cwd w) (p_linux_src p));
  pi_linux_abs : startswith (p_linux_src p) "/" = true ∧ endswith (p_linux_src p) "/" = false;
  pi_include : ∃ es, tget (resolve (cwd w) (p_linux_src p) ++ ["include"; "linux"]) (root w) = Some (Dir es);
  pi_free : ∀ es, tget (resolve (cwd w) (p_linux_src p) ++ ["include"; "linux"; "lock_policy.h"]) (root w) ≠
                  Some (Dir es);
  pi_aux : startswith (p_aux_data p) "/" = true ∧ ∃ m, at_path w (p_aux_data p) = Some (File x m);
  pi_source : patch_source p w lp y;
  pi_apart : apart (resolve (cwd w) (p_linux_src p)) (resolve (cwd w) (p_aux_data p)) ∧
             apart (resolve (cwd w) (p_linux_src p)) (resolve (cwd w) (l_src p)) ∧
             apart (resolve (cwd w) (p_linux_src p)) (resolve (cwd w) lp)
}.

(** The text of the patch that is built. *)
Definition patch_text `{Host} (y : string) : string := replaced y "${NCPU}" (str_Z cpu_count).

(** What the two builds start from: the header of the policies among the kernel sources at [K],
    the patch in the output directory [P], both with the processor count filled in, and no
    module yet. *)
Record patch_prepared `{Host} (K P : list string) (t : node) (x y : string) : Prop := {
  pp_header : ∃ m, tget (K ++ ["include"; "linux"; "lock_policy.h"]) t = Some (File (patch_text x) m);
  pp_patch : ∃ m, tget (P ++ [KPATCH_RESULT]) t = Some (File (patch_text y) m);
  pp_fresh : tget (P ++ [KPATCH_MODULE]) t = None
}.

Section Patch.
Context `{H : Host} (CONFIG : config) (p : PATCH_GEN).

Abbreviation linux w := (resolve (cwd w) (p_linux_src p)).
Abbreviation src w := (resolve (cwd w) (l_src p)).

Lemma patch_setup_step `{!CpCopies H} w x lp y :
  patch_inputs p w x lp y →
  ∃ w' m, setup (H0 := patch_tool CONFIG) false (w, p) = (Ret tt, (w', p)) ∧ step_at (linux w) w w' ∧
    tget (linux w ++ ["include"; "linux"; "lock_policy.h"]) (root w') = Some (File (patch_text x) m).
Proof.
  intros [[Hwf Hn Hc _] [Ha He] [es Hi] Hf (Hs & [m Hx]) _ (Hap & _)].
  assert (Hd : stands (linux w) (root w)) by (eapply tget_above; [|exact Hi]; by apply prefix_app_r).
  destruct (patch_setup_run w p false x m es) as (w' & m' & E & C & T & K & W & D & N).
  - by split.
  - done.
  - done.
  - intros E. destruct Hap as [Hap _]. apply Hap. rewrite E. by apply prefix_app_r.
  - done.
  - done.
  - exists (set_log (log w' ++ [(INFO, "[Done] Setup")]) w'), m'. split_and!; [| |exact T].
    + unfold setup. rewrite guarded_run. simpl _setup_impl. by rewrite E.
    + apply step_log. split; [done|done|done| |].
      * eapply same_but_below; [exact K|]. apply List.Forall_cons; [by apply prefix_app_r|apply List.Forall_nil].
      * destruct Hd as [es0 Hd]. by eapply D.
Qed.

Lemma patch_ready_step `{!CpCopies H} w lp y :
  patch_source p w lp y →
  ∃ w' m, ready (H0 := patch_tool CONFIG) true (w, p) = (Ret tt, (w', p)) ∧ step_at (src w) w w' ∧
    tget (src w ++ [KPATCH_RESULT]) (root w') = Some (File (patch_text y) m) ∧
    tget (src w ++ [KPATCH_MODULE]) (root w') = None.
Proof.
  intros [[Hwf Hn Hc Haw] [Ha He] [Hne Hmk] (Hlp & Hs & [m Hy]) Hap].
  destruct (patch_ready_run CONFIG w p lp y m Hlp Hwf Hn Hc Haw Ha He Hne Hmk Hs Hy Hap)
    as (w' & m' & E & C & T & K & W & D & N & Ne). by exists w', m'.
Qed.

(** Up to the builds. *)
Lemma patch_prepare `{!CpCopies H} w x lp y :
  patch_inputs p w x lp y →
  ∃ w', (setup (H0 := patch_tool CONFIG) false ;; ready (H0 := patch_tool CONFIG) true) (w, p) =
      (Ret tt, (w', p)) ∧
    cwd w' = cwd w ∧ env w' = env w ∧ patch_prepared (linux w) (src w) (root w') x y ∧
    same_but [linux w; src w] (root w) (root w') ∧ place w' (linux w) ∧ place w' (src w) ∧
    stands (linux w) (root w').
Proof.
  intros Hi. destruct (patch_setup_step w x lp y Hi) as (w1 & mh & E1 & S1 & Th).
  destruct Hi as [Hl _ _ _ _ Hsrc (_ & Ap2 & Ap3)]. pose proof (ps_place _ _ _ _ Hsrc) as Hs.
  pose proof (st_cwd _ _ _ S1) as C1. pose proof (st_env _ _ _ S1) as N1.
  destruct (patch_ready_step w1 lp y) as (w2 & m & E2 & S2 & Ht & Hnew); [by eapply patch_source_step|].
  rewrite C1 in S2, Ht, Hnew.
  pose proof (step_place _ _ _ _ S1 Hl Hl) as Hl1. pose proof (step_place _ _ _ _ S1 Hl Hs) as Hs1.
  exists w2. split_and!.
  - by rewrite (bind_Ret _ _ _ _ _ E1).
  - rewrite <- C1. apply S2.
  - rewrite <- N1. apply S2.
  - split; [|by exists m|done]. exists mh. rewrite (step_get _ _ _ _ S2); [done|].
    by apply apart_sym, apart_below.
  - apply (same_but_trans [_] [_] _ (root w1)); [apply S1|apply S2].
  - by eapply step_place.
  - by eapply step_place.
  - unfold stands. rewrite (step_get _ _ _ _ S2) by by apply apart_sym. apply S1.
Qed.

(** The two builds, the kernel and then the module of the patch, when the first one succeeds. *)
Lemma patch_build_ran w t rc t' :
  place w (linux w) → place w (src w) → startswith (p_linux_src p) "/" = true →
  stands (linux w) (root w) → startswith (l_src p) "/" = true →
  ran ["make"; "-j"; str_Z (NCPU CONFIG)] (linux w) (env w) (root w) 0 t →
  stands (components (cwd w)) t → stands (src w) t →
  ran (kpatch_cmd CONFIG p) (src w) (env w) t rc t' → stands (components (cwd w)) t' →
  ∃ w', build (H0 := patch_tool CONFIG) false (w, p) = (if rc =? 0 then Ret tt else Exit 0, (w', p)) ∧
    cwd w' = cwd w ∧ root w' = t' ∧ (rc ≠ 0 → last (log w') = Some (ERROR, "[Fail] Build")).
Proof.
  intros Hl Hs Hla Hld Hsa Hmake [ec Hc] [es Hd] [[o err] Ek] [ec' Hc'].
  set (w0 := set_log (log w ++ [(INFO, "[Start] Build: compile livepatch module...")]) w).
  destruct (cd_ran w0 (p_linux_src p) ["make"; "-j"; str_Z (NCPU CONFIG)] 0 t) as (w1 & E1 & C1 & R1 & N1 & L1);
    [by destruct Hl|done|done|exact Hmake|by exists ec|].
  change (cwd w0) with (cwd w) in C1. change (env w0) with (env w) in N1. cbn [Z.eqb] in E1.
  set (w2 := set_log ((log w1 ++ [(DEBUG, repr_list (kpatch_cmd CONFIG p))]) ++
               [(WARNING, "This might take time! kpatch builds kernel twice")]) (set_cwd (abs_path (src w)) w1)).
  destruct (execute_exited (kpatch_cmd CONFIG p) w2 rc t' o err) as (w3 & E3 & _ & R3 & _ & _).
  { simpl. by rewrite R1, N1. }
  set (o3 := if rc =? 0 then Ret tt else Raise (failed_command (kpatch_cmd CONFIG p) rc)) in *.
  assert (E4 : cd (l_src p) (logging DEBUG (repr_list (kpatch_cmd CONFIG p)) ;;
      logging WARNING "This might take time! kpatch builds kernel twice" ;;
      execute_default (kpatch_cmd CONFIG p)) w1 = (o3, set_cwd (cwd w1) w3)).
  { apply (cd_ended (l_src p) _ w1 ec es _ w3 ec'); rewrite ?C1, ?R1, ?R3; [apply Hs|done|done| | |done].
    - unfold at_path. by rewrite C1, R1.
    - by rewrite (bind_Ret _ _ _ tt (set_log (log w1 ++ [(DEBUG, repr_list (kpatch_cmd CONFIG p))])
                    (set_cwd (abs_path (src w)) w1))), (bind_Ret _ _ _ tt w2) by reflexivity. }
  set (w4 := set_cwd (cwd w1) w3) in *.
  exists (if rc =? 0 then set_log (log w4 ++ [(INFO, "[Done] Build")]) w4
          else set_console (console w4 ++ [emsg (failed_command (kpatch_cmd CONFIG p) rc)])
                 (set_log (log w4 ++ [(ERROR, "[Fail] Build")]) w4)).
  split_and!; [|by destruct (rc =? 0)..|intros Hrc; rewrite (proj2 (Z.eqb_neq _ _) Hrc); simpl; by rewrite last_snoc].
  unfold build. rewrite guarded_run. simpl _build_impl. unfold patch_build_impl.
  rewrite (bind_Ret _ _ _ tt (w0, p)) by reflexivity. rewrite (bind_Ret _ _ _ p (w0, p)) by reflexivity.
  unfold lift. cbn [fst snd]. rewrite (bind_Ret _ _ _ _ _ E1), E4. unfold o3. by destruct (rc =? 0).
Qed.

(** The path under which a module is found. *)
Definition module_path (w : world) : string := abspath (cwd w) (join2 (l_src p) KPATCH_MODULE).

Lemma at_module_path w :
  cwd_norm (cwd w) → startswith (l_src p) "/" = true → endswith (l_src p) "/" = false →
  at_path w (module_path w) = tget (src w ++ [KPATCH_MODULE]) (root w).
Proof.
  intros Hn Ha He. unfold at_path, module_path. rewrite resolve_abspath by by apply cwd_norm_absolute.
  f_equal. apply (resolve_below (cwd w) (l_src p) [KPATCH_MODULE] Ha He); [done|by repeat constructor].
Qed.

(** Whether there is a module, and what the check makes of it. *)
Definition built (P : list string) (t : node) : bool := bool_decide (is_Some (tget (P ++ [KPATCH_MODULE]) t)).

Lemma built_module P t k : tget (P ++ [KPATCH_MODULE]) t = Some k → built P t = true.
Proof. intros Hk. unfold built. by rewrite Hk. Qed.

Lemma patch_check_step w :
  cwd_norm (cwd w) → stands (components (cwd w)) (root w) →
  startswith (l_src p) "/" = true → endswith (l_src p) "/" = false →
  ∃ w', check (H0 := patch_tool CONFIG) (w, p) =
      (Ret tt, (w', set_module (if built (src w) (root w) then Some (module_path w) else None) p)) ∧
    cwd w' = cwd w ∧ root w' = root w.
Proof.
  intros Hn [es Hc] Ha He.
  set (b := built (src w) (root w)).
  set (w0 := set_log (log w ++ [(INFO, "[Start] Check: Checking livepatch ...")]) w).
  set (w1 := set_log (log w0 ++ [if b then (DEBUG, "Found module: " +:+ module_path w)
                                 else (ERROR, "Compiled module not found")]) w0).
  exists (set_log (log w1 ++ [(INFO, "[Done] Check")]) w1). split_and!; [|done|done].
  unfold check. rewrite guarded_run. simpl _check_impl. unfold patch_check_impl.
  rewrite (bind_Ret _ _ _ tt (w0, p)) by reflexivity. rewrite (bind_Ret _ _ _ p (w0, p)) by reflexivity.
  rewrite (bind_Ret _ _ _ (module_path w) (w0, p)) by (apply lift_Ret; exact (os_abspath_Ret _ w0 es Hc)).
  rewrite (bind_Ret _ _ _ b (w0, p)); [unfold w1; by destruct b|]. apply lift_Ret.
  unfold path_exists, gets, b, built. rewrite <- at_module_path by done.
  change (at_path w0 (module_path w)) with (at_path w (module_path w)).
  by destruct (at_path w (module_path w)).
Qed.

(** The whole generator: whatever kpatch-build does once the kernel is built. *)
Lemma run_patch_ran `{!CpCopies H} w x lp y :
  patch_inputs p w x lp y →
  ∃ t, patch_prepared (linux w) (src w) t x y ∧ same_but [linux w; src w] (root w) t ∧
    ∀ t', ran ["make"; "-j"; str_Z (NCPU CONFIG)] (linux w) (env w) t 0 t' →
      stands (components (cwd w)) t' → stands (src w) t' →
    ∀ rc t'', ran (kpatch_cmd CONFIG p) (src w) (env w) t' rc t'' → stands (components (cwd w)) t'' →
    ∃ w', run_patch CONFIG (w, p) =
        (if rc =? 0 then Ret tt else Exit 0,
         (w', if rc =? 0 then set_module (if built (src w) t'' then Some (module_path w) else None) p else p)) ∧
      cwd w' = cwd w ∧ root w' = t'' ∧ (rc ≠ 0 → last (log w') = Some (ERROR, "[Fail] Build")).
Proof.
  intros Hi. destruct (patch_prepare w x lp y Hi) as (w2 & E2 & C2 & N2 & Hp & K & Pl & Ps & D).
  destruct Hi as [_ [Hla _] _ _ _ Hsrc _]. destruct (ps_abs _ _ _ _ Hsrc) as [Ha He].
  exists (root w2). split; [done|]. split; [done|]. intros t' R1 D1 D2 rc t'' R2 D3.
  destruct (patch_build_ran w2 t' rc t'') as (w3 & E3 & C3 & R3 & L3); rewrite ?C2, ?N2; [done..|].
  rewrite C2 in C3. unfold run_patch.
  rewrite <- (bind_assoc (setup false) _ _ (w, p)), (bind_Ret _ _ _ _ _ E2). destruct (rc =? 0) eqn:Hrc.
  - rewrite (bind_Ret _ _ _ _ _ E3).
    destruct (patch_check_step w3) as (w4 & E4 & C4 & R4); rewrite ?C3, ?R3; [|done..|].
    { rewrite <- C2. apply Ps. }
    rewrite R3, C3 in E4. unfold module_path in E4 |- *. rewrite C3 in E4. exists w4. split_and!; [done|congruence..|].
    apply Z.eqb_eq in Hrc. done.
  - rewrite (bind_Exit _ _ _ _ _ E3). by exists w3.
Qed.
End Patch.

Lemma patch_inputs_step q p w w' x lp y :
  step_at q w w' → place w q → apart q (resolve (cwd w) (p_linux_src p)) → apart q (resolve (cwd w) (l_src p)) →
  apart q (resolve (cwd w) (p_aux_data p)) → apart q (resolve (cwd w) lp) →
  patch_inputs p w x lp y → patch_inputs p w' x lp y.
Proof.
  intros St Hq H1 H2 H3 H4 [P1 P2 [es P3] P4 (P5 & [m P6]) P7 P8].
  split; rewrite ?(st_cwd _ _ _ St); [by eapply step_place|done| | | |by eapply patch_source_step|done].
  - exists es. rewrite (step_get _ _ _ _ St); [done|]. by apply apart_sym, apart_below, apart_sym.
  - intros es'. rewrite (step_get _ _ _ _ St); [done|]. by apply apart_sym, apart_below, apart_sym.
  - split; [done|]. exists m. by rewrite (step_at_path _ _ _ _ St H3).
Qed.

(** * The driver *)

(** The directories of the generators: below the one for outputs, and apart. *)
Lemma init_instance_src CONFIG d prog n :
  startswith (PATH_OUTS CONFIG) "/" = true → endswith (PATH_OUTS CONFIG) "/" = false →
  plain (basename n) = true → plain prog = true →
  let s := path_src (init_instance CONFIG prog n) in
  resolve d s = resolve d (PATH_OUTS CONFIG) ++ [basename n; prog] ∧
  startswith s "/" = true ∧ endswith s "/" = false.
Proof. intros Ha He Hn Hp. by apply resolve_below2. Qed.

Section Driver.
Context `{H : Host} `{!CpCopies H} (CONFIG : config) (w : world) (l : LockGen).
Context (pfiles maps headers : list string).

(** The header and the map file the driver chooses, and the generators it makes. *)
Definition chosen_aux : string := match headers with a :: _ => a | [] => lg_aux_data l end.
Definition chosen_map : string := match maps with [m] => m | _ => "" end.

Definition driver_ebpf : EBPF_GEN :=
  init_ebpf_gen CONFIG (policy_dir l) (lg_linux_src l) pfiles chosen_map chosen_aux.

Definition driver_patch : PATCH_GEN :=
  init_patch_gen CONFIG (splitext (basename (lg_livepatch l))).1 (lg_linux_src l) (g_name driver_ebpf)
    chosen_aux (Some (lg_livepatch l)).

Abbreviation ebpf_dir := (resolve (cwd w) (g_src driver_ebpf)).
Abbreviation patch_dir := (resolve (cwd w) (l_src driver_patch)).
Abbreviation linux_dir := (resolve (cwd w) (lg_linux_src l)).

(** A policy directory and a checkout from which the eBPF program can be built: at most one
    header; the skeletons, the policies and the API list of the repository in their places,
    outside the directory that is written; and sections the check knows. *)
Record policy_inputs es inc mk kern user aux mt ts m : Prop := {
  po_pfiles : find_all_files (policy_dir l) (Some pfile_re) w = (Ret pfiles, w);
  po_maps : find_all_files (policy_dir l) (Some map_re) w = (Ret maps, w);
  po_headers : find_all_files (policy_dir l) (Some header_re) w = (Ret headers, w);
  po_one : (length headers ≤ 1)%nat;
  po_place : place w ebpf_dir;
  po_ready : ready_inputs CONFIG driver_ebpf w es inc mk kern user aux mt ts;
  po_apis : at_path w (API_PATH CONFIG) = Some (File list_APIs_h m) ∧
            apart ebpf_dir (resolve (cwd w) (API_PATH CONFIG));
  po_sections : forallb section_ok (sections_of (universal_newlines (kern_text driver_ebpf kern mt ts))) = true
}.

(** The object once its files are chosen. *)
Definition chosen : LockGen := set_map_file chosen_map (set_aux_data chosen_aux l).

(** The choice of the files and the eBPF program. *)
Lemma check_and_gen_ran es inc mk kern user aux mt ts m :
  policy_inputs es inc mk kern user aux mt ts m →
  ∃ t, prepared driver_ebpf ebpf_dir t mk kern user aux mt ts ∧ worked_in ebpf_dir (root w) t ∧
    ∀ rc t', ran ["make"] ebpf_dir (env w) t rc t' → stands (components (cwd w)) t' →
    ∃ w', _check_and_gen_ebpf CONFIG (w, l) =
        (if rc =? 0 then Ret (set_list_API own_APIs driver_ebpf) else Exit 0, (w', chosen)) ∧
      cwd w' = cwd w ∧ env w' = env w ∧ root w' = t' ∧
      (rc ≠ 0 → last (log w') = Some (ERROR, "[Fail] Build")).
Proof.
  intros [F1 F2 F3 Hone Hpl Hin [Hapi Hap] Hsec].
  destruct (run_ebpf_ran CONFIG driver_ebpf w es inc mk kern user aux mt ts m Hpl Hin eq_refl Hapi Hap Hsec)
    as (t & Hp & Hw & Hr). exists t. split; [done|]. split; [done|]. intros rc t' R1 D1.
  destruct (Hr rc t' R1 D1) as (w' & E & Hc & Hn & Ht & Hl). exists w'. split; [|done].
  unfold _check_and_gen_ebpf. rewrite (bind_Ret _ _ _ l (w, l)) by reflexivity.
  rewrite (bind_Ret _ _ _ pfiles (w, l)) by by apply lift_Ret.
  rewrite (bind_Ret _ _ _ maps (w, l)) by by apply lift_Ret.
  rewrite (bind_Ret _ _ _ headers (w, l)) by by apply lift_Ret.
  assert (Hx : choose_aux headers (w, l) = (Ret tt, (w, set_aux_data chosen_aux l))).
  { unfold chosen_aux. destruct headers as [|a [|b hs]]; simpl in Hone |- *; [by destruct l|done|lia]. }
  rewrite (bind_Ret _ _ _ _ _ Hx). rewrite (bind_Ret _ _ _ _ _ (choose_map_Ret maps headers w _ Hone)).
  fold chosen_map chosen. rewrite (bind_Ret _ _ _ chosen (w, chosen)) by reflexivity.
  unfold bind, with_object. simpl. fold driver_ebpf. rewrite E. by destruct (rc =? 0).
Qed.

Abbreviation with_ebpf := (set_lock_ebpf (set_list_API own_APIs driver_ebpf) chosen).

(** What the driver does after that. *)
Lemma generate_after w1 :
  _check_and_gen_ebpf CONFIG (w, l) = (Ret (set_list_API own_APIs driver_ebpf), (w1, chosen)) →
  let w2 := set_log (log w1 ++ [(INFO, str_Z (bpfonly l))]) w1 in
  generate_lock_code CONFIG (w, l) =
    if bpfonly l =? 1 then (Ret 0, (w2, with_ebpf))
    else let (o, s) := run_patch CONFIG (w2, driver_patch) in
         match o with
         | Ret _ => match module_ s.2 with
                    | None =>
                        (Raise (Exn CAttributeError "'PATCH_GEN' object has no attribute 'module'"), (s.1, with_ebpf))
                    | Some mo => (Ret match mo with Some _ => 0 | None => -1 end, (s.1, set_patched mo with_ebpf))
                    end
         | Raise e => (Raise e, (s.1, with_ebpf))
         | Exit c => (Exit c, (s.1, with_ebpf))
         end.
Proof.
  intros E w2. unfold generate_lock_code. rewrite (bind_Ret _ _ _ _ _ E).
  rewrite (bind_Ret _ _ _ tt (w1, with_ebpf)) by reflexivity. rewrite (bind_Ret _ _ _ with_ebpf (w1, with_ebpf)) by reflexivity.
  cbn [lock_ebpf set_lock_ebpf]. change (bpfonly with_ebpf) with (bpfonly l).
  rewrite (bind_Ret _ _ _ tt (w2, with_ebpf)) by reflexivity. destruct (bpfonly l =? 1); [done|].
  unfold _patch_kernel. rewrite bind_assoc, (bind_Ret self _ _ with_ebpf (w2, with_ebpf)) by reflexivity.
  cbn [lock_ebpf set_lock_ebpf]. unfold bind, with_object. cbn [fst snd].
  match goal with |- context [run_patch CONFIG (w2, ?p0)] => change p0 with driver_patch end.
  destruct (run_patch CONFIG (w2, driver_patch)) as [[u|e|c] [w3 p3]]; [|done..].
  simpl. by destruct (module_ p3) as [[|]|].
Qed.

(** The files read from the tree are those of any process at the same place. *)
Lemma patch_inputs_same p w1 w2 x lp y :
  cwd w2 = cwd w1 → root w2 = root w1 → patch_inputs p w1 x lp y → patch_inputs p w2 x lp y.
Proof.
  intros Hc Hr [Hl P1 P2 P3 P4 [Hs Q1 Q2 Q3 Q4] P5].
  assert (Ha : ∀ q, at_path w2 q = at_path w1 q) by (intros q; unfold at_path; by rewrite Hc, Hr).
  assert (Hpl : ∀ q, place w1 q → place w2 q) by (intros q []; by split; rewrite ?Hc, ?Hr).
  split; [..|split|]; rewrite ?Hc, ?Hr, ?Ha; auto.
Qed.

(** The driver when a module is asked for, around the three programs it starts. *)
Lemma generate_ran es inc mk kern user aux mt ts m x y :
  policy_inputs es inc mk kern user aux mt ts m → bpfonly l ≠ 1 →
  ∃ t1, prepared driver_ebpf ebpf_dir t1 mk kern user aux mt ts ∧ worked_in ebpf_dir (root w) t1 ∧
    ∀ t1', ran ["make"] ebpf_dir (env w) t1 0 t1' →
      patch_inputs driver_patch (set_root t1' w) x (lg_livepatch l) y →
    ∃ t2, patch_prepared linux_dir patch_dir t2 x y ∧ same_but [linux_dir; patch_dir] t1' t2 ∧
    ∀ t2', ran ["make"; "-j"; str_Z (NCPU CONFIG)] linux_dir (env w) t2 0 t2' →
      stands (components (cwd w)) t2' → stands patch_dir t2' →
    ∀ rc t3, ran (kpatch_cmd CONFIG driver_patch) patch_dir (env w) t2' rc t3 → stands (components (cwd w)) t3 →
    ∃ w' l', generate_lock_code CONFIG (w, l) =
        (if rc =? 0 then Ret (if built patch_dir t3 then 0 else -1) else Exit 0, (w', l')) ∧
      cwd w' = cwd w ∧ root w' = t3 ∧ (rc ≠ 0 → last (log w') = Some (ERROR, "[Fail] Build")).
Proof.
  intros Hin Hb. destruct (check_and_gen_ran _ _ _ _ _ _ _ _ _ Hin) as (t1 & Hp & Hw & Hr).
  exists t1. split; [done|]. split; [done|]. intros t1' R1 Hpi.
  destruct (Hr 0 t1' R1 (pl_cwd _ _ (pi_linux _ _ _ _ _ Hpi))) as (w1 & E1 & C1 & N1 & T1 & _).
  set (w2 := set_log (log w1 ++ [(INFO, str_Z (bpfonly l))]) w1).
  destruct (run_patch_ran CONFIG driver_patch w2 x (lg_livepatch l) y) as (t2 & Hp2 & K2 & Hr2).
  { by apply (patch_inputs_same _ (set_root t1' w)). }
  change (cwd w2) with (cwd w1) in Hp2, K2, Hr2. change (env w2) with (env w1) in Hr2.
  change (root w2) with (root w1) in K2. rewrite C1 in Hp2, K2, Hr2. rewrite N1 in Hr2. rewrite T1 in K2.
  exists t2. split; [done|]. split; [done|]. intros t2' R2 D1 D2 rc t3 R3 D3.
  destruct (Hr2 t2' R2 D1 D2 rc t3 R3 D3) as (w3 & E3 & C3 & T3 & L3).
  rewrite (generate_after w1 E1). fold w2. rewrite E3, (proj2 (Z.eqb_neq _ _) Hb).
  destruct (rc =? 0); [|by eexists w3, _]. destruct (built patch_dir t3); by eexists w3, _.
Qed.
End Driver.

(** ** The program *)

(** The settings of the logger have no part in any of this. *)
Definition with_logging (n : list (level * string)) (h : list handler) (v : level) (w : world) : world :=
  set_log_level v (set_handlers h (set_level_names n w)).

Lemma find_all_files_logging d r v n h lv w :
  find_all_files d r w = (Ret v, w) →
  find_all_files d r (with_logging n h lv w) = (Ret v, with_logging n h lv w).
Proof.
  unfold find_all_files. rewrite !(bind_Ret _ _ _ _ _ (eq_refl : get _ = (Ret _, _))).
  unfold ret. by intros [= <-].
Qed.

Lemma policy_inputs_logging `{Host} CONFIG w l pfiles maps headers n h v es inc mk kern user aux mt ts m :
  policy_inputs CONFIG w l pfiles maps headers es inc mk kern user aux mt ts m →
  policy_inputs CONFIG (with_logging n h v w) l pfiles maps headers es inc mk kern user aux mt ts m.
Proof.
  intros [F1 F2 F3 H1 [] [] H2 H3].
  constructor; [by apply find_all_files_logging..|done|by constructor|by constructor|done|done].
Qed.

(** What [main] does once the command line is read. *)
Lemma main_accepted `{Host} CONFIG argv args w :
  (parse_args argv w).1 = Ret args →
  ∃ n h v, main CONFIG argv w =
      (do r <- run_lockgen CONFIG (lockgen_of CONFIG args); ret (if negb (r =? 1) then Some r else None))
        (with_logging n h v w) ∧
    (handlers w = [] → v = LOG_LEVEL (a_verbose args)).
Proof.
  intros Hp. pose proof (frame_parse (fun w => w) argv w) as Hf. unfold main.
  destruct (parse_args argv w) as [o w1] eqn:E. simpl in Hp, Hf. subst o w1. rewrite (bind_Ret _ _ _ _ _ E).
  destruct (coloring_run w) as [n En]. rewrite (bind_Ret _ _ _ _ _ En).
  destruct (basicConfig_run (LOG_LEVEL (a_verbose args)) (set_level_names n w)) as (h & v & Eb & Hv).
  rewrite (bind_Ret _ _ _ _ _ Eb). by exists n, h, v.
Qed.

(** C1: from a policy to a kernel module.  On a machine whose cp copies files, with a policy
    directory and a checkout in place, the program run without the option for eBPF only writes
    the sources of the eBPF program into its output directory and nothing else before it
    starts make there.  If make succeeds and
    leaves the kernel sources and the patch of the user in place, the header of the policies
    among the kernel sources and the patch in its output directory are what changes next,
    both with the processor count filled in, and no module of an earlier run is left.  If make
    succeeds in the kernel sources and leaves the two directories the program returns to, and
    kpatch-build ends with a status and leaves the working directory, then the tree at the end
    is the one kpatch-build leaves, and the status is 0 when kpatch-build
    succeeds with a module at its place, 255 when it succeeds without one, and 0 again when it
    fails, with the failed phase logged.  The process is back in its working directory. *)
Theorem main_builds `{H : Host} `{!CpCopies H} CONFIG w argv args pfiles maps headers
    es inc mk kern user aux mt ts m x y :
  let l := lockgen_of CONFIG args in
  let g := driver_ebpf CONFIG l pfiles maps headers in
  let p := driver_patch CONFIG l pfiles maps headers in
  let E := resolve (cwd w) (g_src g) in
  let K := resolve (cwd w) (lg_linux_src l) in
  let P := resolve (cwd w) (l_src p) in
  (parse_args argv w).1 = Ret args → a_bpfonly args ≠ 1 →
  policy_inputs CONFIG w l pfiles maps headers es inc mk kern user aux mt ts m →
  ∃ t1, prepared g E t1 mk kern user aux mt ts ∧ worked_in E (root w) t1 ∧
  ∀ t1', ran ["make"] E (env w) t1 0 t1' → patch_inputs p (set_root t1' w) x (lg_livepatch l) y →
  ∃ t2, patch_prepared K P t2 x y ∧ same_but [K; P] t1' t2 ∧
  ∀ t2', ran ["make"; "-j"; str_Z (NCPU CONFIG)] K (env w) t2 0 t2' →
    stands (components (cwd w)) t2' → stands P t2' →
  ∀ rc t3, ran (kpatch_cmd CONFIG p) P (env w) t2' rc t3 → stands (components (cwd w)) t3 →
  ∃ w', main CONFIG argv w = (if rc =? 0 then Ret (Some (if built P t3 then 0 else -1)) else Exit 0, w') ∧
    exit_status CONFIG argv w = (if rc =? 0 then if built P t3 then 0 else 255 else 0) ∧
    root w' = t3 ∧ cwd w' = cwd w ∧ (rc ≠ 0 → last (log w') = Some (ERROR, "[Fail] Build")).
Proof.
  intros l g p E K P Hp Hb Hin. destruct (main_accepted CONFIG argv args w Hp) as (n & h & v & Em & _).
  destruct (generate_ran CONFIG (with_logging n h v w) l pfiles maps headers es inc mk kern user aux mt ts m x y)
    as (t1 & Hp1 & Hw1 & Hr1); [by apply policy_inputs_logging|done|].
  exists t1. split; [done|]. split; [done|]. intros t1' R1 Hpi.
  destruct (Hr1 t1' R1) as (t2 & Hp2 & K2 & Hr2); [by apply (patch_inputs_same _ (set_root t1' w))|].
  exists t2. split; [done|]. split; [done|]. intros t2' R2 D1 D2 rc t3 R3 D3.
  destruct (Hr2 t2' R2 D1 D2 rc t3 R3 D3) as (w' & l' & Eg & Hc & Ht & Hl).
  exists w'. unfold exit_status. rewrite Em. unfold run_lockgen, bind. fold l. rewrite Eg.
  fold p P. change (cwd (with_logging n h v w)) with (cwd w) in *. fold P.
  split_and!; [| |done..]; destruct (rc =? 0); [by destruct (built P t3)|done|by destruct (built P t3)|done].
Qed.

(** C2: for eBPF only.  Run with the option for it, on a machine whose cp copies files, with a
    policy directory and a checkout in place, the program writes the sources of the eBPF
    program into its output directory and changes nothing else before it starts make there.
    With whatever status make ends there, if it leaves the working directory of the process,
    the tree at the end is the one make leaves, so that nothing is done to the kernel sources
    and no live patch is made after it; the process is back in its working directory, and ends
    with status 0: by a return after a make that succeeded, and by the exit of the failed
    phase, logged as the last record, after one that did not. *)
Theorem main_ebpf_only `{H : Host} `{!CpCopies H} CONFIG w argv args pfiles maps headers
    es inc mk kern user aux mt ts m :
  let l := lockgen_of CONFIG args in
  let g := driver_ebpf CONFIG l pfiles maps headers in
  let E := resolve (cwd w) (g_src g) in
  (parse_args argv w).1 = Ret args → a_bpfonly args = 1 →
  policy_inputs CONFIG w l pfiles maps headers es inc mk kern user aux mt ts m →
  ∃ t, prepared g E t mk kern user aux mt ts ∧ worked_in E (root w) t ∧
  ∀ rc t', ran ["make"] E (env w) t rc t' → stands (components (cwd w)) t' →
  ∃ w', main CONFIG argv w = (if rc =? 0 then Ret (Some 0) else Exit 0, w') ∧ exit_status CONFIG argv w = 0 ∧
    root w' = t' ∧ cwd w' = cwd w ∧
    last (log w') = Some (if rc =? 0 then (INFO, "1") else (ERROR, "[Fail] Build")).
Proof.
  intros l g E Hp Hb Hin. destruct (main_accepted CONFIG argv args w Hp) as (n & h & v & Em & _).
  destruct (check_and_gen_ran CONFIG (with_logging n h v w) l pfiles maps headers es inc mk kern user aux mt ts m)
    as (t & Hp1 & Hw1 & Hr1); [by apply policy_inputs_logging|].
  exists t. split; [done|]. split; [done|]. intros rc t' R1 D1.
  destruct (Hr1 rc t' R1 D1) as (w1 & E1 & C1 & _ & T1 & L1). assert (Hl : bpfonly l = 1) by done.
  unfold exit_status. rewrite Em. unfold run_lockgen, bind. fold l. destruct (rc =? 0) eqn:Hrc.
  - rewrite (generate_after CONFIG _ l pfiles maps headers w1 E1), Hl. simpl. eexists.
    split_and!; [done|done|done|done|]. simpl. by rewrite last_snoc.
  - unfold generate_lock_code. rewrite (bind_Exit _ _ _ _ _ E1). exists w1.
    split_and!; [done..|]. apply L1. by apply Z.eqb_neq.
Qed.

(** * A failed build of the kernel *)

(** C3: when make fails in the kernel sources, no module is built of the patch: the build phase
    leaves the program with status 0, with the tree as make left it, so without a run of
    kpatch-build, after logging the failed phase and printing the command and its status;
    the process is back in its working directory. *)
Theorem kernel_build_fails `{Host} CONFIG p w rc t o err es :
  let q := resolve (cwd w) (p_linux_src p) in
  let cmd := ["make"; "-j"; str_Z (NCPU CONFIG)] in
  place w q → startswith (p_linux_src p) "/" = true → at_path w (p_linux_src p) = Some (Dir es) →
  spawn cmd (abs_path q) (env w) None (root w) = Some (Exited rc, t, (o, err)) → rc ≠ 0 →
  (∃ ec, tget (components (cwd w)) t = Some (Dir ec)) →
  ∃ w', build (H0 := patch_tool CONFIG) false (w, p) = (Exit 0, (w', p)) ∧ root w' = t ∧ cwd w' = cwd w ∧
    log w' = log w ++ [(INFO, "[Start] Build: compile livepatch module..."); (ERROR, "[Fail] Build")] ∧
    last (console w') = Some ("Failed to execute " +:+ join " " cmd +:+ ": exit code " +:+ str_Z rc).
Proof.
  intros q cmd Hpl Ha Hd E Hrc Hc.
  set (w0 := set_log (log w ++ [(INFO, "[Start] Build: compile livepatch module...")]) w).
  destruct (cd_ran w0 (p_linux_src p) cmd rc t) as (w2 & Ecd & C2 & R2 & _ & L2);
    [by destruct Hpl|done|by exists es|by exists (o, err)|done|].
  rewrite (proj2 (Z.eqb_neq _ _) Hrc) in Ecd. set (e := failed_command cmd rc) in *.
  exists (set_console (console w2 ++ [emsg e]) (set_log (log w2 ++ [(ERROR, "[Fail] Build")]) w2)).
  split_and!; [|exact R2|exact C2| |simpl; by rewrite last_snoc].
  - unfold build. rewrite guarded_run. simpl _build_impl. unfold patch_build_impl.
    rewrite (bind_Ret _ _ _ tt (w0, p)) by reflexivity. rewrite (bind_Ret _ _ _ p (w0, p)) by reflexivity.
    unfold lift. cbn [fst snd]. by rewrite (bind_Raise _ _ _ _ _ Ecd).
  - simpl. rewrite L2. simpl. by rewrite <- app_assoc.
Qed.

(** * A machine to evaluate the tool on *)

(** A machine with cp, with a make that ends with the status [rc], and with a kpatch-build
    that wraps the patch in its working directory. *)
Definition build_host (rc : Z) : Host := {|
  spawn cmd d e limit t :=
    if String.eqb (hd "" cmd) "cp" then spawn (Host := cp_host) cmd d e limit t
    else if String.eqb (hd "" cmd) "make" then Some (Exited rc, t, ("CC" +:+ nl, ""))
    else match tget (components d ++ [KPATCH_RESULT]) t with
         | Some (File y m) =>
             match tput (components d ++ [KPATCH_MODULE]) (File ("ELF " +:+ y) 420) t with
             | Some t' => Some (Exited 0, t', ("", ""))
             | None => Some (Exited 1, t, ("", ""))
             end
         | _ => Some (Exited 1, t, ("", ""))
         end;
  cpu_count := 8;
  pw_home _ := None
|}.

#[export] Instance build_host_copies rc : CpCopies (build_host rc).
Proof. exact cp_host_copies. Qed.

Lemma build_host_make rc q e t : ran (H := build_host rc) ["make"] q e t rc t.
Proof. by eexists. Qed.

Lemma build_host_make_j rc n q e t : ran (H := build_host rc) ["make"; "-j"; n] q e t rc t.
Proof. by eexists. Qed.

Lemma build_host_kpatch rc cmd q e t y m :
  String.eqb (hd "" cmd) "cp" = false → String.eqb (hd "" cmd) "make" = false →
  Forall (fun n => plain n = true) q → tget (q ++ [KPATCH_RESULT]) t = Some (File y m) →
  ∃ t', ran (H := build_host rc) cmd q e t 0 t' ∧ tget (q ++ [KPATCH_MODULE]) t' = Some (File ("ELF " +:+ y) 420).
Proof.
  intros H1 H2 Hq Ht. destruct (tget_parent _ _ _ _ Ht) as [es Hd].
  destruct (tput_is_Some q KPATCH_MODULE (File ("ELF " +:+ y) 420) t es Hd) as [t' Hp].
  exists t'. split; [|by eapply tget_tput_eq].
  exists ("", ""). simpl. rewrite H1, H2, components_abs by done. by rewrite Ht, Hp.
Qed.

(** Goals about the demonstration checkout that evaluation decides. *)
Ltac demo :=
  vm_compute;
  repeat first [ reflexivity | apply (bool_decide_unpack (NoDup _)); vm_compute; exact I
               | apply List.Forall2_nil | apply List.Forall2_cons | split | eexists
               | intros [? ?]; discriminate | intros; discriminate | intros _ | lia ].

(** A command line like the one of the README. *)
Definition demo_argv : list string := ["--linux"; "linux"; "--policy"; "numa"; "--livepatch=numa.patch"; "-v"].
Definition demo_args : namespace := Namespace 2 0 (Some "/linux") (Some "/numa") (Some "/numa.patch").

Lemma main_builds_witness :
  ∃ w', main (H := build_host 0) demo_config demo_argv demo_full = (Ret (Some 0), w') ∧
    exit_status (H := build_host 0) demo_config demo_argv demo_full = 0 ∧
    tget ["c"; "output"; "numa"; "LivePatchGen"; "livepatch-concord.ko"] (root w') =
      Some (File ("ELF + 8" +:+ nl) 420).
Proof.
  destruct (main_builds (H := build_host 0) demo_config demo_full demo_argv demo_args
    ["/numa/a.pfile"] ["/numa/m.map"] [] demo_bpf [("bpf_helpers.h", File "" 420)]
    ("P=${POLICY_NAME}" +:+ nl +:+ "L=${LINUX_SRC}" +:+ nl) ("${API_CONTENTS}" +:+ nl)
    ("n=${NUM_POLICY}" +:+ nl +:+ "l={${POLICY_LIST}}" +:+ nl)
    ("#define NCPU ${NCPU}" +:+ nl) (demo_section "maps") [demo_section "lock_to_acquire"] 420
    ("#define NCPU ${NCPU}" +:+ nl) ("+ ${NCPU}" +:+ nl))
    as (t1 & _ & Hw & Hr).
  - vm_compute. reflexivity.
  - vm_compute. discriminate.
  - constructor; [demo..|constructor; demo|constructor; demo|demo|demo].
  - destruct (Hr t1 (build_host_make _ _ _ _)) as (t2 & [_ [m Ht] _] & _ & Hr2).
    { eapply patch_inputs_step; [by apply worked_step|constructor; demo|demo..|].
      constructor; [constructor; demo|demo|demo|demo|demo|constructor; [constructor; demo|demo..]|demo]. }
    destruct (build_host_kpatch 0 (kpatch_cmd demo_config (driver_patch demo_config
      (lockgen_of demo_config demo_args) ["/numa/a.pfile"] ["/numa/m.map"] [])) _ (env demo_full) t2 _ m
      eq_refl eq_refl (components_plain _) Ht) as (t3 & Hk & Hm).
    destruct (Hr2 t2 (build_host_make_j _ _ _ _ _)) with (rc := 0) (t3 := t3) as (w' & H1 & H2 & H3 & _);
      [by eapply stands_root, stands_above|by eapply stands_above|exact Hk|by eapply stands_root, stands_above|].
    match type of H1 with context [built ?P t3] =>
      assert (Hb : built P t3 = true) by exact (built_module _ _ _ Hm) end.
    rewrite Hb in H1, H2. exists w'. split; [exact H1|split; [exact H2|]].
    rewrite H3. exact Hm.
Defined.

Lemma main_ebpf_only_witness :
  ∃ w', main (H := build_host 2) demo_config ("-e" :: demo_argv) demo_full = (Exit 0, w') ∧
    exit_status (H := build_host 2) demo_config ("-e" :: demo_argv) demo_full = 0 ∧
    last (log w') = Some (ERROR, "[Fail] Build") ∧
    tget ["linux"] (root w') = tget ["linux"] (root demo_full).
Proof.
  destruct (main_ebpf_only (H := build_host 2) demo_config demo_full ("-e" :: demo_argv)
    (Namespace 2 1 (Some "/linux") (Some "/numa") (Some "/numa.patch"))
    ["/numa/a.pfile"] ["/numa/m.map"] [] demo_bpf [("bpf_helpers.h", File "" 420)]
    ("P=${POLICY_NAME}" +:+ nl +:+ "L=${LINUX_SRC}" +:+ nl) ("${API_CONTENTS}" +:+ nl)
    ("n=${NUM_POLICY}" +:+ nl +:+ "l={${POLICY_LIST}}" +:+ nl)
    ("#define NCPU ${NCPU}" +:+ nl) (demo_section "maps") [demo_section "lock_to_acquire"] 420)
    as (t & _ & (_ & Hs & Hd) & Hr).
  - vm_compute. reflexivity.
  - reflexivity.
  - constructor; [demo..|constructor; demo|constructor; demo|demo|demo].
  - destruct (Hr 2 t (build_host_make _ _ _ _)) as (w' & H1 & H2 & H3 & _ & H4).
    { exact (stands_root _ _ Hd). }
    exists w'. split; [exact H1|split; [exact H2|split; [exact H4|]]]. rewrite H3. apply Hs.
    apply List.Forall_cons; [|apply List.Forall_nil]. split; intros [z Hz]; vm_compute in Hz; discriminate.
Defined.

Lemma kernel_build_fails_witness :
  let p := init_patch_gen demo_config "numa" "/linux" "numa" "/c/policy/lock_policy.h" (Some "/numa.patch") in
  ∃ w', build (H0 := patch_tool (H := build_host 2) demo_config) false (demo_full, p) = (Exit 0, (w', p)) ∧
    root w' = root demo_full ∧ last (console w') = Some "Failed to execute make -j 8: exit code 2".
Proof.
  intros p.
  destruct (kernel_build_fails (H := build_host 2) demo_config p demo_full 2 (root demo_full) ("CC" +:+ nl) ""
    [("include", Dir [("linux", Dir [])])]) as (w' & H1 & H2 & _ & _ & H3).
  - constructor; demo.
  - reflexivity.
  - vm_compute. reflexivity.
  - vm_compute. reflexivity.
  - lia.
  - vm_compute. by eexists.
  - exists w'. split; [exact H1|split; [exact H2|]]. etrans; [exact H3|vm_compute; reflexivity].
Defined.
