(* ===== verification/Confine.v ===== *)
(** What the tool of src/concord can touch: on every path, the ones that end in an exception
    or leave the program included, what it does itself it does in the output directories of
    its generators and, unless only the eBPF program is asked for, in the kernel sources; the
    rest is done by the programs it starts, each of which is named here. *)

From S2P Require Import Prelude PyStr PyRe PyDict PyPath Effect Os Util Instance BpfGen LivePatch Concord Pipeline.

(** * Working at some places *)

(** Somewhere at or below one of the places. *)
Definition inside (ps : list (list string)) (q : list string) : Prop := ∃ p, p ∈ ps ∧ p `prefix_of` q.

Lemma same_but_inside ps qs r r' : same_but qs r r' → Forall (inside ps) qs → same_but ps r r'.
Proof.
  intros Hs Hq x Hx. apply Hs. eapply Forall_impl; [exact Hq|]. intros q (p & Hp & [y ->]).
  apply apart_below. rewrite Forall_forall in Hx. by apply Hx.
Qed.

Lemma inside_here ps q x : q ∈ ps → inside ps (q ++ x).
Proof. intros Hq. exists q. split; [done|by apply prefix_app_r]. Qed.

(** What a program is allowed to do: to start some commands in some directories, with an
    environment, and to work at some places itself. *)
Record leave := Leave {
  commands : list string → string → Prop;
  environment : gmap string string;
  places : list (list string)
}.

(** A step of the file tree that is allowed: the program works at the places, or a command it
    starts does what it does. *)
Definition tool_step `{Host} (b : leave) (t t' : node) : Prop :=
  same_but (places b) t t' ∨
  ∃ cmd d x o, commands b cmd d ∧ spawn cmd d (environment b) None t = Some (x, t', o).

(** The computation changes the tree by such steps, however it ends. *)
Definition within `{Host} {A} (b : leave) (m : IO A) : Prop :=
  ∀ w, env w = environment b → rtc (tool_step b) (root w) (root (m w).2) ∧ env (m w).2 = environment b.

(** The same in a given working directory, in which it stays. *)
Definition within_at `{Host} {A} (d : string) (b : leave) (m : IO A) : Prop :=
  ∀ w, env w = environment b → cwd w = d →
    (rtc (tool_step b) (root w) (root (m w).2) ∧ env (m w).2 = environment b) ∧ cwd (m w).2 = d.

Lemma frame_chdir {V} (obs : world → V) p : (∀ d w, obs (set_cwd d w) = obs w) → frame obs (chdir p).
Proof.
  intros Ho w. unfold chdir. rewrite (bind_Ret _ _ _ w w) by done. destruct (at_path w p) as [[]|]; [done| |done].
  apply Ho.
Qed.

Section Within.
Context `{Host} (b : leave).

Lemma own_step t t' : same_but (places b) t t' → rtc (tool_step b) t t'.
Proof. intros Hs. apply rtc_once. by left. Qed.

Lemma within_frame {A} (m : IO A) : frame root m → frame env m → within b m.
Proof. intros Hm He w Hw. by rewrite Hm, He. Qed.

Lemma within_bind {A B} (m : IO A) (k : A → IO B) : within b m → (∀ a, within b (k a)) → within b (bind m k).
Proof.
  intros Hm Hk w Hw. destruct (Hm w Hw) as [H1 H2]. unfold bind. destruct (m w) as [[a|e|c] w']; [|done..].
  destruct (Hk a w' H2) as [H3 H4]. split; [by etrans|done].
Qed.

Lemma within_fold_each {A B} (l : list A) (f : B → A → IO B) x0 :
  (∀ y x, within b (f y x)) → within b (fold_each l f x0).
Proof.
  intros Hf. revert x0. induction l as [|x l IH]; intros x0; [by apply within_frame|]. apply within_bind; [done|apply IH].
Qed.

Lemma within_at_bind {A B} d (m : IO A) (k : A → IO B) :
  within_at d b m → (∀ a, within_at d b (k a)) → within_at d b (bind m k).
Proof.
  intros Hm Hk w He Hw. destruct (Hm w He Hw) as [[H1 H2] H3]. unfold bind. destruct (m w) as [[a|e|c] w']; [|done..].
  destruct (Hk a w' H2 H3) as [[H4 H5] H6]. split; [split; [by etrans|done]|done].
Qed.

Lemma within_at_frame {A} d (m : IO A) : frame root m → frame env m → frame cwd m → within_at d b m.
Proof. intros Hm He Hc w Hw <-. by rewrite Hm, He, Hc. Qed.

(** Operations that work at a path: absolute, or in a known working directory. *)
Lemma works_at_within {A} p (m : IO A) :
  works_at p m → frame env m → startswith p "/" = true → inside (places b) (components p) → within b m.
Proof.
  intros Hm He Hp Hi w Hw. destruct (Hm w) as [H1 _]. unfold resolve in H1. rewrite join2_absolute in H1 by done.
  split; [|by rewrite He]. apply own_step.
  eapply same_but_inside; [exact H1|]. by apply List.Forall_cons; [|apply List.Forall_nil].
Qed.

Lemma works_at_within_at {A} d p (m : IO A) :
  works_at p m → frame env m → inside (places b) (resolve d p) → within_at d b m.
Proof.
  intros Hm He Hi w Hw <-. destruct (Hm w) as [H1 H2]. split; [|done]. split; [|by rewrite He]. apply own_step.
  eapply same_but_inside; [exact H1|]. by apply List.Forall_cons; [|apply List.Forall_nil].
Qed.

(** [with cd(pn)]: the body runs in that directory, if it runs at all. *)
Lemma within_cd {A} pn (body : IO A) :
  startswith pn "/" = true → within_at (abs_path (components pn)) b body → within b (cd pn body).
Proof.
  intros Hp Hb w Hw. destruct (cd pn body w) as [o' w'] eqn:Ecd. revert Ecd. simpl.
  unfold cd. unfold bind at 1. destruct (getcwd w) as [o w0] eqn:E0.
  assert (w0 = w) as -> by (pose proof (frame_getcwd id w) as Hf; by rewrite E0 in Hf).
  destruct o as [d|e|c]; [|by intros [= _ <-]..].
  rewrite (bind_Ret _ _ _ (env w !! "HOME") w) by done. rewrite expanduser_absolute by done.
  unfold chdir at 1. unfold bind at 1. rewrite (bind_Ret _ _ _ w w) by done.
  destruct (at_path w pn) as [[|es]|]; [by intros [= _ <-]| |by intros [= _ <-]].
  unfold modify at 1. set (w1 := set_cwd _ w).
  destruct (Hb w1 Hw) as [[H1 H2] _]; [unfold w1, resolve; simpl; by rewrite join2_absolute|].
  change (root w1) with (root w) in H1.
  unfold finally. destruct (body w1) as [o2 w2]. pose proof (frame_chdir root d ltac:(done) w2) as Hr.
  pose proof (frame_chdir env d ltac:(done) w2) as He.
  destruct (chdir d w2) as [[] w3]; simpl in *; intros [= _ <-]; by rewrite Hr, He.
Qed.

(** A program that is started changes what it changes. *)
Lemma execute_tree cmd t w :
  let w' := (execute cmd Console Console t w).2 in
  root w' = root w ∨ ∃ x o, spawn cmd (cwd w) (env w) t (root w) = Some (x, root w', o).
Proof.
  unfold execute. rewrite (bind_Ret _ _ _ w w) by done.
  destruct (spawn cmd (cwd w) (env w) t (root w)) as [[[x r] [o err]]|]; [right|by left].
  exists x, (o, err). rewrite (bind_Ret _ _ _ tt (set_root r w)) by done.
  match goal with |- context [root (?m (set_root r w)).2] => assert (Hf : frame root m) end; [|by rewrite Hf].
  apply frame_bind; [by unfold deliver; case_match|intros _].
  apply frame_bind; [by unfold deliver; case_match|intros _]. by repeat case_match.
Qed.

Lemma within_at_execute cmd d : commands b cmd d → within_at d b (execute_default cmd).
Proof.
  intros Hc w He <-. unfold execute_default. split; [split|].
  - destruct (execute_tree cmd None w) as [->|(x & o & E)]; [done|]. apply rtc_once. right.
    exists cmd, (cwd w), x, o. split; [done|by rewrite <- He].
  - by rewrite (frame_execute env).
  - by rewrite (frame_execute cwd).
Qed.

Lemma within_execute cmd : (∀ d, commands b cmd d) → within b (execute_default cmd).
Proof. intros Hc w Hw. by apply (within_at_execute cmd (cwd w)). Qed.
End Within.

(** ** The operations *)

Lemma works_at_write_file p t : works_at p (write_file p t).
Proof.
  intros w. unfold write_file. rewrite (bind_Ret _ _ _ w w) by done. cbv zeta.
  destruct (tget (resolve (cwd w) p) (root w)) as [[x m|es]|]; [|done|];
    (apply update_root_same; intros r E; by eapply same_but_tput).
Qed.

Lemma works_at_inplace_replace p a b : works_at p (inplace_replace p a b).
Proof.
  unfold inplace_replace. apply works_at_bind; [|intros t; apply works_at_write_file].
  apply works_at_read. intros w. unfold read_file. rewrite (bind_Ret _ _ _ w w) by done.
  by destruct (at_path w p) as [[]|].
Qed.

Lemma rename_same ps a b w :
  startswith a "/" = true → startswith b "/" = true → inside ps (components a) → inside ps (components b) →
  same_but ps (root w) (root (rename a b w).2).
Proof.
  intros Ha Hb Ia Ib. unfold rename. rewrite (bind_Ret _ _ _ w w) by done.
  assert (Hu : ∀ n, same_but ps (root w) (root (update_root (fun t => tdel (resolve (cwd w) a) t ≫=
    tput (resolve (cwd w) b) n) CFileNotFoundError (no_such_file b) w).2)).
  { intros n. unfold update_root. rewrite (bind_Ret _ _ _ w w) by done. unfold resolve.
    rewrite !join2_absolute by done.
    destruct (tdel (components a) (root w) ≫= _) as [r|] eqn:E; [|done]. simpl.
    apply bind_Some in E as (t1 & E1 & E2). eapply (same_but_inside ps [components a; components b]).
    - intros q Hq. rewrite !Forall_cons in Hq. destruct Hq as (Hq1 & Hq2 & _).
      by rewrite (tget_tput_ne _ _ _ _ _ Hq2 E2), (tget_tdel_ne _ _ _ _ Hq1 E1).
    - repeat apply List.Forall_cons; [done..|apply List.Forall_nil]. }
  destruct (at_path w a) as [[x m|ea]|], (at_path w b) as [[x' m'|[|e eb]]|]; first [done | apply Hu].
Qed.

Lemma within_rename `{Host} l a b :
  startswith a "/" = true → startswith b "/" = true →
  inside (places l) (components a) → inside (places l) (components b) → within l (rename a b).
Proof.
  intros Ha Hb Ia Ib w Hw. split; [by apply own_step, rename_same|]. by rewrite (frame_rename env).
Qed.

(** * Methods of an object with an invariant *)

Definition confined `{Host} {O A} (Q : O → Prop) (b : leave) (m : OM O A) : Prop :=
  ∀ s, Q s.2 → env s.1 = environment b →
    Q (m s).2.2 ∧ rtc (tool_step b) (root s.1) (root (m s).2.1) ∧ env (m s).2.1 = environment b.

Section Confined.
Context `{Host} {O : Type} (Q : O → Prop) (b : leave).

Lemma confined_lift {A} (m : IO A) : within b m → confined Q b (lift m).
Proof. intros Hm [w ob] Hq Hw. specialize (Hm w Hw). unfold lift. simpl in *. by destruct (m w). Qed.

Lemma confined_still {A} (m : OM O A) : (∀ s, (m s).2 = s) → confined Q b m.
Proof. intros Hm s Hs. by rewrite Hm. Qed.

Lemma confined_bind {A B} (m : OM O A) (k : A → OM O B) :
  confined Q b m → (∀ a, confined Q b (k a)) → confined Q b (bind m k).
Proof.
  intros Hm Hk s Hs Hw. destruct (Hm s Hs Hw) as (H1 & H2 & H3). unfold bind. destruct (m s) as [[a|e|c] s']; [|done..].
  destruct (Hk a s' H1 H3) as (H4 & H5 & H6). split_and!; [done|by etrans|done].
Qed.

Lemma confined_self {B} (k : O → OM O B) : (∀ o, Q o → confined Q b (k o)) → confined Q b (bind self k).
Proof. intros Hk [w ob] Hs Hw. by apply (Hk ob Hs). Qed.

Lemma confined_set_self f : (∀ o, Q o → Q (f o)) → confined Q b (set_self f).
Proof. intros Hf [w ob] Hs Hw. split; [by apply Hf|done]. Qed.

Lemma confined_for_each {A} (l : list A) f : (∀ x, confined Q b (f x)) → confined Q b (for_each l f).
Proof. intros Hf. induction l as [|x l IH]; [by apply confined_still|]. by apply confined_bind. Qed.

Lemma confined_try {A} (m : OM O A) c h :
  confined Q b m → (∀ e, confined Q b (h e)) → confined Q b (try_except m c h).
Proof.
  intros Hm Hh s Hs Hw. destruct (Hm s Hs Hw) as (H1 & H2 & H3).
  unfold try_except. destruct (m s) as [[a|e|x] s']; [done| |done].
  case_match; [|done]. destruct (Hh e s' H1 H3) as (H4 & H5 & H6). split_and!; [done|by etrans|done].
Qed.

Lemma confined_phase (m : OM O unit) done_ failed :
  confined Q b m → confined Q b (try_except (m ;; lift (logging INFO done_)) CException (fail failed)).
Proof.
  intros Hm. apply confined_try.
  - apply confined_bind; [done|]. intros _. by apply confined_lift, within_frame.
  - intros e. unfold fail. apply confined_bind; [by apply confined_lift, within_frame|]. intros _.
    apply confined_bind; [by apply confined_lift, within_frame|]. intros _. by apply confined_still.
Qed.

Lemma confined_object {O' A} (Q' : O' → Prop) (ob : O') (m : OM O' A) :
  Q' ob → confined Q' b m → confined Q b (with_object ob m).
Proof.
  intros Hob Hm [w o] Hs Hw. destruct (Hm (w, ob) Hob Hw) as (H1 & H2 & H3). unfold with_object. simpl in *.
  by destruct (m (w, ob)) as [[] []].
Qed.
End Confined.

Lemma confined_ready `{Host} {O} `{Tool O} (Q : O → Prop) b ov :
  (∀ o, Q o → startswith (path_src (base o)) "/" = true ∧ inside (places b) (components (path_src (base o)))) →
  confined Q b (_ready_impl ov) → confined Q b (ready ov).
Proof.
  intros Hq Hm. unfold ready. apply confined_self. intros o Ho. destruct (Hq o Ho) as [Ha Hi].
  apply confined_bind; [by apply confined_lift, within_frame|]. intros ex.
  destruct (ex && negb ov); [by apply confined_lift, within_frame|].
  apply confined_bind; [|intros _; by apply confined_phase].
  apply confined_lift, (works_at_within _ (path_src (base o))); [apply works_at_prepdn|by apply frame_prepdn|done..].
Qed.

(** * The generators *)

Lemma frame_read {V} (obs : world → V) p : frame obs (read_file p).
Proof. intros w. unfold read_file. rewrite (bind_Ret _ _ _ w w) by done. by destruct (at_path w p) as [[]|]. Qed.

Lemma within_parse_func `{Host} b d : within b (parse_func d).
Proof.
  destruct d as [[r n] a]. unfold parse_func. apply within_bind; [|intros api; apply within_fold_each; intros ap x].
  { unfold init_api. by case_match; apply within_frame. }
  apply within_bind; [unfold parse_arg; by case_match; apply within_frame|intros ty].
  unfold add_arg. by repeat case_match; apply within_frame.
Qed.

Lemma within_read `{Host} b p : within b (read_file p).
Proof. apply within_frame; apply frame_read. Qed.

Lemma components_below p ns :
  startswith p "/" = true → endswith p "/" = false → ns ≠ [] → Forall (fun n => plain n = true) ns →
  components (join2 p (join "/" ns)) = components p ++ ns.
Proof.
  intros Hp He Hn Hns. pose proof (resolve_below "/" p ns Hp He Hn Hns) as Hr. unfold resolve in Hr.
  rewrite (join2_absolute "/" p), (join2_absolute "/" (join2 p _)) in Hr by (done || by apply join2_is_absolute).
  exact Hr.
Qed.

Section Generators.
Context `{Hh : Host} (CONFIG : config) (linux policy lp : string).

Definition ebpf_src : string := path_src (init_instance CONFIG "eBPFGen" policy).
Definition patch_src : string := path_src (init_instance CONFIG "LivePatchGen" (splitext (basename lp)).1).

(** The outputs and the kernel sources are named by absolute paths, the policy and the patch
    by plain names. *)
Record named : Prop := {
  nm_outs : startswith (PATH_OUTS CONFIG) "/" = true ∧ endswith (PATH_OUTS CONFIG) "/" = false;
  nm_linux : startswith linux "/" = true ∧ endswith linux "/" = false;
  nm_policy : plain (basename policy) = true;
  nm_patch : plain (basename (splitext (basename lp)).1) = true
}.

(** The commands that are started for the eBPF program, and those for the live patch. *)
Definition ebpf_command (cmd : list string) (d : string) : Prop :=
  (∃ a, cmd = ["cp"; a; join2 ebpf_src "include/concord.h"]) ∨
  (cmd = ["make"] ∧ d = abs_path (components ebpf_src)).

Definition patch_command (cmd : list string) (d : string) : Prop :=
  (∃ a, cmd = ["cp"; a; join2 linux "include/linux/lock_policy.h"] ∧ d = abs_path (components linux)) ∨
  (cmd = ["cp"; lp; KPATCH_RESULT] ∧ d = abs_path (components patch_src)) ∨
  (cmd = ["make"; "-j"; str_Z (NCPU CONFIG)] ∧ d = abs_path (components linux)) ∨
  (∃ p, p_linux_src p = linux ∧ cmd = kpatch_cmd CONFIG p ∧ d = abs_path (components patch_src)).

Definition of_policy (g : EBPF_GEN) : Prop := ebpf_base g = init_instance CONFIG "eBPFGen" policy.

Definition of_patch (p : PATCH_GEN) : Prop :=
  patch_base p = init_instance CONFIG "LivePatchGen" (splitext (basename lp)).1 ∧ p_linux_src p = linux ∧
  livepatch p = Some lp.

Context (Hn : named) (b : leave).

Lemma ebpf_src_abs : startswith ebpf_src "/" = true ∧ endswith ebpf_src "/" = false.
Proof. destruct Hn as [[] _ ? _]. by apply (init_instance_src CONFIG "/" "eBPFGen" policy). Qed.

Lemma patch_src_abs : startswith patch_src "/" = true ∧ endswith patch_src "/" = false.
Proof.
  destruct Hn as [[] _ _ ?]. by apply (init_instance_src CONFIG "/" "LivePatchGen" (splitext (basename lp)).1).
Qed.

(** A file of the eBPF program. *)
Lemma inside_ebpf ns :
  components ebpf_src ∈ places b → ns ≠ [] → Forall (fun n => plain n = true) ns →
  startswith (join2 ebpf_src (join "/" ns)) "/" = true ∧ inside (places b) (components (join2 ebpf_src (join "/" ns))).
Proof.
  intros Hp Hne Hns. destruct ebpf_src_abs as [Ha He]. split; [by apply join2_is_absolute|].
  rewrite components_below by done. by apply inside_here.
Qed.

Lemma within_ebpf_replace n x y :
  components ebpf_src ∈ places b → plain n = true → within b (inplace_replace (join2 ebpf_src n) x y).
Proof.
  intros Hp Hpl. destruct (inside_ebpf [n] Hp ltac:(done) ltac:(by repeat constructor)) as [H1 H2].
  by apply (works_at_within _ (join2 ebpf_src n)); [apply works_at_inplace_replace|by apply frame_inplace_replace|..].
Qed.

Lemma plain_source sfx :
  no_char slash sfx = true → (3 ≤ String.length sfx)%nat → plain (basename policy +:+ sfx) = true.
Proof.
  intros Hs Hl. pose proof (nm_policy Hn) as (_ & Hb & _)%plain_spec.
  apply plain_spec. rewrite no_char_app, Hb, Hs.
  assert (Hle : (3 ≤ String.length (basename policy +:+ sfx))%nat) by (rewrite length_app_str; lia).
  repeat split; intros E; rewrite E in Hle; simpl in Hle; lia.
Qed.

Lemma within_ebpf_rename a sfx :
  components ebpf_src ∈ places b → plain a = true → no_char slash sfx = true → (3 ≤ String.length sfx)%nat →
  within b (rename (join2 ebpf_src a) (join2 ebpf_src (basename policy +:+ sfx))).
Proof.
  intros Hp Ha Hs Hl. pose proof (plain_source sfx Hs Hl) as Hb.
  destruct (inside_ebpf [a] Hp ltac:(done) ltac:(by repeat constructor)) as [H1 H2].
  destruct (inside_ebpf [basename policy +:+ sfx] Hp ltac:(done) ltac:(by repeat constructor)) as [H3 H4].
  by apply within_rename.
Qed.

(** ** The eBPF program *)

Section Ebpf.
Context (Hps : components ebpf_src ∈ places b) (Hs : ∀ cmd d, ebpf_command cmd d → commands b cmd d).

Lemma confined_ebpf_ready o : confined of_policy b (ebpf_ready_impl CONFIG o).
Proof.
  unfold ebpf_ready_impl. apply confined_self. intros g Hg. apply confined_lift.
  assert (Eg : g_src g = ebpf_src ∧ g_name g = basename policy) by (unfold g_src, g_name; by rewrite Hg).
  destruct Eg as [Es En]. unfold ready_makefile, ready_kern, ready_user, ready_header. rewrite Es, En.
  destruct ebpf_src_abs as [Ha He].
  apply within_bind; [by apply within_frame|intros _]. apply within_bind; [|intros _].
  { apply (works_at_within _ ebpf_src); [apply works_at_copy_all_files|by apply frame_copy_all_files|done|].
    exists (components ebpf_src). by split. }
  apply within_bind; [apply within_execute; intros d; apply Hs; left; by eexists|intros _].
  apply within_bind; [apply within_bind; [|intros _]; by apply within_ebpf_replace|intros _].
  apply within_bind; [|intros _].
  { apply within_bind; [|intros cs].
    { destruct (0 <? _); [|by apply within_frame]. apply within_bind; [apply within_read|].
      intros t. by apply within_frame. }
    apply within_bind; [|intros cs'; apply within_bind; [by apply within_ebpf_replace|intros _]].
    - apply within_fold_each. intros cs0 x. apply within_bind; [apply within_read|].
      intros t. by apply within_frame.
    - apply within_ebpf_rename; [done..|simpl; lia]. }
  apply within_bind; [|intros _].
  { apply within_bind; [by apply within_ebpf_replace|intros _].
    apply within_bind; [by apply within_ebpf_replace|intros _]. apply within_ebpf_rename; [done..|simpl; lia]. }
  apply within_bind; [by apply within_frame|intros _].
  destruct (inside_ebpf ["include"; "concord.h"] Hps) as [H1 H2]; [done|by repeat constructor|].
  by apply (works_at_within _ (join2 ebpf_src "include/concord.h")); [apply works_at_inplace_replace|by apply frame_inplace_replace|..].
Qed.

Lemma confined_ebpf_check : confined of_policy b (ebpf_check_impl CONFIG).
Proof.
  unfold ebpf_check_impl. apply confined_bind; [by apply confined_lift, within_frame|intros _].
  apply confined_bind; [|intros _].
  { unfold read_API_list. apply confined_bind; [apply confined_lift, within_read|intros t].
    apply confined_for_each. intros d. apply confined_bind; [apply confined_lift, within_parse_func|].
    intros api. by apply confined_set_self. }
  apply confined_bind; [|intros _].
  { unfold print_API. apply confined_bind; [by apply confined_lift, within_frame|intros _].
    apply confined_self. intros g _. apply confined_for_each. intros x. by apply confined_lift, within_frame. }
  apply confined_bind; [|intros secs].
  { unfold get_section. apply confined_self. intros g _. apply confined_try.
    - apply confined_bind; [apply confined_lift, within_read|]. intros t. by apply confined_still.
    - intros e. apply confined_bind; [by apply confined_lift, within_frame|intros _].
      apply confined_bind; [by apply confined_lift, within_frame|intros _]. by apply confined_still. }
  apply confined_for_each. intros s. unfold check_section.
  apply confined_bind; [by apply confined_lift, within_frame|intros _].
  destruct (startswith s "maps").
  - apply confined_self. intros g Hg. apply confined_lift. unfold g_src, g_name. rewrite Hg.
    apply within_ebpf_replace; [done|]. by apply plain_source; [|simpl; lia].
  - destruct (startswith s "license"); [by apply confined_still|].
    destruct (startswith s "lock_"); [by apply confined_still|].
    apply confined_bind; [by apply confined_lift, within_frame|]. intros _. by apply confined_still.
Qed.

Lemma confined_run_ebpf : confined of_policy b (run_ebpf CONFIG).
Proof.
  destruct ebpf_src_abs as [Ha He]. unfold run_ebpf. apply confined_bind; [|intros _].
  { apply confined_ready; [|apply confined_ebpf_ready]. intros g Hg. simpl. rewrite Hg.
    split; [done|]. exists (components ebpf_src). by split. }
  apply confined_bind; [apply confined_phase, confined_ebpf_check|intros _].
  apply confined_phase. simpl. unfold ebpf_build_impl.
  apply confined_bind; [by apply confined_lift, within_frame|intros _].
  apply confined_self. intros g Hg. apply confined_lift. unfold g_src. rewrite Hg. fold ebpf_src.
  apply within_cd; [done|]. apply within_at_execute, Hs. by right.
Qed.
End Ebpf.

(** ** The live patch *)

Section Patch.
Context (Hpl : components linux ∈ places b) (Hpp : components patch_src ∈ places b) 
  (Hs : ∀ cmd d, patch_command cmd d → commands b cmd d).

Lemma confined_patch_setup o : confined of_patch b (patch_setup_impl o).
Proof.
  unfold patch_setup_impl. apply confined_bind; [by apply confined_lift, within_frame|intros _].
  apply confined_self. intros p (_ & Hl & _). apply confined_lift. rewrite Hl. destruct (nm_linux Hn) as [Ha He].
  apply within_cd; [done|]. apply within_at_bind; [|intros _].
  - apply within_at_execute, Hs. left. by eexists.
  - eapply works_at_within_at; [apply works_at_inplace_replace|by apply frame_inplace_replace|].
    assert (Hr : resolve (abs_path (components linux)) (join2 linux "include/linux/lock_policy.h") =
                 components linux ++ ["include"; "linux"; "lock_policy.h"]).
    { etrans; [apply (resolve_below _ linux ["include"; "linux"; "lock_policy.h"] Ha He); [done|by repeat constructor]|].
      unfold resolve. by rewrite join2_absolute. }
    rewrite Hr. by apply inside_here.
Qed.

Lemma confined_patch_ready o : confined of_patch b (patch_ready_impl CONFIG o).
Proof.
  unfold patch_ready_impl. apply confined_bind; [by apply confined_lift, within_frame|intros _].
  apply confined_self. intros p (Hb & _ & Hlp). apply confined_lift. rewrite Hlp. unfold l_src. rewrite Hb.
  fold patch_src. destruct patch_src_abs as [Ha He]. apply within_cd; [done|]. apply within_at_bind; [|intros _].
  - apply within_at_execute, Hs. right. by left.
  - eapply works_at_within_at; [apply works_at_inplace_replace|by apply frame_inplace_replace|].
    rewrite resolve_name by (done || apply components_plain). by apply inside_here.
Qed.

Lemma confined_run_patch : confined of_patch b (run_patch CONFIG).
Proof.
  destruct patch_src_abs as [Ha He]. unfold run_patch.
  apply confined_bind; [apply confined_phase, confined_patch_setup|intros _].
  apply confined_bind; [|intros _].
  { apply confined_ready; [|apply confined_patch_ready]. intros p (Hb & _). simpl. rewrite Hb.
    split; [done|]. exists (components patch_src). by split. }
  apply confined_bind; [apply confined_phase; simpl|intros _; apply confined_phase; simpl].
  - unfold patch_build_impl. apply confined_bind; [by apply confined_lift, within_frame|intros _].
    apply confined_self. intros p (Hb & Hl & _). apply confined_lift. unfold l_src. rewrite Hb, Hl. fold patch_src.
    apply within_bind; [|intros _]; (apply within_cd; [by first [apply nm_linux, Hn | done]|]).
    + apply within_at_execute, Hs. right. right. by left.
    + do 2 (apply within_at_bind; [by apply within_at_frame|intros _]).
      apply within_at_execute, Hs. right. right. right. by exists p.
  - unfold patch_check_impl. apply confined_bind; [by apply confined_lift, within_frame|intros _].
    apply confined_self. intros p Hp. apply confined_bind; [apply confined_lift, within_frame; apply frame_os_abspath|intros d].
    apply confined_bind; [by apply confined_lift, within_frame|intros ex].
    destruct ex; (apply confined_bind; [by apply confined_lift, within_frame|intros _]); by apply confined_set_self.
Qed.
End Patch.
End Generators.

(** * The driver *)

Section Driver.
Context `{Hh : Host} (CONFIG : config) (l : LockGen).

Abbreviation ebpf_dir := (components (ebpf_src CONFIG (policy_dir l))).
Abbreviation patch_dir := (components (patch_src CONFIG (lg_livepatch l))).
Abbreviation linux_dir := (components (lg_linux_src l)).

(** What the driver does not change of its own settings. *)
Definition same_job (l' : LockGen) : Prop :=
  lg_linux_src l' = lg_linux_src l ∧ policy_dir l' = policy_dir l ∧ lg_livepatch l' = lg_livepatch l ∧
  bpfonly l' = bpfonly l.

Context (Hn : named CONFIG (lg_linux_src l) (policy_dir l) (lg_livepatch l)).

Lemma confined_check_and_gen b :
  ebpf_dir ∈ places b → (∀ cmd d, ebpf_command CONFIG (policy_dir l) cmd d → commands b cmd d) →
  confined same_job b (_check_and_gen_ebpf CONFIG).
Proof.
  intros Hp Hs. unfold _check_and_gen_ebpf. apply confined_self. intros l1 Hl1.
  do 3 (apply confined_bind; [by apply confined_lift, within_frame|intros ?]).
  apply confined_bind; [|intros _].
  { unfold choose_aux. destruct a1 as [|? [|? ?]]; [by apply confined_still|by apply confined_set_self|].
    apply confined_bind; [by apply confined_lift, within_frame|]. intros _. by apply confined_still. }
  apply confined_bind; [|intros _].
  { unfold choose_map. destruct a0 as [|? [|? ?]]; [|by apply confined_set_self|];
      (destruct (1 <? _); [|by apply confined_set_self]);
      (apply confined_bind; [by apply confined_lift, within_frame|]; intros _; by apply confined_still). }
  apply confined_self. intros l2 (_ & Hpol & _). apply confined_bind; [|intros r; by apply confined_still].
  apply (confined_object _ _ (of_policy CONFIG (policy_dir l))); [unfold of_policy; simpl; by rewrite Hpol|].
  by eapply confined_run_ebpf.
Qed.

Lemma confined_patch_kernel b :
  linux_dir ∈ places b → patch_dir ∈ places b →
  (∀ cmd d, patch_command CONFIG (lg_linux_src l) (lg_livepatch l) cmd d → commands b cmd d) →
  confined same_job b (_patch_kernel CONFIG).
Proof.
  intros H1 H2 Hs. unfold _patch_kernel. apply confined_self. intros l1 (Hl & _ & Hlp & _).
  destruct (lock_ebpf l1) as [g|]; [|by apply confined_still].
  apply confined_bind; [|intros r; by apply confined_still].
  apply (confined_object _ _ (of_patch CONFIG (lg_linux_src l) (lg_livepatch l))).
  - unfold of_patch. simpl. by rewrite Hl, Hlp.
  - by eapply confined_run_patch.
Qed.

(** What the driver is allowed to do: less when only the eBPF program is asked for. *)
Definition tool_leave (e : gmap string string) : leave :=
  let ebpf := ebpf_command CONFIG (policy_dir l) in
  if bpfonly l =? 1 then Leave ebpf e [ebpf_dir]
  else Leave (fun cmd d => ebpf cmd d ∨ patch_command CONFIG (lg_linux_src l) (lg_livepatch l) cmd d) e
         [ebpf_dir; linux_dir; patch_dir].

(** In a run that returns as in one that fails in any phase. *)
Lemma confined_generate e : confined same_job (tool_leave e) (generate_lock_code CONFIG).
Proof.
  unfold generate_lock_code. apply confined_bind; [|intros g].
  { apply confined_check_and_gen; unfold tool_leave; destruct (bpfonly l =? 1);
      [apply list_elem_of_here..|done|by left]. }
  apply confined_bind; [by apply confined_set_self|intros _]. apply confined_self. intros l1 (_ & _ & _ & Hb).
  destruct (lock_ebpf l1) as [g'|]; [|by apply confined_still].
  apply confined_bind; [by apply confined_lift, within_frame|intros _]. rewrite Hb.
  destruct (bpfonly l =? 1) eqn:Hne; [by apply confined_still|]. apply confined_bind; [|intros p].
  { unfold tool_leave. rewrite Hne.
    apply confined_patch_kernel; [..|by right]; by repeat first [apply list_elem_of_here | apply list_elem_of_further]. }
  destruct (module_ p) as [m|]; [|by apply confined_still].
  apply confined_bind; [by apply confined_set_self|intros _]. destruct m; by apply confined_still.
Qed.
End Driver.

(** C4: the tool stays where it belongs.  Whatever happens after the command line is read, in
    a run that returns as in one that fails in any phase, the file tree goes from the one at
    the start to the one at the end by steps of two kinds.  Either the program itself changes
    the output directory of the eBPF program, or, unless only that is asked for, the kernel
    sources or the output directory of the live patch, and leaves every file and directory
    apart from these as it was; or a command it starts, with the environment of the process,
    does what it does.  The commands for the eBPF program are a cp to its header and a make in
    its output directory; those for the live patch, never started when only the eBPF program
    is asked for, are a cp to the header of the policies and a make in the kernel sources, and
    a cp of the patch and kpatch-build in the output directory of the live patch. *)
Theorem main_confined `{Host} CONFIG argv args w :
  let l := lockgen_of CONFIG args in
  (parse_args argv w).1 = Ret args → named CONFIG (lg_linux_src l) (policy_dir l) (lg_livepatch l) →
  rtc (tool_step (tool_leave CONFIG l (env w))) (root w) (root (main CONFIG argv w).2).
Proof.
  intros l Hp Hn. destruct (main_accepted CONFIG argv args w Hp) as (n & h & v & E & _). rewrite E.
  destruct (confined_generate CONFIG l Hn (env w) (with_logging n h v w, l)) as (_ & Hw & _); [done|..].
  { unfold tool_leave. by destruct (bpfonly l =? 1). }
  unfold bind, run_lockgen. fold l. by destruct (generate_lock_code CONFIG (with_logging n h v w, l)) as [[] [w' l']].
Qed.

(** ** On the demonstration checkout *)

Lemma main_confined_witness :
  let l := lockgen_of demo_config demo_args in
  let b := tool_leave demo_config l (env demo_full) in
  places b = [["c"; "output"; "numa"; "eBPFGen"]; ["linux"]; ["c"; "output"; "numa"; "LivePatchGen"]] ∧
  rtc (tool_step (H := build_host 2) b) (root demo_full)
    (root (main (H := build_host 2) demo_config demo_argv demo_full).2).
Proof.
  intros l b. split; [vm_compute; reflexivity|].
  refine (main_confined (H := build_host 2) demo_config demo_argv demo_args demo_full _ _).
  - vm_compute. reflexivity.
  - constructor; vm_compute; by try split.
Defined.
