(* ===== verification/CallGraph.v ===== *)
(** benchmarks/DMon_filter: find_call_graph.py and adapt_to_bpf.py, which follow the
    calls of a lock function through the kernel sources until a function that a policy
    can be attached to.  The two scripts share their helpers but for two more early
    returns in adapt_to_bpf.py; the shared code takes the script as an argument. *)

From S2P Require Import Prelude PyStr PyRe PyPath Effect Os.

Inductive script := AdaptToBpf | FindCallGraph.

Definition target_bpf_functions : list string := ["queued_spin_lock_slowpath"; "queued_spin_lock"].

(** * The text of a definition *)

(** How the search for a definition ends: a value, a list of statements that is printed
    before it is returned, or an exception. *)
Inductive scanned :=
| Content (v : option (list string))
| Statements (l : list string)
| Failed (e : exn).

(** [\{(.*?)\}], with the star lazy *)
Definition braces_re : re := RSeq (rlit "{") (RSeq (RGroup 1 (RStar false dot)) (rlit "}")).

Definition statements_of (next_line : string) : list string :=
  concat (map (fun m => map strip (split (group 1 m.2) ";")) (findall braces_re next_line)).

(** The value after the loop: the mapped name of a one-line macro, or the lines between
    the markers. *)
Definition between_markers (lines : list string) (start end_ : nat) (is_mapping : bool) :
    list string :=
  let slice_ := firstn (end_ - start) (skipn start lines) in
  if is_mapping then
    match words (nth start lines "") with
    | [_; _; mapping] => [mapping]
    | _ => slice_
    end
  else slice_.

Definition index_error : exn := Exn CIndexError "list index out of range".

(** The tests on the line of the definition, line [i]: an early end, or what they set. *)
Inductive line_end :=
| Early (s : scanned)
| Mapping
| Marker.

Definition definition_line (sc : script) (lines : list string) (i : nat) (line : string) : line_end :=
  let define := startswith line "#define" in
  let continued := define && (0 <? find line "\") in
  let adapt := match sc with AdaptToBpf => true | FindCallGraph => false end in
  let rest :=
    if adapt && endswith line ";" then Early (Content None)
    else if define && negb (endswith line "\") then Mapping
    else Marker in
  if continued then
    match lines !! S i with
    | None => Early (Failed index_error)
    | Some next_line =>
        if find next_line "{" =? -1 then Early (Content (Some [next_line]))
        else if adapt && contains line "{ }" then Early (Content None)
        else if (0 <? find next_line "{") && (0 <? find next_line "}")
        then Early (Statements (statements_of next_line))
        else rest
    end
  else if adapt && define && contains line "{ }" then Early (Content None)
  else rest.

(** The loop over the lines from line [i] on; [start] is [start_index] once the line of
    the definition is passed. *)
Fixpoint scan (sc : script) (lines : list string) (n : Z) (i : nat) (todo : list string)
    (start : option nat) : scanned :=
  match todo with
  | [] => Content None
  | line :: todo' =>
      let next start :=
        match start with
        | Some s => if startswith line "}" then Content (Some (between_markers lines s i false))
                    else scan sc lines n (S i) todo' start
        | None => scan sc lines n (S i) todo' start
        end in
      if Z.of_nat i =? n - 1 then
        match definition_line sc lines i line with
        | Early s => s
        | Mapping => Content (Some (between_markers lines i (S i) true))
        | Marker => next (Some (i + 2)%nat)
        end
      else next start
  end.

Definition not_an_int (s : string) : exn :=
  Exn CValueError ("invalid literal for int() with base 10: " +:+ repr_str s).

Definition scan_text (sc : script) (text line_number : string) : scanned :=
  match splitlines text with
  | [] => Content None
  | lines =>
      match py_int line_number with
      | None => Failed (not_an_int line_number)
      | Some n => scan sc lines n O lines None
      end
  end.

(** [except FileNotFoundError ... except Exception as e]: both print and give [None]. *)
Definition reported {A} (file_path : string) (m : IO (option A)) : IO (option A) :=
  try_except
    (try_except m CFileNotFoundError
       (fun _ => print ("Error: The file '" +:+ file_path +:+ "' could not be found.") ;; ret None))
    CException (fun e => print ("An error occurred: " +:+ emsg e) ;; ret None).

Definition find_function_content (sc : script) (file_path function_name line_number : string) :
    IO (option (list string)) :=
  reported file_path
    (do text <- read_file file_path;
     match scan_text sc text line_number with
     | Content v => ret v
     | Statements l => print ("next line : " +:+ repr_list l) ;; ret (Some l)
     | Failed e => raise (ecls e) (emsg e)
     end).

(** * The parameters of a definition *)

(** The text between the first opening and the last closing parenthesis, at commas. *)
Definition parameters_of (line : string) : list string :=
  let start := find line "(" in
  let end_ := rfind line ")" in
  split (slice line (start + 1) end_) ",".

Definition arguments_of (line : string) : list string :=
  if (find line "(" =? -1) || (rfind line ")" =? -1) then []
  else map strip (parameters_of line).

Definition find_function_arguments (file_path function_name line_number : string) :
    IO (option (list string)) :=
  reported file_path
    (do text <- read_file file_path;
     match splitlines text with
     | [] => ret None
     | lines =>
         match py_int line_number with
         | None => raise CValueError (emsg (not_an_int line_number))
         | Some n =>
             ret (if 1 <=? n then arguments_of <$> lines !! Z.to_nat (n - 1) else None)
         end
     end).

(** * Following the calls *)

(** [pipeline commands cwd t] is the decoded output of the shell pipeline in a directory of
    the tree [t], or the exception of starting or decoding it. *)
Class Shell := pipeline : list string → string → node → string + exn.

Definition cscope_pipeline (sc : script) (function_name : string) : list string :=
  ["cscope -dL -1 " +:+ function_name; "awk '{print $1,$3}'"; "awk '/^(kernel\/|include\/)/'"] ++
  match sc with AdaptToBpf => ["awk '!/debug/'"] | FindCallGraph => [] end.

Section Search.
Context `{Shell} (sc : script).

Definition execute_global_command (function_name target_directory : string) : IO (option string) :=
  do w <- get;
  match pipeline (cscope_pipeline sc function_name) target_directory (root w) with
  | inl output => ret (Some output)
  | inr e => print ("An error occurred: " +:+ emsg e) ;; ret None
  end.

(** [execute_global_command(...).strip().split()] *)
Definition definition_parts (function_name source_path : string) : IO (list string) :=
  do out <- execute_global_command function_name source_path;
  match out with
  | None => raise CAttributeError "'NoneType' object has no attribute 'strip'"
  | Some function_info => ret (words (strip function_info))
  end.

Fixpoint pairs (parts : list string) : list (string * string) :=
  match parts with
  | a :: b :: l => (a, b) :: pairs l
  | _ => []
  end.

Definition not_iterable : exn := Exn CTypeError "'NoneType' object is not iterable".

(** The statements of a callee, looked through for a lock function among its calls; a
    call of one of its own parameters stands for the argument given for it. *)
Fixpoint search_statements (content : list string) (arguments : option (list string))
    (parameters : list string) : outcome (option string) :=
  match content with
  | [] => Ret None
  | instruction :: content' =>
      let instruction := strip instruction in
      let i := find instruction "(" in
      if i =? -1 then search_statements content' arguments parameters
      else
        let callee := strip (slice_to instruction i) in
        match arguments with
        | None => Raise (Exn CTypeError "object of type 'NoneType' has no len()")
        | Some args =>
            let actual :=
              match list_find (fun a => a = callee) args with
              | Some (k, _) => parameters !! k
              | None => Some callee
              end in
            match actual with
            | None => Raise index_error
            | Some callee =>
                if contains callee "spin_lock" then Ret (Some callee)
                else search_statements content' arguments parameters
            end
        end
  end.

(** Only the first definition is looked at; find_call_graph.py takes its path for its
    line number and the other way round. *)
Definition find_call_stack_with_arguments (function_name source_path : string)
    (parameters : list string) : IO (option string) :=
  try_except
    (do parts <- definition_parts function_name source_path;
     if negb (Nat.even (length parts)) then
       print "The list must be even length" ;; ret None
     else
       match pairs parts with
       | [] => ret None
       | (p1, p2) :: _ =>
           let '(file, line_number) :=
             match sc with AdaptToBpf => (p1, p2) | FindCallGraph => (p2, p1) end in
           let function_path := source_path +:+ "/" +:+ file in
           do content <- find_function_content sc function_path function_name line_number;
           do arguments <- find_function_arguments function_path function_name line_number;
           match content with
           | None => raise (ecls not_iterable) (emsg not_iterable)
           | Some content => fun w => (search_statements content arguments parameters, w)
           end
       end)
    CException (fun e => print ("An error occurred: " +:+ emsg e) ;; ret None).
End Search.

(** ** adapt_to_bpf.py *)

Module Adapt.
Section Adapt.
Context `{Shell} (source_path : string).

Abbreviation with_arguments := (find_call_stack_with_arguments AdaptToBpf).

Definition valid_caller (function_name function_path line_number : string) : string :=
  "valid caller" +:+ function_name +:+ ", " +:+ function_path +:+ "," +:+ line_number.

(** The loop over the statements of one definition: whether it returned [True], and the
    variable [found]. *)
Fixpoint statements (rec : string → IO (option bool)) (function_name function_path line_number : string)
    (content : list string) (found : bool) : IO (bool * bool) :=
  match content with
  | [] => ret (false, found)
  | instruction :: content' =>
      let next := statements rec function_name function_path line_number content' in
      let instruction := strip instruction in
      let i := find instruction "(" in
      let follow callee :=
        do r <- rec callee;
        if bool_decide (r = Some true)
        then print (valid_caller function_name function_path line_number) ;; next true
        else next found in
      if i =? -1 then next found
      else
        let callee := strip (slice_to instruction i) in
        if bool_decide (callee ∈ target_bpf_functions)
        then print ("End of Stack: Found:" +:+ function_name) ;; ret (true, found)
        else if contains callee "spin_lock" then follow callee
        else if rfind instruction ")" =? -1
        then print "error when parsing arguments" ;; next found
        else
          do c <- with_arguments callee source_path (parameters_of instruction);
          match c with
          | None => next found
          | Some c => follow c
          end
  end.

(** The loop over the definitions; [found] is unbound until a definition has statements. *)
Fixpoint definitions (rec : string → IO (option bool)) (function_name : string)
    (defs : list (string * string)) (found : option bool) : IO bool :=
  match defs with
  | [] =>
      match found with
      | Some b => ret b
      | None => raise CUnboundLocalError "local variable 'found' referenced before assignment"
      end
  | (file, line_number) :: defs' =>
      let function_path := source_path +:+ "/" +:+ file in
      do content <- find_function_content AdaptToBpf function_path function_name line_number;
      do arguments <- find_function_arguments function_path function_name line_number;
      match content with
      | None => definitions rec function_name defs' found
      | Some content =>
          do r <- statements rec function_name function_path line_number content false;
          if r.1 then ret true else definitions rec function_name defs' (Some r.2)
      end
  end.

(** [depth] is the number of nested calls of the search the interpreter's stack has room for.
    The frames of the helpers are not counted: where they take the last of the room the
    RecursionError comes from one of them, a level earlier, and is caught by the same clause. *)
Fixpoint find_call_stack (depth : nat) (function_name : string) : IO (option bool) :=
  match depth with
  | O => raise CRecursionError "maximum recursion depth exceeded"
  | S depth' =>
      try_except
        (do parts <- definition_parts AdaptToBpf function_name source_path;
         print ("source files :" +:+ repr_list parts) ;;
         if negb (Nat.even (length parts)) then print "The list must be even length" ;; ret None
         else
           do found <- definitions (find_call_stack depth') function_name (pairs parts) None;
           ret (Some found))
        CException (fun e => print ("An error occurred: " +:+ emsg e) ;; ret None)
  end.
End Adapt.

Definition main `{Shell} (depth : nat) : IO unit :=
  do r <- find_call_stack "/home/syncord/SynCord-linux-base" depth "spin_lock"; ret tt.
End Adapt.

(** ** find_call_graph.py *)

Module Graph.
Section Graph.
Context `{Shell} (source_path : string).

(** The functions the two scripts share the text of, as this script has them. *)
Definition graph_function_content := find_function_content FindCallGraph.
Definition graph_function_arguments := find_function_arguments.
Definition graph_global_command := execute_global_command FindCallGraph.
Definition graph_call_stack_with_arguments := find_call_stack_with_arguments FindCallGraph.

(** The loop over the statements: whether it returned. *)
Fixpoint statements (rec : string → IO unit) (content : list string) : IO bool :=
  match content with
  | [] => ret false
  | instruction :: content' =>
      let next := statements rec content' in
      let instruction := strip instruction in
      let i := find instruction "(" in
      if i =? -1 then print "invalid function call" ;; next
      else
        let callee := strip (slice_to instruction i) in
        if bool_decide (callee ∈ target_bpf_functions)
        then print "End of Stack: Found" ;; ret true
        else if contains callee "spin_lock"
        then print ("callee : " +:+ callee) ;; rec callee ;; next
        else if rfind instruction ")" =? -1
        then print "error when parsing arguments" ;; next
        else
          do c <- graph_call_stack_with_arguments callee source_path (parameters_of instruction);
          match c with
          | None => next
          | Some c => print ("found in callee: " +:+ c) ;; rec c ;; next
          end
  end.

Fixpoint definitions (rec : string → IO unit) (function_name : string)
    (defs : list (string * string)) : IO unit :=
  match defs with
  | [] => ret tt
  | (file, line_number) :: defs' =>
      let function_path := source_path +:+ "/" +:+ file in
      do content <- graph_function_content function_path function_name line_number;
      do arguments <- graph_function_arguments function_path function_name line_number;
      print ("content: " +:+ match content with Some c => repr_list c | None => "None" end) ;;
      match content with
      | None => raise (ecls not_iterable) (emsg not_iterable)
      | Some content =>
          do r <- statements rec content;
          if r then ret tt else definitions rec function_name defs'
      end
  end.

Fixpoint find_call_stack (depth : nat) (function_name : string) : IO unit :=
  match depth with
  | O => raise CRecursionError "maximum recursion depth exceeded"
  | S depth' =>
      try_except
        (do parts <- definition_parts FindCallGraph function_name source_path;
         print ("source files :" +:+ repr_list parts) ;;
         if negb (Nat.even (length parts)) then print "The list must be even length"
         else definitions (find_call_stack depth') function_name (pairs parts))
        CException (fun e => print ("An error occurred: " +:+ emsg e) ;; ret tt)
  end.
End Graph.

Definition main `{Shell} (depth : nat) : IO unit :=
  find_call_stack "/usr/src/linux-source-5.4.0" depth "spin_lock".
End Graph.

(** * Facts *)

(** ** What the searches compute, as functions of the tree *)

Definition content_of (sc : script) (file : option node) (line_number : string) :
    option (list string) :=
  match file with
  | Some (File x _) =>
      match scan_text sc (universal_newlines x) line_number with
      | Content v => v
      | Statements l => Some l
      | Failed _ => None
      end
  | _ => None
  end.

(** Everything of the process but what it has printed. *)
Definition quiet (w : world) : world := set_console [] w.

(** A search only prints and does not end the program: it gives a value, or raises an
    exception that [except Exception] catches. *)
Definition searches {A} (m : IO A) : Prop :=
  ∀ w, quiet (m w).2 = quiet w ∧
    match (m w).1 with Ret _ => True | Raise e => is_subclass (ecls e) CException = true | Exit _ => False end.

Lemma searches_ret {A} (a : A) : searches (ret a).
Proof. done. Qed.

Lemma searches_raise {A} c s : is_subclass c CException = true → searches (raise (A := A) c s).
Proof. done. Qed.

Lemma searches_print s : searches (print s).
Proof. done. Qed.

Lemma searches_bind {A B} (m : IO A) (k : A → IO B) :
  searches m → (∀ a, searches (k a)) → searches (bind m k).
Proof.
  intros Hm Hk w. specialize (Hm w). unfold bind. destruct (m w) as [[a|e|c] w1]; simpl in *.
  - destruct Hm as [Hq _]. destruct (Hk a w1) as [Hq' Ho]. by rewrite Hq', Hq.
  - done.
  - done.
Qed.

Lemma searches_read p : searches (read_file p).
Proof. intros w. unfold read_file, bind, get. by destruct (at_path w p) as [[]|]. Qed.

(** A body whose exceptions are reported always gives a value. *)
Lemma caught_run {A} (m : IO A) a0 w :
  searches m →
  ∃ w', try_except m CException (fun e => print ("An error occurred: " +:+ emsg e) ;; ret a0) w =
          (Ret (match (m w).1 with Ret a => a | _ => a0 end), w') ∧ quiet w' = quiet w.
Proof.
  intros Hm. destruct (Hm w) as [Hq Ho]. unfold try_except.
  destruct (m w) as [[a|e|c] w1]; simpl in *; [by exists w1| |done].
  rewrite Ho. eexists. split; [done|]. by rewrite <- Hq.
Qed.

Lemma searches_run {A} (m : IO A) : (∀ w, ∃ a w', m w = (Ret a, w') ∧ quiet w' = quiet w) → searches m.
Proof. intros H w. destruct (H w) as (a & w' & -> & Hq). done. Qed.

Create HintDb searches discriminated.
#[export] Hint Resolve searches_ret searches_raise searches_print searches_bind searches_read : searches.

Lemma searches_bind_inv {A B} (m : IO A) (k : A → IO B) w b w'' :
  searches m → bind m k w = (Ret b, w'') →
  ∃ a w', m w = (Ret a, w') ∧ quiet w' = quiet w ∧ k a w' = (Ret b, w'').
Proof.
  intros Hm (a & w' & H1 & H2)%bind_Ret_inv. destruct (Hm w) as [Hq _]. rewrite H1 in Hq. eauto.
Qed.

(** By the structure of the search. *)
Ltac searches :=
  repeat match goal with
  | |- searches (bind _ _) => apply searches_bind; [|intros ?]
  | |- searches (if ?b then _ else _) => destruct b
  | |- searches (match ?b with _ => _ end) => destruct b
  | |- searches (raise _ _) => by apply searches_raise
  | |- searches _ => solve [eauto with searches]
  end.

Lemma reported_run {A} p (m : IO (option A)) w :
  searches m →
  ∃ w', reported p m w = (Ret (match (m w).1 with Ret v => v | _ => None end), w') ∧
    quiet w' = quiet w.
Proof.
  intros Hm. destruct (Hm w) as [Hq Ho]. unfold reported, try_except.
  destruct (m w) as [[v|e|c] w1]; simpl in *; [by eauto| |done].
  destruct (is_subclass (ecls e) CFileNotFoundError); [eexists; split; [done|]; by rewrite <- Hq|].
  rewrite Ho. eexists. split; [done|]. by rewrite <- Hq.
Qed.

(** The exceptions of the scan are those of [lines[...]] and [int(...)]. *)
Lemma scan_failed sc lines n i todo start e :
  scan sc lines n i todo start = Failed e → e = index_error.
Proof.
  revert i start. induction todo as [|line todo IH]; intros i start; cbn [scan]; [done|].
  assert (Hnext : ∀ st, match st with
      | Some s => if startswith line "}" then Content (Some (between_markers lines s i false))
                  else scan sc lines n (S i) todo st
      | None => scan sc lines n (S i) todo st end = Failed e → e = index_error).
  { intros [s|]; [destruct (startswith line "}"); [done|]|]; apply IH. }
  destruct (Z.of_nat i =? n - 1); [|apply Hnext].
  destruct (definition_line sc lines i line) as [s| |] eqn:Ed; [|done|apply (Hnext (Some _))].
  intros ->. unfold definition_line in Ed. repeat case_match; simplify_eq; done.
Qed.

Lemma searches_scan sc text l :
  searches (match scan_text sc text l with
            | Content v => ret v
            | Statements l => print ("next line : " +:+ repr_list l) ;; ret (Some l)
            | Failed e => raise (ecls e) (emsg e)
            end).
Proof.
  unfold scan_text. destruct (splitlines text) as [|x lines]; [done|].
  destruct (py_int l) as [n|]; [|done].
  destruct (scan sc (x :: lines) n 0 (x :: lines) None) as [v|ls|e] eqn:E; [done|done|].
  apply scan_failed in E as ->. done.
Qed.

Lemma find_function_content_run sc p f l w :
  ∃ w', find_function_content sc p f l w = (Ret (content_of sc (at_path w p) l), w') ∧
    quiet w' = quiet w.
Proof.
  unfold find_function_content.
  match goal with |- context [reported p ?m w] => destruct (reported_run p m w) as (w' & E & Hq) end;
    [|exists w'; split; [rewrite E; f_equal; f_equal|exact Hq]].
  { apply searches_bind; [apply searches_read|]. intros t. apply searches_scan. }
  unfold read_file, bind, get, content_of. destruct (at_path w p) as [[x m|es]|]; [|done|done].
  simpl. by destruct (scan_text sc (universal_newlines x) l).
Qed.

Definition arguments_at (file : option node) (line_number : string) : option (list string) :=
  match file with
  | Some (File x _) =>
      match splitlines (universal_newlines x), py_int line_number with
      | [], _ | _, None => None
      | lines, Some n => if 1 <=? n then arguments_of <$> lines !! Z.to_nat (n - 1) else None
      end
  | _ => None
  end.

Lemma find_function_arguments_run p f l w :
  ∃ w', find_function_arguments p f l w = (Ret (arguments_at (at_path w p) l), w') ∧
    quiet w' = quiet w.
Proof.
  unfold find_function_arguments.
  match goal with |- context [reported p ?m w] => destruct (reported_run p m w) as (w' & E & Hq) end;
    [searches|]. exists w'. split; [rewrite E; f_equal; f_equal|exact Hq].
  unfold read_file, bind, get, arguments_at. destruct (at_path w p) as [[x m|es]|]; [|done|done].
  simpl. destruct (splitlines (universal_newlines x)); [done|]. by destruct (py_int l).
Qed.

Lemma at_path_quiet w w' p : quiet w' = quiet w → at_path w' p = at_path w p.
Proof.
  intros Hq. change (at_path (quiet w') p = at_path (quiet w) p). by rewrite Hq.
Qed.

Lemma searches_content sc p f l : searches (find_function_content sc p f l).
Proof. apply searches_run. intros w. destruct (find_function_content_run sc p f l w); eauto. Qed.

Lemma searches_arguments p f l : searches (find_function_arguments p f l).
Proof. apply searches_run. intros w. destruct (find_function_arguments_run p f l w); eauto. Qed.

Lemma searches_search content args ps : searches (fun w => (search_statements content args ps, w)).
Proof.
  intros w. split; [done|]. simpl. induction content as [|i content IH]; simpl; [done|].
  repeat case_match; simplify_eq; try done.
Qed.

#[export] Hint Resolve searches_content searches_arguments searches_search : searches.

Section SearchFacts.
Context `{Shell} (sc : script) (source_path : string).

(** The places cscope lists for a function. *)
Definition parts_of (w : world) (f : string) : list string :=
  match pipeline (cscope_pipeline sc f) source_path (root w) with
  | inl out => words (strip out)
  | inr _ => []
  end.

Lemma searches_parts f : searches (definition_parts sc f source_path).
Proof.
  intros w. unfold definition_parts, execute_global_command, bind, get.
  by destruct (pipeline _ _ _).
Qed.

Lemma definition_parts_run f w :
  definition_parts sc f source_path w = (Ret (parts_of w f), w) ∨
  parts_of w f = [] ∧ ∃ e w', definition_parts sc f source_path w = (Raise e, w').
Proof.
  unfold definition_parts, execute_global_command, bind, get, parts_of.
  destruct (pipeline _ _ _); [by left|]. right. eauto.
Qed.

(** The place of the first definition, in the order the script reads it. *)
Definition first_place (p1 p2 : string) : string * string :=
  match sc with AdaptToBpf => (p1, p2) | FindCallGraph => (p2, p1) end.

(** The function that [h] calls with a lock in its name, when given the parameters. *)
Definition through (w : world) (h : string) (ps : list string) (g : string) : Prop :=
  ∃ p1 p2 rest content,
    let '(file, line) := first_place p1 p2 in
    let path := source_path +:+ "/" +:+ file in
    pairs (parts_of w h) = (p1, p2) :: rest ∧
    content_of sc (at_path w path) line = Some content ∧
    search_statements content (arguments_at (at_path w path) line) ps = Ret (Some g).

Lemma with_arguments_run h ps w :
  ∃ v w', find_call_stack_with_arguments sc h source_path ps w = (Ret v, w') ∧
    quiet w' = quiet w ∧ ∀ g, v = Some g → through w h ps g.
Proof.
  unfold find_call_stack_with_arguments.
  match goal with |- context [try_except ?m] => destruct (caught_run m None w) as (w' & E & Hq) end.
  { apply searches_bind; [apply searches_parts|]. intros parts.
    destruct (negb _); [searches|]. destruct (pairs parts) as [|[p1 p2] rest]; [searches|].
    destruct sc; searches. }
  eexists _, w'. split; [exact E|]. split; [exact Hq|]. clear E Hq w'. intros g Hg.
  destruct (definition_parts_run h w) as [Hp|[_ (e & w' & Hp)]]; unfold bind at 1 in Hg;
    rewrite Hp in Hg; [|done].
  destruct (negb _); [done|]. destruct (pairs (parts_of w h)) as [|[p1 p2] rest] eqn:Eps; [done|].
  unfold through. exists p1, p2, rest. rewrite Eps. unfold first_place.
  destruct (match sc with AdaptToBpf => (p1, p2) | FindCallGraph => (p2, p1) end) as [file line].
  set (path := source_path +:+ "/" +:+ file) in *.
  destruct (find_function_content_run sc path h line w) as (w1 & E1 & Hq1).
  rewrite (bind_Ret _ _ _ _ _ E1) in Hg.
  destruct (find_function_arguments_run path h line w1) as (w2 & E2 & Hq2).
  rewrite (bind_Ret _ _ _ _ _ E2) in Hg. rewrite (at_path_quiet _ _ _ Hq1) in Hg.
  destruct (content_of sc (at_path w path) line) as [content|]; [|done].
  exists content. split; [done|]. split; [done|]. simpl in Hg.
  destruct (search_statements _ _ ps) as [[v|]|e|c]; simplify_eq; done.
Qed.
End SearchFacts.

(** ** adapt_to_bpf.py *)

(** The name before the first parenthesis of a statement. *)
Definition callee_of (stmt : string) : option string :=
  let s := strip stmt in
  let i := find s "(" in
  if i =? -1 then None else Some (strip (slice_to s i)).

Section AdaptFacts.
Context `{Shell} (source_path : string).

Abbreviation parts := (parts_of AdaptToBpf source_path).

(** A statement of a definition of [f] in the tree of [w]. *)
Definition statement_of (w : world) (f stmt : string) : Prop :=
  ∃ file line content, (file, line) ∈ pairs (parts w f) ∧
    content_of AdaptToBpf (at_path w (source_path +:+ "/" +:+ file)) line = Some content ∧
    stmt ∈ content.

(** [f] calls [g], or passes to a function it calls what that function calls as [g]. *)
Inductive calls (w : world) (f : string) : string → Prop :=
| calls_direct stmt g : statement_of w f stmt → callee_of stmt = Some g → calls w f g
| calls_through stmt h g :
    statement_of w f stmt → callee_of stmt = Some h →
    through AdaptToBpf source_path w h (parameters_of (strip stmt)) g → calls w f g.

(** A chain of calls from [f] to a function a policy can be attached to. *)
Definition leads (w : world) (f : string) : Prop :=
  ∃ t, t ∈ target_bpf_functions ∧ tc (calls w) f t.

Lemma searches_with f ps : searches (find_call_stack_with_arguments AdaptToBpf f source_path ps).
Proof. apply searches_run. intros w. destruct (with_arguments_run AdaptToBpf source_path f ps w) as (?&?&?&?&_). eauto. Qed.

#[local] Hint Resolve searches_with searches_parts : searches.

Lemma searches_statements rec f p l content found :
  (∀ g, searches (rec g)) → searches (Adapt.statements source_path rec f p l content found).
Proof.
  intros Hrec. revert found. induction content as [|i content IH]; intros found; simpl; searches.
Qed.

Lemma searches_definitions rec f defs found :
  (∀ g, searches (rec g)) → searches (Adapt.definitions source_path rec f defs found).
Proof.
  intros Hrec. revert found. induction defs as [|[a b] defs IH]; intros found; simpl; searches.
  by apply searches_statements.
Qed.

Lemma find_call_stack_total d f w :
  ∃ v w', Adapt.find_call_stack source_path (S d) f w = (Ret v, w') ∧ quiet w' = quiet w.
Proof.
  revert f w. induction d as [|d IH]; intros f w; cbn [Adapt.find_call_stack];
    match goal with |- context [try_except ?m] => destruct (caught_run m None w) as (w' & E & Hq) end;
    [|by eauto| |by eauto]; searches; apply searches_definitions; intros g.
  - by apply searches_raise.
  - apply searches_run. intros w1. apply IH.
Qed.

Lemma searches_stack d f : searches (Adapt.find_call_stack source_path d f).
Proof.
  destruct d as [|d]; [by apply searches_raise|]. apply searches_run. intros w.
  apply find_call_stack_total.
Qed.

(** The statements of a definition give [True], or set [found], only on account of a call
    that leads on. *)
Definition call_leads (w : world) (stmt : string) : Prop :=
  ∃ h g, callee_of stmt = Some h ∧ leads w g ∧
    (g = h ∨ through AdaptToBpf source_path w h (parameters_of (strip stmt)) g).

Lemma at_path_through w w' h ps g :
  quiet w' = quiet w → through AdaptToBpf source_path w' h ps g →
  through AdaptToBpf source_path w h ps g.
Proof.
  intros Hq (p1 & p2 & rest & content & H1 & H2 & H3). exists p1, p2, rest, content. simpl in *.
  rewrite !(at_path_quiet _ _ _ Hq) in *. split; [|done].
  unfold parts_of in *. change (root w) with (root (quiet w)). by rewrite <- Hq.
Qed.

Definition justified (w0 : world) (content : list string) (found : bool) (r : bool * bool) : Prop :=
  (r.1 = true → ∃ stmt t, stmt ∈ content ∧ callee_of stmt = Some t ∧ t ∈ target_bpf_functions) ∧
  (r.2 = true → found = true ∨ ∃ stmt, stmt ∈ content ∧ call_leads w0 stmt).

Lemma justified_cons w0 i content found r :
  justified w0 content found r → justified w0 (i :: content) found r.
Proof.
  intros [H1 H2]. split.
  - intros Hb. destruct (H1 Hb) as (stmt & t & Hin & Ht). exists stmt, t. set_solver.
  - intros Hf. destruct (H2 Hf) as [|(stmt & Hin & Hc)]; [auto|]. right. exists stmt. set_solver.
Qed.

Lemma justified_found w0 i content found r :
  call_leads w0 i → justified w0 content true r → justified w0 (i :: content) found r.
Proof.
  intros Hi [H1 _]. split; [|intros _; right; exists i; set_solver].
  intros Hb. destruct (H1 Hb) as (stmt & t & Hin & Ht). exists stmt, t. set_solver.
Qed.

(** What is needed of the recursive calls. *)
Definition sound_rec (w0 : world) (rec : string → IO (option bool)) : Prop :=
  (∀ g, searches (rec g)) ∧
  ∀ g w w', quiet w = quiet w0 → rec g w = (Ret (Some true), w') → leads w0 g.

Lemma follow_sound rec (next : bool → IO (bool * bool)) msg w0 i content found g w r w' :
  sound_rec w0 rec →
  (∀ found w, quiet w = quiet w0 → next found w = (Ret r, w') → justified w0 content found r) →
  (do b <- rec g; if bool_decide (b = Some true) then print msg ;; next true else next found) w =
    (Ret r, w') →
  quiet w = quiet w0 → (leads w0 g → call_leads w0 i) → justified w0 (i :: content) found r.
Proof.
  intros [Hs Hrec] Hnext E Hq Hg. apply searches_bind_inv in E as (b & w2 & Er & Hq2 & E); [|done].
  case_bool_decide as Hr.
  - subst b. apply searches_bind_inv in E as (? & w3 & _ & Hq3 & E); [|done].
    apply justified_found; [by apply Hg, (Hrec _ _ _ Hq Er)|]. apply (Hnext _ w3); congruence.
  - apply justified_cons, (Hnext _ w2); congruence.
Qed.

Lemma statements_sound rec f p l w0 content found w r w' :
  sound_rec w0 rec → quiet w = quiet w0 →
  Adapt.statements source_path rec f p l content found w = (Ret r, w') →
  justified w0 content found r.
Proof.
  intros Hrec. revert found w.
  induction content as [|i content IH]; intros found w Hq E; cbn [Adapt.statements] in E.
  { injection E as <- _. split; [done|auto]. }
  destruct (find (strip i) "(" =? -1) eqn:Ei; [by apply justified_cons, (IH found w)|].
  assert (Hcallee : callee_of i = Some (strip (slice_to (strip i) (find (strip i) "("))))
    by (unfold callee_of; by rewrite Ei).
  set (h := strip (slice_to (strip i) (find (strip i) "("))) in *.
  case_bool_decide as Ht.
  { apply searches_bind_inv in E as (? & w1 & _ & _ & E); [|done]. injection E as <- _.
    split; [|auto]. intros _. exists i, h. set_solver. }
  destruct (contains h "spin_lock").
  { eapply follow_sound; [done|exact IH|exact E|done|]. intros Hl. exists h, h. auto. }
  destruct (rfind (strip i) ")" =? -1).
  { apply searches_bind_inv in E as (? & w1 & _ & Hq1 & E); [|done].
    apply justified_cons, (IH _ w1); congruence. }
  destruct (with_arguments_run AdaptToBpf source_path h (parameters_of (strip i)) w)
    as (v & w1 & Ev & Hq1 & Hth).
  rewrite (bind_Ret _ _ _ _ _ Ev) in E.
  destruct v as [g|]; [|apply justified_cons, (IH _ w1); congruence].
  eapply follow_sound; [done|exact IH|exact E|congruence|]. intros Hl. exists h, g.
  split; [done|]. split; [done|]. right. apply (at_path_through w0 w); [done|]. by apply Hth.
Qed.

Lemma call_leads_statement w0 f stmt : statement_of w0 f stmt → call_leads w0 stmt → leads w0 f.
Proof.
  intros Hst (h & g & Hc & (t & Ht & Htc) & Hg). exists t. split; [done|].
  eapply tc_l; [|exact Htc]. destruct Hg as [->|Hg]; [by eapply calls_direct|by eapply calls_through].
Qed.

Lemma definitions_sound rec f w0 defs found w w' :
  sound_rec w0 rec → quiet w = quiet w0 → (∀ d, d ∈ defs → d ∈ pairs (parts w0 f)) →
  Adapt.definitions source_path rec f defs found w = (Ret true, w') →
  found = Some true ∨ leads w0 f.
Proof.
  intros Hrec. revert found w. induction defs as [|[file line] defs IH]; intros found w Hq Hin E;
    cbn [Adapt.definitions] in E.
  { destruct found as [[]|]; simplify_eq; auto. }
  set (path := source_path +:+ "/" +:+ file) in *.
  destruct (find_function_content_run AdaptToBpf path f line w) as (w1 & E1 & Hq1).
  rewrite (bind_Ret _ _ _ _ _ E1) in E.
  apply searches_bind_inv in E as (a & w2 & _ & Hq2 & E); [|apply searches_arguments].
  rewrite (at_path_quiet _ _ _ Hq) in E.
  destruct (content_of AdaptToBpf (at_path w0 path) line) as [content|] eqn:Ec.
  2:{ apply (IH found w2); [congruence|set_solver|done]. }
  apply bind_Ret_inv in E as (r & w3 & Er & E).
  assert (Hq3 : quiet w3 = quiet w0).
  { destruct (searches_statements rec f path line content false (proj1 Hrec) w2) as [H1 _].
    rewrite Er in H1. simpl in H1. congruence. }
  apply statements_sound with (w0 := w0) in Er as [H1 H2]; [|done|congruence].
  assert (Hst : ∀ stmt, stmt ∈ content → statement_of w0 f stmt)
    by (intros stmt Hs; exists file, line, content; set_solver).
  destruct r as [[] fd]; simpl in *.
  - right. destruct (H1 eq_refl) as (stmt & t & Hs & Hc & Ht). exists t. split; [done|].
    apply tc_once. eapply calls_direct; eauto.
  - destruct (IH (Some fd) w3 Hq3 ltac:(set_solver) E) as [[= ->]|]; [|by right]. right.
    destruct (H2 eq_refl) as [|(stmt & Hs & Hl)]; [done|]. eapply call_leads_statement; eauto.
Qed.

Lemma find_call_stack_sound d f w0 w w' :
  quiet w = quiet w0 →
  Adapt.find_call_stack source_path d f w = (Ret (Some true), w') → leads w0 f.
Proof.
  revert f w w'. induction d as [|d IH]; intros f w w' Hq E; cbn [Adapt.find_call_stack] in E; [done|].
  match type of E with context [try_except ?m] => destruct (caught_run m None w) as (w1 & E1 & Hq1) end.
  { searches; apply searches_definitions; intros g; apply searches_stack. }
  rewrite E1 in E. injection E as E ->. clear E1 Hq1.
  destruct (definition_parts_run AdaptToBpf source_path f w) as [Hp|[_ (e & w2 & Hp)]];
    unfold bind at 1 in E; rewrite Hp in E; [|done].
  erewrite (bind_Ret (print _)) in E by reflexivity.
  destruct (negb _); [done|]. unfold bind at 1 in E.
  destruct (Adapt.definitions source_path _ f _ None _) as [[[]|?|?] w3] eqn:Ed; [|done..].
  apply definitions_sound with (w0 := w0) in Ed as [|]; [done|done|split|exact Hq|].
  - intros g. apply searches_stack.
  - intros g w4 w5 Hq4. by apply IH.
  - intros p. unfold parts_of. change (root w) with (root (quiet w)). by rewrite Hq.
Qed.

(** A statement that calls a function a policy can be attached to. *)
Definition calls_target (stmt : string) : Prop :=
  ∃ t, callee_of stmt = Some t ∧ t ∈ target_bpf_functions.

Definition total {A} (m : IO A) : Prop := ∀ w, ∃ a w', m w = (Ret a, w') ∧ quiet w' = quiet w.

Lemma total_bind {A B} (m : IO A) (k : A → IO B) w (P : B → Prop) :
  total m → (∀ a w, ∃ b w', k a w = (Ret b, w') ∧ quiet w' = quiet w ∧ P b) →
  ∃ b w', bind m k w = (Ret b, w') ∧ quiet w' = quiet w ∧ P b.
Proof.
  intros Hm Hk. destruct (Hm w) as (a & w1 & E & Hq). destruct (Hk a w1) as (b & w2 & E2 & Hq2 & HP).
  exists b, w2. rewrite (bind_Ret _ _ _ _ _ E). split; [done|]. split; [congruence|done].
Qed.

Lemma total_with h ps : total (find_call_stack_with_arguments AdaptToBpf h source_path ps).
Proof. intros w. destruct (with_arguments_run AdaptToBpf source_path h ps w) as (v & w' & ? & ? & _). eauto. Qed.

Lemma statements_run rec f p l content found w :
  (∀ g, total (rec g)) →
  ∃ r w', Adapt.statements source_path rec f p l content found w = (Ret r, w') ∧
    quiet w' = quiet w ∧ ((∃ stmt, stmt ∈ content ∧ calls_target stmt) → r.1 = true).
Proof.
  intros Hrec. revert found w. induction content as [|i content IH]; intros found w; cbn [Adapt.statements].
  { eexists _, w. split; [done|]. split; [done|]. intros (? & ?%elem_of_nil & _). done. }
  assert (Hnext : ∀ found w, ¬ calls_target i →
    ∃ r w', Adapt.statements source_path rec f p l content found w = (Ret r, w') ∧
      quiet w' = quiet w ∧ ((∃ stmt, stmt ∈ i :: content ∧ calls_target stmt) → r.1 = true)).
  { intros found' w1 Hi. destruct (IH found' w1) as (r & w' & E & Hq & HP). exists r, w'.
    split; [done|]. split; [done|]. intros (stmt & [->|Hs]%elem_of_cons & Ht); [done|]. eauto. }
  unfold calls_target, callee_of in Hnext.
  destruct (find (strip i) "(" =? -1) eqn:Ei; [apply Hnext; naive_solver|].
  case_bool_decide as Ht; [by eexists _, _|].
  assert (Hn : ∀ found w, ∃ r w', Adapt.statements source_path rec f p l content found w = (Ret r, w') ∧
      quiet w' = quiet w ∧ ((∃ stmt, stmt ∈ i :: content ∧ calls_target stmt) → r.1 = true))
    by (intros; apply Hnext; naive_solver). clear Hnext IH.
  repeat match goal with
  | |- ∃ r w', bind _ _ _ = _ ∧ _ => apply total_bind; [first [done | apply Hrec | apply total_with | by intros ?; eauto]|intros ? ?]
  | |- context [if ?b then _ else _] => destruct b
  | |- context [match ?b with Some _ => _ | None => _ end] => destruct b
  | _ => apply Hn
  end.
Qed.

Lemma definitions_run rec f defs found w :
  (∀ g, total (rec g)) →
  (∃ file line content stmt, (file, line) ∈ defs ∧
     content_of AdaptToBpf (at_path w (source_path +:+ "/" +:+ file)) line = Some content ∧
     stmt ∈ content ∧ calls_target stmt) →
  ∃ w', Adapt.definitions source_path rec f defs found w = (Ret true, w').
Proof.
  intros Hrec. revert found w.
  induction defs as [|[file line] defs IH]; intros found w (file0 & line0 & c0 & stmt & Hin & Hc & Hs & Ht);
    [by apply elem_of_nil in Hin|]. cbn [Adapt.definitions].
  set (path := source_path +:+ "/" +:+ file) in *.
  destruct (find_function_content_run AdaptToBpf path f line w) as (w1 & E1 & Hq1).
  rewrite (bind_Ret _ _ _ _ _ E1).
  destruct (find_function_arguments_run path f line w1) as (w2 & E2 & Hq2).
  rewrite (bind_Ret _ _ _ _ _ E2).
  assert (Hlater : ∀ found w', quiet w' = quiet w → (file0, line0) ∈ defs →
    ∃ w'', Adapt.definitions source_path rec f defs found w' = (Ret true, w'')).
  { intros found' w' Hq' Hin'. apply IH. exists file0, line0, c0, stmt. by rewrite (at_path_quiet _ _ _ Hq'). }
  apply elem_of_cons in Hin as [[= -> ->]|Hin].
  - fold path in Hc. rewrite Hc.
    destruct (statements_run rec f path line c0 false w2 Hrec) as (r & w3 & E3 & _ & HP).
    rewrite (bind_Ret _ _ _ _ _ E3), HP by eauto. eauto.
  - destruct (content_of AdaptToBpf (at_path w path) line) as [c|]; [|apply Hlater; [congruence|done]].
    destruct (statements_run rec f path line c false w2 Hrec) as (r & w3 & E3 & Hq3 & _).
    rewrite (bind_Ret _ _ _ _ _ E3). destruct r.1; [eauto|]. apply Hlater; [congruence|done].
Qed.
End AdaptFacts.

(** * Properties *)

(** C21: adapt_to_bpf.py answers [True] for a function only if the sources hold a chain of
    calls from it to a function a policy can be attached to, whatever cscope prints and
    however deep the interpreter's stack is. *)
Theorem adapt_sound `{Shell} source_path depth f w w' :
  Adapt.find_call_stack source_path depth f w = (Ret (Some true), w') → leads source_path w f.
Proof. by apply find_call_stack_sound. Qed.

(** C35: the search of adapt_to_bpf.py always returns: with room for one call on the stack
    no exception leaves it and the program is not left, whatever the sources and the
    output of cscope are, and it changes nothing but what is printed. *)
Theorem adapt_returns `{Shell} source_path depth f w :
  ∃ v w', Adapt.find_call_stack source_path (S depth) f w = (Ret v, w') ∧ quiet w' = quiet w.
Proof. apply find_call_stack_total. Qed.

(** A function one of whose definitions directly calls a function a policy can be
    attached to is always found, when cscope lists places in pairs and the stack has room
    for two calls. *)
Theorem adapt_direct `{Shell} source_path depth f w file line content stmt t :
  Nat.even (length (parts_of AdaptToBpf source_path w f)) = true →
  (file, line) ∈ pairs (parts_of AdaptToBpf source_path w f) →
  content_of AdaptToBpf (at_path w (source_path +:+ "/" +:+ file)) line = Some content →
  stmt ∈ content → callee_of stmt = Some t → t ∈ target_bpf_functions →
  ∃ w', Adapt.find_call_stack source_path (S (S depth)) f w = (Ret (Some true), w').
Proof.
  intros Hev Hin Hc Hs Ht Htt. remember (S depth) as d eqn:Ed. cbn [Adapt.find_call_stack].
  unfold try_except. unfold bind at 1.
  destruct (definition_parts_run AdaptToBpf source_path f w) as [->|[Hnil _]];
    [|by rewrite Hnil in Hin; apply elem_of_nil in Hin].
  erewrite (bind_Ret (print _)) by reflexivity. rewrite Hev. cbn [negb].
  destruct (definitions_run source_path (Adapt.find_call_stack source_path d) f
      (pairs (parts_of AdaptToBpf source_path w f)) None
      (set_console (console w ++ ["source files :" +:+ repr_list (parts_of AdaptToBpf source_path w f)]) w))
    as [w1 E1].
  - intros g w1. subst d. apply find_call_stack_total.
  - exists file, line, content, stmt. do 3 (split; [done|]). by exists t.
  - rewrite (bind_Ret _ _ _ _ _ E1). simpl. eauto.
Qed.

(** ** The sources to evaluate the searches on *)

Definition demo_tree : node :=
  Dir [("k", Dir
    [("kernel", Dir [("a.c", File (join nl
       ["void f(int x)"; "{"; "  spin_lock_x(x);"; "}";
        "void spin_lock_x(int x)"; "{"; "  queued_spin_lock(x);"; "}"]) 420)]);
     ("include", Dir [("b.h", File (join nl ["void f(int x)"; "{"; "  nothing(x);"; "}"]) 420)])])].

Definition demo_shell : Shell := fun cmds d t => inl
  (if String.eqb (hd "" cmds) "cscope -dL -1 f" then join nl ["kernel/a.c 1"; "include/b.h 1"; ""]
   else if String.eqb (hd "" cmds) "cscope -dL -1 spin_lock_x" then "kernel/a.c 5" +:+ nl
   else "").

Definition demo_sources : world := World demo_tree "/" ∅ [] [] [] [] WARNING.

Lemma adapt_direct_witness :
  ∃ w', Adapt.find_call_stack (H := demo_shell) "/k" 2 "spin_lock_x" demo_sources =
          (Ret (Some true), w').
Proof.
  apply (adapt_direct (H := demo_shell) "/k" 0 "spin_lock_x" demo_sources "kernel/a.c" "5"
           ["  queued_spin_lock(x);"] "  queued_spin_lock(x);" "queued_spin_lock");
    try (vm_compute; reflexivity); apply (bool_decide_unpack _); vm_compute; exact I.
Defined.

Lemma adapt_sound_witness : leads (H := demo_shell) "/k" demo_sources "spin_lock_x".
Proof.
  eapply (adapt_sound (H := demo_shell) "/k" 2 "spin_lock_x" demo_sources).
  apply surjective_pairing_Ret. vm_compute. reflexivity.
Defined.

(** [found] is reset for each definition of a function, so a later definition without
    lock calls hides an earlier one that leads to a function a policy can be attached to:
    the answer is [False] although the chain of calls exists. *)
Theorem adapt_found_overwritten :
  ∃ (sh : Shell) w w', leads (H := sh) "/k" w "f" ∧
    Adapt.find_call_stack (H := sh) "/k" 10 "f" w = (Ret (Some false), w').
Proof.
  exists demo_shell, demo_sources. eexists. split.
  - apply (call_leads_statement (H := demo_shell) "/k" _ _ "  spin_lock_x(x);").
    + exists "kernel/a.c", "1", ["  spin_lock_x(x);"].
      split; [apply (bool_decide_unpack _); vm_compute; exact I|].
      split; [vm_compute; reflexivity|set_solver].
    + exists "spin_lock_x", "spin_lock_x". split; [vm_compute; reflexivity|]. split; [|by left].
      eapply (find_call_stack_sound (H := demo_shell) "/k" 2 _ _ demo_sources); [done|].
      apply surjective_pairing_Ret. vm_compute. reflexivity.
  - apply surjective_pairing_Ret. vm_compute. reflexivity.
Qed.

(** A name that starts with a letter is not an integer. *)
Lemma py_int_letter c s :
  isspace c = false → isdigit_char c = false → c ≠ "-"%char → c ≠ "+"%char → c ≠ "_"%char →
  py_int (String c s) = None.
Proof.
  intros Hsp Hd H1 H2 H3. unfold py_int, strip, strip_pred.
  assert (Hr : ∃ t, rstrip_pred isspace (String c s) = String c t)
    by (simpl; destruct (rstrip_pred isspace s); [rewrite Hsp|]; eauto).
  destruct Hr as [t ->]. simpl. rewrite Hsp.
  by rewrite (proj2 (Ascii.eqb_neq _ _) H1), (proj2 (Ascii.eqb_neq _ _) H2),
    (proj2 (Ascii.eqb_neq _ _) H3), Hd.
Qed.

(** Find_call_graph.py never follows a lock passed as an argument: it takes the path
    cscope prints for the line number, and a path that passed its filter, which starts
    with kernel/ or include/, is not a number. *)
Theorem graph_arguments_never `{Shell} source_path h ps w p1 p2 rest :
  pairs (parts_of FindCallGraph source_path w h) = (p1, p2) :: rest →
  startswith p1 "kernel/" || startswith p1 "include/" = true →
  ∃ w', Graph.graph_call_stack_with_arguments h source_path ps w = (Ret None, w').
Proof.
  intros Hp Hf. destruct (with_arguments_run FindCallGraph source_path h ps w) as (v & w' & E & _ & Hth).
  exists w'. unfold Graph.graph_call_stack_with_arguments. rewrite E.
  destruct v as [g|]; [|done]. exfalso.
  destruct (Hth g eq_refl) as (q1 & q2 & rest' & content & H1 & H2 & _). simpl in H1, H2.
  rewrite Hp in H1. injection H1 as <- <- _.
  assert (Hi : py_int p1 = None).
  { apply orb_true_iff in Hf as [[t ->]%startswith_iff|[t ->]%startswith_iff];
      rewrite app_cons_str; by apply py_int_letter. }
  unfold content_of, scan_text in H2. destruct (at_path w _) as [[x m|]|]; [|done|done].
  destruct (splitlines _); [done|]. by rewrite Hi in H2.
Qed.

Lemma graph_arguments_never_witness :
  ∃ w', Graph.graph_call_stack_with_arguments (H := demo_shell) "f" "/k" ["spin_lock"]
          demo_sources = (Ret None, w').
Proof.
  apply (graph_arguments_never (H := demo_shell) "/k" "f" ["spin_lock"] demo_sources
           "kernel/a.c" "1" [("include/b.h", "1")]); vm_compute; reflexivity.
Defined.
