(* ===== verification/CpuInfo.v ===== *)
(** benchmarks/fxmark/bin/cpuinfo.py (Python 2): the processors of the machine, ranges of
    processor numbers, and the prefetcher settings in a model-specific register. *)

From S2P Require Import Prelude PyStr PyDict PyPath Effect Os.

Definition INITCPUINFO : string := "/var/run/initcpuinfo".

(** * /proc/cpuinfo *)

(** A field of a processor. *)
Inductive field := FInt (n : Z) | FStr (s : string).

#[export] Instance field_eq_dec : EqDecision field.
Proof. solve_decision. Defined.

Abbreviation cpu := (list (string * field)).

Definition maybeInt (s : string) : field :=
  if isdigit s then FInt (default 0 (py_int2 s)) else FStr s.

(** ** Range syntax *)

Definition zrange (a b : Z) : list Z := map (fun k => a + Z.of_nat k) (seq 0 (Z.to_nat (b - a))).

Definition int_of (s : string) : Z := default 0 (py_int2 s).

Definition parse_piece (piece : string) : option (list Z) :=
  match split piece "-" with
  | [a] => if isdigit a then Some [int_of a] else None
  | [a; b] => if isdigit a && isdigit b then Some (zrange (int_of a) (int_of b + 1)) else None
  | _ => None
  end.

Fixpoint parse_pieces (pieces : list string) : option (list Z) :=
  match pieces with
  | [] => Some []
  | p :: ps =>
      match parse_piece p, parse_pieces ps with
      | Some l, Some l' => Some (l ++ l')
      | _, _ => None
      end
  end.

Definition parseRange {S} (r : string) : M S (list Z) :=
  if String.eqb (strip2 r) "" then ret []
  else match parse_pieces (split (strip2 r) ",") with
       | Some res => ret res
       | None => raise CValueError ("Invalid range syntax: " +:+ repr_str r)
       end.

(** The spans of consecutive numbers, the last one first. *)
Definition add_span (spans : list (Z * Z)) (c : Z) : list (Z * Z) :=
  match spans with
  | (a, b) :: spans' => if c =? b + 1 then (a, c) :: spans' else (c, c) :: spans
  | [] => [(c, c)]
  end.

Definition str_span (s : Z * Z) : string :=
  if s.1 =? s.2 then str_Z s.1
  else if s.2 =? s.1 + 1 then str_Z s.1 +:+ "," +:+ str_Z s.2
  else str_Z s.1 +:+ "-" +:+ str_Z s.2.

Definition strRange (cpus : list Z) : string :=
  join "," (map str_span (rev (foldl add_span [] cpus))).

(** ** CPU sets *)

Definition getCPUSet (name : string) : IO (list Z) :=
  do text <- read_raw ("/sys/devices/system/cpu/" +:+ name);
  parseRange text.

(** ** Parsing *)

(** [k, v = map(str.strip, line.split(":", 1))] *)
Definition parse_field (line : string) : option (string * field) :=
  match split1 line ":" with
  | [k; v] => Some (strip2 k, maybeInt (strip2 v))
  | _ => None
  end.

Definition add_field (c : cpu) (line : string) : IO cpu :=
  match parse_field line with
  | Some (k, v) => ret (dset k v c)
  | None => raise CValueError "need more than 1 value to unpack"
  end.

Definition field_str (f : field) : string := match f with FInt n => str_Z n | FStr s => s end.

(** [glob.glob("/sys/devices/system/cpu/cpu%d/node*" % processor)], as names. *)
Definition node_files (processor : Z) : IO (list string) :=
  gets (fun w =>
    match at_path w ("/sys/devices/system/cpu/cpu" +:+ str_Z processor) with
    | Some (Dir es) => List.filter (fun n => startswith n "node") (keys es)
    | _ => []
    end).

Definition parse_block (block : string) : IO cpu :=
  do c <- fold_each (splitlines2 block) add_field [];
  do processor <- of_option (dget "processor" c) CKeyError "'processor'";
  match processor with
  | FStr _ => raise CTypeError "%d format: a number is required, not str"
  | FInt n =>
      do nodefiles <- node_files n;
      match nodefiles with
      | [] => ret c
      | f :: _ =>
          do node <- of_option (py_int2 (slice_from f 4)) CValueError
                       ("invalid literal for int() with base 10: " +:+ repr_str (slice_from f 4));
          ret (dset "node" (FInt node) c)
      end
  end.

Definition parseCpuinfo (path : string) : IO (list cpu) :=
  do text <- read_raw path;
  fold_each (split text (nl +:+ nl))
    (fun res block =>
       if String.eqb (strip2 block) "" then ret res
       else do c <- parse_block block; ret (res ++ [c])) [].

(** [int(cpu["processor"])] *)
Definition processor_of (c : cpu) : IO Z :=
  do p <- of_option (dget "processor" c) CKeyError "'processor'";
  match p with
  | FInt n => ret n
  | FStr s => of_option (py_int2 s) CValueError ("invalid literal for int() with base 10: " +:+ repr_str s)
  end.

Fixpoint first_existing (paths : list string) : IO (option string) :=
  match paths with
  | [] => ret None
  | p :: ps => do ex <- path_exists p; if ex then ret (Some p) else first_existing ps
  end.

Definition findCpuinfo (paths : list string) (needCPUs : option (list Z)) : IO (list cpu) :=
  do found <- first_existing paths;
  match found with
  | None => print ("No cpuinfo found (tried " +:+ join ":" paths +:+ ")") ;; sys_exit 1
  | Some path =>
      do cpuinfo <- parseCpuinfo path;
      do need <- (match needCPUs with Some l => ret l | None => getCPUSet "present" end);
      do have <- map_each cpuinfo processor_of;
      when (existsb (fun n => negb (existsb (Z.eqb n) have)) need)
        (print ("Warning: Some processors are missing from " +:+ path +:+
                ".  Are all processors online?") ;;
         do ex <- path_exists INITCPUINFO;
         when (negb ex)
           (print ("Protip:  Add `cp /proc/cpuinfo " +:+ INITCPUINFO +:+ "' to /etc/rc.local."))) ;;
      ret cpuinfo
  end.

(** ** Sockets, cores and threads *)

Definition add_thread (st : list cpu * list (field * field * Z)) (c : cpu) :
    IO (list cpu * list (field * field * Z)) :=
  let '(res, coreidCount) := st in
  do socket <- of_option (dget "physical id" c) CKeyError "'physical id'";
  do coreid <- of_option (dget "core id" c) CKeyError "'core id'";
  let thread := default 0 (dget (socket, coreid) coreidCount) in
  ret (res ++ [dset "thread" (FInt thread) (dset "coreid" coreid (dset "socket" socket c))],
       dset (socket, coreid) (thread + 1) coreidCount).

Definition expandCpuinfo (cpuinfo : list cpu) : IO (list cpu) :=
  do st <- fold_each cpuinfo add_thread ([], []);
  ret st.1.

(** * Prefetcher settings *)

Record NehalemPrefetchSettings := Prefetch {
  dcu_streamer : bool;
  dcu_ip : bool;
  mlc_spatial : bool;
  mlc_streamer : bool
}.

Definition _MSR : Z := 420.
Definition bit_mlc_streamer : Z := 1.
Definition bit_mlc_spatial : Z := 2.
Definition bit_dcu_streamer : Z := 4.
Definition bit_dcu_ip : Z := 8.
Definition _MASK : Z := Z.lnot 15.

(** A prefetcher is on when its bit is clear. *)
Definition from_msr (val : Z) : NehalemPrefetchSettings :=
  let on bit := Z.land val bit =? 0 in
  Prefetch (on bit_dcu_streamer) (on bit_dcu_ip) (on bit_mlc_spatial) (on bit_mlc_streamer).

Definition to_msr (s : NehalemPrefetchSettings) : Z * Z :=
  let add (bits : Z) (on : bool) (bit : Z) := if negb on then Z.lor bits bit else bits in
  (_MASK,
   add (add (add (add 0 (mlc_streamer s) bit_mlc_streamer) (mlc_spatial s) bit_mlc_spatial)
          (dcu_streamer s) bit_dcu_streamer) (dcu_ip s) bit_dcu_ip).

(** The registers of the processors: [None] for a processor without a device file. *)
Abbreviation msrs := (gmap Z (gmap Z Z)).

(** [__openmsr] leaves the program when the device cannot be opened. *)
Definition openmsr (c : Z) : M msrs (gmap Z Z) :=
  do s <- get;
  match s !! c with
  | Some regs => ret regs
  | None => sys_exit 1
  end.

Definition rdmsr (c msr : Z) : M msrs Z :=
  do regs <- openmsr c;
  of_option (regs !! msr) COSError "[Errno 5] Input/output error".

(** [struct.pack('Q', val)] takes 64-bit unsigned values only. *)
Definition wrmsr (c msr val : Z) : M msrs unit :=
  do regs <- openmsr c;
  if (0 <=? val) && (val <? 2 ^ 64)
  then match regs !! msr with
       | Some _ => modify (fun s => <[c := <[msr := val]> regs]> s)
       | None => raise COSError "[Errno 5] Input/output error"
       end
  else raise CException "integer out of range for 'Q' format code".

Definition nehalem_check (vendor : field) (family model : field) : bool :=
  bool_decide (vendor = FStr "GenuineIntel") && bool_decide (family = FInt 6) &&
  existsb (fun m => bool_decide (model = FInt m)) [26; 30; 31; 37; 44; 46; 47].

Definition get_prefetch_settings (c : Z) : M msrs NehalemPrefetchSettings :=
  do v <- rdmsr c _MSR; ret (from_msr v).

Definition set_prefetch_settings (c : Z) (nps : NehalemPrefetchSettings) : M msrs unit :=
  let '(mask, bits) := to_msr nps in
  do v <- rdmsr c _MSR;
  wrmsr c _MSR (Z.lor (Z.land v mask) bits).

Inductive CPUClass := NehalemCPU | UnknownCPU.

Definition getCPUClass : IO CPUClass :=
  do cpus <- findCpuinfo [INITCPUINFO; "/proc/cpuinfo"] None;
  do c <- of_option (head cpus) CIndexError "list index out of range";
  do vendor <- of_option (dget "vendor_id" c) CKeyError "'vendor_id'";
  do family <- of_option (dget "cpu family" c) CKeyError "'cpu family'";
  do model <- of_option (dget "model" c) CKeyError "'model'";
  ret (if nehalem_check vendor family model then NehalemCPU else UnknownCPU).

(** * Facts: ranges *)

Lemma int_of_str_Z z : 0 ≤ z → int_of (str_Z z) = z.
Proof. intros Hz. unfold int_of. by rewrite py_int2_str_Z. Qed.

Lemma zrange_one a : zrange a (a + 1) = [a].
Proof. unfold zrange. replace (Z.to_nat (a + 1 - a)) with 1%nat by lia. simpl. f_equal. lia. Qed.

Lemma zrange_snoc a b : a ≤ b → zrange a (b + 1) = zrange a b ++ [b].
Proof.
  intros Hab. unfold zrange. replace (Z.to_nat (b + 1 - a)) with (S (Z.to_nat (b - a))) by lia.
  rewrite seq_S, map_app. simpl. f_equal. f_equal. lia.
Qed.

Lemma parse_piece_number a : 0 ≤ a → parse_piece (str_Z a) = Some [a].
Proof.
  intros Ha. unfold parse_piece. change "-" with (sep_of "-").
  rewrite split_no_sep by by apply digits_no_char, str_Z_digits.
  by rewrite isdigit_str_Z, int_of_str_Z.
Qed.

Lemma parse_piece_range a b :
  0 ≤ a → 0 ≤ b → parse_piece (str_Z a +:+ "-" +:+ str_Z b) = Some (zrange a (b + 1)).
Proof.
  intros Ha Hb. unfold parse_piece. change "-" with (sep_of "-").
  rewrite split_app, !split_no_sep by by apply digits_no_char, str_Z_digits. simpl.
  by rewrite !isdigit_str_Z, !int_of_str_Z.
Qed.

Lemma parse_pieces_app l1 l2 r1 r2 :
  parse_pieces l1 = Some r1 → parse_pieces l2 = Some r2 → parse_pieces (l1 ++ l2) = Some (r1 ++ r2).
Proof.
  revert r1. induction l1 as [|p l1 IH]; intros r1 H1 H2; simpl in *; [by simplify_eq|].
  destruct (parse_piece p); [|done]. destruct (parse_pieces l1) as [r|]; [|done]. simplify_eq.
  by rewrite (IH r), app_assoc.
Qed.

(** A span as it is printed. *)
Definition span_ok (s : Z * Z) : Prop := 0 ≤ s.1 ≤ s.2.
Definition span_list (s : Z * Z) : list Z := zrange s.1 (s.2 + 1).

Lemma parse_span s : span_ok s → parse_pieces (split (str_span s) ",") = Some (span_list s).
Proof.
  destruct s as [a b]. unfold span_ok, str_span, span_list. simpl. intros H. change "," with (sep_of ",").
  assert (Hn : ∀ z, 0 ≤ z → no_char "," (str_Z z) = true) by (intros; by apply digits_no_char, str_Z_digits).
  case_if; bool_to_prop; [|case_if; bool_to_prop].
  - subst b. rewrite split_no_sep by (apply Hn; lia). simpl.
    rewrite parse_piece_number by lia. by rewrite zrange_one.
  - subst b. rewrite split_app, !split_no_sep by (apply Hn; lia). simpl.
    rewrite !parse_piece_number by lia. rewrite zrange_snoc, zrange_one by lia. done.
  - rewrite split_no_sep.
    + simpl. rewrite parse_piece_range by lia. by rewrite app_nil_r.
    + rewrite !no_char_app, !Hn by lia. done.
Qed.

Lemma str_span_not_space s :
  span_ok s → str_forall (fun c => negb (isspace2 c)) (str_span s) = true.
Proof.
  intros H. assert (Hd : ∀ z, 0 ≤ z → str_forall (fun c => negb (isspace2 c)) (str_Z z) = true).
  { intros z Hz. eapply str_forall_impl; [|by apply str_Z_digits]. intros c Hc.
    by rewrite isdigit_char_not_space2. }
  unfold span_ok, str_span in *. repeat case_if; rewrite ?str_forall_app, ?Hd by lia; done.
Qed.

Lemma parse_spans spans :
  spans ≠ [] → Forall span_ok spans →
  parse_pieces (split (join "," (map str_span spans)) ",") = Some (concat (map span_list spans)).
Proof.
  intros Hne Hok. induction Hok as [|s spans Hs Hok IH]; [done|].
  destruct spans as [|s' spans]; [simpl; rewrite app_nil_r; by apply parse_span|].
  cbn [map]. rewrite join_cons by done. change "," with (sep_of ","). rewrite split_app.
  apply parse_pieces_app; [by apply parse_span|]. by apply IH.
Qed.

(** The spans hold the numbers read so far. *)
Lemma spans_hold cpus :
  Forall (fun c => 0 ≤ c) cpus →
  Forall span_ok (foldl add_span [] cpus) ∧
  concat (map span_list (rev (foldl add_span [] cpus))) = cpus.
Proof.
  induction cpus as [|c cpus IH] using rev_ind; [done|]. intros [Hcs Hc]%Forall_app.
  rewrite Forall_singleton in Hc. destruct (IH Hcs) as [Hok Heq]. rewrite foldl_app. simpl.
  remember (foldl add_span [] cpus) as spans eqn:Es. clear Es IH.
  assert (Hnew : Forall span_ok ((c, c) :: spans) ∧
    concat (map span_list (rev ((c, c) :: spans))) = cpus ++ [c]).
  { split; [constructor; [unfold span_ok; simpl; lia|done]|]. simpl.
    rewrite map_app, concat_app, Heq. simpl. unfold span_list. simpl. by rewrite zrange_one. }
  destruct spans as [|[a b] spans]; [done|]. simpl add_span.
  destruct (Z.eqb_spec c (b + 1)) as [->|Hne]; [|done]. clear Hnew.
  inversion Hok as [|? ? Hab Hok']; subst. unfold span_ok in Hab. simpl in Hab. split.
  - constructor; [unfold span_ok; simpl; lia|done].
  - simpl. rewrite !map_app, !concat_app. simpl. rewrite !app_nil_r, <- app_assoc. f_equal.
    unfold span_list. simpl. apply zrange_snoc. lia.
Qed.

(** * Properties *)

(** C24: a printed range reads back: for every list of processor numbers, in any order and
    with repetitions, [parseRange] gives the list [strRange] was given. *)
Theorem parse_strRange {S} (cpus : list Z) (s : S) :
  Forall (fun c => 0 ≤ c) cpus → parseRange (strRange cpus) s = (Ret cpus, s).
Proof.
  intros Hc. destruct (spans_hold cpus Hc) as [Hok Heq]. unfold strRange, parseRange.
  destruct (decide (cpus = [])) as [->|Hne]; [done|].
  set (spans := rev (foldl add_span [] cpus)) in *.
  assert (Hok' : Forall span_ok spans) by by apply Forall_rev.
  assert (Hsp : spans ≠ []) by (intros E; apply Hne; by rewrite <- Heq, E).
  assert (Hns : str_forall (fun c => negb (isspace2 c)) (join "," (map str_span spans)) = true).
  { clear -Hok'. induction Hok' as [|s l Hs Hl IH]; [done|]. destruct l as [|s' l].
    - by apply str_span_not_space.
    - cbn [map]. rewrite join_cons by done. rewrite !str_forall_app, str_span_not_space by done.
      exact IH. }
  unfold strip2. rewrite strip_pred_id by done. rewrite parse_spans, Heq by done.
  destruct (String.eqb_spec (join "," (map str_span spans)) "") as [E|]; [|done].
  pose proof (parse_spans spans Hsp Hok') as Hp. rewrite E in Hp. done.
Qed.

Lemma parse_strRange_witness :
  parseRange (strRange [0; 1; 2; 3; 8; 9; 5; 5]) tt = (Ret [0; 1; 2; 3; 8; 9; 5; 5], tt) ∧
  strRange [0; 1; 2; 3; 8; 9; 5; 5] = "0-3,8,9,5,5".
Proof. split; [apply parse_strRange; repeat constructor; lia|vm_compute; reflexivity]. Defined.

(** ** The prefetcher register *)

(** The register after a change of settings. *)
Definition new_msr (v : Z) (nps : NehalemPrefetchSettings) : Z :=
  Z.lor (Z.land v (to_msr nps).1) (to_msr nps).2.

Lemma kept_bits v b : Z.land (Z.land v _MASK) b = Z.land v (Z.land _MASK b).
Proof. by rewrite Z.land_assoc. Qed.

Lemma new_msr_settings v nps : from_msr (new_msr v nps) = nps.
Proof.
  unfold from_msr, new_msr. rewrite !Z.land_lor_distr_l. simpl fst. rewrite !kept_bits.
  change (Z.land _MASK bit_dcu_streamer) with 0. change (Z.land _MASK bit_dcu_ip) with 0.
  change (Z.land _MASK bit_mlc_spatial) with 0. change (Z.land _MASK bit_mlc_streamer) with 0.
  rewrite !Z.land_0_r, !Z.lor_0_l. by destruct nps as [[] [] [] []].
Qed.

Lemma mask_high v : Z.land v _MASK = Z.shiftl (Z.shiftr v 4) 4.
Proof. unfold _MASK. rewrite <- Z.ldiff_land. apply (Z.ldiff_ones_r v 4). lia. Qed.

Lemma new_msr_high v nps : Z.shiftr (new_msr v nps) 4 = Z.shiftr v 4.
Proof.
  unfold new_msr. simpl fst. rewrite Z.shiftr_lor, mask_high, Z.shiftr_shiftl_l, Z.sub_diag by lia.
  rewrite Z.shiftl_0_r. replace (Z.shiftr (to_msr nps).2 4) with 0; [apply Z.lor_0_r|].
  by destruct nps as [[] [] [] []].
Qed.

Lemma new_msr_bounds v nps : 0 ≤ v < 2 ^ 64 → 0 ≤ new_msr v nps < 2 ^ 64.
Proof.
  intros Hv. pose proof (new_msr_high v nps) as Hh. rewrite !Z.shiftr_div_pow2 in Hh by lia.
  change (2 ^ 4) with 16 in Hh. change (2 ^ 64) with 18446744073709551616 in *.
  pose proof (Z.div_mod (new_msr v nps) 16) as H1. pose proof (Z.mod_pos_bound (new_msr v nps) 16).
  pose proof (Z.div_mod v 16) as H2. pose proof (Z.mod_pos_bound v 16). lia.
Qed.

(** Setting the prefetchers reads back exactly the settings given, keeps every other
    bit of the 64-bit register and the other registers and processors, and the value
    written always fits the register, so the write cannot fail. *)
Theorem prefetch_roundtrip s c regs v nps :
  s !! c = Some regs → regs !! _MSR = Some v → 0 ≤ v < 2 ^ 64 →
  ∃ v', set_prefetch_settings c nps s = (Ret tt, <[c := <[_MSR := v']> regs]> s) ∧
    0 ≤ v' < 2 ^ 64 ∧ Z.shiftr v' 4 = Z.shiftr v 4 ∧
    get_prefetch_settings c (<[c := <[_MSR := v']> regs]> s) =
      (Ret nps, <[c := <[_MSR := v']> regs]> s).
Proof.
  intros Hs Hr Hv. exists (new_msr v nps). pose proof (new_msr_bounds v nps Hv) as Hb.
  split; [|split; [done|split; [apply new_msr_high|]]].
  - unfold set_prefetch_settings, rdmsr, wrmsr, openmsr, bind, get.
    destruct (to_msr nps) as [mask bits] eqn:Et. rewrite Hs. simpl. rewrite Hr. simpl. rewrite Hs.
    simpl. replace (Z.lor (Z.land v mask) bits) with (new_msr v nps) by (unfold new_msr; by rewrite Et).
    rewrite (proj2 (Z.leb_le _ _)) by lia. rewrite (proj2 (Z.ltb_lt _ _)) by lia. simpl. by rewrite Hr.
  - unfold get_prefetch_settings, rdmsr, openmsr, bind, get. simplify_map_eq.
    by rewrite new_msr_settings.
Qed.

Lemma prefetch_roundtrip_witness :
  let s : msrs := {[ 0 := {[ _MSR := 255 ]} ]} in
  ∃ v', set_prefetch_settings 0 (Prefetch true false true false) s =
          (Ret tt, <[0 := <[_MSR := v']> {[ _MSR := 255 ]}]> s) ∧ Z.shiftr v' 4 = 15.
Proof.
  intros s. destruct (prefetch_roundtrip s 0 {[ _MSR := 255 ]} 255 (Prefetch true false true false))
    as (v' & H1 & _ & H2 & _); [vm_compute; reflexivity|vm_compute; reflexivity|lia|].
  exists v'. split; [exact H1|exact H2].
Defined.

(** ** Threads *)

(** Where a processor is, and how many of a list are at the same place. *)
Definition place (c : cpu) : option field * option field := (dget "physical id" c, dget "core id" c).

Definition at_place (p : option field * option field) (l : list cpu) : Z :=
  Z.of_nat (length (List.filter (fun c => bool_decide (place c = p)) l)).

Lemma at_place_snoc p l c :
  at_place p (l ++ [c]) = at_place p l + (if bool_decide (place c = p) then 1 else 0).
Proof.
  unfold at_place. rewrite List.filter_app, length_app. simpl. case_bool_decide; simpl; lia.
Qed.

(** The fields [expandCpuinfo] adds. *)
Definition expanded (c c' : cpu) (thread : Z) : Prop :=
  dget "socket" c' = dget "physical id" c ∧ dget "coreid" c' = dget "core id" c ∧
  dget "thread" c' = Some (FInt thread) ∧
  ∀ k, k ∉ ["socket"; "coreid"; "thread"] → dget k c' = dget k c.

Lemma add_thread_run res counts c w s k :
  dget "physical id" c = Some s → dget "core id" c = Some k →
  ∃ c', add_thread (res, counts) c w =
          (Ret (res ++ [c'], dset (s, k) (default 0 (dget (s, k) counts) + 1) counts), w) ∧
        expanded c c' (default 0 (dget (s, k) counts)).
Proof.
  intros Hs Hk. unfold add_thread, bind, of_option. rewrite Hs, Hk. eexists. split; [done|].
  unfold expanded. rewrite Hs, Hk. split; [|split; [|split]].
  - by rewrite dget_dset_ne, dget_dset_ne, dget_dset_eq.
  - by rewrite dget_dset_ne, dget_dset_eq.
  - by rewrite dget_dset_eq.
  - intros x Hx. rewrite !dget_dset_ne; set_solver.
Qed.

Lemma add_threads_run l w :
  Forall (fun c => is_Some (dget "physical id" c) ∧ is_Some (dget "core id" c)) l →
  ∃ res counts, fold_each l add_thread ([], []) w = (Ret (res, counts), w) ∧
    length res = length l ∧
    (∀ s k, default 0 (dget (s, k) counts) = at_place (Some s, Some k) l) ∧
    ∀ i c, l !! i = Some c → ∃ c', res !! i = Some c' ∧ expanded c c' (at_place (place c) (take i l)).
Proof.
  induction l as [|c l IH] using rev_ind.
  { intros _. exists [], []. done. }
  intros [Hl Hc]%Forall_app. rewrite Forall_singleton in Hc. destruct Hc as [[s Hs] [k Hk]].
  destruct (IH Hl) as (res & counts & E & Hlen & Hcnt & Hres).
  destruct (add_thread_run res counts c w s k Hs Hk) as (c' & E' & Hx).
  exists (res ++ [c']). eexists. split; [|split; [|split]].
  - rewrite (fold_each_app l [c] add_thread ([], []) w), (bind_Ret _ _ _ _ _ E). simpl.
    by rewrite (bind_Ret _ _ _ _ _ E').
  - rewrite !length_app. simpl. lia.
  - intros s' k'. rewrite at_place_snoc. unfold place. rewrite Hs, Hk. rewrite <- Hcnt.
    destruct (decide ((s, k) = (s', k'))) as [[= -> ->]|Hne].
    + rewrite dget_dset_eq, bool_decide_true by done. done.
    + rewrite dget_dset_ne, bool_decide_false by congruence. lia.
  - intros i ci Hi. apply lookup_app_Some in Hi as [Hi|[Hge Hi]].
    + destruct (Hres i ci Hi) as (ci' & H1 & H2). exists ci'. pose proof (lookup_lt_Some _ _ _ Hi).
      rewrite lookup_app_l by (rewrite Hlen; lia). by rewrite take_app_le by lia.
    + apply list_lookup_singleton_Some in Hi as [Hi <-]. assert (i = length l) as -> by lia.
      exists c'. rewrite <- Hlen at 1. rewrite list_lookup_middle by done. split; [done|].
      rewrite take_app_length. unfold place. rewrite Hs, Hk, <- Hcnt. done.
Qed.

(** [expandCpuinfo] gives every processor its socket and core and, as thread number,
    the number of earlier processors on the same core; so the triple identifies it, and
    its other fields are kept. *)
Theorem expandCpuinfo_threads cpuinfo w :
  Forall (fun c => is_Some (dget "physical id" c) ∧ is_Some (dget "core id" c)) cpuinfo →
  ∃ res, expandCpuinfo cpuinfo w = (Ret res, w) ∧ length res = length cpuinfo ∧
    ∀ i c, cpuinfo !! i = Some c →
      ∃ c', res !! i = Some c' ∧ expanded c c' (at_place (place c) (take i cpuinfo)).
Proof.
  intros H. destruct (add_threads_run cpuinfo w H) as (res & counts & E & Hlen & _ & Hres).
  exists res. split; [|done]. unfold expandCpuinfo. by rewrite (bind_Ret _ _ _ _ _ E).
Qed.

Lemma expandCpuinfo_threads_witness :
  let c n := [("processor", FInt n); ("physical id", FInt 0); ("core id", FInt (n mod 2))] in
  ∃ res c', expandCpuinfo (map c [0; 1; 2; 3]) demo_world = (Ret res, demo_world) ∧
    res !! 3%nat = Some c' ∧ dget "thread" c' = Some (FInt 1).
Proof.
  intros c. destruct (expandCpuinfo_threads (map c [0; 1; 2; 3]) demo_world) as (res & H1 & _ & H2).
  - repeat constructor; by eexists.
  - destruct (H2 3%nat (c 3) eq_refl) as (c' & H3 & _ & _ & H4 & _). exists res, c'.
    split; [exact H1|]. split; [exact H3|]. rewrite H4. vm_compute. reflexivity.
Defined.
