(* ===== verification/FxParser.v ===== *)
(** benchmarks/fxmark/bin/parser.py: the log files of fxmark and the searches in them. *)

From S2P Require Import Prelude PyStr PyDict PyPath Effect Os Instance PyFloat.
From Stdlib Require Import Sorted.

(** * Keys *)

Abbreviation key := (list string).

(** Numbers are padded so that texts sort like numbers. *)
Definition _norm_str (s : string) : string :=
  match py_int s with
  | Some n => fmt_0d 9 n
  | None => s
  end.

Definition _norm_key (ks : list string) : key := map _norm_str ks.

(** [zip] stops at the shorter key. *)
Fixpoint _match_key (key1 key2 : key) : bool :=
  match key1, key2 with
  | k1 :: l1, k2 :: l2 =>
      if String.eqb k1 "*" || String.eqb k2 "*" then _match_key l1 l2
      else if negb (String.eqb k1 k2) then false
      else _match_key l1 l2
  | _, _ => true
  end.

(** Tuples of texts in the order of Python. *)
Fixpoint key_compare (a b : key) : comparison :=
  match a, b with
  | [], [] => Eq
  | [], _ => Lt
  | _, [] => Gt
  | x :: a', y :: b' =>
      match String.compare x y with
      | Eq => key_compare a' b'
      | c => c
      end
  end.

(** * The parser *)

Abbreviation kv := (list (string * string)).

Record Parser := MkParser {
  p_config : kv;
  p_data : list (key * kv);
  p_key : key;
  p_schema : list string
}.

Definition init_parser : Parser := MkParser [] [] [] [].

Definition index_error {S A} : M S A := raise CIndexError "list index out of range".

(** [l.split(sep, 1)[1]] *)
Definition after {S} (l sep : string) : M S string :=
  match split1 l sep with
  | [_; r] => ret r
  | _ => index_error
  end.

Definition _parse_config (l : string) : OM Parser unit :=
  do rest <- after l " ";
  match split1 rest "=" with
  | [k; v] => set_self (fun p => MkParser (dset (strip k) (strip v) (p_config p)) (p_data p) (p_key p) (p_schema p))
  | _ => index_error
  end.

Definition _parse_key (l : string) : OM Parser unit :=
  do rest <- after l " ";
  set_self (fun p => MkParser (p_config p) (p_data p) (_norm_key (split rest ":")) (p_schema p)).

Definition _parse_schema (l : string) : OM Parser unit :=
  set_self (fun p => MkParser (p_config p) (p_data p) (p_key p) (tail (words l))).

(** One value of a data line; the entry of the key is made by its first value. *)
Definition add_value (p : Parser) (d : string * string) : Parser :=
  MkParser (p_config p)
    (dset (p_key p) (dset d.1 d.2 (default [] (dget (p_key p) (p_data p)))) (p_data p))
    (p_key p) (p_schema p).

Definition _parse_data (l : string) : OM Parser unit :=
  set_self (fun p => foldl add_value p (zip (p_schema p) (words l))).

(** The line is not blank, so it has a first word. *)
Definition _get_parse_fn (l : string) : OM Parser unit :=
  match words l with
  | [] => index_error
  | w :: _ =>
      if String.eqb w "###" then _parse_config l
      else if String.eqb w "##" then _parse_key l
      else if String.eqb w "#" then _parse_schema l
      else _parse_data l
  end.

(** The lines of the file without the blanks around them, blank ones left out. *)
Definition _get_line (text : string) : list string :=
  List.filter nonempty (map strip (file_lines text)).

Definition parse_lines (ls : list string) : OM Parser unit := for_each ls _get_parse_fn.

Definition parse (log_file : string) : OM Parser unit :=
  do text <- lift (read_file log_file);
  parse_lines (_get_line text).

Definition get_config (p : Parser) (k : string) : option string := dget k (p_config p).

Fixpoint insert_result (r : key * kv) (l : list (key * kv)) : list (key * kv) :=
  match l with
  | [] => [r]
  | x :: l' =>
      match key_compare r.1 x.1 with
      | Gt => x :: insert_result r l'
      | _ => r :: l
      end
  end.

Definition sort_results (l : list (key * kv)) : list (key * kv) := foldr insert_result [] l.

Definition search_data (p : Parser) (key_list : list string) : list (key * kv) :=
  let nkey := _norm_key key_list in
  sort_results (List.filter (fun e => _match_key nkey e.1) (p_data p)).

(** * The reports *)

Section Reports.
Context `{Float}.

Definition field_of (e : key * kv) (k : string) : IO string :=
  of_option (dget k e.2) CKeyError (repr_str k).

Definition load_log (CUR_DIR log : string) : IO Parser := fun w =>
  match parse (normpath (join2 CUR_DIR log)) (w, init_parser) with
  | (Ret _, (w', p)) => (Ret p, w')
  | (Raise e, (w', _)) => (Raise e, w')
  | (Exit c, (w', _)) => (Exit c, w')
  end.

Definition get_cpu_num (CUR_DIR log fs bc core sp : string) : IO unit :=
  do parser <- load_log CUR_DIR log;
  for_each (search_data parser ["mem"; fs; bc; core]) (fun r =>
    do systime <- field_of r "sys.sec";
    do usertime <- field_of r "user.sec";
    do iotime <- field_of r "iowait.sec";
    do idletime <- field_of r "idle.sec";
    do s <- to_float sp;
    if fzero s
    then print ("user: " +:+ usertime +:+ nl +:+ "sys:  " +:+ systime +:+ nl +:+ "idle: " +:+
                idletime +:+ nl +:+ "io:   " +:+ iotime +:+ nl)
    else
      do y <- to_float systime;
      do synctime <- fdivide (fmul s y) (fof_Z 100);
      let fstime := fsub y synctime in
      print ("user:    " +:+ usertime +:+ nl +:+ "fs-sys:  " +:+ frepr fstime +:+ nl +:+
             "sync-sys:" +:+ frepr synctime +:+ nl +:+ "idle:    " +:+ idletime +:+ nl +:+
             "io:      " +:+ iotime +:+ nl)).

Definition get_performance (CUR_DIR log fs bc : string) : IO unit :=
  do parser <- load_log CUR_DIR log;
  let r := search_data parser ["mem"; fs; bc; "*"] in
  for_each r (fun e =>
    do n <- field_of e "ncpu";
    do a <- field_of e "works/sec";
    do fa <- to_float a;
    do b <- (match r with e0 :: _ => field_of e0 "works/sec" | [] => raise CIndexError "" end);
    do fb <- to_float b;
    do q <- fdivide fa fb;
    print (n +:+ ": " +:+ frepr q)).

(** [argv] holds the arguments after the name of the script. *)
Definition parser_main (CUR_DIR : string) (argv : list string) : IO unit :=
  match argv with
  | a1 :: a2 :: a3 :: rest =>
      if String.eqb a1 "p" then
        match rest with
        | a4 :: _ => get_performance CUR_DIR a2 a3 a4 ;; sys_exit 0
        | [] => raise CIndexError "list index out of range"
        end
      else
        match rest with
        | a4 :: a5 :: _ => get_cpu_num CUR_DIR a1 a2 a3 a4 a5
        | _ => raise CIndexError "list index out of range"
        end
  | _ =>
      print "Usage: parser.py {logfile} {fs} {bc} {core} {syn %} -> for time info" ;;
      print "Usage: parser.py p {logfile} {fs} {bc}" ;;
      print "Example: ./parser.py p ../logs/optimus-mem-lk-4.2.log f2fs DWAL" ;;
      print "Example: ./parser.py ../logs/optimus-mem-lk-4.2.log f2fs DWAL 80 85.7" ;;
      sys_exit 1
  end.
End Reports.

(** * Facts *)

(** ** The order of keys *)

Lemma str_compare_trans a b c :
  String.compare a b = Lt → String.compare b c = Lt → String.compare a c = Lt.
Proof.
  revert b c. induction a as [|x a IH]; intros [|y b] [|z c]; simpl; try done. unfold Ascii.compare.
  destruct (N.compare_spec (N_of_ascii x) (N_of_ascii y)) as [E1|L1|G1]; [| |done];
    destruct (N.compare_spec (N_of_ascii y) (N_of_ascii z)) as [E2|L2|G2]; try done;
    destruct (N.compare_spec (N_of_ascii x) (N_of_ascii z)) as [E3|L3|G3]; try done; try lia.
  apply IH.
Qed.

Definition key_lt (a b : key) : Prop := key_compare a b = Lt.

Lemma key_compare_eq a b : key_compare a b = Eq → a = b.
Proof.
  revert b. induction a as [|x a IH]; intros [|y b]; simpl; try done.
  destruct (String.compare x y) eqn:E; try done. apply String.compare_eq_iff in E as ->.
  intros H. f_equal. auto.
Qed.

Lemma key_compare_antisym a b : key_compare b a = CompOpp (key_compare a b).
Proof.
  revert b. induction a as [|x a IH]; intros [|y b]; simpl; try done.
  rewrite (String.compare_antisym y x), IH. by destruct (String.compare x y).
Qed.

#[export] Instance key_lt_trans : Transitive key_lt.
Proof.
  unfold key_lt. intros a. induction a as [|x a IH]; intros [|y b] [|z c]; simpl; try done.
  destruct (String.compare x y) eqn:E1; [apply String.compare_eq_iff in E1 as ->| |done].
  - destruct (String.compare y z); try done. apply IH.
  - destruct (String.compare y z) eqn:E2; [apply String.compare_eq_iff in E2 as ->| |done].
    + by rewrite E1.
    + by rewrite (str_compare_trans _ _ _ E1 E2).
Qed.

(** ** Sorting *)

Lemma insert_result_perm r l : insert_result r l ≡ₚ r :: l.
Proof.
  induction l as [|x l IH]; simpl; [done|]. destruct (key_compare r.1 x.1); try done.
  rewrite IH. apply Permutation_swap.
Qed.

Lemma sort_results_perm l : sort_results l ≡ₚ l.
Proof. induction l as [|x l IH]; simpl; [done|]. by rewrite insert_result_perm, IH. Qed.

Abbreviation sorted_results := (StronglySorted (fun a b : key * kv => key_lt a.1 b.1)).

Lemma insert_result_sorted r l :
  sorted_results l → r.1 ∉ keys l → sorted_results (insert_result r l).
Proof.
  induction 1 as [|x l Hl IH Hx]; simpl; [intros _; repeat constructor|].
  rewrite not_elem_of_cons. intros [Hne Hnin].
  destruct (key_compare r.1 x.1) eqn:E.
  - by apply key_compare_eq in E.
  - constructor; [by constructor|]. constructor; [done|].
    eapply Forall_impl; [exact Hx|]. intros y Hy. by etrans.
  - constructor; [auto|]. rewrite insert_result_perm. constructor; [|done].
    unfold key_lt. by rewrite key_compare_antisym, E.
Qed.

Lemma sort_results_sorted l : NoDup (keys l) → sorted_results (sort_results l).
Proof.
  induction l as [|x l IH]; simpl; [constructor|]. intros [Hx Hl]%NoDup_cons.
  apply insert_result_sorted; [auto|]. unfold keys. by rewrite (sort_results_perm l).
Qed.

Lemma keys_filter_nodup (f : key * kv → bool) l : NoDup (keys l) → NoDup (keys (List.filter f l)).
Proof.
  unfold keys. induction l as [|x l IH]; simpl; [done|]. intros [Hx Hl]%NoDup_cons.
  destruct (f x); [|auto]. simpl. apply NoDup_cons. split; [|auto]. intros Hin. apply Hx.
  apply list_elem_of_fmap in Hin as (y & -> & [Hy _]%list_elem_of_In%filter_In).
  apply list_elem_of_fmap. exists y. by rewrite list_elem_of_In.
Qed.

(** ** Parsing keeps one entry per key *)

Definition data_wf (p : Parser) : Prop := dict_wf (p_data p).

Lemma add_values_wf l p : data_wf p → data_wf (foldl add_value p l).
Proof. revert p. induction l as [|d l IH]; intros p Hp; [done|]. simpl. apply IH. by apply dset_wf. Qed.

Lemma get_parse_fn_wf l s : data_wf s.2 → data_wf (_get_parse_fn l s).2.2.
Proof.
  intros Hs. unfold _get_parse_fn. destruct (words l) as [|w ws]; [done|].
  repeat case_if; [| |exact Hs|by apply add_values_wf]; unfold _parse_config, _parse_key, after, bind;
    destruct (split1 l " ") as [|x [|r [|y ys]]]; try exact Hs.
  simpl. destruct (split1 r "=") as [|k [|v [|z zs]]]; exact Hs.
Qed.

Lemma parse_lines_wf ls s : data_wf s.2 → data_wf (parse_lines ls s).2.2.
Proof.
  unfold parse_lines. revert s. induction ls as [|l ls IH]; intros s Hs; [done|]. simpl.
  pose proof (get_parse_fn_wf l s Hs) as Hl. unfold bind.
  destruct (_get_parse_fn l s) as [[]]; [by apply IH|done|done].
Qed.

Lemma parse_wf f s : data_wf s.2 → data_wf (parse f s).2.2.
Proof.
  intros Hs. unfold parse, bind at 1, lift. destruct (read_file f s.1) as [[t|e|c] w]; [|done|done].
  by apply parse_lines_wf.
Qed.

(** * Properties *)

(** C26: after any log has been parsed, to its end or up to an error in it, a search returns
    each entry that matches the query exactly once, in strictly increasing order of the
    keys. *)
Theorem search_after_parse f w ks :
  let p := (parse f (w, init_parser)).2.2 in
  (∀ e, e ∈ search_data p ks ↔ e ∈ p_data p ∧ _match_key (_norm_key ks) e.1 = true) ∧
  StronglySorted (fun a b => key_lt a.1 b.1) (search_data p ks).
Proof.
  intros p. assert (Hwf : data_wf p) by (apply parse_wf; constructor). split.
  - intros e. unfold search_data. rewrite sort_results_perm, list_elem_of_In, filter_In.
    by rewrite list_elem_of_In.
  - apply sort_results_sorted. by apply keys_filter_nodup.
Qed.

(** The padding of numbers in keys is idempotent and makes the order of texts the order
    of numbers, for numbers up to nine digits: so a search lists the runs by core count. *)
Theorem norm_str_order s t a b :
  py_int s = Some a → py_int t = Some b → 0 ≤ a < 10 ^ 9 → 0 ≤ b < 10 ^ 9 →
  _norm_str (_norm_str s) = _norm_str s ∧ String.compare (_norm_str s) (_norm_str t) = (a ?= b).
Proof.
  intros Ha Hb Hla Hlb. unfold _norm_str at 2 3 4 5. rewrite Ha, Hb. split.
  - unfold _norm_str. by rewrite py_int_fmt_0d.
  - apply (fmt_0d_compare 9); [exact Hla|exact Hlb|lia].
Qed.

Lemma norm_str_order_witness :
  _norm_str "8" = "000000008" ∧ String.compare (_norm_str "8") (_norm_str "16") = Lt.
Proof.
  destruct (norm_str_order "8" "16" 8 16) as [H1 H2]; [vm_compute; reflexivity..|lia|lia|].
  split; [vm_compute; reflexivity|exact H2].
Defined.

(** ** Reading a record back *)

Lemma foldl_add_value l p :
  foldl add_value p l =
  match l with
  | [] => p
  | _ => MkParser (p_config p)
           (dset (p_key p) (foldl (fun e d => dset d.1 d.2 e) (default [] (dget (p_key p) (p_data p))) l)
              (p_data p)) (p_key p) (p_schema p)
  end.
Proof.
  destruct l as [|d l]; [done|]. revert p d. induction l as [|d' l IH]; intros p d; [done|].
  change (foldl add_value p (d :: d' :: l)) with (foldl add_value (add_value p d) (d' :: l)).
  rewrite (IH (add_value p d) d'). unfold add_value at 1 2 3 4 5. simpl. rewrite dget_dset_eq. simpl.
  by rewrite dset_dset.
Qed.

Lemma parse_key_line w p ks :
  ks ≠ [] → Forall (fun k => no_char ":" k = true) ks →
  _get_parse_fn ("## " +:+ join ":" ks) (w, p) =
    (Ret tt, (w, MkParser (p_config p) (p_data p) (_norm_key ks) (p_schema p))).
Proof.
  intros Hne Hk. unfold _get_parse_fn.
  change ("## " +:+ join ":" ks) with ("##" +:+ String " " (join ":" ks)). rewrite words_app by done.
  simpl. unfold _parse_key, after. rewrite (split1_first "##") by done. unfold bind, ret. simpl.
  change ":"%string with (sep_of ":"). by rewrite split_join.
Qed.

Lemma parse_schema_line w p schema :
  Forall (fun x => is_word x = true) schema →
  _get_parse_fn ("# " +:+ join " " schema) (w, p) =
    (Ret tt, (w, MkParser (p_config p) (p_data p) (p_key p) schema)).
Proof.
  intros Hs. assert (Hw : words ("# " +:+ join " " schema) = "#" :: schema).
  { change ("# " +:+ join " " schema) with ("#" +:+ String " " (join " " schema)).
    by rewrite words_app, words_join. }
  unfold _get_parse_fn. rewrite Hw. transitivity (_parse_schema ("# " +:+ join " " schema) (w, p));
    [reflexivity|].
  unfold _parse_schema, set_self, modify. cbn [fst snd]. by rewrite Hw.
Qed.

Lemma parse_data_line w p v vs :
  Forall (fun x => is_word x = true) (v :: vs) → v ∉ ["#"; "##"; "###"] →
  _get_parse_fn (join " " (v :: vs)) (w, p) =
    (Ret tt, (w, foldl add_value p (zip (p_schema p) (v :: vs)))).
Proof.
  intros Hv Hn. unfold _get_parse_fn. rewrite words_join by done.
  rewrite !not_elem_of_cons in Hn. destruct Hn as (H1 & H2 & H3 & _).
  rewrite (proj2 (String.eqb_neq _ _) H1), (proj2 (String.eqb_neq _ _) H2), (proj2 (String.eqb_neq _ _) H3).
  unfold _parse_data, set_self, modify. simpl snd. by rewrite words_join.
Qed.

(** A record reads back: the lines "## k1:k2:...", "# s1 s2 ..." and "v1 v2 ..." set
    the key and the schema, and add to the entry of the normalised key the value of each
    schema field, leaving the other entries alone. *)
Theorem parse_record w p ks schema v vs :
  ks ≠ [] → Forall (fun k => no_char ":" k = true) ks → schema ≠ [] →
  Forall (fun x => is_word x = true) schema → Forall (fun x => is_word x = true) (v :: vs) →
  v ∉ ["#"; "##"; "###"] →
  ∃ p', parse_lines ["## " +:+ join ":" ks; "# " +:+ join " " schema; join " " (v :: vs)] (w, p) =
          (Ret tt, (w, p')) ∧
    dget (_norm_key ks) (p_data p') =
      Some (foldl (fun e d => dset d.1 d.2 e) (default [] (dget (_norm_key ks) (p_data p)))
              (zip schema (v :: vs))) ∧
    ∀ k, k ≠ _norm_key ks → dget k (p_data p') = dget k (p_data p).
Proof.
  intros Hks Hk Hsne Hs Hv Hv1. eexists. split.
  { unfold parse_lines. cbn [for_each]. rewrite (bind_Ret _ _ _ _ _ (parse_key_line w p ks Hks Hk)).
    rewrite (bind_Ret _ _ _ _ _ (parse_schema_line w _ schema Hs)).
    rewrite (bind_Ret _ _ _ _ _ (parse_data_line w _ v vs Hv Hv1)). reflexivity. }
  rewrite foldl_add_value. destruct schema as [|x schema]; [done|]. simpl. split.
  - by rewrite dget_dset_eq.
  - intros k Hk'. by rewrite dget_dset_ne.
Qed.

Lemma parse_record_witness :
  ∃ p', parse_lines ["## mem:ext4:DWAL:8"; "# ncpu secs works"; "8 30.1 512"] (demo_world, init_parser) =
          (Ret tt, (demo_world, p')) ∧
    dget ["mem"; "ext4"; "DWAL"; "000000008"] (p_data p') =
      Some [("ncpu", "8"); ("secs", "30.1"); ("works", "512")].
Proof.
  destruct (parse_record demo_world init_parser ["mem"; "ext4"; "DWAL"; "8"] ["ncpu"; "secs"; "works"]
              "8" ["30.1"; "512"]) as (p' & H1 & H2 & _); try done;
    [repeat constructor..|apply (bool_decide_unpack _); vm_compute; exact I|].
  exists p'. split; [exact H1|exact H2].
Defined.
