(* ===== verification/Shell.v ===== *)
(** Commands given to the shell, as the benchmark scripts start them:
    [subprocess.Popen(cmd, shell=True, ...)] followed by [wait]. *)

From S2P Require Import Prelude PyStr Effect Os.

(** Where the standard output of a command goes. *)
Inductive stdio := PIPE | DEVNULL | INHERIT.

(** A finished command: its return code and, when its output is a pipe, what it wrote. *)
Record process := Process { returncode : Z; stdout : string }.

(** The return code of a program that a signal ended is negative; no time limit is set. *)
Definition rc_of (e : proc_end) : Z := match e with Exited rc => rc | TimedOut => -9 end.

Section Shell.
Context `{Host}.

(** [subprocess.Popen(cmd, shell=True, ...)] and [wait()].  A program that fills the pipe
    before it ends would wait for its reader for ever; the output is taken to fit into it. *)
Definition shell (cmd : string) (out : stdio) : IO process :=
  do w <- get;
  match spawn ["/bin/sh"; "-c"; cmd] (cwd w) (env w) None (root w) with
  | None => raise CFileNotFoundError (no_such_file "/bin/sh")
  | Some (e, r, (o, _)) =>
      modify (set_root r) ;;
      ret (Process (rc_of e) (match out with PIPE => o | _ => "" end))
  end.

(** The lines of a pipe, decoded and without the blanks around them. *)
Definition stripped_lines (p : process) : list string := map strip (file_lines (stdout p)).
End Shell.

(** A machine that has a shell. *)
Class HasShell `{Host} := has_shell :
  ∀ cmd d e t, ∃ r, spawn ["/bin/sh"; "-c"; cmd] d e None t = Some r.

Lemma shell_run `{HasShell} cmd out w :
  ∃ p r, shell cmd out w = (Ret p, set_root r w).
Proof.
  unfold shell, bind, get. destruct (has_shell cmd (cwd w) (env w) (root w)) as [[[e r] [o err]] ->].
  by eexists _, _.
Qed.

Lemma shell_frame `{Host} {V} (obs : world → V) `{!NotRoot obs} cmd out : frame obs (shell cmd out).
Proof.
  intros w. unfold shell, bind, get. destruct (spawn _ _ _ _ _) as [[[e r] [o err]]|]; [|done].
  simpl. apply not_root.
Qed.
#[export] Hint Resolve shell_frame : frames.

#[export] Instance demo_has_shell : @HasShell demo_host.
Proof. intros cmd d e t. by eexists. Qed.
