(* ===== verification/OptParse.v ===== *)
(** The part of optparse the scripts use: long options with a value, flags, flags of one
    letter, and the request for help. *)

From S2P Require Import Prelude PyStr PyDict Effect.

(** A declared option: its long name, whether it is a flag ([store_true]), and its letter. *)
Record opt_spec := OptSpec { o_name : string; o_flag : bool; o_short : option ascii }.

(** An option with a value. *)
Definition valued (n : string) : opt_spec := OptSpec n false None.

Definition help_opt : opt_spec := OptSpec "help" true (Some "h"%char).

(** The values given, by name; a flag that was given has the value True. *)
Definition opts : Type := list (string * string).

Section Parse.
Context (specs : list opt_spec).

(** A long option may be cut short as long as it stays unambiguous. *)
Definition match_long_opt (name : string) : option opt_spec :=
  let all := specs ++ [help_opt] in
  match List.filter (fun o => String.eqb (o_name o) name) all with
  | o :: _ => Some o
  | [] => match List.filter (fun o => startswith (o_name o) name) all with
          | [o] => Some o
          | _ => None
          end
  end.

Definition is_help (o : opt_spec) : bool := String.eqb (o_name o) "help".

(** The letters after a single dash. *)
Fixpoint short_opts (cs : string) (vals : opts) : outcome opts :=
  match cs with
  | EmptyString => Ret vals
  | String c cs' =>
      match List.filter (fun o => bool_decide (o_short o = Some c)) (specs ++ [help_opt]) with
      | o :: _ => if is_help o then Exit 0 else short_opts cs' (dset (o_name o) "True" vals)
      | [] => Exit 2
      end
  end.

(** [parser.parse_args()]: an error leaves with status 2, a request for help with 0. *)
Fixpoint parse_args (argv : list string) (vals : opts) : outcome opts :=
  match argv with
  | [] => Ret vals
  | arg :: rest =>
      if String.eqb arg "--" then Ret vals
      else if startswith arg "--" then
        let body := slice_from arg 2 in
        match split1 body "=" with
        | [name; v] =>
            match match_long_opt name with
            | Some o => if o_flag o then Exit 2 else parse_args rest (dset (o_name o) v vals)
            | None => Exit 2
            end
        | _ =>
            match match_long_opt body with
            | Some o =>
                if is_help o then Exit 0
                else if o_flag o then parse_args rest (dset (o_name o) "True" vals)
                else match rest with
                     | v :: rest' => parse_args rest' (dset (o_name o) v vals)
                     | [] => Exit 2
                     end
            | None => Exit 2
            end
        end
      else if startswith arg "-" && negb (String.eqb arg "-") then
        match short_opts (slice_from arg 1) vals with
        | Ret vals' => parse_args rest vals'
        | o => o
        end
      else parse_args rest vals
  end.

(** The first option without a value, in the order of declaration; flags have a default. *)
Definition missing (vals : opts) : option string :=
  match List.filter (fun o => negb (o_flag o) && bool_decide (dget (o_name o) vals = None)) specs with
  | o :: _ => Some (o_name o)
  | [] => None
  end.
End Parse.

Definition opt_value (vals : opts) (o : string) : string := default "" (dget o vals).
