(* ===== verification/PerfMon.v ===== *)
(** benchmarks/fxmark/bin/perfmon.py: the monitor the benchmarks start before and stop
    after the measured part.  It leaves the processor times in a file that
    run-filebench.py and run-dbench.py copy into the log. *)

From S2P Require Import Prelude PyStr PyPath Effect Os PyFloat Shell.

(** ** The class *)

Definition LEVEL_LOW : Z := 0.
Definition LEVEL_PERF_RECORD : Z := 1.
Definition LEVEL_PERF_PROBE_SLEEP_LOCK_D : Z := 2.
Definition LEVEL_PERF_STAT : Z := 3.
Definition LEVEL_PERF_PROBE_SLEEP_LOCK : Z := 998.
Definition LEVEL_PERF_LOCK : Z := 999.

Definition CPU_STAT : list string :=
  ["real"; "user"; "nice"; "sys"; "idle"; "iowait"; "irq"; "softirq"; "steal"; "guest"].

Definition PROBE_SLEEP_LOCK : list string :=
  ["mutex_lock"; "mutex_trylock"; "mutex_lock_killable"; "down_read"; "down_read_trylock";
   "down_write"; "down_write_trylock"; "downgrade_write"; "down"; "io_schedule_timeout";
   "schedule"; "preempt_schedule_common"].

Definition PERF_SAMPLE_RATE : Z := 1000.

Record PerfMon := MkPerfMon {
  pm_LEVEL : Z; pm_DIR : string; pm_FILE : string; pm_duration : Z; pm_cpu_stat : string
}.

Definition init_perfmon (level : Z) (ldir lfile : string) (duration : Z) : PerfMon :=
  MkPerfMon level ldir lfile duration (normpath (join2 ldir lfile)).

(** The default arguments, evaluated from the environment when the class is defined. *)
Definition default_perfmon : IO PerfMon :=
  do w <- get;
  let level := default "0" (env w !! "PERFMON_LEVEL") in
  do l <- of_option (py_int level) CValueError
            ("invalid literal for int() with base 10: " +:+ repr_str level);
  ret (init_perfmon l (default "." (env w !! "PERFMON_LDIR"))
         (default "_perfmon.stat" (env w !! "PERFMON_LFILE")) 30).

(** The columns of the report. *)
Definition names : list string :=
  map (fun x => x +:+ ".sec") CPU_STAT ++ map (fun x => x +:+ ".util") (tail CPU_STAT).

Section PerfMon.
Context `{Host} `{Float}.
(** the ticks of the clock per second, and what the clock shows *)
Context (SC_CLK_TCK now : float).

Definition _exec_cmd (cmd : string) (out : stdio) : IO process := shell cmd out.
Definition exec_ (cmd : string) (out : stdio) : IO unit := _exec_cmd cmd out ;; ret tt.

(** *** cpu utilization *)

(** The times of one line of /proc/stat, after the reading of the clock. *)
Definition cpu_line (l : string) : IO (list float) :=
  do ts <- map_each (words (strip (slice_from l 4))) (fun p =>
    do n <- of_option (py_int p) CValueError
              ("invalid literal for int() with base 10: " +:+ repr_str p);
    fdivide (fof_Z n) SC_CLK_TCK);
  ret (now :: ts).

Definition _get_cpu_stat : IO (Z * list float) :=
  do p <- _exec_cmd "sudo cat /proc/stat" PIPE;
  do r <- fold_each (stripped_lines p) (fun acc l =>
    let '(ncpus, cpu_stat) := acc in
    if startswith l "cpu" then
      if startswith l "cpu " then do ts <- cpu_line l; ret (ncpus + 1, ts)
      else ret (ncpus + 1, cpu_stat)
    else ret acc) (0, []);
  ret (r.1 - 1, take (length CPU_STAT) r.2).

Definition _cpu_stat_start (pm : PerfMon) : IO unit :=
  do r <- _get_cpu_stat;
  write_file (pm_cpu_stat pm) (join " " (map frepr r.2) +:+ nl).

Definition _cpu_stat_stop (pm : PerfMon) : IO unit :=
  do r <- _get_cpu_stat;
  do text <- read_file (pm_cpu_stat pm);
  do stat_start <- map_each (words (strip (hd "" (file_lines text)))) to_float;
  let delta := zip_with fsub r.2 stat_start in
  let total_cpu_time := fsum (tail delta) in
  do utils <- map_each (tail delta) (fun x =>
    do q <- fdivide x total_cpu_time; ret (fmul q (fof_Z 100)));
  write_file (pm_cpu_stat pm)
    (join " " names +:+ nl +:+ join " " (map fmt_g (delta ++ utils)) +:+ nl).

(** *** perf *)

Definition out_file (pm : PerfMon) (suffix : string) : string :=
  normpath (join2 (pm_DIR pm) (pm_FILE pm +:+ suffix)).

Definition _perf_stop : IO unit := exec_ "sudo kill -INT $(pgrep perf)" DEVNULL.

Definition _perf_stat_stop : IO unit := ret tt.

Definition _perf_stat_start (pm : PerfMon) : IO unit :=
  exec_ ("sudo perf stat -a -g -o " +:+ out_file pm ".perf.stat.data" +:+ " sleep " +:+
         str_Z (pm_duration pm) +:+ " &") INHERIT.

Definition _perf_record_stop : IO unit := _perf_stop.

Definition _perf_record_start (pm : PerfMon) : IO unit :=
  exec_ ("sudo perf record -F " +:+ str_Z PERF_SAMPLE_RATE +:+ " -a -g -o " +:+
         out_file pm ".perf.data" +:+ " &") INHERIT.

Definition _perf_probe_cleanup : IO unit := exec_ "sudo perf probe --del '*'" INHERIT.

Definition _perf_probe_add_trace_points (arg0 : string) : IO unit :=
  _perf_probe_cleanup ;;
  for_each PROBE_SLEEP_LOCK (fun prob =>
    exec_ ("sudo perf probe --add '" +:+ prob +:+ " " +:+ arg0 +:+ "'") INHERIT).

Definition _perf_probe_cmdline (pm : PerfMon) (arg0 : string) : string :=
  let probe_opt := sconcat (map (fun prob => " -e probe:" +:+ prob) PROBE_SLEEP_LOCK) in
  let perf_out :=
    if nonempty arg0 then out_file pm (".perf.sleeplock." +:+ slice_from arg0 1 +:+ ".data")
    else out_file pm ".perf.sleeplock.data" in
  "sudo perf record " +:+ probe_opt +:+ " -F " +:+ str_Z PERF_SAMPLE_RATE +:+ " -a -g -o " +:+
  perf_out +:+ " &".

Definition _perf_probe_sleep_lock_stop : IO unit := _perf_stop ;; _perf_probe_cleanup.

Definition _perf_probe_sleep_lock_start (pm : PerfMon) (arg0 : string) : IO unit :=
  _perf_probe_add_trace_points arg0 ;;
  exec_ (_perf_probe_cmdline pm arg0) INHERIT.

Definition lock_stat_switch (on : string) : string :=
  "sudo sh -c " +:+ String "034" ("echo " +:+ on +:+ " >/proc/sys/kernel/lock_stat" +:+ String "034" "").

Definition _perf_lock_record_stop (pm : PerfMon) : IO unit :=
  exec_ (lock_stat_switch "0") INHERIT ;;
  _perf_stop ;;
  exec_ ("sudo cp /proc/lock_stat " +:+ out_file pm ".perf.lock_stat") INHERIT.

Definition _perf_lock_record_start (pm : PerfMon) : IO unit :=
  exec_ (lock_stat_switch "1") INHERIT ;;
  exec_ ("sudo perf lock record -a -g -o " +:+ out_file pm ".perf.lock.data" +:+ " &") INHERIT.

(** *** The entries *)

Definition start (pm : PerfMon) : IO unit :=
  when (LEVEL_LOW <=? pm_LEVEL pm) (_cpu_stat_start pm) ;;
  when (pm_LEVEL pm =? LEVEL_PERF_RECORD) (_perf_record_start pm) ;;
  when (pm_LEVEL pm =? LEVEL_PERF_PROBE_SLEEP_LOCK) (_perf_probe_sleep_lock_start pm "") ;;
  when (pm_LEVEL pm =? LEVEL_PERF_STAT) (_perf_stat_start pm) ;;
  when (pm_LEVEL pm =? LEVEL_PERF_PROBE_SLEEP_LOCK_D) (_perf_probe_sleep_lock_start pm "%ax") ;;
  when (pm_LEVEL pm =? LEVEL_PERF_LOCK) (_perf_lock_record_start pm).

Definition stop_body (pm : PerfMon) : IO unit :=
  when (pm_LEVEL pm =? LEVEL_PERF_LOCK) (_perf_lock_record_stop pm) ;;
  when (pm_LEVEL pm =? LEVEL_PERF_RECORD) _perf_record_stop ;;
  when (pm_LEVEL pm =? LEVEL_PERF_PROBE_SLEEP_LOCK) _perf_probe_sleep_lock_stop ;;
  when (pm_LEVEL pm =? LEVEL_PERF_STAT) _perf_stat_stop ;;
  when (pm_LEVEL pm =? LEVEL_PERF_PROBE_SLEEP_LOCK_D) _perf_probe_sleep_lock_stop ;;
  when (LEVEL_LOW <=? pm_LEVEL pm) (_cpu_stat_stop pm).

(** [try: body finally: return]: the return replaces every exception. *)
Definition stop (pm : PerfMon) : IO unit := fun w => (Ret tt, (stop_body pm w).2).

Definition perfmon_main (argv : list string) : IO unit :=
  do perfmon <- default_perfmon;
  match argv with
  | [_; cmd] =>
      if String.eqb cmd "start" then start perfmon
      else if String.eqb cmd "stop" then stop perfmon
      else sys_exit 2
  | _ => sys_exit 1
  end.
End PerfMon.

(** * Facts *)

Section Facts.
Context `{Host} `{FloatText}.

(** What the report says: the time that passed in each state of the processors, and its
    share of all of it. *)
Definition report (start stop : list float) : string :=
  let delta := zip_with fsub stop start in
  let share x := fmul (fdiv x (fsum (tail delta))) (fof_Z 100) in
  join " " names +:+ nl +:+ join " " (map fmt_g (delta ++ map share (tail delta))) +:+ nl.

Lemma start_line_words (l : list float) :
  words (strip (hd "" (file_lines (universal_newlines (join " " (map frepr l) +:+ nl))))) = map frepr l.
Proof.
  assert (Hw : Forall (fun w => is_word w = true) (map frepr l))
    by (apply Forall_map, Forall_true; intros x; apply frepr_word).
  rewrite universal_newlines_id by by rewrite no_char_app, no_char_words.
  rewrite <- (app_str_nil (join " " (map frepr l) +:+ nl)), app_str_assoc.
  rewrite file_lines_app_nl by by apply no_char_words.
  simpl hd. rewrite words_strip, words_app_blank by done. by apply words_join.
Qed.

Lemma cpu_stat_stop_run TCK now pm n s1 s2 w w1 :
  _get_cpu_stat TCK now w = (Ret (n, s2), w1) →
  file_text w1 (pm_cpu_stat pm) = Some (join " " (map frepr s1) +:+ nl) →
  fzero (fsum (tail (zip_with fsub s2 s1))) = false →
  ∃ w2, _cpu_stat_stop TCK now pm w = (Ret tt, w2) ∧ file_text w2 (pm_cpu_stat pm) = Some (report s1 s2).
Proof.
  intros Hg Hf Hz. unfold _cpu_stat_stop. rewrite (bind_Ret _ _ _ _ _ Hg).
  erewrite bind_Ret by by apply read_file_Ret. rewrite start_line_words.
  rewrite (bind_Ret _ _ _ s1 w1).
  2:{ rewrite (map_each_Ret _ _ (fun t => default (fof_Z 0) (float_of t))).
      - do 2 f_equal. rewrite map_map. rewrite <- (map_id s1) at 2. apply map_ext.
        intros x. by rewrite float_of_frepr.
      - apply Forall_map, Forall_true. intros x. unfold to_float. by rewrite float_of_frepr. }
  cbn [snd]. set (delta := zip_with fsub s2 s1) in *.
  rewrite (bind_Ret _ _ _ (map (fun x => fmul (fdiv x (fsum (tail delta))) (fof_Z 100)) (tail delta)) w1).
  2:{ apply map_each_Ret, Forall_true. intros x. unfold fdivide, bind. by rewrite Hz. }
  destruct (file_at _ _ _ Hf) as [m Hm].
  destruct (write_file_existing w1 (pm_cpu_stat pm) (report s1 s2) _ _ Hm) as (r & Hw & Hr).
  exists (set_root r w1). split; [exact Hw|]. unfold file_text. by rewrite (at_path_put _ _ _ _ Hr).
Qed.

(** C28: what perfmon leaves between start and stop is a report.  Started and stopped at the
    lowest level, when the statistics of the processors can be read both times, reading
    them leaves the file alone, nobody else touches it in between, and the processor time
    that has passed is not zero in total: stop returns and the file holds the two lines
    run-filebench.py and run-dbench.py copy, the names of the columns, and the time spent
    in each state followed by the shares in percent. *)
Theorem start_stop_report TCK now1 now2 pm n1 s1 n2 s2 w w1 ws w' w2 :
  pm_LEVEL pm = LEVEL_LOW →
  _get_cpu_stat TCK now1 w = (Ret (n1, s1), w1) →
  start TCK now1 pm w = (Ret tt, ws) →
  file_text w' (pm_cpu_stat pm) = file_text ws (pm_cpu_stat pm) →
  _get_cpu_stat TCK now2 w' = (Ret (n2, s2), w2) →
  file_text w2 (pm_cpu_stat pm) = file_text w' (pm_cpu_stat pm) →
  fzero (fsum (tail (zip_with fsub s2 s1))) = false →
  ∃ w3, stop TCK now2 pm w' = (Ret tt, w3) ∧
        file_text w3 (pm_cpu_stat pm) = Some (report s1 s2).
Proof.
  intros HL Hg1 Hs Hw' Hg2 Hw2 Hz.
  assert (Hf : file_text ws (pm_cpu_stat pm) = Some (join " " (map frepr s1) +:+ nl)).
  { unfold start in Hs. rewrite HL in Hs. cbn in Hs.
    apply bind_Ret_inv in Hs as ([] & w3 & Hs & Hr). injection Hr as <-.
    unfold _cpu_stat_start in Hs. rewrite (bind_Ret _ _ _ _ _ Hg1) in Hs.
    by apply write_file_text in Hs. }
  rewrite Hf in Hw'. rewrite Hw' in Hw2.
  destruct (cpu_stat_stop_run TCK now2 pm n2 s1 s2 w' w2 Hg2 Hw2 Hz) as (w3 & Hr & Ht).
  exists w3. split; [|done]. unfold stop, stop_body. rewrite HL. f_equal.
  transitivity ((_cpu_stat_stop TCK now2 pm w').2); [done|]. by rewrite Hr.
Qed.
End Facts.

(** A machine that shows a hundred ticks of user time more once the file is written. *)
Definition busy_host : Host := {|
  spawn _ _ _ _ t :=
    let user := match tget ["work"; "out"] t with Some (File "" _) => "70" | _ => "170" end in
    Some (Exited 0, t, ("cpu " +:+ user +:+ " 0 0 30" +:+ nl +:+ "intr 5" +:+ nl, ""));
  cpu_count := 1;
  pw_home _ := None
|}.

Definition demo_pm : PerfMon := init_perfmon 0 "/work" "out" 30.

Lemma start_stop_report_witness :
  ∃ w3, stop (H := busy_host) (H0 := whole_float) 1 105 demo_pm
          (start (H := busy_host) (H0 := whole_float) 1 100 demo_pm demo_world).2 = (Ret tt, w3) ∧
        file_text w3 "/work/out" =
          Some (join " " names +:+ nl +:+ "5 100 0 0 0 100 0 0 0" +:+ nl).
Proof.
  set (ws := (start (H := busy_host) (H0 := whole_float) 1 100 demo_pm demo_world).2).
  destruct (start_stop_report (H := busy_host) (H0 := whole_float) 1 100 105 demo_pm
              0 [100; 70; 0; 0; 30] 0 [105; 170; 0; 0; 30] demo_world demo_world ws ws ws)
    as (w3 & H1 & H2); try (vm_compute; reflexivity).
  exists w3. split; [exact H1|]. exact H2.
Defined.
