(* ===== verification/FxBench.v ===== *)
(** benchmarks/fxmark/bin/run-filebench.py and run-dbench.py: the two benchmarks that are
    programs of their own.  Each takes its options, runs the program between the start and
    the stop of the profiler, looks for the line with the result in the output, and prints
    the two lines the log parser reads. *)

From S2P Require Import Prelude PyStr PyDict PyPath Effect Os Instance Shell OptParse.

(** * The command line *)

(** The options both scripts declare with optparse; every one takes a value. *)
Definition bench_options : list opt_spec :=
  map valued ["type"; "ncore"; "nbg"; "duration"; "root"; "profbegin"; "profend"; "proflog"].

(** * The benchmark object *)

Record Bench := MkBench {
  b_config : option string;
  b_bench_out : option string;
  b_workload : string;
  b_ncore : Z;
  b_duration : Z;
  b_root : string;
  b_profbegin : string;
  b_profend : string;
  b_proflog : string;
  b_profenv : string;
  b_perf_msg : option string
}.

Definition set_config (f : string) (b : Bench) : Bench :=
  MkBench (Some f) (b_bench_out b) (b_workload b) (b_ncore b) (b_duration b) (b_root b)
    (b_profbegin b) (b_profend b) (b_proflog b) (b_profenv b) (b_perf_msg b).
Definition set_bench_out (f : string) (b : Bench) : Bench :=
  MkBench (b_config b) (Some f) (b_workload b) (b_ncore b) (b_duration b) (b_root b)
    (b_profbegin b) (b_profend b) (b_proflog b) (b_profenv b) (b_perf_msg b).
Definition set_perf_msg (m : option string) (b : Bench) : Bench :=
  MkBench (b_config b) (b_bench_out b) (b_workload b) (b_ncore b) (b_duration b) (b_root b)
    (b_profbegin b) (b_profend b) (b_proflog b) (b_profenv b) m.

Definition int_or_raise (s : string) : IO Z :=
  of_option (py_int s) CValueError ("invalid literal for int() with base 10: " +:+ repr_str s).

Definition init_bench (type_ ncore_ duration_ root_ profbegin_ profend_ proflog_ : string) : IO Bench :=
  do ncore <- int_or_raise ncore_;
  do duration <- int_or_raise duration_;
  do w <- get;
  let var v := v +:+ "=" +:+ default "x" (env w !! v) in
  ret (MkBench None None type_ ncore duration root_ profbegin_ profend_ proflog_
         (join " " (map var ["PERFMON_LEVEL"; "PERFMON_LDIR"; "PERFMON_LFILE"])) None).

(** [__del__]: any exception is dropped, the second removal with the first. *)
Definition del_bench (b : Bench) : IO unit := fun w =>
  let rm f := match f with Some n => unlink n | None => ret tt end in
  (Ret tt, ((rm (b_config b) ;; rm (b_bench_out b)) w).2).

(** The result in the lines of the output: what follows the mark on the last line that has
    it, as [str] shows the bytes of the line. *)
Definition scan_line (PERF_STR : string) (msg : option string) (l : string) : option string :=
  let l_str := repr_bytes l in
  let idx := find l_str PERF_STR in
  if idx =? -1 then msg
  else Some (slice_from l_str (idx + Z.of_nat (String.length PERF_STR))).

Definition truthy (m : option string) : bool :=
  match m with Some s => nonempty s | None => false end.

(** The loop around [p.stdout.readlines()]: the first round reads to the end of the
    output, every later one reads nothing.  [rounds] bounds the rounds followed. *)
Fixpoint read_rounds {S} (PERF_STR : string) (rounds : nat) (lines : list string) (msg : option string) :
    M S (option string) :=
  match rounds with
  | O => raise CUnfinished ""
  | Datatypes.S rounds' =>
      let msg := foldl (scan_line PERF_STR) msg lines in
      if truthy msg then ret msg else read_rounds PERF_STR rounds' [] msg
  end.

Section Bench.
Context `{Host} (CUR_DIR : string).
(** the names tempfile gives the two files, and the rounds of the reading loop followed *)
Context (config_name out_name : string) (rounds : nat).

Definition exec_wait (cmd : string) : OM Bench unit := lift (shell cmd INHERIT) ;; ret tt.

(** The program runs with its output copied, marked, to a temporary file. *)
Definition run_program (PERF_STR cmd : string) : OM Bench unit :=
  lift (write_file out_name "") ;;
  set_self (set_bench_out out_name) ;;
  do p <- lift (shell cmd PIPE);
  do b <- self;
  do msg <- read_rounds PERF_STR rounds (file_lines (stdout p)) (b_perf_msg b);
  set_self (set_perf_msg msg) ;;
  lift (write_file out_name (sconcat (map (fun l => "#@ " +:+ l) (file_lines (stdout p))))).

(** The first two lines of the profiler's report, if it left one. *)
Definition profile (b : Bench) : IO (string * string) := fun w =>
  match read_file (b_proflog b) w with
  | (Ret text, w') =>
      (Ret match file_lines text with
           | name :: data :: _ => (name, data)
           | _ => ("", "")
           end, w')
  | (_, w') => (Ret ("", ""), w')
  end.

Definition print_report (b : Bench) (work work_sec : string) : IO unit :=
  do p <- profile b;
  print ("# ncpu secs works works/sec " +:+ p.1) ;;
  print (str_Z (b_ncore b) +:+ " " +:+ str_Z (b_duration b) +:+ " " +:+ work +:+ " " +:+
         work_sec +:+ " " +:+ p.2).

Definition no_perf_msg {A} : IO A := raise CAttributeError "'NoneType' object has no attribute 'split'".

(** The program around an object: check the options, run, report, leave with the status;
    the object is deleted at the end in any case. *)
Definition bench_main (run : OM Bench Z) (report : Bench → IO unit) (help_text : string)
    (argv : list string) : IO unit := fun w =>
  match parse_args bench_options argv [] with
  | Raise e => (Raise e, w)
  | Exit c => (Exit c, w)
  | Ret vals =>
      match missing bench_options vals with
      | Some o => (print ("Missing options: " +:+ o) ;; print help_text ;; sys_exit 1) w
      | None =>
          let v := opt_value vals in
          (do b <- init_bench (v "type") (v "ncore") (v "duration") (v "root") (v "profbegin")
                    (v "profend") (v "proflog");
           fun w1 =>
             let '(o, (w2, b')) := run (w1, b) in
             if unfinished o then (Raise (Exn CUnfinished ""), w2)
             else
               let (o', w3) :=
                 match o with
                 | Ret rc => (report b' ;; sys_exit rc) w2
                 | Raise e => (Raise e, w2)
                 | Exit c => (Exit c, w2)
                 end in
               (o', (del_bench b' w3).2)) w
      end
  end.
End Bench.

(** * run-filebench.py *)

Module FileBench.
Section FileBench.
Context `{Host} (CUR_DIR : string) (config_name out_name : string) (rounds : nat).

Definition WORKLOAD_DIR : string := normpath (join2 CUR_DIR "filebench-workloads").
Definition PRE_SCRIPT : string := normpath (join2 CUR_DIR "turnoff-aslr").
Definition PERF_STR : string := "IO Summary: ".

Definition config_file (b : Bench) : string := default "" (b_config b).

Definition _append_to_config (config_str : string) : OM Bench unit :=
  do b <- self;
  exec_wait ("echo '" +:+ config_str +:+ "' >> " +:+ config_file b).

Definition setup_workload : OM Bench bool :=
  do b <- self;
  let tail_ :=
    _append_to_config ("set $dir=" +:+ b_root b) ;;
    _append_to_config ("run " +:+ str_Z (b_duration b)) ;;
    ret true in
  if String.eqb (b_workload b) "oltp" then
    _append_to_config ("set $nshadows=" +:+ str_Z (b_ncore b * 2)) ;;
    _append_to_config ("set $ndbwriters=" +:+ str_Z (Z.min (b_ncore b) 63)) ;;
    tail_
  else if String.eqb (b_workload b) "fileserver" || String.eqb (b_workload b) "varmail" then
    _append_to_config ("set $nthreads=" +:+ str_Z (b_ncore b * 2)) ;;
    tail_
  else ret false.

Definition generate_config : OM Bench bool :=
  do b <- self;
  let config_template := normpath (join2 WORKLOAD_DIR (b_workload b +:+ ".f")) in
  do w <- lift get;
  match file_text w config_template with
  | None => ret false
  | Some _ =>
      lift (write_file config_name "") ;;
      set_self (set_config config_name) ;;
      lift (write_file config_name "# auto generated by fxmark") ;;
      exec_wait ("cat " +:+ config_template +:+ " >> " +:+ config_name) ;;
      setup_workload ;;
      ret true
  end.

Definition _run_filebench : OM Bench unit :=
  do b <- self;
  run_program out_name rounds PERF_STR ("sudo filebench -f " +:+ config_file b).

Definition run : OM Bench Z :=
  do ok <- generate_config;
  if negb ok then ret (-1)
  else
    exec_wait ("sudo " +:+ PRE_SCRIPT +:+ "; sync") ;;
    do b <- self;
    exec_wait (b_profenv b +:+ " " +:+ b_profbegin b) ;;
    _run_filebench ;;
    exec_wait (b_profenv b +:+ " " +:+ b_profend b) ;;
    ret 0.

(** The numbers before ops and ops/s in the summary. *)
Definition count_item (acc : string * string) (item : string) : string * string :=
  match words (strip item) with
  | [v; k] =>
      if String.eqb k "ops" then (v, acc.2)
      else if String.eqb k "ops/s" then (acc.1, v)
      else acc
  | _ => acc
  end.

Definition report (b : Bench) : IO unit :=
  match b_perf_msg b with
  | None => no_perf_msg
  | Some msg =>
      let r := foldl count_item ("0", "0") (split msg ",") in
      print_report b r.1 r.2
  end.

Definition main (help_text : string) (argv : list string) : IO unit :=
  bench_main run report help_text argv.
End FileBench.
End FileBench.

(** * run-dbench.py *)

Module DBench.
Section DBench.
Context `{Host} (CUR_DIR : string) (out_name : string) (rounds : nat).

Definition WORKLOAD_DIR : string := normpath (join2 CUR_DIR "dbench-workloads").
Definition PERF_STR : string := "Throughput".

Definition get_config (b : Bench) : string := normpath (join2 WORKLOAD_DIR (b_workload b +:+ ".txt")).

Definition _run_dbench : OM Bench unit :=
  do b <- self;
  run_program out_name rounds PERF_STR
    ("sudo dbench " +:+ str_Z (b_ncore b) +:+ " -t " +:+ str_Z (b_duration b) +:+ " -c " +:+
     get_config b +:+ " -D " +:+ b_root b).

Definition run : OM Bench Z :=
  do b <- self;
  exec_wait (b_profenv b +:+ " " +:+ b_profbegin b) ;;
  _run_dbench ;;
  exec_wait (b_profenv b +:+ " " +:+ b_profend b) ;;
  ret 0.

Definition report (b : Bench) : IO unit :=
  match b_perf_msg b with
  | None => no_perf_msg
  | Some msg =>
      do throughput <- of_option (head (words msg)) CIndexError "list index out of range";
      print_report b "0" throughput
  end.

Definition main (help_text : string) (argv : list string) : IO unit :=
  bench_main run report help_text argv.
End DBench.
End DBench.

(** * Facts *)

(** ** The reading loop *)

Definition marked (mark l : string) : Prop := contains (repr_bytes l) mark = true.

#[export] Instance marked_dec mark l : Decision (marked mark l).
Proof. unfold marked. apply _. Defined.

Definition marks : list string := [FileBench.PERF_STR; DBench.PERF_STR].

(** What [str] shows of bytes ends in a quote, so a mark is never at its end. *)
Lemma repr_bytes_end l :
  ∃ (t : string) (q : ascii), repr_bytes l = t +:+ String q "" ∧ (q = "'" ∨ q = "034")%char.
Proof.
  unfold repr_bytes. destruct (_ && _).
  - exists (String "b" (String "034" (repr_bytes_in "034" l))), "034"%char.
    rewrite !app_cons_str. auto.
  - exists (String "b" (String "'" (repr_bytes_in "'" l))), "'"%char.
    rewrite !app_cons_str. auto.
Qed.

Lemma app_last_str (s t : string) c d : s +:+ String c "" = t +:+ String d "" → c = d.
Proof.
  intros H%(f_equal srev). rewrite !srev_append in H. cbn in H. rewrite !app_cons_str in H. congruence.
Qed.

Lemma scan_line_marked mark l msg :
  mark ∈ marks → marked mark l → ∃ s, scan_line mark msg l = Some s ∧ s ≠ "".
Proof.
  intros Hm Hl. unfold scan_line, marked, contains, find in *.
  destruct (find_opt mark (repr_bytes l)) as [i|] eqn:E; [|done]. clear Hl.
  destruct (Z.eqb_spec (Z.of_nat i) (-1)); [lia|]. eexists. split; [done|].
  apply find_opt_parts in E as (a & b & E & ->). destruct (repr_bytes_end l) as (t & q & Hq & Hqq).
  intros ->. rewrite Hq, app_str_nil in E. apply elem_of_cons in Hm as [->|Hm]; [|apply list_elem_of_singleton in Hm as ->].
  - assert (q = " "%char) by (apply (app_last_str t (a +:+ "IO Summary:")); by rewrite E, app_str_assoc).
    by destruct Hqq; subst.
  - assert (q = "t"%char) by (apply (app_last_str t (a +:+ "Throughpu")); by rewrite E, app_str_assoc).
    by destruct Hqq; subst.
Qed.

Lemma scan_line_unmarked mark l msg : ¬ marked mark l → scan_line mark msg l = msg.
Proof.
  unfold marked, contains, scan_line, find. destruct (find_opt _ _); [done|]. by intros _.
Qed.

Lemma scan_unmarked mark lines msg :
  Forall (fun l => ¬ marked mark l) lines → foldl (scan_line mark) msg lines = msg.
Proof.
  intros Hl. revert msg. induction Hl as [|l lines H Hl IH]; intros msg; simpl; [done|].
  by rewrite scan_line_unmarked.
Qed.

(** The last line with a property. *)
Lemma last_such {A} (P : A → Prop) `{∀ x, Decision (P x)} (l : list A) :
  Exists P l → ∃ l1 x l2, l = l1 ++ x :: l2 ∧ P x ∧ Forall (fun y => ¬ P y) l2.
Proof.
  induction l as [|y l IH]; [by intros ?%Exists_nil|]. intros Hex.
  destruct (decide (Exists P l)) as [He|He].
  - destruct (IH He) as (l1 & x & l2 & -> & Hx & Hl2). by exists (y :: l1), x, l2.
  - apply Exists_cons in Hex as [Hy|]; [|done]. exists [], y, l. split_and!; [done..|].
    by apply not_Exists_Forall in He; [|apply _].
Qed.

Lemma read_rounds_silent {S} mark rounds (s : S) :
  read_rounds mark rounds [] None s = (Raise (Exn CUnfinished ""), s).
Proof. induction rounds as [|n IH]; [done|]. apply IH. Qed.

(** C34: the loop that waits for the result ends exactly when the benchmark printed it.
    With a line that has the mark of the result, the first round ends with what follows
    the mark on the last such line; with none, no number of rounds is enough. *)
Theorem read_rounds_ends {S} mark lines (s : S) :
  mark ∈ marks →
  (Exists (marked mark) lines →
   ∃ l1 l l2, lines = l1 ++ l :: l2 ∧ marked mark l ∧ Forall (fun x => ¬ marked mark x) l2 ∧
     ∀ rounds, read_rounds mark (Datatypes.S rounds) lines None s = (Ret (scan_line mark None l), s)) ∧
  (¬ Exists (marked mark) lines →
   ∀ rounds, read_rounds mark rounds lines None s = (Raise (Exn CUnfinished ""), s)).
Proof.
  intros Hm. split.
  - intros (l1 & l & l2 & -> & Hl & Hl2)%last_such; [|apply _]. exists l1, l, l2.
    split_and!; [done..|]. intros rounds. simpl. rewrite foldl_app. simpl.
    rewrite scan_unmarked by done. unfold marked, scan_line in *.
    destruct (scan_line_marked mark l None Hm Hl) as (t & Ht & Hne). unfold scan_line in Ht.
    destruct (_ =? -1); [done|]. injection Ht as ->. simpl. unfold nonempty.
    by rewrite (proj2 (String.eqb_neq _ _) Hne).
  - intros Hno [|rounds]; [done|]. simpl. rewrite scan_unmarked.
    + apply read_rounds_silent.
    + by apply not_Exists_Forall in Hno; [|apply _].
Qed.

Definition demo_output : list string :=
  ["65231: 30.000: Running..." +:+ nl;
   "65231: 31.114: IO Summary: 34453 ops, 1148.248 ops/s, (177/177 r/w),   4.0mb/s" +:+ nl].

Lemma read_rounds_ends_witness :
  (∃ l, read_rounds FileBench.PERF_STR 1 demo_output None tt = (Ret (scan_line FileBench.PERF_STR None l), tt)) ∧
  ∀ rounds, read_rounds FileBench.PERF_STR rounds ["no such file" +:+ nl] None tt =
              (Raise (Exn CUnfinished ""), tt).
Proof.
  split.
  - destruct (read_rounds_ends FileBench.PERF_STR demo_output tt) as [H _];
      [apply (bool_decide_unpack _); vm_compute; exact I|].
    destruct H as (l1 & l & l2 & _ & _ & _ & H); [apply (bool_decide_unpack _); vm_compute; exact I|].
    exists l. apply H.
  - destruct (read_rounds_ends FileBench.PERF_STR ["no such file" +:+ nl] tt) as [_ H];
      [apply (bool_decide_unpack _); vm_compute; exact I|].
    apply H. apply (bool_decide_unpack _). vm_compute. exact I.
Defined.
