(* ===== verification/FxRunner.v ===== *)
(** benchmarks/fxmark/bin/run-fxmark.py: the runner that goes through every configuration
    of medium, file system, benchmark, number of cores and kind of I/O, mounts the file
    system, runs the benchmark and writes the log that FxParser reads. *)

From S2P Require Import Prelude PyStr PyDict PyPath Effect Os Instance Shell PerfMon FxBench FxParser.
From Stdlib Require Import Sorted.

(** The module cpupol, which the build generates for the machine. *)
Class CpuPol := {
  PHYSICAL_CHIPS : Z;
  CORE_PER_CHIP : Z;
  SMT_LEVEL : Z;
  MODEL_NAME : string;
  seq_cores : list Z;
  test_hw_thr_cnts_fine_grain : list Z;
  test_hw_thr_cnts_coarse_grain : list Z
}.

(** * Configuration *)

Definition LOOPDEV : string := "/dev/loop0".
Definition NVMEDEV : string := "/dev/nvme0n1pX".
Definition HDDDEV : string := "/dev/sdX".
Definition SSDDEV : string := "/dev/sdY".

Definition CORE_FINE_GRAIN : Z := 0.
Definition CORE_COARSE_GRAIN : Z := 1.

(** The arguments of the constructor; the filter names medium, file system, benchmark,
    number of cores and kind of I/O. *)
Record run_config := RunConfig { CORE_GRAIN : Z; PERFMON_LEVEL : Z; FILTER : list string }.

(** The constructor always turns the dry run off. *)
Definition DRYRUN : bool := false.

Definition DISK_SIZE : string := "32G".
Definition DURATION : Z := 30.
Definition DIRECTIOS : list string := ["bufferedio"; "directio"].
Definition MEDIA_TYPES : list string := ["ssd"; "hdd"; "nvme"; "mem"].
Definition FS_TYPES : list string := ["tmpfs"; "ext4"; "ext4_no_jnl"; "xfs"; "btrfs"; "f2fs"].
Definition BENCH_TYPES : list string :=
  ["DWAL"; "DWOL"; "DWOM"; "DWSL"; "MWRL"; "MWRM"; "MWCL"; "MWCM"; "MWUM"; "MWUL"; "DWTL";
   "filebench_varmail"; "filebench_oltp"; "filebench_fileserver"; "dbench_client";
   "MRPL"; "MRPM"; "MRPH"; "MRDM"; "MRDL"; "DRBH"; "DRBM"; "DRBL"].
Definition BENCH_BG_SFX : string := "_bg".

Inductive mount_fn := mount_tmpfs_fn | mount_anyfs_fn | mount_ext4_no_jnl_fn.

Definition HOWTO_MOUNT : list (string * mount_fn) :=
  [("tmpfs", mount_tmpfs_fn); ("ext2", mount_anyfs_fn); ("ext3", mount_anyfs_fn);
   ("ext4", mount_anyfs_fn); ("ext4_no_jnl", mount_ext4_no_jnl_fn); ("xfs", mount_anyfs_fn);
   ("btrfs", mount_anyfs_fn); ("f2fs", mount_anyfs_fn); ("jfs", mount_anyfs_fn);
   ("reiserfs", mount_anyfs_fn)].

Definition HOWTO_MKFS : list (string * string) :=
  [("ext2", "-F"); ("ext3", "-F"); ("ext4", "-F"); ("ext4_no_jnl", "-F"); ("xfs", "-f");
   ("btrfs", "-f"); ("jfs", "-q"); ("reiserfs", "-q")].

Inductive media_fn := init_mem_disk_fn | init_nvme_disk_fn | init_ssd_disk_fn | init_hdd_disk_fn.

Definition HOWTO_INIT_MEDIA : list (string * media_fn) :=
  [("mem", init_mem_disk_fn); ("nvme", init_nvme_disk_fn); ("ssd", init_ssd_disk_fn);
   ("hdd", init_hdd_disk_fn)].

(** The log file: not opened yet, open with the text written so far, or closed. *)
Inductive log_file := NotOpened | Opened (text : string) | Closed.

Inductive hook := deinit_mem_disk_hook.

(** The attributes that change, and beside them every command given to the shell. *)
Record Runner := MkRunner {
  perfmon_log : string;
  log_dir : string;
  log_path : string;
  log_fd : log_file;
  umount_hook : list hook;
  active_ncore : Z;
  issued : list string
}.

Definition init_runner : Runner := MkRunner "" "" "" NotOpened [] (-1) [].

Definition set_perfmon_log (p : string) (r : Runner) : Runner :=
  MkRunner p (log_dir r) (log_path r) (log_fd r) (umount_hook r) (active_ncore r) (issued r).
Definition set_log_paths (d p : string) (r : Runner) : Runner :=
  MkRunner (perfmon_log r) d p (log_fd r) (umount_hook r) (active_ncore r) (issued r).
Definition set_log_fd (f : log_file) (r : Runner) : Runner :=
  MkRunner (perfmon_log r) (log_dir r) (log_path r) f (umount_hook r) (active_ncore r) (issued r).
Definition set_umount_hook (h : list hook) (r : Runner) : Runner :=
  MkRunner (perfmon_log r) (log_dir r) (log_path r) (log_fd r) h (active_ncore r) (issued r).
Definition set_active_ncore (n : Z) (r : Runner) : Runner :=
  MkRunner (perfmon_log r) (log_dir r) (log_path r) (log_fd r) (umount_hook r) n (issued r).
Definition issue (cmd : string) (r : Runner) : Runner :=
  MkRunner (perfmon_log r) (log_dir r) (log_path r) (log_fd r) (umount_hook r) (active_ncore r)
    (issued r ++ [cmd]).

(** [","  .join(map(str, l))] *)
Definition str_list (l : list Z) : string := join "," (map str_Z l).

Fixpoint insert_desc (n : Z) (l : list Z) : list Z :=
  match l with
  | [] => [n]
  | m :: l' => if m <? n then n :: l else m :: insert_desc n l'
  end.

(** [sorted(l, reverse=True)] *)
Definition sorted_desc (l : list Z) : list Z := foldr insert_desc [] l.

Definition quoted (s : string) : string := String "034" (s +:+ String "034" "").

Section Runner.
Context `{Host} `{CpuPol} (CUR_DIR : string) (cfg : run_config).
(** [str(datetime.datetime.now())], and the rounds of the unmounting loop followed *)
Context (now : string) (rounds : nat).

Definition npcpu : Z := PHYSICAL_CHIPS * CORE_PER_CHIP.
Definition nhwthr : Z := npcpu * SMT_LEVEL.

Definition get_ncores : list Z :=
  let cnts := if CORE_GRAIN cfg =? CORE_COARSE_GRAIN then test_hw_thr_cnts_coarse_grain
              else test_hw_thr_cnts_fine_grain in
  (fix go (l : list Z) : list Z :=
     match l with
     | [] => []
     | n :: l' => if npcpu <? n then [] else n :: go l'
     end) cnts.

Definition in_dir (name : string) : string := normpath (join2 CUR_DIR name).
Definition test_root : string := in_dir "root".
Definition fxmark_path : string := in_dir "fxmark".
Definition filebench_path : string := in_dir "run-filebench.py".
Definition dbench_path : string := in_dir "run-dbench.py".
Definition tmp_path : string := in_dir ".tmp".
Definition disk_path : string := normpath (join2 tmp_path "disk.img").
Definition perfmon_start : string := in_dir "perfmon.py" +:+ " start".
Definition perfmon_stop : string := in_dir "perfmon.py" +:+ " stop".

(** * Methods *)

Abbreviation RM := (OM Runner).

Definition exec_cmd (cmd : string) (out : stdio) : RM process :=
  set_self (issue cmd) ;;
  lift (shell cmd out).

Definition do_cmd (cmd : string) (out : stdio) : RM unit := exec_cmd cmd out ;; ret tt.

(** Whether the command ended well. *)
Definition cmd_ok (cmd : string) (out : stdio) : RM bool :=
  do p <- exec_cmd cmd out; ret (returncode p =? 0).

(** ** The log *)

Definition log (l : string) : RM unit :=
  do r <- self;
  match log_fd r with
  | NotOpened => raise CAttributeError "'Runner' object has no attribute 'log_fd'"
  | Closed => raise CValueError "write to closed file"
  | Opened text =>
      set_self (set_log_fd (Opened (text +:+ l +:+ nl))) ;;
      lift (print l)
  end.

Definition log_start : RM unit :=
  let dir := normpath (path_join CUR_DIR
               ["../logs"; replace (replace now " " "-") ":" "-"]) in
  let path := normpath (join2 dir "fxmark.log") in
  set_self (set_log_paths dir path) ;;
  do_cmd ("mkdir -p " +:+ dir) DEVNULL ;;
  lift (write_file path "") ;;
  set_self (set_log_fd (Opened "")) ;;
  do p <- exec_cmd ("echo -n " +:+ quoted "### SYSTEM         = " +:+ "; uname -a") PIPE;
  for_each (stripped_lines p) log ;;
  log ("### DISK_SIZE      = " +:+ DISK_SIZE) ;;
  log ("### DURATION       = " +:+ str_Z DURATION +:+ "s") ;;
  log ("### DIRECTIO       = " +:+ join "," DIRECTIOS) ;;
  log ("### MEDIA_TYPES    = " +:+ join "," MEDIA_TYPES) ;;
  log ("### FS_TYPES       = " +:+ join "," FS_TYPES) ;;
  log ("### BENCH_TYPES    = " +:+ join "," BENCH_TYPES) ;;
  log ("### NCORES         = " +:+ str_list get_ncores) ;;
  log ("### CORE_SEQ       = " +:+ str_list seq_cores) ;;
  log nl ;;
  log ("### MODEL_NAME     = " +:+ MODEL_NAME) ;;
  log ("### PHYSICAL_CHIPS = " +:+ str_Z PHYSICAL_CHIPS) ;;
  log ("### CORE_PER_CHIP  = " +:+ str_Z CORE_PER_CHIP) ;;
  log ("### SMT_LEVEL      = " +:+ str_Z SMT_LEVEL) ;;
  log nl.

(** Closing writes out what is buffered, to the file if it still has its name. *)
Definition log_end : RM unit :=
  do r <- self;
  match log_fd r with
  | NotOpened => raise CAttributeError "'Runner' object has no attribute 'log_fd'"
  | Closed => ret tt
  | Opened text =>
      do w <- lift get;
      match file_text w (log_path r) with
      | Some _ => lift (write_file (log_path r) text)
      | None => ret tt
      end ;;
      set_self (set_log_fd Closed)
  end.

(** ** Preparing the machine *)

Definition keep_sudo : RM unit := do_cmd "sudo -v" DEVNULL.

Definition drop_caches : RM unit := do_cmd ("sudo " +:+ in_dir "drop-caches") DEVNULL.

Definition set_cpus (ncore : Z) : RM unit :=
  do r <- self;
  if active_ncore r =? ncore then ret tt
  else
    set_self (set_active_ncore ncore) ;;
    let ncores :=
      if ncore =? 0 then "all"
      else str_list (take (Z.to_nat (if ncore <? 0 then Z.max 0 (Z.of_nat (length seq_cores) + ncore)
                                     else ncore)) seq_cores) in
    do_cmd (join " " ["sudo"; in_dir "set-cpus"; ncores]) DEVNULL.

Definition add_bg_worker_if_needed (bench : string) (ncore : Z) : Z * Z :=
  if endswith bench BENCH_BG_SFX then (Z.min (ncore + 1) nhwthr, 1) else (ncore, 0).

Definition lock_stat_off : string := lock_stat_switch "0".

Definition prepre_work (ncore : Z) : RM unit :=
  keep_sudo ;;
  do_cmd lock_stat_off DEVNULL ;;
  drop_caches ;;
  do_cmd "sync" DEVNULL.

Definition pre_work : RM unit := keep_sudo ;; drop_caches.
Definition post_work : RM unit := keep_sudo.

(** ** Mounting *)

Definition unset_loopdev : RM unit := do_cmd ("sudo losetup -d " +:+ LOOPDEV) DEVNULL.

Fixpoint umount_loop (rounds : nat) (where_ : string) : RM unit :=
  match rounds with
  | O => raise CUnfinished ""
  | S rounds' =>
      do ok <- cmd_ok ("sudo umount " +:+ where_) DEVNULL;
      if ok then umount_loop rounds' where_ else ret tt
  end.

(** The hooks are taken off and given to [map], which calls none of them. *)
Definition umount (where_ : string) : RM unit :=
  umount_loop rounds where_ ;;
  set_self (set_umount_hook []).

Definition deinit_mem_disk : RM unit := unset_loopdev ;; umount tmp_path.

Definition mount_tmpfs (media fs mnt_path : string) : RM bool :=
  cmd_ok ("sudo mount -t tmpfs -o mode=0777,size=" +:+ DISK_SIZE +:+ " none " +:+ mnt_path) DEVNULL.

(** [None] is the result [False], which is no pair. *)
Definition init_mem_disk : RM (option (bool * string)) :=
  unset_loopdev ;;
  umount tmp_path ;;
  unset_loopdev ;;
  do_cmd ("mkdir -p " +:+ tmp_path) DEVNULL ;;
  do ok <- mount_tmpfs "mem" "tmpfs" tmp_path;
  if negb ok then ret None
  else
    do_cmd ("dd if=/dev/zero of=" +:+ disk_path +:+ " bs=1G count=1024000") DEVNULL ;;
    do set <- cmd_ok (join " " ["sudo"; "losetup"; LOOPDEV; disk_path]) DEVNULL;
    when set (set_self (fun r => set_umount_hook (umount_hook r ++ [deinit_mem_disk_hook]) r)) ;;
    ret (Some (set, LOOPDEV)).

Definition init_dev (dev : string) : RM (option (bool * string)) :=
  do ex <- lift (path_exists dev); ret (Some (ex, dev)).
Definition init_nvme_disk := init_dev NVMEDEV.
Definition init_ssd_disk := init_dev SSDDEV.
Definition init_hdd_disk := init_dev HDDDEV.

Definition init_media (media : string) : RM (bool * option string) :=
  match dget media HOWTO_INIT_MEDIA with
  | None => ret (false, None)
  | Some f =>
      do r <- match f with
              | init_mem_disk_fn => init_mem_disk
              | init_nvme_disk_fn => init_nvme_disk
              | init_ssd_disk_fn => init_ssd_disk
              | init_hdd_disk_fn => init_hdd_disk
              end;
      match r with
      | None => raise CTypeError "cannot unpack non-iterable bool object"
      | Some (rc, dev_path) => ret (rc, Some dev_path)
      end
  end.

(** Commands one after the other, up to the first that fails. *)
Fixpoint all_ok (cmds : list string) : RM bool :=
  match cmds with
  | [] => ret true
  | c :: cmds' => do ok <- cmd_ok c DEVNULL; if ok then all_ok cmds' else ret false
  end.

Definition mount_anyfs (media fs mnt_path : string) : RM bool :=
  do r <- init_media media;
  let dev_path := default "" r.2 in
  if negb r.1 then ret false
  else all_ok
    ["sudo mkfs." +:+ fs +:+ " " +:+ default "" (dget fs HOWTO_MKFS) +:+ " " +:+ dev_path;
     join " " ["sudo mount -t"; fs; dev_path; mnt_path];
     "sudo chmod 777 " +:+ mnt_path].

Definition mount_ext4_no_jnl (media fs mnt_path : string) : RM bool :=
  do r <- init_media media;
  let dev_path := default "" r.2 in
  if negb r.1 then ret false
  else all_ok
    ["sudo mkfs.ext4 " +:+ default "" (dget fs HOWTO_MKFS) +:+ " " +:+ dev_path;
     "sudo tune2fs -O ^has_journal " +:+ dev_path;
     join " " ["sudo mount -t ext4"; dev_path; mnt_path];
     "sudo chmod 777 " +:+ mnt_path].

Definition mount (media fs mnt_path : string) : RM bool :=
  match dget fs HOWTO_MOUNT with
  | None => ret false
  | Some f =>
      umount mnt_path ;;
      do_cmd ("mkdir -p " +:+ mnt_path) DEVNULL ;;
      match f with
      | mount_tmpfs_fn => mount_tmpfs media fs mnt_path
      | mount_anyfs_fn => mount_anyfs media fs mnt_path
      | mount_ext4_no_jnl_fn => mount_ext4_no_jnl media fs mnt_path
      end
  end.

(** ** The configurations *)

Fixpoint _match_config (key1 key2 : list string) : bool :=
  match key1, key2 with
  | k1 :: key1', k2 :: key2' =>
      if String.eqb k1 "*" || String.eqb k2 "*" then _match_config key1' key2'
      else if negb (String.eqb k1 k2) then false
      else _match_config key1' key2'
  | _, _ => true
  end.

Record conf := Conf { c_media : string; c_fs : string; c_bench : string; c_ncore : Z; c_dio : string }.

Definition gen_config : list conf :=
  flat_map (fun ncore =>
    flat_map (fun bench =>
      flat_map (fun media =>
        flat_map (fun dio =>
          flat_map (fun fs =>
            if String.eqb fs "tmpfs" && negb (String.eqb media "mem") then []
            else match dget fs HOWTO_MOUNT with
                 | None => []
                 | Some _ =>
                     if _match_config (FILTER cfg) [media; fs; bench; str_Z ncore; dio]
                     then [Conf media fs bench ncore dio] else []
                 end) FS_TYPES) DIRECTIOS) MEDIA_TYPES) BENCH_TYPES) (sorted_desc get_ncores).

(** ** Running *)

Definition fxmark_env (r : Runner) : string :=
  join " " ["PERFMON_LEVEL=" +:+ str_Z (PERFMON_LEVEL cfg);
            "PERFMON_LDIR=" +:+ log_dir r;
            "PERFMON_LFILE=" +:+ perfmon_log r].

Definition get_bin_type (bench : string) : string * string :=
  if startswith bench "filebench_" then (filebench_path, slice_from bench 10)
  else if startswith bench "dbench_" then (dbench_path, slice_from bench 7)
  else (fxmark_path, bench).

(** The arguments given to the benchmark, before the shell takes off the quotes of the two
    commands. *)
Definition fxmark_args (type : string) (ncore nbg : Z) (directio plog : string) (q : string → string) :
    list string :=
  ["--type"; type; "--ncore"; str_Z ncore; "--nbg"; str_Z nbg; "--duration"; str_Z DURATION;
   "--directio"; directio; "--root"; test_root; "--profbegin"; q perfmon_start;
   "--profend"; q perfmon_stop; "--proflog"; plog].

Definition fxmark (media fs bench : string) (ncore nfg nbg : Z) (dio : string) : RM unit :=
  do r <- self;
  let plog := normpath (join2 (log_dir r) (join "." [media; fs; bench; str_Z nfg; "pm"])) in
  set_self (set_perfmon_log plog) ;;
  let '(bin, type) := get_bin_type bench in
  do directio <-
    (if String.eqb dio "directio" then
       if String.eqb fs "tmpfs" then
         lift (print "# INFO: DirectIO under tmpfs disabled by default") ;; ret "0"
       else lift (print "# INFO: DirectIO Enabled") ;; ret "1"
     else ret "0");
  do r <- self;
  do p <- exec_cmd (join " " (fxmark_env r :: bin :: fxmark_args type ncore nbg directio plog quoted)) PIPE;
  for_each (stripped_lines p) log.

Definition cleanup_cmd (r : Runner) : string :=
  join " " [fxmark_env r; perfmon_stop +:+ "; rm -f " +:+ log_dir r +:+ "/*.pm"].

Definition fxmark_cleanup : RM unit :=
  do r <- self;
  do_cmd (cleanup_cmd r) INHERIT ;;
  do_cmd lock_stat_off DEVNULL.

Definition key_line (c : conf) (nfg : Z) : string :=
  "## " +:+ join ":" [c_media c; c_fs c; c_bench c; str_Z nfg; c_dio c].

(** One round of the loop. *)
Definition run_conf (c : conf) : RM unit :=
  let '(ncore, nbg) := add_bg_worker_if_needed (c_bench c) (c_ncore c) in
  let nfg := ncore - nbg in
  if DRYRUN then log (key_line c nfg)
  else
    prepre_work ncore ;;
    do mounted <- mount (c_media c) (c_fs c) test_root;
    if negb mounted then log ("# Fail to mount " +:+ c_fs c +:+ " on " +:+ c_media c +:+ ".")
    else
      log (key_line c nfg) ;;
      pre_work ;;
      fxmark (c_media c) (c_fs c) (c_bench c) ncore nfg nbg (c_dio c) ;;
      post_work.

Definition run_body : RM unit :=
  log_start ;;
  for_each gen_config run_conf ;;
  log ("### NUM_TEST_CONF  = " +:+ str_Z (Z.of_nat (length gen_config))).

Definition run_cleanup : RM unit :=
  log_end ;;
  fxmark_cleanup ;;
  umount test_root ;;
  set_cpus 0.

(** [try: ... finally: ...]; a body that does not end does not reach the clause. *)
Definition run : RM unit := fun s =>
  if unfinished (run_body s).1 then run_body s else finally run_body run_cleanup s.
End Runner.

(** * The program *)

(** [input()] on the lines still to be typed. *)
Definition input (prompt : string) : OM (list string) string :=
  lift (print prompt) ;;
  do ls <- self;
  match ls with
  | [] => raise CEOFError "EOF when reading a line"
  | l :: ls' => set_self (fun _ => ls') ;; ret l
  end.

Definition percents : string := repeat_char "%" 80.

Definition confirm_media_path : OM (list string) unit :=
  let refuse := lift (print "Please, check Runner.LOOPDEV and Runner.NVMEDEV") ;; sys_exit 1 in
  lift (print percents) ;;
  lift (print "%% WARNING! WARNING! WARNING! WARNING! WARNING!") ;;
  lift (print percents) ;;
  do yn <- input ("All data in " +:+ HDDDEV +:+ ", " +:+ SSDDEV +:+ ", " +:+ NVMEDEV +:+ " and " +:+
                  LOOPDEV +:+ " will be deleted. Is it ok? [Y,N]: ");
  if negb (String.eqb yn "Y") then refuse
  else
    do yn <- input "Are you sure? [Y,N]: ";
    if negb (String.eqb yn "Y") then refuse
    else
      lift (print percents) ;;
      lift (print (nl +:+ nl)).

Definition main_config : list run_config :=
  [RunConfig CORE_COARSE_GRAIN LEVEL_LOW ["mem"; "tmpfs"; "MWRL"; "*"; "bufferedio"]].

Definition fxmark_main `{Host} `{CpuPol} (CUR_DIR now : string) (rounds : nat) (answers : list string) :
    IO unit := fun w =>
  match confirm_media_path (w, answers) with
  | (Ret _, (w', _)) =>
      for_each main_config (fun c w =>
        let '(o, (w', _)) := run CUR_DIR c now rounds (w, init_runner) in (o, w')) w'
  | (Raise e, (w', _)) => (Raise e, w')
  | (Exit c, (w', _)) => (Exit c, w')
  end.

(** * Facts *)

(** ** The configurations *)

(** A field of the filter admits a text. *)
Definition admits (pat s : string) : Prop := pat = "*" ∨ pat = s.

Lemma match_config_cons p s ps ss :
  s ≠ "*" → _match_config (p :: ps) (s :: ss) = true ↔ admits p s ∧ _match_config ps ss = true.
Proof.
  intros Hs. simpl. rewrite (proj2 (String.eqb_neq _ _) Hs), orb_false_r. unfold admits.
  destruct (String.eqb_spec p "*"); [naive_solver|]. destruct (String.eqb_spec p s); naive_solver.
Qed.

Lemma str_Z_not_star n : str_Z n ≠ "*".
Proof. intros E. pose proof (py_int_str_Z n) as H. by rewrite E in H. Qed.

Definition names_ok : Prop :=
  Forall (fun s => s ≠ "*" ∧ no_char ":" s = true ∧ py_int s = None)
    (MEDIA_TYPES ++ FS_TYPES ++ BENCH_TYPES ++ DIRECTIOS).

Lemma names_ok_holds : names_ok.
Proof. apply (bool_decide_unpack _). vm_compute. exact I. Qed.

Lemma name_ok s :
  s ∈ MEDIA_TYPES ∨ s ∈ FS_TYPES ∨ s ∈ BENCH_TYPES ∨ s ∈ DIRECTIOS →
  s ≠ "*" ∧ no_char ":" s = true ∧ py_int s = None.
Proof.
  intros Hs. pose proof names_ok_holds as Hn. unfold names_ok in Hn. rewrite Forall_forall in Hn.
  apply Hn. rewrite !elem_of_app. tauto.
Qed.

Lemma mountable fs : fs ∈ FS_TYPES → ∃ f, dget fs HOWTO_MOUNT = Some f.
Proof.
  intros Hf. assert (Ha : Forall (fun fs => is_Some (dget fs HOWTO_MOUNT)) FS_TYPES)
    by (repeat constructor; by eexists).
  rewrite Forall_forall in Ha. by destruct (Ha _ Hf) as [f ?]; exists f.
Qed.

Lemma elem_of_insert_desc x n l : x ∈ insert_desc n l ↔ x = n ∨ x ∈ l.
Proof. induction l as [|m l IH]; simpl; [set_solver|]. case_match; set_solver. Qed.

Lemma elem_of_sorted_desc x l : x ∈ sorted_desc l ↔ x ∈ l.
Proof. induction l as [|m l IH]; simpl; [done|]. rewrite elem_of_insert_desc, IH. set_solver. Qed.

Lemma insert_desc_sorted n l : StronglySorted Z.ge l → StronglySorted Z.ge (insert_desc n l).
Proof.
  induction 1 as [|m l Hl IH Hm]; simpl; [repeat constructor|].
  destruct (Z.ltb_spec m n).
  - constructor; [by constructor|]. constructor; [lia|]. eapply Forall_impl; [exact Hm|]. simpl. lia.
  - constructor; [done|]. rewrite Forall_forall in *. intros x [->|Hx]%elem_of_insert_desc; [lia|auto].
Qed.

Lemma sorted_desc_sorted l : StronglySorted Z.ge (sorted_desc l).
Proof. induction l as [|n l IH]; simpl; [constructor|]. by apply insert_desc_sorted. Qed.

(** Going through a sorted list in order keeps the order. *)
Lemma flat_map_sorted {A B} (R : A → A → Prop) (key : B → A) (f : A → list B) (l : list A) :
  (∀ a, R a a) → (∀ a b, b ∈ f a → key b = a) → StronglySorted R l →
  StronglySorted (fun x y => R (key x) (key y)) (flat_map f l).
Proof.
  intros Hr Hk. induction 1 as [|a l Hl IH Ha]; simpl; [constructor|].
  assert (Hf : ∀ b, b ∈ f a → key b = a) by eauto. induction (f a) as [|b bs IHb]; [done|]. simpl.
  constructor; [apply IHb; set_solver|]. rewrite (Hf b) by set_solver. apply Forall_app. split.
  - apply Forall_forall. intros y Hy. rewrite Hf by set_solver. apply Hr.
  - apply Forall_forall. intros y (a' & Ha' & Hy)%list_elem_of_In%in_flat_map.
    rewrite (Hk a') by by apply list_elem_of_In. rewrite Forall_forall in Ha.
    by apply Ha, list_elem_of_In.
Qed.

Lemma elem_of_flat_map {A B} (f : A → list B) (l : list A) y :
  y ∈ flat_map f l ↔ ∃ x, x ∈ l ∧ y ∈ f x.
Proof.
  rewrite list_elem_of_In, in_flat_map. by setoid_rewrite list_elem_of_In.
Qed.

#[export] Instance conf_eq_dec : EqDecision conf.
Proof. solve_decision. Defined.

Section Configurations.
Context `{CpuPol} (cfg : run_config).

Lemma elem_of_gen_config c :
  c ∈ gen_config cfg ↔
    (c_ncore c ∈ get_ncores cfg ∧ c_bench c ∈ BENCH_TYPES ∧ c_media c ∈ MEDIA_TYPES ∧
     c_dio c ∈ DIRECTIOS ∧ c_fs c ∈ FS_TYPES ∧ (c_fs c = "tmpfs" → c_media c = "mem") ∧
     _match_config (FILTER cfg) [c_media c; c_fs c; c_bench c; str_Z (c_ncore c); c_dio c] = true).
Proof.
  unfold gen_config. rewrite elem_of_flat_map. setoid_rewrite elem_of_flat_map.
  setoid_rewrite elem_of_flat_map. setoid_rewrite elem_of_flat_map. setoid_rewrite elem_of_flat_map.
  setoid_rewrite elem_of_sorted_desc. split.
  - intros (n & Hn & b & Hb & m & Hm & d & Hd & f & Hf & Hc). destruct (mountable f Hf) as [fn Hfn].
    rewrite Hfn in Hc. destruct (String.eqb_spec f "tmpfs"), (String.eqb_spec m "mem"); simpl in Hc;
      try by apply elem_of_nil in Hc.
    all: destruct (_match_config _ _) eqn:Em; [|by apply elem_of_nil in Hc];
      apply list_elem_of_singleton in Hc as ->; by split_and!.
  - destruct c as [m f b n d]; cbn [c_media c_fs c_bench c_ncore c_dio]. intros (Hn & Hb & Hm & Hd & Hf & Ht & Hc).
    exists n. split; [done|]. exists b. split; [done|]. exists m. split; [done|].
    exists d. split; [done|]. exists f. split; [done|]. destruct (mountable f Hf) as [fn ->].
    rewrite Hc. destruct (String.eqb_spec f "tmpfs") as [Hft|]; simpl; [|by apply list_elem_of_singleton].
    rewrite (Ht Hft). by apply list_elem_of_singleton.
Qed.

(** C22: the runner visits exactly the configurations its filter admits: every combination
    of a number of cores of the policy, a benchmark, a medium, a kind of I/O and a file
    system that fits the five fields of the filter, with tmpfs only in memory; and it
    visits them with the number of cores never increasing. *)
Theorem gen_config_exact pm pf pb pn pd :
  FILTER cfg = [pm; pf; pb; pn; pd] →
  (∀ c, c ∈ gen_config cfg ↔
    c_ncore c ∈ get_ncores cfg ∧ c_bench c ∈ BENCH_TYPES ∧ c_media c ∈ MEDIA_TYPES ∧
    c_dio c ∈ DIRECTIOS ∧ c_fs c ∈ FS_TYPES ∧ (c_fs c = "tmpfs" → c_media c = "mem") ∧
    admits pm (c_media c) ∧ admits pf (c_fs c) ∧ admits pb (c_bench c) ∧
    admits pn (str_Z (c_ncore c)) ∧ admits pd (c_dio c)) ∧
  StronglySorted (fun c1 c2 => (c_ncore c1 >= c_ncore c2)%Z) (gen_config cfg).
Proof.
  intros HF. split.
  - intros c. rewrite elem_of_gen_config, HF.
    assert (Hm : c_media c ∈ MEDIA_TYPES → c_media c ≠ "*") by (intros ?; apply name_ok; auto).
    assert (Hf : c_fs c ∈ FS_TYPES → c_fs c ≠ "*") by (intros ?; apply name_ok; auto).
    assert (Hb : c_bench c ∈ BENCH_TYPES → c_bench c ≠ "*") by (intros ?; apply name_ok; auto).
    assert (Hd : c_dio c ∈ DIRECTIOS → c_dio c ≠ "*") by (intros ?; apply name_ok; auto).
    split; intros (? & ? & ? & ? & ? & ? & Hc); split_and!; try done;
      pose proof (str_Z_not_star (c_ncore c)); rewrite ?match_config_cons in * by auto; try tauto.
  - apply (flat_map_sorted Z.ge c_ncore); [lia| |apply sorted_desc_sorted].
    intros n c Hc. repeat (apply elem_of_flat_map in Hc as (? & _ & Hc)).
    destruct (_ && _); [by apply elem_of_nil in Hc|]. destruct (dget _ _); [|by apply elem_of_nil in Hc].
    destruct (_match_config _ _); [|by apply elem_of_nil in Hc].
    by apply list_elem_of_singleton in Hc as ->.
Qed.

(** The numbers of cores tested are the longest beginning of the list of the policy
    that needs no more than the physical cores of the machine. *)
Theorem get_ncores_bounded :
  ∃ rest, (if CORE_GRAIN cfg =? CORE_COARSE_GRAIN then test_hw_thr_cnts_coarse_grain
           else test_hw_thr_cnts_fine_grain) = get_ncores cfg ++ rest ∧
    Forall (fun n => n ≤ PHYSICAL_CHIPS * CORE_PER_CHIP) (get_ncores cfg) ∧
    ∀ n, head rest = Some n → PHYSICAL_CHIPS * CORE_PER_CHIP < n.
Proof.
  unfold get_ncores. generalize (if CORE_GRAIN cfg =? CORE_COARSE_GRAIN then
    test_hw_thr_cnts_coarse_grain else test_hw_thr_cnts_fine_grain) as l. unfold npcpu.
  induction l as [|n l (rest & Hl & Hb & Hr)]; [by exists []|].
  destruct (Z.ltb_spec (PHYSICAL_CHIPS * CORE_PER_CHIP) n).
  - exists (n :: l). split_and!; [done|constructor|]. by intros m [= <-].
  - exists rest. split_and!; [by rewrite Hl at 1|by constructor|done].
Qed.

Lemma no_background c : c ∈ gen_config cfg → add_bg_worker_if_needed (c_bench c) (c_ncore c) = (c_ncore c, 0).
Proof.
  intros (_ & Hb & _)%elem_of_gen_config. unfold add_bg_worker_if_needed.
  assert (Hn : Forall (fun b => endswith b BENCH_BG_SFX = false) BENCH_TYPES)
    by (apply (bool_decide_unpack _); vm_compute; exact I).
  rewrite Forall_forall in Hn. by rewrite Hn.
Qed.

Lemma norm_key_conf c :
  c ∈ gen_config cfg →
  Forall (fun k => no_char ":" k = true) [c_media c; c_fs c; c_bench c; str_Z (c_ncore c); c_dio c] ∧
  _norm_key [c_media c; c_fs c; c_bench c; str_Z (c_ncore c); c_dio c] =
    [c_media c; c_fs c; c_bench c; fmt_0d 9 (c_ncore c); c_dio c].
Proof.
  intros (_ & Hb & Hm & Hd & Hf & _)%elem_of_gen_config.
  destruct (name_ok (c_media c)) as (_ & ? & Hm'); [auto|].
  destruct (name_ok (c_fs c)) as (_ & ? & Hf'); [auto|].
  destruct (name_ok (c_bench c)) as (_ & ? & Hb'); [auto|].
  destruct (name_ok (c_dio c)) as (_ & ? & Hd'); [auto|]. split.
  - repeat constructor; try done. by apply str_Z_no_char.
  - unfold _norm_key, _norm_str. cbn [map]. by rewrite Hm', Hf', Hb', Hd', py_int_str_Z.
Qed.

(** C25: the line the runner writes before a benchmark is read back by the log parser as the
    key of that configuration, with the number of cores padded; so no two configurations
    of a run share a key and no result is overwritten. *)
Theorem key_line_read_back c w p :
  c ∈ gen_config cfg →
  let k := [c_media c; c_fs c; c_bench c; fmt_0d 9 (c_ncore c); c_dio c] in
  let '(ncore, nbg) := add_bg_worker_if_needed (c_bench c) (c_ncore c) in
  _get_parse_fn (key_line c (ncore - nbg)) (w, p) =
    (Ret tt, (w, MkParser (p_config p) (p_data p) k (p_schema p))) ∧
  ∀ c', c' ∈ gen_config cfg →
    [c_media c'; c_fs c'; c_bench c'; fmt_0d 9 (c_ncore c'); c_dio c'] = k → c' = c.
Proof.
  intros Hc k. rewrite no_background by done. rewrite Z.sub_0_r.
  destruct (norm_key_conf c Hc) as [H1 H2]. split.
  - unfold key_line. rewrite parse_key_line by done. by rewrite H2.
  - intros [m f b n d] _ Hk. unfold k in Hk. simpl in Hk. destruct c as [m' f' b' n' d']. simpl in *.
    injection Hk as -> -> -> Hn ->. apply (f_equal py_int) in Hn. rewrite !py_int_fmt_0d in Hn.
    congruence.
Qed.
End Configurations.

(** ** Cleaning up *)

(** What every method but the ends of the log leaves alone. *)
Definition kept (s : world * Runner) : Z * Z :=
  (active_ncore s.2, match log_fd s.2 with NotOpened => 0 | Opened _ => 1 | Closed => 2 end).

Lemma kept_lift {A} (m : IO A) : frame kept (lift m).
Proof. intros [w r]. unfold lift. simpl. by destruct (m w). Qed.

Lemma kept_self {A} (f : Runner → M (world * Runner) A) :
  (∀ r, frame kept (f r)) → frame kept (bind self f).
Proof. intros Hf [w r]. apply Hf. Qed.

Lemma kept_set f : (∀ w r, kept (w, f r) = kept (w, r)) → frame kept (set_self f).
Proof. intros Hf [w r]. apply Hf. Qed.

#[local] Hint Resolve kept_lift kept_self kept_set : frames.

Section Kept.
Context `{Host} `{CpuPol} (CUR_DIR : string) (cfg : run_config) (now : string) (rounds : nat).

Lemma kept_exec cmd out : frame kept (exec_cmd cmd out).
Proof. apply frame_bind; [by apply kept_set|]. intros _. apply kept_lift. Qed.
#[local] Hint Resolve kept_exec : frames.

Lemma kept_do_cmd cmd out : frame kept (do_cmd cmd out).
Proof. unfold do_cmd. auto with frames. Qed.
Lemma kept_cmd_ok cmd out : frame kept (cmd_ok cmd out).
Proof. unfold cmd_ok. auto with frames. Qed.
#[local] Hint Resolve kept_do_cmd kept_cmd_ok : frames.

Lemma kept_log l : frame kept (log l).
Proof.
  intros [w r]. unfold log, bind, self, gets. simpl. destruct (log_fd r) eqn:E; [done| |done].
  unfold kept. simpl. by rewrite E.
Qed.
#[local] Hint Resolve kept_log : frames.

Lemma kept_umount n where_ : frame kept (umount n where_).
Proof.
  unfold umount. apply frame_bind; [|intros _; by apply kept_set].
  induction n as [|n IH]; simpl; [done|]. apply frame_bind; [auto with frames|]. by intros [].
Qed.
#[local] Hint Resolve kept_umount : frames.

Lemma kept_all_ok cmds : frame kept (all_ok cmds).
Proof. induction cmds; simpl; [done|]. apply frame_bind; [auto with frames|]. by intros []. Qed.
#[local] Hint Resolve kept_all_ok : frames.

Lemma kept_init_media media : frame kept (init_media CUR_DIR rounds media).
Proof.
  unfold init_media. destruct (dget media HOWTO_INIT_MEDIA) as [f|]; [|done].
  apply frame_bind; [|by intros [[]|]]. destruct f; [|apply frame_bind; auto with frames..].
  unfold init_mem_disk, unset_loopdev. do 4 (apply frame_bind; [auto with frames|intros _]).
  apply frame_bind; [unfold mount_tmpfs; auto with frames|]. intros []; [|done]. simpl.
  apply frame_bind; [auto with frames|]. intros _. apply frame_bind; [auto with frames|]. intros [];
    apply frame_bind; try done.
Qed.
#[local] Hint Resolve kept_init_media : frames.

Lemma kept_mount media fs mnt : frame kept (mount CUR_DIR rounds media fs mnt).
Proof.
  unfold mount. destruct (dget fs HOWTO_MOUNT) as [f|]; [|done].
  do 2 (apply frame_bind; [auto with frames|intros _]).
  destruct f; unfold mount_tmpfs, mount_anyfs, mount_ext4_no_jnl; [auto with frames|..];
    (apply frame_bind; [apply kept_init_media|]; intros [[] dev]; [apply kept_all_ok|done]).
Qed.

Lemma kept_fxmark media fs bench ncore nfg nbg dio :
  frame kept (fxmark CUR_DIR cfg media fs bench ncore nfg nbg dio).
Proof.
  unfold fxmark. apply kept_self. intros r. apply frame_bind; [by apply kept_set|]. intros _.
  destruct (get_bin_type CUR_DIR bench) as [bin type]. apply frame_bind.
  - destruct (String.eqb dio "directio"); [|done]. destruct (String.eqb fs "tmpfs"); auto with frames.
  - intros d. apply kept_self. intros r'. apply frame_bind; [auto with frames|]. auto with frames.
Qed.

Lemma kept_run_conf c : frame kept (run_conf CUR_DIR cfg rounds c).
Proof.
  unfold run_conf. destruct (add_bg_worker_if_needed _ _) as [ncore nbg]. simpl DRYRUN. cbn iota.
  unfold prepre_work, pre_work, post_work, keep_sudo, drop_caches.
  apply frame_bind; [auto with frames|]. intros _. apply frame_bind; [apply kept_mount|].
  intros []; simpl; [|auto with frames]. apply frame_bind; [auto with frames|]. intros _.
  apply frame_bind; [auto with frames|]. intros _. apply frame_bind; [apply kept_fxmark|].
  auto with frames.
Qed.
End Kept.

(** The unmounting command fails within a number of rounds, as it does once nothing is
    mounted any more. *)
Fixpoint ends_within `{Host} (n : nat) (cmd : string) (w : world) : Prop :=
  match n with
  | O => False
  | S n' => ∀ p w', shell cmd DEVNULL w = (Ret p, w') → returncode p ≠ 0 ∨ ends_within n' cmd w'
  end.

Definition issues (cmds : list string) (r : Runner) : Runner :=
  MkRunner (perfmon_log r) (log_dir r) (log_path r) (log_fd r) (umount_hook r) (active_ncore r)
    (issued r ++ cmds).

Section Cleanup.
Context `{HasShell} `{CpuPol} (CUR_DIR : string) (cfg : run_config) (now : string) (rounds : nat).

Lemma do_cmd_run cmd out w r :
  ∃ t, do_cmd cmd out (w, r) = (Ret tt, (set_root t w, issue cmd r)).
Proof.
  destruct (shell_run cmd out w) as (p & t & E). exists t.
  unfold do_cmd, exec_cmd, bind, set_self, modify, lift. simpl. by rewrite E.
Qed.

Lemma umount_loop_run n where_ w r :
  ends_within n ("sudo umount " +:+ where_) w →
  ∃ k t, umount_loop n where_ (w, r) =
    (Ret tt, (set_root t w, issues (replicate (S k) ("sudo umount " +:+ where_)) r)).
Proof.
  revert w r. induction n as [|n IH]; intros w r He; [done|].
  cbn [umount_loop]. destruct (shell_run ("sudo umount " +:+ where_) DEVNULL w) as (p & t & E).
  rewrite (bind_Ret _ _ _ (returncode p =? 0) (set_root t w, issue ("sudo umount " +:+ where_) r)).
  2:{ unfold cmd_ok, exec_cmd, bind, set_self, modify, lift. simpl. by rewrite E. }
  destruct (Z.eqb_spec (returncode p) 0) as [Hp|Hp].
  - destruct (He _ _ E) as [?|He']; [done|].
    destruct (IH _ (issue ("sudo umount " +:+ where_) r) He') as (k & t' & ->). exists (S k), t'.
    unfold issues, issue. simpl. by rewrite <- app_assoc.
  - exists O, t. done.
Qed.

Lemma log_end_run w r :
  (kept (w, r)).2 = 1 →
  ∃ t, log_end (w, r) = (Ret tt, (set_root t w, set_log_fd Closed r)).
Proof.
  intros Hk. unfold log_end. rewrite (bind_Ret _ _ _ r (w, r)) by done. unfold kept in Hk. simpl in Hk.
  destruct (log_fd r) as [|text|]; [done| |done]. rewrite (bind_Ret _ _ _ w (w, r)) by done.
  destruct (file_text w (log_path r)) as [t0|] eqn:E.
  - destruct (file_at _ _ _ E) as [m Hm].
    destruct (write_file_existing _ _ text _ _ Hm) as (t & Hw & _). exists t.
    erewrite bind_Ret by (unfold lift; cbn [fst snd]; rewrite Hw; done). done.
  - exists (root w). by destruct w.
Qed.

Lemma log_start_opened w s :
  log_start CUR_DIR cfg now (w, init_runner) = (Ret tt, s) → kept s = (-1, 1).
Proof.
  unfold log_start. intros (u1 & s1 & E1 & Hr)%bind_Ret_inv. injection E1 as <- <-.
  apply bind_Ret_inv in Hr as (u2 & s2 & E2 & Hr). apply (frame_keeps kept) in E2; [|apply kept_do_cmd].
  apply bind_Ret_inv in Hr as (u3 & s3 & E3 & Hr). apply (frame_keeps kept) in E3; [|apply kept_lift].
  apply bind_Ret_inv in Hr as (u4 & [w4 r4] & E4 & Hr). destruct s3 as [w3 r3]. injection E4 as <- <- <-.
  apply (frame_keeps kept) in Hr.
  - rewrite Hr. rewrite E2 in E3. unfold kept in E3 |- *. simpl in *. congruence.
  - apply frame_bind; [apply kept_exec|]. intros p.
    apply frame_bind; [apply frame_for_each; apply kept_log|]. intros _.
    repeat (apply frame_bind; [apply kept_log|]; intros _). apply kept_log.
Qed.

Lemma cleanup_run w1 r1 :
  kept (w1, r1) = (-1, 1) →
  (∀ w, ends_within rounds ("sudo umount " +:+ test_root CUR_DIR) w) →
  ∃ w2 r2 k, run_cleanup CUR_DIR cfg rounds (w1, r1) = (Ret tt, (w2, r2)) ∧ log_fd r2 = Closed ∧
    issued r2 = issued r1 ++ [cleanup_cmd CUR_DIR cfg r1; lock_stat_off] ++
      replicate (S k) ("sudo umount " +:+ test_root CUR_DIR) ++
      [join " " ["sudo"; in_dir CUR_DIR "set-cpus"; "all"]].
Proof.
  intros Hk He. destruct (log_end_run w1 r1) as [t1 E1]; [by rewrite Hk|].
  set (ra := set_log_fd Closed r1) in *. set (c := cleanup_cmd CUR_DIR cfg ra).
  destruct (do_cmd_run c INHERIT (set_root t1 w1) ra) as [t2 E2].
  destruct (do_cmd_run lock_stat_off DEVNULL (set_root t2 (set_root t1 w1)) (issue c ra)) as [t3 E3].
  set (rc := issue lock_stat_off (issue c ra)) in *. set (wc := set_root t3 _) in E3.
  destruct (umount_loop_run rounds (test_root CUR_DIR) wc rc) as (k & t4 & E4); [apply He|].
  set (us := replicate (S k) _) in E4. set (rd := set_umount_hook [] (issues us rc)).
  set (all := join " " ["sudo"; in_dir CUR_DIR "set-cpus"; "all"]).
  destruct (do_cmd_run all DEVNULL (set_root t4 wc) (set_active_ncore 0 rd)) as [t5 E5].
  eexists _, _, k. split; [|split].
  - unfold run_cleanup. rewrite (bind_Ret _ _ _ _ _ E1).
    rewrite (bind_Ret _ _ _ tt (wc, rc)).
    2:{ unfold fxmark_cleanup. rewrite (bind_Ret _ _ _ ra (set_root t1 w1, ra)) by done.
        by rewrite (bind_Ret _ _ _ _ _ E2). }
    rewrite (bind_Ret _ _ _ tt (set_root t4 wc, rd)).
    2:{ unfold umount. by rewrite (bind_Ret _ _ _ _ _ E4). }
    unfold set_cpus. rewrite (bind_Ret _ _ _ rd (set_root t4 wc, rd)) by done.
    assert (Ha : (active_ncore rd =? 0) = false).
    { injection Hk as Hk _. simpl in Hk. subst rd rc ra. simpl. by rewrite Hk. }
    rewrite Ha. rewrite (bind_Ret _ _ _ tt (set_root t4 wc, set_active_ncore 0 rd)) by done. exact E5.
  - done.
  - simpl. rewrite <- !app_assoc. done.
Qed.

(** C12: once the log is started, the machine is cleaned up however the run ends: after the
    last command of a configuration, a mount or a benchmark that fails or raises
    included, the profiler is stopped, the lock statistics are switched off, the test
    directory is unmounted until that fails, and all processors are switched on again;
    the outcome of the run is kept. *)
Theorem run_cleans_up w s0 o w1 r1 :
  log_start CUR_DIR cfg now (w, init_runner) = (Ret tt, s0) →
  run_body CUR_DIR cfg now rounds (w, init_runner) = (o, (w1, r1)) →
  unfinished o = false →
  (∀ w, ends_within rounds ("sudo umount " +:+ test_root CUR_DIR) w) →
  ∃ w2 r2 k, run CUR_DIR cfg now rounds (w, init_runner) = (o, (w2, r2)) ∧ log_fd r2 = Closed ∧
    issued r2 = issued r1 ++ [cleanup_cmd CUR_DIR cfg r1; lock_stat_off] ++
      replicate (S k) ("sudo umount " +:+ test_root CUR_DIR) ++
      [join " " ["sudo"; in_dir CUR_DIR "set-cpus"; "all"]].
Proof.
  intros Hs Hb Ho He. assert (Hk : kept (w1, r1) = (-1, 1)).
  { rewrite <- (log_start_opened _ _ Hs). change (w1, r1) with ((o, (w1, r1)).2). rewrite <- Hb.
    unfold run_body. rewrite (bind_Ret _ _ _ _ _ Hs).
    assert (Hf : frame kept (for_each (gen_config cfg) (run_conf CUR_DIR cfg rounds) ;;
              log ("### NUM_TEST_CONF  = " +:+ str_Z (Z.of_nat (length (gen_config cfg)))))).
    { apply frame_bind; [apply frame_for_each; intros c; apply kept_run_conf|intros _; apply kept_log]. }
    apply Hf. }
  destruct (cleanup_run w1 r1 Hk He) as (w2 & r2 & k & E & Hc & Hi). exists w2, r2, k.
  split; [|done]. unfold run. rewrite Hb. simpl fst. rewrite Ho. unfold finally. by rewrite Hb, E.
Qed.
End Cleanup.

(** ** Hooks and arguments *)

Lemma umount_loop_issued `{Host} n where_ w r w' r' :
  umount_loop n where_ (w, r) = (Ret tt, (w', r')) →
  ∃ k, issued r' = issued r ++ replicate (S k) ("sudo umount " +:+ where_).
Proof.
  revert w r. induction n as [|n IH]; intros w r; [done|]. cbn [umount_loop].
  intros (ok & [w1 r1] & H1 & H2)%bind_Ret_inv. assert (Hi : issued r1 = issued r ++ ["sudo umount " +:+ where_]).
  { apply bind_Ret_inv in H1 as (p & [w2 r2] & H1 & H3). injection H3 as <- <- <-.
    unfold exec_cmd, bind, set_self, modify, lift in H1. simpl in H1.
    destruct (shell _ _ w) as [[] w3]; by simplify_eq. }
  destruct ok.
  - destruct (IH _ _ H2) as [k Hk]. exists (S k). rewrite Hk, Hi, <- app_assoc. done.
  - injection H2 as <- <-. by exists O.
Qed.

(** The hooks of a file system are dropped, not run: after an unmount that returns,
    none is left, and the only commands that were given are unmounts of that directory,
    so the loop device of a memory disk is never detached by its hook. *)
Theorem umount_drops_hooks `{Host} rounds where_ w r w' r' :
  umount rounds where_ (w, r) = (Ret tt, (w', r')) →
  umount_hook r' = [] ∧
  ∃ k, issued r' = issued r ++ replicate (S k) ("sudo umount " +:+ where_).
Proof.
  unfold umount. intros ([] & [w1 r1] & H1 & H2)%bind_Ret_inv. injection H2 as <- <-. split; [done|].
  by apply umount_loop_issued in H1.
Qed.

(** The benchmarks that are scripts never start: the runner gives every benchmark the
    option --directio, which run-filebench.py and run-dbench.py do not know, so both
    leave with status 2 before they do anything. *)
Theorem script_benchmarks_rejected `{Host} `{CpuPol} CUR_DIR dir cname oname rounds help
    type ncore nbg directio plog w :
  let argv := fxmark_args CUR_DIR type ncore nbg directio plog (fun s => s) in
  FileBench.main dir cname oname rounds help argv w = (Exit 2, w) ∧
  DBench.main dir oname rounds help argv w = (Exit 2, w).
Proof. split; reflexivity. Qed.

(** ** A machine to run on *)

Definition demo_cpupol : CpuPol := {|
  PHYSICAL_CHIPS := 2; CORE_PER_CHIP := 4; SMT_LEVEL := 2; MODEL_NAME := "demo";
  seq_cores := [0; 4; 1; 5; 2; 6; 3; 7];
  test_hw_thr_cnts_fine_grain := [1; 2; 4; 6; 8; 12; 16];
  test_hw_thr_cnts_coarse_grain := [1; 4; 8; 16]
|}.

(** Commands end well and write a line, but nothing is ever mounted to be unmounted. *)
Definition bare_host : Host := {|
  spawn cmd _ _ _ t :=
    Some (Exited (if startswith (nth 2 cmd "") "sudo umount" then 32 else 0), t, ("8 30.0 512" +:+ nl, ""));
  cpu_count := 8;
  pw_home _ := None
|}.

#[export] Instance bare_has_shell : @HasShell bare_host.
Proof. intros cmd d e t. by eexists. Qed.

Definition bench_world : world :=
  World (Dir [("fx", Dir [("bin", Dir []); ("logs", Dir [("T", Dir [])])])]) "/fx" ∅ [] [] [] [] WARNING.

Definition demo_run : run_config := RunConfig CORE_COARSE_GRAIN LEVEL_LOW ["mem"; "tmpfs"; "MWRL"; "*"; "bufferedio"].

Lemma gen_config_exact_witness :
  Conf "mem" "tmpfs" "MWRL" 4 "bufferedio" ∈ gen_config (H0 := demo_cpupol) demo_run ∧
  Conf "ssd" "ext4" "MWRL" 4 "bufferedio" ∉ gen_config (H0 := demo_cpupol) demo_run.
Proof.
  destruct (gen_config_exact (H := demo_cpupol) demo_run "mem" "tmpfs" "MWRL" "*" "bufferedio") as [Hc _];
    [reflexivity|].
  split.
  - apply Hc. cbn [c_media c_fs c_bench c_ncore c_dio]. split_and!; unfold admits; auto;
      apply (bool_decide_unpack _); vm_compute; exact I.
  - rewrite Hc. cbn [c_media c_fs c_bench c_ncore c_dio]. intros (_ & _ & _ & _ & _ & _ & [?|?] & _); congruence.
Defined.

Lemma key_line_read_back_witness :
  _get_parse_fn "## mem:tmpfs:MWRL:8:bufferedio" (demo_world, init_parser) =
    (Ret tt, (demo_world, MkParser [] [] ["mem"; "tmpfs"; "MWRL"; "000000008"; "bufferedio"] [])).
Proof.
  destruct (key_line_read_back (H := demo_cpupol) demo_run (Conf "mem" "tmpfs" "MWRL" 8 "bufferedio")
              demo_world init_parser) as [H _]; [|exact H].
  apply (bool_decide_unpack _). vm_compute. exact I.
Defined.

Lemma run_cleans_up_witness :
  ∃ w2 r2 k,
    run (H := bare_host) (H0 := demo_cpupol) "/fx/bin" demo_run "T" 1 (bench_world, init_runner) =
      (Ret tt, (w2, r2)) ∧ log_fd r2 = Closed ∧
    suffix (replicate (S k) "sudo umount /fx/bin/root" ++ ["sudo /fx/bin/set-cpus all"]) (issued r2).
Proof.
  set (b := run_body (H := bare_host) (H0 := demo_cpupol) "/fx/bin" demo_run "T" 1 (bench_world, init_runner)).
  destruct (run_cleans_up (H := bare_host) (H1 := demo_cpupol) "/fx/bin" demo_run "T" 1 bench_world
              (log_start (H := bare_host) (H0 := demo_cpupol) "/fx/bin" demo_run "T"
                 (bench_world, init_runner)).2 (Ret tt) b.2.1 b.2.2) as (w2 & r2 & k & H1 & H2 & H3).
  - apply surjective_pairing_Ret. vm_compute. reflexivity.
  - rewrite <- surjective_pairing. apply surjective_pairing_Ret. vm_compute. reflexivity.
  - reflexivity.
  - intros w p w' E. left. vm_compute in E. injection E as <- _. done.
  - exists w2, r2, k. split; [exact H1|]. split; [exact H2|]. rewrite H3.
    exists (issued b.2.2 ++ [cleanup_cmd "/fx/bin" demo_run b.2.2; lock_stat_off]).
    rewrite <- app_assoc. reflexivity.
Defined.

Lemma umount_drops_hooks_witness :
  umount_hook (umount (H := bare_host) 1 "/fx/bin/root"
    (bench_world, set_umount_hook [deinit_mem_disk_hook] init_runner)).2.2 = [].
Proof.
  apply (umount_drops_hooks (H := bare_host) 1 "/fx/bin/root" bench_world
           (set_umount_hook [deinit_mem_disk_hook] init_runner) bench_world
           (issue "sudo umount /fx/bin/root" init_runner)).
  vm_compute. reflexivity.
Defined.
