(* ===== verification/Qmp.v ===== *)
(** scripts/qmp.py (Python 2): the client of the QEMU monitor protocol.  Messages arrive one
    to a line; a message with the key event is put in a queue, the first other one answers
    the command that was sent. *)

From S2P Require Import Prelude PyStr PyDict Effect Instance.

(** * Values *)

(** What [json.loads] gives: a number with a fraction keeps its text. *)
Inductive json :=
| JNull
| JBool (b : bool)
| JInt (n : Z)
| JFloat (text : string)
| JStr (s : string)
| JArr (l : list json)
| JObj (d : list (string * json)).

(** The module json: reading fails on a text that is no value. *)
Class Json := {
  loads : string → option json;
  dumps : json → string
}.

Definition type_name (j : json) : string :=
  match j with
  | JNull => "NoneType" | JBool _ => "bool" | JInt _ => "int" | JFloat _ => "float"
  | JStr _ => "unicode" | JArr _ => "list" | JObj _ => "dict"
  end.

Section Values.
Context {S : Type}.

(** ['key' in v] *)
Definition py_in (k : string) (v : json) : M S bool :=
  match v with
  | JObj d => ret (bool_decide (dget k d ≠ None))
  | JArr l => ret (existsb (fun x => match x with JStr s => String.eqb s k | _ => false end) l)
  | JStr s => ret (contains s k)
  | _ => raise CTypeError ("argument of type '" +:+ type_name v +:+ "' is not iterable")
  end.

(** [v.has_key(k)] *)
Definition has_key (k : string) (v : json) : M S bool :=
  match v with
  | JObj d => ret (bool_decide (dget k d ≠ None))
  | _ => raise CAttributeError ("'" +:+ type_name v +:+ "' object has no attribute 'has_key'")
  end.

(** [v[k]] with a text *)
Definition item (k : string) (v : json) : M S json :=
  match v with
  | JObj d => of_option (dget k d) CKeyError (repr_str k)
  | JArr _ => raise CTypeError "list indices must be integers, not str"
  | JStr _ => raise CTypeError "string indices must be integers, not str"
  | _ => raise CTypeError ("'" +:+ type_name v +:+ "' object has no attribute '__getitem__'")
  end.
End Values.

(** * The connection *)

Definition EAGAIN : Z := 11.
Definition EPIPE : Z := 32.
Definition EBADF : Z := 9.

(** What a read of the connection meets: a line, nothing for longer than it waits, or an
    error; after the last of them the connection is closed. *)
Inductive rx := Line (text : string) | NoData | Error (errno : Z).

Inductive address := Unix (path : string) | Tcp (host : string) (port : Z).

(** [sending] holds the errors of the sends to come, [connecting] that of the connection;
    the timeout is [None] for a socket that waits and [Some 0] for one that does not. *)
Record socket := Socket {
  incoming : list rx;
  sent : list string;
  sending : list (option Z);
  connecting : option Z;
  timeout : option Z;
  is_open : bool;
  fd : Z
}.

(** The object; [sockfile] is set once a connection is made.  [clear_events] binds the
    attribute to a new list, so [q_old] keeps the former lists, which a caller may still
    hold. *)
Record QMP := MkQMP {
  q_events : list json;
  q_old : list (list json);
  q_address : address;
  q_sock : socket;
  q_sockfile : bool
}.

Definition set_events (l : list json) (q : QMP) : QMP :=
  MkQMP l (q_old q) (q_address q) (q_sock q) (q_sockfile q).
Definition set_sock (s : socket) (q : QMP) : QMP :=
  MkQMP (q_events q) (q_old q) (q_address q) s (q_sockfile q).
Definition set_incoming (l : list rx) (q : QMP) : QMP :=
  let s := q_sock q in
  set_sock (Socket l (sent s) (sending s) (connecting s) (timeout s) (is_open s) (fd s)) q.
Definition set_timeout (t : option Z) (q : QMP) : QMP :=
  let s := q_sock q in
  set_sock (Socket (incoming s) (sent s) (sending s) (connecting s) t (is_open s) (fd s)) q.

Abbreviation QM := (M QMP).

(** The number of a socket error is its message. *)
Definition socket_error {A} (errno : Z) : QM A := raise CSocketError (str_Z errno).
Definition errno_is (e : exn) (n : Z) : bool := bool_decide (emsg e = str_Z n).

(** Every method of a closed socket fails. *)
Definition usable {A} (m : QM A) : QM A :=
  do q <- get; if is_open (q_sock q) then m else socket_error EBADF.

Definition setblocking (b : bool) : QM unit :=
  usable (modify (set_timeout (if b then None else Some 0))).

Section Qmp.
Context `{Json}.

Definition dumps_obj (d : list (string * json)) : string := dumps (JObj d).

(** A read that met nothing: [None] if it goes on waiting. *)
Definition silence (timeout : option Z) : option (QM (option json)) :=
  match timeout with
  | None => None
  | Some 0 => Some (socket_error EAGAIN)
  | Some _ => Some (raise CSocketError "timed out")
  end.

(** The loop of [__json_read] over what arrives; the end of the connection reads as an
    empty line.  What arrives is taken in whole lines: a read that gives up in the middle of
    one, and loses its first part, is a [NoData] followed by the rest as a line of its own. *)
Fixpoint read_loop (only_event : bool) (timeout : option Z) (l : list rx) : QM (option json) :=
  match l with
  | [] => modify (set_incoming []) ;; ret None
  | NoData :: l' =>
      match silence timeout with
      | None => read_loop only_event timeout l'
      | Some fail => modify (set_incoming l') ;; fail
      end
  | Error n :: l' => modify (set_incoming l') ;; socket_error n
  | Line data :: l' =>
      modify (set_incoming l') ;;
      if String.eqb data "" then ret None
      else
        do resp <- of_option (loads data) CValueError "No JSON object could be decoded";
        do is_event <- py_in "event" resp;
        if is_event then
          modify (fun q => set_events (q_events q ++ [resp]) q) ;;
          if negb only_event then read_loop only_event timeout l' else ret (Some resp)
        else ret (Some resp)
  end.

Definition json_read (only_event : bool) : QM (option json) :=
  do q <- get;
  if negb (q_sockfile q)
  then raise CAttributeError "QEMUMonitorProtocol instance has no attribute '_QEMUMonitorProtocol__sockfile'"
  else if negb (is_open (q_sock q))
  then raise CAttributeError "'NoneType' object has no attribute 'recv'"
  else read_loop only_event (timeout (q_sock q)) (incoming (q_sock q)).

(** [sock.sendall(text)] *)
Definition sendall (text : string) : QM unit :=
  usable (
  do q <- get;
  let s := q_sock q in
  let next := match sending s with e :: _ => e | [] => None end in
  let rest := tail (sending s) in
  match next with
  | Some n =>
      modify (set_sock (Socket (incoming s) (sent s) rest (connecting s) (timeout s) (is_open s) (fd s))) ;;
      socket_error n
  | None =>
      modify (set_sock (Socket (incoming s) (sent s ++ [text]) rest (connecting s) (timeout s) (is_open s) (fd s)))
  end).

(** A broken pipe is the end of the connection; another error is wrapped in a new one. *)
Definition cmd_obj (qmp_cmd : list (string * json)) : QM (option json) :=
  do gone <- try_except (sendall (dumps_obj qmp_cmd) ;; ret false) CSocketError (fun err =>
               if errno_is err EPIPE then ret true
               else raise CSocketError ("socket.error(" +:+ emsg err +:+ ")"));
  if gone then ret None else json_read false.

Definition truthy_json (v : option json) : bool :=
  match v with
  | None | Some JNull | Some (JBool false) | Some (JInt 0) | Some (JStr "") | Some (JArr [])
  | Some (JObj []) => false
  | Some _ => true
  end.

Definition optional (k : string) (v : option json) : list (string * json) :=
  if truthy_json v then match v with Some x => [(k, x)] | None => [] end else [].

Definition cmd (name : string) (args id : option json) : QM (option json) :=
  cmd_obj ([("execute", JStr name)] ++ optional "arguments" args ++ optional "id" id).

Definition none_has_key {A} : QM A := raise CAttributeError "'NoneType' object has no attribute 'has_key'".

Definition json_text (v : json) : string := match v with JStr s => s | _ => dumps v end.

Definition command (c : string) (kwds : list (string * json)) : QM json :=
  do r <- cmd c (Some (JObj kwds)) None;
  match r with
  | None => none_has_key
  | Some v =>
      do err <- has_key "error" v;
      if err then
        do e <- item "error" v;
        do desc <- item "desc" e;
        raise CException (json_text desc)
      else item "return" v
  end.

Definition negotiate_capabilities : QM json :=
  do greeting <- json_read false;
  match greeting with
  | None => raise CQMPConnectError ""
  | Some g =>
      do hello <- has_key "QMP" g;
      if negb hello then raise CQMPConnectError ""
      else
        do resp <- cmd "qmp_capabilities" None None;
        match resp with
        | None => raise CTypeError "argument of type 'NoneType' is not iterable"
        | Some v => do ok <- py_in "return" v; if ok then ret g else raise CQMPCapabilitiesError ""
        end
  end.

(** ** Life of the object *)

Definition is_tcp (a : address) : bool := match a with Tcp _ _ => true | Unix _ => false end.

(** [__init__]; a server binds and listens, which fails as [connecting] says. *)
Definition init_qmp (a : address) (s : socket) (server : bool) : QM unit :=
  modify (fun _ => MkQMP [] [] a s false) ;;
  if server then match connecting s with Some n => socket_error n | None => ret tt end else ret tt.

Definition makefile (q : QMP) : QMP := MkQMP (q_events q) (q_old q) (q_address q) (q_sock q) true.

Definition connect (negotiate : bool) : QM (option json) :=
  usable (do q <- get; match connecting (q_sock q) with Some n => socket_error n | None => ret tt end) ;;
  modify makefile ;;
  if negotiate then do g <- negotiate_capabilities; ret (Some g) else ret None.

(** [accept] takes the new connection for the listening one; [r] is what the wait for it
    ends with. *)
Definition accept (r : socket + Z) : QM json :=
  do s <- usable (match r with inr n => socket_error n | inl s => ret s end);
  modify (set_sock s) ;;
  modify makefile ;;
  negotiate_capabilities.

Definition close : QM unit :=
  do q <- get;
  let s := q_sock q in
  modify (set_sock (Socket (incoming s) (sent s) (sending s) (connecting s) (timeout s) false (fd s))) ;;
  if q_sockfile q then ret tt
  else raise CAttributeError "QEMUMonitorProtocol instance has no attribute '_QEMUMonitorProtocol__sockfile'".

(** Python takes a timeout of zero for a socket that does not wait, and no negative one. *)
Definition settimeout (t : option Z) : QM unit :=
  usable (match t with
          | Some n => if n <? 0 then raise CValueError "Timeout value out of range" else modify (set_timeout t)
          | None => modify (set_timeout None)
          end).

Definition get_sock_fd : QM Z := usable (gets (fun q => fd (q_sock q))).

Definition is_scm_available (q : QMP) : bool := negb (is_tcp (q_address q)).

(** ** Events *)

(** The look for events at the start of the two methods: a socket error is dropped. *)
Definition poll_events : QM unit :=
  setblocking false ;;
  try_except (json_read false ;; ret tt) CSocketError (fun _ => ret tt) ;;
  setblocking true.

Definition pull_event (wait : bool) : QM json :=
  poll_events ;;
  do q <- get;
  (if match q_events q with [] => wait | _ => false end then json_read true ;; ret tt else ret tt) ;;
  do q <- get;
  match q_events q with
  | [] => raise CIndexError "list index out of range"
  | event :: rest => modify (set_events rest) ;; ret event
  end.

(** The method returns the list itself, not a copy: the result is its place among the lists
    the attribute was bound to. *)
Definition get_events (wait : bool) : QM nat :=
  poll_events ;;
  do q <- get;
  (if match q_events q with [] => wait | _ => false end then
     do r <- json_read true;
     match r with
     | None => raise CQMPConnectError "Error while reading from socket"
     | Some _ => ret tt
     end
   else ret tt) ;;
  gets (fun q => length (q_old q)).

(** What a list that was returned holds now. *)
Definition list_at (q : QMP) (ref : nat) : option (list json) := (q_old q ++ [q_events q]) !! ref.

Definition clear_events : QM unit :=
  modify (fun q => MkQMP [] (q_old q ++ [q_events q]) (q_address q) (q_sock q) (q_sockfile q)).

(** ** QMPQuery *)

Definition get_address (arg : string) : QM address :=
  match split arg ":" with
  | [host; p] =>
      do port <- of_option (py_int2 p) CValueError
                   ("invalid literal for int() with base 10: " +:+ repr_str p);
      ret (Tcp host port)
  | _ => ret (Unix arg)
  end.

(** [net] is the socket the system makes for an address. *)
Definition init_query (net : address → socket) (arg : string) : QM json :=
  do a <- get_address arg;
  init_qmp a (net a) false ;;
  do g <- connect true;
  of_option g CTypeError "".
End Qmp.

(** * Facts *)

Section Facts.
Context `{Json}.

(** The value of [py_in], where it has one. *)
Definition is_event (v : json) : option bool :=
  match v with
  | JObj d => Some (bool_decide (dget "event" d ≠ None))
  | JArr l => Some (existsb (fun x => match x with JStr s => String.eqb s "event" | _ => false end) l)
  | JStr s => Some (contains s "event")
  | _ => None
  end.

Lemma py_in_event {S} v (s : S) b : is_event v = Some b → py_in "event" v s = (Ret b, s).
Proof. destruct v; simpl; by intros [= <-]. Qed.

Lemma py_in_none {S} v (s : S) : is_event v = None → ∃ e, py_in "event" v s = (Raise e, s).
Proof. destruct v; simpl; intros; simplify_eq; by eexists. Qed.

(** The event a read puts in the queue, if any. *)
Definition event_of (x : rx) : option json :=
  match x with
  | Line d =>
      if String.eqb d "" then None
      else v ← loads d; if bool_decide (is_event v = Some true) then Some v else None
  | _ => None
  end.

(** Nothing yet, or an event: what a waiting command reads past. *)
Definition passed (x : rx) : Prop :=
  match x with
  | Line d => d ≠ "" ∧ ∃ v, loads d = Some v ∧ is_event v = Some true
  | NoData => True
  | Error _ => False
  end.

(** From [q] to [q'] some of what arrives was read and every event among it was queued, in
    order; nothing else about the connection changed. *)
Definition reads (l : list rx) (q q' : QMP) : Prop :=
  ∃ consumed, l = consumed ++ incoming (q_sock q') ∧
    q_events q' = q_events q ++ omap event_of consumed ∧
    set_events [] (set_incoming [] q') = set_events [] (set_incoming [] q).

Lemma reads_one x l q : event_of x = None → reads (x :: l) q (set_incoming l q).
Proof. intros Hx. exists [x]. simpl. rewrite Hx, app_nil_r. done. Qed.

Lemma reads_event d v l q q' :
  event_of (Line d) = Some v → reads l (set_events (q_events q ++ [v]) (set_incoming l q)) q' →
  reads (Line d :: l) q q'.
Proof.
  intros Hx (c & Hl & He & Hr). exists (Line d :: c). split; [by rewrite Hl at 1|].
  split; [|done]. cbn [omap list_omap]. simpl in Hx |- *. rewrite Hx, He. simpl. by rewrite <- app_assoc.
Qed.

Lemma reads_skip l q q' : reads l q q' → reads (NoData :: l) q q'.
Proof. intros (c & Hl & He & Hr). exists (NoData :: c). split; [by rewrite Hl at 1|]. by split. Qed.

Lemma read_loop_reads oe t l q : reads l q (read_loop oe t l q).2.
Proof.
  revert q. induction l as [|[d| |n] l IH]; intros q.
  - exists []. simpl. by rewrite app_nil_r.
  - cbn [read_loop]. unfold bind at 1, modify at 1. destruct (String.eqb_spec d "") as [->|Hd].
    { by apply reads_one. }
    assert (Hev : event_of (Line d) = v ← loads d; if bool_decide (is_event v = Some true) then Some v else None)
      by (simpl; by rewrite (proj2 (String.eqb_neq _ _) Hd)).
    destruct (loads d) as [v|]; [|by apply reads_one]. simpl in Hev.
    unfold of_option. rewrite (bind_Ret _ _ _ v (set_incoming l q)) by done.
    destruct (is_event v) as [[]|] eqn:Hv.
    + rewrite (bind_Ret _ _ _ _ _ (py_in_event v (set_incoming l q) true Hv)).
      eapply reads_event; [exact Hev|]. unfold bind at 1, modify at 1. destruct oe; simpl; [|apply IH].
      exists []. simpl. by rewrite app_nil_r.
    + rewrite (bind_Ret _ _ _ _ _ (py_in_event v (set_incoming l q) false Hv)). by apply reads_one.
    + destruct (py_in_none v (set_incoming l q) Hv) as [e He]. rewrite (bind_Raise _ _ _ _ _ He).
      by apply reads_one.
  - cbn [read_loop]. destruct t as [[]|]; [by apply reads_one..|]. apply reads_skip, IH.
  - by apply reads_one.
Qed.

(** A waiting command reads past events and pauses, and its answer is the next message. *)
Lemma read_loop_answer before d r rest q :
  Forall passed before → d ≠ "" → loads d = Some r → is_event r = Some false →
  read_loop false None (before ++ Line d :: rest) q =
    (Ret (Some r), set_incoming rest (set_events (q_events q ++ omap event_of before) q)).
Proof.
  intros Hb Hd Hl Hr. revert q. induction Hb as [|[d'| |n] before Hx Hb IH]; intros q; [| | |done].
  - cbn [read_loop app omap list_omap]. unfold bind at 1, modify at 1.
    rewrite (proj2 (String.eqb_neq _ _) Hd), Hl. rewrite (bind_Ret _ _ _ r (set_incoming rest q)) by done.
    rewrite (bind_Ret _ _ _ _ _ (py_in_event r (set_incoming rest q) false Hr)).
    rewrite app_nil_r. by destruct q.
  - destruct Hx as (Hd' & v & Hv & He). cbn [read_loop app]. unfold bind at 1, modify at 1.
    rewrite (proj2 (String.eqb_neq _ _) Hd'), Hv.
    set (q1 := set_incoming (before ++ Line d :: rest) q). rewrite (bind_Ret _ _ _ v q1) by done.
    rewrite (bind_Ret _ _ _ _ _ (py_in_event v q1 true He)). unfold bind at 1, modify at 1.
    cbn [negb]. rewrite IH. cbn [omap list_omap]. unfold event_of at 2.
    rewrite (proj2 (String.eqb_neq _ _) Hd'), Hv. simpl. rewrite (bool_decide_true _ He).
    unfold q1. simpl. by rewrite <- app_assoc.
  - cbn [read_loop app]. apply IH.
Qed.

(** A connection that works, with [l] arriving on it. *)
Definition working (q : QMP) (l : list rx) : Prop :=
  q_sockfile q = true ∧ is_open (q_sock q) = true ∧ timeout (q_sock q) = None ∧
  sending (q_sock q) = [] ∧ incoming (q_sock q) = l.

(** The next message that is no event, with what is read past before it. *)
Definition answers (before : list rx) (d : string) (r : json) : Prop :=
  Forall passed before ∧ d ≠ "" ∧ loads d = Some r ∧ is_event r = Some false.

Lemma json_read_answer q before d r rest :
  working q (before ++ Line d :: rest) → answers before d r →
  ∃ q', json_read false q = (Ret (Some r), q') ∧ working q' rest ∧ sent (q_sock q') = sent (q_sock q) ∧
    q_events q' = q_events q ++ omap event_of before.
Proof.
  intros (Hf & Ho & Ht & Hs & Hi) (Hb & Hd & Hl & Hr).
  exists (set_incoming rest (set_events (q_events q ++ omap event_of before) q)). split; [|by repeat split].
  unfold json_read. rewrite (bind_Ret _ _ _ q q) by done. rewrite Hf, Ho, Ht, Hi. by apply read_loop_answer.
Qed.

Lemma cmd_obj_answer c q before d r rest :
  working q (before ++ Line d :: rest) → answers before d r →
  ∃ q', cmd_obj c q = (Ret (Some r), q') ∧ working q' rest ∧
    sent (q_sock q') = sent (q_sock q) ++ [dumps (JObj c)] ∧
    q_events q' = q_events q ++ omap event_of before.
Proof.
  destruct q as [es old a [inc snt snd cn t op fd] f]. intros (Hf & Ho & Ht & Hs & Hi) Ha; simpl in *. subst.
  set (q1 := MkQMP es old a (Socket (before ++ Line d :: rest) (snt ++ [dumps (JObj c)]) [] cn None true fd) true).
  destruct (json_read_answer q1 before d r rest) as (q' & E & Hw & Hq); [by repeat split|done|].
  exists q'. split; [|done]. unfold cmd_obj. by rewrite (bind_Ret _ _ _ false q1).
Qed.

(** C13: a command gets its own answer.  On a connection that works, the answer of a command
    is the first message that is no event: the events before it go to the queue, in the
    order they came, and what follows it is left for the next read. *)
Theorem cmd_answered c q before d r rest :
  working q (before ++ Line d :: rest) → answers before d r →
  ∃ q', cmd_obj c q = (Ret (Some r), q') ∧ working q' rest ∧
    sent (q_sock q') = sent (q_sock q) ++ [dumps (JObj c)] ∧
    q_events q' = q_events q ++ omap event_of before.
Proof. apply cmd_obj_answer. Qed.

Lemma json_read_reads oe q : reads (incoming (q_sock q)) q (json_read oe q).2.
Proof.
  unfold json_read. rewrite (bind_Ret _ _ _ q q) by done.
  destruct (q_sockfile q), (is_open (q_sock q)); simpl; [apply read_loop_reads|..];
    exists []; simpl; by rewrite app_nil_r.
Qed.

(** The queue and the rest of the connection after some reads. *)
Definition queued (q q' : QMP) : Prop :=
  ∃ consumed, incoming (q_sock q) = consumed ++ incoming (q_sock q') ∧
    q_events q' = q_events q ++ omap event_of consumed.

Lemma queued_trans q1 q2 q3 : queued q1 q2 → queued q2 q3 → queued q1 q3.
Proof.
  intros (c1 & H1 & E1) (c2 & H2 & E2). exists (c1 ++ c2).
  by rewrite H1, H2, E2, E1, omap_app, <- !app_assoc.
Qed.

Lemma queued_json_read oe q o q' :
  json_read oe q = (o, q') → queued q q' ∧ timeout (q_sock q') = timeout (q_sock q).
Proof.
  intros E. pose proof (json_read_reads oe q) as (c & H1 & H2 & H3). rewrite E in *.
  split; [by exists c|]. exact (f_equal (fun q => timeout (q_sock q)) H3).
Qed.

Lemma setblocking_run b q u q' :
  setblocking b q = (Ret u, q') → q' = set_timeout (if b then None else Some 0) q.
Proof.
  unfold setblocking, usable. rewrite (bind_Ret _ _ _ q q) by done.
  destruct (is_open (q_sock q)); [by intros [= _ <-]|done].
Qed.

Lemma poll_events_run q q' u : poll_events q = (Ret u, q') → queued q q' ∧ timeout (q_sock q') = None.
Proof.
  unfold poll_events. intros (u1 & q1 & ->%setblocking_run & E)%bind_Ret_inv.
  apply bind_Ret_inv in E as (u2 & q2 & H2 & ->%setblocking_run). split; [|done].
  destruct (json_read false (set_timeout (Some 0) q)) as [o q3] eqn:Ej.
  assert (Hq : q2 = q3).
  { unfold try_except, bind in H2. rewrite Ej in H2. destruct o as [v|e|]; [by injection H2|simpl in H2|done].
    case_match; [by injection H2|done]. }
  subst q3. destruct (queued_json_read _ _ _ _ Ej) as [(c & Hc & He) _]. by exists c.
Qed.

(** Events are pulled first in, first out, and none is lost: what pull_event returns
    followed by what it leaves in the queue is what was in the queue followed by the
    events it read; and it leaves the socket blocking. *)
Theorem pull_event_fifo wait q e q' :
  pull_event wait q = (Ret e, q') →
  (∃ consumed, incoming (q_sock q) = consumed ++ incoming (q_sock q') ∧
     e :: q_events q' = q_events q ++ omap event_of consumed) ∧
  timeout (q_sock q') = None.
Proof.
  unfold pull_event. intros (u1 & q1 & [Hq1 Hb1]%poll_events_run & E)%bind_Ret_inv.
  rewrite (bind_Ret _ _ _ q1 q1) in E by done.
  apply bind_Ret_inv in E as (u2 & q2 & H2 & E). rewrite (bind_Ret _ _ _ q2 q2) in E by done.
  assert (Hq2 : queued q q2 ∧ timeout (q_sock q2) = None).
  { destruct (match q_events q1 with [] => wait | _ => false end).
    - apply bind_Ret_inv in H2 as (v & q3 & H3 & H4). injection H4 as <- <-.
      apply queued_json_read in H3 as [Hq3 Hb3]. split; [by eapply queued_trans|congruence].
    - injection H2 as <- <-. done. }
  destruct Hq2 as [(c & Hc & He) Hb2]. destruct (q_events q2) as [|e0 rest] eqn:Eq; [done|].
  injection E as <- <-. split; [|done]. exists c. simpl. by rewrite <- He.
Qed.

(** Waiting for an event can end in IndexError with the answer of a command lost: with
    nothing queued, the next message, when it is no event, is read and dropped. *)
Theorem pull_event_drops_answer q d r rest :
  q_sockfile q = true → is_open (q_sock q) = true → q_events q = [] → incoming (q_sock q) = NoData :: Line d :: rest →
  d ≠ "" → loads d = Some r → is_event r = Some false →
  ∃ q', pull_event true q = (Raise (Exn CIndexError "list index out of range"), q') ∧
    incoming (q_sock q') = rest.
Proof.
  intros Hf Ho He Hi Hd Hl Hr. destruct q as [es old a [inc snt snd cn t op fd] f]; simpl in *. subst.
  set (q1 := MkQMP [] old a (Socket (Line d :: rest) snt snd cn None true fd) true).
  exists (set_incoming rest q1). split; [|done]. unfold pull_event.
  rewrite (bind_Ret _ _ _ tt q1) by done. rewrite (bind_Ret _ _ _ q1 q1) by done.
  rewrite (bind_Ret _ _ _ tt (set_incoming rest q1)); [done|].
  cbn [q1 q_events]. rewrite (bind_Ret _ _ _ (Some r) (set_incoming rest q1)); [done|].
  unfold json_read. rewrite (bind_Ret _ _ _ q1 q1) by done.
  cbn [q1 q_sockfile negb q_sock is_open timeout incoming read_loop silence]. unfold bind at 1, modify at 1.
  rewrite (proj2 (String.eqb_neq _ _) Hd), Hl. rewrite (bind_Ret _ _ _ r (set_incoming rest q1)) by done.
  by rewrite (bind_Ret _ _ _ _ _ (py_in_event r (set_incoming rest q1) false Hr)).
Qed.
End Facts.

(** ** A connection to evaluate the methods on *)

Definition demo_event : json := JObj [("event", JStr "STOP")].
Definition demo_answer : json := JObj [("return", JArr [])].

Definition demo_json : Json := {|
  loads t := if String.eqb t "E" then Some demo_event else if String.eqb t "R" then Some demo_answer else None;
  dumps _ := "{}"
|}.

Definition demo_qmp (l : list rx) : QMP := MkQMP [] [] (Unix "/qmp") (Socket l [] [] None None true 3) true.

Lemma cmd_answered_witness :
  ∃ q', cmd_obj (H := demo_json) [("execute", JStr "stop")] (demo_qmp [NoData; Line "E"; Line "R"; Line "E"]) =
          (Ret (Some demo_answer), q') ∧ q_events q' = [demo_event] ∧ incoming (q_sock q') = [Line "E"].
Proof.
  destruct (cmd_answered (H := demo_json) [("execute", JStr "stop")]
              (demo_qmp [NoData; Line "E"; Line "R"; Line "E"]) [NoData; Line "E"] "R" demo_answer [Line "E"])
    as (q' & H1 & H2 & _ & H3); [by repeat split| |].
  - split_and!; [|done..]. repeat constructor; [done|]. by exists demo_event.
  - exists q'. split; [exact H1|]. split; [exact H3|apply H2].
Defined.

Lemma pull_event_fifo_witness :
  ∃ consumed, [Line "E"; NoData] = consumed ++ [] ∧ [demo_event] = omap (event_of (H := demo_json)) consumed.
Proof.
  destruct (pull_event_fifo (H := demo_json) false (demo_qmp [Line "E"; NoData]) demo_event (demo_qmp []))
    as [(c & H1 & H2) _]; [vm_compute; reflexivity|].
  exists c. split; [exact H1|exact H2].
Defined.

Lemma pull_event_drops_answer_witness :
  ∃ q', pull_event (H := demo_json) true (demo_qmp [NoData; Line "R"]) =
          (Raise (Exn CIndexError "list index out of range"), q') ∧ incoming (q_sock q') = [].
Proof.
  apply (pull_event_drops_answer (H := demo_json) (demo_qmp [NoData; Line "R"]) "R" demo_answer []);
    try reflexivity; done.
Defined.
