(* ===== verification/QmpSpec.v ===== *)
(** What the client of scripts/qmp.py promises its caller: a mailbox.  Whatever calls are
    made, in whatever order and however they end, events are handed out once each and in
    the order they came, and commands are answered by messages that are no events, in
    their order. *)

From S2P Require Import Prelude PyStr PyDict Effect Instance Qmp.

(** * The mailbox *)

Inductive message := MEvent (v : json) | MAnswer (v : json).

Definition event_in (m : message) : option json := match m with MEvent v => Some v | MAnswer _ => None end.
Definition answer_in (m : message) : option json := match m with MAnswer v => Some v | MEvent _ => None end.

Definition events_in : list message → list json := omap event_in.
Definition answers_in : list message → list json := omap answer_in.

(** The lists of events that were returned are shared; [former] are those the mailbox no
    longer adds to.  [gone] are the events that left the mailbox. *)
Record mailbox := Mailbox {
  queue : list json;
  former : list (list json);
  stream : list message;
  gone : list json
}.

Inductive call :=
| Cmd (c : list (string * json))
| Pull (wait : bool)
| Get (wait : bool)
| Clear.

#[export] Instance clear_dec c : Decision (c = Clear).
Proof. destruct c; [by right..|by left]. Defined.

Inductive reply :=
| Answered (v : json)
| Closed
| Pulled (v : json)
| Listed (ref : nat)
| Cleared
| Failed (e : outcome unit).

(** One call.  A command takes the messages up to its answer, and all before it are events;
    a call that fails, and a look for events, may also drop answers that nothing waited
    for, but never an event. *)
Inductive mstep : mailbox → call → reply → mailbox → Prop :=
| m_answered q f pre a rest g c :
    mstep (Mailbox q f (map MEvent pre ++ MAnswer a :: rest) g) (Cmd c) (Answered a)
          (Mailbox (q ++ pre) f rest g)
| m_closed q f pre rest g c :
    mstep (Mailbox q f (map MEvent pre ++ rest) g) (Cmd c) Closed (Mailbox (q ++ pre) f rest g)
| m_pulled q f pre rest g w e q' :
    q ++ events_in pre = e :: q' →
    mstep (Mailbox q f (pre ++ rest) g) (Pull w) (Pulled e) (Mailbox q' f rest (g ++ [e]))
| m_listed q f pre rest g w :
    mstep (Mailbox q f (pre ++ rest) g) (Get w) (Listed (length f))
          (Mailbox (q ++ events_in pre) f rest g)
| m_cleared q f s g :
    mstep (Mailbox q f s g) Clear Cleared (Mailbox [] (f ++ [q]) s (g ++ q))
| m_failed q f pre rest g c e :
    c ≠ Clear →
    mstep (Mailbox q f (pre ++ rest) g) c (Failed e) (Mailbox (q ++ events_in pre) f rest g).

Inductive msteps : mailbox → list call → list reply → mailbox → Prop :=
| ms_nil m : msteps m [] [] m
| ms_cons m c r m1 cs rs m2 :
    mstep m c r m1 → msteps m1 cs rs m2 → msteps m (c :: cs) (r :: rs) m2.

Definition pulled (r : reply) : option json := match r with Pulled v => Some v | _ => None end.
Definition answered (r : reply) : option json := match r with Answered v => Some v | _ => None end.

(** ** What a mailbox guarantees *)

Lemma events_in_app a b : events_in (a ++ b) = events_in a ++ events_in b.
Proof. apply omap_app. Qed.

Lemma events_in_events l : events_in (map MEvent l) = l.
Proof. induction l as [|v l IH]; [done|]. exact (f_equal (cons v) IH). Qed.

Lemma answers_in_events l : answers_in (map MEvent l) = [].
Proof. by induction l. Qed.

(** All the events, in their order: those that left, the queue, and those to come. *)
Definition history (m : mailbox) : list json := gone m ++ queue m ++ events_in (stream m).

Lemma mstep_history m c r m' : mstep m c r m' → history m' = history m.
Proof.
  unfold history. intros [| |q f pre rest g w e q' E| | |]; simpl;
    rewrite ?events_in_app, ?events_in_events, <- ?app_assoc; try done.
  f_equal. by rewrite (app_assoc q (events_in pre)), E.
Qed.

Lemma msteps_history m cs rs m' : msteps m cs rs m' → history m' = history m.
Proof. induction 1 as [|m c r m1 cs rs m2 H1 H2 IH]; [done|]. rewrite IH. by eapply mstep_history. Qed.

Lemma msteps_gone m cs rs m' :
  msteps m cs rs m' → Clear ∉ cs → gone m' = gone m ++ omap pulled rs.
Proof.
  induction 1 as [|m c r m1 cs rs m2 H1 H2 IH]; [by rewrite app_nil_r|].
  intros [Hc Hcs]%not_elem_of_cons. rewrite IH by done.
  destruct H1; simpl; try done. by rewrite <- app_assoc.
Qed.

Lemma mstep_answers m c r m' :
  mstep m c r m' → option_list (answered r) ++ answers_in (stream m') `sublist_of` answers_in (stream m).
Proof.
  unfold answers_in. intros []; simpl; rewrite ?omap_app; simpl;
    try rewrite (answers_in_events pre : omap answer_in _ = _); simpl; by try apply sublist_inserts_l.
Qed.

Lemma msteps_answers m cs rs m' :
  msteps m cs rs m' → omap answered rs ++ answers_in (stream m') `sublist_of` answers_in (stream m).
Proof.
  induction 1 as [|m c r m1 cs rs m2 H1%mstep_answers H2 IH]; [done|]. etrans; [|exact H1].
  replace (omap answered (r :: rs)) with (option_list (answered r) ++ omap answered rs)
    by (simpl; by destruct (answered r)).
  rewrite <- app_assoc. by apply sublist_app.
Qed.

(** * The client *)

Section Client.
Context `{Json}.

(** A call and how it ends; a caller may go on after an exception. *)
Definition replied {A} (f : A → reply) (x : outcome A * QMP) : reply * QMP :=
  (match x.1 with Ret a => f a | Raise e => Failed (Raise e) | Exit n => Failed (Exit n) end, x.2).

Definition perform (c : call) (q : QMP) : reply * QMP :=
  match c with
  | Cmd c => replied (fun r => match r with Some v => Answered v | None => Closed end) (cmd_obj c q)
  | Pull w => replied Pulled (pull_event w q)
  | Get w => replied Listed (get_events w q)
  | Clear => replied (fun _ => Cleared) (clear_events q)
  end.

Fixpoint run (cs : list call) (q : QMP) : list reply * QMP :=
  match cs with
  | [] => ([], q)
  | c :: cs' => let (r, q1) := perform c q in let (rs, q2) := run cs' q1 in (r :: rs, q2)
  end.

(** The messages among what arrives. *)
Definition message_of (x : rx) : option message :=
  match x with
  | Line d =>
      if String.eqb d "" then None
      else v ← loads d; b ← is_event v; Some (if b : bool then MEvent v else MAnswer v)
  | _ => None
  end.

Definition messages : list rx → list message := omap message_of.

(** The mailbox a client is, with the events that left it. *)
Definition mailbox_of (q : QMP) (g : list json) : mailbox :=
  Mailbox (q_events q) (q_old q) (messages (incoming (q_sock q))) g.

Lemma event_in_message x : message_of x ≫= event_in = event_of x.
Proof.
  destruct x as [d| |]; [|done..]. simpl. destruct (String.eqb d ""); [done|].
  destruct (loads d) as [v|]; [|done]. simpl. by destruct (is_event v) as [[]|].
Qed.

Lemma events_in_messages l : events_in (messages l) = omap event_of l.
Proof.
  induction l as [|x l IH]; [done|]. unfold messages, events_in in *. cbn [omap list_omap].
  rewrite <- event_in_message, <- IH. destruct (message_of x) as [m|]; [|done].
  cbn [omap list_omap mbind option_bind]. done.
Qed.
(** Reading forward: some of what arrives is consumed, its events are queued. *)
Definition advanced (q q' : QMP) : Prop := queued q q' ∧ q_old q' = q_old q.

Lemma advanced_refl q : advanced q q.
Proof. split; [|done]. exists []. by rewrite app_nil_r. Qed.

Lemma advanced_trans q1 q2 q3 : advanced q1 q2 → advanced q2 q3 → advanced q1 q3.
Proof. intros [A1 B1] [A2 B2]. split; [by eapply queued_trans|congruence]. Qed.

Lemma json_read_advanced oe q : advanced q (json_read oe q).2.
Proof.
  destruct (json_read_reads oe q) as (c & H1 & H2 & H3). split; [by exists c|].
  exact (f_equal q_old H3).
Qed.

Lemma advanced_mailbox q q' g :
  advanced q q' →
  ∃ pre, mailbox_of q g = Mailbox (q_events q) (q_old q) (pre ++ messages (incoming (q_sock q'))) g ∧
    mailbox_of q' g = Mailbox (q_events q ++ events_in pre) (q_old q) (messages (incoming (q_sock q'))) g.
Proof.
  intros [(c & Hc & He) Ho]. exists (messages c). unfold mailbox_of. rewrite He, Ho, Hc.
  unfold messages at 1. by rewrite omap_app, events_in_messages.
Qed.

(** A read for an answer meets nothing but events before it. *)
Lemma read_loop_shape t l q v q' :
  read_loop false t l q = (Ret v, q') →
  ∃ evs, messages l = map MEvent evs ++ match v with Some r => [MAnswer r] | None => [] end ++
                      messages (incoming (q_sock q')) ∧
    q_events q' = q_events q ++ evs ∧ q_old q' = q_old q.
Proof.
  revert q. induction l as [|[d| |n] l IH]; intros q; cbn [read_loop].
  - intros [= <- <-]. exists []. split_and!; [done|symmetry; apply app_nil_r|done].
  - unfold bind at 1, modify at 1. unfold messages at 1. cbn [omap list_omap message_of].
    destruct (String.eqb d ""); [intros [= <- <-]; exists []; split_and!; [done|symmetry; apply app_nil_r|done]|].
    intros (x & q1 & Hx & E)%bind_Ret_inv. destruct (loads d) as [v0|]; [|done]. injection Hx as <- <-.
    apply bind_Ret_inv in E as (b & q2 & Hb & E). cbn [mbind option_bind].
    destruct (is_event v0) as [b'|] eqn:Hv.
    2: { destruct (py_in_none v0 (set_incoming l q) Hv) as [e He]. by rewrite He in Hb. }
    rewrite (py_in_event _ _ _ Hv) in Hb. injection Hb as <- <-. destruct b'; cbn [mbind option_bind].
    + apply (IH (set_events (q_events q ++ [v0]) (set_incoming l q))) in E as (evs & H1 & H2 & H3).
      exists (v0 :: evs). simpl in H2, H3. rewrite <- app_assoc in H2.
      split; [exact (f_equal (cons (MEvent v0)) H1)|done].
    + injection E as <- <-. exists []. split_and!; [done|symmetry; apply app_nil_r|done].
  - destruct (silence t) eqn:Hs; [|apply IH].
    destruct t as [[]|]; [injection Hs as <-; done..|done].
  - done.
Qed.
(** Computations that only read forward. *)
Definition reading {A} (m : QM A) : Prop := ∀ q, advanced q (m q).2.

Lemma reading_ret {A} (a : A) : reading (ret a).
Proof. intros q. apply advanced_refl. Qed.

Lemma reading_raise {A} c t : reading (raise (A := A) c t).
Proof. intros q. apply advanced_refl. Qed.

Lemma reading_gets {A} (f : QMP → A) : reading (gets f).
Proof. intros q. apply advanced_refl. Qed.

Lemma reading_bind {A B} (m : QM A) (k : A → QM B) :
  reading m → (∀ a, reading (k a)) → reading (bind m k).
Proof.
  intros Hm Hk q. specialize (Hm q). unfold bind. destruct (m q) as [[a|e|n] q1]; try done.
  eapply advanced_trans; [exact Hm|apply Hk].
Qed.

Lemma reading_try {A} (m : QM A) c h : reading m → (∀ e, reading (h e)) → reading (try_except m c h).
Proof.
  intros Hm Hh q. specialize (Hm q). unfold try_except. destruct (m q) as [[a|e|n] q1]; try done.
  case_match; [|done]. eapply advanced_trans; [exact Hm|apply Hh].
Qed.

(** A change of the socket that touches nothing that arrives. *)
Lemma reading_modify f :
  (∀ q, incoming (q_sock (f q)) = incoming (q_sock q) ∧ q_events (f q) = q_events q ∧ q_old (f q) = q_old q) →
  reading (modify f).
Proof.
  intros Hf q. destruct (Hf q) as (H1 & H2 & H3). split; [|done]. exists [].
  simpl. by rewrite H1, H2, app_nil_r.
Qed.

Lemma reading_usable {A} (m : QM A) : reading m → reading (usable m).
Proof.
  intros Hm q. unfold usable. rewrite (bind_Ret _ _ _ q q) by done.
  destruct (is_open (q_sock q)); [apply Hm|apply advanced_refl].
Qed.

Lemma reading_json_read oe : reading (json_read oe).
Proof. exact (json_read_advanced oe). Qed.

Lemma reading_get {B} (k : QMP → QM B) : (∀ q, advanced q (k q q).2) → reading (bind get k).
Proof. intros Hk q. apply Hk. Qed.

Lemma reading_setblocking b : reading (setblocking b).
Proof. apply reading_usable. by apply reading_modify. Qed.

Lemma reading_poll_events : reading poll_events.
Proof.
  unfold poll_events. apply reading_bind; [apply reading_setblocking|intros []].
  apply reading_bind; [|intros []; apply reading_setblocking].
  apply reading_try; [|intros; apply reading_ret].
  apply reading_bind; [apply reading_json_read|intros; apply reading_ret].
Qed.

Lemma bind_not_Ret {A B} (m : QM A) (k : A → QM B) q :
  (∃ a q1, m q = (Ret a, q1) ∧ bind m k q = k a q1) ∨
  ((∀ b, (bind m k q).1 ≠ Ret b) ∧ (bind m k q).2 = (m q).2).
Proof. unfold bind. destruct (m q) as [[a|e|n] q1]; [left; by eexists _, _|right..]; done. Qed.

Lemma pull_event_cases w q :
  (∃ e rest q1, pull_event w q = (Ret e, set_events rest q1) ∧ advanced q q1 ∧ q_events q1 = e :: rest) ∨
  ((∀ e, (pull_event w q).1 ≠ Ret e) ∧ advanced q (pull_event w q).2).
Proof.
  unfold pull_event.
  destruct (bind_not_Ret poll_events (fun _ => do q <- get;
    (if match q_events q with [] => w | _ => false end then json_read true ;; ret tt else ret tt) ;;
    do q <- get;
    match q_events q with
    | [] => raise CIndexError "list index out of range"
    | event :: rest => modify (set_events rest) ;; ret event
    end) q) as [([] & q1 & E1 & ->)|[Hn ->]]; [|right; split; [exact Hn|apply reading_poll_events]].
  pose proof (reading_poll_events q) as A1. rewrite E1 in A1.
  rewrite (bind_Ret _ _ _ q1 q1) by done.
  set (m := if match q_events q1 with [] => w | _ => false end then json_read true ;; ret tt else ret tt).
  assert (Hm : reading m).
  { unfold m. destruct (match q_events q1 with [] => w | _ => false end); [|apply reading_ret].
    apply reading_bind; [apply reading_json_read|intros; apply reading_ret]. }
  specialize (Hm q1). pose proof (advanced_trans _ _ _ A1 Hm) as A2.
  match goal with |- context [bind m ?k] => destruct (bind_not_Ret m k q1) as [([] & q2 & E2 & ->)|[Hn ->]] end;
    [|by right].
  rewrite E2 in A2. rewrite (bind_Ret _ _ _ q2 q2) by done.
  destruct (q_events q2) as [|e rest] eqn:He; [by right|]. left. by exists e, rest, q2.
Qed.

Lemma get_events_cases w q :
  advanced q (get_events w q).2 ∧ ∀ r, (get_events w q).1 = Ret r → r = length (q_old q).
Proof.
  assert (Hg : reading (get_events w)).
  { unfold get_events. apply reading_bind; [apply reading_poll_events|intros []]. apply reading_get. intros q1.
    apply (reading_bind (if match q_events q1 with [] => w | _ => false end then _ else _));
      [|intros []; apply reading_gets].
    destruct (match q_events q1 with [] => w | _ => false end); [|apply reading_ret].
    apply reading_bind; [apply reading_json_read|]. intros [v|]; [apply reading_ret|apply reading_raise]. }
  split; [apply Hg|]. intros r Hr. destruct (Hg q) as [_ Ho]. rewrite <- Ho. clear Hg Ho.
  destruct (get_events w q) as [o q'] eqn:E. simpl in Hr |- *. subst o. revert E. unfold get_events.
  intros (u1 & q1 & _ & E)%bind_Ret_inv. rewrite (bind_Ret _ _ _ q1 q1) in E by done.
  apply bind_Ret_inv in E as (u2 & q2 & _ & E). by injection E as <- <-.
Qed.

(** Sending leaves what arrives alone; then the answer is read. *)
Lemma cmd_obj_cases c q :
  (∃ q1, incoming (q_sock q1) = incoming (q_sock q) ∧ q_events q1 = q_events q ∧ q_old q1 = q_old q ∧
         cmd_obj c q = json_read false q1) ∨
  ((∀ v, (cmd_obj c q).1 ≠ Ret (Some v)) ∧ mailbox_of (cmd_obj c q).2 [] = mailbox_of q []).
Proof.
  set (after := let s := q_sock q in
    set_sock (Socket (incoming s) (sent s ++ [dumps_obj c]) (tail (sending s)) (connecting s)
                (timeout s) (is_open s) (fd s)) q).
  unfold cmd_obj. match goal with |- context [bind ?m ?k] => set (send := m); set (next := k) end.
  assert (Hs : send q = (Ret false, after) ∨
    ((send q).1 ≠ Ret false ∧ mailbox_of (send q).2 [] = mailbox_of q [])).
  { unfold send, sendall, usable, try_except, bind, get, after.
    destruct q as [es old a [inc snt [|[n|] l] cn t [] fd] f]; simpl;
      [left; reflexivity|right|right|right|left; reflexivity|right]; repeat case_match; done. }
  destruct Hs as [Hs|[Hf Hm]].
  - left. exists after. split_and!; [done..|]. by rewrite (bind_Ret _ _ _ _ _ Hs).
  - right. unfold bind. destruct (send q) as [[[]|e|n] q1]; [|done..]. by split.
Qed.

Lemma cmd_refines c q g : mstep (mailbox_of q g) (Cmd c) (perform (Cmd c) q).1 (mailbox_of (perform (Cmd c) q).2 g).
Proof.
  unfold perform, replied. cbn [fst snd].
  destruct (cmd_obj_cases c q) as [(q1 & Hi & He & Ho & ->)|[Hn Hm]].
  - assert (Hq : mailbox_of q g = mailbox_of q1 g) by (unfold mailbox_of; by rewrite Hi, He, Ho).
    rewrite Hq. clear Hi He Ho Hq. pose proof (json_read_advanced false q1) as A.
    destruct (json_read false q1) as [[v|e|n] q2] eqn:E; cbn [fst snd] in *.
    2, 3: destruct (advanced_mailbox _ _ g A) as (pre & -> & ->); by apply m_failed.
    unfold json_read in E. rewrite (bind_Ret _ _ _ q1 q1) in E by done.
    destruct (q_sockfile q1); [|done]. destruct (is_open (q_sock q1)); [|done].
    apply read_loop_shape in E as (evs & Hm & He & Ho). unfold mailbox_of. rewrite Hm, He, Ho.
    destruct v as [r|]; constructor.
  - assert (Hq : mailbox_of (cmd_obj c q).2 g = mailbox_of q g) by (unfold mailbox_of in *; congruence).
    rewrite Hq. destruct ((cmd_obj c q).1) as [[v|]|e|n]; [by destruct (Hn v)|..].
    + pose proof (m_closed (q_events q) (q_old q) [] (messages (incoming (q_sock q))) g c) as Hs.
      by rewrite app_nil_r in Hs.
    + pose proof (m_failed (q_events q) (q_old q) [] (messages (incoming (q_sock q))) g (Cmd c) (Raise e)) as Hs.
      rewrite app_nil_r in Hs. by apply Hs.
    + pose proof (m_failed (q_events q) (q_old q) [] (messages (incoming (q_sock q))) g (Cmd c) (Exit n)) as Hs.
      rewrite app_nil_r in Hs. by apply Hs.
Qed.

Lemma perform_refines c q g :
  ∃ g', mstep (mailbox_of q g) c (perform c q).1 (mailbox_of (perform c q).2 g').
Proof.
  destruct c as [c|w|w|].
  - exists g. apply cmd_refines.
  - unfold perform, replied. cbn [fst snd].
    destruct (pull_event_cases w q) as [(e & rest & q1 & -> & A & He)|[Hn A]].
    + exists (g ++ [e]). destruct (advanced_mailbox _ _ g A) as (pre & -> & Hm).
      unfold mailbox_of in Hm. injection Hm as Hq Ho. cbn [fst snd].
      unfold mailbox_of. simpl. rewrite Ho. apply m_pulled. by rewrite <- Hq.
    + exists g. destruct (advanced_mailbox _ _ g A) as (pre & -> & ->).
      destruct ((pull_event w q).1) as [e|e|n]; [by destruct (Hn e)|by apply m_failed..].
  - exists g. unfold perform, replied. cbn [fst snd].
    destruct (get_events_cases w q) as [A Hr]. destruct (advanced_mailbox _ _ g A) as (pre & -> & ->).
    destruct ((get_events w q).1) as [r|e|n]; [|by apply m_failed..].
    rewrite (Hr r eq_refl). apply m_listed.
  - exists (g ++ q_events q). constructor.
Qed.

Lemma run_refines cs q rs q' g :
  run cs q = (rs, q') → ∃ g', msteps (mailbox_of q g) cs rs (mailbox_of q' g').
Proof.
  revert q rs g. induction cs as [|c cs IH]; intros q rs g; cbn [run].
  - intros [= <- <-]. exists g. constructor.
  - destruct (perform_refines c q g) as [g1 H1]. destruct (perform c q) as [r q1].
    destruct (run cs q1) as [rs1 q2] eqn:E. intros [= <- <-].
    destruct (IH _ _ g1 E) as [g2 H2]. exists g2. by econstructor.
Qed.

Lemma run_app cs1 cs2 q :
  (run (cs1 ++ cs2) q).2 = (run cs2 (run cs1 q).2).2.
Proof.
  revert q. induction cs1 as [|c cs1 IH]; intros q; [done|]. cbn [app run].
  destruct (perform c q) as [r q1]. specialize (IH q1).
  destruct (run (cs1 ++ cs2) q1), (run cs1 q1). exact IH.
Qed.

Lemma mstep_former m c r m' : mstep m c r m' → former m' = former m ++ if bool_decide (c = Clear) then [queue m] else [].
Proof. intros []; simpl; rewrite ?bool_decide_true, ?bool_decide_false, ?app_nil_r by done; done. Qed.

Lemma msteps_former m cs rs m' :
  msteps m cs rs m' → former m `prefix_of` former m' ∧ (Clear ∉ cs → former m' = former m).
Proof.
  induction 1 as [|m c r m1 cs rs m2 H1%mstep_former H2 [IH1 IH2]]; [done|]. split.
  - etrans; [|exact IH1]. rewrite H1. by apply prefix_app_r.
  - intros [Hc Hcs]%not_elem_of_cons. rewrite IH2, H1, bool_decide_false, app_nil_r by congruence. done.
Qed.

(** The lists the client was bound to stay as they are; the last is the queue. *)
Lemma run_old cs q :
  q_old q `prefix_of` q_old (run cs q).2 ∧ (Clear ∉ cs → q_old (run cs q).2 = q_old q).
Proof.
  destruct (run_refines cs q _ _ [] (surjective_pairing (run cs q))) as [g Hs].
  by apply msteps_former in Hs.
Qed.

(** C31: the list get_events returns is the queue itself: until clear_events is called it
    follows every later call, and from then on it keeps what the queue held at that call. *)
Theorem listed_is_shared w q r q1 cs :
  perform (Get w) q = (Listed r, q1) → Clear ∉ cs →
  list_at (run cs q1).2 r = Some (q_events (run cs q1).2) ∧
  ∀ cs', list_at (run (cs ++ Clear :: cs') q1).2 r = Some (q_events (run cs q1).2).
Proof.
  intros Hp Hc. assert (Hr : r = length (q_old q1)).
  { unfold perform, replied in Hp. destruct (get_events_cases w q) as [[_ Ho] Hr].
    destruct (get_events w q) as [[r'|e|n] q2]; simpl in *; [|done..]. injection Hp as -> <-.
    by rewrite Ho, (Hr r eq_refl). }
  pose proof (proj2 (run_old cs q1) Hc) as Ho. set (q2 := (run cs q1).2) in *. subst r. unfold list_at. split.
  - rewrite Ho. by rewrite lookup_app_r, Nat.sub_diag by lia.
  - intros cs'. rewrite run_app. fold q2. cbn [run]. unfold perform at 1, clear_events.
    cbn [replied fst snd modify]. set (q3 := MkQMP [] _ _ _ _).
    destruct (run_old cs' q3) as [[l Hl] _]. destruct (run cs' q3) as [rs q4]. cbn [snd] in *.
    rewrite Hl. cbn [q3 q_old]. rewrite Ho, <- !app_assoc.
    by rewrite lookup_app_r, Nat.sub_diag by lia.
Qed.

(** C14: the client is a mailbox: any sequence of calls, whatever arrives on the connection
    and however each call ends, is a run of the mailbox with the same replies, from the
    mailbox the client was to the one it has become. *)
Theorem client_refines cs q :
  ∃ g, msteps (mailbox_of q []) cs (run cs q).1 (mailbox_of (run cs q).2 g).
Proof. apply run_refines. by destruct (run cs q). Qed.

(** C16: over any sequence of commands and looks for events, however they end, the events that
    were returned, those still in the queue and those still to be read are all the events
    there were, each once and in the order they came; and the answers of the commands are
    messages that are no events, in the order they came. *)
Theorem client_delivers cs q rs q' :
  Clear ∉ cs → run cs q = (rs, q') →
  omap pulled rs ++ q_events q' ++ omap event_of (incoming (q_sock q')) =
    q_events q ++ omap event_of (incoming (q_sock q)) ∧
  omap answered rs ++ answers_in (messages (incoming (q_sock q'))) `sublist_of`
    answers_in (messages (incoming (q_sock q))).
Proof.
  intros Hc Hr. destruct (run_refines cs q rs q' [] Hr) as [g Hs]. split.
  - pose proof (msteps_history _ _ _ _ Hs) as Hh. pose proof (msteps_gone _ _ _ _ Hs Hc) as Hg.
    unfold history in Hh. cbn [mailbox_of gone queue stream] in Hh, Hg.
    by rewrite !events_in_messages, Hg in Hh.
  - exact (msteps_answers _ _ _ _ Hs).
Qed.
(** ** Progress *)

Lemma passed_line d : passed (Line d) →
  ∃ v, loads d = Some v ∧ is_event v = Some true ∧ String.eqb d "" = false ∧ event_of (Line d) = Some v.
Proof.
  intros (Hd & v & Hl & Hv). exists v. apply String.eqb_neq in Hd. split_and!; [done..|].
  simpl. rewrite Hd, Hl. simpl. by rewrite bool_decide_true.
Qed.

(** One line that is an event, as the loop reads it. *)
Lemma read_loop_line oe t d v l q :
  loads d = Some v → is_event v = Some true → String.eqb d "" = false →
  read_loop oe t (Line d :: l) q =
    (if oe then ret (Some v) else read_loop oe t l) (set_events (q_events q ++ [v]) (set_incoming l q)).
Proof.
  intros Hl Hv Hd. cbn [read_loop]. unfold bind at 1, modify at 1. rewrite Hd, Hl.
  rewrite (bind_Ret _ _ _ v (set_incoming l q)) by done.
  rewrite (bind_Ret _ _ _ _ _ (py_in_event v (set_incoming l q) true Hv)).
  unfold bind at 1, modify at 1. by destruct oe.
Qed.

(** A look at the connection takes the events up to the next pause. *)
Lemma read_loop_poll l q :
  Forall passed l →
  ∃ evs l', (read_loop false (Some 0) l q).2 = set_incoming l' (set_events (q_events q ++ evs) q) ∧
    ((read_loop false (Some 0) l q).1 = Ret None ∨
     ∃ e, ecls e = CSocketError ∧ (read_loop false (Some 0) l q).1 = Raise e) ∧
    omap event_of l = evs ++ omap event_of l' ∧ Forall passed l'.
Proof.
  intros Hl. revert q. induction Hl as [|[d| |n] l Hx Hl IH]; intros q; [| | |done].
  - exists [], []. rewrite app_nil_r. split_and!; [by destruct q|by left|done|constructor].
  - destruct (passed_line d Hx) as (v & H1 & H2 & H3 & H4). rewrite (read_loop_line _ _ _ _ _ _ H1 H2 H3).
    destruct (IH (set_events (q_events q ++ [v]) (set_incoming l q))) as (evs & l' & E & Ho & Hm & Hp).
    exists (v :: evs), l'. split_and!; [|done| |done].
    + rewrite E. simpl. by rewrite <- app_assoc.
    + cbn [omap list_omap]. rewrite H4. exact (f_equal (cons v) Hm).
  - exists [], l. rewrite app_nil_r. split_and!; [by destruct q|right|done|done]. by exists (Exn CSocketError (str_Z EAGAIN)).
Qed.

(** A wait ends with the next event, after any number of pauses. *)
Lemma read_loop_wait l q v vs :
  Forall passed l → omap event_of l = v :: vs →
  ∃ l', read_loop true None l q = (Ret (Some v), set_events (q_events q ++ [v]) (set_incoming l' q)) ∧
    Forall passed l' ∧ omap event_of l' = vs.
Proof.
  intros Hl. revert q. induction Hl as [|[d| |n] l Hx Hl IH]; intros q Hm; [done| | |done].
  - destruct (passed_line d Hx) as (v' & H1 & H2 & H3 & H4). cbn [omap list_omap] in Hm.
    rewrite H4 in Hm. injection Hm as -> Hm. exists l. by rewrite (read_loop_line _ _ _ _ _ _ H1 H2 H3).
  - cbn [read_loop silence]. by apply IH.
Qed.

Lemma poll_events_passed q l :
  working q l → Forall passed l →
  ∃ q' l', poll_events q = (Ret tt, q') ∧ working q' l' ∧ Forall passed l' ∧
    q_events q' ++ omap event_of l' = q_events q ++ omap event_of l.
Proof.
  destruct q as [es old a [inc snt snd cn t op fd] f]. intros (Hf & Ho & Ht & Hs & Hi) Hl. simpl in *. subst.
  set (q0 := MkQMP es old a (Socket l snt [] cn (Some 0) true fd) true).
  destruct (read_loop_poll l q0 Hl) as (evs & l' & E & Hr & Hm & Hp).
  exists (MkQMP (es ++ evs) old a (Socket l' snt [] cn None true fd) true), l'.
  split_and!; [|by repeat split|done|by rewrite Hm, app_assoc]. unfold poll_events.
  rewrite (bind_Ret _ _ _ tt q0) by done.
  assert (Hj : json_read false q0 = read_loop false (Some 0) l q0) by done.
  rewrite (bind_Ret _ _ _ tt (set_incoming l' (set_events (es ++ evs) q0))); [done|].
  unfold try_except, bind. rewrite Hj. destruct (read_loop false (Some 0) l q0) as [o q1].
  cbn [fst snd] in E, Hr. subst q1. destruct Hr as [->|(e & He & ->)]; [done|]. by rewrite He.
Qed.

Lemma pull_event_passed q l e es :
  working q l → Forall passed l → q_events q ++ omap event_of l = e :: es →
  ∃ q' l', pull_event true q = (Ret e, q') ∧ working q' l' ∧ Forall passed l' ∧
    q_events q' ++ omap event_of l' = es.
Proof.
  intros Hw Hl He. destruct (poll_events_passed q l Hw Hl) as (q1 & l1 & E1 & Hw1 & Hl1 & Hq).
  rewrite He in Hq. unfold pull_event. rewrite (bind_Ret _ _ _ _ _ E1). rewrite (bind_Ret _ _ _ q1 q1) by done.
  destruct q1 as [ev old a [inc snt snd cn t op fd] f]. destruct Hw1 as (Hf & Ho & Ht & Hs & Hi). simpl in *. subst.
  destruct ev as [|e' ev]; simpl in Hq.
  - set (q1 := MkQMP [] old a (Socket l1 snt [] cn None true fd) true).
    destruct (read_loop_wait l1 q1 e es Hl1 Hq) as (l2 & E2 & Hl2 & Hm2).
    assert (Hj : json_read true q1 = read_loop true None l1 q1) by done.
    exists (set_incoming l2 q1), l2. split_and!; [|by repeat split|done|done].
    rewrite (bind_Ret _ _ _ tt (set_events [e] (set_incoming l2 q1))); [done|].
    rewrite (bind_Ret _ _ _ _ _ (eq_trans Hj E2)). done.
  - injection Hq as -> Hq. eexists _, l1. split_and!; [reflexivity|by repeat split|done|done].
Qed.

(** C15: waiting for events makes progress.  On a connection that works, on which events
    arrive with any number of pauses before, between and after them, each of [n] waits for
    an event returns, as long as there are that many, and the replies are the first [n]
    events in the order they came: those in the queue, then those that arrive. *)
Theorem pulls_progress q l n :
  working q l → Forall passed l → (n ≤ length (q_events q ++ omap event_of l))%nat →
  (run (replicate n (Pull true)) q).1 = map Pulled (take n (q_events q ++ omap event_of l)).
Proof.
  revert q l. induction n as [|n IH]; intros q l Hw Hl Hn; [done|].
  destruct (q_events q ++ omap event_of l) as [|e es] eqn:He; [simpl in Hn; lia|].
  destruct (pull_event_passed q l e es Hw Hl He) as (q1 & l1 & E & Hw1 & Hl1 & Hq).
  simpl. rewrite E. cbn [replied fst snd]. rewrite <- Hq in Hn |- *. simpl in Hn.
  rewrite <- (IH q1 l1) by (done || lia). by destruct (run (replicate n (Pull true)) q1).
Qed.
End Client.

Lemma pulls_progress_witness :
  (run (H := demo_json) [Pull true; Pull true] (demo_qmp [NoData; NoData; Line "E"; NoData; Line "E"; NoData])).1 =
    [Pulled demo_event; Pulled demo_event].
Proof.
  apply (pulls_progress (H := demo_json) (demo_qmp [NoData; NoData; Line "E"; NoData; Line "E"; NoData])
           [NoData; NoData; Line "E"; NoData; Line "E"; NoData] 2).
  - by repeat split.
  - repeat first [apply List.Forall_nil | apply List.Forall_cons]; first [exact I | split; [done|by exists demo_event]].
  - vm_compute. lia.
Defined.

Lemma client_delivers_witness :
  let q := demo_qmp [Line "E"; Line "R"; NoData; Line "E"; NoData; Line "E"] in
  ∃ rs q', run (H := demo_json) [Cmd []; Pull true; Pull false] q = (rs, q') ∧
    omap pulled rs ++ q_events q' ++ omap (event_of (H := demo_json)) (incoming (q_sock q')) =
      [demo_event; demo_event; demo_event] ∧ omap answered rs = [demo_answer].
Proof.
  intros q. destruct (run (H := demo_json) [Cmd []; Pull true; Pull false] q) as [rs q'] eqn:E.
  exists rs, q'. split; [done|].
  destruct (client_delivers (H := demo_json) [Cmd []; Pull true; Pull false] q rs q') as [H1 _].
  - by rewrite list_elem_of_In; intros [|[|[|[]]]].
  - exact E.
  - split; [exact H1|]. vm_compute in E. injection E as <- <-. reflexivity.
Defined.

Lemma listed_is_shared_witness :
  let q := demo_qmp [NoData; Line "E"; NoData; NoData; Line "E"] in
  let q1 := (perform (H := demo_json) (Get true) q).2 in
  list_at (run (H := demo_json) [Get false] q1).2 0 = Some [demo_event] ∧
  list_at (run (H := demo_json) [Get false; Clear; Get false] q1).2 0 = Some [demo_event].
Proof.
  intros q q1. destruct (listed_is_shared (H := demo_json) true q 0 q1 [Get false]) as [H1 H2].
  - vm_compute. reflexivity.
  - by rewrite list_elem_of_In; intros [|[]].
  - split; [exact H1|exact (H2 [Get false])].
Defined.
