(* ===== verification/PinVcpu.v ===== *)
(** scripts/pin-vcpu.py (Python 2): the script that pins the threads of the virtual processors
    of a machine, which it asks the monitor of QEMU for, to processors. *)

From S2P Require Import Prelude PyStr PyDict Effect Instance Qmp.

(** The state: the connection, the affinities that were set, in order, and what was printed
    on the error output. *)
Record pinning := Pinning { p_qmp : QMP; p_pinned : list (Z * Z); p_stderr : list string }.

Section Pin.
Context `{Json}.
(** the number a text with a fraction is cut to, and why the affinity of a process cannot
    be set: [None] if it can *)
Context (trunc : string → Z) (refused : Z → Z → option exn).

(** [onlinecpu], which the script does not call: the processors of each node in increasing
    order, node by node; [get_max_node] and [node_to_cpus] are of the module numa. *)
Fixpoint insert_cpu (c : Z) (l : list Z) : list Z :=
  match l with
  | [] => [c]
  | d :: l' => if c <=? d then c :: l else d :: insert_cpu c l'
  end.

Definition sorted_cpus (l : list Z) : list Z := foldr insert_cpu [] l.

Definition onlinecpu (get_max_node : Z) (node_to_cpus : Z → list Z) : list Z :=
  flat_map (fun node => sorted_cpus (node_to_cpus (Z.of_nat node))) (seq 0 (Z.to_nat (get_max_node + 1))).

Definition qmp_do {A} (m : QM A) : M pinning A := fun s =>
  let (o, q) := m (p_qmp s) in (o, Pinning q (p_pinned s) (p_stderr s)).

(** Only a ValueError is reported and ends the script with status 1. *)
Definition pin_proc (pid core : Z) : M pinning unit :=
  match refused pid core with
  | Some e =>
      if is_subclass (ecls e) CValueError
      then modify (fun s => Pinning (p_qmp s) (p_pinned s) (p_stderr s ++ [emsg e])) ;; sys_exit 1
      else raise (ecls e) (emsg e)
  | None => modify (fun s => Pinning (p_qmp s) (p_pinned s ++ [(pid, core)]) (p_stderr s))
  end.

(** [int(v)] *)
Definition to_int (v : json) : M pinning Z :=
  match v with
  | JInt n => ret n
  | JBool b => ret (if b then 1 else 0)
  | JFloat t => ret (trunc t)
  | JStr s => of_option (py_int2 s) CValueError ("invalid literal for int() with base 10: " +:+ repr_str s)
  | _ => raise CTypeError ("int() argument must be a string or a number, not '" +:+ type_name v +:+ "'")
  end.

(** [response[i]] *)
Definition nth_item (v : json) (i : nat) : M pinning json :=
  match v with
  | JArr l => of_option (l !! i) CIndexError "list index out of range"
  | JStr s => of_option ((fun c => JStr (String c "")) <$> char_at s (Z.of_nat i)) CIndexError
                "string index out of range"
  | JObj _ => raise CKeyError (str_nat i)
  | _ => raise CTypeError ("'" +:+ type_name v +:+ "' object has no attribute '__getitem__'")
  end.

Definition pin_vcpu (net : address → socket) (argv : list string) : M pinning unit :=
  do a1 <- of_option (argv !! 1%nat) CIndexError "list index out of range";
  do g <- qmp_do (init_query net ("localhost:" +:+ a1));
  do r <- qmp_do (cmd "query-cpus" None None);
  do response <- match r with
                 | None => raise CTypeError "'NoneType' object has no attribute '__getitem__'"
                 | Some v => item "return" v
                 end;
  do a2 <- of_option (argv !! 2%nat) CIndexError "list index out of range";
  do n <- of_option (py_int2 a2) CValueError ("invalid literal for int() with base 10: " +:+ repr_str a2);
  for_each (seq 0 (Z.to_nat n)) (fun i =>
    do v <- nth_item response i;
    do t <- item "thread_id" v;
    do pid <- to_int t;
    pin_proc pid (Z.of_nat i)).
End Pin.


(** * Facts *)

Section PinFacts.
Context `{Json} (trunc : string → Z) (refused : Z → Z → option exn).

Lemma negotiate_run q b0 g gd b1 d1 r1 rest :
  working q (b0 ++ Line g :: b1 ++ Line d1 :: rest) →
  answers b0 g (JObj gd) → dget "QMP" gd ≠ None → answers b1 d1 (JObj r1) → dget "return" r1 ≠ None →
  ∃ q', negotiate_capabilities q = (Ret (JObj gd), q') ∧ working q' rest ∧
    sent (q_sock q') = sent (q_sock q) ++ [dumps (JObj [("execute", JStr "qmp_capabilities")])].
Proof.
  intros Hw Hg Hq H1 Hr. destruct (json_read_answer q b0 g (JObj gd) _ Hw Hg) as (q1 & E1 & W1 & S1 & _).
  destruct (cmd_obj_answer [("execute", JStr "qmp_capabilities")] q1 b1 d1 (JObj r1) rest W1 H1)
    as (q2 & E2 & W2 & S2 & _).
  exists q2. split; [|by rewrite S2, S1]. unfold negotiate_capabilities. rewrite (bind_Ret _ _ _ _ _ E1).
  rewrite (bind_Ret _ _ _ true q1) by (simpl; by rewrite bool_decide_true). cbn [negb].
  rewrite (bind_Ret _ _ _ _ _ E2). rewrite (bind_Ret _ _ _ true q2) by (simpl; by rewrite bool_decide_true).
  done.
Qed.

(** A socket the monitor answers on. *)
Definition served (s : socket) (l : list rx) : Prop :=
  incoming s = l ∧ sending s = [] ∧ connecting s = None ∧ timeout s = None ∧ is_open s = true.

Lemma get_address_tcp host port p q :
  no_char ":" host = true → no_char ":" port = true → py_int2 port = Some p →
  get_address (host +:+ ":" +:+ port) q = (Ret (Tcp host p), q).
Proof.
  intros Hh Hp E. unfold get_address. change ":" with (sep_of ":"%char).
  rewrite split_app_sep, split_no_sep, E by done. done.
Qed.

Lemma init_query_run net q host port p b0 g gd b1 d1 r1 rest :
  no_char ":" host = true → no_char ":" port = true → py_int2 port = Some p →
  served (net (Tcp host p)) (b0 ++ Line g :: b1 ++ Line d1 :: rest) →
  answers b0 g (JObj gd) → dget "QMP" gd ≠ None → answers b1 d1 (JObj r1) → dget "return" r1 ≠ None →
  ∃ q', init_query net (host +:+ ":" +:+ port) q = (Ret (JObj gd), q') ∧ working q' rest ∧
    sent (q_sock q') = sent (net (Tcp host p)) ++ [dumps (JObj [("execute", JStr "qmp_capabilities")])].
Proof.
  intros Hh Hp Ep (S1 & S2 & S3 & S4 & S5) Hg Hq H1 Hr. set (s := net (Tcp host p)) in *.
  set (q1 := MkQMP [] [] (Tcp host p) s true).
  destruct (negotiate_run q1 b0 g gd b1 d1 r1 rest) as (q' & E & W & Hsent); [by split_and!|done..|].
  exists q'. split; [|done]. unfold init_query. rewrite (bind_Ret _ _ _ _ _ (get_address_tcp host port p q Hh Hp Ep)).
  fold s. set (q0 := MkQMP [] [] (Tcp host p) s false).
  rewrite (bind_Ret _ _ _ tt q0) by done. rewrite (bind_Ret _ _ _ (Some (JObj gd)) q'); [done|].
  unfold connect. rewrite (bind_Ret _ _ _ tt q0).
  - rewrite (bind_Ret _ _ _ tt q1) by done. by rewrite (bind_Ret _ _ _ _ _ E).
  - unfold usable. rewrite (bind_Ret _ _ _ q0 q0) by done. cbn [q0 q_sock]. rewrite S5.
    rewrite (bind_Ret _ _ _ q0 q0) by done. cbn [q0 q_sock]. by rewrite S3.
Qed.

(** One thread of the answer. *)
Definition thread (v : json) (pid : Z) : Prop := ∃ d, v = JObj d ∧ dget "thread_id" d = Some (JInt pid).

Definition pin_one (vs : list json) (i : nat) : M pinning unit :=
  do v <- nth_item (JArr vs) i;
  do t <- item "thread_id" v;
  do pid <- to_int trunc t;
  pin_proc refused pid (Z.of_nat i).

Lemma pin_one_run vs i v pid s :
  vs !! i = Some v → thread v pid → pin_one vs i s = pin_proc refused pid (Z.of_nat i) s.
Proof.
  intros Hv (d & -> & Hd). unfold pin_one. rewrite (bind_Ret _ _ _ (JObj d) s) by (simpl; by rewrite Hv).
  rewrite (bind_Ret _ _ _ (JInt pid) s) by (simpl; by rewrite Hd). by rewrite (bind_Ret _ _ _ pid s).
Qed.

(** The pairs from the [i]-th on. *)
Fixpoint pairs_from (i : nat) (pids : list Z) : list (Z * Z) :=
  match pids with [] => [] | p :: pids' => (p, Z.of_nat i) :: pairs_from (S i) pids' end.

Lemma pin_threads vs i pids s :
  (∀ j p, pids !! j = Some p → ∃ v, vs !! (i + j)%nat = Some v ∧ thread v p) →
  Forall (fun pc => refused pc.1 pc.2 = None) (pairs_from i pids) →
  for_each (seq i (length pids)) (pin_one vs) s =
    (Ret tt, Pinning (p_qmp s) (p_pinned s ++ pairs_from i pids) (p_stderr s)).
Proof.
  revert i s. induction pids as [|p pids IH]; intros i s Hp Hr.
  - simpl. rewrite app_nil_r. by destruct s.
  - cbn [length seq for_each pairs_from] in *. inversion Hr as [|? ? Hr1 Hr2]; subst.
    destruct (Hp O p eq_refl) as (v & Hv & Ht). rewrite Nat.add_0_r in Hv. simpl in Hr1.
    rewrite (bind_Ret _ _ _ tt (Pinning (p_qmp s) (p_pinned s ++ [(p, Z.of_nat i)]) (p_stderr s))).
    2: { rewrite (pin_one_run _ _ _ _ _ Hv Ht). unfold pin_proc. by rewrite Hr1. }
    rewrite IH; [cbn [p_qmp p_pinned p_stderr]; by rewrite <- app_assoc| |done].
    intros j p' Hj. destruct (Hp (S j) p' Hj) as (v' & Hv' & Ht'). exists v'.
    by replace (S i + j)%nat with (i + S j)%nat by lia.
Qed.

(** C20: against a monitor that answers, on the local port its first argument names, the script
    sends exactly two commands, the negotiation of the capabilities and the question for the
    virtual processors, and pins the thread of the i-th processor of the answer to processor
    i, for as many as its second argument says, whatever events arrive in between. *)
Theorem pin_vcpu_pins net argv s port p count b0 g gd b1 d1 r1 b2 d2 r2 rest vs pids :
  argv !! 1%nat = Some port → no_char ":" port = true → py_int2 port = Some p →
  argv !! 2%nat = Some count → py_int2 count = Some (Z.of_nat (length pids)) →
  served (net (Tcp "localhost" p)) (b0 ++ Line g :: b1 ++ Line d1 :: b2 ++ Line d2 :: rest) →
  answers b0 g (JObj gd) → dget "QMP" gd ≠ None →
  answers b1 d1 (JObj r1) → dget "return" r1 ≠ None →
  answers b2 d2 (JObj r2) → dget "return" r2 = Some (JArr vs) →
  (∀ j pid, pids !! j = Some pid → ∃ v, vs !! j = Some v ∧ thread v pid) →
  Forall (fun pc => refused pc.1 pc.2 = None) (pairs_from 0 pids) →
  ∃ q', pin_vcpu trunc refused net argv s =
    (Ret tt, Pinning q' (p_pinned s ++ pairs_from 0 pids) (p_stderr s)) ∧ working q' rest ∧
    sent (q_sock q') = sent (net (Tcp "localhost" p)) ++
      [dumps (JObj [("execute", JStr "qmp_capabilities")]); dumps (JObj [("execute", JStr "query-cpus")])].
Proof.
  intros A1 Np Ep A2 Ec Hs Hg Hq H1 Hr1 H2 Hr2 Hp Hok.
  destruct (init_query_run net (p_qmp s) "localhost" port p b0 g gd b1 d1 r1 (b2 ++ Line d2 :: rest))
    as (q1 & E1 & W1 & S1); [done..|].
  destruct (cmd_obj_answer [("execute", JStr "query-cpus")] q1 b2 d2 (JObj r2) rest W1 H2) as (q2 & E2 & W2 & S2 & _).
  exists q2. split; [|split; [done|]]; [|by rewrite S2, S1, <- app_assoc]. unfold pin_vcpu. rewrite A1, (bind_Ret _ _ _ port s) by done.
  rewrite (bind_Ret _ _ _ (JObj gd) (Pinning q1 (p_pinned s) (p_stderr s)))
    by (unfold qmp_do; change ("localhost:" +:+ port) with ("localhost" +:+ ":" +:+ port); by rewrite E1).
  set (s2 := Pinning q2 (p_pinned s) (p_stderr s)).
  rewrite (bind_Ret _ _ _ (Some (JObj r2)) s2) by (unfold qmp_do;
    change (cmd "query-cpus" None None) with (cmd_obj [("execute", JStr "query-cpus")]);
    cbn [p_qmp]; by rewrite E2).
  rewrite (bind_Ret _ _ _ (JArr vs) s2) by (simpl; by rewrite Hr2).
  rewrite A2, (bind_Ret _ _ _ count s2) by done. rewrite Ec, (bind_Ret _ _ _ (Z.of_nat (length pids)) s2) by done.
  rewrite Nat2Z.id. exact (pin_threads vs 0 pids s2 Hp Hok).
Qed.

(** A processor that cannot be used ends the script with status 1 and the reason on the error
    output; the threads before it stay pinned and the others are not touched. *)
Lemma pin_refused vs i pids pid e n s :
  (∀ j p, (pids ++ [pid]) !! j = Some p → ∃ v, vs !! (i + j)%nat = Some v ∧ thread v p) →
  Forall (fun pc => refused pc.1 pc.2 = None) (pairs_from i pids) →
  refused pid (Z.of_nat (i + length pids)) = Some e → is_subclass (ecls e) CValueError = true →
  for_each (seq i (length pids + S n)) (pin_one vs) s =
    (Exit 1, Pinning (p_qmp s) (p_pinned s ++ pairs_from i pids) (p_stderr s ++ [emsg e])).
Proof.
  intros Hp Hr He Hc. rewrite seq_app, (for_each_app _ _ _ s).
  rewrite (bind_Ret _ _ _ _ _ (pin_threads vs i pids s
    ltac:(intros j p Hj; apply Hp; by rewrite lookup_app_l by (by eapply lookup_lt_Some)) Hr)).
  cbn [seq for_each]. destruct (Hp (length pids) pid) as (v & Hv & Ht).
  { by rewrite lookup_app_r, Nat.sub_diag. }
  set (s1 := Pinning _ _ _). rewrite (bind_Exit _ _ _ 1 (Pinning (p_qmp s1) (p_pinned s1) (p_stderr s1 ++ [emsg e]))).
  - done.
  - rewrite (pin_one_run _ _ _ _ _ Hv Ht). unfold pin_proc. by rewrite He, Hc.
Qed.

Lemma elem_sorted_cpus c l : c ∈ sorted_cpus l ↔ c ∈ l.
Proof.
  induction l as [|d l IH]; [done|]. cbn [sorted_cpus foldr]. fold (sorted_cpus l).
  rewrite elem_of_cons, <- IH. generalize (sorted_cpus l) as m. induction m as [|x m IHm]; simpl.
  - by rewrite elem_of_cons.
  - destruct (d <=? x); rewrite !elem_of_cons; [naive_solver|]. rewrite IHm. naive_solver.
Qed.

(** [onlinecpu] lists the processors of all nodes. *)
Lemma elem_onlinecpu c m cpus :
  c ∈ onlinecpu m cpus ↔ ∃ node, 0 ≤ node ≤ m ∧ c ∈ cpus node.
Proof.
  unfold onlinecpu. rewrite list_elem_of_In, in_flat_map. setoid_rewrite in_seq.
  setoid_rewrite <- list_elem_of_In. setoid_rewrite elem_sorted_cpus. split.
  - intros (n & Hn & Hc). exists (Z.of_nat n). split; [lia|done].
  - intros (n & Hn & Hc). exists (Z.to_nat n). rewrite Z2Nat.id by lia. split; [lia|done].
Qed.
End PinFacts.

(** ** A monitor with two virtual processors *)

(** The texts of the two commands are all that matters of the encoder. *)
Definition pin_dumps (v : json) : string :=
  match v with JObj ((_, JStr c) :: _) => c | _ => "" end.

Definition pin_json : Json := {|
  loads t :=
    if String.eqb t "G" then Some (JObj [("QMP", JObj [])])
    else if String.eqb t "O" then Some (JObj [("return", JObj [])])
    else if String.eqb t "E" then Some demo_event
    else if String.eqb t "C" then
      Some (JObj [("return", JArr [JObj [("CPU", JInt 0); ("thread_id", JInt 41)];
                                   JObj [("CPU", JInt 1); ("thread_id", JInt 42)]])])
    else None;
  dumps := pin_dumps
|}.

Definition pin_net (a : address) : socket :=
  Socket [Line "G"; Line "O"; Line "E"; Line "C"] [] [] None None true 3.

Lemma pin_vcpu_pins_witness :
  ∃ q', pin_vcpu (H := pin_json) (fun _ => 0) (fun _ _ => None) pin_net ["pin-vcpu.py"; "5555"; "2"]
          (Pinning (demo_qmp []) [] []) = (Ret tt, Pinning q' [(41, 0); (42, 1)] []) ∧
    sent (q_sock q') = ["qmp_capabilities"; "query-cpus"].
Proof.
  destruct (pin_vcpu_pins (H := pin_json) (fun _ => 0) (fun _ _ => None) pin_net ["pin-vcpu.py"; "5555"; "2"]
    (Pinning (demo_qmp []) [] []) "5555" 5555 "2" [] "G" [("QMP", JObj [])] [] "O" [("return", JObj [])]
    [Line "E"] "C"
    [("return", JArr [JObj [("CPU", JInt 0); ("thread_id", JInt 41)]; JObj [("CPU", JInt 1); ("thread_id", JInt 42)]])]
    [] [JObj [("CPU", JInt 0); ("thread_id", JInt 41)]; JObj [("CPU", JInt 1); ("thread_id", JInt 42)]] [41; 42])
    as (q' & E & _ & Hs); try reflexivity; try done; try (by repeat split).
  - split_and!; [|done..]. repeat constructor; [done|]. by exists demo_event.
  - intros [|[|j]] pid; simpl; intros [= <-]; (eexists; split; [done|]); by eexists.
  - by repeat constructor.
  - exists q'. split; [exact E|exact Hs].
Defined.
