(* ===== verification/LockTable.v ===== *)
(** benchmarks/fxmark/bin/fs_locking_table.py: counts, for every file system and kind of
    lock, the places where the Linux sources define and use such locks, and prints the
    counts as a LaTeX table. *)

From S2P Require Import Prelude PyStr PyDict Effect Os Instance Shell.

(** * What is counted *)

Definition locks : list string :=
  ["spinlock"; "rwlock"; "rwsem"; "atomic"; "mutex"; "seqlock"; "semaphore"; "rcu"; "sleepy-waiting"].

Definition fs : list string := ["VFS"; "btrfs"; "ext4"; "jbd2"; "f2fs"; "tmpfs"; "xfs"].

Definition fsToMacro : list (string * string) :=
  [("VFS", "\vfs"); ("btrfs", "\btrfs"); ("ext4", "\ext"); ("jbd2", "\jbd2"); ("f2fs", "\ffs");
   ("tmpfs", "\tmpfs"); ("xfs", "\xfs")].

(** Files of a directory, given by patterns. *)
Record group := Group { g_dir : string; g_files : list string }.

Definition FS_TO_HEADERS : list (string * list group) :=
  [("VFS", [Group "fs/*.h" ["internal.h"; "mount.h"; "pnode.h"];
            Group "include/linux/*.h" ["fs.h"; "dcache.h"; "namei.h"; "quotaops.h"; "quota.h";
                                       "xattrr.h"; "file.h"; "fs.h"; "writeback.h"]]);
   ("tmpfs", [Group "include/linux/*.h" ["shmem_fs.h"]]);
   ("jbd2", [Group "fs/jbd2/*.h" ["*.h"]; Group "include/linux/*h" ["jbd2.h"]]);
   ("ext4", [Group "fs/ext4/*.h" ["*.h"]]);
   ("btrfs", [Group "fs/btrfs/*.h" ["*.h"]]);
   ("xfs", [Group "fs/xfs/*.h" ["*.h"]]);
   ("f2fs", [Group "fs/f2fs/*.h" ["*.h"]])].

Definition FS_TO_SOURCES : list (string * list group) :=
  [("VFS", [Group "fs/*.c" ["*.c"]]);
   ("tmpfs", [Group "mm/*.c" ["shmem.c"]]);
   ("jbd2", [Group "fs/jbd2/*.c" ["*.c"]]);
   ("ext4", [Group "fs/ext4/*.c" ["*.c"]]);
   ("btrfs", [Group "fs/btrfs/*.c" ["*.c"]]);
   ("xfs", [Group "fs/xfs/*.c" ["*.c"]]);
   ("f2fs", [Group "fs/f2fs/*.c" ["*.c"]])].

(** The alternatives of a pattern of grep. *)
Definition alternatives (l : list string) : string := join "\|" l.

Definition source_lock_types : list (string * string) :=
  [("spinlock", alternatives ["spin_lock"; "spin_lock_irqsave"; "spin_lock_irq"; "spin_lock_bh"]);
   ("rwlock", alternatives ["read_lock"; "read_lock_irqsave"; "read_lock_irq"; "read_lock_bh"]);
   ("rwsem", "down_read");
   ("atomic", alternatives ["atomic_read"; "atomic_set"; "atomic_add"; "atomic_sub"; "atomic_inc";
      "atomic_dec"; "atomic_sub_and_test"; "atomic_dec_and_test"; "atomic_inc_and_test";
      "atomic_add_negative"; "atomic_add_return"; "atomic_sub_return"; "atomic_cmpxchg";
      "atomic_inc_return"; "atomic_dec_return"; "atomic_xchg"; "atomic_inc_short";
      "atomic_clear_mask"; "atomic_set_mask"]);
   ("mutex", alternatives ["mutex_lock"; "mutex_lock_nested"; "mutex_lock_killable_nested";
      "mutex_lock_interruptible_nested"; "mutex_lock_interruptible"; "mutex_lock_killable"]);
   ("seqlock", "write_seqlock");
   ("semaphore", "down");
   ("rcu", alternatives ["rcu_read_lock"; "synchronize_rcu"; "call_rcu"]);
   ("sleepy-waiting", alternatives ["wait_event"; "xlog_grant_head_wait"; "wait_on_bit_lock";
      "wait_on_bit_lock"; "wait_on_page_bit"])].

Definition header_lock_types : list (string * option string) :=
  [("spinlock", Some "spinlock_t"); ("rwlock", Some "rwlock_t"); ("rwsem", Some "rw_semaphore");
   ("atomic", Some "atomic_t"); ("mutex", Some "mutex"); ("seqlock", Some "seqlock_t");
   ("semaphore", Some "semaphore"); ("rcu", None); ("sleepy-waiting", None)].

(** * The table *)

Record cell := Cell { header : Z; source : Z }.

Abbreviation row := (list (string * cell)).
Abbreviation table := (list (string * row)).

Definition buildInitialTable : table :=
  foldl (fun t lock => dset lock (foldl (fun r f => dset f (Cell 0 0) r) [] fs) t) [] locks.

Definition get_cell (lock f : string) (t : table) : option cell := dget lock t ≫= dget f.

(** [tableData[lock][f] = c] in place *)
Definition put_cell (lock f : string) (c : cell) (t : table) : table :=
  dset lock (dset f c (default [] (dget lock t))) t.

Section Count.
Context `{Host} (linux_dir : string).

Abbreviation TM := (OM table).

Definition key_error {S A} (k : string) : M S A := raise CKeyError (repr_str k).

Definition exec_cmd (cmd : string) : TM process := lift (shell cmd PIPE).

Definition grep_cmd (lock : string) (g : group) : string :=
  "grep -I " +:+ sconcat (map (fun include => "--include " +:+ String "034" (include +:+ String "034" " ")) (g_files g)) +:+
  String "034" (lock +:+ String "034" " ") +:+ linux_dir +:+ "/" +:+ g_dir g +:+ " | wc".

(** [int(p.stdout.readlines()[0].decode().strip().split(" ")[0].strip())] *)
Definition first_number (p : process) : TM Z :=
  match file_lines (stdout p) with
  | [] => raise CIndexError "list index out of range"
  | l :: _ =>
      let t := strip (hd "" (split (strip l) " ")) in
      of_option (py_int t) CValueError ("invalid literal for int() with base 10: " +:+ repr_str t)
  end.

Definition count_group (lock : string) (count : Z) (g : group) : TM Z :=
  do p <- exec_cmd (grep_cmd lock g);
  do n <- first_number p;
  ret (count + n).

(** The update of one entry of a cell. *)
Definition update_cell (lock_type f : string) (upd : cell → cell) : TM unit :=
  do t <- self;
  match dget lock_type t with
  | None => key_error lock_type
  | Some r =>
      match dget f r with
      | None => key_error f
      | Some c => set_self (put_cell lock_type f (upd c))
      end
  end.

Definition countSources (f lock_type : string) : TM unit :=
  do lock <- of_option (dget lock_type source_lock_types) CKeyError (repr_str lock_type);
  do sources <- of_option (dget f FS_TO_SOURCES) CKeyError (repr_str f);
  do headers <- of_option (dget f FS_TO_HEADERS) CKeyError (repr_str f);
  do count <- fold_each sources (count_group lock) 0;
  do count <- fold_each headers (count_group lock) count;
  update_cell lock_type f (fun c => Cell (header c) count).

(** A kind of lock without a type is looked for as the text None. *)
Definition header_text (lock : option string) : string := default "None" lock.

Definition countHeaders (f lock_type : string) : TM unit :=
  do lock <- of_option (dget lock_type header_lock_types) CKeyError (repr_str lock_type);
  do headers <- of_option (dget f FS_TO_HEADERS) CKeyError (repr_str f);
  do count <- fold_each headers (count_group (header_text lock)) 0;
  update_cell lock_type f (fun c => Cell count (source c)).

Definition countAllSources : TM unit :=
  for_each (keys FS_TO_SOURCES) (fun f => for_each (keys source_lock_types) (countSources f)).

Definition countAllHeaders : TM unit :=
  for_each (keys FS_TO_HEADERS) (fun f => for_each (keys header_lock_types) (countHeaders f)).

(** ** Printing *)

Definition line_end : string := "\\" +:+ nl.

(** One cell of a line, with the totals so far. *)
Definition print_cell (lock : string) (r : row) (acc : string * row) (f : string) : string * row :=
  let '(text, totals) := acc in
  let c := default (Cell 0 0) (dget f r) in
  let tot := default (Cell 0 0) (dget f totals) in
  let '(text, tot) :=
    match dget lock header_lock_types with
    | Some (Some _) => (text +:+ "& " +:+ str_Z (header c) +:+ " ", Cell (header tot + header c) (source tot))
    | _ => (text +:+ "& - ", tot)
    end in
  (text +:+ "& " +:+ str_Z (source c) +:+ " ", dset f (Cell (header tot) (source tot + source c)) totals).

Definition print_row (acc : string * row) (lr : string * row) : string * row :=
  let '(text, totals) :=
    foldl (print_cell lr.1 lr.2) (acc.1 +:+ "\cc{" +:+ lr.1 +:+ "} ", acc.2) fs in
  (text +:+ line_end, totals).

Definition head_text : string :=
  " " +:+ sconcat (map (fun f => "& \multicolumn{2}{c}{\textbf{" +:+ default "" (dget f fsToMacro) +:+ "}} ") fs) +:+
  line_end +:+ " " +:+ sconcat (map (fun _ => "& Def & Use ") fs) +:+ line_end +:+ "\toprule" +:+ nl.

Definition no_totals : row := foldl (fun r f => dset f (Cell 0 0) r) [] fs.

Definition latex_table (t : table) : string :=
  let '(text, totals) := foldl print_row (head_text, no_totals) t in
  text +:+ "\toprule" +:+ nl +:+ "Total " +:+
  sconcat (map (fun f => let c := default (Cell 0 0) (dget f totals) in
             "& " +:+ str_Z (header c) +:+ " & " +:+ str_Z (source c) +:+ " ") fs) +:+
  line_end +:+ "\toprule" +:+ nl.

Definition printTable : TM unit :=
  countAllSources ;;
  countAllHeaders ;;
  do t <- self;
  lift (print (latex_table t)).
End Count.

Definition table_main `{Host} (argv : list string) : IO unit := fun w =>
  match argv !! 1%nat with
  | None => (Raise (Exn CIndexError "list index out of range"), w)
  | Some dir => let '(o, (w', _)) := printTable dir (w, buildInitialTable) in (o, w')
  end.

(** * Facts *)

Lemma get_put_eq l f c t : get_cell l f (put_cell l f c t) = Some c.
Proof. unfold get_cell, put_cell. rewrite dget_dset_eq. simpl. by rewrite dget_dset_eq. Qed.

Lemma get_put_ne l f c t l' f' :
  (l', f') ≠ (l, f) → get_cell l' f' (put_cell l f c t) = get_cell l' f' t.
Proof.
  intros Hne. unfold get_cell, put_cell. destruct (decide (l' = l)) as [->|Hl].
  - rewrite dget_dset_eq. simpl. rewrite dget_dset_ne by congruence. by destruct (dget l t).
  - by rewrite dget_dset_ne.
Qed.

(** ** Filling the cells one after the other *)

Section Fill.
Context (step : string → string → OM table unit) (new : string → string → cell → cell).
Context (F L : list string) (w : world).
Hypothesis Hidem : ∀ f l c, new f l (new f l c) = new f l c.
Hypothesis Hstep : ∀ f l t c, f ∈ F → l ∈ L → get_cell l f t = Some c →
  step f l (w, t) = (Ret tt, (w, put_cell l f (new f l c) t)).

Definition full (t : table) : Prop := ∀ l f, l ∈ L → f ∈ F → is_Some (get_cell l f t).

Lemma fill_row f ls t :
  f ∈ F → (∀ l, l ∈ ls → l ∈ L) → full t →
  ∃ t', for_each ls (step f) (w, t) = (Ret tt, (w, t')) ∧ full t' ∧
    ∀ l' f', get_cell l' f' t' =
      if bool_decide (f' = f ∧ l' ∈ ls) then new f l' <$> get_cell l' f' t else get_cell l' f' t.
Proof.
  intros Hf. revert t. induction ls as [|l ls IH]; intros t Hls Ht.
  { exists t. split_and!; [done..|]. intros l' f'. rewrite bool_decide_false; [done|set_solver]. }
  destruct (Ht l f) as [c Hc]; [set_solver..|].
  destruct (IH (put_cell l f (new f l c) t)) as (t' & E & Ht' & Hg).
  - set_solver.
  - intros l' f' Hl' Hf'. destruct (decide ((l', f') = (l, f))) as [[= -> ->]|Hne].
    + rewrite get_put_eq. eauto.
    + rewrite get_put_ne by done. auto.
  - exists t'. split_and!; [|done|].
    + cbn [for_each]. rewrite (bind_Ret _ _ _ _ _ (Hstep f l t c Hf ltac:(set_solver) Hc)). exact E.
    + intros l' f'. rewrite Hg. destruct (decide ((l', f') = (l, f))) as [[= -> ->]|Hne].
      * rewrite get_put_eq, Hc, (bool_decide_true (f = f ∧ l ∈ l :: ls)) by set_solver. simpl.
        case_bool_decide; simpl; by rewrite ?Hidem.
      * rewrite get_put_ne by done. do 2 case_bool_decide; try done; exfalso; set_solver.
Qed.

Lemma fill_table fs' t :
  (∀ f, f ∈ fs' → f ∈ F) → full t →
  ∃ t', for_each fs' (fun f => for_each L (step f)) (w, t) = (Ret tt, (w, t')) ∧ full t' ∧
    ∀ l f, l ∈ L → get_cell l f t' =
      if bool_decide (f ∈ fs') then new f l <$> get_cell l f t else get_cell l f t.
Proof.
  revert t. induction fs' as [|f fs' IH]; intros t Hfs Ht.
  { exists t. split_and!; [done..|]. intros l f _. rewrite bool_decide_false; [done|set_solver]. }
  destruct (fill_row f L t) as (t1 & E1 & Ht1 & Hg1); [set_solver|done|done|].
  destruct (IH t1) as (t2 & E2 & Ht2 & Hg2); [set_solver|done|]. exists t2. split_and!; [|done|].
  - cbn [for_each]. by rewrite (bind_Ret _ _ _ _ _ E1).
  - intros l f' Hl. rewrite (Hg2 l f' Hl), Hg1. destruct (decide (f' = f)) as [->|Hne].
    + rewrite (bool_decide_true (f = f ∧ l ∈ L)), (bool_decide_true (f ∈ f :: fs')) by set_solver.
      case_bool_decide; [|done]. destruct (get_cell l f t); simpl; by rewrite ?Hidem.
    + rewrite (bool_decide_false (f' = f ∧ l ∈ L)) by set_solver.
      do 2 case_bool_decide; try done; exfalso; set_solver.
Qed.
End Fill.

(** ** Counting *)

(** The searches of the script: every kind of lock in every group of files it looks at. *)
Definition source_groups (f : string) : list group :=
  default [] (dget f FS_TO_SOURCES) ++ default [] (dget f FS_TO_HEADERS).

Definition searches (linux_dir : string) : list string :=
  flat_map (fun f =>
    flat_map (fun l => map (grep_cmd linux_dir (default "" (dget l source_lock_types))) (source_groups f)) locks ++
    flat_map (fun l => map (grep_cmd linux_dir (header_text (default None (dget l header_lock_types))))
                         (default [] (dget f FS_TO_HEADERS))) locks) fs.

Lemma elem_searches_source linux_dir f l g :
  f ∈ fs → l ∈ locks → g ∈ source_groups f →
  grep_cmd linux_dir (default "" (dget l source_lock_types)) g ∈ searches linux_dir.
Proof.
  rewrite !list_elem_of_In. intros Hf Hl Hg. apply in_flat_map. exists f. split; [done|]. apply in_app_iff. left.
  apply in_flat_map. exists l. split; [done|]. by apply in_map.
Qed.

Lemma elem_searches_header linux_dir f l g :
  f ∈ fs → l ∈ locks → g ∈ default [] (dget f FS_TO_HEADERS) →
  grep_cmd linux_dir (header_text (default None (dget l header_lock_types))) g ∈ searches linux_dir.
Proof.
  rewrite !list_elem_of_In. intros Hf Hl Hg. apply in_flat_map. exists f. split; [done|]. apply in_app_iff. right.
  apply in_flat_map. exists l. split; [done|]. by apply in_map.
Qed.

(** What wc prints of a text of [n] lines: one line, the number first, blanks around it. *)
Definition wc_line (n : nat) (o : string) : Prop :=
  ∃ pad rest, o = pad +:+ str_nat n +:+ String " " rest +:+ nl ∧
    str_forall (Ascii.eqb " ") pad = true ∧ no_char LF rest = true.

Lemma wc_line_read n o rc : wc_line n o → ∀ s, first_number (Process rc o) s = (Ret (Z.of_nat n), s).
Proof.
  intros (pad & rest & -> & Hp & Hr) s. unfold first_number. cbn [stdout].
  assert (Hd : str_forall (fun c => negb (isspace c)) (str_nat n) = true) by apply digits_not_space, str_N_digits.
  assert (Hne : str_nat n ≠ "") by apply str_N_nonempty.
  assert (Hsp : str_forall isspace pad = true).
  { eapply str_forall_impl; [|exact Hp]. by intros c <-%Ascii.eqb_eq. }
  assert (Hl : ∀ t, file_lines (pad +:+ str_nat n +:+ String " " t +:+ nl) = file_lines ((pad +:+ str_nat n +:+ String " " t) +:+ nl +:+ ""))
    by (intros t; by rewrite !app_str_assoc, app_str_nil).
  rewrite Hl, file_lines_app_nl.
  2: { rewrite !no_char_app, no_char_cons, Hr. rewrite (digits_no_char LF (str_nat n)) by (done || apply str_N_digits).
       rewrite andb_true_r. clear -Hp. induction pad as [|c pad IH]; [done|]. simpl in Hp.
       apply andb_true_iff in Hp as [<-%Ascii.eqb_eq Hp]. rewrite no_char_cons. simpl. by apply IH. }
  assert (Hs : strip ((pad +:+ str_nat n +:+ String " " rest) +:+ nl) =
               str_nat n +:+ rstrip_pred isspace (String " " rest +:+ nl)).
  { unfold strip, strip_pred. rewrite !app_str_assoc. rewrite rstrip_pred_app by done. by apply lstrip_pred_app. }
  assert (Hh : hd "" (split (strip ((pad +:+ str_nat n +:+ String " " rest) +:+ nl)) " ") = str_nat n).
  { rewrite Hs. assert (Hn : no_char " " (str_nat n) = true) by (apply digits_no_char; [done|apply str_N_digits]).
    change " "%string with (sep_of " "%char). rewrite app_cons_str. cbn [rstrip_pred].
    destruct (rstrip_pred isspace (rest +:+ nl)) as [|c u].
    - change (if isspace " " then "" else " ") with "". rewrite app_str_nil. by rewrite split_no_sep.
    - change (String " " (String c u)) with (sep_of " "%char +:+ String c u). by rewrite split_app_sep. }
  rewrite Hh. unfold strip. rewrite strip_pred_id by done. by rewrite py_int_str_nat.
Qed.

Section Counts.
Context `{Host} (linux_dir : string) (w : world) (C : string → nat).
(** On the machine as it is, each search leaves the files alone and prints its count as wc
    does. *)
Hypothesis counts : ∀ cmd, cmd ∈ searches linux_dir → ∃ e o err,
  spawn ["/bin/sh"; "-c"; cmd] (cwd w) (env w) None (root w) = Some (e, root w, (o, err)) ∧ wc_line (C cmd) o.

Definition total (lock : string) (gs : list group) : Z :=
  foldl (fun n g => n + Z.of_nat (C (grep_cmd linux_dir lock g))) 0 gs.

Definition uses (f lock_type : string) : Z :=
  total (default "" (dget lock_type source_lock_types)) (source_groups f).

Definition defs (f lock_type : string) : Z :=
  total (header_text (default None (dget lock_type header_lock_types))) (default [] (dget f FS_TO_HEADERS)).

Lemma count_groups lock gs n t :
  (∀ g, g ∈ gs → grep_cmd linux_dir lock g ∈ searches linux_dir) →
  fold_each gs (count_group linux_dir lock) n (w, t) =
    (Ret (foldl (fun n g => n + Z.of_nat (C (grep_cmd linux_dir lock g))) n gs), (w, t)).
Proof.
  revert n. induction gs as [|g gs IH]; intros n Hgs; [done|]. cbn [fold_each foldl].
  rewrite (bind_Ret _ _ _ (n + Z.of_nat (C (grep_cmd linux_dir lock g))) (w, t));
    [apply IH; intros g' Hg'; by apply Hgs, list_elem_of_further|].
  unfold count_group. destruct (counts (grep_cmd linux_dir lock g)) as (e & o & err & Hp & Hn);
    [by apply Hgs, list_elem_of_here|].
  rewrite (bind_Ret _ _ _ (Process (rc_of e) o) (w, t)).
  2: { unfold exec_cmd, lift, shell, bind, get, modify. cbn [fst snd]. rewrite Hp. by destruct w. }
  by rewrite (bind_Ret _ _ _ _ _ (wc_line_read _ _ (rc_of e) Hn (w, t))).
Qed.

Lemma update_cell_run l f upd t c :
  get_cell l f t = Some c → update_cell l f upd (w, t) = (Ret tt, (w, put_cell l f (upd c) t)).
Proof.
  unfold get_cell, update_cell. intros Hc. rewrite (bind_Ret _ _ _ t (w, t)) by done.
  destruct (dget l t) as [r|]; [|done]. simpl in Hc. by rewrite Hc.
Qed.

Lemma known_keys :
  Forall (fun l => is_Some (dget l source_lock_types) ∧ is_Some (dget l header_lock_types)) locks ∧
  Forall (fun f => is_Some (dget f FS_TO_SOURCES) ∧ is_Some (dget f FS_TO_HEADERS)) fs.
Proof. by split; repeat constructor; eexists. Qed.

Lemma known_lock l : l ∈ locks →
  (∃ x, dget l source_lock_types = Some x) ∧ ∃ x, dget l header_lock_types = Some x.
Proof. intros Hl. destruct known_keys as [Hk _]. rewrite Forall_forall in Hk. by apply Hk. Qed.

Lemma known_fs f : f ∈ fs → (∃ x, dget f FS_TO_SOURCES = Some x) ∧ ∃ x, dget f FS_TO_HEADERS = Some x.
Proof. intros Hf. destruct known_keys as [_ Hk]. rewrite Forall_forall in Hk. by apply Hk. Qed.

Lemma countSources_run f l t c :
  f ∈ fs → l ∈ locks → get_cell l f t = Some c →
  countSources linux_dir f l (w, t) = (Ret tt, (w, put_cell l f (Cell (header c) (uses f l)) t)).
Proof.
  intros Hf Hl Hc. destruct (known_lock l Hl) as [[x Hx] _]. destruct (known_fs f Hf) as [[y Hy] [z Hz]].
  pose proof (fun g => elem_searches_source linux_dir f l g Hf Hl) as Hin. unfold source_groups in Hin.
  unfold countSources, uses, total, source_groups. rewrite Hx, Hy, Hz, foldl_app in *. cbn [of_option default] in *.
  rewrite (bind_Ret _ _ _ x (w, t)), (bind_Ret _ _ _ y (w, t)), (bind_Ret _ _ _ z (w, t)) by done.
  rewrite (bind_Ret _ _ _ _ _ (count_groups x y 0 t (fun g Hg => Hin g (proj2 (elem_of_app y z g) (or_introl Hg))))).
  rewrite (bind_Ret _ _ _ _ _ (count_groups x z _ t (fun g Hg => Hin g (proj2 (elem_of_app y z g) (or_intror Hg))))).
  by apply update_cell_run with (upd := fun c => Cell (header c) _).
Qed.

Lemma countHeaders_run f l t c :
  f ∈ fs → l ∈ locks → get_cell l f t = Some c →
  countHeaders linux_dir f l (w, t) = (Ret tt, (w, put_cell l f (Cell (defs f l) (source c)) t)).
Proof.
  intros Hf Hl Hc. destruct (known_lock l Hl) as [_ [x Hx]]. destruct (known_fs f Hf) as [_ [z Hz]].
  pose proof (fun g => elem_searches_header linux_dir f l g Hf Hl) as Hin.
  unfold countHeaders, defs, total. rewrite Hx, Hz in *. cbn [of_option default] in *.
  rewrite (bind_Ret _ _ _ x (w, t)), (bind_Ret _ _ _ z (w, t)) by done.
  rewrite (bind_Ret _ _ _ _ _ (count_groups (header_text x) z 0 t Hin)).
  by apply update_cell_run with (upd := fun c => Cell _ (source c)).
Qed.

(** The two passes over all cells. *)
Lemma countAll_run :
  ∃ t1 t2, countAllSources linux_dir (w, buildInitialTable) = (Ret tt, (w, t1)) ∧
    countAllHeaders linux_dir (w, t1) = (Ret tt, (w, t2)) ∧
    ∀ l f, l ∈ locks → f ∈ fs → get_cell l f t2 = Some (Cell (defs f l) (uses f l)).
Proof.
  assert (Hinit : ∀ l f, l ∈ locks → f ∈ fs → get_cell l f buildInitialTable = Some (Cell 0 0)).
  { intros l f Hl Hf. revert l Hl f Hf. rewrite <- Forall_forall. setoid_rewrite <- Forall_forall.
    repeat constructor. }
  assert (Hks : keys source_lock_types = locks ∧ keys header_lock_types = locks) by done.
  assert (Hkf : ∀ f, f ∈ fs ↔ f ∈ keys FS_TO_SOURCES) by (intros f; clear counts; unfold keys; simpl; set_solver).
  assert (Hkh : keys FS_TO_HEADERS = keys FS_TO_SOURCES) by done.
  destruct (fill_table (countSources linux_dir) (fun f l c => Cell (header c) (uses f l)) fs locks w
              ltac:(done) countSources_run (keys FS_TO_SOURCES) buildInitialTable) as (t1 & E1 & Hf1 & Hg1).
  { intros f. by rewrite Hkf. }
  { intros l f Hl Hf. rewrite Hinit by done. eauto. }
  destruct (fill_table (countHeaders linux_dir) (fun f l c => Cell (defs f l) (source c)) fs locks w
              ltac:(done) countHeaders_run (keys FS_TO_HEADERS) t1) as (t2 & E2 & _ & Hg2).
  { intros f. rewrite Hkh. by rewrite Hkf. }
  { done. }
  exists t1, t2. split_and!; [exact E1|exact E2|]. intros l f Hl Hf.
  rewrite (Hg2 l f Hl), (Hg1 l f Hl), Hinit, Hkh by done. by rewrite bool_decide_true by by apply Hkf.
Qed.

(** C27: the table is filled and printed.  On a machine on which each search of the script, a
    grep piped into wc, run on the files as they are, leaves them alone and prints its count
    in the form of wc: every cell of the table holds the sum of the counts of the searches
    for its own file system and kind of lock, definitions over the header files and uses
    over the sources and the header files, and nothing but the table is printed. *)
Theorem table_filled :
  ∃ t, printTable linux_dir (w, buildInitialTable) =
         (Ret tt, (set_console (console w ++ [latex_table t]) w, t)) ∧
    ∀ l f, l ∈ locks → f ∈ fs → get_cell l f t = Some (Cell (defs f l) (uses f l)).
Proof.
  destruct countAll_run as (t1 & t2 & E1 & E2 & Ht). exists t2. split; [|done].
  unfold printTable. by rewrite (bind_Ret _ _ _ _ _ E1), (bind_Ret _ _ _ _ _ E2).
Qed.
End Counts.

(** ** The last line *)

Definition table_totals (t : table) : row := (foldl print_row (head_text, no_totals) t).2.

(** What a line of the table adds to the totals of a file system. *)
Definition shown (lr : string * row) (f : string) : cell :=
  let c := default (Cell 0 0) (dget f lr.2) in
  Cell (match dget lr.1 header_lock_types with Some (Some _) => header c | _ => 0 end) (source c).

Definition add_cell (a b : cell) : cell := Cell (header a + header b) (source a + source b).

Lemma print_cell_totals l r acc f f' :
  dget f' (print_cell l r acc f).2 =
  if bool_decide (f' = f) then Some (add_cell (default (Cell 0 0) (dget f acc.2)) (shown (l, r) f))
  else dget f' acc.2.
Proof.
  destruct acc as [text totals]. unfold print_cell, shown, add_cell. cbn [fst snd].
  destruct (dget l header_lock_types) as [[]|]; simpl; (case_bool_decide as E; [subst; rewrite dget_dset_eq|
    by rewrite dget_dset_ne by done]); by rewrite ?Z.add_0_r.
Qed.

Lemma print_cells_totals l r ks acc f :
  NoDup ks →
  dget f (foldl (print_cell l r) acc ks).2 =
  if bool_decide (f ∈ ks) then Some (add_cell (default (Cell 0 0) (dget f acc.2)) (shown (l, r) f))
  else dget f acc.2.
Proof.
  intros Hn. revert acc. induction Hn as [|k ks Hk Hn IH]; intros acc; [done|]. simpl.
  rewrite IH, print_cell_totals. destruct (decide (f = k)) as [->|Hne].
  - rewrite (bool_decide_false (k ∈ ks)), (bool_decide_true (k = k)), (bool_decide_true (k ∈ k :: ks)) by set_solver.
    done.
  - rewrite (bool_decide_false (f = k)) by done. by do 2 case_bool_decide; set_solver.
Qed.

(** The last line of the table is the sum of the lines above it: for each file system
    the totals are the sums over all kinds of locks of the numbers shown, where a kind
    without a type shows no definitions. *)
Theorem totals_are_sums (t : table) f :
  f ∈ fs → dget f (table_totals t) = Some (foldl add_cell (Cell 0 0) (map (fun lr => shown lr f) t)).
Proof.
  intros Hf. unfold table_totals.
  assert (Hgen : ∀ acc c0, dget f acc.2 = Some c0 →
    dget f (foldl print_row acc t).2 = Some (foldl add_cell c0 (map (fun lr => shown lr f) t))).
  { induction t as [|[l r] t IH]; intros acc c0 Hc; [done|]. cbn [foldl map]. apply IH.
    unfold print_row. cbn [fst snd].
    pose proof (print_cells_totals l r fs (acc.1 +:+ "\cc{" +:+ l +:+ "} ", acc.2) f) as Hp.
    destruct (foldl _ _ fs) as [text totals]. cbn [fst snd] in *. rewrite Hp.
    - rewrite bool_decide_true by done. by rewrite Hc.
    - apply (bool_decide_unpack _). vm_compute. exact I. }
  apply Hgen. clear Hgen. revert f Hf. rewrite <- Forall_forall. repeat constructor.
Qed.

(** A machine on which every search finds seven lines. *)
Definition wc_host : Host := {|
  spawn _ _ _ _ t := Some (Exited 0, t, ("      7      21     140" +:+ nl, ""));
  cpu_count := 1;
  pw_home _ := None
|}.

Lemma table_filled_witness :
  ∃ t, printTable (H := wc_host) "/linux" (demo_world, buildInitialTable) =
         (Ret tt, (set_console [latex_table t] demo_world, t)) ∧
    get_cell "mutex" "jbd2" t = Some (Cell 14 21).
Proof.
  destruct (table_filled (H := wc_host) "/linux" demo_world (fun _ => 7%nat)) as (t & H1 & H2).
  - intros cmd _. eexists _, _, _. split; [reflexivity|]. exists "      ", "     21     140".
    split; [reflexivity|]. split; reflexivity.
  - exists t. split; [exact H1|]. rewrite (H2 "mutex" "jbd2"); [vm_compute; reflexivity|..];
      apply (bool_decide_unpack _); vm_compute; exact I.
Defined.

Lemma totals_are_sums_witness :
  dget "VFS" (table_totals [("mutex", [("VFS", Cell 2 3)]); ("rcu", [("VFS", Cell 9 4)])]) = Some (Cell 2 7).
Proof.
  rewrite (totals_are_sums [("mutex", [("VFS", Cell 2 3)]); ("rcu", [("VFS", Cell 9 4)])] "VFS");
    [vm_compute; reflexivity|apply (bool_decide_unpack _); vm_compute; exact I].
Defined.
