(* ===== verification/Kibt.v ===== *)
(** benchmarks/fxmark/bin/kibt.py: the call chains through inlined functions from a kernel
    function to a callee, read off the assembly listing of the compiler. *)

From S2P Require Import Prelude PyStr PyDict PyPath Effect Os Shell OptParse.

Record KernelBackTrace := MkKbt {
  k_ksrc : string; k_filename : string; k_objname : string; k_verbose : bool
}.

(** [l[:-1]] *)
Definition but_last {A} (l : list A) : list A := take (length l - 1) l.

Definition init_kbt (cwd ksrc filename : string) (verbose : bool) : KernelBackTrace :=
  let f := abspath cwd filename in
  MkKbt (abspath cwd ksrc) f (join "." (but_last (split f ".")) +:+ ".o") verbose.

(** * Lines of the listing *)

(** The name a line begins the code of. *)
Definition _get_func_name (asm_line : string) : option string :=
  match words asm_line with
  | [_; t; f] => if String.eqb t ".globl" then Some f else None
  | [_; t] => if endswith t ":" then Some (slice_to t (-1)) else None
  | _ => None
  end.

Definition _end_of_func (asm_line : string) : bool :=
  match words asm_line with
  | [_; t] => String.eqb t ".cfi_endproc"
  | _ => false
  end.

Definition _get_callee (asm_line : string) : option string :=
  match words asm_line with
  | [_; _; _; t; f] => if String.eqb t "call" then Some f else None
  | _ => None
  end.

(** The source text of an inlined line, with its file and line number; [inr] is the
    exception of a first token without a colon. *)
Record info := Info { i_func : string; i_file : string; i_line : string }.

Definition _get_inlined_callee_info (asm_line : string) : option info + exn :=
  match words asm_line with
  | t0 :: t1 :: rest =>
      if negb (bool_decide (rest = [])) && String.eqb t1 "****" then
        match split t0 ":" with
        | line :: fname :: _ => inl (Some (Info (join " " rest) fname line))
        | _ => inr (Exn CIndexError "list index out of range")
        end
      else inl None
  | _ => inl None
  end.

(** * The code of a function *)

Fixpoint func_lines (asm_file : list string) : list string :=
  match asm_file with
  | [] => []
  | l :: asm' => if _end_of_func l then [l] else l :: func_lines asm'
  end.

Fixpoint _get_func_asm (asm_file : list string) (func : string) : list string :=
  match asm_file with
  | [] => []
  | l :: asm' =>
      if bool_decide (_get_func_name l = Some func) then func_lines asm_file
      else _get_func_asm asm' func
  end.

(** * The chains *)

Definition show (i : info) : string := i_func i +:+ " @" +:+ i_file i +:+ ":" +:+ i_line i.

(** The generator on the lines from the last to the first: the chains it yields, and the
    exception it ends with, if any. *)
Fixpoint chains (filename callee : string) (lines : list string) (ibt : list string) (is_in : bool) :
    list (list string) * option exn :=
  match lines with
  | [] => ([], None)
  | l :: lines' =>
      if negb is_in && bool_decide (_get_callee l = Some callee)
      then chains filename callee lines' (callee :: ibt) true
      else
        match _get_inlined_callee_info l with
        | inr e => ([], Some e)
        | inl None => chains filename callee lines' ibt is_in
        | inl (Some i) =>
            if negb is_in && negb (startswith (i_func i) (callee +:+ "("))
            then chains filename callee lines' ibt is_in
            else
              let ibt' := show i :: ibt in
              if String.eqb filename (i_file i) then
                let r := chains filename callee lines' [] false in (ibt' :: r.1, r.2)
              else chains filename callee lines' ibt' true
        end
  end.

Definition _get_inlined_backtrace (k : KernelBackTrace) (func_asm : list string) (callee : string) :
    list (list string) * option exn :=
  chains (k_filename k) callee (reverse func_asm) [] false.

Section Kibt.
Context `{Host}.

Definition _sh (cmd : string) (out : stdio) : IO process := shell cmd out.

Definition _get_file_asm (k : KernelBackTrace) : IO (list string) :=
  _sh ("rm " +:+ k_objname k) INHERIT ;;
  do p <- _sh ("cd " +:+ k_ksrc k +:+ " && make EXTRA_CFLAGS=" +:+
               String "034" ("-g -Wa,-a,-ad -fverbose-asm" +:+ String "034" " ") +:+ k_objname k) PIPE;
  ret (stripped_lines p).

(** The chains are printed as they are found. *)
Fixpoint print_chains (i : nat) (cs : list (list string)) : IO nat :=
  match cs with
  | [] => ret i
  | c :: cs' =>
      print ("--- " +:+ str_nat (S i) +:+ "-th inlined backtrace ---") ;;
      for_each c (fun bt => print (" " +:+ bt)) ;;
      print_chains (S i) cs'
  end.

Definition print_inlined_backtrace (k : KernelBackTrace) (caller callee : string) : IO unit :=
  do asm_file <- _get_file_asm k;
  let asm_caller := _get_func_asm asm_file caller in
  when (k_verbose k) (for_each asm_caller print) ;;
  let r := _get_inlined_backtrace k asm_caller callee in
  do n <- print_chains 0 r.1;
  match r.2 with
  | Some e => raise (ecls e) (emsg e)
  | None => print (">>> " +:+ str_nat n +:+ " inlined backtraces were found!")
  end.

Definition kibt_options : list opt_spec :=
  map valued ["ksrc"; "file"; "caller"; "callee"] ++ [OptSpec "verbose" true (Some "v"%char)].

Definition kibt_main (help_text : string) (argv : list string) : IO unit := fun w =>
  match parse_args kibt_options argv [] with
  | Raise e => (Raise e, w)
  | Exit c => (Exit c, w)
  | Ret vals =>
      match missing kibt_options vals with
      | Some o => (print ("Missing options: --" +:+ o) ;; print help_text ;; sys_exit 1) w
      | None =>
          let v := opt_value vals in
          print_inlined_backtrace
            (init_kbt (cwd w) (v "ksrc") (v "file") (bool_decide (dget "verbose" vals ≠ None)))
            (v "caller") (v "callee") w
      end
  end.
End Kibt.

(** * Facts *)

Lemma but_last_cons {A} (x : A) l : l ≠ [] → but_last (x :: l) = x :: but_last l.
Proof. destruct l as [|y l]; [done|]. intros _. unfold but_last. simpl. by rewrite Nat.sub_0_r. Qed.

Lemma func_lines_spec asm :
  ∃ post, asm = func_lines asm ++ post ∧
    Forall (fun x => _end_of_func x = false) (but_last (func_lines asm)) ∧
    (post ≠ [] → ∃ x, last (func_lines asm) = Some x ∧ _end_of_func x = true).
Proof.
  induction asm as [|l asm (post & Ha & Hb & Hp)]; simpl; [by exists []|].
  destruct (_end_of_func l) eqn:El.
  - exists asm. split_and!; [done|constructor|]. intros _. by exists l.
  - exists post. split_and!; [by rewrite Ha at 1| |].
    + destruct (decide (func_lines asm = [])) as [->|Hne]; [constructor|].
      rewrite but_last_cons by done. by constructor.
    + intros Hne. destruct (Hp Hne) as (x & Hx & Hex). exists x. split; [|done].
      by destruct (func_lines asm).
Qed.

(** The code of a function is cut out exactly: nothing if no line begins it; otherwise
    the lines from the first that begins it up to and with the first end of a function
    after that, or to the end of the listing. *)
Theorem func_asm_segment asm_file func :
  let seg := _get_func_asm asm_file func in
  ∃ pre post, asm_file = pre ++ seg ++ post ∧
    Forall (fun l => _get_func_name l ≠ Some func) pre ∧
    (seg = [] ∧ post = [] ∨
     (∃ l, head seg = Some l ∧ _get_func_name l = Some func) ∧
     Forall (fun x => _end_of_func x = false) (but_last seg) ∧
     (post ≠ [] → ∃ x, last seg = Some x ∧ _end_of_func x = true)).
Proof.
  induction asm_file as [|l asm IH]; cbn [_get_func_asm]; [exists [], []; by split_and!; auto|].
  case_bool_decide as Hl.
  - destruct (func_lines_spec (l :: asm)) as (post & H1 & H2 & H3). exists [], post.
    split_and!; [done|constructor|]. right. split; [|done]. exists l. split; [|done].
    simpl. by destruct (_end_of_func l).
  - destruct IH as (pre & post & H1 & H2 & H3). exists (l :: pre), post.
    split_and!; [by rewrite H1 at 1|by constructor|done].
Qed.

(** ** The chains *)

Definition info_of (l : string) : option info :=
  match _get_inlined_callee_info l with inl o => o | inr _ => None end.

(** The lines [s] of the code lead to the callee, in a line that calls it or in an inlined line
    that does: [infos] are the inlined lines among them, all of them in their order, and [b]
    is what is printed for them. *)
Inductive leads (callee : string) : list string → list info → list string → Prop :=
| LeadsCall l : _get_callee l = Some callee → leads callee [l] [] [callee]
| LeadsInlined l i : info_of l = Some i → startswith (i_func i) (callee +:+ "(") = true →
    leads callee [l] [i] [show i]
| LeadsOther l s infos b : info_of l = None → leads callee s infos b → leads callee (l :: s) infos b
| LeadsUp l i s infos b : info_of l = Some i → leads callee s infos b →
    leads callee (l :: s) (i :: infos) (show i :: b).

(** The state of the generator after the lines [done]. *)
Definition collecting (filename callee : string) (done : list string) (ibt : list string) (is_in : bool) : Prop :=
  if is_in then ∃ s post infos, done = s ++ post ∧ leads callee s infos ibt ∧
                  Forall (fun j => i_file j ≠ filename) infos
  else ibt = [].

Lemma collecting_other filename callee l done ibt is_in :
  info_of l = None → collecting filename callee done ibt is_in → collecting filename callee (l :: done) ibt is_in.
Proof.
  intros Hl. destruct is_in; [|done]. intros (s & post & infos & -> & H1 & H2).
  exists (l :: s), post, infos. split_and!; [done|by apply LeadsOther|done].
Qed.

(** What a yielded chain is, in the lines of the function. *)
Definition chain_in (filename callee : string) (lines : list string) (b : list string) : Prop :=
  ∃ pre l s post i infos, lines = pre ++ (l :: s) ++ post ∧ leads callee (l :: s) (i :: infos) b ∧
    info_of l = Some i ∧ i_file i = filename ∧ Forall (fun j => i_file j ≠ filename) infos.

Lemma chains_sound filename callee lines done ibt is_in :
  collecting filename callee done ibt is_in →
  Forall (chain_in filename callee (reverse lines ++ done)) (chains filename callee lines ibt is_in).1.
Proof.
  revert done ibt is_in. induction lines as [|l lines IH]; intros done ibt is_in Hc; [constructor|].
  rewrite reverse_cons, <- app_assoc. cbn [chains app].
  destruct (negb is_in && bool_decide (_get_callee l = Some callee)) eqn:E1.
  { apply andb_true_iff in E1 as [E1%negb_true_iff E2%bool_decide_eq_true]. subst is_in. simpl in Hc. subst ibt. apply IH.
    exists [l], done, []. split_and!; [done|by apply LeadsCall|constructor]. }
  destruct (_get_inlined_callee_info l) as [[i|]|e] eqn:Ei; [| |constructor].
  2: { apply IH, collecting_other; [unfold info_of; by rewrite Ei|done]. }
  assert (Hi : info_of l = Some i) by (unfold info_of; by rewrite Ei).
  destruct (negb is_in && negb (startswith (i_func i) (callee +:+ "("))) eqn:E2.
  { apply andb_true_iff in E2 as [E2%negb_true_iff _]. subst is_in. by apply IH. }
  assert (Hnew : ∃ s post infos, done = s ++ post ∧ leads callee (l :: s) (i :: infos) (show i :: ibt) ∧
            Forall (fun j => i_file j ≠ filename) infos).
  { destruct is_in; simpl in Hc, E2.
    - destruct Hc as (s & post & infos & -> & H1 & H2). exists s, post, infos. split_and!; [done|by apply LeadsUp|done].
    - subst ibt. apply negb_false_iff in E2. exists [], done, []. split_and!; [done|by apply LeadsInlined|constructor]. }
  destruct Hnew as (s & post & infos & -> & Hch & Hf). destruct (String.eqb_spec filename (i_file i)) as [Hfile|Hfile].
  - cbn [fst]. constructor; [|by apply IH]. by exists (reverse lines), l, s, post, i, infos.
  - apply IH. exists (l :: s), post, (i :: infos). split_and!; [done|done|by constructor].
Qed.

(** C23: every chain printed for a function is a chain of inlining in its code.  There is a run
    of lines in the code of the function that begins with an inlined line of the file itself
    and ends with a line that calls the callee, or with an inlined line that begins with a
    call of it; the chain lists the inlined lines of that run, all of them and in their
    order, of which the others are of other files, and then the callee when it is called
    directly. *)
Theorem backtraces_sound k func_asm callee :
  Forall (chain_in (k_filename k) callee func_asm) (_get_inlined_backtrace k func_asm callee).1.
Proof.
  unfold _get_inlined_backtrace.
  pose proof (chains_sound (k_filename k) callee (reverse func_asm) [] [] false eq_refl) as H.
  by rewrite reverse_involutive, app_nil_r in H.
Qed.
