(* ===== verification/XDir.v ===== *)
(** benchmarks/xDir-rename/run_bench.py and plot.py: the benchmark that renames between
    directories, which prepares two empty directories and one with a given number of
    files, and the summary of its results. *)

From S2P Require Import Prelude PyStr PyRe PyDict PyPath Effect Os ArgParse Instance PyFloat Shell.

(** * run_bench.py *)

Module XDirBench.

Definition expr_dir : string := "./temp".
Definition disk : string := "/dev/sda3".
Definition uninstall_path : string := "~/SynCord/scripts/uninstall_policy.sh".

Section XDirBench.
Context `{Host}.
(** the random texts of a length, in the order they are drawn *)
Context (random_text : nat → nat → string).

(** The state is the number of texts drawn so far. *)
Abbreviation RM := (OM nat).

Definition get_rand_str (len : nat) : RM string :=
  do k <- self;
  set_self S ;;
  ret (random_text len k).

(** A file that is there only gets a new time. *)
Definition touch (filename : string) : IO unit :=
  do w <- get;
  match at_path w filename with
  | Some (File _ _) => ret tt
  | _ => write_file filename ""
  end.

Definition touch_random (dirname : string) : RM unit :=
  do s <- get_rand_str 36;
  lift (touch (dirname +:+ "/" +:+ s)).

(** [range(n)] *)
Definition range (n : Z) : list nat := seq 0 (Z.to_nat n).

(** [for i in range(n): m] *)
Definition times (n : Z) (m : RM unit) : RM unit := for_each (range n) (fun _ => m).

(** [print(a, b, ...)] *)
Definition print_args (l : list string) : RM unit := lift (print (join " " l)).

(** The directory is there already: files are added or removed. *)
Definition adjust (dirname : string) (num_files : Z) : RM unit :=
  do list_ <- lift (listdir dirname);
  let file_count := Z.of_nat (length list_) in
  if file_count =? num_files then
    print_args ["Directory "; dirname; " already exist with "; str_Z file_count; " files"]
  else if file_count <? num_files then
    times (num_files - file_count) (touch_random dirname) ;;
    print_args ["Directory "; dirname; "created"]
  else
    for_each (range (file_count - num_files)) (fun i =>
      do f <- of_option (list_ !! i) CIndexError "list index out of range";
      lift (unlink (dirname +:+ "/" +:+ f))) ;;
    print_args ["Directory "; dirname; "created"].

Definition mkdir (dirname : string) (num_files : Z) : RM unit :=
  if num_files =? 0 then
    try_except
      (lift (Os.mkdir dirname) ;; print_args ["Directory "; dirname; "created "])
      CFileExistsError
      (fun _ => lift (rmtree dirname) ;; lift (Os.mkdir dirname) ;;
                print_args ["Directory "; dirname; "created again"])
  else
    try_except
      (lift (Os.mkdir dirname) ;;
       times num_files (touch_random dirname) ;;
       print_args ["Directory "; dirname; "created"])
      CFileExistsError (fun _ => adjust dirname num_files).

Definition dst_dir (num_files : Z) : string := expr_dir +:+ "/dst_" +:+ str_Z num_files +:+ "_files".

Definition prepare_dir (num_files : Z) : RM unit :=
  mkdir (expr_dir +:+ "/src_empty") 0 ;;
  mkdir (expr_dir +:+ "/dst_empty") 0 ;;
  mkdir (dst_dir num_files) num_files.

(** [os.system(cmd)] *)
Definition system (cmd : string) : IO Z := do p <- shell cmd INHERIT; ret (returncode p).

Definition turn_off_dir_index : IO unit :=
  do r <- system ("sudo tune2fs -l " +:+ disk +:+ " | grep dir_index");
  if r =? 0 then
    print "disable dir_index..." ;;
    system ("sudo tune2fs -O ^dir_index " +:+ disk) ;; ret tt
  else ret tt.

Definition bench_cmd (num_files duration bully victim : Z) : string :=
  "./benchmark " +:+ expr_dir +:+ "/src_empty " +:+ dst_dir num_files +:+ " " +:+ expr_dir +:+
  "/dst_empty " +:+ str_Z duration +:+ " " +:+ str_Z bully +:+ " " +:+ str_Z victim.

Definition run_bench (num_files duration bully victim : Z) : IO unit :=
  print (bench_cmd num_files duration bully victim) ;;
  system (bench_cmd num_files duration bully victim) ;; ret tt.

(** The arguments; when a parse returns, each number was given. *)
Record xdir_args := XDirArgs { a_n : Z; a_duration : Z; a_bully : Z; a_victim : Z; a_scl : option string }.

Inductive xdir_positional := PosN | PosDuration | PosBully | PosVictim.

Inductive xdir_action := XDirHelp | StoreScl.

Definition xdir_options : list (string * xdir_action) :=
  [("-h", XDirHelp); ("--help", XDirHelp); ("--scl", StoreScl)].

(** [--scl] stores its path made absolute. *)
Definition xdir_act (a : xdir_action) (v : option string) (ns : xdir_args) : IO xdir_args :=
  match a, v with
  | XDirHelp, _ => sys_exit 0
  | StoreScl, Some x =>
      do q <- os_abspath x; ret (XDirArgs (a_n ns) (a_duration ns) (a_bully ns) (a_victim ns) (Some q))
  | StoreScl, None => ret ns
  end.

(** A positional argument is a number; another text is an error of usage. *)
Definition xdir_store (p : xdir_positional) (v : string) (ns : xdir_args) : IO xdir_args :=
  let '(XDirArgs n d b c scl) := ns in
  match py_int v with
  | None => ArgParse.error
  | Some z =>
      ret match p with
          | PosN => XDirArgs z d b c scl
          | PosDuration => XDirArgs n z b c scl
          | PosBully => XDirArgs n d z c scl
          | PosVictim => XDirArgs n d b z scl
          end
  end.

Definition xdir_parse (argv : list string) : IO xdir_args :=
  ArgParse.parse_args xdir_options (fun a => match a with StoreScl => true | XDirHelp => false end) xdir_act
    xdir_store [PosN; PosDuration; PosBully; PosVictim] (fun _ => true) argv (XDirArgs 0 0 0 0 None).

Definition main (argv : list string) : RM unit :=
  do args <- lift (xdir_parse argv);
  prepare_dir (a_n args) ;;
  lift turn_off_dir_index ;;
  match a_scl args with
  | Some scl =>
      lift (system ("sudo " +:+ scl +:+ "/eBPFGen/*scl")) ;;
      lift (system ("sudo insmod " +:+ scl +:+ "/LivePatchGen/livepatch-concord.ko")) ;; ret tt
  | None => ret tt
  end ;;
  lift (run_bench (a_n args) (a_duration args) (a_bully args) (a_victim args)) ;;
  match a_scl args with
  | Some _ => lift (system ("sudo " +:+ uninstall_path)) ;; ret tt
  | None => ret tt
  end.
End XDirBench.
End XDirBench.

(** * plot.py *)

Module XDirPlot.

Definition duration : Z := 60.
Definition cores : list Z := [2; 4; 8; 16; 28; 56; 84; 112; 140; 168; 196; 224].
Definition cycle_per_sec : Z := 2200000000.

(** [[0-9.]+] *)
Definition number_re : re := rplus (fun c => isdigit_char c || is_char "." c).

Definition numbers (line : string) : list string := map fst (findall number_re line).

Record sums := Sums {
  bully_throughput : Z; victim_throughput : Z; fairness : string;
  bully_holdtime : Z; victim_holdtime : Z
}.

Section XDirPlot.
Context `{Float}.

(** [int(run[i])] *)
Definition run_int (run : list string) (i : nat) : IO Z :=
  do t <- of_option (run !! i) CIndexError "list index out of range";
  of_option (py_int t) CValueError ("invalid literal for int() with base 10: " +:+ repr_str t).

Definition add_line (s : sums) (line : string) : IO sums :=
  let run := numbers line in
  if startswith line "[b]" then
    do t <- run_int run 2; do h <- run_int run 1;
    ret (Sums (bully_throughput s + t) (victim_throughput s) (fairness s) (bully_holdtime s + h) (victim_holdtime s))
  else if startswith line "[v]" then
    do t <- run_int run 2; do h <- run_int run 1;
    ret (Sums (bully_throughput s) (victim_throughput s + t) (fairness s) (bully_holdtime s) (victim_holdtime s + h))
  else if startswith line "fairness" then
    do f <- of_option (run !! 0%nat) CIndexError "list index out of range";
    ret (Sums (bully_throughput s) (victim_throughput s) f (bully_holdtime s) (victim_holdtime s))
  else ret s.

Definition no_sums : sums := Sums 0 0 "0" 0 0.

Definition ratio (a b : Z) : float := fdiv (fof_Z a) (fof_Z b).

Definition summary_line (s : sums) : string :=
  join ", " [fmt_f 0 (ratio (bully_throughput s) duration);
             fmt_f 0 (ratio (victim_throughput s) duration);
             fmt_f 0 (ratio (bully_throughput s + victim_throughput s) duration);
             fairness s;
             fmt_f 2 (ratio (bully_holdtime s) cycle_per_sec);
             fmt_f 2 (ratio (victim_holdtime s) cycle_per_sec)].

Definition summarize (dir : string) (i : Z) : IO unit :=
  do text <- read_file ("./" +:+ dir +:+ "/result." +:+ str_Z i);
  do s <- fold_each (file_lines text) add_line no_sums;
  print (summary_line s).

(** One profile: whether the loop goes on; any exception ends it. *)
Definition profile_line (dir : string) (i : Z) : IO bool :=
  try_except
    (do text <- read_file ("./" +:+ dir +:+ "/profile." +:+ str_Z i);
     do l <- of_option (file_lines text !! 3%nat) CIndexError "list index out of range";
     let parsed := words l in
     do n <- run_int parsed 1;
     if n =? 0 then ret true
     else
       do x <- of_option (parsed !! 1%nat) CIndexError "list index out of range";
       do a <- of_option (parsed !! 4%nat) CIndexError "list index out of range";
       do c <- of_option (parsed !! 3%nat) CIndexError "list index out of range";
       print (join " " [x; c; a]) ;; ret true)
    CException (fun _ => ret false).

Fixpoint profiles (dir : string) (l : list Z) : IO unit :=
  match l with
  | [] => ret tt
  | i :: l' => do go <- profile_line dir i; if go then profiles dir l' else ret tt
  end.

Definition head_line : string :=
  "#bully_throughput, victim_throughput, total_throughput, fairness,            bully_holdtime, victim_holdtime".

Definition plot_main (argv : list string) : IO unit :=
  do dir <- of_option (argv !! 1%nat) CIndexError "list index out of range";
  print head_line ;;
  for_each cores (summarize dir) ;;
  print "#xsock-cnt, #acquired, avg_batch_size" ;;
  profiles dir cores.
End XDirPlot.
End XDirPlot.

(** * Facts *)

Import XDirBench.

(** A command line that is refused, or asks for help, ends the program before anything is
    prepared. *)
Lemma xdir_refused `{Host} random_text argv w k :
  match (xdir_parse argv w).1 with
  | Ret _ => True
  | Raise e => main random_text argv (w, k) = (Raise e, (w, k))
  | Exit c => main random_text argv (w, k) = (Exit c, (w, k)) ∧ (c = 0 ∨ c = 2)
  end.
Proof.
  assert (Hf : frame (fun w => w) (xdir_parse argv)).
  { apply frame_parse_args.
    - intros [] [v|] ns; try done. apply frame_bind; [apply frame_os_abspath|done].
    - intros p v [n d b c scl]. unfold xdir_store. by destruct (py_int v). }
  assert (Hx : exits (fun c => c = 0 ∨ c = 2) (xdir_parse argv)).
  { apply exits_parse_args; [by right| |].
    - intros [] [v|] ns; [apply exits_exit; by left..| |done].
      apply exits_bind; [apply exits_os_abspath|done].
    - intros p v [n d b c scl]. unfold xdir_store. destruct (py_int v); [done|]. apply exits_exit. by right. }
  specialize (Hf w). specialize (Hx w). unfold main.
  destruct (xdir_parse argv w) as [[a|e|c] w'] eqn:E; simpl in Hf |- *; [done|subst w'..].
  - apply bind_Raise. unfold lift. simpl. by rewrite E.
  - split; [|by eapply Hx]. apply bind_Exit. unfold lift. simpl. by rewrite E.
Qed.

Section Prepared.
Context (random_text : nat → nat → string).

Definition is_file (n : node) : bool := negb (is_dir n).

(** A directory that holds only files with plain names. *)
Definition files_in (w : world) (d : string) (es : list (string * node)) : Prop :=
  at_path w d = Some (Dir es) ∧ dict_wf es ∧ Forall (fun e => plain e.1 = true ∧ is_file e.2 = true) es.

(** The names drawn from the [k]-th on are plain, new and different. *)
Definition fresh_names (k n : nat) (old : list string) : Prop :=
  let new := map (random_text 36) (seq k n) in
  NoDup (new ++ old) ∧ Forall (fun s => plain s = true) new.

Lemma files_in_dset w d es s m r :
  files_in w d es → d ≠ "" → plain s = true → s ∉ keys es →
  tput (resolve (cwd w) d ++ [s]) (File "" m) (root w) = Some r →
  files_in (set_root r w) d (dset s (File "" m) es).
Proof.
  intros (Hd & Hw & Hf) Hne Hs Hn Hr. split_and!.
  - destruct (tget_tput_above _ [] _ _ _ _ _ Hr Hd) as [m' Hm']. unfold at_path. simpl. rewrite Hm'.
    pose proof (tget_tput_eq _ _ _ _ Hr) as Hg. rewrite tget_app, Hm' in Hg. simpl in Hg.
    rewrite dget_dset_eq in Hg. by injection Hg as ->.
  - by apply dset_wf.
  - clear Hd Hw Hr. induction Hf as [|[k v] es Hkv Hf IH]; simpl; [by repeat constructor|].
    apply not_elem_of_cons in Hn as [Hk Hn]. rewrite decide_False by done. constructor; auto.
Qed.

Lemma touch_fresh w d es s :
  files_in w d es → d ≠ "" → plain s = true → s ∉ keys es →
  ∃ r m, touch (d +:+ "/" +:+ s) w = (Ret tt, set_root r w) ∧
         files_in (set_root r w) d (dset s (File "" m) es).
Proof.
  intros Hf Hne Hs Hn. destruct (tput_is_Some _ s (File "" default_mode) _ _ (proj1 Hf)) as [r Hr].
  exists r, default_mode. split; [|by apply files_in_dset].
  assert (Hg : tget (resolve (cwd w) d ++ [s]) (root w) = None).
  { rewrite tget_app. destruct Hf as (Hd & _). unfold at_path in Hd. rewrite Hd. simpl.
    apply dget_None in Hn. by rewrite Hn. }
  unfold touch, bind at 1, get at 1. unfold at_path. rewrite resolve_child by done. rewrite Hg.
  unfold write_file, bind at 1, get at 1. rewrite resolve_child by done. rewrite Hg.
  unfold update_root, bind, get. by rewrite Hr.
Qed.

Lemma times_touch d n w k es :
  files_in w d es → d ≠ "" → fresh_names k n (keys es) →
  ∃ r es', for_each (seq 0 n) (fun _ => touch_random random_text d) (w, k) = (Ret tt, (set_root r w, (k + n)%nat)) ∧
    files_in (set_root r w) d es' ∧ length es' = (length es + n)%nat.
Proof.
  intros Hf Hd. generalize 0%nat as i. revert w k es Hf. induction n as [|n IH]; intros w k es Hf i [Hn Hp].
  - exists (root w), es. rewrite Nat.add_0_r. split_and!; [by destruct w|by destruct w|lia].
  - simpl in Hn, Hp. apply NoDup_cons in Hn as [Hk Hn]. apply Forall_cons in Hp as [Hs Hp].
    rewrite elem_of_app in Hk.
    destruct (touch_fresh w d es (random_text 36 k)) as (r & m & E & Hf'); [done..|tauto|].
    destruct (IH (set_root r w) (S k) _ Hf' (S i)) as (r' & es' & E' & Hf'' & Hl).
    + split; [|done]. rewrite keys_dset, decide_False by tauto.
      rewrite app_assoc, NoDup_app. split_and!; [done| |apply NoDup_singleton].
      intros x Hx ->%list_elem_of_singleton. rewrite elem_of_app in Hx. tauto.
    + exists r', es'. split_and!.
      * cbn [seq for_each]. rewrite (bind_Ret _ _ _ tt (set_root r w, S k)).
        -- rewrite E'. by rewrite Nat.add_succ_r.
        -- unfold touch_random, get_rand_str, bind, self, gets, set_self, modify, lift. simpl. by rewrite E.
      * done.
      * rewrite Hl, length_dset_new by tauto. lia.
Qed.
Lemma unlink_first w d f n es :
  files_in w d ((f, n) :: es) → d ≠ "" →
  ∃ r, unlink (d +:+ "/" +:+ f) w = (Ret tt, set_root r w) ∧ files_in (set_root r w) d es.
Proof.
  intros (Hd & Hw & Hf) Hne. apply Forall_cons in Hf as [[Hp Hn] Hf]. simpl in Hp, Hn.
  assert (Hg : tget (resolve (cwd w) d ++ [f]) (root w) = Some n).
  { rewrite tget_app. unfold at_path in Hd. rewrite Hd. simpl. by rewrite decide_True. }
  destruct (tdel_is_Some _ _ _ (app_nonnil _ f) Hg) as [r Hr]. exists r. split.
  - unfold unlink, bind at 1, get at 1. rewrite resolve_child by done. rewrite Hg.
    destruct n; [|done]. unfold update_root, bind, get. by rewrite Hr.
  - pose proof (tget_tdel_above _ _ _ _ _ Hr Hd) as Ha. simpl in Ha. rewrite decide_True in Ha by done.
    split_and!; [done| |done]. unfold dict_wf in *. simpl in Hw. by apply NoDup_cons in Hw as [_ ?].
Qed.

Lemma remove_first d m i w (k : nat) es :
  files_in w d (drop i es) → d ≠ "" → (i + m ≤ length es)%nat →
  ∃ r, for_each (seq i m) (fun j => do f <- of_option (keys es !! j) CIndexError "list index out of range";
                                    lift (unlink (d +:+ "/" +:+ f))) (w, k) = (Ret tt, (set_root r w, k)) ∧
    files_in (set_root r w) d (drop (i + m) es).
Proof.
  revert i w. induction m as [|m IH]; intros i w Hf Hd Hl.
  - exists (root w). rewrite Nat.add_0_r. by destruct w.
  - destruct (lookup_lt_is_Some_2 es i) as [[f n] Hi]; [lia|]. rewrite (drop_S _ _ _ Hi) in Hf.
    destruct (unlink_first _ _ _ _ _ Hf Hd) as (r & E & Hf').
    destruct (IH (S i) _ Hf' Hd) as (r' & E' & Hf''); [lia|]. exists r'. split.
    + cbn [seq for_each]. rewrite (bind_Ret _ _ _ tt (set_root r w, k)); [exact E'|].
      unfold keys. rewrite list_lookup_fmap, Hi. rewrite (bind_Ret _ _ _ f (w, k)) by done.
      unfold lift. cbn [fst snd]. by rewrite E.
    + by rewrite Nat.add_succ_r.
Qed.

Lemma adjust_run w k d es n :
  files_in w d es → d ≠ "" → 0 < n → fresh_names k (Z.to_nat n - length es) (keys es) →
  ∃ w' k' es', adjust random_text d n (w, k) = (Ret tt, (w', k')) ∧ files_in w' d es' ∧ Z.of_nat (length es') = n.
Proof.
  intros Hf Hd Hn Hfr. unfold adjust. rewrite (bind_Ret _ _ _ (keys es) (w, k)).
  2:{ unfold listdir, lift, bind, get. simpl. destruct Hf as (Hd' & _). by rewrite Hd'. }
  assert (Hlen : length (keys es) = length es) by apply length_map. rewrite Hlen.
  destruct (Z.eqb_spec (Z.of_nat (length es)) n) as [He|He]; [by eexists _, k, es|].
  destruct (Z.ltb_spec (Z.of_nat (length es)) n) as [Hlt|Hge].
  - destruct (times_touch d (Z.to_nat n - length es) w k es Hf Hd Hfr) as (r & es' & E & Hf' & Hl).
    eexists _, _, es'. split; [|split; [|lia]].
    + unfold times, range.
      replace (Z.to_nat (n - Z.of_nat (length es))) with (Z.to_nat n - length es)%nat by lia.
      rewrite (bind_Ret _ _ _ _ _ E). reflexivity.
    + exact Hf'.
  - destruct (remove_first d (length es - Z.to_nat n) 0 w k es) as (r & E & Hf'); [done|done|lia|].
    eexists _, _, (drop (length es - Z.to_nat n) es). split; [|split; [|rewrite length_drop; lia]].
    + unfold range.
      replace (Z.to_nat (Z.of_nat (length es) - n)) with (length es - Z.to_nat n)%nat by lia.
      rewrite (bind_Ret _ _ _ _ _ E). reflexivity.
    + exact Hf'.
Qed.

(** The directory of the benchmark is prepared with exactly the number of files asked
    for: whether it is new, or holds too few, enough or too many files already, mkdir
    returns and leaves it with that number, given names that are new and different. *)
Theorem mkdir_count w k d n :
  d ≠ "" → 0 < n → (∃ p c es0, resolve (cwd w) d = p ++ [c] ∧ tget p (root w) = Some (Dir es0)) →
  (at_path w d = None ∧ fresh_names k (Z.to_nat n) [] ∨
   ∃ es, files_in w d es ∧ fresh_names k (Z.to_nat n - length es) (keys es)) →
  ∃ w' k' es', XDirBench.mkdir random_text d n (w, k) = (Ret tt, (w', k')) ∧
    at_path w' d = Some (Dir es') ∧ Z.of_nat (length es') = n.
Proof.
  intros Hd Hn (p & c & es0 & Hr & Hp) Hcase. unfold XDirBench.mkdir.
  destruct (Z.eqb_spec n 0); [lia|]. destruct Hcase as [[Hnone Hfr]|(es & Hf & Hfr)].
  - unfold at_path in Hnone. destruct (tput_is_Some p c (Dir []) _ _ Hp) as [r Er]. rewrite <- Hr in Er.
    assert (Hf : files_in (set_root r w) d []) by
      (split_and!; [by apply at_path_put in Er|apply NoDup_nil_2|constructor]).
    destruct (times_touch d (Z.to_nat n) _ k [] Hf Hd Hfr) as (r' & es' & E & Hf' & Hl).
    eexists _, _, es'. split; [|split; [|simpl in Hl; lia]].
    + unfold try_except. rewrite (bind_Ret _ _ _ tt (set_root r w, k)).
      2:{ unfold lift, Os.mkdir, update_root, bind, get. simpl. by rewrite Hnone, Er. }
      unfold times, range. rewrite (bind_Ret _ _ _ _ _ E). reflexivity.
    + apply Hf'.
  - destruct (adjust_run w k d es n Hf Hd Hn Hfr) as (w' & k' & es' & E & Hf' & Hl).
    exists w', k', es'. split_and!; [|apply Hf'|done]. unfold try_except.
    rewrite (bind_Raise _ _ _ (Exn CFileExistsError ("[Errno 17] File exists: '" +:+ d +:+ "'")) (w, k));
      [exact E|]. destruct Hf as (Hdir & _). unfold at_path in Hdir.
    unfold lift, Os.mkdir, bind, get. simpl. by rewrite Hdir.
Qed.
End Prepared.

(** Names for the example: one letter more every time. *)
Definition demo_text (len k : nat) : string := repeat_char "x" (S k).

Lemma mkdir_count_witness :
  (∃ w' k' es', XDirBench.mkdir demo_text "/work/new" 2 (demo_world, 0%nat) = (Ret tt, (w', k')) ∧
     at_path w' "/work/new" = Some (Dir es') ∧ Z.of_nat (length es') = 2) ∧
  (∃ w' k' es', XDirBench.mkdir demo_text "/work/sub" 1 (demo_world, 0%nat) = (Ret tt, (w', k')) ∧
     at_path w' "/work/sub" = Some (Dir es') ∧ Z.of_nat (length es') = 1).
Proof.
  split.
  - apply (mkdir_count demo_text demo_world 0 "/work/new" 2); [done|lia|by eexists ["work"], "new", _|].
    left. split; [vm_compute; reflexivity|]. split; apply (bool_decide_unpack _); vm_compute; exact I.
  - apply (mkdir_count demo_text demo_world 0 "/work/sub" 1); [done|lia|by eexists ["work"], "sub", _|].
    right. eexists. split; [split; [vm_compute; reflexivity|]|];
      split; apply (bool_decide_unpack _); vm_compute; exact I.
Defined.
