(* ===== verification/WillItScale.v ===== *)
(** benchmarks/will-it-scale/runtest.py and postprocess.py: one run of a test case of the
    suite at the number of threads of this machine, and the web pages made of the results. *)

From S2P Require Import Prelude PyStr PyDict PyPath Effect Os PyFloat Shell.

(** * runtest.py *)

Module RunTest.

Definition data_points : list Z := [448].
Definition duration : Z := 5.
Definition working_dir : string := "/home/syncord/SynCord/benchmarks/will-it-scale".

(** The counters of /proc/stat. *)
Record linux_stat := LinuxStat {
  user : Z; nice : Z; system : Z; idle : Z; iowait : Z; irq : Z; softirq : Z;
  steal : Z; guest : Z; guest_nice : Z
}.

Definition int_or_raise {S} (t : string) : M S Z :=
  of_option (py_int t) CValueError ("invalid literal for int() with base 10: " +:+ repr_str t).

(** [int(arr[i])]; a column the kernel does not have counts as 0. *)
Definition column (arr : list string) (i : nat) : IO Z :=
  do t <- of_option (arr !! i) CIndexError "list index out of range"; int_or_raise t.
Definition late_column (arr : list string) (i : nat) : IO Z :=
  match arr !! i with Some t => int_or_raise t | None => ret 0 end.

Definition stat_line (arr : list string) : IO linux_stat :=
  do u <- column arr 1; do n <- column arr 2; do s <- column arr 3; do i <- column arr 4;
  do io <- column arr 5; do q <- column arr 6; do sq <- column arr 7;
  do st <- late_column arr 8; do g <- late_column arr 9; do gn <- late_column arr 10;
  ret (LinuxStat u n s i io q sq st g gn).

(** The first line of all processors; [None] leaves the object without attributes. *)
Fixpoint find_stat (lines : list string) : IO (option linux_stat) :=
  match lines with
  | [] => ret None
  | l :: lines' =>
      match words l with
      | [] => raise CIndexError "list index out of range"
      | a :: _ => if negb (String.eqb a "cpu") then find_stat lines'
                  else do s <- stat_line (words l); ret (Some s)
      end
  end.

Definition init_stat (procstat : string) : IO (option linux_stat) :=
  do text <- read_file procstat;
  find_stat (file_lines text).

Definition busy_of (s : linux_stat) : Z :=
  user s + nice s + system s + irq s + softirq s + steal s + guest s + guest_nice s.
Definition idle_of (s : linux_stat) : Z := idle s + iowait s.

(** The time since [prev] that the machine was busy and idle. *)
Definition spent (s : linux_stat) (prev : option linux_stat) : Z * Z :=
  match prev with
  | Some p => (busy_of s - busy_of p, idle_of s - idle_of p)
  | None => (busy_of s, idle_of s)
  end.

Section RunTest.
Context `{Host} `{Float}.

Definition idle_fraction (s : linux_stat) (prev : option linux_stat) : float :=
  let '(busy, idl) := spent s prev in
  if idl + busy =? 0 then fof_Z 0
  else fdiv (fmul (fof_Z 1) (fof_Z idl)) (fof_Z (idl + busy)).

(** [subprocess.check_output(cmd, shell=True)] *)
Definition check_output (cmd : string) : IO string :=
  do p <- shell cmd PIPE;
  if returncode p =? 0 then ret (stdout p)
  else raise CRuntimeError ("Command '" +:+ cmd +:+ "' returned non-zero exit status " +:+
                            str_Z (returncode p) +:+ ".").

(** One less than the number a command prints. *)
Definition counted (cmd : string) : IO Z :=
  do t <- check_output cmd;
  do n <- int_or_raise (strip t);
  ret (n - 1).

(** The results of the last average line; -1 when there is none. *)
Definition average_line (acc : Z * Z * Z) (line : string) : IO (Z * Z * Z) :=
  if contains line "average:" then
    match split line ":" with
    | [_; total; fast; slow] =>
        do t <- int_or_raise total; do f <- int_or_raise fast; do s <- int_or_raise slow;
        ret (t, f, s)
    | l => raise CValueError (if (length l <? 4)%nat
             then "not enough values to unpack (expected 4, got " +:+ str_nat (length l) +:+ ")"
             else "too many values to unpack (expected 4)")
    end
  else ret acc.

Definition no_stat {A} : IO A := raise CAttributeError "'linux_stat' object has no attribute 'user'".

Definition run_point (setarch cmd : string) (cores_per_socket : float) (i : Z) : IO unit :=
  let c := working_dir +:+ "/build/" +:+ cmd +:+ "_threads -t " +:+ str_Z i +:+ " -s " +:+
           str_Z duration +:+ " -n " +:+ str_Z (ftrunc cores_per_socket) in
  do before <- init_stat "/proc/stat";
  do p <- shell (setarch +:+ " " +:+ c) PIPE;
  do r <- fold_each (file_lines (universal_newlines (stdout p))) average_line (-1, -1, -1);
  do after <- init_stat "/proc/stat";
  match after, before with
  | Some a, Some b => ret (fmul (idle_fraction a (Some b)) (fof_Z 100)) ;; ret tt
  | _, _ => no_stat
  end ;;
  let '(tot, fast, slow) := r in
  print (join "," [str_Z i; str_Z tot; str_Z fast; str_Z slow]).

Definition runtest_main (argv : list string) : IO unit :=
  match argv with
  | [_; cmd] =>
      do nr_cores <- counted "lscpu -e=cpu | wc -l";
      do nr_nodes <- counted "lscpu -e=node | sort -u | wc -l";
      do cores_per_socket <- (if nr_nodes =? 0 then raise CZeroDivisionError "division by zero"
                              else ret (fdiv (fof_Z nr_cores) (fof_Z nr_nodes)));
      print ("(num_cores, num_nodes, cores_per_socket) = (" +:+
             join ", " [str_Z nr_cores; str_Z nr_nodes; str_Z (ftrunc cores_per_socket)] +:+ ")") ;;
      do retcode <- try_except (do p <- shell "setarch linux64 -R /bin/true" INHERIT; ret (returncode p))
                      COSError (fun _ => ret (-1));
      let setarch := if retcode =? 0 then "setarch linux64 -R" else "" in
      do p <- shell "uname -m" PIPE;
      let arch := rstrip_chars (hd "" (file_lines (universal_newlines (stdout p)))) nl in
      (if String.eqb arch "ppc64" then shell "ppc64_cpu --smt 2>&1" PIPE ;; ret tt else ret tt) ;;
      print "# core,total,fast,slow" ;;
      for_each data_points (run_point setarch cmd cores_per_socket)
  | _ => sys_exit 1
  end.
End RunTest.
End RunTest.

(** * postprocess.py *)

Module PostProcess.

(** ** The module csv, with the dialect excel *)

Inductive csv_state := StartRecord | StartField | InField | InQuoted | QuoteInQuoted | EatNewline.

Record csv := Csv { st : csv_state; field : string; fields : list string }.

Definition save (c : csv) (s : csv_state) : csv := Csv s "" (fields c ++ [field c]).
Definition add (c : csv) (s : csv_state) (ch : ascii) : csv := Csv s (field c +:+ String ch "") (fields c).
Definition go (c : csv) (s : csv_state) : csv := Csv s (field c) (fields c).

Definition is_newline (ch : ascii) : bool := Ascii.eqb ch LF || Ascii.eqb ch CR.
Definition quote : ascii := "034".

(** One character; [None] stands for the end of the line. *)
Definition csv_char (c : csv) (ch : option ascii) : option csv :=
  let start_field :=
    match ch with
    | None => Some (save c StartRecord)
    | Some x =>
        if is_newline x then Some (save c EatNewline)
        else if Ascii.eqb x quote then Some (go c InQuoted)
        else if Ascii.eqb x "," then Some (save c StartField)
        else Some (add c InField x)
    end in
  match st c with
  | StartRecord =>
      match ch with
      | None => Some c
      | Some x => if is_newline x then Some (go c EatNewline) else start_field
      end
  | StartField => start_field
  | InField =>
      match ch with
      | None => Some (save c StartRecord)
      | Some x =>
          if is_newline x then Some (save c EatNewline)
          else if Ascii.eqb x "," then Some (save c StartField)
          else Some (add c InField x)
      end
  | InQuoted =>
      match ch with
      | None => Some c
      | Some x => if Ascii.eqb x quote then Some (go c QuoteInQuoted) else Some (add c InQuoted x)
      end
  | QuoteInQuoted =>
      match ch with
      | None => Some (save c StartRecord)
      | Some x =>
          if Ascii.eqb x quote then Some (add c InQuoted x)
          else if Ascii.eqb x "," then Some (save c StartField)
          else if is_newline x then Some (save c EatNewline)
          else Some (add c InField x)
      end
  | EatNewline =>
      match ch with
      | None => Some (go c StartRecord)
      | Some x => if is_newline x then Some c else None
      end
  end.

Fixpoint csv_chars (c : csv) (s : string) : option csv :=
  match s with
  | EmptyString => csv_char c None
  | String x s' => match csv_char c (Some x) with Some c' => csv_chars c' s' | None => None end
  end.

Definition csv_start : csv := Csv StartRecord "" [].

(** The rows of the lines of a file; a quoted field may go over several lines, and one
    that is still open at the end is closed there. *)
Fixpoint csv_rows (lines : list string) (c : csv) : option (list (list string)) :=
  match lines with
  | [] =>
      match st c with
      | StartRecord => Some []
      | InQuoted => Some [fields (save c StartRecord)]
      | _ => if String.eqb (field c) "" then Some [] else Some [fields (save c StartRecord)]
      end
  | l :: lines' =>
      match csv_chars c l with
      | None => None
      | Some c' =>
          match st c' with
          | StartRecord => cons (fields c') <$> csv_rows lines' csv_start
          | _ => csv_rows lines' c'
          end
      end
  end.

(** ** The pages *)

Definition lines_text (l : list string) : string := sconcat (map (fun x => x +:+ nl) l).

Definition quotes (s : string) : string := String quote (s +:+ String quote "").

Definition template_head : string :=
  lines_text ["";
    "<html>";
    "<head>";
    "  <title>Will it scale?</title>";
    "  <script src=" +:+ quotes "https://cdn.plot.ly/plotly-latest.min.js" +:+ "></script>";
    "  <script src=" +:+ quotes "plot.js" +:+ "></script>";
    "</head>";
    "";
    "<body>";
    "  <div id=" +:+ quotes "plot" +:+ "></div>";
    "  <script>"] +:+ "    var data = ".

Definition template_tail : string := lines_text ["  </script>"; "</body>"; "</html>"].

(** [string.Template(template).substitute(data=data, title=title)] *)
Definition substitute (data title : string) : string :=
  template_head +:+ data +:+ ";" +:+ nl +:+ "    createPlot(data, '" +:+ title +:+ "');" +:+ nl +:+
  template_tail.

Definition repr_rows (rows : list (list string)) : string := "[" +:+ join ", " (map repr_list rows) +:+ "]".

Definition parse_data (csvfile : string) : IO (list (list string)) :=
  do text <- read_file csvfile;
  of_option (csv_rows (file_lines text) csv_start) CException
    "new-line character seen in unquoted field - do you need to open the file in universal-newline mode?".

Definition process (base : string) : IO unit :=
  do data <- parse_data (base +:+ ".csv");
  do title <- read_file (base +:+ ".title");
  let title := strip (hd "" (file_lines title)) in
  write_file (base +:+ ".html") (substitute (repr_rows data) title) ;;
  print ("Created " +:+ base +:+ ".html").

Definition for_each_file (filenames : list string) : IO unit :=
  for_each filenames (fun f => when (endswith f ".csv") (process f)).

(** Anything that is raised, or an exit, ends the program with status 1. *)
Definition or_exit (m : IO unit) : IO unit := fun w =>
  match m w with
  | (Ret _, w') => (Ret tt, w')
  | (_, w') => (Exit 1, w')
  end.

Definition postprocess_main : IO unit :=
  do w <- get;
  let files := match at_path w "." with Some (Dir es) => file_names es | _ => [] end in
  for_each files (fun f =>
    when (endswith f ".csv") (or_exit (process (hd "" (split1 f "."))))).
End PostProcess.

(** * Facts *)

Import PostProcess.

(** A field that needs no quotes. *)
Definition plain_field (s : string) : bool :=
  str_forall (fun c => negb (is_newline c || Ascii.eqb c quote || Ascii.eqb c ",")) s.

Lemma csv_in_field s t f fs :
  plain_field s = true →
  csv_chars (Csv InField f fs) (s +:+ t) = csv_chars (Csv InField (f +:+ s) fs) t.
Proof.
  revert f. induction s as [|c s IH]; intros f Hs; [by rewrite app_nil_str, app_str_nil|].
  apply andb_true_iff in Hs as [Hc Hs]. apply negb_true_iff in Hc.
  apply orb_false_iff in Hc as [[Hn Hq]%orb_false_iff Hk]. rewrite app_cons_str.
  cbn [csv_chars csv_char st]. rewrite Hn, Hk. unfold add. cbn [field fields].
  rewrite IH by done. by rewrite app_str_assoc.
Qed.

(** What is at the start of a record or of a later field. *)
Definition at_start (s : csv_state) : Prop := s = StartRecord ∨ s = StartField.

Lemma csv_first_char s c t fs :
  at_start s → plain_field (String c "") = true →
  csv_chars (Csv s "" fs) (String c t) = csv_chars (Csv InField (String c "") fs) t.
Proof.
  intros Hs Hc. apply andb_true_iff in Hc as [Hc _]. apply negb_true_iff in Hc.
  apply orb_false_iff in Hc as [[Hn Hq]%orb_false_iff Hk].
  destruct Hs as [->| ->]; cbn [csv_chars csv_char st]; by rewrite Hn, Hq, Hk.
Qed.

(** A field up to the comma after it. *)
Lemma csv_field_comma s x t fs :
  at_start s → plain_field x = true →
  csv_chars (Csv s "" fs) (x +:+ String "," t) = csv_chars (Csv StartField "" (fs ++ [x])) t.
Proof.
  intros Hs Hx. destruct x as [|c x].
  - rewrite app_nil_str. by destruct Hs as [->| ->].
  - apply andb_true_iff in Hx as [Hc Hx]. rewrite app_cons_str, csv_first_char;
      [|done|by apply andb_true_iff]. by rewrite csv_in_field.
Qed.

(** The last field, up to the end of the line. *)
Lemma csv_field_end s x fs :
  at_start s → plain_field x = true → (s = StartRecord → x ≠ "") →
  csv_chars (Csv s "" fs) (x +:+ nl) = Some (Csv StartRecord "" (fs ++ [x])).
Proof.
  intros Hs Hx Hne. destruct x as [|c x].
  - rewrite app_nil_str. destruct Hs as [->| ->]; [by destruct Hne|done].
  - apply andb_true_iff in Hx as [Hc Hx]. rewrite app_cons_str, csv_first_char;
      [|done|by apply andb_true_iff]. by rewrite csv_in_field.
Qed.

Lemma csv_row s x xs fs :
  at_start s → Forall (fun y => plain_field y = true) (x :: xs) → (s = StartRecord → x :: xs ≠ [""]) →
  csv_chars (Csv s "" fs) (join "," (x :: xs) +:+ nl) = Some (Csv StartRecord "" (fs ++ x :: xs)).
Proof.
  revert s x fs. induction xs as [|y xs IH]; intros s x fs Hs Hx Hne; apply Forall_cons in Hx as [Hx Hxs].
  - apply csv_field_end; [done..|]. intros E ->. by apply (Hne E).
  - rewrite join_cons by done. rewrite !app_str_assoc. change ("," +:+ ?t) with (String "," t).
    rewrite csv_field_comma by done. rewrite IH; [by rewrite <- app_assoc|by right|done|done].
Qed.

(** What the test writes is what the page shows: rows of fields without commas, quotes
    or ends of lines, printed one to a line with commas between the fields, are read back
    as the same rows, in particular the lines of numbers runtest prints. *)
Theorem csv_roundtrip (rows : list (list string)) :
  Forall (fun r => r ≠ [] ∧ r ≠ [""] ∧ Forall (fun x => plain_field x = true) r) rows →
  csv_rows (file_lines (sconcat (map (fun r => join "," r +:+ nl) rows))) csv_start = Some rows.
Proof.
  induction 1 as [|r rows (Hne & Hne' & Hr) Hrows IH]; [done|]. rewrite map_cons, sconcat_cons.
  rewrite app_str_assoc, file_lines_app_nl.
  - cbn [csv_rows]. destruct r as [|x xs]; [done|]. unfold csv_start at 1.
    rewrite csv_row by (done || by left). cbn [st app fields]. by rewrite IH.
  - clear Hne Hne' IH. induction Hr as [|x r Hx Hr IH]; [done|].
    assert (Hx' : no_char LF x = true).
    { clear IH. induction x as [|c x IHx]; [done|]. apply andb_true_iff in Hx as [Hc Hx].
      rewrite no_char_cons, IHx, andb_true_r by done. apply negb_true_iff in Hc.
      apply orb_false_iff in Hc as [[[Hc _]%orb_false_iff _]%orb_false_iff _].
      rewrite Ascii.eqb_sym. by rewrite Hc. }
    destruct r as [|y r]; [done|]. rewrite join_cons by done. rewrite !no_char_app, Hx', IH. done.
Qed.

Lemma csv_roundtrip_witness :
  csv_rows (file_lines ("# core,total,fast,slow" +:+ nl +:+ "448,12,7,5" +:+ nl)) csv_start =
    Some [["# core"; "total"; "fast"; "slow"]; ["448"; "12"; "7"; "5"]].
Proof.
  apply (csv_roundtrip [["# core"; "total"; "fast"; "slow"]; ["448"; "12"; "7"; "5"]]).
  apply (bool_decide_unpack _). vm_compute. exact I.
Defined.
