(* ===== verification/Reports.v ===== *)
(** The small reporting scripts: benchmarks/metis/parser.py, benchmarks/leveldb/plot.py and
    benchmarks/fxmark/bin/perfstdio.py. *)

From S2P Require Import Prelude PyStr PyRe PyDict PyPath Effect Os Instance Shell OptParse.
From Stdlib Require Import Sorted.

(** * metis/parser.py *)

Module Metis.

Definition cores : list Z := [1; 2; 4; 8; 14; 28; 56; 84; 112; 140; 168; 196; 224].

(** [Real:\s+(\d+)] *)
Definition real_re : re :=
  RSeq (rlit "Real:") (RSeq (rplus isspace) (RGroup 1 (rplus isdigit_char))).

Definition runtimes (text : string) : list string := map (fun m => group 1 m.2) (findall real_re text).

(** [print('%3d, %s' % (core, runtime[0]))], or an empty line when there is no result. *)
Definition print_core (dir : string) (core : Z) : IO unit :=
  try_except
    (do text <- read_file (dir +:+ "/result." +:+ str_Z core);
     do r <- of_option (head (runtimes text)) CIndexError "list index out of range";
     print (fmt_d 3 core +:+ ", " +:+ r))
    CException (fun _ => print "").

(** The first argument is looked up for every number of cores. *)
Definition main (argv : list string) : IO unit :=
  print "CORE, RUNTIME" ;;
  for_each cores (fun core =>
    do dir <- of_option (argv !! 1%nat) CIndexError "list index out of range";
    print_core dir core).
End Metis.

(** * leveldb/plot.py *)

Module LevelDb.

Definition number_re : re := rplus (fun c => isdigit_char c || is_char "." c).

(** [int(os.path.splitext(filename)[1][1:])] *)
Definition core_of (filename : string) : IO Z :=
  let t := slice_from (splitext filename).2 1 in
  of_option (py_int t) CValueError ("invalid literal for int() with base 10: " +:+ repr_str t).

(** The names of the files of a directory; none when it is not there. *)
Definition top_files (dir : string) : IO (list string) :=
  gets (fun w => match at_path w dir with Some (Dir es) => file_names es | _ => [] end).

Fixpoint insert_asc (n : Z) (l : list Z) : list Z :=
  match l with
  | [] => [n]
  | m :: l' => if m <? n then m :: insert_asc n l' else n :: l
  end.

(** [l.sort()] *)
Definition sort_asc (l : list Z) : list Z := foldr insert_asc [] l.

(** The first number of every line of the benchmark. *)
Definition stats_of (text : string) : IO (list string) :=
  map_each (List.filter (fun l => startswith l "readrandom") (file_lines text)) (fun l =>
    of_option (head (map fst (findall number_re l))) CIndexError "list index out of range").

Definition stat (stats : list string) (i : nat) : IO string :=
  of_option (stats !! i) CIndexError "list index out of range".

Definition print_core (dir : string) (i : Z) : IO unit :=
  do text <- read_file ("./" +:+ dir +:+ "/readrandom." +:+ str_Z i);
  do stats <- stats_of text;
  if i =? 1 then
    do a <- stat stats 0; do b <- stat stats 1;
    print (join ", " [str_Z i; a; "0"; b])
  else
    do a <- stat stats 0; do b <- stat stats 1; do c <- stat stats 2;
    print (join ", " [str_Z i; a; b; c]).

Definition main (argv : list string) : IO unit :=
  do dir <- of_option (argv !! 1%nat) CIndexError "list index out of range";
  do filenames <- top_files dir;
  do core <- map_each filenames core_of;
  print "#num_threads, fast, slow, tot ops/s" ;;
  for_each (sort_asc core) (print_core dir).
End LevelDb.

(** * perfstdio.py *)

Module PerfStdio.

Record PerfStdio := MkPerfStdio { dir_name : string; out_dir_name : string }.

Section PerfStdio.
Context `{Host} (CUR_DIR : string).

(** An output directory that is given is not used: the attribute is read before it is set. *)
Definition init_perfstdio (dir : string) (out_dir : option string) : IO PerfStdio :=
  let d := join2 CUR_DIR dir in
  match out_dir with
  | None => ret (MkPerfStdio d (join2 CUR_DIR d))
  | Some _ => raise CAttributeError "'PerfStdio' object has no attribute 'out_dir_name'"
  end.

(** The output of the command goes to a file. *)
Definition _exec_cmd (cmd : string) (out : string) : IO unit :=
  do p <- shell cmd PIPE;
  write_file out (stdout p).

Definition gen_file (p : PerfStdio) (f : string) : IO unit :=
  if endswith f "data" then
    print ("parsing " +:+ f +:+ " ...") ;;
    let out := join2 (out_dir_name p) (f +:+ ".stdio.txt") in
    write_file out "" ;;
    _exec_cmd ("sudo perf report -f --stdio -i " +:+ join2 (dir_name p) f) out ;;
    print ("parsing " +:+ f +:+ " ... done")
  else ret tt.

Definition gen_stdio (p : PerfStdio) : IO unit :=
  do isdir <- is_directory (out_dir_name p);
  when (negb isdir) (mkdir (out_dir_name p)) ;;
  do fs <- listdir (dir_name p);
  for_each fs (gen_file p).

Definition stdio_options : list opt_spec := map valued ["dir"; "out"].

Definition print_usage : IO unit :=
  print "Usage: perfstdio.py --dir [directory]" ;;
  print "                    --out [output directory]".

Definition main (argv : list string) : IO unit := fun w =>
  match parse_args stdio_options argv [] with
  | Raise e => (Raise e, w)
  | Exit c => (Exit c, w)
  | Ret vals =>
      match dget "dir" vals with
      | None => (print_usage ;; sys_exit 1) w
      | Some d => (do p <- init_perfstdio d (dget "out" vals); gen_stdio p) w
      end
  end.
End PerfStdio.
End PerfStdio.

(** * Facts *)

(** The option for the output directory always fails. *)
Lemma out_option_fails `{Host} CUR_DIR d o w :
  ∃ e, PerfStdio.main CUR_DIR ["--dir"; d; "--out"; o] w = (Raise e, w) ∧ ecls e = CAttributeError.
Proof. by eexists. Qed.

Lemma insert_asc_perm n l : LevelDb.insert_asc n l ≡ₚ n :: l.
Proof. induction l as [|m l IH]; simpl; [done|]. case_match; [|done]. rewrite IH. by constructor. Qed.

Lemma insert_asc_sorted n l : StronglySorted Z.le l → StronglySorted Z.le (LevelDb.insert_asc n l).
Proof.
  induction 1 as [|m l Hl IH Hm]; simpl; [repeat constructor|]. destruct (Z.ltb_spec m n).
  - constructor; [done|]. rewrite insert_asc_perm. constructor; [lia|done].
  - constructor; [by constructor|]. constructor; [done|]. eapply Forall_impl; [exact Hm|]. simpl. lia.
Qed.

(** The lines of the leveldb report are in the order of the number of threads. *)
Lemma sort_asc_spec l : LevelDb.sort_asc l ≡ₚ l ∧ StronglySorted Z.le (LevelDb.sort_asc l).
Proof.
  induction l as [|n l [IH1 IH2]]; simpl; [split; [done|constructor]|]. split.
  - by rewrite insert_asc_perm, IH1.
  - by apply insert_asc_sorted.
Qed.
