(* ===== verification/Plotter.v ===== *)
(** benchmarks/fxmark/bin/plotter.py: gnuplot scripts and data files from a log that FxParser
    has read: scalability, processor utilization, and a comparison of the devices. *)

From S2P Require Import Prelude PyStr PyDict PyPath Effect Os Instance PyFloat Shell OptParse FxParser.

(** * Data *)

Definition CPU_UTILS : list string := ["user.util"; "sys.util"; "idle.util"; "iowait.util"].
Definition EXCLUDED_FS : list string := [].
Definition PAPER_WIDTH : Z := 7.

(** The fields of a key. *)
Definition key_fields : list string := ["media"; "fs"; "bench"; "ncore"; "iomode"].

Fixpoint insert_str (s : string) (l : list string) : list string :=
  match l with
  | [] => [s]
  | x :: l' =>
      match String.compare s x with
      | Lt => s :: l
      | Eq => l
      | Gt => x :: insert_str s l'
      end
  end.

(** [sorted(list(set(l)))] *)
Definition sorted_set (l : list string) : list string := foldr insert_str [] l.

Abbreviation config := (list (string * list string)).

Record Plotter := MkPlotter {
  pl_log_file : string;
  pl_parser : Parser;
  pl_config : config;
  pl_ncore : Z;
  pl_out_dir : string;
  pl_out_file : string
}.

Definition set_out (dir file : string) (p : Plotter) : Plotter :=
  MkPlotter (pl_log_file p) (pl_parser p) (pl_config p) (pl_ncore p) dir file.

(** The values of each field of the keys; a log whose keys are all shorter has no fifth. *)
Definition _get_config (p : Parser) : option config :=
  let ks := map fst (search_data p []) in
  let values i := omap (fun k : key => k !! i) ks in
  mapM (fun e : nat * string => match values e.1 with [] => None | vs => Some (e.2, sorted_set vs) end)
    (imap pair key_fields).

Definition config_of (p : Plotter) (k : string) : list string := default [] (dget k (pl_config p)).

(** [int(None)] is a TypeError. *)
Definition config_int (p : Parser) (k : string) : IO Z :=
  match FxParser.get_config p k with
  | None => raise CTypeError "int() argument must be a string, a bytes-like object or a real number, not 'NoneType'"
  | Some t => of_option (py_int t) CValueError ("invalid literal for int() with base 10: " +:+ repr_str t)
  end.

Section Plotter.
Context `{Host} `{Float}.

Definition UNIT_WIDTH : float := fdiv (fof_Z 23) (fof_Z 10).
Definition UNIT_HEIGHT : float := fdiv (fof_Z 23) (fof_Z 10).
Definition UNIT : float := fof_Z 1000000.

Definition init_plotter (log_file : string) : IO Plotter := fun w =>
  match parse log_file (w, init_parser) with
  | (Ret _, (w', p)) =>
      (do c <- of_option (_get_config p) CIndexError "list index out of range";
       do chips <- config_int p "PHYSICAL_CHIPS";
       do cores <- config_int p "CORE_PER_CHIP";
       ret (MkPlotter log_file p c (chips * cores) "" "")) w'
  | (Raise e, (w', _)) => (Raise e, w')
  | (Exit c, (w', _)) => (Exit c, w')
  end.

Abbreviation PM := (OM Plotter).

(** Text at the end of an open file. *)
Definition append (file text : string) : IO unit :=
  do w <- get;
  write_file file (default "" (file_text w file) +:+ text).

(** [print(text, end="", file=self.out)] and [print(text, file=self.out)] *)
Definition out (text : string) : PM unit :=
  do p <- self;
  lift (append (pl_out_file p) text).
Definition outln (text : string) : PM unit := out (text +:+ nl).

Definition _gen_log_info : PM unit :=
  do p <- self;
  outln ("# LOG_FILE = " +:+ pl_log_file p) ;;
  for_each (p_config (pl_parser p)) (fun kv => outln ("# " +:+ kv.1 +:+ " = " +:+ kv.2)) ;;
  outln "".

Definition _get_pdf_name (p : Plotter) : string :=
  let outs := split (pl_out_file p) "." in
  let l := last_piece outs in
  basename (if String.eqb l "gp" || String.eqb l "gnuplot"
            then join "." (take (length outs - 1) outs) +:+ ".pdf" else pl_out_file p).

Definition _get_fs_list (p : Plotter) (media bench iomode : string) : PM (list string) :=
  let data := search_data (pl_parser p) [media; "*"; bench; "*"; iomode] in
  do fss <- map_each data (fun kd : key * kv =>
    of_option (kd.1 !! 1%nat) CIndexError "tuple index out of range");
  ret (sorted_set (List.filter (fun fs => negb (bool_decide (fs ∈ EXCLUDED_FS))) fss)).

Definition _gen_pdf (gp_file : string) : PM unit :=
  do p <- self;
  lift (shell ("cd " +:+ pl_out_dir p +:+ "; gnuplot " +:+ basename gp_file) INHERIT) ;; ret tt.

Definition dq (s : string) : string := String "034" (s +:+ String "034" "").
Definition sq (s : string) : string := "'" +:+ s +:+ "'".

Definition _plot_header : PM unit :=
  do p <- self;
  let n_unit := Z.of_nat (length (config_of p "media") * length (config_of p "bench")) in
  let n_col := Z.min n_unit (ftrunc (fdiv (fof_Z PAPER_WIDTH) UNIT_WIDTH)) in
  do ratio <- fdivide (fof_Z n_unit) (fof_Z n_col);
  let n_row := fceil ratio in
  outln ("set term pdfcairo size " +:+ frepr (fmul UNIT_WIDTH (fof_Z n_col)) +:+ "in," +:+
         frepr (fmul UNIT_HEIGHT (fof_Z n_row)) +:+ "in font ',10'") ;;
  outln ("set_out=" +:+ sq ("set output " +:+ dq ("`if test -z $OUT; then echo " +:+
         _get_pdf_name p +:+ "; else echo $OUT; fi`"))) ;;
  outln "eval set_out" ;;
  outln ("set multiplot layout " +:+ str_Z n_row +:+ "," +:+ str_Z n_col).

Definition _plot_footer : PM unit :=
  outln "" ;; outln "unset multiplot" ;; outln "set output".

(** ** Scalability *)

Definition _get_data_file (media bench iomode fs : string) : string :=
  media +:+ ":" +:+ fs +:+ ":" +:+ bench +:+ ":" +:+ iomode +:+ ".dat".
Definition _get_sc_style (fs : string) : string := "with lp ps 0.5".

Definition field_float (d : kv) (k : string) : IO float :=
  do t <- of_option (dget k d) CKeyError (repr_str k); to_float t.

(** The text of one point. *)
Definition sc_point (t : string) (d : kv) : IO string :=
  do a <- field_float d "works/sec"; do x <- fdivide a UNIT;
  do b <- field_float d "real.sec"; do y <- fdivide b UNIT;
  do c <- field_float d "user.sec"; do z <- fdivide c UNIT;
  ret (join " " [t; frepr x; frepr y; frepr z]).

(** The points of one curve, up to the first that needs more cores than there are. *)
Fixpoint sc_points (file : string) (ncore : Z) (data : list (key * kv)) : IO unit :=
  match data with
  | [] => ret tt
  | (_, d) :: data' =>
      do t <- of_option (dget "ncpu" d) CKeyError (repr_str "ncpu");
      do n <- of_option (py_int t) CValueError ("invalid literal for int() with base 10: " +:+ repr_str t);
      if ncore <? n then ret tt
      else
        do l <- sc_point t d;
        append file (l +:+ nl) ;;
        sc_points file ncore data'
  end.

Definition sc_head (media bench iomode fs : string) : string :=
  "# " +:+ join ":" [media; fs; bench; iomode; "*"] +:+ nl +:+ "# core, total, fast, slow" +:+ nl.

Definition sc_file (media bench iomode fs : string) : PM unit :=
  do p <- self;
  let data := search_data (pl_parser p) [media; fs; bench; "*"; iomode] in
  match data with
  | [] => ret tt
  | _ =>
      let data_file := join2 (pl_out_dir p) (_get_data_file media bench iomode fs) in
      lift (write_file data_file "") ;;
      lift (append data_file (sc_head media bench iomode fs)) ;;
      lift (sc_points data_file (pl_ncore p) data)
  end.

Definition curve (media bench iomode fs : string) : string :=
  sq (_get_data_file media bench iomode fs) +:+ " using 1:2 title " +:+ sq fs +:+ " " +:+ _get_sc_style fs.

Definition _plot_sc_data (media bench iomode : string) : PM unit :=
  do p <- self;
  do fs_list <- _get_fs_list p media bench iomode;
  match fs_list with
  | [] => ret tt
  | fs :: rest =>
      for_each (fs :: rest) (sc_file media bench iomode) ;;
      outln "" ;;
      outln ("set title " +:+ sq (join ":" [media; bench; iomode])) ;;
      outln "set xlabel '# cores'" ;;
      outln "set ylabel 'M ops/sec'" ;;
      out ("plot [0:][0:] " +:+ curve media bench iomode fs) ;;
      for_each rest (fun f => out (", " +:+ curve media bench iomode f)) ;;
      outln ""
  end.

(** ** Utilization *)

Definition util_name (u : string) : string := hd "" (split u ".").

(** The values of one file system; the test for no data never holds, so its absence is an
    IndexError. *)
Definition util_line (media bench iomode ncore fs : string) : PM unit :=
  do p <- self;
  match search_data (pl_parser p) [media; fs; bench; ncore; iomode] with
  | [] => raise CIndexError "list index out of range"
  | (_, d) :: _ =>
      out ("  " +:+ dq fs) ;;
      for_each CPU_UTILS (fun util =>
        do v <- of_option (dget util d) CKeyError (repr_str util); out (" " +:+ v)) ;;
      outln ""
  end.

Definition util_preamble (media bench iomode ncore : string) : list string :=
  [""; "set grid y"; "set style data histograms"; "set style histogram rowstacked"; "set boxwidth 0.5";
   "set style fill solid 1.0 border -1"; "set ytics 10"; "";
   "set title " +:+ sq (join ":" [media; bench; "*"; ncore; iomode]);
   "set xlabel ''"; "set ylabel 'CPU utilization'"; "set yrange [0:100]"; "set xtics rotate by -45";
   "set key out horiz"; "set key center top"; "";
   "# " +:+ join ":" [media; "*"; bench; ncore]].

Definition _plot_util_data (media : string) (ncore : Z) (bench iomode : string) : PM unit :=
  let nc := str_Z ncore in
  for_each (util_preamble media bench iomode nc) outln ;;
  out ("plot '-' using 2:xtic(1) title " +:+ sq (util_name (hd "" CPU_UTILS))) ;;
  for_each (imap pair (tail CPU_UTILS)) (fun e =>
    out (", '' using " +:+ str_nat (e.1 + 3) +:+ " title " +:+ sq (util_name e.2))) ;;
  outln "" ;;
  do p <- self;
  do fs_list <- _get_fs_list p media bench iomode;
  for_each CPU_UTILS (fun _ =>
    outln ("  # " +:+ repr_list CPU_UTILS) ;;
    for_each fs_list (util_line media bench iomode nc) ;;
    outln "e").

(** ** The plots *)

(** [self.out = open(...)] in a directory made for it *)
Definition open_out (out_dir name : string) : PM unit :=
  set_self (set_out out_dir "") ;;
  lift (shell ("mkdir -p " +:+ out_dir) INHERIT) ;;
  set_self (set_out out_dir (join2 out_dir name)) ;;
  lift (write_file (join2 out_dir name) "").

Definition for_configs (f : string → string → string → PM unit) : PM unit :=
  do p <- self;
  for_each (config_of p "media") (fun media =>
    for_each (config_of p "bench") (fun bench =>
      for_each (config_of p "iomode") (fun iomode => f media bench iomode))).

Definition plot (out_dir name : string) (f : string → string → string → PM unit) : PM unit :=
  open_out out_dir name ;;
  _gen_log_info ;;
  _plot_header ;;
  for_configs f ;;
  _plot_footer ;;
  _gen_pdf (join2 out_dir name).

Definition plot_sc (out_dir : string) : PM unit := plot out_dir "sc.gp" _plot_sc_data.

Definition plot_util (ncore : Z) (out_dir : string) : PM unit :=
  plot out_dir ("util." +:+ str_Z ncore +:+ ".gp")
    (fun media bench iomode => _plot_util_data media ncore bench iomode).

(** ** The comparison *)

(** The list of file systems is asked for without the kind of I/O, which has no default. *)
Definition _gen_cmpdev_for_bench (ncore : Z) (bench : string) : PM unit :=
  outln ("## " +:+ bench) ;;
  outln "# fs ssd-rel hdd-rel mem ssd hdd" ;;
  raise CTypeError "_get_fs_list() missing 1 required positional argument: 'iomode'".

Definition gen_cmpdev (ncore : Z) (out_dir : string) : PM unit :=
  open_out out_dir ("cmpdev." +:+ str_Z ncore +:+ ".dat") ;;
  do p <- self;
  for_each (config_of p "bench") (_gen_cmpdev_for_bench ncore).

(** * The program *)

Definition plotter_options : list opt_spec := map valued ["log"; "ty"; "out"; "ncore"].

Definition print_usage : IO unit :=
  print "Usage: plotter.py --log [log file] " ;;
  print "                  --gp [gnuplot output]" ;;
  print "                  --ty [sc | util]" ;;
  print "                  --ncore [# core (only for util)]".

(** A method of the object at the end of the program. *)
Definition on_plotter (p : Plotter) (m : PM unit) : IO unit := fun w =>
  let '(o, (w', _)) := m (w, p) in (o, w').

Definition plotter_main (help_text : string) (argv : list string) : IO unit := fun w =>
  match parse_args plotter_options argv [("ncore", "1")] with
  | Raise e => (Raise e, w)
  | Exit c => (Exit c, w)
  | Ret vals =>
      match missing plotter_options vals with
      | Some o => (print ("Missing options: " +:+ o) ;; print help_text ;; sys_exit 1) w
      | None =>
          let v := opt_value vals in
          let ncore :=
            of_option (py_int (v "ncore")) CValueError
              ("invalid literal for int() with base 10: " +:+ repr_str (v "ncore")) in
          (do p <- init_plotter (v "log");
           if String.eqb (v "ty") "sc" then on_plotter p (plot_sc (v "out"))
           else if String.eqb (v "ty") "util" then do n <- ncore; on_plotter p (plot_util n (v "out"))
           else if String.eqb (v "ty") "cmpdev" then do n <- ncore; on_plotter p (gen_cmpdev n (v "out"))
           else print_usage ;; sys_exit 1) w
      end
  end.
End Plotter.

(** * Facts *)

(** The comparison of the devices never works: with any benchmark in the log it ends in a
    TypeError after the first two lines. *)
Lemma cmpdev_fails `{Host} `{Float} ncore bench s o s' :
  _gen_cmpdev_for_bench ncore bench s = (o, s') → ∀ u, o ≠ Ret u.
Proof.
  unfold _gen_cmpdev_for_bench. intros E u ->. apply bind_Ret_inv in E as (? & ? & _ & E).
  by apply bind_Ret_inv in E as (? & ? & _ & ?).
Qed.

Section Points.
Context `{Host} `{Float}.

(** A record of the log with everything a point needs. *)
Definition plottable (e : key * kv) (n : Z) (line : string) : Prop :=
  ∃ t, dget "ncpu" e.2 = Some t ∧ py_int t = Some n ∧ ∀ w, sc_point t e.2 w = (Ret line, w).

Lemma append_run file text w t :
  file_text w file = Some t →
  ∃ r, append file text w = (Ret tt, set_root r w) ∧ file_text (set_root r w) file = Some (t +:+ text).
Proof.
  intros Hf. destruct (file_at _ _ _ Hf) as [m Hm].
  destruct (write_file_existing _ _ (t +:+ text) _ _ Hm) as (r & E & Hr). exists r. split.
  - unfold append, bind at 1, get. by rewrite Hf.
  - unfold file_text. by rewrite (at_path_put _ _ _ _ Hr).
Qed.

(** A curve shows the measurements that fit the machine: for records with all their
    fields, the points written to the data file are those of the records before the first
    that uses more processors than the machine has cores, in their order, and nothing
    after it. *)
Theorem sc_points_within file ncore data ns lines w t :
  Forall2 (fun e nl => plottable e nl.1 nl.2) data (zip ns lines) → length ns = length lines →
  file_text w file = Some t →
  ∃ w' k, sc_points file ncore data w = (Ret tt, w') ∧
    file_text w' file = Some (t +:+ sconcat (map (fun l => l +:+ nl) (take k lines))) ∧
    Forall (fun n => n ≤ ncore) (take k ns) ∧ (∀ n, ns !! k = Some n → ncore < n).
Proof.
  revert ns lines w t. induction data as [|e data IH]; intros ns lines w t Hd Hl Hf.
  - apply Forall2_nil_inv_l in Hd. exists w, 0%nat. split_and!; [done|by rewrite app_str_nil|constructor|].
    destruct ns, lines; done.
  - destruct ns as [|n ns], lines as [|l lines]; try done; [by apply Forall2_nil_inv_r in Hd|].
    apply Forall2_cons in Hd as [(tx & H1 & H2 & H3) Hd]. simpl in H1, H2, H3. destruct e as [k0 d].
    cbn [sc_points]. cbn [snd] in *. rewrite H1, (bind_Ret _ _ _ tx w) by done.
    rewrite H2, (bind_Ret _ _ _ n w) by done.
    destruct (Z.ltb_spec ncore n) as [Hlt|Hle].
    + exists w, 0%nat. split_and!; [done|by rewrite app_str_nil|constructor|]. by intros n' [= <-].
    + rewrite (bind_Ret _ _ _ _ _ (H3 w)). destruct (append_run file (l +:+ nl) w t Hf) as (r & E & Hf').
      rewrite (bind_Ret _ _ _ _ _ E). destruct (IH ns lines _ _ Hd ltac:(simpl in Hl; lia) Hf') as (w' & k & E' & Ht & Hk & Hn).
      exists w', (S k). split_and!; [done| |by constructor|done].
      rewrite Ht. cbn [take map]. by rewrite sconcat_cons, !app_str_assoc.
Qed.
End Points.

Definition demo_record (ncpu works : string) : key * kv :=
  (["mem"], [("ncpu", ncpu); ("works/sec", works); ("real.sec", "30000000"); ("user.sec", "2000000")]).

Lemma sc_points_within_witness :
  ∃ w' k, sc_points (H0 := whole_float) "/work/out" 4
            [demo_record "1" "5000000"; demo_record "4" "9000000"; demo_record "8" "11000000"] demo_world =
            (Ret tt, w') ∧
    file_text w' "/work/out" = Some (sconcat (map (fun l => l +:+ nl) (take k ["1 5 30 2"; "4 9 30 2"; "8 11 30 2"]))) ∧
    Forall (fun n => n ≤ 4) (take k [1; 4; 8]) ∧ (∀ n, [1; 4; 8] !! k = Some n → 4 < n).
Proof.
  apply (sc_points_within (H0 := whole_float) "/work/out" 4
           [demo_record "1" "5000000"; demo_record "4" "9000000"; demo_record "8" "11000000"]
           [1; 4; 8] ["1 5 30 2"; "4 9 30 2"; "8 11 30 2"] demo_world "").
  - repeat constructor; eexists; (split; [reflexivity|]); (split; [vm_compute; reflexivity|]);
      intros w; vm_compute; reflexivity.
  - reflexivity.
  - vm_compute. reflexivity.
Defined.
