(* ===== verification/B85.v ===== *)
(** scripts/get-pip.py: the decoder of base85 the script brings along for versions of Python
    whose library has none. *)

From S2P Require Import Prelude PyStr PyDict PyPath Effect Os.
From Stdlib Require Import Zdiv.

(** * base85 *)

Abbreviation bytes := (list ascii).

Definition byte_Z (c : ascii) : Z := Z.of_N (code c).
Definition Z_byte (z : Z) : ascii := ascii_of_N (Z.to_N z).

Definition _b85alphabet : bytes :=
  String.list_ascii_of_string
    "0123456789ABCDEFGHIJKLMNOPQRSTUVWXYZabcdefghijklmnopqrstuvwxyz!#$%&()*+-;<=>?@^_`{|}~".

(** The bytes as numbers, which is what both versions of Python iterate over. *)
Definition iterbytes (buf : bytes) : list Z := map byte_Z buf.

(** The table of the digits: 256 entries, [None] for a byte that is none. *)
Definition _b85dec : list (option Z) :=
  foldl (fun t e => <[Z.to_nat e.2 := Some (Z.of_nat e.1)]> t) (replicate 256 None)
    (imap (fun i c => (i, c)) (iterbytes _b85alphabet)).

Definition b85dec_at (c : Z) : option Z := default None (_b85dec !! Z.to_nat c).

(** [struct.Struct('!I').pack]: four bytes, the highest first; [None] is [struct.error]. *)
Definition packI (n : Z) : option bytes :=
  if (0 <=? n) && (n <? 2 ^ 32)
  then Some (map Z_byte [n / 2 ^ 24; n / 2 ^ 16 mod 256; n / 2 ^ 8 mod 256; n mod 256])
  else None.

(** The number of five digits; [inr] is the place of the first that is none. *)
Fixpoint digits_from (j : nat) (acc : Z) (l : list Z) : Z + nat :=
  match l with
  | [] => inl acc
  | c :: l' => match b85dec_at c with Some d => digits_from (S j) (acc * 85 + d) l' | None => inr j end
  end.

Definition digits (chunk : bytes) : Z + nat := digits_from O 0 (iterbytes chunk).

(** The loop over the chunks; [i] is where the next one starts. *)
Fixpoint decode_chunks (i : nat) (b : bytes) : outcome bytes :=
  match b with
  | c0 :: c1 :: c2 :: c3 :: c4 :: rest =>
      match digits [c0; c1; c2; c3; c4] with
      | inr j => Raise (Exn CValueError ("bad base85 character at position " +:+ str_nat (i + j)))
      | inl acc =>
          match packI acc with
          | None => Raise (Exn CValueError ("base85 overflow in hunk starting at byte " +:+ str_nat i))
          | Some four =>
              match decode_chunks (i + 5) rest with
              | Ret out => Ret (four ++ out)
              | e => e
              end
          end
      end
  | _ => Ret []
  end.

Definition b85decode (b : bytes) : outcome bytes :=
  let padding := Z.to_nat ((- Z.of_nat (length b)) mod 5) in
  match decode_chunks 0 (b ++ replicate padding "~"%char) with
  | Ret result => Ret (if (padding =? 0)%nat then result else take (length result - padding) result)
  | e => e
  end.

(** * Facts *)

(** ** Decoding inverts encoding *)

(** The reference: four bytes as a number in five digits, the highest first; the last group
    is filled up with zeros and loses as many digits. *)
Definition enc_digit (d : Z) : ascii := nth (Z.to_nat d) _b85alphabet "0"%char.

Definition enc_group (n : Z) : bytes :=
  map enc_digit [n / 85 ^ 4; n / 85 ^ 3 mod 85; n / 85 ^ 2 mod 85; n / 85 mod 85; n mod 85].

Definition group_value (a b c d : ascii) : Z :=
  byte_Z a * 2 ^ 24 + byte_Z b * 2 ^ 16 + byte_Z c * 2 ^ 8 + byte_Z d.

Definition zero : ascii := "000".

Fixpoint b85encode (b : bytes) : bytes :=
  match b with
  | a :: b0 :: c :: d :: rest => enc_group (group_value a b0 c d) ++ b85encode rest
  | [a; b0; c] => take 4 (enc_group (group_value a b0 c zero))
  | [a; b0] => take 3 (enc_group (group_value a b0 zero zero))
  | [a] => take 2 (enc_group (group_value a zero zero zero))
  | [] => []
  end.

(** The digit a byte is, and its table. *)
Definition digit_of (c : ascii) : option Z :=
  (fun r => Z.of_nat r.1) <$> list_find (fun x => x = c) _b85alphabet.

Lemma table_digit c : b85dec_at (byte_Z c) = digit_of c.
Proof. destruct c as [[] [] [] [] [] [] [] []]; vm_compute; reflexivity. Qed.

Lemma dec_enc d : 0 ≤ d < 85 → digit_of (enc_digit d) = Some d.
Proof.
  intros Hd. assert (Hall : Forall (fun k => digit_of (enc_digit (Z.of_nat k)) = Some (Z.of_nat k)) (seq 0 85)).
  { apply (bool_decide_unpack _). vm_compute. exact I. }
  rewrite Forall_forall in Hall. specialize (Hall (Z.to_nat d)).
  rewrite Z2Nat.id in Hall by lia. apply Hall, elem_of_seq. lia.
Qed.

Lemma byte_Z_range c : 0 ≤ byte_Z c < 256.
Proof. unfold byte_Z, code. pose proof (N_ascii_bounded c). lia. Qed.

Lemma Z_byte_Z c : Z_byte (byte_Z c) = c.
Proof. unfold Z_byte, byte_Z, code. rewrite N2Z.id. apply ascii_N_embedding. Qed.

(** Five digits back to their number. *)
Lemma digits_enc d4 d3 d2 d1 d0 :
  0 ≤ d4 < 85 → 0 ≤ d3 < 85 → 0 ≤ d2 < 85 → 0 ≤ d1 < 85 → 0 ≤ d0 < 85 →
  digits (map enc_digit [d4; d3; d2; d1; d0]) = inl (d4 * 85 ^ 4 + d3 * 85 ^ 3 + d2 * 85 ^ 2 + d1 * 85 + d0).
Proof.
  intros. unfold digits. cbn [iterbytes map digits_from]. rewrite !table_digit, !dec_enc by done. f_equal. lia.
Qed.

Lemma base85_digits n :
  0 ≤ n < 2 ^ 32 →
  0 ≤ n / 85 ^ 4 < 85 ∧ n / 85 ^ 4 * 85 ^ 4 + n / 85 ^ 3 mod 85 * 85 ^ 3 + n / 85 ^ 2 mod 85 * 85 ^ 2 +
    n / 85 mod 85 * 85 + n mod 85 = n.
Proof. intros Hn. simpl Z.pow in *. Z.to_euclidean_division_equations. lia. Qed.

(** The digits of a number, with the last [k] replaced by the highest digit. *)
Lemma digits_filled n k :
  0 ≤ n < 2 ^ 32 → (k ≤ 3)%nat →
  digits (take (5 - k) (enc_group n) ++ replicate k "~"%char) =
    inl (n - n mod 85 ^ Z.of_nat k + (85 ^ Z.of_nat k - 1)).
Proof.
  intros Hn Hk. destruct (base85_digits n Hn) as [H4 Hsum]. unfold enc_group.
  assert (Hm : ∀ x, 0 ≤ x mod 85 < 85) by (intros x; apply Z.mod_pos_bound; lia).
  change "~"%char with (enc_digit 84).
  assert (Hc : k = 0%nat ∨ k = 1%nat ∨ k = 2%nat ∨ k = 3%nat) by lia.
  destruct Hc as [->|[->|[->| ->]]]; cbn [take map replicate app Nat.sub];
    (etransitivity; [apply (digits_enc _ _ _ _ _); first [done|apply Hm|lia]|]); f_equal;
    simpl Z.pow in *; simpl Z.of_nat; Z.to_euclidean_division_equations; lia.
Qed.

Lemma group_value_range a b c d : 0 ≤ group_value a b c d < 2 ^ 32.
Proof.
  unfold group_value. pose proof (byte_Z_range a). pose proof (byte_Z_range b).
  pose proof (byte_Z_range c). pose proof (byte_Z_range d). simpl Z.pow. lia.
Qed.

(** Four bytes of a number that lies below the next multiple of the [k] low bytes. *)
Lemma packI_filled a b c d e k :
  (k ≤ 3)%nat → 0 ≤ e < 256 ^ Z.of_nat k → group_value a b c d mod 256 ^ Z.of_nat k = 0 →
  ∃ junk, packI (group_value a b c d + e) = Some (take (4 - k) [a; b; c; d] ++ junk) ∧ length junk = k.
Proof.
  intros Hk He Hz. pose proof (byte_Z_range a) as Ha. pose proof (byte_Z_range b) as Hb.
  pose proof (byte_Z_range c) as Hc. pose proof (byte_Z_range d) as Hd.
  set (n := group_value a b c d + e).
  assert (Hn : 0 ≤ n < 2 ^ 32 ∧ (k ≤ 3)%nat ∧ n / 2 ^ 24 = byte_Z a ∧ ((k ≤ 2)%nat → n / 2 ^ 16 mod 256 = byte_Z b) ∧
    ((k ≤ 1)%nat → n / 2 ^ 8 mod 256 = byte_Z c) ∧ (k = 0%nat → n mod 256 = byte_Z d)).
  { unfold n, group_value in *.
    assert (Hk' : k = 0%nat ∨ k = 1%nat ∨ k = 2%nat ∨ k = 3%nat) by lia.
    destruct Hk' as [->|[->|[->| ->]]]; simpl Z.pow in *; simpl Z.of_nat in *; split_and!; try lia;
      intros; Z.to_euclidean_division_equations; lia. }
  destruct Hn as (Hr & _ & H3 & H2 & H1 & H0). unfold packI.
  rewrite (proj2 (Z.leb_le _ _)), (proj2 (Z.ltb_lt _ _)) by lia. cbn [andb map].
  assert (Hk' : k = 0%nat ∨ k = 1%nat ∨ k = 2%nat ∨ k = 3%nat) by lia.
  destruct Hk' as [->|[->|[->| ->]]]; eexists; cbn [take app Nat.sub];
    rewrite H3, ?H2, ?H1, ?H0 by lia; rewrite !Z_byte_Z; by split.
Qed.

Lemma decode_group a b c d k i rest :
  (k ≤ 3)%nat → group_value a b c d mod 256 ^ Z.of_nat k = 0 →
  ∃ junk, length junk = k ∧
    decode_chunks i ((take (5 - k) (enc_group (group_value a b c d)) ++ replicate k "~"%char) ++ rest) =
      match decode_chunks (i + 5) rest with
      | Ret out => Ret ((take (4 - k) [a; b; c; d] ++ junk) ++ out)
      | e => e
      end.
Proof.
  intros Hk Hz. pose proof (group_value_range a b c d) as Hv. set (v := group_value a b c d) in *.
  pose proof (digits_filled v k Hv Hk) as Hd.
  set (e := 85 ^ Z.of_nat k - 1 - v mod 85 ^ Z.of_nat k).
  replace (v - v mod 85 ^ Z.of_nat k + (85 ^ Z.of_nat k - 1)) with (v + e) in Hd by (unfold e; lia).
  assert (He : 0 ≤ e < 256 ^ Z.of_nat k).
  { pose proof (Z.mod_pos_bound v (85 ^ Z.of_nat k) ltac:(apply Z.pow_pos_nonneg; lia)).
    pose proof (Z.pow_le_mono_l 85 256 (Z.of_nat k) ltac:(lia)). unfold e. lia. }
  destruct (packI_filled a b c d e k Hk He Hz) as (junk & Hp & Hj). fold v in Hp.
  exists junk. split; [done|]. revert Hd. unfold enc_group.
  assert (Hk' : k = 0%nat ∨ k = 1%nat ∨ k = 2%nat ∨ k = 3%nat) by lia.
  destruct Hk' as [->|[->|[->| ->]]]; cbn [take map replicate app Nat.sub decode_chunks];
    intros ->; rewrite Hp; reflexivity.
Qed.

Ltac group_zero :=
  unfold group_value; change (byte_Z zero) with 0; simpl Z.pow; simpl Z.of_nat;
  Z.to_euclidean_division_equations; lia.

(** The digits missing in the last group. *)
Definition pad_of (b : bytes) : nat := (3 - (length b + 3) mod 4)%nat.

Lemma pad_of_4 a b c d (rest : bytes) : pad_of (a :: b :: c :: d :: rest) = pad_of rest.
Proof.
  unfold pad_of. cbn [length]. replace (S (S (S (S (length rest)))) + 3)%nat with (length rest + 3 + 1 * 4)%nat by lia.
  by rewrite Nat.Div0.mod_add.
Qed.

(** Lists in groups of four. *)
Lemma groups_ind (P : bytes → Prop) :
  P [] → (∀ a, P [a]) → (∀ a b, P [a; b]) → (∀ a b c, P [a; b; c]) →
  (∀ a b c d rest, P rest → P (a :: b :: c :: d :: rest)) → ∀ l, P l.
Proof.
  intros H0 H1 H2 H3 H4. fix IH 1. intros [|a [|b [|c [|d rest]]]]; [done|apply H1|apply H2|apply H3|apply H4, IH].
Qed.

Lemma decode_group_last a b c d k i :
  (k ≤ 3)%nat → group_value a b c d mod 256 ^ Z.of_nat k = 0 →
  ∃ junk, decode_chunks i (take (5 - k) (enc_group (group_value a b c d)) ++ replicate k "~"%char) =
      Ret (take (4 - k) [a; b; c; d] ++ junk) ∧ length junk = k.
Proof.
  intros Hk Hz. destruct (decode_group a b c d k i [] Hk Hz) as (junk & Hj & E).
  rewrite app_nil_r in E. exists junk. split; [|done]. etrans; [exact E|]. simpl. by rewrite app_nil_r.
Qed.

Lemma decode_encode bs i :
  ∃ junk, decode_chunks i (b85encode bs ++ replicate (pad_of bs) "~"%char) = Ret (bs ++ junk) ∧
    length junk = pad_of bs ∧ ∃ q, (length (b85encode bs) + pad_of bs)%nat = (5 * q)%nat.
Proof.
  revert i. induction bs as [|a|a b|a b c|a b c d rest IH] using groups_ind; intros i.
  - exists []. split_and!; [done..|]. by exists 0%nat.
  - destruct (decode_group_last a zero zero zero 3 i) as (junk & E & Hj); [lia|group_zero|].
    exists junk. split_and!; [exact E|exact Hj|by exists 1%nat].
  - destruct (decode_group_last a b zero zero 2 i) as (junk & E & Hj); [lia|group_zero|].
    exists junk. split_and!; [exact E|exact Hj|by exists 1%nat].
  - destruct (decode_group_last a b c zero 1 i) as (junk & E & Hj); [lia|group_zero|].
    exists junk. split_and!; [exact E|exact Hj|by exists 1%nat].
  - destruct (IH (i + 5)%nat) as (junk & E & Hj & q & Hq). rewrite pad_of_4. exists junk.
    destruct (decode_group a b c d 0 i (b85encode rest ++ replicate (pad_of rest) "~"%char))
      as (j0 & Hj0 & E0); [lia|by rewrite Z.mod_1_r|].
    cbn [b85encode]. cbn [replicate] in E0. rewrite app_nil_r, E in E0.
    change (take (5 - 0) (enc_group (group_value a b c d))) with (enc_group (group_value a b c d)) in E0.
    split_and!; [|done|].
    + rewrite <- app_assoc, E0. destruct j0; [done|done].
    + exists (S q). rewrite length_app. change (length (enc_group (group_value a b c d))) with 5%nat. lia.
Qed.

Lemma b85_decodes bs : b85decode (b85encode bs) = Ret bs.
Proof.
  destruct (decode_encode bs 0) as (junk & E & Hj & q & Hq). unfold b85decode.
  assert (Hp : (- Z.of_nat (length (b85encode bs))) mod 5 = Z.of_nat (pad_of bs)).
  { symmetry. apply Z.mod_unique with (q := - Z.of_nat q); [left|lia].
    unfold pad_of. pose proof (Nat.mod_upper_bound (length bs + 3) 4). lia. }
  rewrite Hp, Nat2Z.id, E. destruct (Nat.eqb_spec (pad_of bs) 0) as [Hz|Hz].
  - rewrite Hz in Hj. apply nil_length_inv in Hj as ->. by rewrite app_nil_r.
  - rewrite length_app, Hj. replace (length bs + pad_of bs - pad_of bs)%nat with (length bs) by lia.
    by rewrite take_app_length.
Qed.

(** C29: the decoder of the script inverts base85: for any bytes, decoding their standard
    encoding returns them, also when their number is no multiple of four. *)
Theorem b85_roundtrip bs : b85decode (b85encode bs) = Ret bs.
Proof. apply b85_decodes. Qed.

(** ** What decoding accepts *)

Definition is_digit (c : ascii) : Prop := digit_of c ≠ None.

#[export] Instance is_digit_dec c : Decision (is_digit c).
Proof. unfold is_digit. apply _. Defined.

(** The number of the [k]-th group of five. *)
Definition group_at (l : bytes) (k : nat) : Z + nat := digits (take 5 (drop (5 * k) l)).

(** The first byte that is no digit, or the number of the digits. *)
Lemma digits_spec l :
  match digits l with
  | inl v => Forall is_digit l ∧ 0 ≤ v
  | inr j => ∃ c, l !! j = Some c ∧ ¬ is_digit c ∧ Forall is_digit (take j l)
  end.
Proof.
  unfold digits.
  assert (Hgen : ∀ l j acc, 0 ≤ acc →
    match digits_from j acc (iterbytes l) with
    | inl v => Forall is_digit l ∧ 0 ≤ v
    | inr i => (j ≤ i)%nat ∧ ∃ c, l !! (i - j)%nat = Some c ∧ ¬ is_digit c ∧ Forall is_digit (take (i - j) l)
    end).
  2: { specialize (Hgen l O 0 ltac:(lia)). destruct (digits_from O 0 (iterbytes l)) as [v|i]; [done|].
       rewrite Nat.sub_0_r in Hgen. apply Hgen. }
  clear l. induction l as [|c l IH]; intros j acc Ha; [by split|]. cbn [iterbytes map digits_from].
  rewrite table_digit. destruct (digit_of c) as [d|] eqn:Hc.
  - assert (Hd : is_digit c) by (unfold is_digit; by rewrite Hc).
    assert (Hd0 : 0 ≤ d).
    { unfold digit_of in Hc. destruct (list_find _ _) as [[n x]|]; simplify_eq/=. lia. }
    specialize (IH (S j) (acc * 85 + d) ltac:(lia)). fold (iterbytes l).
    destruct (digits_from (S j) (acc * 85 + d) (iterbytes l)) as [v|i]; [destruct IH; split; [by constructor|lia]|].
    destruct IH as (Hi & c' & H1 & H2 & H3). split; [lia|]. exists c'.
    replace (i - j)%nat with (S (i - S j)) by lia. split_and!; [done|done|simpl; by constructor].
  - split; [lia|]. exists c. rewrite Nat.sub_diag. split_and!; [done|by unfold is_digit; rewrite Hc; intros []|constructor].
Qed.

Lemma packI_range n : 0 ≤ n → match packI n with Some four => length four = 4%nat ∧ n < 2 ^ 32 | None => 2 ^ 32 ≤ n end.
Proof.
  intros Hn. unfold packI. destruct (Z.leb_spec 0 n), (Z.ltb_spec n (2 ^ 32)); simpl in *; try lia; done.
Qed.

Definition bad_character (e : exn) (p : nat) : Prop := e = Exn CValueError ("bad base85 character at position " +:+ str_nat p).
Definition overflow (e : exn) (p : nat) : Prop := e = Exn CValueError ("base85 overflow in hunk starting at byte " +:+ str_nat p).

(** The outcome over [n] whole groups that start at position [i]. *)
Definition chunks_outcome (i : nat) (l : bytes) (n : nat) (o : outcome bytes) : Prop :=
  match o with
  | Ret r => length r = (4 * n)%nat ∧ Forall is_digit l ∧
             ∀ k, (k < n)%nat → ∃ v, group_at l k = inl v ∧ v < 2 ^ 32
  | Raise e =>
      (∃ p c, bad_character e (i + p) ∧ l !! p = Some c ∧ ¬ is_digit c ∧ Forall is_digit (take p l)) ∨
      (∃ k v, overflow e (i + 5 * k) ∧ (k < n)%nat ∧ group_at l k = inl v ∧ 2 ^ 32 ≤ v)
  | Exit _ => False
  end.

Lemma group_at_0 a b c d e l : group_at (a :: b :: c :: d :: e :: l) 0 = digits [a; b; c; d; e].
Proof. done. Qed.

Lemma group_at_S a b c d e l k : group_at (a :: b :: c :: d :: e :: l) (S k) = group_at l k.
Proof. unfold group_at. by replace (5 * S k)%nat with (5 + 5 * k)%nat by lia. Qed.

Lemma decode_chunks_outcome n i l : length l = (5 * n)%nat → chunks_outcome i l n (decode_chunks i l).
Proof.
  revert i l. induction n as [|n IH]; intros i l Hl.
  - apply nil_length_inv in Hl as ->. split_and!; [done|constructor|lia].
  - destruct l as [|a [|b [|c [|d [|e l]]]]]; simpl length in Hl; try lia. cbn [decode_chunks].
    pose proof (digits_spec [a; b; c; d; e]) as Hd. destruct (digits [a; b; c; d; e]) as [v|j] eqn:E.
    2: { destruct Hd as (x & H1 & H2 & H3). left. exists j, x. split_and!; [done| |done|].
         - change (a :: b :: c :: d :: e :: l) with ([a; b; c; d; e] ++ l). by apply lookup_app_l_Some.
         - change (a :: b :: c :: d :: e :: l) with ([a; b; c; d; e] ++ l).
           rewrite take_app_le; [done|]. apply lookup_lt_Some in H1. lia. }
    destruct Hd as [Hd Hv]. pose proof (packI_range v Hv) as Hp. destruct (packI v) as [four|].
    2: { right. exists O, v. split_and!; [by rewrite Nat.add_0_r|lia|done|done]. }
    specialize (IH (i + 5)%nat l ltac:(lia)). destruct (decode_chunks (i + 5) l) as [r|x|]; [| |done].
    + destruct IH as (H1 & H2 & H3), Hp as [Hp Hlt]. split_and!; [rewrite length_app; lia| |].
      * change (a :: b :: c :: d :: e :: l) with ([a; b; c; d; e] ++ l). by apply Forall_app.
      * intros [|k] Hk; [by exists v|]. rewrite group_at_S. apply H3. lia.
    + destruct IH as [(p & y & H1 & H2 & H3 & H4)|(k & y & H1 & H2 & H3)].
      * left. exists (5 + p)%nat, y. split_and!; [by rewrite Nat.add_assoc|exact H2|done|].
        change (a :: b :: c :: d :: e :: l) with ([a; b; c; d; e] ++ l).
        change 5%nat with (length [a; b; c; d; e]). rewrite take_app_add. by apply Forall_app.
      * right. exists (S k), y. rewrite group_at_S. split_and!; [|lia|apply H3|apply H3].
        by replace (i + 5 * S k)%nat with (i + 5 + 5 * k)%nat by lia.
Qed.

Lemma b85decode_cases b :
  let pad := Z.to_nat ((- Z.of_nat (length b)) mod 5) in
  let l := b ++ replicate pad "~"%char in
  let n := (length l / 5)%nat in
  match b85decode b with
  | Ret r => Z.of_nat (length r) = 4 * Z.of_nat (length b) / 5 ∧ Forall is_digit b ∧
             ∀ k, (k < n)%nat → ∃ v, group_at l k = inl v ∧ v < 2 ^ 32
  | Raise e =>
      (∃ p c, bad_character e p ∧ b !! p = Some c ∧ ¬ is_digit c ∧ Forall is_digit (take p b)) ∨
      (∃ k v, overflow e (5 * k) ∧ (k < n)%nat ∧ group_at l k = inl v ∧ 2 ^ 32 ≤ v)
  | Exit _ => False
  end.
Proof.
  intros pad l n.
  assert (Hm : 0 ≤ (- Z.of_nat (length b)) mod 5 < 5) by (apply Z.mod_pos_bound; lia).
  assert (Hl : length l = (5 * n)%nat).
  { unfold n. assert (Hd : (5 | Z.of_nat (length l))).
    { unfold l. rewrite length_app, length_replicate, Nat2Z.inj_add. unfold pad. rewrite Z2Nat.id by lia.
      exists (- (- Z.of_nat (length b) / 5)). pose proof (Z.div_mod (- Z.of_nat (length b)) 5 ltac:(lia)). lia. }
    destruct Hd as [q Hq]. assert (Hq' : length l = (Z.to_nat q * 5)%nat) by lia.
    rewrite Hq', Nat.div_mul by lia. lia. }
  assert (Hb : length b = (5 * n - pad)%nat ∧ (pad < 5)%nat).
  { unfold l in Hl. rewrite length_app, length_replicate in Hl. unfold pad in *. lia. }
  pose proof (decode_chunks_outcome n 0 l Hl) as Ho. unfold b85decode. fold pad l.
  destruct (decode_chunks 0 l) as [r|e|]; [| |done].
  - destruct Ho as (H1 & H2 & H3). unfold l in H2. apply Forall_app in H2 as [H2 _]. split_and!; [|done|done].
    unfold l in Hl. rewrite length_app, length_replicate in Hl.
    apply Z.div_unique with (r := Z.of_nat pad * (if (pad =? 0)%nat then 0 else 1)).
    all: destruct (Nat.eqb_spec pad 0); rewrite ?length_take; lia.
  - destruct Ho as [(p & c & H1 & H2 & H3 & H4)|Ho]; [left|by right]. exists p, c.
    assert (Hp : (p < length b)%nat).
    { destruct (decide (p < length b)%nat) as [|Hge]; [done|]. exfalso. apply H3.
      unfold l in H2. rewrite lookup_app_r in H2 by lia. apply lookup_replicate in H2 as [-> _].
      by apply (bool_decide_unpack _). }
    unfold l in H2, H4. rewrite lookup_app_l in H2 by done. rewrite take_app_le in H4 by lia. done.
Qed.

(** C19: exactly what decoding accepts, and what it gives.  If every byte is a digit and every
    group of five, the last one filled up with the highest digit, is below 2^32, it returns
    four fifths as many bytes, rounded down; otherwise it raises ValueError, which names
    the position of the first byte that is no digit, or the start of a group that is too
    large. *)
Theorem b85decode_outcome b :
  let pad := Z.to_nat ((- Z.of_nat (length b)) mod 5) in
  let l := b ++ replicate pad "~"%char in
  let n := (length l / 5)%nat in
  match b85decode b with
  | Ret r => Z.of_nat (length r) = 4 * Z.of_nat (length b) / 5 ∧ Forall is_digit b ∧
             ∀ k, (k < n)%nat → ∃ v, group_at l k = inl v ∧ v < 2 ^ 32
  | Raise e =>
      (∃ p c, bad_character e p ∧ b !! p = Some c ∧ ¬ is_digit c ∧ Forall is_digit (take p b)) ∨
      (∃ k v, overflow e (5 * k) ∧ (k < n)%nat ∧ group_at l k = inl v ∧ 2 ^ 32 ≤ v)
  | Exit _ => False
  end.
Proof. apply b85decode_cases. Qed.

Lemma b85decode_length b r : b85decode b = Ret r → Z.of_nat (length r) = 4 * Z.of_nat (length b) / 5.
Proof. intros E. pose proof (b85decode_cases b) as H. cbv zeta in H. rewrite E in H. apply H. Qed.

(** ** Data in pieces *)

(** The position of a chunk matters for errors only. *)
Lemma decode_chunks_shift n i j l r :
  length l = (5 * n)%nat → decode_chunks i l = Ret r → decode_chunks j l = Ret r.
Proof.
  revert i j l r. induction n as [|n IH]; intros i j l r Hl.
  - by apply nil_length_inv in Hl as ->.
  - destruct l as [|a [|b [|c [|d [|e l]]]]]; simpl length in Hl; try lia. cbn [decode_chunks].
    destruct (digits [a; b; c; d; e]) as [v|]; [|done]. destruct (packI v) as [four|]; [|done].
    destruct (decode_chunks (i + 5) l) as [x| |] eqn:E; [|done..]. intros [= <-].
    by rewrite (IH _ (j + 5)%nat l x ltac:(lia) E).
Qed.

Lemma decode_chunks_app n i l l' r r' :
  length l = (5 * n)%nat → decode_chunks i l = Ret r → decode_chunks (i + 5 * n) l' = Ret r' →
  decode_chunks i (l ++ l') = Ret (r ++ r').
Proof.
  revert i l r. induction n as [|n IH]; intros i l r Hl.
  - apply nil_length_inv in Hl as ->. rewrite Nat.mul_0_r, Nat.add_0_r. intros [= <-]. done.
  - destruct l as [|a [|b [|c [|d [|e l]]]]]; simpl length in Hl; try lia. cbn [app decode_chunks].
    destruct (digits [a; b; c; d; e]) as [v|]; [|done]. destruct (packI v) as [four|]; [|done].
    destruct (decode_chunks (i + 5) l) as [x| |] eqn:E; [|done..]. intros [= <-] H.
    rewrite (IH (i + 5)%nat l x); [by rewrite <- app_assoc|lia|done|].
    by replace (i + 5 + 5 * n)%nat with (i + 5 * S n)%nat by lia.
Qed.

(** Whole groups can be decoded apart from what follows them. *)
Lemma b85decode_app n a b x y :
  length a = (5 * n)%nat → b85decode a = Ret x → b85decode b = Ret y → b85decode (a ++ b) = Ret (x ++ y).
Proof.
  intros Hn Ha Hb. unfold b85decode in *.
  assert (Hp : (- Z.of_nat (length a)) mod 5 = 0).
  { rewrite Hn. replace (- Z.of_nat (5 * n)) with (- Z.of_nat n * 5) by lia. apply Z.mod_mul. lia. }
  rewrite Hp in Ha. simpl in Ha. rewrite app_nil_r in Ha.
  destruct (decode_chunks 0 a) as [x'| |] eqn:E; [|done..]. injection Ha as ->.
  assert (Hpad : (- Z.of_nat (length (a ++ b))) mod 5 = (- Z.of_nat (length b)) mod 5).
  { rewrite length_app, Hn. replace (- Z.of_nat (5 * n + length b)) with (- Z.of_nat (length b) + - Z.of_nat n * 5) by lia.
    apply Z.mod_add. lia. }
  rewrite Hpad. set (pad := Z.to_nat _) in *. set (l := b ++ replicate pad "~"%char) in *.
  destruct (decode_chunks 0 l) as [y'| |] eqn:E'; [|done..].
  assert (Hl : ∃ m, length l = (5 * m)%nat).
  { exists (Z.to_nat (- (- Z.of_nat (length b) / 5))). unfold l, pad. rewrite length_app, length_replicate.
    pose proof (Z.div_mod (- Z.of_nat (length b)) 5 ltac:(lia)).
    pose proof (Z.mod_pos_bound (- Z.of_nat (length b)) 5 ltac:(lia)). lia. }
  destruct Hl as [m Hm]. rewrite <- app_assoc. fold l.
  rewrite (decode_chunks_app n 0 a l x y' Hn E (decode_chunks_shift m _ _ _ _ Hm E')). f_equal.
  pose proof (decode_chunks_outcome m 0 l Hm) as Ho. rewrite E' in Ho. destruct Ho as [Ho _].
  injection Hb as <-. destruct (Nat.eqb_spec pad 0) as [|Hz]; [done|].
  assert (Hle : (pad ≤ length y')%nat).
  { pose proof (Z.mod_pos_bound (- Z.of_nat (length b)) 5 ltac:(lia)).
    unfold l in Hm. rewrite length_app, length_replicate in Hm. unfold pad in *. lia. }
  rewrite length_app, take_app_ge by lia. f_equal. f_equal. lia.
Qed.

(** The lowest digit throughout. *)
Lemma b85decode_zeros n : b85decode (replicate (5 * n) "0"%char) = Ret (replicate (4 * n) zero).
Proof.
  induction n as [|n IH]; [done|].
  replace (5 * S n)%nat with (5 + 5 * n)%nat by lia. replace (4 * S n)%nat with (4 + 4 * n)%nat by lia.
  rewrite !replicate_add. by apply (b85decode_app 1).
Qed.

(** ** For evaluation *)

(** A number without its lowest byte. *)
Definition shr8 (n : N) : N :=
  N.div2 (N.div2 (N.div2 (N.div2 (N.div2 (N.div2 (N.div2 (N.div2 n))))))).

Lemma shr8_div n : shr8 n = (n / 256)%N.
Proof. unfold shr8. rewrite !N.div2_div. rewrite !N.Div0.div_div. reflexivity. Qed.

Lemma ascii_of_N_mod n : ascii_of_N (n mod 256) = ascii_of_N n.
Proof.
  change 256%N with (2 ^ 8)%N. rewrite <- N.land_ones. change (N.ones 8) with 255%N.
  destruct n as [|p]; [reflexivity|]. do 8 (try destruct p as [p|p|]); reflexivity.
Qed.

(** [packI] by shifting. *)
Definition pack_fast (n : N) : option bytes :=
  let n1 := shr8 n in
  let n2 := shr8 n1 in
  let n3 := shr8 n2 in
  match shr8 n3 with
  | N0 => Some [ascii_of_N n3; ascii_of_N n2; ascii_of_N n1; ascii_of_N n]
  | Npos _ => None
  end.

Lemma pack_fast_spec n : pack_fast n = packI (Z.of_N n).
Proof.
  unfold pack_fast, packI. cbv zeta. rewrite !shr8_div, !N.Div0.div_div.
  change (256 * (256 * (256 * 256)))%N with (2 ^ 32)%N. change (256 * (256 * 256))%N with (2 ^ 24)%N.
  change (256 * 256)%N with (2 ^ 16)%N. rewrite (proj2 (Z.leb_le 0 (Z.of_N n))) by lia. cbn [andb].
  destruct (Z.ltb_spec (Z.of_N n) (2 ^ 32)) as [Hlt|Hge].
  - rewrite (N.div_small n (2 ^ 32)) by lia. cbn [map]. unfold Z_byte.
    rewrite <- (ascii_of_N_mod n), <- (ascii_of_N_mod (n / 256)), <- (ascii_of_N_mod (n / 2 ^ 16)).
    repeat f_equal; symmetry; apply N2Z.inj; rewrite Z2N.id by
      (first [apply Z.mod_pos_bound; lia | apply Z.div_pos; lia]);
      rewrite ?N2Z.inj_mod, ?N2Z.inj_div; reflexivity.
  - destruct (n / 2 ^ 32)%N eqn:E; [|done]. exfalso. apply N.div_small_iff in E; lia.
Qed.

(** A table of the bytes by their bits. *)
Inductive bits_tree (A : Type) := BLeaf (a : A) | BNode (zero one : bits_tree A).
Arguments BLeaf {A}.
Arguments BNode {A}.

Fixpoint bt_make {A} (n : nat) (f : list bool → A) : bits_tree A :=
  match n with
  | O => BLeaf (f [])
  | S n' => BNode (bt_make n' (fun l => f (false :: l))) (bt_make n' (fun l => f (true :: l)))
  end.

Fixpoint bt_get {A} (t : bits_tree A) (bits : list bool) : option A :=
  match t, bits with
  | BLeaf a, _ => Some a
  | BNode z o, b :: bits' => bt_get (if b then o else z) bits'
  | BNode _ _, [] => None
  end.

Definition byte_bits (c : ascii) : list bool :=
  let '(Ascii b0 b1 b2 b3 b4 b5 b6 b7) := c in [b0; b1; b2; b3; b4; b5; b6; b7].

Definition bits_byte (l : list bool) : ascii :=
  match l with
  | [b0; b1; b2; b3; b4; b5; b6; b7] => Ascii b0 b1 b2 b3 b4 b5 b6 b7
  | _ => zero
  end.

Lemma bt_get_make {A} (f : ascii → A) c : bt_get (bt_make 8 (fun l => f (bits_byte l))) (byte_bits c) = Some (f c).
Proof. by destruct c as [[] [] [] [] [] [] [] []]. Qed.

(** The digits. *)
Definition digit_tree : bits_tree (option N) :=
  bt_make 8 (fun l => Z.to_N <$> b85dec_at (byte_Z (bits_byte l))).

Fixpoint digits_fast (t : bits_tree (option N)) (acc : N) (l : bytes) : option N :=
  match l with
  | [] => Some acc
  | c :: l' => match bt_get t (byte_bits c) with Some (Some d) => digits_fast t (acc * 85 + d) l' | _ => None end
  end.

Lemma digits_fast_sound l j acc v :
  digits_fast digit_tree acc l = Some v → digits_from j (Z.of_N acc) (iterbytes l) = inl (Z.of_N v).
Proof.
  revert j acc. induction l as [|c l IH]; intros j acc; cbn [digits_fast iterbytes map digits_from].
  - by intros [= ->].
  - unfold digit_tree at 1. rewrite (bt_get_make (fun c => Z.to_N <$> b85dec_at (byte_Z c))).
    rewrite table_digit. unfold digit_of. destruct (list_find _ _) as [[d x]|]; cbn; [|done].
    intros H. apply (IH (S j)) in H. rewrite <- H. f_equal. lia.
Qed.

(** Decoding with the result built up in reverse. *)
Fixpoint decode_rev (t : bits_tree (option N)) (acc : bytes) (l : bytes) : option bytes :=
  match l with
  | c0 :: c1 :: c2 :: c3 :: c4 :: rest =>
      match digits_fast t 0 [c0; c1; c2; c3; c4] with
      | None => None
      | Some v => match pack_fast v with None => None | Some four => decode_rev t (rev_append four acc) rest end
      end
  | _ => Some (rev_append acc [])
  end.

Lemma decode_rev_sound n i acc l r :
  length l = (5 * n)%nat → decode_rev digit_tree acc l = Some r →
  ∃ r', decode_chunks i l = Ret r' ∧ r = rev_append acc [] ++ r'.
Proof.
  revert i acc l. induction n as [|n IH]; intros i acc l Hl.
  - apply nil_length_inv in Hl as ->. intros [= <-]. exists []. by rewrite app_nil_r.
  - destruct l as [|a [|b [|c [|d [|e l]]]]]; simpl length in Hl; try lia. cbn [decode_rev decode_chunks].
    destruct (digits_fast digit_tree 0 [a; b; c; d; e]) as [v|] eqn:Ev; [|done].
    unfold digits. rewrite (digits_fast_sound _ 0 _ _ Ev : digits_from _ 0 _ = _). rewrite pack_fast_spec.
    destruct (packI (Z.of_N v)) as [four|]; [|done].
    intros E. destruct (IH (i + 5)%nat _ l ltac:(lia) E) as (r' & E' & ->). rewrite E'.
    exists (four ++ r'). split; [done|]. rewrite !rev_append_rev, !app_nil_r, rev_app_distr, rev_involutive.
    by rewrite <- app_assoc.
Qed.

Definition decode_fast (b : bytes) : option bytes :=
  let padding := Z.to_nat ((- Z.of_nat (length b)) mod 5) in
  result ← decode_rev digit_tree [] (b ++ replicate padding "~"%char);
  Some (if (padding =? 0)%nat then result else take (length result - padding) result).

Lemma decode_fast_sound b r : decode_fast b = Some r → b85decode b = Ret r.
Proof.
  unfold decode_fast, b85decode. set (pad := Z.to_nat _). destruct (decode_rev _ _ _) as [x|] eqn:E; [|done].
  intros [= <-]. assert (Hn : length (b ++ replicate pad "~"%char) = (5 * Z.to_nat (- (- Z.of_nat (length b) / 5)))%nat);
    [|by destruct (decode_rev_sound _ 0 [] _ x Hn E) as (r' & -> & ->)].
  unfold pad. rewrite length_app, length_replicate.
  pose proof (Z.div_mod (- Z.of_nat (length b)) 5 ltac:(lia)).
  pose proof (Z.mod_pos_bound (- Z.of_nat (length b)) 5 ltac:(lia)). lia.
Qed.
