(* ===== verification/GetPip.v ===== *)
(** scripts/get-pip.py: the bootstrap of pip.  A zip file with pip is decoded from base85
    into a temporary directory and run from there with the arguments of the script and the
    packages that are installed by default. *)

From S2P Require Import Prelude PyStr PyDict PyPath Effect Os B85.

(** * The arguments for pip *)

(** [os.environ.get(v)] as a truth value *)
Definition env_set (w : world) (v : string) : bool :=
  match env w !! v with Some s => nonempty s | None => false end.

Definition without (flag : string) (args : list string) : list string :=
  List.filter (fun x => negb (String.eqb x flag)) args.

Record implicit := Implicit { i_pip : bool; i_setuptools : bool; i_wheel : bool }.

Section GetPip.
(** From pip: the name of the package an argument asks for, [None] when it is no
    requirement; which modules can be imported; the certificates its settings name, given
    the defaults of the parser of its install command; that parser; and the run of the pip
    that a search path leads to, on a file tree, with the parser it finds: its status, or
    how else it ends. *)
Context {options : Type}.
Abbreviation defaults := (list (string * string)).
Abbreviation parse_args := (defaults → list string → options * defaults).
Context (req_name : string → option string) (importable : string → bool)
        (default_cert : defaults → option string) (install_parse_args : parse_args)
        (pip_entry_point : list string → parse_args → list string → node → outcome Z * node).
(** The data of the script, the certificates in the zip file, and the name [mkdtemp] gives
    to a new directory. *)
Context (DATA : bytes) (cacert : string) (tmp_name : string).

(** An argument that names a package turns off its default installation. *)
Definition note_arg (i : implicit) (arg : string) : implicit :=
  match req_name arg with
  | None => i
  | Some n =>
      if i_pip i && String.eqb n "pip" then Implicit false (i_setuptools i) (i_wheel i)
      else if i_setuptools i && String.eqb n "setuptools" then Implicit (i_pip i) false (i_wheel i)
      else if i_wheel i && String.eqb n "wheel" then Implicit (i_pip i) (i_setuptools i) false
      else i
  end.

Definition bootstrap_args (w : world) (argv : list string) : list string :=
  let no_setuptools := bool_decide ("--no-setuptools" ∈ argv) || env_set w "PIP_NO_SETUPTOOLS" in
  let args := if no_setuptools then without "--no-setuptools" (tail argv) else tail argv in
  let no_wheel := bool_decide ("--no-wheel" ∈ args) || env_set w "PIP_NO_WHEEL" in
  let args := if no_wheel then without "--no-wheel" args else args in
  let start := Implicit true (negb no_setuptools && negb (importable "setuptools"))
                 (negb no_wheel && negb (importable "wheel")) in
  let i := foldl note_arg start args in
  ["install"; "--upgrade"; "--force-reinstall"] ++ args ++
  (if i_pip i then ["pip<21.0"] else []) ++
  (if i_setuptools i then ["setuptools<45"] else []) ++
  (if i_wheel i then ["wheel"] else []).

(** The parser the script puts in the place of pip's: its certificates are a default for
    those who name none. *)
Definition cert_parse_args (cert_path : string) : parse_args := fun d args =>
  match default_cert d with
  | Some (String _ _) => install_parse_args d args
  | _ => install_parse_args (dset "cert" cert_path d) args
  end.

(** [tempfile.mkdtemp()] *)
Definition mkdtemp : IO string := mkdir tmp_name ;; ret tmp_name.

(** [shutil.rmtree(p, ignore_errors=True)] *)
Definition rmtree_quiet (p : string) : IO unit := fun w => (Ret tt, (rmtree p w).2).

(** [sys.exit(pip_entry_point(args))] *)
Definition exit_with (o : outcome Z) : outcome unit :=
  match o with Ret status => Exit status | Raise e => Raise e | Exit c => Exit c end.

(** [bootstrap(tmpdir)] with the search path [path]: pip runs with its certificates, and its
    status ends the program; a directory that was not given is made and removed. *)
Definition bootstrap (path argv : list string) (tmpdir : option string) : IO unit :=
  do w <- get;
  let args := bootstrap_args w argv in
  do dir <- match tmpdir with None => mkdtemp | Some d => ret d end;
  finally
    (let cert_path := join2 dir "cacert.pem" in
     write_file cert_path cacert ;;
     do w <- get;
     let (o, t) := pip_entry_point path (cert_parse_args cert_path) args (root w) in
     modify (set_root t) ;;
     fun w => (exit_with o, w))
    match tmpdir with None => rmtree_quiet dir | Some _ => ret tt end.

(** * The program *)

Definition no_newlines (b : bytes) : bytes := List.filter (fun c => negb (Ascii.eqb c LF)) b.

(** The directory is made first; whatever follows, it is removed. *)
Definition main (sys_path argv : list string) : IO unit :=
  do tmpdir <- mkdtemp;
  finally
    (let pip_zip := join2 tmpdir "pip.zip" in
     write_file pip_zip "" ;;
     do zip <- (fun w => (b85decode (no_newlines DATA), w));
     write_file pip_zip (String.string_of_list_ascii zip) ;;
     bootstrap (pip_zip :: sys_path) argv (Some tmpdir))
    (rmtree_quiet tmpdir).
End GetPip.

(** * What pip is asked to install *)

Section GetPipFacts.
Context (req_name : string → option string) (importable : string → bool).

Definition unnamed (pkg : string) (args : list string) : bool :=
  forallb (fun a => negb (bool_decide (req_name a = Some pkg))) args.

Lemma note_args i args :
  foldl (note_arg req_name) i args =
    Implicit (i_pip i && unnamed "pip" args) (i_setuptools i && unnamed "setuptools" args)
      (i_wheel i && unnamed "wheel" args).
Proof.
  revert i. induction args as [|a args IH]; intros [p s h]; cbn [foldl]; [by rewrite !andb_true_r|].
  rewrite IH. unfold note_arg, unnamed. cbn [forallb i_pip i_setuptools i_wheel].
  destruct (req_name a) as [n|]; [|done].
  destruct (String.eqb_spec n "pip") as [->|Hp]; [by destruct p, s, h|].
  destruct (String.eqb_spec n "setuptools") as [->|Hs]; [by destruct p, s, h|].
  destruct (String.eqb_spec n "wheel") as [->|Hh]; [by destruct p, s, h|].
  rewrite !andb_false_r, !bool_decide_false by congruence. done.
Qed.

Lemma without_id flag l : flag ∉ l → without flag l = l.
Proof.
  induction l as [|x l IH]; [done|]. intros [H1 H2]%not_elem_of_cons. unfold without in *. cbn [List.filter].
  rewrite IH by done. by destruct (String.eqb_spec x flag) as [->|].
Qed.

Lemma elem_of_without x flag l : x ∈ without flag l ↔ x ∈ l ∧ x ≠ flag.
Proof. unfold without. rewrite !list_elem_of_In, filter_In, negb_true_iff, String.eqb_neq. done. Qed.

Lemma without_if (b : bool) flag l :
  (if bool_decide (flag ∈ l) || b then without flag l else l) = without flag l.
Proof. destruct (bool_decide_reflect (flag ∈ l)); [done|]. destruct b; [done|]. by rewrite without_id. Qed.

(** The arguments of the script without its two flags reach pip in their order; after
    them comes pip unless an argument names it, then setuptools and wheel unless they are
    turned off, can be imported or are named by an argument. *)
Theorem bootstrap_args_spec w script rest :
  script ≠ "--no-setuptools" →
  let args := without "--no-wheel" (without "--no-setuptools" rest) in
  bootstrap_args req_name importable w (script :: rest) =
    ["install"; "--upgrade"; "--force-reinstall"] ++ args ++
    (if unnamed "pip" args then ["pip<21.0"] else []) ++
    (if negb (bool_decide ("--no-setuptools" ∈ rest) || env_set w "PIP_NO_SETUPTOOLS") &&
        negb (importable "setuptools") && unnamed "setuptools" args then ["setuptools<45"] else []) ++
    (if negb (bool_decide ("--no-wheel" ∈ rest) || env_set w "PIP_NO_WHEEL") &&
        negb (importable "wheel") && unnamed "wheel" args then ["wheel"] else []).
Proof.
  intros Hs args. unfold bootstrap_args. cbn [tail].
  rewrite (bool_decide_ext ("--no-setuptools" ∈ script :: rest) ("--no-setuptools" ∈ rest))
    by (rewrite elem_of_cons; naive_solver).
  rewrite !without_if.
  rewrite (bool_decide_ext ("--no-wheel" ∈ without "--no-setuptools" rest) ("--no-wheel" ∈ rest))
    by (rewrite elem_of_without; naive_solver).
  rewrite note_args. reflexivity.
Qed.
(** * The run of the script *)

Context {options : Type} (default_cert : list (string * string) → option string)
        (install_parse_args : list (string * string) → list string → options * list (string * string))
        (pip_entry_point : list string →
                           (list (string * string) → list string → options * list (string * string)) →
                           list string → node → outcome Z * node)
        (DATA : bytes) (cacert : string) (tmp_name : string).

(** pip as the script runs it: found in the zip file, with the certificates beside it. *)
Definition run_pip (path : list string) : list string → node → outcome Z * node :=
  pip_entry_point path (cert_parse_args default_cert install_parse_args (join2 tmp_name "cacert.pem")).

(** The certificates a user names are used; the script's own are for those who name none. *)
Lemma cert_parse_args_user path d args c :
  default_cert d = Some c → c ≠ "" →
  cert_parse_args default_cert install_parse_args path d args = install_parse_args d args.
Proof. intros E Hc. unfold cert_parse_args. rewrite E. by destruct c. Qed.

Lemma cert_parse_args_own path d args :
  default_cert d = None ∨ default_cert d = Some "" →
  cert_parse_args default_cert install_parse_args path d args = install_parse_args (dset "cert" path d) args.
Proof. unfold cert_parse_args. by intros [-> | ->]. Qed.

(** [shutil.rmtree(p, ignore_errors=True)] removes a directory and nothing else. *)
Lemma rmtree_quiet_gone w p :
  tree_wf (root w) → resolve (cwd w) p ≠ [] →
  (∀ x m, at_path w p ≠ Some (File x m)) →
  ∃ r, rmtree_quiet p w = (Ret tt, set_root r w) ∧ tget (resolve (cwd w) p) r = None ∧
    ∀ q, apart (resolve (cwd w) p) q → tget q r = tget q (root w).
Proof.
  intros Hwf Hne Hf. unfold rmtree_quiet, rmtree, update_root, bind, get. unfold at_path in Hf.
  destruct (tget (resolve (cwd w) p) (root w)) as [[x m|es]|] eqn:E; [by destruct (Hf x m)| |].
  - destruct (tdel_is_Some _ _ _ Hne E) as [r Hr]. exists r. rewrite Hr. split_and!; [done| |].
    + by eapply tdel_gone.
    + intros q Hq. by eapply tget_tdel_ne.
  - exists (root w). split_and!; [by destruct w|done|done].
Qed.

(** A file written into the temporary directory, which stays one. *)
Lemma write_tmp w p n t es :
  startswith p "/" = true → endswith p "/" = false → plain n = true → tree_wf (root w) →
  at_path w p = Some (Dir es) → (∀ es', dget n es ≠ Some (Dir es')) →
  ∃ r m es', write_file (join2 p n) t w = (Ret tt, set_root r w) ∧ tree_wf r ∧
    tget (resolve (cwd w) p) r = Some (Dir es') ∧ dget n es' = Some (File t m) ∧
    (∀ c, c ≠ n → dget c es' = dget c es) ∧
    (∀ q, apart (resolve (cwd w) p) q → tget q r = tget q (root w)).
Proof.
  intros Hp He Hn Hwf Ha Hd. destruct (write_file_child w p n t es Hp He Hn Ha Hd) as (r & m & E & Hr).
  destruct (tget_tput_above _ [] n _ _ _ es Hr Ha) as (x & Hx).
  pose proof (tget_tput_eq _ _ _ _ Hr) as Hg. rewrite tget_app, Hx in Hg. simpl in Hg.
  rewrite dget_dset_eq in Hg. injection Hg as ->.
  exists r, m, (dset n (File t m) es). split_and!; [done|by eapply tput_wf|done|apply dget_dset_eq| |].
  - intros c Hc. by apply dget_dset_ne.
  - intros q Hq. eapply tget_tput_ne; [|done]. by apply apart_below.
Qed.

(** Of pip: it keeps the tree well formed and puts no file in the place of the directory. *)
Record tidy (path args q : list string) : Prop := {
  tidy_wf : ∀ t, tree_wf t → tree_wf (run_pip path args t).2;
  tidy_dir : ∀ t x m, tget q t ≠ Some (File x m) → tget q (run_pip path args t).2 ≠ Some (File x m)
}.

(** The run of pip in a directory: the certificates are written and pip ends the program. *)
Lemma pip_runs w path args es :
  let q := resolve (cwd w) tmp_name in
  startswith tmp_name "/" = true → endswith tmp_name "/" = false → tree_wf (root w) →
  tget q (root w) = Some (Dir es) → (∀ d, dget "cacert.pem" es ≠ Some (Dir d)) →
  ∃ t m es', tree_wf t ∧ tget q t = Some (Dir es') ∧ dget "cacert.pem" es' = Some (File cacert m) ∧
    (∀ c, c ≠ "cacert.pem" → dget c es' = dget c es) ∧ (∀ p, apart q p → tget p t = tget p (root w)) ∧
    (let cert_path := join2 tmp_name "cacert.pem" in
     write_file cert_path cacert ;;
     do w <- get;
     let (o, t) := pip_entry_point path (cert_parse_args default_cert install_parse_args cert_path) args (root w) in
     modify (set_root t) ;; (fun w => (exit_with o, w))) w =
    (exit_with (run_pip path args t).1, set_root (run_pip path args t).2 w).
Proof.
  intros q Hp He Hwf Ha Hd.
  destruct (write_tmp w tmp_name "cacert.pem" cacert es Hp He eq_refl Hwf Ha Hd)
    as (r & m & es' & E & W & D & F & O & A).
  exists r, m, es'. split_and!; [done..|]. cbv zeta. rewrite (bind_Ret _ _ _ tt (set_root r w)) by done.
  rewrite (bind_Ret _ _ _ (set_root r w) (set_root r w)) by done. fold (run_pip path).
  change (root (set_root r w)) with r. by destruct (run_pip path args r).
Qed.

(** [mkdtemp] in a place that is free. *)
Lemma mkdtemp_new w :
  let q := resolve (cwd w) tmp_name in
  tree_wf (root w) → tget q (root w) = None → is_Some (tput q (Dir []) (root w)) →
  ∃ r, mkdtemp tmp_name w = (Ret tmp_name, set_root r w) ∧ tree_wf r ∧ q ≠ [] ∧
    tget q r = Some (Dir []) ∧ ∀ p, apart q p → tget p r = tget p (root w).
Proof.
  intros q Hwf Hn [r Hr]. exists r. split_and!.
  - unfold mkdtemp. rewrite (bind_Ret _ _ _ tt (set_root r w)); [done|].
    unfold mkdir, update_root, bind, get. fold q. by rewrite Hn, Hr.
  - eapply tput_wf; [exact Hr|exact Hwf|split; [constructor|done]].
  - by intros Hq; rewrite Hq in Hn.
  - apply (tget_tput_eq _ _ _ _ Hr).
  - intros p Hp. by eapply tget_tput_ne.
Qed.

(** Without a directory, [bootstrap] makes one for the certificates, runs pip, and removes it
    again however pip ends. *)
Theorem bootstrap_own_directory w path argv :
  let q := resolve (cwd w) tmp_name in
  let args := bootstrap_args req_name importable w argv in
  startswith tmp_name "/" = true → endswith tmp_name "/" = false → tree_wf (root w) →
  tget q (root w) = None → is_Some (tput q (Dir []) (root w)) → tidy path args q →
  ∃ t w', (∃ m, tget (q ++ ["cacert.pem"]) t = Some (File cacert m)) ∧
    bootstrap req_name importable default_cert install_parse_args pip_entry_point cacert tmp_name
      path argv None w = (exit_with (run_pip path args t).1, w') ∧
    tget q (root w') = None ∧ ∀ p, apart q p → tget p (root w') = tget p (run_pip path args t).2.
Proof.
  intros q args Hp He Hwf Hn Hput [Hk Hf].
  destruct (mkdtemp_new w Hwf Hn Hput) as (r & E0 & Wr & Hq & Hd & _). fold q in Hq, Hd.
  destruct (pip_runs (set_root r w) path args [] Hp He Wr Hd) as (t & m & es & W & D & F & _ & _ & E); [done|].
  change (resolve (cwd (set_root r w)) tmp_name) with q in D. set (t' := (run_pip path args t).2) in *.
  destruct (rmtree_quiet_gone (set_root t' w) tmp_name) as (r' & E' & Hg & Ho);
    [by apply Hk|exact Hq|intros x k; apply Hf; by rewrite D|].
  exists t, (set_root r' w). split_and!; [exists m; by rewrite tget_app, D; simpl; rewrite F| |exact Hg|exact Ho].
  unfold bootstrap. rewrite (bind_Ret _ _ _ w w) by done. rewrite (bind_Ret _ _ _ _ _ E0). fold args.
  unfold finally. cbv zeta in E |- *. rewrite E. change (set_root t' (set_root r w)) with (set_root t' w). by rewrite E'.
Qed.

(** What the script hands to pip: a file tree with the decoded zip file and the
    certificates in the temporary directory. *)
Definition unpacked (w : world) (zip : bytes) (t : node) : Prop :=
  let q := resolve (cwd w) tmp_name in
  tree_wf t ∧
  (∃ m, tget (q ++ ["pip.zip"]) t = Some (File (String.string_of_list_ascii zip) m)) ∧
  (∃ m, tget (q ++ ["cacert.pem"]) t = Some (File cacert m)) ∧
  (∃ es, tget q t = Some (Dir es)) ∧
  ∀ p, apart q p → tget p t = tget p (root w).

Lemma body_unpacks w path argv zip :
  startswith tmp_name "/" = true → endswith tmp_name "/" = false → tree_wf (root w) →
  at_path w tmp_name = Some (Dir []) → b85decode (no_newlines DATA) = Ret zip →
  let args := bootstrap_args req_name importable w argv in
  ∃ t, unpacked w zip t ∧
    (let pip_zip := join2 tmp_name "pip.zip" in
     write_file pip_zip "" ;;
     do zip <- (fun w => (b85decode (no_newlines DATA), w));
     write_file pip_zip (String.string_of_list_ascii zip) ;;
     bootstrap req_name importable default_cert install_parse_args pip_entry_point cacert tmp_name
       path argv (Some tmp_name)) w =
    (exit_with (run_pip path args t).1, set_root (run_pip path args t).2 w).
Proof.
  intros Hp He Hwf Ha Hz args.
  destruct (write_tmp w tmp_name "pip.zip" "" [] Hp He eq_refl Hwf Ha) as (r1 & m1 & es1 & E1 & W1 & D1 & F1 & O1 & A1); [done|].
  destruct (write_tmp (set_root r1 w) tmp_name "pip.zip" (String.string_of_list_ascii zip) es1 Hp He eq_refl W1 D1)
    as (r2 & m2 & es2 & E2 & W2 & D2 & F2 & O2 & A2); [intros ?; by rewrite F1|].
  destruct (pip_runs (set_root r2 w) path args es2 Hp He W2 D2) as (t & m & es & W & D & F & O & A & E).
  { intros es'. rewrite O2, O1 by done. done. }
  simpl in D, A, A2. exists t. split.
  - split_and!; [done|exists m2|exists m|by exists es|].
    + rewrite tget_app, D. simpl. rewrite O by done. by rewrite F2.
    + rewrite tget_app, D. simpl. by rewrite F.
    + intros p Hq. rewrite A, A2, A1 by done. done.
  - cbv zeta. rewrite (bind_Ret _ _ _ tt (set_root r1 w)) by done.
    rewrite (bind_Ret _ _ _ zip (set_root r1 w)) by (by rewrite Hz).
    rewrite (bind_Ret _ _ _ tt (set_root r2 w)) by done. unfold bootstrap.
    rewrite (bind_Ret _ _ _ (set_root r2 w) (set_root r2 w)) by done.
    rewrite (bind_Ret _ _ _ tmp_name (set_root r2 w)) by done.
    change (bootstrap_args req_name importable (set_root r2 w) argv) with args.
    unfold finally. cbv zeta in E |- *. by rewrite E.
Qed.

(** C30: the script unpacks the zip file its data encodes into a new temporary directory with
    the certificates, runs the pip found first in that zip file with the arguments of
    [bootstrap_args] and with those certificates as the default of its parser, ends as pip
    does, with its status or its exception, and the temporary directory is gone, while
    everything apart from it is as pip left it.  Of pip: it keeps the tree well formed and
    puts no file in the place of the directory. *)
Theorem main_runs_pip w sys_path argv zip :
  let q := resolve (cwd w) tmp_name in
  let path := join2 tmp_name "pip.zip" :: sys_path in
  let args := bootstrap_args req_name importable w argv in
  startswith tmp_name "/" = true → endswith tmp_name "/" = false → tree_wf (root w) →
  tget q (root w) = None → is_Some (tput q (Dir []) (root w)) →
  b85decode (no_newlines DATA) = Ret zip → tidy path args q →
  ∃ t w', unpacked w zip t ∧
    main req_name importable default_cert install_parse_args pip_entry_point DATA cacert tmp_name sys_path argv w =
      (exit_with (run_pip path args t).1, w') ∧
    tget q (root w') = None ∧
    ∀ p, apart q p → tget p (root w') = tget p (run_pip path args t).2.
Proof.
  intros q path args Hp He Hwf Hn Hput Hz [Hk Hf].
  destruct (mkdtemp_new w Hwf Hn Hput) as (r & E0 & Wr & Hq & Hd & Hr). fold q in Hq, Hd, Hr.
  destruct (body_unpacks (set_root r w) path argv zip Hp He Wr Hd Hz) as (t & Ht & E).
  change (bootstrap_args req_name importable (set_root r w) argv) with args in E.
  destruct Ht as (W & Z1 & Z2 & [es Hes] & Hap). simpl in Hes, Hap. fold q in Hes, Hap.
  set (t' := (run_pip path args t).2) in *.
  destruct (rmtree_quiet_gone (set_root t' w) tmp_name) as (r' & E' & Hg & Ho);
    [by apply Hk|exact Hq|intros x m; apply Hf; by rewrite Hes|].
  exists t, (set_root r' w). split_and!; [|..|exact Hg|exact Ho].
  - split_and!; [done..|by exists es|]. intros p Hq'. by rewrite (Hap p Hq'), Hr.
  - unfold main. rewrite (bind_Ret _ _ _ _ _ E0). unfold finally. fold path. cbv zeta in E |- *. rewrite E.
    change (set_root t' (set_root r w)) with (set_root t' w). by rewrite E'.
Qed.
End GetPipFacts.

(** A pip that writes its version and ends. *)
Definition demo_pip (path : list string)
    (parse : list (string * string) → list string → unit * list (string * string))
    (args : list string) (t : node) : outcome Z * node :=
  (Ret 0, default t (tput ["work"; "out"] (File "pip 20.3" 420) t)).

Lemma demo_pip_tidy path args :
  tidy (fun _ => None) (fun d _ => (tt, d)) demo_pip "/tmp/tmpx" path args ["tmp"; "tmpx"].
Proof.
  split; intros t; unfold run_pip, demo_pip; cbn [snd].
  - intros Ht. destruct (tput _ _ t) as [t'|] eqn:E; [|done]. by eapply tput_wf; [exact E|..].
  - intros x m Hx. destruct (tput _ _ t) as [t'|] eqn:E; [|done]. cbn [default].
    assert (Ha : apart ["work"; "out"] ["tmp"; "tmpx"]) by (apply (bool_decide_unpack _); vm_compute; exact I).
    change (tget ["tmp"; "tmpx"] t' ≠ Some (File x m)). by rewrite (tget_tput_ne _ _ _ _ _ Ha E).
Qed.

Lemma main_runs_pip_witness :
  ∃ t w', unpacked "certs" "/tmp/tmpx" demo_world ["P"; "K"]%char t ∧
    main (fun _ => None) (fun _ => false) (fun _ => None) (fun d _ => (tt, d)) demo_pip (b85encode ["P"; "K"]%char) "certs" "/tmp/tmpx"
      ["/usr/lib/python3"] ["get-pip.py"] demo_world = (Exit 0, w') ∧ tget ["tmp"; "tmpx"] (root w') = None.
Proof.
  destruct (main_runs_pip (fun _ => None) (fun _ => false) (fun _ => None) (fun d _ => (tt, d)) demo_pip (b85encode ["P"; "K"]%char) "certs" "/tmp/tmpx"
    demo_world ["/usr/lib/python3"] ["get-pip.py"] ["P"; "K"]%char) as (t & w' & H1 & H2 & H3 & _).
  - done.
  - done.
  - vm_compute. repeat first [split | apply (bool_decide_unpack (NoDup _)); vm_compute; exact I].
  - reflexivity.
  - vm_compute. by eexists.
  - vm_compute. reflexivity.
  - apply demo_pip_tidy.
  - exists t, w'. split; [exact H1|split; [etrans; [exact H2|reflexivity]|exact H3]].
Defined.

Lemma bootstrap_own_directory_witness :
  ∃ w', bootstrap (fun _ => None) (fun _ => false) (fun _ => None) (fun d _ => (tt, d)) demo_pip "certs" "/tmp/tmpx"
      [] ["get-pip.py"] None demo_world = (Exit 0, w') ∧ tget ["tmp"; "tmpx"] (root w') = None.
Proof.
  destruct (bootstrap_own_directory (fun _ => None) (fun _ => false) (fun _ => None) (fun d _ => (tt, d)) demo_pip
    "certs" "/tmp/tmpx" demo_world [] ["get-pip.py"]) as (t & w' & _ & H2 & H3 & _).
  - done.
  - done.
  - vm_compute. repeat first [split | apply (bool_decide_unpack (NoDup _)); vm_compute; exact I].
  - reflexivity.
  - vm_compute. by eexists.
  - apply demo_pip_tidy.
  - exists w'. split; [etrans; [exact H2|reflexivity]|exact H3].
Defined.

Lemma bootstrap_args_spec_witness :
  bootstrap_args Some (fun p => String.eqb p "wheel") demo_world ["get-pip.py"; "pip"; "--no-wheel"; "-v"] =
    ["install"; "--upgrade"; "--force-reinstall"; "pip"; "-v"; "setuptools<45"].
Proof.
  assert (Hs : "get-pip.py" ≠ "--no-setuptools") by by apply (bool_decide_unpack _).
  etrans; [exact (bootstrap_args_spec Some (fun p => String.eqb p "wheel") demo_world "get-pip.py" _ Hs)|].
  vm_compute. reflexivity.
Defined.
