(* ===== verification/Inflate.v ===== *)
(** The format of the packed members of an archive (RFC 1951), as the module zlib unpacks it
    when Python imports from a zip file, and the checksum of a member.  A set of codes that
    leaves some out is an error here only where one of these is met. *)

From S2P Require Import Prelude PyStr B85.

(** * Bits *)

(** What is left of the input: the bits of the byte that was begun, the lowest first, and the
    bytes after it. *)
Record input := Input { i_bits : list bool; i_bytes : bytes }.

Definition next_bit (i : input) : option (bool * input) :=
  match i with
  | Input (b :: bs) l => Some (b, Input bs l)
  | Input [] (Ascii b0 b1 b2 b3 b4 b5 b6 b7 :: l) => Some (b0, Input [b1; b2; b3; b4; b5; b6; b7] l)
  | Input [] [] => None
  end.

(** A number of [n] bits, the lowest first. *)
Fixpoint next_bits (n : nat) (i : input) : option (N * input) :=
  match n with
  | O => Some (0%N, i)
  | S n' =>
      '(b, i) ← next_bit i;
      '(v, i) ← next_bits n' i;
      Some (if b : bool then N.succ_double v else N.double v, i)
  end.

(** * Codes *)

(** A code is the tree of its bits; what a leaf stands for is of some type. *)
Inductive tree (A : Type) := NoCode | Leaf (a : A) | Fork (zero one : tree A).
Arguments NoCode {A}.
Arguments Leaf {A}.
Arguments Fork {A}.

(** The code with the bits [path] stands for [a]; [None] when it begins another or another
    begins it. *)
Fixpoint insert {A} (path : list bool) (a : A) (t : tree A) : option (tree A) :=
  match path, t with
  | [], NoCode => Some (Leaf a)
  | b :: path', (NoCode | Fork _ _) =>
      let '(z, o) := match t with Fork z o => (z, o) | _ => (NoCode, NoCode) end in
      if b then o' ← insert path' a o; Some (Fork z o')
      else z' ← insert path' a z; Some (Fork z' o)
  | _, _ => None
  end.

(** The next code of the same length, counting in binary with the highest bit first, and
    whether it was the last. *)
Fixpoint next_code (path : list bool) : list bool * bool :=
  match path with
  | [] => ([], true)
  | b :: path' =>
      let (p, carry) := next_code path' in
      if carry then (negb b :: p, b) else (b :: p, false)
  end.

(** The codes of one length, for the symbols that have it, in their order; [over] says that
    there are no more. *)
Fixpoint assign {A} (len : nat) (code : list bool) (over : bool) (lens : list (nat * A)) (t : tree A) :
    option (list bool * bool * tree A) :=
  match lens with
  | [] => Some (code, over, t)
  | (l, a) :: lens' =>
      if Nat.eqb l len then
        if over then None
        else t' ← insert code a t; let (c, o) := next_code code in assign len c o lens' t'
      else assign len code over lens' t
  end.

Fixpoint assign_all {A} (n len : nat) (code : list bool) (over : bool) (lens : list (nat * A)) (t : tree A) :
    option (tree A) :=
  match n with
  | O => Some t
  | S n' =>
      '(c, o, t') ← assign len code over lens t;
      assign_all n' (S len) (c ++ [false]) o lens t'
  end.

(** The code in which the symbols have these lengths, 15 at most; none is the length zero. *)
Definition build {A} (lens : list nat) (symbols : list A) : option (tree A) :=
  assign_all 15 1 [false] false (zip lens symbols) NoCode.

Fixpoint decode {A} (t : tree A) (i : input) : option (A * input) :=
  match t with
  | NoCode => None
  | Leaf a => Some (a, i)
  | Fork z o =>
      match i with
      | Input (b :: bs) l => decode (if b then o else z) (Input bs l)
      | Input [] (Ascii b0 b1 b2 b3 b4 b5 b6 b7 :: l) =>
          decode (if b0 then o else z) (Input [b1; b2; b3; b4; b5; b6; b7] l)
      | Input [] [] => None
      end
  end.

(** * Symbols *)

(** A byte, the end of the block, or a copy with the first of the lengths it stands for and
    the number of bits that tell them apart. *)
Inductive symbol := Byte (c : ascii) | EndOfBlock | Copy (base : N) (extra : nat) | Unused.

Definition length_codes : list (N * nat) :=
  [(3, 0%nat); (4, 0%nat); (5, 0%nat); (6, 0%nat); (7, 0%nat); (8, 0%nat); (9, 0%nat); (10, 0%nat);
   (11, 1%nat); (13, 1%nat); (15, 1%nat); (17, 1%nat); (19, 2%nat); (23, 2%nat); (27, 2%nat); (31, 2%nat);
   (35, 3%nat); (43, 3%nat); (51, 3%nat); (59, 3%nat); (67, 4%nat); (83, 4%nat); (99, 4%nat);
   (115, 4%nat); (131, 5%nat); (163, 5%nat); (195, 5%nat); (227, 5%nat); (258, 0%nat)]%N.

Definition literals : list symbol :=
  map (fun n => Byte (ascii_of_nat n)) (seq 0 256) ++ [EndOfBlock] ++
  map (fun e => Copy e.1 e.2) length_codes ++ [Unused; Unused].

(** The distances in the same way. *)
Definition distances : list (option (N * nat)) :=
  map Some
    [(1, 0%nat); (2, 0%nat); (3, 0%nat); (4, 0%nat); (5, 1%nat); (7, 1%nat); (9, 2%nat); (13, 2%nat);
     (17, 3%nat); (25, 3%nat); (33, 4%nat); (49, 4%nat); (65, 5%nat); (97, 5%nat); (129, 6%nat);
     (193, 6%nat); (257, 7%nat); (385, 7%nat); (513, 8%nat); (769, 8%nat); (1025, 9%nat); (1537, 9%nat);
     (2049, 10%nat); (3073, 10%nat); (4097, 11%nat); (6145, 11%nat); (8193, 12%nat); (12289, 12%nat);
     (16385, 13%nat); (24577, 13%nat)]%N ++ [None; None].

(** * Output *)

(** The bytes so far, the last first, and the same by their position. *)
Inductive store := Empty | Cell (c : option ascii) (l r : store).

Fixpoint store_get (p : positive) (t : store) : option ascii :=
  match t with
  | Empty => None
  | Cell c l r => match p with xH => c | xO p' => store_get p' l | xI p' => store_get p' r end
  end.

Fixpoint store_set (p : positive) (x : ascii) (t : store) : store :=
  match p, t with
  | xH, Empty => Cell (Some x) Empty Empty
  | xH, Cell _ l r => Cell (Some x) l r
  | xO p', Empty => Cell None (store_set p' x Empty) Empty
  | xO p', Cell c l r => Cell c (store_set p' x l) r
  | xI p', Empty => Cell None Empty (store_set p' x Empty)
  | xI p', Cell c l r => Cell c l (store_set p' x r)
  end.

Record output := Output { o_bytes : bytes; o_next : positive; o_store : store }.

Definition put (c : ascii) (o : output) : output :=
  Output (c :: o_bytes o) (Pos.succ (o_next o)) (store_set (o_next o) c (o_store o)).

(** [n] bytes from [p] on, which may be among those that are copied. *)
Fixpoint copy (n : nat) (p : positive) (o : output) : option output :=
  match n with
  | O => Some o
  | S n' => match store_get p (o_store o) with Some c => copy n' (Pos.succ p) (put c o) | None => None end
  end.

(** * Blocks *)

(** The symbols of a block up to its end. *)
Fixpoint symbols (fuel : nat) (lit : tree symbol) (dist : tree (option (N * nat))) (i : input) (o : output) :
    option (output * input) :=
  match fuel with
  | O => None
  | S fuel' =>
      match decode lit i with
      | Some (Byte c, i) => symbols fuel' lit dist i (put c o)
      | Some (EndOfBlock, i) => Some (o, i)
      | Some (Copy base extra, i) =>
          '(x, i) ← next_bits extra i;
          '(d, i) ← decode dist i;
          '(dbase, dextra) ← d;
          '(y, i) ← next_bits dextra i;
          match (Npos (o_next o) - (dbase + y))%N with
          | Npos p => o ← copy (N.to_nat (base + x)) p o; symbols fuel' lit dist i o
          | N0 => None
          end
      | Some (Unused, _) | None => None
      end
  end.

Definition next_nat (n : nat) (i : input) : option (nat * input) :=
  '(v, i) ← next_bits n i; Some (N.to_nat v, i).

Definition code_order : list nat :=
  [16; 17; 18; 0; 8; 7; 9; 6; 10; 5; 11; 4; 12; 3; 13; 2; 14; 1; 15]%nat.

(** The lengths of the codes for lengths. *)
Fixpoint order_lengths (order : list nat) (n : nat) (lens : list nat) (i : input) : option (list nat * input) :=
  match n, order with
  | O, _ => Some (lens, i)
  | S n', k :: order' =>
      '(v, i) ← next_nat 3 i;
      order_lengths order' n' (<[k := v]> lens) i
  | S _, [] => None
  end.

(** The lengths of the codes of a block; [lens] has the last first. *)
Fixpoint code_lengths (fuel n : nat) (t : tree nat) (lens : list nat) (i : input) : option (list nat * input) :=
  match fuel with
  | O => None
  | S fuel' =>
      if Nat.leb n (length lens) then (if Nat.eqb n (length lens) then Some (rev lens, i) else None)
      else
        '(s, i) ← decode t i;
        if Nat.ltb s 16 then code_lengths fuel' n t (s :: lens) i
        else if Nat.eqb s 16 then
          p ← head lens;
          '(x, i) ← next_nat 2 i;
          code_lengths fuel' n t (replicate (3 + x) p ++ lens) i
        else if Nat.eqb s 17 then
          '(x, i) ← next_nat 3 i;
          code_lengths fuel' n t (replicate (3 + x) O ++ lens) i
        else
          '(x, i) ← next_nat 7 i;
          code_lengths fuel' n t (replicate (11 + x) O ++ lens) i
  end.

(** The codes of a block that brings its own. *)
Definition dynamic_codes (i : input) : option (tree symbol * tree (option (N * nat)) * input) :=
  '(hlit, i) ← next_nat 5 i;
  '(hdist, i) ← next_nat 5 i;
  '(hclen, i) ← next_nat 4 i;
  '(cl, i) ← order_lengths code_order (4 + hclen) (replicate 19 O) i;
  ct ← build cl (seq 0 19);
  let n := (257 + hlit + 1 + hdist)%nat in
  '(lens, i) ← code_lengths (S n) n ct [] i;
  lit ← build (take (257 + hlit) lens) literals;
  dist ← build (drop (257 + hlit) lens) distances;
  Some (lit, dist, i).

Definition fixed_lengths : list nat :=
  replicate 144 8%nat ++ replicate 112 9%nat ++ replicate 24 7%nat ++ replicate 8 8%nat.

(** A block that is not packed: from the next byte on, its length and the complement of it. *)
Definition stored (i : input) (o : output) : option (output * input) :=
  match i_bytes i with
  | a :: b :: c :: d :: l =>
      let n := Z.to_nat (byte_Z a + 256 * byte_Z b) in
      if (byte_Z a + byte_Z c =? 255) && (byte_Z b + byte_Z d =? 255) && Nat.leb n (length l)
      then Some (foldl (fun o c => put c o) o (take n l), Input [] (drop n l))
      else None
  | _ => None
  end.

Fixpoint blocks (fuel : nat) (i : input) (o : output) : option (output * input) :=
  match fuel with
  | O => None
  | S fuel' =>
      '(final, i) ← next_bit i;
      '(type, i) ← next_bits 2 i;
      let room := (8 * S (length (i_bytes i)))%nat in
      '(o, i) ←
        match type with
        | 0%N => stored i o
        | 1%N =>
            lit ← build fixed_lengths literals;
            dist ← build (replicate 32 5%nat) distances;
            symbols room lit dist i o
        | 2%N => '(lit, dist, i) ← dynamic_codes i; symbols room lit dist i o
        | _ => None
        end;
      if final : bool then Some (o, i) else blocks fuel' i o
  end.

(** [zlib.decompress(data, -15)] of data that ends with the last block. *)
Definition inflate (data : bytes) : option bytes :=
  '(o, i) ← blocks (S (length data)) (Input [] data) (Output [] 1 Empty);
  match i_bytes i with [] => Some (rev_append (o_bytes o) []) | _ => None end.

(** * Checksum *)

Definition xor_byte (x y : ascii) : ascii :=
  let '(Ascii a0 a1 a2 a3 a4 a5 a6 a7) := x in
  let '(Ascii b0 b1 b2 b3 b4 b5 b6 b7) := y in
  Ascii (xorb a0 b0) (xorb a1 b1) (xorb a2 b2) (xorb a3 b3) (xorb a4 b4) (xorb a5 b5) (xorb a6 b6) (xorb a7 b7).

(** CRC-32, reflected; a word has its lowest byte first. *)
Record word := Word { w0 : ascii; w1 : ascii; w2 : ascii; w3 : ascii }.

Definition xor_word (x y : word) : word :=
  Word (xor_byte (w0 x) (w0 y)) (xor_byte (w1 x) (w1 y)) (xor_byte (w2 x) (w2 y)) (xor_byte (w3 x) (w3 y)).

Definition word_N (w : word) : N :=
  (N_of_ascii (w0 w) + 256 * (N_of_ascii (w1 w) + 256 * (N_of_ascii (w2 w) + 256 * N_of_ascii (w3 w))))%N.

Definition N_word (n : N) : word :=
  Word (ascii_of_N n) (ascii_of_N (n / 2 ^ 8)) (ascii_of_N (n / 2 ^ 16)) (ascii_of_N (n / 2 ^ 24)).

(** One bit: the polynomial is added when the bit that falls out is one. *)
Definition crc_bit (c : N) : N := if N.odd c then N.lxor (N.div2 c) 3988292384 else N.div2 c.

(** The table of the bytes. *)
Definition crc_table : bits_tree word :=
  bt_make 8 (fun l => N_word (Nat.iter 8 crc_bit (N_of_ascii (bits_byte l)))).

Fixpoint crc_bytes (t : bits_tree word) (c : word) (l : bytes) : word :=
  match l with
  | [] => c
  | b :: l' =>
      let '(Word c0 c1 c2 c3) := c in
      match bt_get t (byte_bits (xor_byte c0 b)) with
      | Some (Word t0 t1 t2 t3) => crc_bytes t (Word (xor_byte c1 t0) (xor_byte c2 t1) (xor_byte c3 t2) t3) l'
      | None => c
      end
  end.

Definition ones : word := let b := Ascii true true true true true true true true in Word b b b b.

Definition crc32 (l : bytes) : N := word_N (xor_word (crc_bytes crc_table ones l) ones).

Example crc32_check : crc32 (String.list_ascii_of_string "123456789") = 3421780262%N.
Proof. vm_compute. reflexivity. Qed.

(** * Facts *)

(** Text that is stored as it is, in one block. *)
Definition stored_block (t : bytes) : bytes :=
  let n := Z.of_nat (length t) in
  let lo := n mod 256 in
  let hi := n / 256 in
  Z_byte 1 :: Z_byte lo :: Z_byte hi :: Z_byte (255 - lo) :: Z_byte (255 - hi) :: t.

Lemma byte_Z_byte z : 0 ≤ z < 256 → byte_Z (Z_byte z) = z.
Proof. intros Hz. unfold byte_Z, Z_byte, code. rewrite N_ascii_embedding by lia. lia. Qed.

Lemma put_all l o : o_bytes (foldl (fun o c => put c o) o l) = rev l ++ o_bytes o.
Proof.
  revert o. induction l as [|c l IH]; intros o; [done|]. simpl. rewrite IH. simpl. by rewrite <- app_assoc.
Qed.

(** Such text is unpacked to itself. *)
Lemma inflate_stored t : Z.of_nat (length t) < 2 ^ 16 → inflate (stored_block t) = Some t.
Proof.
  intros Hn. unfold inflate, stored_block. set (n := Z.of_nat (length t)) in *.
  assert (Hlo : 0 ≤ n mod 256 < 256) by (apply Z.mod_pos_bound; lia).
  assert (Hhi : 0 ≤ n / 256 < 256) by (split; [apply Z.div_pos; lia|apply Z.div_lt_upper_bound; lia]).
  change (Z_byte 1) with (Ascii true false false false false false false false). cbn [length blocks].
  cbn [next_bit next_bits mbind option_bind N.double]. cbn [mbind option_bind stored i_bytes].
  rewrite !byte_Z_byte by lia.
  rewrite !(proj2 (Z.eqb_eq _ _)) by lia.
  replace (Z.to_nat (n mod 256 + 256 * (n / 256))) with (length t)
    by (rewrite Z.add_comm, <- Z.div_mod by lia; unfold n; by rewrite Nat2Z.id).
  rewrite Nat.leb_refl. cbn [andb mbind option_bind]. rewrite take_ge, drop_ge by lia.
  cbn [i_bytes]. rewrite put_all. cbn [o_bytes]. by rewrite app_nil_r, rev_append_rev, app_nil_r, rev_involutive.
Qed.
