(* ===== verification/PipMembers.v ===== *)
(** scripts/get-pip.py: the lines of the data that hold the packages of the modules the
    bootstrap imports: pip, pip._internal, and its packages cli, commands and req, one
    definition for each member of the archive.  A member has the lines from the one in
    which it begins to the one before that of the next; it may end in the first line after
    them. *)

From S2P Require Import Prelude.

(** pip/__init__.py *)
Definition pip___init__ : list string :=
  ["P)h>@6aWAK2mlUeH&TV5jz=Q_0074U000jF003}la4%n9X>MtBUtcb8d2NtyOT#b_hu`N@9QB18%v5x";
   "s4kpO(&rrJ|`eKX`vh}(J+9c$zj(&U7jVi)I-sG3#xx1$bt^#koRK_v}t4mq4DM@nUjopH&ybBEPi}^";
   "xLULGf}>f<ZRrrEO)rZ^Fg1jJLc)c=GxLp*?)XX9cMA%s%j7%0A!f-xjlm-1Q;llYNi0hKnkr^A-UnX";
   "}kGQqNi>j-c03mMwHi99FA7T--xk;ZT?)$>+`x#H%fIi^0Qu3eJ`dRH!XO;R4izux?rb=LBwVVdE^h5";
   "`i|scqS<hz^7QM^V}TULXNDXqX7^i?3g``(sXNhSFh#9RjF^hP9rllL^V=+GrYT%-DH1)PH9KWq46%J"].

(** pip/__main__.py *)
Definition pip___main__ : list string :=
  [")R|NJpuNX%93>#v!TyE^NqzAHP)h>@6aWAK2mlUeH&SQ_4?Nfb0055z000jF003}la4%n9ZDDC{Utcb";
   "8d0kS$j+`(Iz4H~8<^WVIJLgqrr5<}-^;T6;8q5#@Ng9Wt^y_P9ptD;}#IfIdelLCWGbq(BX^E&5*g5";
   "!^K>s8^EeX~AToilV)A2_e6~zhOaP~KZvIOlqFiVW+60AOs)?J~q5l!-OgI;*jfY94W3Aib4Jnnk|YJ";
   "*Ng1Ga|{kpv)l&^K>8SV(XV+<$mHY8?a{!1#G)Y63H$85<@-{DTbUDCucxV6x07;%M+|!-MO9j<0Wi#";
   "11q;*wWw~Jk1&J^A7l0*oU_7=O4mXm1V;gv{y`K?W($dDS*GDs|`L>=UQy}+QW*VBSKu9lNGW7TF8+_";
   ">8{Ie<fCkRVDRj>!4j}^zf$g5NMG?#$r7JFwd*iFi`ae1M^!{C6|@<7hU2_kIGVf4lf-PN95Q{xc~)x";
   "H)+yD7ZSTFu#C|(HBN!o}6m1}htb9MfmJk{*1|JR5!La3y^@g-eNlcIpg<aOlzzp`V!6w3~--o_rhje";
   ";x4v-gHjdsU7WtQBZZ!eNf4r13`{eM0jsOyixv5y#2b#5{cCz#V>@K#xukcX$%OtzJ!59<8S&nG(}iY"].

(** pip/_internal/__init__.py *)
Definition pip__internal___init__ : list string :=
  [";;Zg+|Wh1kV4`#XSvS-lI5dD<2OBf7?{$GQX$dFHlPZ1QY-O00;mMXE#z}dd^oV0RRB+0RR9Q0001RX";
   ">c!JX>N37a&BR4FJE72ZfSI1UoLQYZBb22!$1(d@2?ozOA9r*2x>tu#V^z<qK8sS*d~)^B-veOCQAOj";
   "+k`4Ympv?xc^~tZn&4R>P)IUzitKEiv`V!k<UTOhOfYX5m93M06vp8Er!^(}<|t3QKyC*#C_k-UR@vh";
   "2dhw9GzAu;e%UffpJOa-R#M7((S9m1R89WCiA5Dxg1(wiQaudrtxm<dO(}6tRGjR@+!|-~~U5oN&Gli";
   "2Yh)Mgw(P;EmkwCnGQINl|fYLMgx`5m}@il_vOhE;-vKsw5khoqATLi`u8C@Pj_Hv|&=^r;y!WIP$?o";
   "goG*vJe75h~Rn^EBO&R_!*)eUpYR*fds{l1Ph^o}FHtCx?K4bsQ@hopKj^MCH&^_RTf~<RMD@vX<R1*"].

(** pip/_internal/build_env.py *)
Definition pip__internal_build_env : list string :=
  ["mpHGKTt~p1QY-O00;mMXE#zbQ3{T82><|@9{>Ov0001RX>c!JX>N37a&BR4FJg6RY-C?$ZgwtkdF5H%";
   "bKAHPf7f4uIu9hLB&X@4rs~YaaW0;wwkLM3lhJ566bZ>VQv?f8l64vX@7=`*36PYN>%FylkqGWC_T#s";
   "U#p>eX;@zHACAq2(Oz?U~>z3>#Ey;!p!X&TqmhqaDd%@~0ktLHYStAEL&Mq!4W;3>HxM)emw_98@k6h";
   "Yc^3?ro>2rG&c{AGxz9R*%Dq5g;NescQD5;?3dseiX2KU>ytdc2+DR{kMTT8p8ZPuLHM_y+YTWj)ZqP";
   "%^SGfmL2Ce04CF1bjXr)?&v<a<%jPJ_?%-+Lw~`XMI2P$5CROAuLsN-_Bt7f)d1J#Bk=mNUyXtfE;)a";
   "*4}X#S7&-XJb~kRMdHu78Ofn!|EC~u>8ECb!HZ)c#IqN>qc-;xZ^AGs>=H1^Q<l1HCf4oWqg3=_h4($";
   "a&d|YzJ|9M7+Ah0<<uY&jEsMNz5AM7e!RN;NA~&4&CT`A&j5(c#PWPb;G?91gx=o|A}{DVFP<J?)uVB";
   "CxdsjLbwy+H3Gfh;+Xfw*S22M|#N=V$;5#Lu7vU=pM$zZAfsOJlg-F3;=ZHJK`avzuW{6~Xxv-E<0Ys";
   "nFT9{>ZzJnM?v)QbuatK0pC+LPf&-KP7-2e_)&DtyrC9O6wLG(r1di=am=FdqeTM?1u@8pKpw0nyzDR";
   "RK>_~pNlwB0xG=0je|0neJ%Dzu9p@nJ`SpP+670+Hb|MH9$kp_eF#B0<9?d(IkVN)UUDhg`_Tw_u%18";
   "qAeaG0;O<a8_PAj%XRkLa?Tl!OF4uhPPld$_K}GIUP9p+H%yKw2#zbgS-~GIH^4(k(}I}?oLpZpmYet";
   "ZFM4Y-(U=BnRa~5UQpn)zUWFsh+0F2(SmJQu~1%&i8gwn!qkfZ${!H%Aok}ZfU7$_7FOQe^Q;OStYY9";
   "KY_&8Dz2h)AKgJW=Emj>eRb6+=ddSzmg3k;Vp>$sgnzxXNd0moSUPA`pZ&UQ)1fb550O4V^Y@yWX>JL";
   "b7q!n}q`%|bNL%yp@3%?-w@WrCE@G4aL?#uP3_u19WFEQCxd=09dGHphw0@Gu1=I4sRIYs|D2Tthk7-";
   "E{lHors28w_yzD`$0Rbxw6UAY~Lq9y=bND$!U?!l342msbH~4nI&)<)@&hjz;>KWLEKA_0GfEw}i5>8";
   "j!nic$FM=(zc^kf`Te=(uWlghQ4RgLtgEv48f`i{B;VZc>{-58EQ6LgrW%!t78fsfWu*z9T&VImwVar";
   "9s7+E$yy4~b8(aaEG1x`qzzO_JaGZE@CXUYA&?$rgC+ua^Fp1MfMKXN5IZf`oCUJ?rh1v-OZ4S8&kP%";
   "XjAQ|oFGR9Pxl~ERFnbL6`F{P0;@`)Fz#j1Q?tU2n0~Ir=^%{Hwqzk;#Rr9uEq0fL18TujzumIZK6D$";
   "v@I-(<kXkmxrCz4NYR4Huy(+2Vc7LP%MP1UCHH{CSpQ2>2t+sd@0B^J7oOM@U7t#y5BtO6LTK6OO(hI";
   "{~cLXS}j-WY@=8X-`3Rhd+WQ##`0f<g0;Lu+=DnK{zor!syyUybOWYJRNs$&Hk>4Wki_N?;TPX#3{E^";
   "-tnuKBC4CzD@J8#BYp`j<~be!udVk(Cp!AHMz|wJN(1&oDH2nDg?&RVbO$_#xke;yqw%wy>z!9u}-q-";
   "rfI@Fl_lDW&PgK)V-u{=n3W?1CIEO(p+zcV0#U?<2-+uoLNYpmx;MH!V(;7)NL3%r?ZEAm?8ifut;lB";
   ")1+4{zyg}QCVf<kPj-xot&?w#DkqPILgYt#@5EHBF!ari{d8+#niWh+2)sUE)lpiQCA4UfO9_n*MglU";
   "iPc3^r16!TgaaQD;0N9+OazCL`sy}7yla)0&t{`%pnUsDurLGL?KQ$f7**R3PGDl?DBTCmjn_LK-{L+";
   "ppxlzVkRTMD?QR;;yEThhjDSM)Julg=;ZtDekp*1jpBXokK^wSsffZ=z2J1(kR}I`rL~1aE^$qH|I^r";
   "5)KXK4_j*6YD{ur=`zDhUkfV7}*Qy67QhPcTgg(o(rlLS1XV4fVb8$pU>iNwVv9?y*6w5DRif4ItDm`";
   "5^i-GvlwU9?5RZdfRjQbchCd+ATj7MJW`1sR|+TO4R6A3yK#z)?>IjH((taZUfPZOU=@$Fc*;aSwUOr";
   "D4NG#$C3cpeT4UuLH9lD0({`zU!3*dH;O$Dy7ZhP161eYthI_cE$zSn2l)ml>Da^14OR%ff9H|N4kkD";
   "MDDAe?04&|wgl(MA7-Q_^sj!Ah|6tcOBb-yjwu#s?;8@^*&o^Q_)kNtk?6%I=6sMvu7eYY42!cQws(`";
   "O27eUvE<WkP5E25AfTlMrM@(Rri|Ova-|v5W|*O0VHe4;#xfQXOY0sW`F;;Vctdx%|s2&7})FxGIfX`";
   "N@wX<?YJ7HVO?ZXWQ6X)#KfO$4C5`LZzo%PPy?1UH!hjD2Lcfl)mJvi(3Z9!?IGbV}OMofY58ePUDw9";
   "T&2uKbuqZJFNX^Bs=1wszFw+<*+619Me}9^=Fa0~nHNqSoPI9|->A{VK8QZU{iW5zO4~L<s$c~R-Kj9";
   "%YfLPMr&p4&Ena4mu25iukR&xv_F$oYu(LXAm1^vVa)9Fq)ico}xy0`6Z20QD0Gy&{q1fYGZ8kWpKhR";
   "Hbsji@J`ddFBeSh`t%g?^Q&_Q-Q5F`huslhU#o4X94-U?pX8430^xj3mYNnM@n<KO_&yi(8R@)oj5<2";
   "?0+#)D0wv3jP}0sWGI{CPm13JO>6f`&n+JRZE3-$5Lh3$2<(hE_)~^;<Bnv2X=1QRMbcY9O8MMTM3a3";
   ";H!T2L0-Ui;WG-AYq_pPYM-kH7?IUE%HoJq0=4mxAWDw3J!Ki6nmn$65xUj9f8hv<1^id0|Ha=3}8{Q";
   "`U&;20fny&*IqX~LApfI1+kK`a{P>PAGvHDxvkj4J)+ET`8%QwX@aC69KTlHk!eIin(||Yg&Fcu(27D";
   "oHzm4v0ni0glJt<=VE=m(fHJXJGCM;yd}FM0OWnkr#{Lr(no6!FFlNoyYViM4h?~TgbYZ^xKTK};Z8I";
   "884;T6&^-oZj6W*x#OQJdpm6d8JjiDWKTE0ItlWsuKKX!>6N%)_>QTWytfc|>l{MX+4ziDwq&LqYE#;"].

(** pip/_internal/cache.py *)
Definition pip__internal_cache : list string :=
  ["$kJ`J-~Qyb^*7=*s^CP)h>@6aWAK2mlUeH&O*KS42Jx007x9000&M003}la4%nJZggdGZeeUMV_{=xW";
   "iD`e?Hc`$+qU(0{}r5qA@ZQ;x<i&>##|sxFHNu{Es`sO;&2dXiME-@qDo4+xJCc>z4s`Iq%5B=UAv-N";
   "{llG2@;$!qFDZ(mCp_N@_L5h8BX*){W>FN)W^z|6-LNe;+fuIjpYM#S`tPOMY-F|Re=0MZt+m>*TGna";
   "yK~#m(Y0dNZ98aYU-x$^%l~p5jtp)teD!vm*u<}7@BjK7`khP602W&a7R3&p>${z%w^XVYO6)#iqF&A";
   "|Mcn7%W)dzqn-fo2`pUP4Y=mg|W6{0k0DXaHA=nMFM%h4M|*`Fo+Q-_I(v=O^HE2Qp^U&8M%r51Uk^g";
   "dy@4ZGQUSrz6MEc+Vd(&Kpf-8bK5Po7;o`B(P(+gGoizxwJpWUHMdYu;?LMrE)D2C$yMvzRgX5VG*f#";
   "}yF!rOcZIgk#|E*CcFSChU!9W)AGMbzJhz`21MFYo&L*$#PXSS`CtZN~=%o;%tWYDKuO5hMI0f^Mcmm";
   "jO--K=Cj$X5Nnp9nS&PcCNAcd$9u@2Sg;tGx-yMU82q`Ovj?B!7diuu@>(>lt{8_kzA6PXTYi52kf}8";
   "+AwHCW-lynN2w{L6^r5t9ceRNNKnj#+@5SCMFLeu^U_{L|2j!b(93@f0qD3@Mn5ayvMaE4oC7qlTK5e";
   "h>yfn49$0ik34w8x^Iv>sF=~jF!<VKh#MxOJM8^g%)W3_q*#@2BSbUp@dR=^?8!L{hz16FJGK^DS*uV";
   "JhxI{TEc0;*sIZ@ASKItj!9!iAp&GPAQ_Xyprb3GiB}21V4sciKwF0HJ~xU|!79iC}@AI~p4Wckg5~A";
   "i~c|g7A^Zl|WO~f)}0b9=({CrMeMCW(hD0cC(fFwxh@3?P~}X#$f=BtF|ma|4Mu4@DtxB0`~VAuL^eG";
   "s8;6!erQ49sw(&WeGEcTE6luCf|VedCK$hLvMe^DTqjPF$w)@YnDkDgfi0662jV05yc#U~m8!%5X4)E";
   "jg{%bavRu#8ftvYn3ZyT<`6|^o;usi(GAYKBR2nd+c-V4)h%t2_%Md)I1dooKemN3Acz7fXI6Yc%Hkw";
   "fy@J{|1SyiF)Sq(-%joF>LByB5j_c+8iXUpa23QxHZk}}IS#a^(%#$=_~@O<AX96f4Em6(D^Wf*Qrfx";
   "{WFpRWW)b8RgazktQ@hV5F@fHMrbd8cFr#&;u|t&_f!%nKr<vvY`1EQV;z{>jcio0H$?Y6ocKN|v(OT";
   "P&(9Am$Q;NqvfD9t&>;yWv%XPP-A6fN&?kMHr+VTxt#c0>WGEZcf+@gdJ7gZ+b`%-8<w;iw6jZj`i*9";
   "7r<oB@wWt~<z|b8%m?5bwjt9(QiW_&(c!h`8>)I7KJ?b%x*Xk=uT+a7RK|00Aj>KYOy&yJgt;_BDZt^";
   "Z$LrJr36)M!uEG4nq#?IKQ>ROZZGUGG#FXLEl-D(6(KuR0q{jFvM4mWo*YkNmG|G9&qI(_SfO78Z=z=";
   "l`X#q8lFr;9cVo)FV%aU1<OXJHMu4D#camlrZ&xpL$XeN+LAgnYPmO<Hw?r)D0wgUMQevScEL%N6EhL";
   "=D<Q^Q^i^6{Nu+ZqOO*jT(`p0a1)iXRY+64ZJvG$cW|#Hw+}--C>y6u=DPA#x|lqLE!>Bj@l3Y{gSIN";
   ")mi!IZn2nMEjIG&b5<PU%_TasLP~Afl0t7l)+FRk;P)x;;>dxwp6u;t%O5m0Dpt@qTyPD*KLKuLrBxE";
   "f|Gy`FY~ZHed8D%Y}#^swK%^{I_|H|7Z2T!hl@w<$D_sdwd1y{O9<78aQEBAx&NE!^kW3XM+<f|Nd5F";
   "H1*uU?y2fI>UpcrEth6`M{Xp3<#F2kG8W2z7@Rj?#%F7nwn%8hL8!mVJ9RvX6a3?GH*0rIii9yl6c`8";
   "VMwXilN%ksfWpc0`FEWl8WwZl~_p)}+}lxY~XhJO4J7{$@gmDPB?2h~)=?XU#(kO6n9(|XV3P|KosSI";
   "NjOtWnrVGzx^oN06_v=Sn>U+oq|_;_Pe#9JQ+y4xiQgnx8?=Ka<8ld3yHu^M5=#w6Lpa+|ZLk#*6X%6";
   "lllv0d%(>|B;~Xl%TwBb~?BJk%_uY1fB=ItMGGB;^s-2oln@I(y`n`V*!_-9#?yppa4?_5z?kS;3E!#";
   "8OF|052W<LiD_!4P9pWg;@l6f0UcpP?Zk8CNz64u6Kxj`QL<6r6S6f;@HAnA2*#Zhc|Uj#&QIdQhV}^";
   "MPN8Tt*Pb1L-*)UE{ZxDa)(k}!Q{~}P<vLf;NsM1dS5xoP--Ury;dszAM~;W2^@V#pEG0ysSES!#mtT";
   "MRHE_67P!`yB&@xdf^}em~N{GszFVFuvz}QpSt*rK)<q3{GRG+~3aj4V$`>^w|>pD>9zeicSV=>uJ@a";
   "P&YA(p;U&GTJd(ga)-7g{Ub=bOn3f6h(*yl^N}D9PaP$d(y}D*#d2RMiBP>Zg+Jypt$)21CKi`}DNG@";
   "Z*T@!-;>YpYMhxxoK-0#eyeeb&>c;Avj+0jXgRgu{2G)FzQ`DNX%ev#0fk|i~Ev7^M#x)K4R6C*c$o<";
   "C8IkySn#+pMif6+sNLA~jl?|~>)Qz`{q+W@UA+kDj;cL7BVD&Z4*HCNqM_^xub(yPyW3#z*f?)Y{lR2";
   "!6wHr~8-F~Ujos!i|AB+{WdH@WTSsPLVDm?Hhh1M6UHld?4v!`*vI>k6_7}g3`Y#6r&x$C=58z*PHEl";
   "!n7Pf*f{lmQ4Gwj-^BcUF(o8$Yp4al&eA-e@^;8j&Z9R>WrzM(R0+4a_r&KumrjD*Eu>q<h4W-B3&J6";
   "hj%18;BuL2Wt!VU&Yw-7H<wGl9KrhwBoUllV}je<Il9s@mNOmhj<;rOEZfV4WQLH%w0sE!FMajoo?e`";
   "~r)RwvyksB4ropCS~ba7xnz+yih-gipC7R3*(ixDEA&apv?NNukYai=CkxOh;O(FECRK7q@lx|j=5DF";
   "wJolXfIJC;g@PX?jQkj^{p{mKEX_NCF*~oO#%3j8SriZ&i}c_*44RL91Vgd3djv!FL5$dk9n>$~Ku_C";
   "?k4$PhV4n8PPjbq8><w9dXT_+vZW2PzjD8I-{$1zCam70>u6^<*%jYnl9BDR|htJsKpf~b+2dleIAoe";
   ">w-mU^089J|ksM{Jamt{gm8ofU(H?4~-?ZfxjQ8W)u+IIpbUj&$_U?H@~sujV8ZLUV5q3cq*j{RwQgq";
   "_0+?DOih5UX|*AMD~MdcLWkZ-!XlX9o6X8}8vB_&?M_(KK+OgdNyH8YeFoAb=WTIUvFapyjGXo27XeU";
   "`wN95|OW8tFXWc4q)bY79|pAg*W&~9D2+|XK{~xLBW(Vo;PW;gS0cQ^X-{v^1Bgn*rpu7O{*p#8%n7{";
   "e9U$ji$d~GO7xa}jAbW;J3j~jj-flaf0i6^-X+dNUBhM$dNd45vG@8&90X)XzlVQ5cO~^j4K;^XQICs";
   "MzqlUn*^HiRK~YdP_aRB&RP^GE(omm{-dWh6EWA%w+ouX`igUw@J<IT&p3r{qy`E+8l23Z^&9jS_+1q";
   "Cq7ca6WkDold2(`W`)e6dweYT@FwhH^+$hZb4I;h|u$@cboKO~)0I2MS1lm8;g1?=v_w@Cuw-kxTslP";
   "eZbrU7sEPOMZ%gQpoHn@XBxI0mB)hX%IYkAeK-t=wD9>jUegvhBbMsgmUkD>bNCY0YZl604~W5T{%=S";
   "Z_4X#kvJOf|TF~xD|xn#4Gg#-r7ZYGGW3-H8(WCP(yKP{kMM(vsNwEm$qCoM4u1N)>511H|slpiH@^>";
   "pT_SvL(8?{rJuJRbn3@>8{r}04|vAmX$<@8jHPU3J>cuqSnrqZQ14E~)b&=3zbp}+YVJhD@4UW8gB2K";
   "B{i&|E98Z*BBQi$M0vtvN9ET5Y{mNjp=E0_}a_E)q6ZJcj`GDAEvfwoXH-mHs`lo@Xr;`4|8kBcR9k>";
   "lHog$#H%5D8(TXMp2!%Y~}z1-E~gH%EeAv7<?uQUdOP0>J;Gc@WWPd@CzmZYj+*;mW*c*!5CV>!~!MC"].

(** pip/_internal/configuration.py *)
Definition pip__internal_configuration : list string :=
  ["1mRJL<YbMpKF@oAl}o3z2vt>E4Px#_=d@{7-QFl$U12G6GTd{Wnlc0|XQR000O84rez~r#;P*J`ex^P";
   "&NPn9smFUaA|NaUukZ1WpZv|Y%gPPZf0p`b#h^JX>V>WaCyyJZExE+68`RA!BtUM#yaYDZ*jN{kh{w^";
   "ZZ~M^1W8}E$QfG2qGN7kNg(AUz99G8Z)QkJq$E4-?jCSP(b^I@9M0=ALpBJ4S4F-M*K3(nqR81Q$&+i";
   "o;(5gsuh!*Ya8ax{tGHZ=yvT~{&HiAI<;jW<7&}z#PKv7HITJaX6Ct(`8CMYux=pe*j{1oIvP7w3E|Q";
   "9;>`qimmS`e-?1pb(&=h_Eh1HeF?Fdl~6)-U;zC!aQ!dWAtE=7`8$OTg(zs@+jD`d)2uI5qznQL~p<P";
   "un4a>JV4BdoYb%&{^NlFf1Hg)CNsAP5Enu__B$v8<RU8E<}FUjs?|vrzV%+Ni+*C$mzNQGCnuw2+Y!_";
   "tC1j<%*eMnt?Kric5FA$U(Asl12P}&P(L3o)W^=81u9<k+P8E?(^3m@>j(=OQ%Kk6F(`El&9mtsBfKh";
   "C9-;nq%2b*)z)zlD5Oj(JN(n}^yu`{#hCH?GRf05?q%!Ll~8j#k>_eHc?@g8+<d*-KC9Z4s5vw5-RHB";
   "<@vEOFuinPzAEwje=^IebqUZ5G$%Lr-6b|#vm>r3EHD<@KP;!;=F*^|oeoy(``%MWyPf6}cHfHbFC8(";
   "TeohNr%#Al>4cHpTnYQJXB*u@eST!LI^{#%i!Fv%<u2KYM|GgZmaVDRd6`ug}y{L|sZWP12+0^^1#43";
   "Uc=gZ&vfGoC4~-{9KA!DRX|#_<>N@tf)C`Q!*D2De-)U>|4)OP-Zrz|YuwF!>u;P_bg++rC0~0H;VKj";
   "|O_k0jWe=+lPzE`9Xk+1$yT5jD5fzUX*+;7Gh50-khBNba-+QTxZ2qlIgJ^fsLy8ihU9(r%@Nj?<WU=";
   "5*2r;U49g@S|{0zP4ZhIi=2XuM;<nM5b*rAnT8Wdy=TW~u@T?v<CBRU9)CPMrzzmr#Jd^pF7Xi~1{i<";
   ">&p7=!IX^!>n#8B)N0W1q0m&lL`x={HC=L4^_hP@pdd^o|dhqe^<oGB)IXygzPp2oJYl1EbpEwd63^1";
   ";cb(sJYUGwUMo`rFYp)QWWUO=VO)Ay5o_Ac36aR&OKs8*2S-m|2tAmXhncv`T$kgFsU|K=FxkOIWwlr";
   "LCZzaY9H#Zm1y&(LZ3KEznCPPX@Vv{HHj@$g-8!%eJ4OH$xEC`-w&6Pbc6$;4E#mUGTR?nt|klnF+b5";
   "dBMJ4(OjKEAC*Iqe${HOXfTr#=|ii?hW+}a042pszg=_^FcV=gO{4)7Ol(g_h-0`BF{Fglzagq%?gMD";
   "AR$E)B;+!g>y$Il@<@e(oWxgP5iy8rr$8`bT*8l;<t>N;kaUG<59c*paSYKhNL@i11@^-F4awmx->|f";
   "RynvHIo>c-A(gKq$L>9`9Hse7gK@~<U@JXC;xlBsMHpQCVK?Z~=pmwy0p?1gU;Ss_}4vI?Be>9Uv(E=";
   "@?(i^QG%S6D`Zkh?bos8O2j8vJ4Dg-%<*~^iUDHw0;g`1ebK-d;5$rPjVC5FXuBVH|Ey$wT2lK@Fx)+";
   "`q)f~>TRek(*C;<qttMbu_{uxExtP*Wz|MHrDRb$k$Fj5T&Q)8XG8f(*d=-l~xHBQ!K|zh&(V9Av)PM";
   "WQj8I-7>W{|rat`USDoO$ZS_Zbr41*Do{^IlucN4y<612S+er04oKf&JLXwj72=uq}))q->1oOYbeIS";
   "eRkOv_^dq+BPopQ%5~h{rkVN(Mmf*G#eL%ri>u$j!;DEnVEP$^j~3=2-*(oFv{9VN;udn70@q}OTNV(";
   "v(D{=29NYw92Rbbg!XG~BG`N^3y<ZB&G;=TrQh22xZZ*^o&yFF&1M;dM{3;e$@QcV5y)S?ey~%Wzg=d";
   "P^RaGH5C3p?JJCIud;sat0k#(Lzq=X6D=1t(Ss|7BzNe1y+kvk>8Irl_BKpPwkm%b`sCH&&XF}s9a8u";
   "14PYOuFk;0}E=XFO3Gl%`e$F12EYXpba`o}tasq)PPuffzEYAQ6f=U>u`ly%UQ2069e!$52pYi!qEYG";
   "L+C55=N57m_ZJvMb4c>Q-`gqqR1M!NU>{1p$sR~!_~S3PxfpMa33r-it4pTgL*i)cfB(5j)?*3(cYRj";
   "CfT%bM#JRJQ0|Q)iM%0lU?w6p#)6t{mfK@$i3J4%xPi=oM?5?RHiLBN5luj#I<BmeGK8!SV86xgXw;e";
   "MKWToUz#^+02we87KcHdwpkaRCXznLIPcSv!Aspf*t7J02!QJTE5FTHHBx)0)D$rXY)_@-q(1XXSsXr";
   "kk%}93UH!8^om-Vd2#+2H*j|vaWfa7-IF*7-_VaSx(Tlsl-{6qZESK<U}r_SQ5A_bJrQ%5Y9vxd%-n`";
   "!(I)kQwo=V@K90w2b@R<%O`g8ZK7K;GlPQI}3@OJp~0h6+cnbLIrj9Aor-&Y|Hf7lZVb^>T}hka%1bF";
   ";4+F?c8}CVrs}~SU;z9t7AN6bc*XsalPcKf`BRtDXLA=j4?9l-93U|S+)Jhi9loaFCTeMxyG6h6O=C3";
   ";CG@K(T{O!kokhf1uMB}1u2afwA@fE+LBN(WL%qYbopJgY26oL$B?P+DVX(ABU7n`4NzjGc1zec16*V";
   "E?cI^K-!D=u6HpVS;3tt@X~ZzvK{Cs6^Q4@NdN4Jyr?ugU1!<!J$c<gWw<Kc5BrssEZ<n@mflayVz2S";
   "fXY{aK_Njtknz3lB)W5e$yu+vc<6g_>a+m@|@X#q)ezQnCTB69K$?$r^6>WX5l_qIhMq~qS$@{UZe7E";
   "K@Q=ogF@fN5|olUp9wzT{^4UT15H6vRYhR@zq6F6Z!&gPGwtZ96*6HU2Qga;NA;i4MFe&zO+~3c%2}F";
   "st8;4KK)n>5eTE6`Q4P-*)6Ph95IHNz=~YLC-kQcIfTL>Uz*phUW6pm-UP+6GULU((a5^B5z{g*=D!U";
   "Q;1`6>%7P2cDY~M&ORW4-DdWuTNmgCJ;@-*T{8MJ9rXXeu6qnL++m@;s1{A%%#j>h`myf1`KCDPF>l?";
   "5)uY*6qPL=Hq)}(|mt%Lbq}PB}Gsud%d9J%o>{6r$FJ}=ugYpcBK~kb7KY$^2wZ4vm4ylgozjx}kRkE";
   "R!zA6DxB#TN{itdJbH{(YFn~I-^0Y<btHS!g%il3BcPsal%mw<D99UQ%Y8QOi<QgTAtdn?$7+(0D?K=";
   "BXd3q<g~_tdW2hTy(XbwfE4`JxDePf}<^Qn2R=>a&Gz{k4=nA!Y#3NDw=+&+h@oD_^b65l(1(NbsFH$";
   "(m}5ECJJ^<hfN)a2Jfw78hHM0FM%Znj!Sev<%OrxCLo4S*&3%rtW{{)bsta{Bl)_MGpq<hMXPI5MVI@";
   "VFQZiE+W?94LkcmW6nlNDF?R%Er~3{p?8J6p<_!F-E&n}aL7|IZZT=3^v_a)kY%-L<k5h!-9qpSJ=a(";
   "dSwmwRwEYrnWKS)QEH#0J8JHRch@xEU;@(6IO*di}#TbcWC4n`Na>(hArI2g6V<F$H54aR^D^|ykzBg";
   "^Hhda3T7EdF~6nG200AeW297{JSSWj|nvRhOB&nn$s$+uePs7}2X@G#jbcD-uXeRWwMam_Bj+kXk*35";
   "tDi{*>S5>nxk~1|DtG-G<Y}jVS407DcnAIm*&CxlK1w1x{@}RP94Ra2}-Cu;vpOwG|91>$Q!sVWTdew";
   "H#~>=I^(T&^VmN^+AB+g+6e_n+!HOSW84C2y=g}efn43gk&Cib1ViM!ZoY8>01>@Uv&XRZ&>r1i<XaX";
   "4q79-8+ls6wWexCQxF_JS3?%oy{YGFWYf^txxvx>^n)=xFcbNj4?1sK5R<lo41|qpdvc$a>s!u=;kq~";
   "2R6YvN)zZ!!uQOQ3g(xW@-=$#-l8oAMf%wwZLyNnf_@J9|ww!47)3zj(*G{-Y1&kr3K#GAHzV<$R9CX";
   "&N>9xd(2fvkE&n<2b+rmU=u(%OSx~|yhNyl}_pMZETM(n|St@!H)=lWPXMc}U*Tux+1-C%7m;nYg$>`";
   "v=ut4f|yMlHNuH%6Q$V-qE`i|X1+A8n;YKCI|W1t?0cl_%iIx?*$qUGe&CMU$#4_RU?g8DlhE7Flyh5";
   ";;SU3Z2qnQ9*{jSZCN5&l}L9&y|u}>(6T3G|q`Nhg@#DgS9vT5t+Ta8OEYV4Kl;Fl=0JPHZ@X>PzGVk";
   "TJd9AO&@YGFH(NQ@$a6dlV<gTbGEFiQtiKZaSdo|eT6rjUX+_Mc~Oe;g-~kE)r%i~{Oe!7q)_X-e$^i";
   "#fqPZt2Z1^HSM?dp!y}t769_<%pVjVj7X0YTX?R&g-*%9IgmTz2=qY>+n2GntPv>me{g5~hbkypp5qr";
   "e!SvH9op*{bj^8VY8zhB<8_yPSrdeY_l`}KbgMsqL0+}2l)oSFUYD(^l~9pieUVLRXj`>^7^EfBD|Vm";
   "L5|5REk4Ow<jV81q`eb6Xd6Yxn$#!eVL{RVD|t!i7_IP!ZHHNvGUV6U*sL+LVMCy_&0@bma*U;T*56)";
   "@S2bGpxW)^vSfoy=qOQ=O)u$FFXY+ca+;-^EfP14Pu{ThOC>Gm?KF5zO!IE?V!%1-_j+cZ~HH9dGnez";
   "ohE172bw|tS%POQUwvlMT-q^$uxBO-5YJ(J1^d?beF1?u(gPvjiu#?tNkg#Sl_ko|_ViI?kU9*7en_q";
   "xo$i&ffJpZAolM^lhF|`$KeKny`am>|G`-W#1<Zb=yb&ByZmn(8&tSj&^2@$9T=)YyaK6-6AJ8N#UUy";
   "u~36}hd`mv>%_N6LML7$Pirn!L5(R+T{xjWMKzUG2JML;Cg=VIEi!IfNh-qs(ucsDsY*=O&H+xniiuK";
   "R()y3$x2mRhWHqU4_J_l8-vv`snGsB<LRR~hT;P}ZWr7s6qyumt2xcR{vP$lLqV+5(*0qL=Rdq<Sdc=";
   "Xz@5Y|zI$!so5G?OZV>x=OrC^d$(A4}e2+Gi%F<j?0C;wc67e(646hawV60c#EuMQ#rqHprSS$or9el";
   "XLy&heb!FqNqu`yO0EuYL<>_ouifP5C~*r5zAkh-TwgeI|8oPX9Sl}Vkpk*sSNf<d=XdU)ty<MLf_tQ";
   "iFFaW;L=Hi7!*2C`X)x4|r%Et!NS-UIUv(#-SBd)ea?hgpV&*3VI+{|k$c<3^QgvI6`b6f(b7xJMnRX";
   "&w`f??<^)$Ry{y89~_atd&q}*{g#jT9E{{Jp`vrRxPW{N7jn?`HYLw6s%HFsqEhC%Bj!Zpn1=tOmmu?";
   "f03Y)S0~oW#KxHxMYXcU;IDM5PjY`Ps&A3w_1?u&w7y-+$@(k{5+Om>cVzn=0)B(F5%2a_{BrcVy4*A";
   "(2zj*L|67;I?HKUGPu$c&yo>J>fO))-jZ$((Z8YBzE_4PX8F&Y3h)65q^xFdvnimt3TMA{*LT}hsW^Y"].

(** pip/_internal/exceptions.py *)
Definition pip__internal_exceptions : list string :=
  ["8~He@%TUckO!rmeII{mSVcfa>F&g|AP)h>@6aWAK2mlUeH&Pz#fx*%b007G}000{R003}la4%nJZggd";
   "GZeeUMWq4y{aCB*JZgVbhdDU9qbK5o&e)nI2QywJENbL3JgKm5?j$_B3#*WW%(&?lb86qJGHAScZX<N";
   "<sf4|)YKmrtHJITGArj11rSOB|=Z@*oj*XteKr(#`7RTx$ok+E{ARkc{Es$^@P-tdL!^?G}IbFEfvI-";
   "OT#rNwm0<Z7*S$@t8uyeh@iKD&0Z6uML@H@;cA<gysC1&ChHHY29RT5#WbE!WBPRuq}iiIMld4+??*S";
   "0-#G3;4C*c~X@!H%Yl!%VObsoc(_B`}FYS=<wI+<@@vV)AQGRdvf0K^JI^~hor_54hopuE18xf_C^}`";
   "_bsW0=OcC{?qR}pzi`s)o5fTMqbi+>ddaV#zm~HK`*(NK;;%}W(j+UDiAGnK_U93NF>5f3=<Xe8>f-k";
   "wceVlHx6PzdRm|mL&9xD_y_j0HFfaTcelR7^bKm#WKH~JG7AsLWb%2Ip0#>E9#3eV&T+V#o=?Oej3s|";
   "UlqAfl%Zd|9my)@^>unW09(pu?3?XW{D2i)@|Hv$*Ignvgq>v|s2qAShug_YrjH6mV%LTH{h5|}KUx?";
   "Imtq|?P0O3W%vz7}*2g}yK3w}`EZU4qY5A<jg}GhXstV(ITCmk0rOOHnYMf-@Tw+&eqEI(T((b<kr<v";
   ");w8ug9n7$8URV<z%us{LV?j&TWx|`+=$1pCSeHC^G7Gox#fl>^}7(2Yo+ie|QaW0jL82b)_r8Kt#}K";
   "A<8E@;p*7{hGIspWX^TI!3o=i*NYh@wI=9GCguQlvXJF;Ixr%ik61>C;0K!)d?kjBE5AS}5fe5D7dm3";
   "_eaOcDrdiZ&y}t1?f!)YgBz(dSScjUDcH3wQ6Lz%}48Jio2lN(=S!M#wXALQ`S_*y!DKFstPTLNX&dH";
   ")85}YdAry0jDqIp4!=s8p?EYWGTOM#>>XcD}65Br<!eT~}^7b(zvVFY6!LcvN>4$%u@hQXe&Y&n-Hud";
   "&xkkwuzU8KB`xX=q!37p%B7Q!Z}=$-NcYpz6_Ia%Dv{y0AXQ29YlN<YAv5!u?P|cia_OV9p7&=_hv3S";
   "VFf3M~%8iQS;$m^Ud$^&~MIFd5kj{Y{68s-=nP_O_PCZ6skn;u<IxlGa$muH_%cy@E<}<5Eaa^%*6$U";
   "7>hN}p2Wf<8<|$6X{8OrSVdkOj%?T*#sH%gA_-^l65{3uYrunC3!ZJ<;3DgQyl`~dHwyf^T8~RL1{*Z";
   "40NaXtF2tl^+={lr&&!YJ!LviPT7eHeG3>3>WyNz*+~W4*5OAm$j)Ep2{l}q<-tPkO){3;9Zs9aa0gd";
   "{PQFDyzMMc^SN4U`9R;tRptYn_OlKR<0^$lvt^`^*~1CK(}%}^A$m<B9UdJ{z^QQj$i0};A_myblfld";
   "G!>6zZDU6+H&l)L^<Y3nZJCNA2T29Wh6{=&1{Skmxn!YvlRZ<0yU#V@saPzr~I<u{&8VA!xbLuL)qT{";
   "nV~&K^F4OBk=3{0Kn>yAqEX-2zpQ7;@7oiph5k;ZUSs>5D(*gkw6Y7jStZ{K8lAQh~>O2^+4BZ?7Qau";
   "VW9MmIY)yhTPvv6LJzuCZ1HlK)SeIx)8P=cFATpSIJuAjKMi8_4g<D$3$Bs<wiF^qa71u_3>IB`+*~3";
   "jsKXvf%oRZsNSB2b`<S?(trZzb^2G48fbC@<4gexNCJlk1Y(gD$Dj~Ns7+mZAVQfvTZm*W$NARC+gYK";
   "3fSUcE+4Meg?EU!VYb6{*kU%BKZ%M`gHjFK)%R4`}_M8Ngb4CTU@lx!GcFJ7l44K^om2R%kD<q{fRU%";
   "wEG#s2lRolC<EcVG=5+g~G)De`PYXjgW5&UXGp>~Mrh=Qg;IFQH)A68I;6L1V!i`WwHZ@!=Ky{dT|ZI";
   "rsy$0K<W84M0Ah1Kxv`;RlE*-hx1H{-Gawodl;|%_x}vD41|VaE6^p*1Kx9)(VO2lceGRK*Bc$E&~bd";
   "oP)WuuJkK;#Hv;SDdgrr{e?-j471KidD7W(hZ!45gvtJ)#j2YjkX$!U-)_U$7ClEIEFywlu+&4*N!&|";
   "-_L7$nz&}4AU1hyi*QH2rXtU*NVTj?*E6}j#Eg))Ll}XcU=-r{Eh|$)f8@prLPc}7=nfa{BOSuLXSU0";
   "zpEwBco6>>880k|v1Eu5$ph=Je%yJ^EtrEc4llxM(FA3rsXv1atKp3kRd6uw?VP8?E`uA%ClkB*r*VO";
   "GpHcn6X|yMoSP3}|a`BR2avU(GVkK!!+^&V+9A57cX#8@DDiRr6_zm8`;-`hu7UtwKrDDOr0uZP5Xmm";
   "0u$WOO`;khaF9TrjZ(wnaVb>I-Cmzfp{)WPhd9GF&@rsk^Ub=KlxM1VnA(%?Jd;rhl(y#@wd?GDP_-;";
   "%G-kQw@@jO0rBP62qk&pv^qA^V|$7I9uQ7ekTk%ifp9A+-}8A7Utn-9*-fGDit$3JjOup6*!fS=TMju";
   "JddCC;8ty!1>~^DeLAi?N1&%k{P$-cpY-EVi^I%b_g7G(OkgGePT^VD^$@Ks@6af&1Y~TRG6n)5573L";
   "ri;YEo<)}r_f!L2IRvOosl7Go^^03j65gaA$n+{8efbCrM(hwo|`nLt+*MJn+%=q3}8q#|G@>>!8P+<";
   "*Y%ax4onv;%k`p%i)rIAcngS|ufc*3iMR^kZCZgU`5PS3g+ie1i+Q6>P1LT|u4!v<C2YQ;#5;B0d#?f";
   "N0%FN6RM?2Z7jYD@EHh#L_9q{}&6P=>$N!<s_cA)dQ_LQ2{KF%wbWs6w{PUjl*D=BQzTYb(ub85w#pF";
   "yQj1cehXg5X8`1aYoK4+5k~KpmI6`sQSSs_mH)WC7>i}7Lg)p%7N1Dt@Hqay5h06!91(&%8#gigwfl|";
   "()qudK(S3mjMHYk1-RZ~K)2$0Xq*WN0gX?42JEy5z=4$YH0|ZuLor8x=z!mr!C0diAuLQ-BU>sL3eA4";
   "#7mTuKeWcm?#cm$PLTmy8x@dXfY$90vXp>Z$cO0n9T!`203PyNd&b{PzVS%n#`hgbX_RL3l!1&gAB*k";
   "JfSNYwhDAO0xXL!pU09i?az4zx9mukw^_JBCJU??FiSp64#U%AG6lg6=U|rli_WQLSc>Q9WvuI;8~}L";
   "kyq(fevw4zbYsgcvS7zG3P^SFzf_*XFzQNo=$<`4j>r)PiDfFOu5hX#+VWUlN*~2fX-?><Cr<>Fn{uA";
   "0e1pI0S1C42bkoTlPr}LhlAh_fgg;^p+ijgXNVVr-XTXRF8bL3M^ZqQCNh|*v8^7v#g*Mu?f?rQXwX`";
   "HMbRycqJ@#A(hyoEy|9?;YGv<r{(qy%@4rNon1D~d`>tD~&}7rr=2{`8!079A(^46#<xJ9n)e|ZzglH";
   "5LZb481)k|jvQFLp4KSb;6pV%dFUAqP58*DswPh+>{6=gdpo0f&``|<I?%1+zWC)6tTvxJ@aLN07wU|";
   "_VdmDv&#sge^OP*zu3o`Z9NuM$bqU6Ct}O5i$ON<1HK$>J%NrE@e~1}rDbT(aPgNeq$1jjHr^S>E8Qm";
   "OL!S5X$k@ngUkB2B&ir0QR&cMNtq5*wSBHS-hZ`jj)rjunAeK1wo`GRjIHBWXXj+StvF&jcrLo{>Mo>";
   "$*@1%SxjE25{MTaOn2e_bI<q!F*Y8PPdcC;02CNGBW9P&6pL3wZy(r|(Y*hxOc|JQcda-W5u7%7`daS";
   "ug1u51=rNTVcsuY)duZR3t9M@2aOQM}{Kp3$-d>(w9ZgRT-kmg2$eU?D)@2ZT;_U4OP#V%+iZ=j2lkY";
   "FzY@?eQ)vOHL0(LAUObi>hq!}R!f5NzZ-lREY8Q^oag`X`Q*0m+sEX5W?m^*E?*aap|)mr-cMCVvZB(";
   "70Q9gq{h3gTCxhT=DooVMmjYlt{hBLQ4A^i&eeqkn;<C6<J$wcM`pH_oCum}Q?1fxvevMC)W%Z=w<lQ";
   "POFFUxGa?=#R(?hTF+Fe*gRcSb<Kp|M_7O@Hww5fcGtiGTJqZ&QIi{U)Hs~`QkYB-sPj+fhr710KX2O";
   "m|2Td&e3ZymQWxA)O3k0Sb+N$DT#8Ce>;r*7>BXbogoV=r;%T-5Os(a*f`R{Qa7UUbE4q0zmGX2#tU1";
   "npY*pvHWl!@R6&2E`w+AXEt9f`1eU6h1jm<cw(AVO<AQ{Dk*&Pf3a^*7a+6EgF&)HcL1FI>uca~Cxfq";
   "qZ^I$sXfJP05t&p49D+<x&g;u`n?etS@r>m2rcSr2v;PBUj*GKQztGDd@?G-yaxH>#x@Q$I6!tckIZ_";
   "nuY^5{SBPcM(oj?S;%wJmjg`sOHMF8-21t93?sT&Nvy&k=)!1A)ReY71-VMZ(@9KHf<@Srhksg^5Ne5";
   "m_jCQVJ{x>&BaZwWWD5TJeo@HDV0joj}?uc_dJS&#F5tJiy*F-IsIH@*|zPP^}ieefnf?{MldW&e^AD";
   "MRPY6R&FxrPuB$U1%Pk4T#>uMPC(L1lvxpXGqw@+i`Kmq_aJ0}w*fmygL&>4ZvVE}LQUotc%^_YJuZc";
   "#YPL#YDziq)QFN}Cz|74We6c-$k9Ec}4D+?rA_n)#c9Pyv4|pCb+uo?0X{uJBR%uib=lJcHUy|b2-|J";
   "kz5kwXv{nII?xCe~JjTV4dkmw)5rh&~ine4UKb>usmCI8{)Um!_IGx6Mi9#s+m(f2?6_|wnN{ijpdYw";
   "#@h!2##b{inPBfEFQxfS(pqr3duTx^EYm#WQfaXH2`g)$SOU2~@yFHFW<>q&C3Pjv=V|WenZ5-Bwg)z";
   "7s^;fSt6YaZKt7kgzHZ*)`Q`4d5JJN-FUdlZhFRb8ed7;A6d>PyQ<Opl@x__g;yg=76Sk#1t*ir{?a?";
   "n0GO%LDzSv2jM1eX%UjMxx9yQcIZ569G$(`S>vbnPoQPNzAd2Pz{(%O)P}>|uGk#k_yu$g?9PSyQP;r";
   "xu(-GTj$Qq!F)J`d0w8QL7@%RBbG8qNI&NZIY#=c&+y%7f-pE)}r{>;angRoGc<$)58C%IdkdhdG>>g";
   "d_h^{*0Rg*(i<=MF^Uy3)BDh{?ULpRg<t+_XbWeRu1dAFpycFG<~@c2?Rg^`-S><Y^o_=76;dnwL_xy";
   "yw%ckPYX9M$hGXVI8DuVzt*u8aS;3xdb+ZhK-6U^~uH>Hg4@YTCL=<PKXS|FNs0BYpf5znr@}u=DzwN";
   "&U*QKX>`+8w%P!=d(iv*R<m8?P%r{G=uj-dbr0vKP0^<w$9_79^cZ(51!fSGF(6~;G^Ru7|H)A;_+Jg"].

(** pip/_internal/locations.py *)
Definition pip__internal_locations : list string :=
  ["^p{Nzw|onx`uU;Px<!EM9z_EU_x=k|O9KQH0000801jt2Qm;+eq!J1M081JG02%-Q0B~t=FJEbHbY*g";
   "GVQepKZ)0I}X>V?GE^v93SX*z~I2L~QuOO5M+g)3p?qFvDFS3iG&CCSTrbW}DTLghXOSH{K7PTa0$6K";
   "VoeZRwtEIDzfn}?X<<?!6kcbFu}Yn5{=Rb|+2Ewo@e!Ahm>*ivbht7<7%X2N7;EH6uDY_nWWn6P=0B!";
   "j^j`>+<+S(a)is}=TdHlni3tW{GMY$2Ey8?_Y$<Cs(%!D=P3E-Pl~U}GCCQjpo~>-`+mwao2Q)x-}k&";
   "wu5m5re@}s}0LCzdOsA+|){2#urAFjTM>y9t^^~GKW!GbGwe8b;&KH+Qe@ot!T%4(;0fX{l$fZ&{md)";
   "9j`NP4y)OzV<{<xS4A3i7|2||{Qct1MfS(V=WE8!nBCW6&g806TKph|_}OD4OlILs&|WR;6iZfU=r!G";
   "_LV&Ev*8(Pq{J5{Dw)dpxbzMkpPVOUSq4c=@)8*Bxx1X+0Z-?CEIbr*o&+k5GP|V9eviBdat}d^Bo3N";
   "Z4d;0uVYTNKqRNF{HH&q3aSyL54XNPq-$nuE`<^zVmV~uZ$NbaRqBx(6oTn}@HlYJ>(!HXyCHFi(f+u";
   "+O-_OZfXKtc1Ou1o2o4tur8t<qAM!N=>1_u0!AU@v=h`JSCeWv7jSBsqtLGJKB`C?XkyR3VmZC2Y3gU";
   "zE-^63&xtg*G5O8hgQ_XN|^e`cH~5H%rk=zwZTN$_JyPF?BRppuyDAE#-~Y6xQ$dc8ytRg1cC)R!9Zu";
   "D)l6PPXC@T9LC`JPf6OlNBet*Umw!155ttAklWES#7r9Qf?b!YE0fWAR%@}8_um%<Mm=Tmc#!@M<e=A";
   "(7}77uMk8XvuT0nw+lFIz2oWL<$IsZWm;ZiqF=ux|)I^MOSiUP<nyl20jU;^DV2BW5R*)lby{Fs=p2j";
   "U5tM><@-{%V-&;#xmjeCqa=I(P*TlV()LTjb_6wlaYML{Eaw%aLvM=n|ff7`P)?6?r3f^jOoL5_wb$P";
   "2=XqR%1pBkrXg^=6%QL-vP+Y_A%|Q9i`I$PpvB2~O&RBj*+Lf~r!juyH|0V5v0e(Szwd^UjFy#{BIy`";
   "wQ!Y_rXq4(Y02!(B&QypcHHa-)GF5g6fT36DOs-6KqDBomn-jofpp*vYMr7*E^&3QCR4AbTG}>g{|`d";
   "Rw!YrA*`I|5W_kL*b;xGtnQ#itJtbk3tqbVGOc-j$5#mM0exoi6UJ@}2AMf?HzqYITqzgH_~7j^f!x6";
   "1Z+*#yaFT47b0h`|QqC65iahe&{@s3PIwcCJzA43o86j|VZEbDlGstciO@1eAs`Ls9srUY$G^P<|_Se";
   "7t^vkTJG4<*(Q(5IollM%CSp#|``vwJzQSeeogVU7KY%H~@S2mUCQV=w7TSns)fI(;k^7%PS=<3A#@U";
   "f1bD6d{yo-9-~8V}l-I%6N953EzZBvLIUNr}v>4Hh+EWI|~Sjv^`pof|BpXdz$%p)D^PLEB{|t>mRNF";
   "m3cV?=>zd(=B96{G?A@4DLdxzOYD`3&535#6F_n3c&T{hYMG$LhbZ>;jWPSySeK+*Rr-IqzO7e7aSjH";
   "FMV|43|=J5LN%5+Gi(SFLxzO^Nmhm0K}SmcE9P8^zepF^!B{i$EOv745AaM^jC%+EjAwu1ke&apOMd)";
   "<ppjpd&MAc;swviHjnT6bh`FTv;rt(Pt17rILdsfd<Wfqu5uTYq=|yQM2Rc&UX0PRf>ci}{TA7)nL*#";
   "eTu3grC2|TV!kpcj?Gg~PTFH!eSxDa7C^IvW$iiY4}NA@DDa*+OJ{yePDuJ;CYsl9plgq?<c`G%n!cc";
   "RdNL|+MLHlxZhagOZK`h=~KcF(U=g`rl;hM|Nw9F-;R^4z(_LBG6@kmn|Bp%fsK8}`3l?I(bB6BlovL";
   "NvUK+hg<M5pH+)5$vPU0mK;}u@1Gh0&~5h#PoGYk`LzxEj%1j_JKWz`TUUJpv&R6x6zJKDF;imSKK7V";
   "#isj6U_o}1OsAEalB%cqa+TZ$rm)myb<~pZ9$&!AwGo+5p4n2CE-TTJT71D_GQkto<{0bVc8(M-2Zs(";
   "L!`x^XbUXxH*8(z~f6$Ha*Kh-ttved(wzIm^0f-U2AD!%9CUh>Qr>nOgfWVBf4qv!9M&OXcIWR+kV`L";
   "$wV!1?>qQdByaq){aw-NX!Q1dYdKtfQ7A~0MXy5XWBfXkK=+K~ShneR%Y?f^0hfzA5~8s=f){28=(a5";
   "9#c5Zf0OVh!-8!<k9DiXn}-1mr?D0FDVuTu^;|h@tZJA&Iz|R$>T^ACYom_DQ*ze3BHc^hwDyB*>^=K";
   "M{SltM!B5%CyC>A+kC%Vc<ylaoFKFJ@<BTt27F0lsmBIe%u<3!rBuy@#w+p9?|*WqZ<eB#GZgrr`zuI";
   "1aAKgworh<r#XuBNTLQrFB}4bV!15`aUQ^fnOfv>DS-<>A5PiSDdIA|eZ-{mOrXKpI~@9~C4v%Q-DAs";
   "0rXnR6V)>nL*d!N)sB-9IORlL<4+17+vEe*(=n6CAlp&O;X34b67^3VMFL!)zo)KS+FRh49|5$bZpcf";
   "xi0Y&dP;4E09t2MlpIToew0b3t9a}F);sfCr+f$#qSG+NRFoZT_MQWQE1fFR~Y4KGR2iH03^honBAQ9";
   "Ms*adUgfDC1*$rA=KR!;IXvpq%rb1}0HM{poQq<BxWX-aCeC!Li8<Z;wGkuYZZIJ?YItio9$JF+7?ks";
   "Bt{!F>R+kKH1ri`zH^DxSbA?MrkRCI=Q#sFOoo6rLscHt?0;TU}5VfA9sF_S|zWmB<L!+9glCG-}c+c";
   "<1OD+C;buIlSi{Xc5j}~Z~I$<<e{YtCBO5k@HBvF>tB3T=pveSkwA!B?O>b}eOl!I&vzXoqsO;(u+m9";
   "N$4?|_nmVL({TTE7CS0S#60eJdxvtLCswx7~rBzwg=mUTqpdX|Ule(wgwoZEms=R5NI_i$L$QmZbyA}";
   "7oJEm{G<+9|9QUsG2&u?r<LCJ(((Y2&M&qCbdw-EQ~+HT4-Ub>e*G}YZo?d?5xoE}U%cem0gK4OKIjO";
   "2rJXo<Y+5rZ!pVASE*!`nxAqz?WX_qhk<&W+?KbL=hXL63y@je=7!ttDO98P2%cdEyMM#WSIbchpK)r";
   "2`h@Q%=;f;r)xq1Lr>c{j<t$E%P-~RD9aw613^%MvEztFS-O;gvyZQ<(6`!D-k^?O7#a-tWYk&!14rj";
   "bj#+q87$j*T1AZ<)ye>GP+|Wzd$d@oY8o~`u%mp;{M$o^M;{)i^yybmYV^<p5eoc{Mq~7}7~|=t=qRs";
   "vq~<}EOJ}V{Bj_6Vq}9n;*GJ@HEsF^>d?%g67pq{qB|IZ_wgfjmf0TwN9R<7BfObpx?ruTh<?T9s#Kr"].

(** pip/_internal/main.py *)
Definition pip__internal_main : list string :=
  ["O8e^5&U1QY-O00;mMXE#!Ed(AWz0RRBC0RR9M0001RX>c!JX>N37a&BR4FKuCIZZ2?nZIDk(!$1(l@B";
   "1l+dTF617eOuPrT7muir7ObC2W&PGLY;pGZQ7>-fc=1q01hY$IN?ge---<0)-?er^wE>Nw3sOqC+581";
   "9ic(!t45doi88nme2XeD$Aa-2V<x@AukNXQ|(><JG_wS9NvPGk0HjG5-aE|xvAw^ZZhw1c33{!Z{h-`";
   "$KlO>cO%N%?F`OuAvPTcCzHu%Ljv&zMnV3<5-QK&+Y$=z#J31iFa;IR#%jzPK;rjW*dZ`h$moh#a<n5";
   "&%=oyE7Pc(ukPaoPjYQ@kh|s78S)^%A+Vs1m@Ld{)VAF^&C6OK_y}Y=-N{$8paGZjSPI(AEs&eF%f3p"].

(** pip/_internal/pyproject.py *)
Definition pip__internal_pyproject : list string :=
  ["n%`A~&Xdv?F#$ZBSO08mQ<1QY-O00;mMXE#!Lz*)Mu2><}-8~^|s0001RX>c!JX>N37a&BR4FK~Hqa&";
   "Ky7V{|TXdDU5MkK4Er{=UD0RX$h-Y#}|gXt02<xR<oIxHMfPITXQSA<z<SGb@v-NO{)?_P^iEkd#PU&";
   "Mo?_Mu6DTa5%5eJmhXVy=P^)>22SMvSf1K>drF0HoEDpDBbU?EB{>T@J*ZW%^c0u2Gvx$X+&kERwn3C";
   "d@pL-w~e@RGOcWj@*q^LyC7ra(}G#OZ_Xr&mRApaE7i8>#D9C)iM>#EP=2Ehypi>X@zsJwKjIywvZ7P";
   "GDa2DH+Qh^gWh`$Rjt}2<o$jWV^;R~fu*Vi`2@C)A`Sx@9(=Ts-`nCM<+xz!7@Bay5+DtsYzGCnpt*M";
   "3|)N#SyNdtEOn~dVk)zwukHmsDUY~V$yH>I&%uGe4YPR%RSA+A{ti|1_lJzHzt(3?&`4i(Gk2Y#fH=$";
   "onpu3s=zIA>hdg9P}UM^e&?{Q~n*z@A`diCdXD+hDTb9g~WoCA5C-P2KYcQMSjn(_bL@Wy|d@?-gcF)";
   "TPmVSBbKQlvGxC$5SU@A94czrx&=It)RFH{8oI?Qe9TIV6$Q00t;vcHaYdTN4wMNJFINkU|pM??wgt^";
   "ZP{9|Udc+=f`lPu=<)66?=UoR(9i@I4lAB41;g7PnM!sFh3azXgkmc!ZV6v4Rv|oxK<0CAna>d}g7E#";
   "=%clNFl0OT}p~OJp*fRO-Twu0fccf|NI|84~))*jF<JW2@s)y(qC1iGWAJWxmUPtM|u(^uq4Wv=DfBo";
   "~{7Gr`!S>9ol-MbVeYa`i^Ljyjxu*JkHu(?G4(l@6?Q4|Fg#jyE#7@R3tmc0XanB57MRszEu6fWksyn";
   "`*Fk<FOA(OI@+zi>k;;9-X*_5yaQ+3nj~h613s5(dg*`*-$UD={cZK6}Acq-MvBnpq~E+D2B=Hb-V!Q";
   "OS)IbupGu5=yY-ovsLnnBF+2-0PW{a&J%*0{%?}BvgP<vUEtul6?Yk`s$ZPh|3-Ylv@-CmIEYA#X%r|";
   "!cv4ckn>glfvP?VKZX$-?@@%tgrL!`jo9+)$grK5>pu;TyGIG{IdhXFXvq@`k_q7;Jc-#Nkq(}QB>Qe";
   "zTvj>SN-f4XL`1sT0mZ^MP+%Bjbo(qaeM`=*v5uKg2ia*wBPtdeaE%;?TGC-o&{}7p^DOtjmMA%2obA";
   "^MoM#7tI-)XQoz`|Nzj<gP`X4HG#DxfhrNN5H(^{PmOQ^2S#Y0W{3V>WE`o~gulmMer7rGTHKgE`SpR";
   "265o8_AfrWfS)I`Ow{UH7brLllT_`DQ+dP|QmQ#|YO>8euxm=-tx2%iI#t7;$}RF?GMkDr}bx5FY)A{";
   "ZMfu4BPj{QYHJU@}mC{zGQHYM#!@kxKwGiq<+BZv*ED+5#ChXbp*E#Spq@^e2IW%M6Bgf=_R~gx(y0O";
   "Rsu=t1$zyl^GbBvY6Id>9RI-mz<L0Ts_HxTxD$#taf_tE(mBW)qz{sViC#ri!ywv8zHXqMI_O)qkz2w";
   "T*oKfOulu16v7H{E?YtHMf2(n_<a0k6F(6<J@~$m-348;17@(Ka+jkD!5FO^lWMNShamo+1Ic5`Nqv(";
   "TgC^v*2e~how8tXXX&lyw9&l)fLSsI81x^X@}a7*bp>ov>H*9I4AEsXc!fT$OsJ6$rCc;wWIed>DQD;";
   "fMv3K+fgHSh5w!wAPR|9`;>W7R;Q9KHsm1a$xUJhc?7Dj5w~0iC($_S{7L#PPX1iQoO%iusF^<eT7z#";
   "vrB|3B#lAfa)^cTkJ&~eb_q@rm&;13%?XI@h!$-IidoGsEUo~08B+#2|L!B8I5U<2LvcV`6(_n)Kpp)";
   "SQ3-GYLzx-aQ6osXNW66?cv-5hCC?!I5_K=##Unmq>eiaxB*}7h0;tyih6pgq-kD(+X=sVhhm$)!)IQ";
   "H!)mkv0)?Uj-dw7E&+SJ;PW$gHTCdn!=~5ge@jU)CB9&(GxQcWbcjjIo{w9iG$q5Al6)wks%}^OqMQW";
   "nLL8xEGgCr8War1$%4b~Gj8CS<)@z8v}Egc)hG)F2RhyC8sJ%Tn16Tl2B-OST4Nvj6N6qqCSJ>ZBSb{";
   "(m)9j~Q3A$aaIl3ej5s@`plP2!0hR+(s$6EIlA4sbN^oH??G>@a<c49x%XCi-*5DK<dGe@&V{3rDo<n";
   "%!li>hD*7d0o6IUS|uIkww{kO5sjG2JmlOT(~XaK*O)g(v@{tW}|}V3tiybXc5rHqh+W~<sgtIwvcfn";
   "Oi*boH8@Q2zQHnDA1RmATYRk#VK%>la<`tu@Uymuw!%)L?)NA(wm@Zj7#_#K6T;C6G2Rn(SfKmuE<uI";
   "UZac+=x61ULH)!DFzM(=Jv9sww<O6~;a4_v-`No4HPPY<Nv{<E31>+dWzPcMM@q8IsojJqIuQcd6Mq?";
   "|Z_V+tpv#*`tMyuy6T*5e`K2nH|0qzpdEU`0eecT{A+Zpx%WOE#}0ky`$r4<)B!iy$-8lEs|eOy-I0J";
   ">n#uhj%ikYO&(Vz*`|eoYMeM7|g<OaKOCwL`!600o?mT++cBsXXCX;|w37O>WYVhG-4J^cBbHqK(jmZ";
   "qZD*`fyUK6GAb>`aT{orx$=hYW~O3pAL9>W;%`j$+4F*aWQ<C{463Anvb#K5bO9dflf(lI%3Eg4|FYb";
   "J=OQ?H}0lXcgX_CP1t<&-gd{7c1Ab9d9-@Wp1b;;xHbMC>FW#P{IYnT#C=)?elBJN5Xy3?j5|BIz@GQ";
   "Rpe70r0Lq`b=YarE1}^?gTsE9CUiulPd0Or9u{%t+c`RT0Th)n0(TxWT&bxcJ&K;~*@O!*K#2fWHsL7";
   "$Bf-w^W>?WE#wXBgryJ>TbXAO+2k+dAyBZsPV>@?;hlYFLNKO&c>L-vg7-p?S=Lt|K~s_Ef?{Q^qja0";
   "@v}BOM(YP1K!ZH<6lrz&RyEJq~KWX6`{xCf#NV_ED#N4R83tCPl+s`;hw~3Jfj1CgXHbC=52P28I~v3";
   "B&_D3O8cWJwi+}KOt3sf1uam){Q2d!NbvL0m1}DYPegi=pKe5ev%iMx&Z7*3Kq_C6r}47a7tN;WW(<U";
   "19%USUxqW0<9=~=YR8`aNM?d}uz2IyH($#}+9R473Mq+?)d}ZDnkoj~>Ik|L;1u?>ku@AVYD%9!5TOz";
   "*jA6*fj(XlI_CT8t0y2r$Kf04!i5xlDOFV7IkxUu6mksZHK=XAHHwnN-M$<_Fq-(jMV<eO_KhDQ|jlK"].

(** pip/_internal/self_outdated_check.py *)
Definition pip__internal_self_outdated_check : list string :=
  ["TIJat$!H14;Faq?%A^S=WOb8#_t0%=|(h%&$W9Z*XH1QY-O00;mMXE#!8b9sL>2><|D8UO$!0001RX>";
   "c!JX>N37a&BR4FLPyVW?yf0bYx+4Wn^DtXk}w-E^v8`SZ#0HI1>JzU%_(`L|!<;p;+7j+4bRiX>wa^+";
   "AW&&4!ylXOG{MDMkaM46~|cgzuz;YD2bA@yZ&HX6lXZE&&;rF^p0g&+1j=dS;pk9){SL+V|3M8k@@G7";
   "lWx7>R#>?c;d#r=wvwCh_{C@y{#W|`UaI@>s7+dPyA6-#U`|d-I=q&3nmr0t=mtCT2ToK$jz`fLsTJd";
   "f_3yH7aZYaJQy>(|kU|@&cykz^B$XA7;#DeDA)eA)SCz=EZUW(rR1cS7@p(EgjmS!R?1|s|)oZtSjCi";
   "LDQJK^T;tw6Nx)G%b<hNn@Jyt~{R4&XhF0GYdQp!rej8^P=uN7Z-E|kseuFmN7isf68KV)S2Oz)LwR;";
   "&?qg<a3{-AR*A%veYe-V2LA#x`=(l8}ByDq}g!RUC24gz?O~WBQ}!@^to4kBHuWdjBcA{Nd{I$Lzz$c";
   "kkZ3`zNBaJhFUo!te><SKFF5Mz}S1Qq1+0I;_}hncEe+6Hoa5s7RM#dn}j|cCVWUIMTTI4E~q(tzS7g";
   "Ik~;Mx%L9Resy=1UBA6!YqmK3bbh)!KP~P~f4De(dvSXEp9S_(vLKAsA!|~Y=EkihS*G|7sky|qLX<2";
   "ctHEYgkcZvN<Ut&kUfma@m$+bwlmBOU%PaJG$<F`A@aT47f3`VTVQ^xUDUOrdLVWSIOYqce`OBBzCOz";
   "RY-HN9|-V0+BPtXWJh;nq0G_SZZ6wu`*Mc^&To9N9K#CIpD(*+ilHp>zuM2TSK2v-WWZcC&PWOq8e(@";
   "OMji7s`<fULiM9k!Dzz4q|z=Og=_@hC4q=va<UylW23YWRW|%x(n}PY8Po7Dw4{MAY>X4+1}bOb3DK7";
   "cEs1?Wa%AYQ+{r?=p9>I_hu7zjsym#80+4T+9yHOGu(?p^_saE(vD)r8)7;-~{(6St;qMVj09!E^5n?";
   "H$Po9jfQ6b;#DiU|38X@`?s8*^nzVI)s@Vptq#nzHBb^+1qXPBh-|ZBSjYw23sz`#X4#%A3$GpFCFm5";
   "UTT31ze>zh$5|>GUuX^N_EYcZejS%)>@%Orc(HeW`BNxVZCOj6YQL53WOAUZ^N_a1yPI^9uKZ-8;YXD";
   "LJQRG6~G!Dv9ZJ$YpRbP(N@MoSOFW8&X8;L1R1^ZDj&Rj$y#JwdX&htjxXxOJAsR)F|kxs-%VkY*TS9";
   "F|8F8k@E9e)svkOm&$mLx(wa^675yJCBo9yhIBNk|}23~4Zl;pOj1^iJ=C2xqW`hrc40gu;T3EZ7D}u";
   "*FkrsCI&+s@T0AvEy3-l;EnEYKWqSm}`2b5@^fuGH(O~9);UbWB-_fgEBqvMJmJNDzDl?IGqrv%xEU<";
   "nPGw(2W(bAw*6M-TPka8-)QSLPuS3zaaJtAZE?W@{H)@afP9;I*t&?~7b-L*{YmCEaXDc!&H}KBlA_=";
   "Fb+Ca&aSKpXw7c4PECM{BAZHNLtnZqZo&_2J4o8@EvRDCF7Z;1MF&#9{I;dxHvW(-bO!tjMiHoZ#2{%";
   "4thRHA3Z9uV*nGPV%O)YX+%DnTjZ|3#{U5b5ajh%4OFp(1gZpHpbYDo>bv;mny>I({S?Nch9WQgkrlQ";
   "N}{TOCXC0n|G{|LN8t_f(gEpc`PKEMfWh43DI)ec5v}>KQkO3=x>r5BJmlC6xP()|Gp+SS%cv7^o;5N";
   "`Z>lv7Q}eE7*B^-%;B7%q<+8Kz+2YQ1;*wqpj~7jwIQkw4i4vuF9o@D+#RRxi@mez3aET?jI?y@B?5l";
   "EpiE>6slxs2d@Rj5uOIQJ=&v(K%h>$Xs5eB$fF*;91Po)j%!|Zy=%9yfTRnyUdKIjLd2m_#Ey)d8Pdn";
   "6X418+D{6_UkWLLh^suYGYffF=HgR<c4q@;&01yT(T&UuSnq}{W8@ZF#*}H7S|5}VR2c}COhlX6DDg0";
   "4e5!~V-Wv)>q7Z_wJY%Zj8wN#E9@qu3?GUZV=w&j&jkBo*lUrGq2fpZ^kuRdg#uK+aJ>o*?=0>Md_zW";
   "8?)nAquV1x`14BN5mReIvKc<{P#?KKCTfC6Oy<d!~N%HX=t2%x80M>Rgb_nE9i|02#Hi5!QrCF=@#Ao";
   "^#y=LprqJ18R+-96V-C2gbBq>3uT5#0&OXU{cyiCCC=QtpGqUK6<&Wv-_-@9#;@@soT(Xn^a-r;xO3}";
   "gVDh0sKm&>+7+Z((>LPy^H`qGtJ&6hG5d{n9O@;JA<suLE>o-FT%>ERRbkLUe$W2OzF{xF#n)f{?7rq";
   "*^2GI#<dLO5kNckwBM$`P*hk1GDlw=8Q}6A0qs9)4BtX(q^i7Mxjj#@c<I54^M*OK<IZ-NzjWa112Zp";
   "grrFzJQ`<iupRg?O@>WD)-Fq^&TLOz84d_x#KGNm(j>*G6#iIXSlzNfhtd8+r>fvX2mtQ~e!57v(=ro";
   "E@Zxhp|5*T5Ql!pKtxW5o4zdVjP&dUZ6n#aynr)_xDZiFX6G92V?0PbV|ss_Iajp0P@INw$td;8~Bwj";
   "$X%)N8A(}V?BAE`fL2O5tM;|7Fl?F^pd9Zlf^GPcu(WiX^Kx69!&}Qbnri3nq_m7#N5&z_a~7;Gvs)r";
   "K{Z7Y-XVCnFSK#&c$lEM^EW2W;fzM?FdqDY0yX9~qOWugWD7lrG?}h^FvN}@7s2nRhr$HUZB93c&wk^";
   "d))UhB^_0)iX7mhSXG5GU$KV;2HJa|G2<ViX4zkBh@Oy*mzg@TQI#-(4wr*|}!A+r6<&Rued_z|mYW#";
   "l0DA&6kl~2?b>+UvzMH^~_`2CJs%osE#xB?r1$?@@2<C_PB*cpM_o*zaBr@qxLGzMIfmghvOT>=;ci!";
   "h;m^K5>hdl2y?^41dhF9WoZTk~B(*QCFGW#{hFb&*mmbDP9e%TavMHEBwv2{9Q5)#8(G-O$~-+oN%DI";
   "W^yrNoiDCjTXtIi<rlt=zkUQGh5wO&YDJ2Bo8S5D7iD;gu&TqKcleo^DuW%lm#QFi`8@SJ-rv|Y%~f_"].

(** pip/_internal/wheel_builder.py *)
Definition pip__internal_wheel_builder : list string :=
  ["`tIhkt8hJbF*Q#iHtp0nch2uLL7{v1mt+nuTtOO2axji|BgI5g9E=Pq^`tZ|PyP>3O9KQH0000801jt";
   "2QYR^T({u~~04Od103HAU0B~t=FJEbHbY*gGVQepVXk}$=Ut)D>Y-D9}E^v9p8f$OcM)JFU#a2Nf5|w";
   "#%ko4{hs6gu2Iirak*hvmO!ywk;O5&L!87^r@Df-`UX7<5dl9J^siU@EbEq7+;{aTL4<BMv(60)v%T~";
   "urVf45DVC27874=W)u$re?yW@ovqd6r#@&rMp1wa9B3jmG2gXq2wYqN-U|ESCUeeikw+dA%|}D`CFLR";
   "a2*#`Smp|7ilI&BRZr^%P77Vc~VpWJ-_3KF~a?lX@EJ;i#(n4Ed46toUg^yU%D5SOpAOMKE1_YJj?F^";
   "H2I`fr|i>K40p@860&Hjxv=!SPC<0(Ezk%c4osTYqRM#|i7#_e;#1i<@ZTuiQ(#_k@iCW8iO+?4GK6b";
   "gB%qKeOY=K}>@9rXv6WP4_HM;nlmgU`G)AO+AB>h_T8c|izC8T<{y5@HEctvhgi1XbLPZLXv_TorG*7";
   "_jVp!b{vQFjP>=z)<O2kQ8P1%aeRg88vWvSH1r^=v3vK^fibyL<wk;#|{H>lVAPQ=c`c_w%s^J*z~;A";
   "(EmssO`rEIG^Kc6mE!E!HLSVE{kC@7Lgjb8y%l@~bzcBffXPz5gvf{@2Ozukq!_^YgRwH`^hbs`WQ?;";
   "<zqiSlbTZnTzKpKzHjOF+>+7{UKEMb9*R!g}Aa9Ao^&;;6u<pf3Nb*lpTXe`7NsX43MgCZ-Ia*yC4_j";
   "*_3@~N{lxajZeg!LooFG<rr7CZLh><{4>VXdU!Wjssn#Xb6#y;Wm)kclJ}KJAZpcu%`D;9*L~2NDZ2$";
   "TyHOa>4ljjlvKqjMmuuv37;f8>o6!ipOH_bEyIHgp^;=pCVv4JA9F9h@ST2FNMFARxy_JaO#kvGX3aU";
   "wP%@4l*c<|3Sy7?hIXn%e8!vQQzrnvj;&H2UU$?>bJ6F@df#Dc~1BCk2f%c2fssI>YFRVt2H02ULngP";
   ")0QdIEXowE&T?(_COys#icd{KL?;zy`9SxRWeP?*!vHGl(N4^rMnje9hz$`_Mwv1z2_^MZ`{`Wdv!jI";
   "Cvf%n#1V-3LL!3iHN|J1B3+*DHF)HJjqqjKwP6B5oqAg)0U$Fd%#V(5IPt-do9yocJsUVmP{t*%4VE>";
   "!?rZ)$})<go-8jFXGV}9vOa-K@x*Qg1#OJKATzFNg2>1Sd=y;(bczK8Y*D8x3UUFNR)u`rW$Ome9IqJ";
   "%i&~3HWE<9kOAD^0f66l{+@nnVZV!S7tsvWF{3s)j$jZD2_?cYYr6q-s@8y&wjX<N|StWR~0k&-c6p<";
   "-^jwnrgSi)gy4Y@;9J!5GEMh8)ZX~pM7O+R%A>7x8lH5%hHc1mGyl}c6?AgrnS4$_-LG?L^H4kmc8Uh";
   "_O*MV@UmhM=WsM#P5E$dxWwQH^nkK^cgI;hKu%n1GHR;THggj5Yu)VGFxeDPyY;l~0uAU`6UEh)}0ce";
   "~o=ur7*}gNWOwf>u5Zry2sR}`EI1p<qktB;&Q)u2trr44}v8{KGAg!)3uLh`*48HmQta#Wys_5`6wya";
   "DXbGJK%#PEP)w|-I-&unIamhOzk*HZ_(|{lr_0K-Pzr=@9Bh+)tPOF`$oOak)8`IEU5no_b0lv%XqPk";
   "i^1wGTu8{-9?G`??l%B{5Zu*O&_|s%SO4}lYp+!#^<_s#0{-h2~8Ft-PG$xgFlafw51DOf>Jxogy%3t";
   "vGG*^KSyEa)Hu`3@VlBbMI*{mt+uY~&qeSqKdRM(8?<-S0b^+Wf-5>tL8CI^yyC50rNA|sEVCq`70E)";
   "`)G%8ebn!xkc@#t_*sKQLWFG3_4n>G(<+LebO_dtIooZHrvBsmU|yRBDxJh)s?i^SV)Vp(DUkY^)*+2";
   "XYor{Ten66W!;&2<%g!Grol&1<f{;n(zxtQnNx{D1pee2rP5zci6@6AaaWYXBov}d4ZDdJ~k3*kwe2X";
   "?T{M!)rA}XwyVZr8u8NFEk}10UuvqU4L4<$*083nE*-3u5i;!MVYf)QK=*k_@qolpZZztXr`#K*Ok0q";
   "}Cqy<K+m(yi%}&p>EeJrZ*QrE(2S!)Hp0}tVBx#38OuviALgk1M<aCa=qeE(cRI$N#NX4V|cMv_5_6{";
   "476+^gHb)c3mA~$ZRAn6x87AqX-o`!;__8M&)53t6kju)V${ji7<9APIet$2&XDBsC|LEKds^wfh{$I";
   "19)J!?_(gxA~*-vVs<yU5%@nV$>vz)htCtYI>2^B}Gxn#el<pGZO<z5n%1e0F|%5qg~fZiq04RY4em*";
   ";ciDNb6NFHYg4>jYs2-H{bKDL8BlH<cq=h2x_9k@cQ8JCPL!NAoM`$YUAT@WTcr22(1sMCW4*0V;|94";
   "E`gk}-p1Y;1`GiE{f}`3;#%{1=oF%bLmcQ$76ZVntz!83_+2Wg)a;%)wlx7rF<orpA}3>?YKue*?CQN";
   "AJ*Lbw_~!txeN&HcY4iYW_r|<|sZAB-53olOs|U>yMn>A`kP@~o+eP=Fkg@M(ox`2rO41pc)^_T0dPZ";
   "eJlZ!7U1S;%6U@s$t%&z_ZUG+z=JYPbH#s^lJK0P2?MQXPwN4qxj^XNZmiNra~Lp_7V96b2x1r@;|#5";
   "4AF(ej6G1Y+E0UgtCXbunc<BHM#Ibaut>1_?8Z_x0fJdazr*y<%L7Q7wkD0gi(mfsy?@v*BTU7(E~Rj";
   "@vey)OA4brVgfgRTAHK?kU2aV0!-Svt^u`!O;x68E7~pdw=qty?F5>v*^41b)$r#`^G_;gpM3^oKP(k";
   "hKc<P3n;_NrdE@CyVn#AD)0==%k)v|uEp6vLr?%$`DK|Ew_vopwmsUsSY%LI&_I?Ixo#}X%u!_lHF8{";
   "N<7CC6ty|3a2htrzL9`k33``VCi*EViC7bqgBWR_is|J-_F0M|h3Xp^Ci{9+zfmb=i_l{xw;@$h{X@a";
   "KZ2)>T}>6aZAuwC;43h`Q=THl(<M3hoZ729I3E%O32$d`xzaAF-EsFW=7`<ACR@<1?a4Gw$uG!eKr=+";
   "Zs)Y^-BAzJ>H%+c^(iRT*SUPOm7~l`C6?Dy;?k-3^8vwGOD3v|0PAOi|v1U#ZhoVc3yTt32m-OL@<~d";
   "*c4{uKo=in(WNGUkmQiJeiG&^D)WYT*tNIclrdBrdyBtgG66r4wy|8)&aboo{9IbWBaphBx5!_v?j@_";
   "HkfuO6s9xo@9mQ|8>V>R7*~NaU!A?pDAr_Vgd6#l1b!T6@fxF@0#d`$Cku#Xt8uv@l(f%V833?D0@~f";
   "=IBtb(-L7vFl5fAWjyeD3GIfpBk)oasV*nVEw64;3)!rUdB4lmUV}Sl!q<P>5fEM*0ZI;@M^QS3;Fu5";
   "eu_MU$$A*3sM10`A)_kO)>iR^>8Gx^DJB{&w1ZfreblOB-!nV2GA260$Ifjj#?0Ydommp{SEq^~;n(}";
   "w9*M273#kgb%WmH3jROJFewAK~xH4pyz%V!oKTS#zM*R4Kv=aj4}zG4H|*<S&Pe!Scj>o?52#g*f2vE";
   "jv)9EOX#r^E1Ue9cWA@HBQrbzNuGuG)5o>aedKbk?TSIyQ5Ampk5Whe5oT7rAgoEx71Mj`g|V*d$iy-";
   "JNgrz_Ei>er|s{#cvlVEV&fi>O~)V4{4Sduwa@JR79Feg?A*nM{j#|8N=?ub3=Qjp%6HB<w<~8m$?ck";
   "JuYeX<TL+U<GCD;dlB^5cwAx0kbC^4W^<NyY1An)E((khjz0IL2m&c~Dxak`<PtJ=ge(R)OG92ogGMr";
   "C9&opoaL~jttW<D1p(L-NC#+{LWy$1>vH7tDZ21om|)ktshetk2AKhxkSj_fUyjC$5>;U|6=lVmaTBF";
   "of3Lf_U(6?j{yDVwOoY3z#N;0K0lm(tMDPD&BYbvUYX+c)amTWn<sBwMIYrD=~)QqXc@SkOEhfGq_0f";
   "zO>@cWxY<o`@Fx)S@2H%x2abC%7L%W3f)Ht?$>}DcQKcY(0c$_fyp~_OZmti8izRj^uzZWJE)xsjIme";
   "y{;KJ@6-kD83SpV01F(l;RaJc*&8Ff*aPg`T-di}wv>}r+Yv8I=mO{h!%yJ7lDmaArr`l=j{pY(Eiiq";
   "+-}F}FUY*nTct>P%r8Yz2%{F?H(yN~)#!0S+yrgsJ%@$9=Pv{eB7~O}?Q$Mo&e?*!CAE)t|xj*MN=Jj"].

(** pip/_internal/cli/__init__.py *)
Definition pip__internal_cli___init__ : list string :=
  ["8>>O?!Yvwy_vNB;v*O9KQH0000801jt2QqFhkG-v<-0E7Sl0384T0B~t=FJEbHbY*gGVQepBY-ulFUu";
   "kY>bYEXCaCs$+F%APE3<P^#u_8qtlzhMk=3<?(5%`MyK1gY2Mw4@X-N&GE(a9)oL1JPjNEO~NWIWgAy"].

(** pip/_internal/cli/autocompletion.py *)
Definition pip__internal_cli_autocompletion : list string :=
  ["^~d_7(*<0HY$wCO2KvO$|>iZ(gW|0EHu%7XCZET^+k1FFb_x{J_GAMy4PEIr5{jB0|XQR000O84rez~";
   "C7Ak#^9KL`lNkU2BLDyZaA|NaUukZ1WpZv|Y%gPMX)j@QbZ=vCZE$R5bZKvHE^v9BSZ#0HHW2>qU%{m";
   "xB%zAB_M=x9D7s(^+BHF6FbswvDKc$ykwuN968qopjxQ1^%UL=DZETUe<2`rx+?_5iE<W)stBBf_inR";
   "QZ3Q5XN@rv);nkvQ{!WyZ{x~6M#cO*s8vX%_1MUl-eE-q#>wr{ymgtw|Kg{1v&>AuOMoNWZ(6Q-z8oY";
   "#`rm1<YAW@Z*adX}>Wwlrm(RW-}@u$XI^qCX&Lsc7!4OdjU@ec7xBHTHMDW|c~v5c_mWK&MzOvptiQ6";
   "S1W#@8JMBQVDj~ArA7q0Cj9xvvnf=`0Mts{KM~8A3o+^zJLCF{rNY*ZZq+CJ|pnaQbP&vn`26@K}C62";
   ")0BLITcqTs#aop1Y&KidjqgGlCq~o@ltbqvPRQju@|ibOKL+nzHA)=GEr*Mf4Huq!3EvQenE*sYc6Sy";
   "nbTb;AISE$5ue^zrJ5CAM)uG#VrNrlwccQ{DD&;QsbZl5njU+e_-Cp13@4tV$$v@ouar^1&+f_swt{@";
   "5_mNMErFu@yR5Pk$zooMvW>X8fZ_QKn@j8I7a=gpU2zecM}wl!06vV1*X4JY6L*d3o7`hcgRRibwSK7";
   "-Dx6M_O%3#)Qz<Xn>1Ml3y4v{mG~S<}On5L`?hjiQ-;Y9o6w5!A8KJ;08})!^<p2xYU&dIWYXS2OF5;";
   "p9kA-jsU^TQLZRz;H3Ngs?W2U@&Og0DWWYU<&xkEqON_)~7Y%kzmUmn0<e8UuTYsim@Ojbx`2_2aO=0";
   "r4=h{Qk4?yiFUMZBVQ^6BAg3^pHZ+_*yAIEju0jX2%^`?S+(dPQu7K(;^>hlvW3)$${l~y3Dq@rxt9e";
   "?UA@jx#6UCvTl^%f;DTj@Qlpeaz0hbyoafyKF|#3<!5*RHBU8ILx{L;Mk^q*e`-G7A*IcfGrMkknw)$";
   "!;E^!iUKr|2+wBQMDjWwD%Z|dXXo9Ji~-oV}!k7W1s=v!7-iALJ3IV!P<3q)`#DljT5+m<%#*a-;l{{";
   "r=@9Tk+6@DD=Ec)35Gk`4R?#;fj$a)IaZYl!5AoWXdE)f3zB(+XrX+?<@O`w={Z-H;-SQDKZn!RDR98";
   "-Yb317wD~GGnTV9JuOyY$>c~m|*0mMc*`JU%%hpe!2SkHUItU)9o|_us4U$(DeXB<TY=$Iee4krFj4$";
   "E0lgR4UQ{a*0He_nCjC_DYi24Y<z*$32H6j9rQ<nJ}}-%$ZMVQ8%BGkGL^b~C|Qkl`GjNethpzo$-$P";
   "QXb~mLpI6$jLlBokNf}bgqxkrcl7~c}vtJD!dL7U`xIpjKt|m;f`=PCKb%`}?rzREN_X_dbNZq}kb5>";
   "U3YlP(Xy9%r~WXm3?vsfqT0N$BGfS*B1uB9wAakQoKTME4ta;DLfn!o9P2W&b)h$nVn=OQh^2wEvF7}";
   "bCj#pp6c0X54LR1|OV@VlZ&@jD!cuLRJAA7~8x@_Be9EsSj3k50m-&w)TSB+@w}9ZLv_!FM#COUcj1*";
   "Z4z+5ei$4Gv7=H?(}>tG6!eUnk?)F2=ozoniM3E1p_%s^0;Hw4jQ|EI;MGbD<`-E<-OJgZjip5zgc17";
   "zPP-+IL-axLN6DnGK5ewX1~RtLu(m!7g)D-H*A|WcVjF}aBYa@hE`O{QXFS~5@}$WA7L6nMtV_hZ7X=";
   "!${^)?raFz&!HJu?REjoGIITK8Q)S3WIkTeznkR$mex?-&vGZ6y)G}Fw{|~L>$8U09F8-6+dl{jRjGv";
   "xIHc*z&vo(HxfN4T<nKbYjpAg<;9Q99fz!*b2C_F_8|M!|>Ch@AJNu!8F+21fs#>>M{+5F34ftsusiJ";
   "f@-9!1Zy&qQA5%Xr+y0a=eUDGqwW=)8nMdZlOK)4>Nu+TS3GptUpM17onJLNBc1qCf^W1P=UdzThrH<";
   "T#sHXy%Xx<=#zDL}JellL$(;Gv^-6hXLZD6imlsQ4E8ttpvW1ACaNw*ieSfUh)l&o@4+LakZnB8Oi2m";
   "yq=#JuR(bp0v1j;$(hFHEqQ}G^gI&I&~H}f>B!t>cy-}XQ%FcY5iOoaL=|roYdRX%I32l4Aay3LXL~h";
   "fNM}`OM9|>jB_{b25x}eNsRCaJ1f^__@!8zexfDkTG7fu)KmG;uqtjmBH|5|uW~<4wW@4Q3(Du&E#!e";
   "VsHa)xV7$v9fyx~8chka)Hd3b%Un<6g!OxtAQE;Zvfvb&($t_DbTlcuGO8#Nth_+|}b4Yim{7sW4x<5";
   "c&^BsIld3-yi~nmTtp3)9{_HVLN#1aj<-_OHp-!R8UkPi9_h42NvfMr->q{}L8v?R((O1|U@!%9{`n1";
   "ml$+DMO=Ns=DXLRPVR1Z@A1*r41g(+va7O`Jw&q?JVyk{*8Ni$@IHI)5Mx_8s?D_7XhTQ!iLIX<njet";
   "BK<h_b*A|IOMdh5gfI+OoEp(^vBy_7v0HOj>qE#OrQeNfXFE^31D00tr)ldJFphcYCNq2rrUy5jNK_=";
   "O@vRPt&xHLQlb-rEx+inG2dj}12P<_Y4uRSXH$ePzlre=%Ai@ub#Gi?J7l!er`(g8L#J;T?=A3df%%4";
   "+|{3H$KjOHdgDnSN>vz5^^sphnk!d_J~s2L}$(M+Nu&HN!h9vQ9I18`m|>Uoh#^!mBOp>Lcd;Bg@Fe*"].

(** pip/_internal/cli/base_command.py *)
Definition pip__internal_cli_base_command : list string :=
  ["sWS0|XQR000O84rez~V?zs_&kFzmc_aV;ApigXaA|NaUukZ1WpZv|Y%gPMX)j`7b7fy+Z*6U1Ze%WSd";
   "CgjFkJ~m9{_bBvcyX}Yv$f3zMGuSf9kMTJ-6mdR<4rFJ0)dujn-^J9Nol>lqW}G#Aw^k|<!yQeiZg;(";
   "CWkY_d3k0?ZNJ~Y;##olbi3tA#KM?sJ!15zM9g!6@3hEeB6Pps@AXzH-LfE96?vgV5HPvTQk65l)M;G";
   "gBCx+lEK@ScL6(HMOp{)(q>Iz_S|;n(Pd`kPm8?e7EYG;oqWZ1fQwEJzsoJ{VdS6ZDiicv!!_TFTnau";
   "p)Q6y2Sd@Y}xqVo?Ibpj|URKjCFjHM$9w-Gde*7^h?)HTKmpmr{va<{Ow;k6xoE1#yxDGp|T>adWue`";
   "kcw&CG~BWD$qi*EeFti#XTci#U6Yt@9jgPO;TF&kGH`BB32~ugCDYy}!S^ADPGb{q6hd-NU=!>S6lkC";
   "b*g22esLU*^jfkpJw%;_tX2u!>c#9v-iR5ZV|k`dzjsfdc!Uy#8W7&?V94RcvM=)vMhhxDwQfbGEJa-";
   "4F6(rZFnZ~U8+9ALWu}lb8{sgWm@Q~LdMaJRJEyxL>}|&)EKcHYd;d15}_e>in}2ZonE$*u|N#wVp|2";
   "zMueY(jOUvm-6h?gvTMuOcMGpn`dK9J@(9`X#!gwanHG7G1uk<=^4m%sI%aE;2boIOBbHFe#PUDF=yZ";
   "BDwvYvptU_`fr%N6OG>p*z&f;qdOE;jzTIyWwpW(RAYTJAJVg4bw{{Hs*$Kd{9Hk;1AJH7Hzs=VN_NF";
   "Lp4RU~leIw+DzsNgUUTv>InzBDml_&Y3doZj=e5c)9R)bdrbAF(&s*ofI|<nf3tiYykr!;&vCpN)F@E";
   "HH!EMDV6+zu0HuzO)?U+D*D48@t0^F9;C2K-UTTI4DzP@Tu3M7yxQaD%^yh-<UBk2ok;pAY*aQV7N;$";
   "uLG5a)<A`ZPr+@LCW5guvW2*0P{hp2HDX7=(LWbZpP=*+w6A%rYsAYmjjd@Su|i#tiOhq*(;{9W_Mj2";
   "Mw}5=?jY*UUN~ek8QR+Y+$IOH15i|c0-ys|S!{}BK>LSBd9gr}RGW08<!-~$LYw&pog@36==`%2U9$c";
   "EWzWFg~5>VP;e(=k$?3Z5${>nhE=Mu^r+HDP6t5yz~vGiHw_S!3X6a^bl1h(d2y)jRViezHSShP6<qz";
   "{#JYt6QTAWFj^Xc0Q|gUUS~D1Pl7j7%&@5R6A(&56>Rm@A)}(`8+obd)sjtFJ1*3|r#bsB#pPE*n3#G";
   "UijS7DZ)XXr?!55l0NBWo0F2dCKyQ)a7rsMpKhjOEG8$f^ysBd@E5`5m1@M4|yhYgQ?zd*xUzN2lAr^";
   "4+lKHW%M2K_i8p8HKh*g8+irA^Nj$Eqk{0*ZK9&UxD#_|R{SmhEXpVf3}dem05!^zucc~+NnOKgV%X(";
   "mpCY#*&Z*V*?txHy!vk8>hfOMXAi^;QWWcrqj}81CqqfNm0HrkPVk&TnKqdPw&bAO7^QSJ?JufI?@Q<";
   "U6j?;{33L=go?*eVPCoL$;S(Jjve39p%5Gxg`xEaO#PC;kvEu4pxQiAP72NS!Pq1w@eL>YXtMn8&;Gs";
   "eLLt&0{(evk&M3DhN0al<vBNO|ST5zr+K49h{yJ1DtLBjQk?*3X#I7S4|-p`VOZQ6Vc*#U-l7EX}7|)";
   "Y2_96Sns|$TL9|kcd+3DQQLua^FfZ#rdPD+a$S0zT#AJaehHV#gN2kUC<FOWi0apXesnoDrtmuO%bEQ";
   "LB%bX$?sCGZUTVSWh2veGT&Ii#MhlAykV27tz=-7u!_0)l>{=zE%vTO(3=81<u0jbUhs!@a>jlVY+Go";
   "Ydr)|#K|%|zO949z6QU)ev#N1SF{*YH26(9PvPZu{+1`6+fSaOpDHsn!p|xDbf)dSem0Ob_VJvvU5dB";
   "SFEunrBhB}Ij8K-DemHpdPb&Nm5DJ2KFDMj&~I&<pc1Xr<X=d!d^7eHYf=y*T2%0x!FRMjiy8H>usP~";
   "x~oY0DqEj5%@0Ed(HqasIVgPp7)pmYS+}_w2NRdZjz$vNJ$;#9IyDVT-_^WvY=j6#z<LARGW66&hO;X";
   "jpb|Z(F^?!ikeyjtMrdM$li1{2((Hk0K6|V!JerMC0_+tY{VcNmE+0q5<5(G)~pT$#VluvVuAjhzaOS";
   "SJ7giUIwd20C7_noC1AUfn>5uKVDvZVv`B;E=KIzA>F66l*(C6pKPCRu+TBsaYe_SgWzUrZ;=(YbN7z";
   "0qEAKR;)VY;@Fk8}q^N8anK_gY2+oZpcHw`E>}5ajq@Zr@;%h8n{bO!#DW4;eBP<c2OM+6zp<)X@B(w";
   "~ORf<CzLyUBA+vItsFVD~E1eNVG?#uLCB<IwN>ij$+$EO)phjS&6;aZH*a}x%fpIHlyFUF<RJ_Toz{>";
   "&RvhK*lvlDjbSOAAX^e+=B9y?~4Q*LF+&W8{6#(q>0Bb1K16q;2CSU;<>VM2i;7m0;<?)W>Eqj9$>06";
   "K?q0XLGZ4pxavUNU(icRBi*t)Fhr@1t3mR;D17AMM8RbFA-6fe~0X^ZjX(*!`+8hPLHrZ7&A1+n^4Cz";
   "Vr%@5V4w6U-unMjcDx+1Z~n~eD6RL>|K_*+^-g2}Qo^8)Kz{Ku-~29jk-!c<CtdYS7I(0zB{m6aCwBj";
   "t9QlKuK4Xi!o4ZT4fGm_O9FxhOFbB2ibg@FMM|sm?N|<S!|5;maKhz8nxS-x)kF*fnQjG%lC>6GaUz;";
   "?JEOY;8xoOmKY)%<ptx!>Qb;M;$x*XKzLK{`fo(%m)sMaD)CRvd;!|9;J$H9C$4`z44bT)rj3_j68@x";
   "`E%m3Tt$paX7hET89h`>*M{#k=6u^<sKAvrO5*|96T8t&`iZQ()tkhW1J+WU6AvHBM6@G&MMjF|!g@E";
   "D58-iK8s`$QSB)9K^SgmIR)<rt4~I?Om21DzuOxkGt`8a9#C-XmU|jkW;Y2qw#F*n$UAv5B<S0$Q_Lk";
   "9Koo$*LAbqZQzi=f^PU)-fU0PrAgz;)jJ|NDpIt)_Pue(vXeF}0r5nMS|IOSpSfp)zvux2ToBZu??Z~";
   "$CJh_`dZ9pcs=ClxOSXgSc&#}P3uX9GC*?B|Yji)w2**$alSm+66C0r3wFx<M^c89=wKi8b6wbyb1ko";
   "p$nXa_jh)*Fco<vv}C?PPlr>!DNM}*M8+CAIxqzg?AKcXCHHvXQiV!rnKqfW9TA03k&2VYmnm>Y<C*a";
   "1kJXY{_oF(U7e40$UYYB=6;e&jk$CeOsjczHe^8wu`v3`zCpGD1!Tg}qfnU>x)?ej_KN!U==Q7};+DM";
   "t(;la%{PJ6*{4MVNa86@pgVQy+2>vzMY@rnUw%bOW7k=lEQ0rO84^6wx{B>r0Q#9Wjs#Ou{mdck+$^;";
   "`Jy9S5X^;`{O#q-m(95*+6<_r7*i39(d`VVlDlwO2~MwEbs!RxEfvboKU^H2{GUUG{&)<-jZ21;hR9k";
   "wLau|uO5b&vua62J3aSqV5q8EG)qR-A&{c^f+_Q?gJt=e^G)x6I&CXK55rUvz&<&A0UQp+8)XAK_U9o";
   "RM-3ga2vzpgf4dU{0OltGe5PS0M@)6y8G)diEjG3=y>}${N7n0_N;3@3%QC0mkavem&VHZ^-mc`l|+`";
   "4zGj9O^Al&0olFe2`ztDY=WQNKv8>3iy(Z+i#c@oU)5cd17&bnBn)ceca-3qy47y8br$i?pOFYQ+7iY";
   "My#U-0tVD_SAhdI*62S3<)c!Tnm%YO3+b*Dr4F5o7W>cN7JTStdNYHP*xkEHFO{cYrjEl{^SGOCe<(5";
   "TxOzVODlI&?T!90fVpC!Cd|q_YKR(FKz~2H?!39Zdid_R4XXb1!?%BR0&{ssBEHzlKZ^Y_<tn19KBbB"].

(** pip/_internal/cli/cmdoptions.py *)
Definition pip__internal_cli_cmdoptions : list string :=
  ["*|BX<%L$6{lFGGTkn6Mcg5p_X>KQ}yZ46T^{hSCSRFB91KtB~g}o(<rhd@tkP$n^dTP)h>@6aWAK2ml";
   "UeH&Vuv$TOB6007Ew0018V003}la4%nJZggdGZeeUMV{B<JV{K$_aCB*JZgVbhdEGs0bK6Fe-}x(M;k";
   "p93OTu=1xm>ZL)G4yoR$XGNBqdv0S``)~hazGSzyhFTuFwDd`Y}%cd{{}Yw$4?SNMNR?r@N=8yQg~;1";
   "i_$QC6!!=qHNM4uSJqC#C=t4%6c%kSxHe=X+BTOOp2APq)2Pg6k;KlX)aBlBA?5#m~9&I$Gm9%DAK%c";
   "lDtWiMv7)7*Ms}4m?c@Zjl_HCR>`C;axs%>eh=@H#sGRuo0UlB_~j%_%2MWwP|TAY{#Vsj0MtefX0my";
   "dG8bi1)v}I6nU?CaxR<%ClFYzs9@9DCoHw${ar`k&uU-|KY>|h}piFASo&iVVrU0bG9D1g8Bl8BDXPJ";
   "W>d|4J*Ry+dMK!}B`)B8Lc1VF{XGlA6N*Ep|vv0eiRH5kIJ<hpnOO2d5XVhxln05L!gNhFq=W>d)sz^";
   "u3Bb_y6(>Aacn*hzNs=OnA;V6d!;wTNSG9mgVFmqpcxWL6j1rjap!9}Lv<qSl`p`LTJdl2U(vOsX8vt";
   "Qq10=DTUqtd8)fh6*?|#jGeYZnWIw^9H`v`aKXGc&y$6ro;sO^7^OC%d7M2>-g>Y50_){o+hGyzd-@x";
   "ei|{|Zy^^zHZ@aVZ4^I%6ckldCi4%;J>X0@8YDnEiaebsS^7^I=gC^ST{Y*Ud6q_HRoqvyuHzZtsk?u";
   "FdKKUN_453>ub2Edmx}qS`5AB(MCiP#imI<iR?HKx!%x@eSMk~D+1vB@^~Kc~B(#a^Y95yrETNBmAlA";
   "h~0wb11wN9ECgt4g#!;(MK(=&d!r+1n!<VW4<a(j8Pr)`r|h*i05R<IOQpBs93NzeNFvb3y{dL_+VuW";
   "zp2zk3tEJ-vS0PfzaDY)f1qs?(2uz5Hto<T?BA`0A&3?=IfG0qI@#Jf02&{Ogr97OG2pRE@>YNw$%-Z";
   "S9YDnu8WNgLR$EGEiEtVU=mAOtP`K*?_7W*v>s-M8jBt$d~E8i@;zo0QD%UB&}u4>o=AtFT+wHSg5tI";
   "uJ1=Yt7nL$oQk186TN6)A&$i4JMpf_CACM5gTJqE5YTA~B&k81D~%^M^qEJE7==;9b33i>YaUvt22%v";
   "%4zINM9F!8b<1w6eofa^mDQPnvAD4FI;R_AKi3mS^<`z@&>2s(gedtofX{_}_v;_4#3`H3I0(x@@FQd";
   "B5(q=dsadU5;1cVu}PCghu(8e~TpJUab%>fjMTOjxtCFO41!(d{CtH(T!NYKo=r4h9d#q1Y3Z>RwcF2";
   "rOaVDH(iVLxbS*IB^0y#Ix$#X{PtLbdmV;)C4Q&NQiiZWn?QJr@&q%0Nd49V3YJ?v}^9V=4kOv@pTWq";
   "#9@}?zG7G(4%CrP!v{N94ekvObxfO;>vs_=O1Dcpe&1Ln>1U*Y$YfV^;or0Ur$i@+sxvnZrATEKe+3x";
   "me*;G>s>sqq{O{rDN0#QYCx}y$}Man&OQ(3kbpO8rA&cX$y&dh(k|~U6Ju)>VpA^Aj&S>VbKu@i2YNe";
   "3bii&B^`-=g28jRyC7Z0lCM|;3{(4H6{s3s6;j}HE{MRQM49^W20a_mUKg>tAlcBFxJchowCQLKMU4W";
   "1@O*Qm}8Vgv;#4>7*L*VeY0kc}Q3dSN}uDegPROm-{dag;n9j+5tz>M>l!Hyiv^>%3{+S*6k4I{985;";
   "WQ3S(+zRD(m6Mw9z(Fgdc|HG5!l#pisY}=xksK7E3K%i;YC)q9Rl;CKH;rGUr6-!+H+ynF_iAK2cOqk";
   "D?H_0Wg6w`5?2Cuf_(%$Xiip$;DvhkojmAq*+b8*|RyhYc-+C*I7Y-M(Yo8Lk+QzupzF~oc2{1dQ&&J";
   "S7u3r<n~q)QCBX$a5eR;A;x?v{<4xlS!h|&qS31e@t91w5iSGvE`a_Ef62576vI*naY50#?JPF7iNFG";
   "dZ58&W?t3-ky89}br9Dr<YRDw|1!N`id(gb}n<Q`>7kRb?ggi@c2uKb`WAQ1R0zIeUXBN_$CbN*}CrR";
   "+qWF0GV1At*?@RmvWhZAo|*l$b^B&<RCJ}<!6a7P&^xnt?MU_n)OFG@%8m}f<@sFekRSPF;awOE6|&>";
   "-L?0S;0@s*6oEm(;#W!JRY?DL$FhrJSeBbgq^eIA=Aku`P)i08>EjHy|`%u$i3|ZF2DaaI6xLgl!<w3";
   "Z+*V$VJ>qS*vTv!t*==Uq=KWskxmunqqo^;1Fa~f*Sxo$>nSSUfyV$1wN?Bghg?pMG<6OL&MJ?ZDS-o";
   "s10Aj+JIzAi)S*)iwR6mv0_F$o`QhVFk#6!A#pQpTCg;+2pD&;oMn(=2q2vykR>fB(;PRfQ53iuP4UN";
   "D`R4sT#<`NK9GgX2O}!xxF^<qW1M>=jZOFjhI?AmAcRLkE8nv?9<QX`Zt=SPMrOA=44{0Jot)@c1tyb";
   "hQNa;#jtV9808^iChctADX?>LaFVEqO7?U`YqumCi;wIxg(CRPm@mK_*fY<8o64+J{Cx*dO>VJPM@Eg";
   "6mirv@Ph-Po`ZfBlmf1~?tG7+l1Ik?F$@<oT7~RX>g9MY$bzTi^QN?x6Q>%JlXIq*SjKBVnS??7zV?B";
   "RtQ%=Yy5Z$`~N12n&m+qA-09Co3=rK$5U!I9AqN-JFEZ106_n9^uE6@Oo7|(nqi=1|!Qv?H1ogQKXIP";
   "J8;MA0)$^KVhkAU!wS@tZW}l_1s;IFLoNWz0d|+B+DOxdj9)fU9IWjc4X!phMg3B8v@~>q(7~9-{feC";
   "6{2{H1oT6|KVB6u$csoJScNS_eCm(N9k;+txXmku^D*2C13h2W?%_hlU#C_y>CJ=GjY(a&AR!D)IiLj";
   "l)^hz-NM(#kQ7(G#gOl&)5y?IVg91$>B*%w+AEVaY^)b_%6M^FOxrCCw$m5y+t5LazIoc(7S-FdOen-";
   "-=oTuFYDK1kp@7y!klDK|}ILKDF0#UgFsJqLX;iaaBO9Qa@2KJ-d7DYy?&c*OMb0?eiiRR7-j;XX*sy";
   "s7EFPh~}L4Spd8E(L+XSUt}*I7UR3!LT3kpABQMZJRO9vz^F0ibaozRF@yq<~St-B1?w&9xVUCSW-(5";
   "NB7CGqGQzw3lVMJPY@#O%Y`gYVmL1<U{_h>3p(H^#9vOYFoHQ2=T}$nuNc(X)y2)l+362pp59|r+l50";
   "uUOkG!<28{R+&&<ry6FU(dSrBAs24aU&~jCzbIob~QlDgCf(=dhJi-9ga5VA>9vZ=E)BKvur!5VD9<m";
   "<WM8j$@xVAv%+fe+;cKaU{{_Bhj=0JEShHBuc_&4=w^aV5oPP9p93=*@!K_j#{=)+{0W>S9xvxZ+f8=";
   "w8YmQ4bi(1|ixEOFfjyxcG00g@pRTB-6$7zz^rg#GC#eU;`Q%KNvY*T5byo9hqc)KdpXlhOCKCUYNtx";
   "hB(LIN<iWB$vnxeAKj{-^cA?@&34N%e8sJ0u6R)3)L|6G_I1)MDU3EkPhwtTeKdgcyjo-_^&&9AHkCc";
   "d{|V+%>(RVj5QsYiE7o_+udh8o3x|ozIG?`WAZUwZ`LB;tY;WESqeS8Oy(=}J#)#S9d%ZjG>ruIxUNi";
   "~SC&~=tn5a|Z9>?#*e{Lf6>%%p@@g3S&|5}fE$1Fx{ANs-WmY6@%Di+*6JDc73XH9b`3K2ULNvRRh2c";
   "P*qe?zzy5vp4)>k)m%!_2$c9)#6s_P*s@5d1Sncj*XS9Icy$KzQglf{<dTg^C`@PHE@Fto8JCXk1Y^R";
   "`FByITG>tdSon{&>V6GyIW+cP@M;?XB~yb%t+W7zTC_Q5r%KoL}>_lb(s!)3&D_4C~Qj+RRsDF-%7kw";
   "1Q8MqqM}|vk`c3c<M7uMl)KbJTm#7vg(LtOYsAFv6Uxs&I2YQV%e5c=UGd;XLP36NO5*5W}AGG$>Y}2";
   "JWIi&iH}5@8u#FCf$W-sW-A7PkDb)@^$&tU3j~ev5ttzuJOYDSp!jjaq}Y4H!DC!}u9_*U^Z{w|K~g}";
   "H-aC*`5nrDFC^(XN9KGl$Jl<5<e(jU8+M(7HXw6^CZJF{nhj<2Jo7q2I{m>#F9=%63#pJMqOSA72*x8";
   "{6DrB4{pS6oijx>l1I>GN~qEY10>jv{sl-lNe5;7brSr&B)+cHNzvoy)o;o{}_rTF^AD_^&h3M3@mo~";
   "M@=BZ_u$1Ql$u3ib(nlO-uRAs!U9N7l(&ei46^vTUj(HiUhux+E<KkX$x)^q@CV-KU!@ANT6AKE=npJ";
   ";y<ixi#6gilsED<dedhWSPAS;Cd%4O0g6@iAY>Ci%s^CqI0#OkVYr!=yi599T{*aR|nl#YSuOW?87fM";
   "{=y5=$v!p2kisEZQGB4Yv_?$8sLmIYEX_aEOhF8vg5v*@y%#~m1mfwEv}6rnvFV7C9p$OgVkFL&R2HI";
   "(rASyoRJ;M=($2-IS!bk2$0!FX4UX(+rdf|DCDnWdJ}hX84H$eNE_A#hh8Q7_?*B=voDNms(c>x`5%@";
   "alz#)uS84yCy4O>p1KPNmfl`jNww3=cpIxq-l<Ts&gFjLyY(J_D_CVO=N{Gey~^Vv0;=a^Z+f}+lW=o";
   "}rkc)4&zAH@Qsw8k*xssPvZiGl%3OM#gnn4l#TfjdSWbmSsnxd^&45WIbVee>@0$MfJA4fA7Cec&ua9";
   "0)mqzo#lMFRkcsj8Pd2`5=+J#pZq`(xyYvMF9*z!mW}AiP3%3?iHPSyuG=(yl#`xIjws7@|yGVvamYK";
   "%NgcZuP+qS_5usf^Z+_!r4Qdw67N$antL#ZFe2ydKBUc8o!GmPp*5gE8M8XR=n_u_XE7@ME2vj_Az%d";
   "7A)h<Y??XRz@T;=y49(nue<Pwv*d|feKb>Hb38n#c%>wn}*OLl0<MSSUJ~Z@7jM@Ux(*x7#1$ZtIkc;";
   "w?IMvoq6@i%q3k(hxCAAMmOnjr26<n>I6H=0B1cW1h4achlT@K7ebr1JqI=-V*xm^iz?SnqO_d3aOCU";
   "1lQVKR<7c}!+C{?^BS*rZn3Ln?jmLFJ&RtQTaCK5zug0o%hq4>V$Cb2@?hc>?=O`#bM9o~eTgy43Q3b";
   "7$LViSW~Vhoe?Z8n{0L^G8Qg)z=e;8Lq+f+H8g<$pwvWBQc8GxOp~(USuJr)M&2(O-$!}2?N@}w|Fc>";
   "67t=17%=GVh<h`qBnfqTU32I8rmE1rgQ=_T#~h!q$RTn39F(EY?)~X~BwDBWmf8eC@CJ|kMJuU=Gc6;";
   "X?bAw8>yfVZf&ep@QyG58WkC@P+-OdEiPF0ic(r(0L6Jgvy+QuQ^5Z<)z?7`oQwZzfA~QGV8QS0aX|I";
   "NG8vH*bi97v1LU|;yvT<l1YDwjebT0bkWy<zgn<lp=7%LOg2M&+5ZK)NCV?lOwj3Wbl{s4^Wu{ixP+B";
   "^U2!sN!NydUM&fzxoto4QG6^*44t{A%rLAqArGJ$l5oPM$O}K}?Ip=^V>3YN2wN0!mH_uyq^WLY*_<Z";
   "reg|tTT?NBgVP6>`!B|5=;sUhT7mL3RPra3yvs9s=(T(iqD<3JIfia6l1~Cp9C`yxlXAE+8T$_AR|}>";
   "R48Q%gA}Ud&|rqs2i^gSb&27#HasNgI@yXP<_<tRrLZ}6+BoJ`TC=HDkgv6lLSMSwh5mmi-%h&OZzJK";
   "}lKxF(T;(PH>&kcw!96l=<hKp(czGt-(Q(R-g&JZPG*i^N^OHHbhHj^zc91$KxF!Sl(5awm=N}B}&Yh";
   "^e-@4Zk=*Gv{%n#mUL<_}6rGwkNQzqxP8v1vUcx^NN+p%yF*px$#5LcU=g68!W+<IWaPqp;cw=ae5Ku";
   "}PtLrv4n(#}Lo#Ed0H=TX}n)hIaX44vvA0i{O}m~}$=O|`@{?nZI}VX9KdH+kAj8p*<6ZmP1tVotU^U";
   "`2vQu1nH%`t`6k?@*^2QsLGu|4gxT6Y#ooDnp>%-JLca>Gv6r!sqOiv4WC{hwSMG;KVCD*njm+Kr1GA";
   "6@3%E3dqui4h;^2Y{9^QPHkruHx;Mis|hz4D!_4?FN-nPJjGa=G)CEg#rAje=<guphFP$7Cn#22^RO@";
   "}V-0me(k6bXSEnijH5ZY~E$To6pOt}{Xj<D)a>5}X@F^ZrN;OE7N-_YH3LlcdtJ)5FiR%v6AGhbKtPn";
   "g-jSRRRLuxY;--%b#4nW*0LfHJ)7|Ci@m6V1f4BDw92yJq(1NP)Zyll-h7mt!Us>tFz;Zh9XD>L+)z)";
   "ns3sRZu!g)MPW!?5H5_AmWRVm<R)Y5*OTMSS~m3c|+TW3{z?TzSCSHk6Vf$PmqAMC$@SA<jHAWgFw3z";
   ";%t3uDpYUw8OZRGnv<zB?(LUURIiZx}z_lim9Ic-&%yfp9`SH_brXfQ4)|vi3#R@_PZ;Yy4Q}ShW^A}";
   "b)u!o_DFdp_;pkas#OG(<{T{T$8Rb={h|8o)i}0-Io2J~gO9xywiL;JI#^eFqB#WMPPh(IiK_LWT7@m";
   "Rb{+EJw%UHbcW?D3@9(f4oX$4e_x9LeNvk$zXJ$`pf9Cq~A&AZ2=;4h$dUY!@^vu;+-O`+ppgs<+IK)";
   "{`xF<`X-se-$e_M{%)cy`{cbbK)QoIYmgih7o&eG`Yx`dzZrQ)Tk^Z;`ZX$#;?L{^-OqM7IocVVEx!m";
   "q_pMtGb8`VVLGDtZyU7}Lh4AAExk>}Cg!$tmpNzZBJEo#sX5E;B+U$!bd0<FGI7N@`=#HXvYQ$92aUn";
   "Z<jYRpD2)9FRx9v43>m_sYoQj*d^X^ORJ1Hdt#O-}>Lb15JRm3d<6sl)r58=NvzKK#)gaT85FhP=%vf";
   "Ak>i{?RP3r=MV2lcncL}V@HC_N?4j93KcMHF857glHBL8ZJVmBW6eY?k2}CdXyWk>yR<oG+x)gRy5b!";
   "c`g{vNEMvCiHvadQp?@qH9Ki>d^a!>|?k&wdV2926jwMgjv_`xKZns4*-tcuPK#Fa#Vc#rQb#r<M4^+";
   "3h%&kJ>Qn1!eNWPsuRZIOug+PU2j}#d+O0d%0yRSkQ2@mIMsw%GgEfA`E_stF6!L4359+3`P^fvO%h&";
   "?TRYVB)@48-@&l?C23bs2Aegq$59_r?xv<lpOY;x(|Ah?(+<E}QEqY6YQp4FubCM|~_#$29UQVSSpIM";
   "ty~`zNzX>M-d8-S!8u=&}w%Kis6_jloKh!Xp}cf&yjwogvnJsP8y8SKfxtI6h#JhKs!Jw3Lqz}!$<hp";
   "4m<@W?lA{jU*aLv;f!@^iYHxOYPtc?D!Xc3SmUYNz&7t3imAkDB!%*~=6IfzGzoe$-{N`EQK`}G!x)2";
   "SPYvR4>2+LI#T@Gol-p~a542fuLR{UWX{nEp2Fi#`>3qz&k|TPr&$!ucJp{+ag<W;V1EhXKC2XXg!P?";
   "S+ffgJX9dptFVXQHQffS@Um$_mJ6VMA3@tpaiHW$qOpdtW@JDSnJa20RC-v&_}YuXx=lo{$qDIACxRH";
   ")K>FgXDi+BIjG%c-FB73GaN;&OR$8NYjPW$y%6lquEbp?iHZ<?nMM6a_Tc3gs@anc>D~=tw@(gv@h1>";
   "M>9}M;-r}>#tl-5&w1kakPEmVNaFu(T*AnHUtnOQ&s;SXqc)?%WBzBn5<19<x}u9>G;5)JTmMj-<LP_";
   "7h=e<ttBcYj)UYyFanNJeAOxyQ-y>4StwZGQ(#OQM#_PY^acPH_h|f4dSacht&w2`K?VK;FlJMaF%qL";
   "dIkKb_ggN6zzW##o3hh7FJSWB0Lfljvb<5mvsl1VA0+-ffQZ4G1`^9(6!Olod$}W(koFfJ50v0b#@UZ";
   "}Rc=y|5vaRW0C~ZvZuCyCXk!m5QQ=B2i1}Lbrj(S{hSA(nD-3D6U9VoJO7ye$QzT?=W?@-Wmb=A49*D";
   "?G$E~OX1(cJ<EvrMrS=VR~}bK8RNv~_QwczOjAl|1Q_2YuM#f<A7Fe2vZF{WqM<c!Jcy`Djy7%-5bw6";
   "f?{h<f3%zcaKVwXCkZQt=gK6dp&LHq|?x9W&HOsuLbwGa#EEsjMCSNxCk^uF{Flj=aB`xOiQj7KO98B";
   "V|QYV>CnTN_B($*q-9$INlMI_qF!MZE%KNMJV)U%&kL;9p1V=pygCtnk6k=Tb^=AP1ykn#%m1`7VO36";
   "})`Ij-EJM<AoulI~NcORs1v<v1EWdvF&A)^R2k1-~ou}Jy-mG?*aMxsNwTIkgZ;c)MN<UP9dJR7ZWXJ";
   "OJY(BlaX>0E3cAVaE(VE*~$02>>$Al_L0%fg$LlJ}Q0j6Zo1;<!)9Bl_$o~l-O=A|aNEUGpM97nY(W`";
   "N38g&fo=I+fS7vFV+H0i+lmc;f_uZ;IeDCdGD&mti!tgu%;-F1;nBEv%)%;K1-^SZ7QFraQJSjj%?n7";
   "C-#=)RO|RJ&|gU(0kkwHir?rrOh{VoRwlN9q-{jJ#5GJ^snuItSQin0fxvn)`{PcOc|BidkdAT8;2M;";
   "Y!k)=OEY<&%(t+xR>?yOphmvZ#018HuRjiML|;mSLq{jx@O!DW^BNGEM(d)!L&k!4p<Sz@&I7bBq-zW";
   "wzpYz$Wt6INV@#TkO0qE5K58@2En`#CEQrbEEwwQ}`CDKg)$=MXoBHJWrmmh-683W!+APigh6gDqY$j";
   "UU2I$@hNjFlPmM$o#QF{V(5P%_EJnv@BXYYjNJGDJf*6Bh^a?CWUq(1D@w@K66<IG|I62}9A;N5lT$$";
   "<~%SBinkUv}uWPZm5Gpu9o3)W)Zl6D1o*J3;eICP&zr)a+M!G(6O%WHn~oYVv1}x>(`B)jb#@eKLv{I";
   "i=xZxE6c`z?61OG*+pUfww?af)k1Fw;IyeuMJL1&V<3byBcr9#2wT0JBleP3=sn?6Vc|(`u!fa>NkOY";
   "`e=hgNS^z>6Z%u{yi&|9WtA3-R9$08=we|p-^9;1aneZ^89NEaj?Fo(r$Lr{YZlnJ4@pYo;oCgbeT|?";
   "-*1R}KXV^N>FDT^ITg+Nk_cF%&!GGV3kvDwytjt7kc*v6plI*^iF4B966?*Fa6jfk|&p2?F=?fI7a+-";
   "AlRZP%b%<9|>AyG19)Jm`NjU2uS-CD4HZ$ZXBeP%b_jWyy3V~toVi)tE<#mj?PK;G5Y;i<d*efn%2K7";
   "nY^TttWz&x?N~UdYn?3%Ssk9mhm7OznmU<)mIEUw!=_({_21?w`!&3kl-k-tLXeADMg`rfWgDPTs}wJ";
   "Ex^EqDf%y3WRiBlLW&oaqIi^*$%jWf<_iG1jAPfc}TP_75CT}!JeTO?2vhPdpC+$#)iyBJfR^x_v=(_";
   "66*N+TWqhQlvuEd1q`s<QE)eO)txFIyRzkVTCVuQVFf3SQGDZA;Pr--<(H#dgq|@LE6btEy-?Q$5`-_";
   "bAMN6Hqf#7o_cr36L2=<FPZ)H?#iZhGSR~AazXDh_Ur}7vKO82+^d4+4(2T@6yO-0JAd<i>QR0qLRr-";
   "oNvoQDH!^0Qtd9?Dc+Uq6b@ul&Kr+SH+axcp0bLuHYa-SeE*wc1>l1i2`;T=&IY(?V6kKm+QyVIpAxj";
   "AxVrRPIym2e_n(1vNQJ>TO<jars&!aQ8L=iNR+>0|amC-T{A7HV?x#jwW6GjXugxvQ9~B)M>&(~w;fn";
   "B&;t?kd&M@$oRe$=1-qzb=2@vA)^tKxdj`ce)M-ofQ3qZnP}y_1WZ!IQOC-ysP*u$({R{4KvhVBp^4u";
   "3MuhO-F4<%UOUoUR^?WQ8Lb+6yw<f^M_K(^k@&J<?`Ung1B{jx11<O_{f;mGJI>4j!`{z(h}A{$hb?_";
   "SIcB2zwXfOehyG;cat-SjLy-#!_V-)`nbp<yoQhup+bNMSw>d-{XRnW3<QPr>vol_T651T}B`}_$T6%";
   "L=&+1s6F1ESu_t~5ArAxEzJyu`6`053ya&T>du(<6nle*y(s5_Tj=QK7M(YjzE!6U^nZ(~?#1=>KLJA";
   "y`W?iD|ZSV$|)3%U3LlG#ok)w-~L9|Ce<%aYKgnp0}8=x4F&C8G{%>pzO+{~4?=xU_NL-KWfdxy-vxc";
   "`#6a70mo8lut}l(i2k=sw_AKQtKZRSeOd?cLC^LW+#`)z1P@2?%oP)->EAdy$62o6kTR&zh;G#6s|8|";
   "^a9==x9-q%v!8vSuC%icynEoBcFwgW_9<Sy<$SZ3hB*)Yb7O@iJ#~_yb~(m=C%oR)d(y87ZIhPT@n3Y"].

(** pip/_internal/cli/command_context.py *)
Definition pip__internal_cli_command_context : list string :=
  [";1;4)=e6~{M|G6K1Ti6as@$cq3LSD=@Q!f3z`=?sGg{St3y<g}s;{OX!O9KQH0000801jt2Qpb~1sCE";
   "GW0M7#e03-ka0B~t=FJEbHbY*gGVQepBY-ulJZ*6U1Ze(9$Z*FvDcyumsd4*HaYJ)Hoea}|}_D}`q!y";
   "XGAgVJqfRL158rIe8BwaXS0iLtAHzr;4SI%)5N$j!OObIy&Kk~vPK(6HB>Z7|CVskH0lRM0Ibgfa^&S";
   "P_yPh*YZZG;-%=W_zaJHBElb;mp94pggQJ<7KGpf{Cr0SS(+cWcoatzL2+%D4Iu42(fISJx176!`fw-";
   "9%L*IIs-g6U!z)@x416glN#xElEir8I^KxHqrf=aQN^gxlUP;YBZLx8%hE9B#&zn5*?ulOx%q}f`v(;";
   "%WSAIVOcUajz_VlD){T`1W9<3(_8v!4KzmeH1t@QTJ-`h~*mC-(8FOGGBsn#YW8}ukBjqLZP(4Vy3`5";
   "r-A9^cwR?g=x+i}^htgm$oGNFOlgphhzFS=^SE}#WzRi6ad`epiSz+)F=t7gE{wwp0?>v)gra-eM{U@"].

(** pip/_internal/cli/main.py *)
Definition pip__internal_cli_main : list string :=
  ["vVal)(KFq)>9lQcy!Nb#LQ}#Oo$F68FQp5|jd6DKTI=>?-@G3H<?3O9KQH0000801jt2Qqragc+ms^0";
   "5}Q&02u%P0B~t=FJEbHbY*gGVQepBY-ulTVQFqIaCv=JVNc{X5dEHC;RaP?rQM+WibSOor9D*2A$0fQ";
   "giz#7CW(vJj%;U_?WzC0Z|r0juF#c0jx+OS{N~L#d7j@nwUKTw<S=Me%b=_gWP;ldR+&&{d7fvjvl~%";
   "W?HEQ!RVCDBur3I>_EwL9s`Q*?)4sN~)O396I%T@~(fWDi_dZL|gBr>T(a0I8%UY{aj=|P;GiZtl%>j";
   "?Q^q%KNDpL*8d2+K`e5&BMk*0amFTL`!L+wb0|Mj5fng&ko;B%*jE9b0x%X$n-9}F8B93`UPwJpPb0B";
   "5typWp7jRhOTxF8`?Rzuw+n-~JA++c&n)Gl5@3eT{IVd{~OlF=eT<jEe$-F6Qc#9fg~?S5%de8&r9bW";
   "!Z`N)e2+7p#Y{4qbI>67YorSoFwS|PvWbO!NOrnC@*9k)Ry!fFpcuH9i8l`5$io4`P4_0fIo7+6kmE0";
   "9C#V!6RXbA*3`?bvQF3*Frf!*JDNJF!V5pH|3W+wtf+fwI=Fi*rPgocgM$Er4<gr^ke;*N!=i1;LGql";
   "H*diG&YsrVdMh;D*IM`CS(HI70D`i%Lvo*mTxTEpoz_2)6WXO2g5+6zNdjOG^YwIK%C<6uH)LKZ+rVn";
   "B8=Vxauf?+?%QrR;yXFjHQ2CiMzjjExulaVQ2!EVL%UF|_9C(${%DFO7QmpHAh#|<AvYS4hUTevbysH";
   "{(N4Q%IoJL*R4ta}nI$TcKgtP_ai0=vmhIubR!fZ~p7;#E=tuYS-%B<_>l5tv+x9f>DncL}W~$K{>^>";
   "=a@lDg56_6HBPf);<w442&bkrMPYd&I@9Z2dFWLXIXO-0-HFod3t$BWlC)Zg7vE+p{osN$DV5t!^6*6";
   "S@&E`<iQe0xraSJ$gNckOPB^S4Z}iu>`BiM_))Eh8s!;>r<kT^EDV8Tt?iC|;l%TcE3osTXKH?kcO-!";
   "`XW{@-OHb$730C~W<SeD@w&>r79ESOl>A``p>6fC1oF6CC2wUQRwXw~pshI3}huiHUuc|mQt9%jhZ*8";
   "Ddu6UYQC3;qg=2`Tz#k86`VhL`wLdtRyLChC!I1EFV;-lwQOdTk=H~3WpYR!IzjGBt5Q}Y6ZotG(%Nw";
   "Dm{CN8J)ek3Mna6D#e0@n?-NsUay#jQ28NCWYNry-q-Vjh4GJP#jyaF34*vHAr#AsS++vM;B~?#Y{fa";
   "rfdt{KJRy$83VWw5C-ZE=GY8yqxZkwPSvwq>#1e#tgl)W7mr`fPKVx;ZrIDeQRA!zE!d-7Ae}x3vk|p";
   "+KzeFo2E)rlvh*MukOD{&LTRbOYCrS3F&$32*#)N0WIgsol}UIU)|q-zCRb=|H(^?jg1Ti92SfBJ*+Q";
   "LO!73mHey8;9~Lu*w?qy4l1EYcc;Nd8q+l>RyfL-q#w&iqSfd5g$&+jHWevP>gU(LzQ=)1JPxN2Drf8";
   "l*S{2jA&1LoR=4L5QPhU|ry*<)(L^=@%5J=eYNRfQ2;OeQJ^gU~9dd*XHM0IhoNUi>+=0!SO?Xscu*c";
   "JJ8XKWn16yyDjZtTf$oH&9L8hV*hj#GhA@Ymlj#ZeRrA8dRJT@?9hH9zD`;VhTMR1-(|)-y9^{HiJrH"].

(** pip/_internal/cli/main_parser.py *)
Definition pip__internal_cli_main_parser : list string :=
  ["rc;WO9KQH0000801jt2Qt8?DFH{5o01gWP03ZMW0B~t=FJEbHbY*gGVQepBY-ulTVQFq(aA9(DWpXZX";
   "d5u<WYurW<{;pp!C=^MlPPBy*IO;%glg2c0LvTKXs}O5xPTqQ@6}zk0hvWa=*_Bo==X2;mh*mT6%(FA";
   "kj2wpH@1S{G3xrOv5@9bDl(N-E^`#*Lu(krc@1*qtbA!+@-a^NeMiqo%7zDiOq%t72f6@mX1bZbL=y;";
   "bEyfvs=CbCj+7+uPylAYm{=o!as$l(3YWxMC~-!9~%v!w93tC*$u2ku!fjDClrdn;AL48fd)l}$s}(G";
   "!XBTvWU?Db#2R%^NP5D!l0w4BnSGaG%*Z?>9=xlZku7h0YqTOCMo#kx%gzl_sPid8cIke7HGuwgn@=h";
   "c6$$6zA{Woc~pP`h0nLarq}TVt?ZGHURoL)HT9;uIbWOeJ3yof}&tT6a}2YE-V!?gN1E$F|;8}A#_i^";
   "FkwzH74G4wZ=4J%U)X%Og*buD>k|!hP9&gnhoGI%6q;U9U5|9;R7o|7G@QS`@PUDQ7(9yGJEH#J-q>H";
   "%YgS{lh3KF52U}P8ZDjr$cBAt0D4qRTRTVcRpkgpm<Xa{*E<E;LT4ejK^x|X@)w0IXsD->{VwushB8z";
   "Xlk9u5Qi|+KaaPiBR)1{Mzb5?Q9t_2Rl(H;H6s$i<tak2!>M$r-Ykqo`x3!rkiCe+xXVgmfIS}VP?Rn";
   "inck8#$pTO5m5)JpbUyfBV1gCQMxthn3yucCdHiISF%k!=!8y@1<R-svTflg$}isUBwy^177@J<_0AK";
   "mH(S5bRu7kyWTm#T^glyg1v@h@u>Rgx%c42ixE6FRvcqVT7aV?`5WYI;g{Alnqp=XF`^ws5nWcXq(W+";
   "r?89#;=kHV88_J29@?0E)$kQNl6sW=D|s6)-jC%Q2FtJQVRTmm9b26oPp(}NJNgvlZiL;cu*Vc8L%tU";
   "4scqn^ekl!Mj;>S+q2W7%O?|%=YML;RdpdFLJ4oTcX-`Pdo#4iK@|GJ;TD1UlF!Gdw;ToyzXiZ*M{k2";
   "zu`_|Dc94HkD0%-wcqZds#eFj-WCGbUZiMAw)&BpKsWpB=YjZ%m>eLabvecWt%x~+Y>xV*TMQs^l6(S";
   "9aIVrw8m%9m*h%f-6<AMhjObVi^SjnWyK?`rKj@4K|wjJv>{>5Fm%=9kBIQZaq)Gi@qjo!u#tYP{Yu$";
   "&)F3Hc;wJ@D??8$;t`uxtVoD`wG5&bN{(rK+5bCwcD-laY~4HE6w8G)V+8*?S9JPjON7#M6T%q+u590";
   "<Il-_LtnDvET{Qd(JeG(2i#d`9TxULJy<dcJmJZ1nIG?fnM~cI*5m3v{%a-n7$X_`Yjo{4SKr!IIl)5";
   "s@EA_pX^P9IINN%gYR){OWvuIv7Dm*t!!^P|_Rt_}%^K0gCJP>laq7eJFQqtw4U8L$aFhAtL&I&W=mz"].

(** pip/_internal/cli/parser.py *)
Definition pip__internal_cli_parser : list string :=
  ["<Yn;VkIQCX*oI-jAUyKTODohfYOS3EAtxC;H-bn*}W15ir?1QY-O00;mMXE#!HSTa&~3;+O>C;$K(00";
   "01RX>c!JX>N37a&BR4FJo+JFK}UUb7gWaaCyyI>u=mP694YMf>`4qsa-2ci~F*ui_5iX8(feCL34+LV";
   "+gdw-DRy6Rg$v37vz7x89pRZq8}~p!wG@2%f}2k&)<x8wOak1Dn>-Fx#&nwrDBpOriXsDTAiGnl3(|X";
   "Y(?9OTi)$REe;3PX`=RGXd80Hh-3$G!x}<iP#hTP1&4Xw5se!MJxEppnZvO^Zb-uwMN(%&r;j~r&KkB";
   "==ReU_v6GXn6bDjOc289ie&~hNgkCAp4w_Z=`^kwLZ^dp0NAh3c2IlnsyE-cWQL{UJD`{^zz!~(Qd8<";
   "nN>$xZ`wYU<Zb?4}LUsgA)YlJLo(IJVJUwtz!ANpQ0rIw2ozYA!>0V}+z3dw?inCxg<)-5lUrg~6SEg";
   "Gi$#*c6R@%G)n-d3+Ze0cXExlwdmz8fSpT64R82nW~k*H=;snWAJR0c!0*fsW9Q=?bO~92QiH|A*bb@";
   "xWE>w@KE}T32+?`wBNyg9K@!n!u#ay}nAI{>F^uRn^f0Xu3E#IjLK!6nQV1*2iC1+y5lwfokBDd&QQo";
   "y9P{;HPLjjIU(?XvA!fd?&eHBYe6&QhRG`droD&dV8L!Zej071G&YX=!4ARnc*k{B<%+f2HTjClor3?";
   "qy1vCvjuAemmS!&$H}XFWN~0^#mhU=ng<G!oBel|S0*<N#4cC$zPaA1j;uqP0-c?Ao@>H`+klDA-7Yn";
   "(O0uZmk^Wc+N_hPZ^mN$BD<`&w_i;L%%<cxeXZhBb6<s*WbBxt2v*<eyx^H*+{9So!h${J)xaJH<{JK";
   "df@MUQh>lfw;_+k-yO$akN=e4m*K#rkvjlm+}z_x|$-dlqWq8$E;76#NEM*+Q@&V(a6hV@PP%kOR{cI";
   "H~evB(uS72e)`b2t?7A;r1NjrHxT*@B@gW@Tpi6R_-<=&(5}Zw6imNxvZGea~IlpmQK#@Gzso-e&FtI";
   "0e+vlGA;w_xVW5-&;32i%A6O)tR{i^T_x>%h;{jLE!b6&qJ~#~BC&DloL0*^T%-!}J$aF!!#l`aI)CB";
   "SU8L@%=`~Z;4Q&VTf|!Vx?YUp;2W-5+5%6DKLiU27RNQ+Jr>xTID0fu+wjwx|bAT)>e}kN9FSqceJ);";
   "dM*_pWe791V!<_5|6ImzCcld3Gf+sJ9o+i(4vWSdW2w%|S}x?_&F`FxN6yy_I>Y)tv^mn$N=_6UC%>D";
   "X<{;r}b9ZyD<>5#v4v9&icn<qi>EX(ZGM5=6~1$^4+;?j-xveMI6L^7#u~#mhgEgNZdRfa0-K?x6wb7";
   "Dsb?$u(I4i=vo|3pg!A6dcb9Dj129M$708LZY@Mh$y6J2_PpKt|wZ6h(bvOld(=w@l-*8mWHiOGZNy+";
   "f$}b!88<#Hy<#m2>IaN*U8AyS2?GrFz@{IkbHw{jE$nMVJx0ep-V;*>r>(aDNEmKim+6Q=c>VK8+bt6";
   "8bI@#7Jc;KPbKJ<$n3?Kn{im2q%Y4q*+Q}L%v;(uS#`FNm$4xFY7iV}6(91r50Z)xg+~_DayOj5*(8p";
   "5gQ>d65I_o(=IA`Pb%ahF8E?ru-9Zzz%Q-AD~k&NvjQPOKS5gZll!!E=0XJ;V*nlOdn(0su91$LLJZ@";
   "IP>csY*-t54m^hVGH#gk(SV4FK<M_aocVq17tJv<aL$0ofk_P6FIc;MPHzlUZbML;ZW>_6~#mx`&Vn{";
   "|00Z_rn<5xC1~41`>?0yB_=kgFeh2)`Ys!&Je&M)D)!jTc84pl#<mNg1IZ`%%KnzA(FRDU$#m(>`xH;";
   "6H_bz_9s~QxZJ7y<tByMgH-N(_n|~LZF4qi>@B2~(2RoMXA_1tOJaKo7L}Eij%TdG@LBr7xeLw?k=lZ";
   "VO&%bHiG;!RXigSfJOs5L5=sPUW=FzMH^VIm2R?pylP%H)SAdl??P`|CRMt_&nn)oFIb6ge0hYw)l)M";
   "IR+A4(_vssf{=9>rf%9QtT^53w4a$YrB847HEbR_h^@sY!mjy*dl`W8&0k;iM7v_f5upG(R57V=EKSd";
   "I^nS|^L+9A*-La3nhh6B`jiho7qAa1`zy#6!fxzEavrG4#%ycysqqbqh}V+Uy0@5KH}M+>IR`N_PAP5";
   "}z+p%Mgbd9^N@<)5N^fRU<xTeYjSYy$CaJVu3^Z<|<}rDMmAFNB`DK(Zl-VC>=))4W@z!Xe1NM;AiG-";
   "77I97<0Bbnl)4>U2o*LYyZX?bE|iL#0!F~}Vl$-^v_6hRmiL@zJp}<mW0k=}V#~WrY&d!2S!9cRX-|v";
   "n6E_5J_q^VZX$4(+N-IZF?^%8AGKwJ+x2LwebrFhnH(ZJi+ZNz$5TrQ0g1JA}g)!2?1`>$ZP8zexa3~";
   "9dr4p^F<)dXQKfGEK(|??qo4o?;iP~tn-xbgY8Kbj|$60n&qD=kdW{Qz&G83%HH9M{`t_0%H@|eU(E-";
   "P4Sw(=c!PYCO-X1$)D_@B7ibPnN?xF%-ML$1*I>LuVcvqseQ0C1rp%^+>BIFKBcWh;+Zfm9J^San3x2";
   "B`II*zLjAm5>e8f=v}stGH$dHTT-nSXm}kDU_8$?}BJHbdDN<0;mIJkazgqz@DkLMARyI!z^n|7pq+>";
   "u4oIUGHMx+`UcE-vkFqlDS0md^<oBdu>$x4nrirV3tRzaTCWZ)t)6ZJj6Ngf4WuU%6O3(RY>CeEC5ju";
   "Kf>-GnMy$9>E2mjbJSBYB87z3{^^w?AmrAuTlPC#I^A;e^)v!w^ywz(Yzc2yR1j+uQGPEYHGi5m=YBL";
   "8ZSL-CX;Es#=VljfX2k!<JXLv`$c#a9jBS{DGSHPXTDCSad3zuqG$|X|fh5L5t+d`Am6`{fWn=?Q{j6";
   "!s^>C@tDE=P96uuCcZu|wg~*e+5BTwdg8&g6Fn?wA73>oF6=>GNYyf>_KjW(?CFcUa8S3b@9_+c8&6a";
   "SbM2-YChB0%svBYuy5l>{*R1hCQrr(cJLHH3VadQbY_3sXGkE#wBx1nW~t2|5g((A$lDK4DQ$j?pt=}";
   "PfYL?4J!k$1^*hc<QOwev~<<PvW!5&6+=y+_2~fJm{)A59UVmuBPEM3W)8a4D|XNyi<OHQke!`nP!!e";
   "_tIF6>@$D91bJxc+4QmWWaf}dAi^H(DT`)uVYdm7Hs0VD^@pr@+gRjw;e`5%tz*SY`Rk<r+L3d_jFH8";
   ")29>qFxVP`K9hQK`}8XVx%TiWTdm<11nTi^!(arlMT2s>uPYS$Gj=OMt|6OOj5EAdGOoT=wbM`z75fL";
   "4-KS`G|5{`T7z(MPIbx5()JaaQEtSmseG_m4~IQw~qlGRiagI~~jM$v%Jar8Pz7ym65mEfMBCD#=ieo";
   "%o&JPYL`AUpE`i-5!A)UVuSrwgg*#&B&3dXPp3Y_me>hJ~M*D_WX-y&#~Omj5g)i6*E<rvB4CDc$BpZ";
   "bz${fi=ormQf|gI{TtwXl5j$Y_&iBne~KpJuOzi)scggn>kHy)-S5cr|0j!Z`Wr2SaeM~=)G-8fYzKk";
   "KG?g{Ox5*Ef27=Z5tqN~%?B*Go&_i@=$%EMB_kjZ)j8PCnz}Eh!HfG^L!pN+K;jaTIOCEN`g@t=ju@I";
   "LDh3#)(1cEJ>PqKUnl~=UBPMm8@WLV;-`(6HlNqj{+y;5^Y!o9b>_e#EG5#0^8Fl^D{_RR_x|D2Ma43";
   "ePNtg`o5EWz?BAntBhnPHGm;xx7-OYCtI#@17}4i}Hg2rpm@iA41m>n8O^#zTlll#W75^)S^%pt4JAV";
   "bekfEznd(J#W%vV43@M!SoKw_u(R!h~ZMyz8&98Seg^mL_>)?afuGiJBxiy<3T`02Tne?u6x}1rdw>F";
   "+fb;vg*X8)oKTl<cl1Ij4iI6z#JmM*gzv0#3DwiBkk?Ve$HiXTB9@|tcwRl!RXio{+GdS7=nTv5Yx1J";
   "}E8wy{z2RbzF&vp{`iC%Q04?7L+64G|{BaQI*%j@BfnK%w5!e=sWHWw$TOq72TcDmVx(Lf39+~!mlnF";
   "wn=8t~vWSY=9tPTsMQI*c}(>?sL6JLw|m=^^K07MugXAkE>+zhVj!0Q4h`x@YUJj4Bcey9CqgZk0N`X"].

(** pip/_internal/cli/progress_bars.py *)
Definition pip__internal_cli_progress_bars : list string :=
  ["7&!_qlVT-7^Lrw`cKMdu~oMOENEO3?8sS>!5b?Hk@e%`CkhhRjG7?8jKgEbiKkinPXoFDHkXI1yD-^1";
   "QY-O00;mMXE#!0Eu}0l3jhG2BLDy*0001RX>c!JX>N37a&BR4FJo+JFK}{iXL4n8b6;X%a&s<ldBs}$";
   "Z`(!^{#}2?LO~EQRcI$c(A0nr=eS90wDslU1VP|4gcZ4xHm0~NcWFs2`oG^d``|;Olt-^u0kK4KXLjb";
   "B_cF6mE!ku;t4vjj$%M&ep-RJ2c_+10`C#C0NFz$4RHnlXz0rdi5o<Zmc@_w-E`GSUd^={TnDHtz6Pc";
   "UIg6C-_%CTQMaCC(%;>n%JQ&k3HE!R8G;-XaZQfM7ddA;xj2e(%;%Va)3mt~R(ZEs!VNhy{hH$21j0b";
   "aV0c`j;xSMIVc83Y$4q>U>hGaV;tS#T59zrVQr{$KB}_Ak%Wd=A;d`nez^QWDG%s(a~{QYV3ErphHZ6";
   "D@xe`w7gZXzlaMhu0q_=RdwY|7r5(-R0%Q<qt66tmpR0fZ=1gb~&8on=$)dCT7fjmf8#krrfj^_ZTfv";
   "nJW2`5ALy_mC;Pi;61aMD4{JAWvNQd5}sq-QurMgQjeL;ldMW<>#L16V)>GmGPnvDU0BxkPCO9nL==X";
   "-v|m8ai4(SEr|eSYVlWuM<=8}vOeAI!3_VFQuJx!W1q3QZI%YGTWmBHqMvl!r(qEjgk@X+^iP)om(6@";
   "am@<dq?PsxPbn6hCN&txXXY#7!I$5xPN;Q3z6*h;We<qr(I&DDyn7I2`NBZ0t(1;e+@$G9PKP&~*o_O";
   "a52LGEfPf{;Wj5tmA6VyLUaf?wql`~<<qDlLc!JG(l+xL}Bu*b>A3xoS3cYSX6_i21w*B*=ZPGJ=rdH";
   "rbLm7D{V5g{aAbmpp+3YSL}RVPT`}#w%$SZf(HFv#aH3(VnvFT8bT93DRX@HWPr84Jm1?V<XmPLWUYe";
   "(fA<gL86;&LB2U<8N7Vd$EjFwEi`yt-$b=h-<BKFI29Ik(zgT2gHiwuGB1MHKBlDQ?$A{*g6HPpol8U";
   "%bM7Q(&NEi3ywz==aPHt70oYSSd4qdqGoB|BDUEg{ckp(1)MR8vRwn7KnKDk9WNjJ))sar0Edb+>O6H";
   "?R*C@8Ch*8iea`ECq^_}y|mv)Jb;{9G{$ucc=Ry2+@7))Nk76?js&YlSGW_};Zb#x=Efs0*<8UY2$3a";
   "JDh{fk^fFE#xLmOdj4heP}QqsR)t3A{wEQ5+rg*nNh`&!t|BBJw~=ZU~r^shr)4%~bIc*oQr0=QwZ4q";
   "*$g_8X>&OGsRO)tf!(`3mz0jsxmAS{LcD}phU>wbQ%uoEIrEPtzZk8qMWd#Dm4;p1V#%KnD%x~Tl~;+";
   "DKlQymiNHH^QXl6fri--1U3`PIpDFNSVjwr!I(`e%17j{cQ8J3Fnb(789PMW8ir`G>}QJ9BxcwM2ru=";
   "C6Y6oyE{p|BQ}YmGQv=7c&z{(4DT*J^b9@?^Y)8R-6G3I9$b=Eu#*sd?qy(6Nwp4#sdA(TX<md^wQH1";
   "dskY*G(c^h<R%{r~D7BX4D5(t<Dm}0S57jO@(Ohv{w_!cN{3AU0hei4U2x0LfaWdWWCPE}rlfCzUTgJ";
   "~*<M&gebt2WFd-~g#NAy42Fe8!^8vr_PMQzJn|4cSJlIbFxK6WbrQD57bQW-=L(^N!g=Ud~Z}A3nTY(";
   "XXh9yt)`t>AyzM+_+xg+I9tWZL6cLw}B>v3w^E#FG55C3`t$#mhnhVLd0jBZTfp`VN9V<j*jLCglbA%";
   "*HN)SOyoz)O|dzWNP<EiJ$wHA+a^<0aKF)RRF7?}MscluqaWH(RW>Tn$AQwl<pHX1`YK>Ir8E$<3=J-";
   "_lk0Ftp$oRl+*9;%SZrE6Y>VItBA@lN1$P`O>77)SuF+e;_>|IRj%;9a4z*J)ey=T5W1Ie6jiBZ5DFb";
   "y89I?v`6qtOPA*mqQWU1x3;6)+waf=znJRICN9b;m+q`oAuBL_yQLWF80NZTHeU~o+cU?WnSxW(@+RI";
   ")cwagZ%-D;Fd{8g#NF8TrX!%XP*sE?fL;lT>nvBF%pC@paMU-LMcU^czb$tWP>N-)GmJai)ncUk<Fh^";
   "#s%5n0e#jJQOxAL%3}Kc-;7qwWkNsnGp7w1Br|>Jo5Ew0V9dBoB4f$@f=0t;W>>QS%zRopxWZrN|gOE";
   "`>F7&YvsP^>kFA}3q%drooMnIjaXDmq(KY>B0AZ-Ra@?J>WI44d@5#S31oRdXlsuznS1QAZHHhkZx59";
   "t#B720MF<|8iGEAS#s+Ax&=2kbyDjhGWHjo6Qnx=>kRdl{k7(kFP8wjVB1LBY0xvGWu4elptHjHt`Y4";
   "HWw;2nY=xR2TYXsBq{s=yk;CYnZzwfj|7doMi&n;lh&4$X~bbUE)jH=;(-W?wwKYsP>>38VUTbJK<FP";
   "{zf^n%~}y87DNW2+tf|5VUFQT2M||0@b#$JLhDiO&U@07hXC*{DOlb=U#V`G!4dc+q8tO)Z@^KB@i_@";
   "d5SBrZzxmfJA!OL5W3p5+;r27{$`YB-?s7AAMryi7v#K?0%1(-6@%}-$beE<1~LB634ssiQmoH=_xyo";
   "kN4-VmR3XX7#>pfF*~Xm6Xe4qJ^Wmq5r_r@IELcS*Ei?^qR&$R3)$~~3}YwsC=gFfy1!Ng+E#N*2a`T";
   "5r8$uMsr6h_E|#WS@;6c-S+6_y?y(n7kDs}dnM7d-O$>6mZ8lJ6#g<0B0sMM%{_nG+S;lY0^GDNaJ{7";
   "#IBl)}CrUO%k86h=~){)geSHA*C5@S#H4>{~T{26oQ-;}zjtMd|IS}m8hOj5&WyUK7(MKuo-t2jbwT=";
   "}7uon2mCFghX7Eq-=TvxiCHfG=iO%AaDi2XSII@tk0%S3J`w)Om}Q7pvQYN;j{w9KmcS@VN?gpM-R2H";
   "L`1vN7c?=EoRht3F^k}7#CY8rl?I#b*G~kXQWjLKXrrckhpma+M|y<QF0AOjimKg@<M5>II?x9NSoWU";
   "BCR@li(FOng>Bf8iZNK)9fuCpTrum=x=^`2ha8eghFclQpKsei!p$%Z0*9k}do_xLHBEc$`Ra1lcJ-Y";
   "qx9!>e$<9e|z7WZ+2b06}WtHay1~PPTW<NtM!bn@6H!oFMWuiSP1*7=mx{?=6Ri!)JwV+G07u~?NXAH";
   "6Qr%fE3Vaj@|Am7s`qk6&qT-n5D?T^;Q+-XKQed08?;b+onhcgjN%~1hbJ*MMEGhrKyj!Y4A*{43F_S";
   "kXfx;BKj`0+IDfYZ_43jqi+zMQ7WhRq`axxh%WN6xR*dX`n4#`^D2+RAWH=OAU>dL!p-H-glKccZ0eL";
   "hDGd`{`{iLuv8ONe6k_q^dIZZqpg|_4w@pplRqL&6-QsW!YOz6B6lR)3LijyieafIDAS?e8TavuZEq$";
   "CU9)eP5t{cqtzikUnuD(xb3_H{dyF3SRK?NjC=nZ1F+8gcxdCm*T1p-Yn*%>UI-ud_Al_~R>Mk--oy^";
   "EU({T?Lpp6=Q@K`d=(v=_sHb@NXArJ_a~~%gSk{#eH$*p?&NtS!32oCyf8u<gNd}#9@4mfkP7!FIu%?";
   "AgYvv3v+a>;LiwiuLm^^skUQ}Io0P#C_U4bT7z#62YS5TNMx@)W?y<}dBUMlyjxp%XDZfu*uEFY23l*";
   "V72y_vlI@cQKyH2B>v9je)E2vB#D&v-W<`FEQ`m0OCv`Ek52h5`ew6Dixfeh!h#(rv1q|CaFy9)jY&v";
   "vE&$+0SM0hkyCMy#U{L=tSwYu76iJB|b~OKDBS^`#V{33ce1<!*mczmo%F1yrQfPcirCM=KAr?D2gfW"].

(** pip/_internal/cli/req_command.py *)
Definition pip__internal_cli_req_command : list string :=
  ["EJ5$v&3&ZDHzSe{|2&8P0#Hi>1QY-O00;mMXE##IpWxjT5dZ*3KmY(B0001RX>c!JX>N37a&BR4FJo+";
   "JFLGsZUt@1=ZDDR?E^v9(TVIdcHWGjLry!h%wF6t}<<J(lfbW{_ZkwP<x|eKQ1VJFk5^b|9ODZYtuCM";
   "5KznLK^krL(XCcOfu7h4i%NDhDVm(+ARJu8bk5rty)j<d6JzfX#ctrNvrnkPzee38^F;}wS&Wx*~*^_";
   "D9o$|9Ofu6A8JQ9x6n*uKn~oU=r7e3UT7t3)O>w=YyleWkiD#fq|?6r5+G*s`p=E%GwS*b{b{q}R!oe";
   "<zBJOO_^8vKG0h574GKsaaDLJcV&2Qsf6F_Ejls<U8@{_DQ-E1(yeg^GfoZiCVE6m`f>nW~Rl9RB*Lm";
   "yiTLZbUK|(48OeGZedvVwp5diEca~F6lq<Sxw8Gj1Z$Dx6aBgpRTS$kA|>u@qsw<s-3Fqlxh#@AN^@b";
   "Gr2DL_Y7ng&X&B+k#71<M%B<QLiD?Z~@bs?kQJv|huf*MpBE*5;rCblGM|dG+DHrTg@*7b$>f1)-*}0";
   "JPIK&9o;|>Os=NyD5Ew`7VxIVKF$LT7)s_{lIs}-rc)*)hm9M4sxIP!-{#FgZmb|!D_W0=H-OMn3n3c";
   "ld=Z7HvT4dK4+z14&eQCV?7Jqj*@PAgIeP4|ZX)(FY>yr?hro8Z_b{|&@ds9H8Cn|9Q*34;q%wgx!I&";
   "?-ja7!;^Z);V8<U+16&Bd=ftif4Flhc(g=|G;oSBNmhS*pR8U$ho5%09l85P{go8o49Q13=9Q8b;r}|";
   "mVu~ZdVRws3R}MoF==W6i(T`56=$La3EsnPd<`fG_HD=x6<Q!e^y=N^yZG$+#n}(>o1b34e)0NyFbbQ";
   "%<5Ln9aRt?-$yy#iCwT*aYTx@kJSz?hK)<RN>_<|tBww(rrpo!GBk5@~7_*l9FFVfjGkh}E+<?DM<d)";
   "ZQb*Oh8cCYB+B|RIXx2tJzU`b!-TL;A-V^B-b(@tw0$}9b5oPjFy28Bb0&ocNH{=dOjH{+yXEL_1o7%";
   "4I~Ab#)m>QDjKEv$$<OePbw{V?X0bpjE{>m@y##c`4Bc^uE78F@cu?0_+iU`$0Z3mDk>sa{+3G5GsTJ";
   "5RPp0=5CGXid9ys@5^aYqYPiu|TtV<nhV)hQ%;<QOEHNb!Dz$iPs~<9Y1BWIa~gdy)FyhzETa?s99j_";
   "3r0+$mgl^qfftb-2S^7QVkZ{E?>npbK~MG@n#-O8)Us~02uU*SaU*jzOLOqQ#`lE=uXTy0(DsDN^Bz{";
   "~!-uv#2;>c~8;Nm84zF3cVblx5UNlY`#pSY+<&DT70x*3>R+QTC*>S-H-*?=>06?(9VCYF*%b6ivuxU";
   "~1xl9-AyChfKnE_tF2^bB@+J1lz<v91Kpf`BsbMi+QB^8D*Gx*<;nqd!n0}#r@k@=ug-J$Y(bb12@rZ";
   "+WrR>%mPfB+tE2TB7WBdkEdK)oPf!-Z(uOWoQLF`%AM*<u5s0l!I;*Dc@?cJ~E{<Ch&=e9vnDh2gsds";
   "6*h8F~i?q{!I_%5Y*xbeZlk<f$lk)9~)`SbQ525?G*gAeuSZ`<R=&n(~LlR05ysqFz812$yKc)GqD9m";
   "(V{+4JuXR8mwTW}!9X9FH9a&}`5rvZ2MUAzp|3d@9WXWMkcNXQ*siWCb^7GVR@A#@jp5`I?Mt5Q57ps";
   "`Pzr|j<m<2g@fEuk=`|(-9vd`dV0s54MOE_5k%5NSutP;pjvgQuNGl<RUm?Q<tHqu}FhO_YVCfw1dvF";
   "^cdbeXxGSk7)TiZc?ncNIuxrBHRv>*~HS*zKgiEBwMbh=(<p5%yVH5*s}+r_V?D26?Ns^gMP=R?b}2@";
   "DxR1n#c`UUMG`R=nmHIkkVgmDId!7p8&F2!dIK5#Fu@G_Pz^@9AR1{;V`GdXB^DQ%5zQI1Bz9@D8zP3";
   "jD$Jr^#~N-~;0dFb_p{;HrKrAz0<U#%o&vQHR(ZVBOrNfllAPeF=VCfK6c7LTo@SYaZ;2TE*jC;v2Wa";
   "u6>|igMJn2$-G0Ln!n)=ZMzj4!q2_~w(Z|B5SRu&wn7V378|i`FeeAsd?$Et^!Vx!9<ZT;0slT2u-1o";
   "DpUooNOdW6chdcIj4%U7Ti4~6V7A65M4`{&YwaB8N4y-a5Qnbq2o=d8E^k;yrB2A7F-^w#F6k$}2v)r";
   "w<G<MQNqAyT2zL#ZFnSjp5p^H$EItWPD3WN39sQ|fQsbaU_1ZZ+v1-IByJ4nsz3X4Dx1(iT0A%d?;B&";
   ">T?AF3)<C_XJLh~Ak=@E9d{U4+}ZfE{5a#)Qzz1s@b0c&5&E`{!kNAU5pF(4yx&i@G(Ssg}@MLM*9EX";
   "ePh_uewWa1o{I*UE-pW2)fzzhwzBKO0GG?<&uvHnd)j4h!p_UF)>bQmnc8zJF$`JiKBFmLYX-YMM|E`";
   "#UAkR6;I>ORfiujhPf3A9B?bRTYe%@6YS)3uz(PjTLFV`P~OQ+B61u^)Yl3dSoOTWHxfJBpvU^6=YLF";
   "O09rfya?v+aoy+Y05#mk1z68RBiJ7t?n#CjN<_{Mam(RX^c@bY-yt+Jp@g}}{cX{y^vkT(rl_;Wbe|q";
   "uqJid7S^CIx_;_~^$tN54a7Z)$%vu9_|FG7vpT>LvGE{h2yVH4CHoJO4HJSm!Lh6PNcCasD<_(%Eyzg";
   "F|kAu@!BzLc#EfCYhcSfn6cT*(a8nnGz>Uyez3A~k(x@@iOwVY1qq``8X#n#_A<|Af?dG+!TTHjcQ)0";
   "(4mPeJpD>k)qTi2fIG2Z7$c@pIeCum+Z%$iQEQ_j#KAoZLp0zDR;$y+)rsS@a!u!;lD4YU;ynXHs~xZ";
   "wm;7!Vh{G>7!9}!=|9!Ng92$A>k4wXQ0%jOqzx)!7%c;iHW%QG(65$h+DLYb2}$c)D_tYOMDwnKmZI*";
   "lBcstG@t}1%LG!ufcQ8Xl?WW8#E+cT9+9##x`M{ZHWsez(`!<1K4ltjjDOmiXrZfwd7<>SvW6@^{+Y@";
   "gBhE$8+NZO#U_4Gq{%?8fj`u9PBXu%%iD#6d=>)Q}`sXS?ILZE6C0(Y-y<o3`3iRPZ}vl!r_q9mg~Xw";
   "$pRj~2bNxgq>UVJ@8Zib$D_zhY^sf$>cu1+3BRez5?E-Sxw5JO^>kPNX|#*)p{&8$i;UfCn?h@Q8N95";
   "Q|%J1E>rYk{+>N07xRk4J!+s6rz|dx_1Dd4z6?+mOTXliX!Ed*Rz5rGN;WhPOx=&VhZp2Rag#S151!n";
   "g;W9<sm`wPTo%9vw=Zb(PIvY9$h8@l@1FK*J{xxO^oyroEbaVH(2&{*Zg>KC<SOO`#Y4jil>zM3<1zJ";
   "`VUjRTnDcFt9;RN%Vjgz<+%aVwbULNIgX6;+?O|lh;}y(3L~8D~Mr?L@WEY%ZQL{6kSc=wB3?=E^Ws&";
   "K5x0bH8s)NhYIr|KHCT+!i5hfTZz~j{hFQdH$N+NnwE<n=}c^h^1E$C8=hCEiH=8F*Bx-9dyx!oK_`I";
   "$mbuesIdklII4L^>bZeY1^S-93{WH?5Npf!-QJeWNg=wE?)%y+<RW!tuS2ff$Q85Ci&8skGCN0YZds1";
   "mG;bZwP@spfI|JrF3;|$Ys^n3}3DC<Ufb_7I&ne!;?*->LsY8I%+riCa2>uGz@w(Cb~^z0TypqlECW(";
   "GYJriHj2Pakp0w{0c%aH?d#`PSC{N0%tw-ewk21z+2tC~NOY$KAp9!G<kHsE7#|8|ATr@n>?u}YMg%x";
   "YBLn~sxa;k1jK^{b3bHhGt5&e&14LVQ0jOpN!r}-Ua0*#NTiwyHg%hd`tg^ST6b}zP#r;<M6W6qxG32";
   "&b9Os)27)TumqA%_$656D<*bPp!Z|(!S?GL2Yxm7>~{nS#)lp0zIn0vpGXT#i^MW9;&Ga-nzJbTakDQ";
   "|1|SFRHX)yr1a(EAy!EVm#(6|a+S9_~ZGxwiW&WB&VNLBYnbYCGN)di}>fiRTSgzHb=8<f{8SsQ(^w+";
   "8QAvj@tV1kUwj$fGZt%lX15gU=;R{<IX?8q8A5{SYo}0;CagsZJU91#|pYc)L$900z+m&mo2tM3CnFx";
   "5b$huC7S{5F-ij%WsWcOIuBBU8BCGTbQ&ISkg}<^5?lqIaRJxAJ*=j6xm2KOYI9g(96enOV+|{yidSF";
   "$?dx$#4@HfAcS5cXZ5;`nOPJAs2OSu}vcZBufMa&TkA**jvlDoY#62eY`NUv{bj>+K1P;WUlk-jN(PK";
   "tlLo#~+B5O_TgBVY`42_9dk?yZ+BkaFFAz;F?1-PHGJKKZDL&!yE4b~;7QYMO<(rf?-eXc{7&(gBE!L";
   "-jU0v{@jFltjlPiqKda2ct-h(}SnQY!`lx0IWv<-W=jI)v%+n!aiCC0#aHbBuo^bPx6ktJ$r1KOyexj";
   "%bBX?HICLtnFVp@fa9C{167wn}Pkdmo?q1)`kz79PwFrxkl6ZKWx}X_p1M3NOErnN0Qa{&pn{p;ePmT";
   "ltE{D`wvD*`ZhQGI3U`d;qBcA1k$&+{RcymzLo6V`vgu-^AVit*s;T?rTZ8>dvqhv{0J<MK=NL2d>|C";
   ">4a3iZ-~-|J8PIzW>>dcYd&6z+A765hyLMQh!fTh>Q+3q6tg~(pwjGHBM}od#%y~S(9M*eA>O99{3L5";
   "Y5Sg3a_ul;{XM`X=D@Dh(Dqa+$#u_ULb_lfP+vG!J-IK#n)+ky`5^`v=hbQsp)iDmNIP713JUxQ1ndu";
   "QU1pgS~;B*R0_;e6J1Gc;^?bsd^G*|!XKU{(pkOnM34JXB?c+^~$3ECWg1<1~19DqXwqI35zM*-IOur";
   "h=de2zB6oq+H=lsDp<&6WLAD$@+2O%!;A*^-IIY#DYK_3Ib=(bfo^!`8pA*r3gi;VbKsgMtt3;O2m%B";
   "en{{j@mQj;h#ou}y#9v*{X}6sVy}O^y6Daa`PB^Y!w1|UQk;%PEtlr?(!7SKA1C@zv*QluudzEHF*E<";
   "~CgmY&W=K8?&d)GHkJyV1B!>r=f~uQ{lg`uYx~YEHCVp<R1}w0H2wD&VV|zl#(P?*3y=5B#@k)c#?Fc";
   "K(GqjiPp`g}ExDStaM~CxH5QZnGdK(!3|KZ1h-4O<aBbwc76~G(rj(cCCjnt3dl?~fBs-~I+OKO($1V";
   "0NXxF>#yI)10Yj1|ylpxmI_2V}=FGoIpZgQ5AIM)}9|U-OelZwrJ+gV*E7nMkRK0BcNis}pwOALZ?4K";
   "A-mvijVA@{^jCOoNE#6cy8q|?WX_uF-~wkEVz5$f$2JJaBClH*F0V)N~9EN&$Mw0MWJ3`d;EwW?sjrU";
   "T-_ZUmaOp*E1mvpzYAIa%G0rE^AS52s>;FM-{P@-X1_{QEHBGzeX0aaH4Ur_&J|B&x{Fm>RvdIeQ$_C";
   "6wrOr^MT!o<bq(+<q*xCe?Oxk#=I!6Lk9(UrddG$2**0-97qh+Le``6GzKoQnNAi-9edQyY%HC&dT{U";
   "!A0d>A)b3WAx=aYubky7ljJSUt&1&gOfh87v%4`f+MfiEe;0jRhNXVM|(Xz3}HS4ZY?ieLZfFKtTG1n";
   "`U%Kv+{S%HFC^P12*5T1ZoNLu-Tnfs9PV&h?>H+UumKI}Cel9d}>wuKbU8qm(8;IR9w<uJ;X@_c`t=_";
   "$97y!XTh1Z{tH!TnBx!Rtfs@MwWT&>ix%y07nc|U=)(0C3FfL@T|W#h9isDqDbVyZPq>gQ%V{`o9V&M"].

(** pip/_internal/cli/spinners.py *)
Definition pip__internal_cli_spinners : list string :=
  ["O4(OzZ(&ycZGZpIll`i9-#abq>7aM#4*0)NO9KQH0000801jt2QXz-7IPV4k0EHC*0384T0B~t=FJEb";
   "HbY*gGVQepBY-ulZaA|ICWpZ;aaCy~OYmei$75(mCK{yD;-q`XcX@g+US+v+pvPL$ZVke71kPQS{qHT";
   "64QX#2voVNeH=Tej<%a3G(1VQJ+$RaQAi}&1zR@M|OO;?q#tVmNPi_%!n_|h3wd6Cxd6PC*->7>zvL8";
   "Qox_Tne6<g!_jURZC8a?OG=>$TMD=GE=?J6;xIFj$f7QkF^jBy?_UQd+aN!nsC^SMx7!)0c1G+~2*Ku";
   "=`hc5AmgYR6-4_xk@T8l}j>Hl-xHA9_EWL?jG*XlSdUB`nB+&$c6UYld)&d`CZvL_RV+y{4Ra@>h|T=";
   ">6^EU#eDG<+_XBed_7?J3tSI5%<m>_4hh^FI~b5w!m^vjg9-F{9o9x^s(FEn8V?48OmX<?9(=U0b5d}";
   "{GchvDe~HYGYgxHiF$ao~6KWOL=<fqkKwPuYm`z`>h0$WaWw~?$OMYIIN)&L0$ZxGRb_Agf&z02DZ35";
   "Q`y>OK}IIVK0WH@i%Q%tli7{xO$pF}is)Hk<dXNp^rK24)m1tN*B1*xaR4auGaSESj7TX!>@zI*qd*>";
   "JK~h_!m(7NxW@<4Wx&>~mI?IrqZNoIup)xE1s0n3kD1K3jl)O<sr06FDXvb2rbEk3aeA8UNt=@4m<L2";
   "k1y|D`mJpb{bihq|q`2Nc^?mm#bhclP;XQK2R|1+z<{E=W|o}9^1H2kKT?Ydz35);-Gkg*Vpyi=z_uH";
   "BmNXKA_s>rxpHFA+pjNYmjx~M*(3=oqxR;;{d1&nvb8ud8nPjK)`u}-{G*=dJ_22mBy8B%aVvAbf%xZ";
   "bsHZjSI;h?=$PvUagK6V?KIojkwH!d$ZjiRNcv|BHTZ)yjc<k7cXOFJr86^vEnBUMQl7hy<gpq2LVq0";
   "!RD;$xUCt-u?;gC@|ql7(S93hMqeZZQpxzu|$v{RLE!|>gb9NO{CdEduF<l5dDtks+2j-m^*C3`pgNi";
   "fcqit9(_6eo2J<9W_ZWuv>#%Z%4?<`R|AXD9-Tm8y`!`di&tPf(47@8-St%%#BN;k_Rs(h8Ja-KB0Lr";
   "Kbnaccbye)6w?e7mb@9^-(qcUGw+*nbuYAK->i^ztczXyl`)w?DDOxkX!~Iu(uBHKoZNVVu|p#1&MYO";
   "xLHqSTU?mbP)8}pMj9CNyYYkxpCw@NAP|I7DOOq>Xi5PyS;na!q7uPIMrVQv;BCh~d(L9|BlN=6yi!Q";
   "y-hdZ`AtNB#AB8BVT#;nb4jI{t!Z9Tu1(fG#wWcrU04Y*}=U7uf&(y4@$k}B@JcyZw);Wq4rMQ}wgW5";
   "d;QjU6zpM_3h9mU1{KBe?hdHd}7+1mCStJ#^daUQR~y*AZkqanh;q7fN(pwjI9K?UGK)@exUelU@GWk";
   "$mf-8K8r4JU`*+bi~el&V^v6TWN}Y8tBY@K4WEQL_WW;XV$x64j;Ff?fT)tJHt5h6w;&a6fwXOc^wgZ";
   "ZsbMa;B<L+6~>KCcclz3!#0&GnWB)o)>}g{BDmAjPQ|^I;d8Bklx;D9U&JZbBWGxzopSB+=Q7ip?@7<";
   "<U)ClJ))Q%Ythac;gTcyi<@7zyQ?f=@z=xXlq<Tb4+ej4N9QE|EVu@S?SKTDQs_{$DMd$gN6|-t-i(a";
   "j_fz=~k-n4lS>(yq2K6hK7V(AJg=VWA2r!hPGqhAq&>jkE3@w&pwu1N#Ue}w@P&T7;UA!i2S<xo|s&T";
   "Q9;e{%ZLS0mBzWDNP61m7kB-p(|71hunm#$QN2Rs0(TXBWH7qzTC#!w-b!c%UE3>LlWePG!o9i1VqFd";
   "T8U<vZ8tqd}mv8rRJc+{{X@D;vsdEtoRN-c^Zo9E}1ZfQOMVWM~W?x2u&1TD>L%u>H4oj3;Z_AZoO}I";
   "W^`s7vElb|B3@2fqHm~<LQFmFbxO1-L)r!=^L42W=gZlI!xiMsl8mjlLE6ulvQi-QzlB!z81Ts;WiJF";
   "ZB_as&61eThZ#r5q(YtDW0bxJblKg82fTltjiB!Zr+J)m%>G;s#14N277sl_&1WBpacVzABPE0ef!`t";
   "wAJC|ot=l)CET=#X^|LDL4`QH#Ffnr*q_SEb`^VybjyTMPYmkGG((FlctSV!9!4r0Gz)fHIdJmVnkJb";
   "3`tMx*-xX1}@ZGCLZ(bXaeWU3;F)w5#VW`>|3uUMlPjoyeRVcj04kyV^Q!`K!+9!v<aAR<;3+8+X3tn";
   "M|>>Ga1+3g5u_Uch+oOLsk+t+8LxT@<r&SMpgY%b9ep5^nbCUq1dk-fiqY!ZfhQA%tFl;fpgUY@Ko#G"].

(** pip/_internal/cli/status_codes.py *)
Definition pip__internal_cli_status_codes : list string :=
  ["Mz!B^BJ-YwFCGZGOCY<(ct(4Oyt@5nmHc)4^T@31QY-O00;mMXE##YtatW(0001-0000X0001RX>c!J";
   "X>N37a&BR4FJo+JFLQKZbaiuIV{c?-b1rasJ&QpK!Y~j;_j8IIL0h*jY7;S7XC%qQ<)F}lV2Q-!{uad";
   "U-hZDr<uogisg{~Y5%rwkDHnBreA26yQGOf1bKe{9)n0ADI7e=wEij&uZYY1#K(sD!HyDh96y!*ZdO2"].

(** pip/_internal/commands/__init__.py *)
Definition pip__internal_commands___init__ : list string :=
  ["FSIuk9imjl~Di?(j9c7P<8F7zkk*P?0R3s6e~1QY-O00;mMXE##)LJP2k1pojA5C8xo0001RX>c!JX>";
   "N37a&BR4FJo_QZDDR?b1z?CX>MtBUtcb8d7W2nZ`(Ey{;pp^xF2K(jxub(h6TugE?w4OYa6WVh9U?AT";
   "B0l>6sd_+Jnz@<Ig)auTI=Tdi)bG2?%}=hZn0P-cf5GyTfqvW9hX|_E#peDR<_t`8m>#5EO0J)!G5g;";
   "tBg`+N2iD?v}3k5y(-y8uue4QNtBFZ(=>v$MuILibHv!Yz7rY5H2Zdc$x3NCi8}AK+qa@TFGXdqZn&}";
   "{sOkihmKA;1L5tcm&Nls)q_ulj8+}1swuU-FA&vHm!CE`l+RKZJt#oz2$pG`>6OIdMZ7=M_SKof|HQU";
   "v)s9C{#D=YzpgiZh|P~$i=6_8eylACNRTwW++Mc!~%)O6g0YqzFzq68<m>}P4+{d@68FLWX9t?M2hpa";
   "Zu7O&+XO^Ctmbp~HDPmLyeY8kXn5QhCl~LxLIKSfhF;^6)=N;(qu5Szs*S8BvfW?7;c1E1|f2B@4G^n";
   "m3|!eXB&&1Q%yHJR~~JRn|MHY=%3NZzKPkk9QyQ>(@VA|CImo;qBYow?9I8HM4!0F#NpKsf3q$pFGp1";
   "8Ve<}4Tm{noDDqJ;ct>8adoRJ!>&dbSf(RNx@Ku(%3g`Q<*r_{LUC(zI=yDL$GL8wu7>zEWD)`h9|DI";
   "(KzFPbs-=Kz72i{Y;`dTnvu5H+Q1qI9Tl*jmdKl?p*743+wnLbCnuS8}E<U+r%%KHqJ5k9$DS!p{5od";
   "vKhalI5>Pr!mgi;UEA!s9fP*Tt|{E?zfSVzbaNm6udX<JdqN)||?J%yMic(U3L$w_MS626BpN<y$Ri_";
   "mV_1^)1^G&{{UNUXB-9wRH0H8{J0zG&fKO@`!@+J`tKaWCt<6N)>^KW~&(G~A8U1jt`a3y_f{Es5Y7R";
   "}mfGD4$g=m$1H1^9~org<Q=^c0_CqZ8&e1gVT0Kr;c(CY3Rb8drO2npW*Dw?3*l^+#PW<%7W#+55{FG";
   "HQc8ZVrLXdOHZU<I`72nnJv8y%gCOtpLrt%H}sX&W|6pBt)q6byfVBzRsD!BeHGU;00z=$5cK+gT42n";
   "Wei;7DfH=@TgQDt$_)DA$;lP#N_|=T^cfD(SdU`wp@oWhS-wwrD;;q87;nN?L;24@hSw0n5<VmTd&w!";
   "%s8A!*v@kZ=U)g5`#_xR4}rfr|$bXz<TcvQ@+fsWDOr7Ip!g)=av*R+@c^cxbo+Ru5&KaCKCGAOB5l%";
   "f^7#A_;N(HULI?aA;wSKoPCc$njj8Mtq_rY1=lR9i-6ajVP*%ZZ>FPom5g^~t^*xYGB2HRn%HK-s&y^";
   ")>r5?!#kqa*7R1=`}5m^)FE4@cKA!iYC|wqEbsWS->pBmMuQT;)$nX8JN=FX)$Aq?|X@k${(|#&)A#3";
   "o22=%S!!-i_DkeRU*kK216wFMg3&R=v47)2Z%w|EPxIm1pr46Rcwz{TIKA%hZwA;)-{9bd9U3jP6{Qc";
   "GVdGiY%wr|ccc1)HMW*x>E&fYE0w#1n9+hX_;#r?@8!mFP+X7Ge8sC3H;yb{RMJBF#STXj(j{}$EW`e";
   "r*2^6&O2^u9<pxJkawssjh(X+G19q+bw6?)}C-qH&>J42(qV&~r-nqQw~7`y0u?dACfipnMC3JNZ2jH";
   "XT6p%vXq>RU-~HWBo1Z8DmrN%M41)Q1r(4jiVAEUfZCS&n3{JV%t22W(di;}cr$E*>1~pPYZj5IDX0t";
   "|l<A;&)`!Fl5BRtvC!2<P93ztZby>-QbcSG<pKY8O%t#jQ7r*7Y1Wz;j+PUzO2MSaF|n$=D`5M3klOo"].

(** pip/_internal/commands/cache.py *)
Definition pip__internal_commands_cache : list string :=
  ["hWS=>%ZM(V9UugYOa;VHnfM@k6nnc|MH!gBreZD+fjnG(LcaeZxDTaK932hA_TNxT0|XQR000O84rez";
   "~{6VY1jR*h$gB<_>9{>OVaA|NaUukZ1WpZv|Y%gPPZEaz0WOFZLVPj}zE^v9xS^sbAwh{k5e+8l8K~i";
   "h$y$%Bg81oy7ENdUur9qNzD6&A2CE8XiiyBGA&kORu@9s!SqAcg7YX>|5u`TlMc;EQp9kZ5V$I^7&>Q";
   "?eJW#z6BQnPHOMAd4Zn)kCaJ6?&+rmQ#aRVepM^N)Hjv!<hL$|gz6T60-vRnqFRQpvikxH>4!cPvw^e";
   ">+>F7CuK_mB}hoJk7;!m(_*S?A*MbVo^HNtpcWkE5~wief|CQjNSZjetvOtGsVe2=Dg9RsMTnh3n_)1";
   "v8%G7UsJrsG<|5mFOK`~KVJQqo_~9B{<rk{hs(<km*0S2))T{vGX@Vy6^(8(skoEzkF09B>gW9xzOD~";
   "5_FbtUG-ntTF4@vWC)sfQ9gRh4T4y_mYYb$0l_|x}vwX{~b&>s!jT%7^(D#R0H9UtT0I$Pzw&7@UsMv";
   "nXdBt*+kem_eO}n!3Q42FNXGJL&>}D(WOmDfN#xam6<RP&{WxW=b3V+I7hVF;F6Rqy~9CZbTF34QU8n";
   "j6<v1Uz{{|xFWra(4_9I20aCEtlhzF^n%%|s1<lI?)rv0ML+8JkvadcLfxSP8kRj;M+J;o(nBrZFYnK";
   "Rm!p%~rs}HkDX0{;`o<DYOq(&bnpMjHL5C{U|pzD3(h8?-o3kKJxkz;(9AvPSdSIzGW9FeBLxtY|z1@";
   "5p?Tl2;Io;Iz{i<-F$9*zr5SF5XBj8e3;(e-;Y?07g@(UnkHZQrWAb5vZ6?Z*;tX{)!HT+KEK0+2KPo";
   "Wo4;q55SFuU4oQ=IN4zTOg+v_%KA}@SoO$C}j<m~=a$+<GsGyf2`XQa<1*NmL(#wF{5%`n&R+Kqc%P6";
   "GTaK=LGt}yl~x4deW!40o)8)2$IRyUB?W=)puM7>!slENapW=zRp<n_^wM_wU_kV#p?r?zfMH&V1s^l";
   "s)mF7D$X+nW48V>TKPXt_~S;V`gcu;mU==APmMXxEW$VYgRYD#*hp&*}h@FjyER0D@B5A1Ms_&IvFxk";
   "Lhr9M2K;6gcLJNiQ8~QYVy+&o3|IpDPJ8my%^%2?74S5Aa^aab6wJzweVyb6izsv6Hx$wX`#>IBY^_S";
   "2|PCM3D#{**~?T}=MFqe1>0L?tBMy%5PRH`!?|6X6Ygvf%)fBhrMnWa&g_P<Ef{^uH~7ALcTZygo-VX";
   "6Sazg*aLECA!8WrJi{7Z1X~7yUG2N5VCL)#@3zDBi2}ucO880HYZamsYuQApxyL7e;-9U%7u?o-5ZPq";
   "j#&iE~teCBM%?P+Apof=6eLd%2i3rBKiSneZlL*0F~xbJl~RYg}kV9mo{@GMWP1+TH%j=Gwr+v(oE`*";
   "nMsFxk;U-XOQHzRXIfSB9lh6y6GfMZ*Ef+a0g93I`Zw4aU759qp%h$_yg??Chx9UAon}NvVj%(u*5}O";
   "<<%h26N8LIQE#k%H@caiY(RVRrp014^}40#x<45Gn@N{zYl!Rjr3u^wvqlz1Q?Eih=B&G{128ReI=im";
   "6E5xQJtB!Fls=)-YbAQ|n>1?b2!*oIR#2{ANeW&-aHC;Gh0m3((I6uHBUEe~2gXkPf;~-G_53;^Xo4>";
   "QM||eXcDI769;)1LZ*Q-RM}WuAJfG#C<cFb(lb)GmvML<~<CIc{5IAfmL(A3Hx~B$*#x{0-uqM2=oEV";
   "#(VnU^sqj#U!chS;+oqalUmXo7Cqi6MUxT9ZKfK)#k=^0{ZUuD@uCjirC?*JypMbU2yln6{DfxTy6{a";
   "VDF1YX-s3=VHM11{pHXaNy>xekC|Kv2sW4|Q>e&!81xOAu`;dw*pTZD9z$Qlg1y;rIoG$85H?cZ^*Sk";
   "0hHQ8nTJtQP3b!rh|r6jlqhkN`vw!ycBwi^$=xFk%UtP$FS5;(4L@=@A~+Fwp}ZZRn)|i=C)wTgi6qE";
   "y3IlI$np8ho<x2eF`z%qX!T2|xGSO%TKA`C7Ck-3p#vaNWkyR3&SB3d=eAg{HD>POUv+qb5N5pE)h-{";
   "$(;;<H|9=Gaw~ExrgT0&ocMlwQV4pWOxu)pTqOK|qiOd=)9?OE$bq>MHP~a;-sjKw|9{9el4s6YJzNG";
   "`tiXrV7Udff~GVgG3Q$BL9uXDZJk`U52#7O$m(`cebJ#xuZvP}5o61@v*BdEA@(DTQqa}ZFXt)WZ%`N";
   "S@_8CdXDyNN<`DOa#JDx9%n1}|OzO17JXEEa|Z)5q+^LCy~D0Y1Nu!!~>;t~dI;x`Wu?4~#n94XSp9P";
   "1g%n0UnV(@IBVUfjZ&9Q76|4ALud8IZvC@T95)AI{Hlrtnf>EAFKNCgh8E*I!>TzxW;<h-8=H2D=c2&";
   "!ea|a<R?w&y05_!w{TFI!?oK}=D?ZZ6@vu|a~pnjamD`d`#;WDsfJ48^Hh{rZLV5s3Fc3aT;dh=b2NW";
   "iwPjU2$A6wbH3z+=*=$w9XH#VwmwHb2+p3p0ko<K~lqfK(ssmoJ)bp%rwiy)2TmpDKl3U!h%TNQzdOn";
   "a-qd^s%*9G1swa`FGl?ym&Sd_*yXyme*ZgdXK7H@RuZjC=;Ym(=!90*$RHD2{U^aeg8lbU~ncnWG|di";
   "WoSq1Wc@!<zJV5WMFhh$bMW${{O3mCP!|qB$sv<gEg|O6B?A93N-`tcNFxxhJ+dCJ^Hm!oTNa*-tG@o";
   "5Ptse1X1y@Pug#za#>Dq_IIOb@E!>3&B+#YG=c-3Epbf947Fz>g_<`^dF60cc=2)=nQ&#f_k0payC{2";
   "M*z5ssuFuhgB1W{eK3V97TeQNv<bf;fKZFKZ}<CsVzM|9a`U#}k8c~^DEyee1Io7@bKhXNUth8)Ak_m"].

(** pip/_internal/commands/check.py *)
Definition pip__internal_commands_check : list string :=
  ["z@n9Zc;<`!H0mjVyF;GvVOt<L=UCDm|P)h>@6aWAK2mlUeH&STJu7Ono004~!0018V003}la4%nJZgg";
   "dGZeeUMV{dJ3VQyq|FJowBV{0yOd979NYuhjo{jR^_$SBz0nSCyFFihCSx@;u0P(m<@b9S`Yk|)V6`R";
   "{k~ugFWXGN=edk?!5S_wMY7s#e-Usft3#g0Wny3TjcusgM@6<Yk<dBHnU?X{M@*%N>XglXO3?L5$_LF";
   "$CJ786flJ^2aiQ)kBiZSF1}%RioxsC~4wskJ({B1`KGmM`_Ko11~T&Xrt~}Be&?Er!F;RB@$(cyNHFC";
   "iZxc0Ca#3ZhB7Z&P$JdXy0O<0_E?iy1LphF&!;r`GEcsx%ZJ6{>*6zG&QH{EHy9fiXz$yzAWbE&Fik_";
   "oM1BE$+e&I{tJ>CF8yqS<^0Gm5x}Wm+B##l?3u75$S;>uo#M#xiDd@k$F8^#cdqgerBa9|N@1KD^e@3";
   "8g*VKt^iLk>O<ql;g(8PpfZHmTFFiCU=(5{<Ws{+<U+cj`AM(!{N-N?XTnMcrHN5FMqdOB{sb9(R=f=";
   "*_qWlgF!A-w-cJS`hz{Sg4?5&4i(^{pX7uZ}|yj)|!G4jYkNnU^B7&d|H_K?}Tnc;b;O4OI3QX0~lBu";
   "^dvKgt_&M#8F8~?Il|K&`sROOmMEiX#demKgCXqx#drCaCX~{z>NX=X#Cv>jcy;o%U)!A5C){Or^$$C";
   "(Zvitg=ml%d3@I&Hs{D!?DHD&rWW=r-EL$`+W#u~X14D6Xl;ekw(f2l3rE#-&sQ7vpUzUk=!%wq*-Y="].

(** pip/_internal/commands/completion.py *)
Definition pip__internal_commands_completion : list string :=
  ["5erkZc@F(5*?>{|L!5VF&W%t$|FR(N?4V!o}TPWCSbwKIMH`Ikj(jbMG3Jm`Te*jQR0|XQR000O84re";
   "z~a&Qd)8w3CV2@C)LBme*aaA|NaUukZ1WpZv|Y%gPPZEaz0WOFZLZ*6dFWprt8ZZ2?ntyXPsqec+^&a";
   "W8xA^|<a)%|FRlTz1hqs!Tro%9qX5hAcS+pdA`F3H)J|9fW_FmLv?jc&gHyED(sJTp5?%+n3{ew@pk6";
   "W<5A$x<#McoHegCGm@I!zlN~R#dN&e3h>}$P6P^7#Yo6pC*#<Bw%jHsQVNM;)m&G6C_cEJ1IWTsR$X!";
   "T%b}!M5VI2olK^y)hU%+QYPFD6=5a3CeqJ%x;`&0w;4^=mHg+s#hpL-eLDH%FK=hFtJ!ZDYJ6gQYyd8";
   "enr1Q!xF8kA9|6mWsL$ILuBkx!e!g5y{mK0E;(B^>HJ^b8gTcUfr#ytccqWV;0IA9tku*&JdEjy{LQX";
   "SzI4ebvNCjim!2W8oyjt9>(7;}MWMUSc&9OEI<?<2FuW>B<c(UIgU)55$%jx3!&a>dc(x3j9`SO>QH@";
   "MjE>(Bci9uJ2BJUq0tJ4=gCl)QIQzyFKU;%ebv-rmeB?xx-dE=KUv#}5&C`H<v{fep3)hr{u;jE{hmL";
   "PX*qXA+!WyRpMwRZF3T6b%c`c0J1CJPEaYPru0+OT&P{Ysw=5p?WmVI0+(fF2mxucMv8gG%~h5!Mp}Q";
   "%Fh$tq}s9yU}prjeOBWn&xN7UW1H@?Y=@G8^Xb1a9Mf-5?5ooXf+)O}(}G|o+1CasV3lo#(L^QOh6Zj";
   "=rKmgW6c?L7J}a<91~d`iP;i_MxU}J-wrnG<9US|l<sQK>YRgHknuf?2m52!1FnPgpYFNWu)adH=H|Z";
   "~mJq}=ConX)&V2$;1aWD)cWPuQ>F_#G|TeMX^?Qtc33D|)$!lCNvGKD7sxgZh5X}w+N-qqbnsnd0m;{";
   "Sz{zjKPu7m~bSi@M=CDbDeRLJ&nh_EyvrmLM!HEvxlTHB~YO%LeBo%+iD$kCdbvZnUa!YYeMJujx3t5";
   "f1U~$sD%M0$p~VDWq}{lP_dPLhpG+D{Y_Pe+mzDYwnyVt~_(P!E`n*gZi^+vNV?c|D)KILG0cd#P0jW";
   "uzOnw`tGY3;<v_7Abg)7G?s0&!_fbC?qUxhT$XY8Yo6wr_2aM|sa+Q^&l6p^LnzC52mxP<RvlM`Tnr6";
   "EJs#ZS<$u(bjkC&87Vpjidx8`opGnX4G}hZ|idPAA*v($5Hw50W{$$|(MYf{x%h#gSy+e(A%#aE1i+#";
   ";d@kY@M&NC#k3UK@J2!R7rsqfaZT4>zLL^02xjcRmsBNCBBwkt%f6K>;VXSJ+g1(~*s4r0^pBdDdCom";
   "WkSmfdd5?XOHRZFQ!!3cT>!D;~olG_U1L2b&X|rjz63T5S_1NQaRv0?3GP?!Iy=Nk0yAx?IkeW4KFm*"].

(** pip/_internal/commands/configuration.py *)
Definition pip__internal_commands_configuration : list string :=
  ["yKV&rn>e1@Q|2L`DX%V$#nlrX=1g~`OT0!PW}T>O9KQH0000801jt2QcU<V9}fxu0B<A!04D$d0B~t=";
   "FJEbHbY*gGVQepBZ*6U1Ze(*WV{dL|X=inEVRUJ4ZZ2?ny&7w8+c@&Oe+5rPVF{3h_C6Zx1$wEk8*DZ";
   "S;${yEpCQN=ZR;vaI#Nn%1o`hf!-qslw3A}n)rZIuXNH{jL&*+R$!e09yIof7Mwxspx&FnQb;ZgJ<$N";
   "^SvhqNxtcv2Ss3|LwJlf=0v`#pUH|61w6e&??7xM8G3a^v8;eeD<u2JT9cQ<z-S=?V-%ohtMW?5{rUB";
   "i+(D~oO?<7G&8w2m#fc$?*vhvZ9Eq})Z7e%;UtA={JOX4RarlDVLpI?H*a#HA5{G%e~F-kwG|WPGFH@";
   "sJ?ZT}U2TR@1m_>Z++v<JQN@*zLDJZvTicewknV8sFVtUteB-8jZ58<Mnhz;1X2Js;&~osiyIJk~frh";
   ">-G*GiepHwGG2$|Mu;ZKM;+`dl=3S`WHdr4QATFkx+38FO1$&qxJV8(j)T!?w8<0BZ9OXU@zp($oOqr";
   "m?!P5PvZFwCljH=AZkLy9_-P#_k|$m?Yh{{zD&I^<4xCK|f27`1l5Fbif!f%_FPV}IK%fZ`UeQgq&1f";
   "1ZGBnMA%pCp-ARAwxWCa{gz=1JIBoM)re4-NN0kuGY`*M>dHBHH5R__T)MnQ9gUMOgMKNBcwwJF5<J>";
   "FhNFQw~dXRtmzGZz9CggAh2vjWI8VBZW84pM}dTT+w-CFPb(CJm=7gu7A#qE99q%$g*Ok_t{k(~u<OA";
   "!Bs|hJ*xY0Z(Od0IzY%jT4{>!DLHt8+cSYLgHE>lF(ORg-7HD-m=GxQ`jlb$)QX^RhvY*^**U8S^z15";
   "TbJU7$CkUTkAf61n>2YHwWcP1WV@ndG-mYwO$PS|I5`;fXQq_UaJ0l(YnphyMb{?FpOE;Z6#nz`N*LV";
   ">Aj`=_+6wte-X~R3?_mL-MlT?PVRf254aOB1=?v*KurRRKP!)D%3l79dk~EDa4EH(Bx5|(4dV?W{PKh";
   "6o$<O2()Z8v1WVAU5R33FS{1yVQu@=@iwBAETsb^#75*kri%*Gs+=m1S<e}*TqSN1foX7=7<|G88Zm=";
   "l;1-l&cQD4U4fbMT<wFBkV8t_Z-*KVE*mxg+BtA=4Qi5|$-vbi)jNtR^7thb*OOWFrQn?$@^qPP(d7a";
   "B@i`&2!R=Yw&;*BK&ufbC(Rq_b4Zj4?psn9wv{#m&^OhB0rA*5`XC1PVR8w$MPn^$`4@*L#mT0T==m}";
   "Z5qbVI$sFe=Xn(M2a7U@DXdmZ#yeIvmH#fZ#SnBMgf)c-9U)PH1OhzUaaSafHH|D>mb_*w5n7;7X+ig";
   "pKXS@A1neh^T@RzPH<hQr-?7Yqwop9ua1B*LN`WdUmXW3h2*FsxVXcP|v<JaE2(BRHo;^4bf;FUga8V";
   "QS*E+vc&w!2Rks-H_6l%BwWO!vN?UIT;C}<2_cwfF-iFZ)aXemyuGst2uqF6W&qosFEA)iArBzGeITO";
   "MG{tSH-->=1e35G5pD^uIC#{X<DfQ(x~J1U7JBJuzB0tdQMA$E@0Rrg?FT;c=gB_U@vHi4ecWsxyIbY";
   "@oySk%BR#94m~+J;hQ)RadGf;<6w)Vh!A4*6i4qU;^e3J_N@Uii}fzGU47sskSarfOMs<XTD+;6txs~";
   "7)oOcwJn9pj#t46DawYZ?Si15B=n4~X{2QO8a=!rSHLAyg9UxG1>FmXmJViicVG)5<7JM;?o3G|(l25";
   "VI@E)$SZD1oBSxLxH9~MdFwZXKA?y&lC0SQOeMuSYqr5|R6lF2d275;58e}O^R=ySGmhY#lzeg|Xt!}";
   ">C@Y^@RUMTMD?p#1#mt`(uv2G@p*dMN11f;C%M9}r}3q2Bu3Iy(<>S;i*w$^>o&qw!*`CWUSs7>#^2%";
   "&&KUETca!&L`v)H-g2#pUOD2j1pc1317~DUN7_6cs*Awro8qfKGbTfom&;ScS0^?njxmRpAM(S5rWQ;";
   "%InK)k3HuqWKa<sD(;%*f%MTjyS?2>@*_TP5FXRl|Tf)0|eAg9}0DJV*26-%TAyxJM5ffy~F5n!B2~;";
   "Gm6e@kn5ZlzNwCY%x2{M)a4i^n3X740_|n%eYOx~dZS;#iy?et&nhGWDuOZrBms3{1#!%?k^HWCMqze";
   "Mw4ECJ6&3oWQKS5|@@Uw3#iC+~k&KUjLRB4sx6j@g;c)1oDo;B?DR6fHE9fcP9De!UTRwZsV3&@j!LP";
   "2Oz9X|3Wo9Q?#&&v%JFW!d?>irm?9N;n1IdVGABY>G>NDyM8MKSQ@5^RrpV`4JZ@DE)8O;RO|2&%?xy";
   "h}~QD;m%d7ySk@C~lJg7$Aytek1MRqJ3<p3tS#*YGzi#lIt;p67`{o}`a#Po$o!Bx5)-V<n^os5`fmb";
   "sd{5Xw7-mDM`tuqVM*ymt)XY#n27{S4?vj7+hS|GVGNPZ98m?7X><ILC9H0Il~L}Y|kLl=cr<oBO|iP";
   "I<y4R(h5pqhEf1Ux#3HJiJ3|4<sdZ`&MS7X^CE7&6{EFGbq&KbCFZf+*8<;>{RAn@K{6SGCHJzk*khQ";
   "IU1tr|d~`}MvN}=heMM_&Ztva)1aH8&dBDrC6+_0_URo)(?s5`TI*mqfxC<7PP7lFRd*6=ixqi9D;j|";
   "=ex&`V}%A-qgLj(HnfcZ8Fa2yXv=$2QV341p7vRMqwkcc#59B?4Vo_oH20NWQE@A)4#9<G_CDLt3ljM";
   "a(8omIWS`M1;<D0g)%++^s<c&QVBSB-BkZ{w%uafC%yQe$wB8tCU3;Jqk)S*a*uL;2gYq3;;-)#riXd";
   "_e7_%Uh#L6A|fTwIZCXE(N|3z|p~FDC6P)y-L}xguRQh$y3qMq}@cRs#pnjnCMo-GY&OqgS)TH(PmFK";
   "U*b)Y=l)X7*5p}+ov?v*0q``vl~1SI<8u`}UY;81FIu`7KiltU_?zG-Yx4B$4Un}R(MUED2-u&nbZxb";
   "fZKZX{oC_Vqp~`WX;4+ZbFhT-<LmX`i6ZudaP2c^6<`oqmCJxCL3Q}U!8b|F)`I&-cyFE0a&0!7D7zN";
   "p`L5JohG1DZlixS35{xKtkE!zX%ft5KvlYD~Rnu30<=msU}*bdoNt5467>kEmm<T54R)3YuoKnX$bql";
   "ngl`ab~tROJV)RD*NI0Ot?v4*qnDsAq`!^{^#101c%(YQ@(F<u~L%sLKtS<+jP8&15)E?Iw#_zY!75D";
   "5xLz>y=c!Pvm-G=#Y+bAE@~QADrv|o^Vg1^s2+z?h8yB?K$nu$Zbv&&<~^H{|V|negnqY29%_c*K?~g";
   "YV|JF|0&4XT^ogZvn^MkJ{_Wka=-&kbJ0U06`|p{7!Mt>Q(A@%ZVxLw`O(nBbO*Jc%4u#g?ebD%t$M`"].

(** pip/_internal/commands/debug.py *)
Definition pip__internal_commands_debug : list string :=
  ["dcgJrfrm)W1_$#siHNTOf@c#r*O9KQH0000801jt2QcLb<AyWwe0FxX503QGV0B~t=FJEbHbY*gGVQe";
   "pBZ*6U1Ze(*WWMyJ?XD)Dgm04SF+c*|}_pji(C?o-{(C)qklLB2Q-5G2r(`}Mn3^D=1NVLt3ENV$A7Z";
   "m;Pdk!xWDcNnt4~a~k`{m=IyisybDBbj?SDaEJ_MKFQusbcA-f-%^FBX2ikriwB_-(rt?KXUsIy~uTJ";
   "+O45E9nDoYpE6+)D|rSb>01zDz0U(Dz0Z#WyO^d8xg1<cU<wsKo*w43(=qtOye>|TaA!yBu})4tClro";
   ")eO?AeJwkr(?<x)JEl3U<bKcEI&iJs*JCWB(7>=~_naE0w%pL}+3b$mRcgabuR&qW2ky)3_4@qs@(@d";
   "JM59Zeia;;gnzsf*uszPQ7rF}c)+&hE16TS;$Q+Y-?jkk6{{H!Qy8iim{ZIPk`r_i3i+@1cHwTta76d";
   "+4D#WE@O7kG&->m5&>BBx~82$cL)_udTU@0MpOgIyjS&>gd!{6U*$XT-(i6`Ne?M7^SW$R*0Wwf|hU?";
   "jOBr=hw_h|MRvmQ&iYJyck+SS)J3A$lht=>yuI<Hm~E=fXMr%6f7_a&6RT+6{cWEy$bq<U+R2DW|X$?";
   "MCL=Ykfjq>ug10fw4MhEo{n$?;*j~<b0~|JK}-6Ou0|8!jeJSc1$y4R1QQdlBHysS7J$%9f;Ii>S&GF";
   "wo>sUyf&U7AYCnS)pGDg^J97gZ<e`qKMJ#p>OPMQj`EZt7likKtPti(aR$ieu!ou_L-(vZ9AqrM8=GH";
   "Dt0jooItCV<0xXvJRQ^|rHXm#XtF=(5JdY8pSPf*Ew<C*|JSu{U%q|vD0A$D8d}2d^h`1TU@rr!z0f$";
   "HndGZZUbjK^PdB(<SM9Xy<QGaN(ToJ|h@_`f9J_9kUIO!DMh$jLluKNu<LD%M@t(v|@DTtR4UR{imtY";
   "8Sp4L$(ODFI<Eb=L@!X9SY+uDE%7JCF~b4X8jC$S&EGke%8}f)qf}W~ZkaZs5}G!sqBpu~q}y9(If*%";
   "e{q>C8jJmTtn)dX^O+y=N58jnX?E4qe+Q+tGJj|w<{b3QKyL__Jn7f-st%NKG<TKVBIUfV3B}StR;7x";
   "^j*hQ#k4hMtOIMKmOuy5(a=Gqb1l*eagV;idGQE<R(MUHKU}SUJ|P++(HSWlz+X*RWqQ^$&qTKHCpn_";
   "a02zq_=*3Y&Hr88eMV3hN%}f2DLFw2bSv&%K{g#!OP-c=)j$N^B<Q;3ED8?l_tfVXafj6gbeb+?Ehty";
   "f<i&U;+yNf8rzPo%O#i@QtmXm`ZN)klorS;=+#?|rZV7ns$<femd6e<`G0*?@ouvVJD8Uw<WdM3~)8^";
   "F&&GE`X2@A|fGcpZ$yQzT~FaqFM0KSxpyV;GcB;w&)75M*Z{^4Ar?sS5T{pI`i2IY<sI2GSyCR@Yz?7";
   "|g0l_N}Y`QKD$I0hAzeLl|_9HZdz|+sVGEv7a2M0c8t-_Q*-CWH$%`T<h%g8@RD@p~4~NX*c{ws(Zk^";
   "OK$Q6y>6x;KM7HBd-R+vMy0H}XIt)-g8CA(l&2Pa;s5J}vIkmer>mr3Mq%@+@#0r_tk}J@WPE>wxiA_";
   ";96U_ALC0rLSev#&dTOTA%5u4cVT%|@zf&-njEU<M;5p$>MloB8SkVS=1ED-1-7w8Hpa9P$w>uS7+2m";
   "s*+=U^O*JaS|M#rI?shh+26P%AgMx*99;Atrg-|Kkvu(r}Y*V^SU%Z9BXfKf_b3NGVJ<XSqFb&^!!%m";
   "k8Ox9kqO85+or97BkFmwPcQ(rYN|?2q}89DTC*9CBlX-~);jS;9Q?c^cR;a1FRNA^*#q{)euvf4lhj>";
   "6i7@Nn&OXGqE;$9Dgh#{LoV<n6KZ8;Ut<GGp1!S)1RKc)^@5-iYoPPm0F+PF(ys+CnkQ!3JGb%onip<";
   "K?n~1(}^|gLFkT5!7m!M{{%F|UK+O5xxY3~J#@Fk)K8$Njo1qW<aciuel5CT<IFR=b`KhY4D>dkz#E@";
   "4rU(P&nSh~?JzF?&v?Sc`&5jv3Isk*98~}NQ!D&g!2T=!Dapi)A;(4bE9Rb}62$7Gmo2f^{fNq$IiK0";
   "Fblicqmg*xT*e(m)ZdDe0dr<AaW0A3?&G;TFu5-t}jucnw48ORwY3?G*gQhX<2Q2mL#v)DbzA@9e`jV";
   "|DpTZ39Xg@L5!$)1hbR^OZqytfCgh!ZIvVgBPkydEOj10!O(^*;fD*iSgF(1pS~>m81Dro1k``3zJtn";
   "9u)cv-$eXN1?PKUk4w*Ip488+LC-`T9Y?#LSzBHaf85+Uf!nCijciQ(&_M29QDuT(OrTWb)z4(JMP8F";
   "v?-G}C$={sLasV+(8ip>yy6QQqkPYwSA=4qoxu5d=@?5G@NysySFtj~n_)V|I?9pLPb$j`8688*MPv@";
   "eR;4iSDFwYr-Hie7qZtm25Jdp!>~Y7reW)SijbwG^>da9GZa5aH6^iVs@$SB8pYX!y0s%HpmJS+YCEd";
   "ne9#K1UJ9C8D5TdX!YMcex4ZnGyOfE#r6<NAB7LFL}qH3`I&fre4^{+p3|KBGtj86eA@%pf}gBsQ%zS";
   "$Yb>_hL5>A*+GYXHtI`N?C*`>^4LW0-gCl#2(;L%;~Tj};3gLp@)vd9x|v`^~{~5<laMTCBPBq)5c!D";
   "_vaBWBb@;J8fhCz+dAz=vK+T%ipfZ3pjlzV5x=k2HjD8YxS-Ipu)VMw)&7)?rd}~LC5!tFey*Rkw>Ol";
   "D4`UPmRCEtsSU5UwY%=`IrG;ln?(B}lq^%mGigh-M<_xW7Gha%q)WEtMkn!g5Xy$g8hnOB6j&z0YPgS";
   "x2D||Bira%$_NMENWeta|+&ERi+&xs;L{PP3EmRd60|L-OQSovlin0*B7R28X#tYEob$DJJX2SQLBUA";
   "M4I5~gfRc~<m_8jBFaV9VaN`m!`;cX=m1w8Y7<9nt8HQqbn(cn#SDrvrVL|78<%>5*U0`P?(z!a||+2";
   "7fXU(6gg8i2$get0{>*9pU+x8jRKGM5?tn3VbR$Gu+%teYHn^Zq;>iRG8`e_fwnUR~1l2m1Hxi?dJXA";
   "PjE(08m1?NixsoMA;E>>+3I{zAGvvI40)6Z)c_b(JU`Orhob|>)E+ea|TQY*JmM~UQ;If$$&rZ`6DO%"].

(** pip/_internal/commands/download.py *)
Definition pip__internal_commands_download : list string :=
  ["#`S+tO9KQH0000801jt2QggTnF3SY~05=l=03rYY0B~t=FJEbHbY*gGVQepBZ*6U1Ze(*WWN&wFY;R#";
   "?E^v9BSZ#0HHW2>qUqN^%ECaT-eHaE5RWKm!Ua&4Gnzld@6f7;BEH;#=l9W^J*Y8NZk+GcB7GPTv?~c";
   "dk-kmF15=!&NGzussysV`%gzdBxjRD#{FBbiKA@_S;?T1IH7mM6VsCgYzUKvmo6LBi|ASf*}SsN}ZeS";
   "$EaC<dOA-2*jD?ZMExHHEBB@hbRAQ(2a*$_D1Q@U`IzN~p|rx3VD*+!Qnwz^bM`B}yA+8jaF27!|pFe";
   "|`Px_I8d1cXqoQ#nO9F1BX>vO&Sc#a}pZEg^o+E(}5W(ZH<s|wIP*MB@_H#pfxiE9zk)mhHOmTnA6e>";
   "l(pp_B)-Gvm#9l>q-vjFYil&>!1T|@Hy`QspRca}rf=Wh-28R(2bw>hdHsAr@N!bof;Ceb1{oiiXh2W";
   "v;SR64Mwha_gvcd>Q^g40Yxgdqv|=T?<9e}Jq=IQpUdo3`NS5_BjgHN{?$lW>m+p69AT?Tm?a`=Kk>?";
   "AyxFv7eH-C}H`i(S&wO^INH_&U+Xsf7aL!xU)dCo!UxM%)weM@R3zaXxpQDS`mTBb~lD_IXbherfbq5";
   "M)BAX+vm1;SKX@Pj3DbZ8>NgqB1%wZ%)5tUruZ&EdK96vUHp0eXo}Qt-5}`yY4)P86#MFx`>|))FK8q";
   "qKw}sT6=7ci>7^?wGi|gK;Ow;t@`F(`W<{jWys)$TQq%Pwx8Q{X|~Of_6pjdJAkF#@mrTj^h)Owki<T";
   "9q<xCFAk~pEp_!2tq81V!|qA)-e^|rk0bF2R|Yv@Sw?&MNQ20G54G11HX`6TiPmI$MQ&sT<C3McNzt<";
   "Ec#;uKi84;{3sVb*v5wa3vsisx&*j}UTx2%CoXc2Ann8W`etRKzOpF+wzv+%wOtt4S%1X2svepW6P!}";
   "?5m0qylg$_UqrVBV5R2u~fw5B_Di5GMp#Id<xZuLwFjmCNi^)EmFdcocy^Z#>?6!uzev(*N_x7Z$-=?";
   "?8|X}1^?voE{KyV?Y@EKRZ+GA(ty0YM3d9hgFzqb1BMtPv)Wm;@SSTZLe`08uB=^0@e6s*vOb(qF~P^";
   "~B@h;DKd92>P!ejg4S=%q}Clmslb^Nv@Ua9_U`lrVdf{C_4#`COnec(lr-qR&Q?|h2XadH~eYiX}3Oy";
   "ZSJtY1-)c%5u%#PL9-$KaW+`f_j)ejcb(D3^+0!+#6P(TfaaM_G(xh+E)ZLA%=JtN$Pn6hssT?XWZbZ";
   "wuw@%`wKCXOAZ6=1XjC7MMRM#mKHH9B@VCz!vTLy17eIFM0fhGC$=tp7nyXvD9v*w*p(Da|W^9qH5wS";
   "Kt(s|Ix`oZ0&S?@{<Nbk|>wQZFV0iL>W>zCKZIQWr*V#C%rnxmS`JoVHk2t9|;8rN|HXLsxTeX!AfX-";
   "35$N|5z<beWh2p4_^l8usZ^VjrlqTMVP5myis;^(Z`?Zb|<eE(V$;!P9Ik`4dgAAJ|a=$0GdsW}*}GO";
   "^{H>v}gU*A3&l<nM{Czq>_esN!mqLc!+z1Bv}qtTZW5Wi-7eSM*zexOKgOkI-B;58#F>TTD{=ytgsot";
   "^`v0I#iTL8;|%U2G7yA^b%WX1J|!bWo9{QYXPd;kKf@ckQziZ3LSuL_k<0~3NN!6heiYR>l_tOAuyP7";
   ">tn`N?w7QoeLIZBeaP!@|KZ#o1Qrya7fq68S<JtPU)~}r|EEZ+JW=HeX35YrkLcbb~uQ6LD<Ei8RCVF";
   "f~^sp`o_5&Vd^q~Mu#YvFg{g@iZGM87UdNP)gDZRMy@++2<$EpRre|&I-DDrBQy>QUCe{E>&U^I?z8Q";
   "rynYd4{Ug!aP09IJq1u=BblwBa0#Gmq_yq7Og?ukKN}r%;6V>mx329A$M4IQS2nO|+=;L>4OP|7#MhZ"].

(** pip/_internal/commands/freeze.py *)
Definition pip__internal_commands_freeze : list string :=
  ["ksg4xX2q@B0WT(Y1_MzRs2QrDw-D7ft5|8s_`G8{{T=+0|XQR000O84rez~Hu%0?=mY=&9}fTkAOHXW";
   "aA|NaUukZ1WpZv|Y%gPPZEaz0WOFZOa%E+DWiD`erB_>T+cp$_*RLQv43axr?fNjF2DBG9>56t~(JUQ";
   "`ED&hv$mT+k8c8M1ivIT<QlhL|ur$>}V)EQ{zH?QfWJ%Jrs7<XPO$jS2sSKezEqQGqZO%c^-s?LZ1cj";
   "BUSQV#C7*K-pIHTDCyzrj~0KT<1v#gwX#;nX`WtbHD9>#b_HKds=ODb|NwQY{~iD*Mjtx+fk?M2Qnw%";
   "e2Q^Er_c`M8b?sY+^4N*E=%mpgU0+vajkT2`Q_^B^u1z`q>^&1p`gHVo~dPZc$uTbrD-U0Pl5XOU<`a";
   ";Ow!&YG9=S1^l4BWCU@CiY(9_fPLXrQ6?5wr|o87iVX$&t3(=%af1k`!}!7NkYDas3KgEP=l!}BPG}N";
   "lrwD<+hIc3)2)qf_!X0)n9;Wh2tMw0Ft`;}x&!4S<u&LdefVl`(MS*k8K+v4Q-@z0>Ztv{Y;-Rc3-|w";
   "BZK@hE6c}>OAtx2huIb)}T@VHT)J#DM!f4V&Hx8Uw$3+zojz&=u1t`fd+198Hgl2}_0MYnbNR%oE6?d";
   "lHk6NP&1kAq+AwO11?#X4F&{v+o<vvC5fR-BBqXm36o2O5)jxbSCty-+e^lsT0$)O-L&(l_Cq=6SL2K";
   "M>E0tg!tEy?;<awY|IB+D6Nd09~%A9X|>hke4evhiH6dtimD0Sgw9Ny0vuBL<pTy-7%`3Pe7UE@;h7a";
   "(OkpFTv0os*<o^97Zw+;8n7?z^pOYQXKX+Jod21po}An3W#eCcvuV+xo2UUhvUSo6=V;>6)a|*blDS=";
   "KMqWj1|7@*L3S{!r`DJWB|5_@v}jlfI>tDCE8s-~c)>)z=1g3V;cW1><aCbweP~~NcsmESy|*PotXT_";
   "<uaFgj#<BysWt>}F&@BYPNEeK73R2i&8h$%2yupRbjPhAX<|rNwZ6ppaqv~-kc|=Yr*D&Y#>!K<B8>U";
   "Q6Ifxtd4g2zeYO?2YM>!hFKqC~nBtn`tZDzf11o+*0+L0au$r@8m&0;Y__<ktf34Z6j>orpE3BqK}uC";
   "X=3gS<Ho_t-Ys6vy2mT0Q~>v_D@YZbYP0^8aGdIQ+5+sJ>>EO=xU5{rTaVk3(ZK7i;q6YuGLgkxkwBZ";
   "^=aDC+YGre!}OB*Ey^qXNK-3eX()6WlHa1dZ6nkjTYjyc+cCh{qQOt2f2Mc8|R_0+XGZ=r>iopbh=lv";
   "uA*nFq5j_RQ?+nIZ`C$vEJLdHdTs_byT!_F5tle{uiQ|?U8rLnt$4|ByF)uBTH04J{Va96PTH)uNpG`";
   "_yxWeH=1i?d272h(3`?Bm-lBJ;;~M2UOVwW_ZC-B%p|fh@y2^3gJ0@Dt*Wxv_QPB6xk2!mKdLc#6vg@";
   ">~ULW+9Ja79rx;CTq^{Z+$DW^q$Ao^L1HHf<?@oTm2X^0oAi4Fx7r<vOd61xgbIreyq%W<-J{&W0%Mg";
   "!BjhUCSwUtSDpJwMyfT;JL(#E|AJGedWJ%SqxP=`Sop)km<BDSks%H~&(JO}b-sS3@q_qK8cOX2@ehd";
   "9-IwLpsAxKZ|n5;xAJBtu*BAl}FP1y_zImV*d=U$E_?GC1poAiuFT*`wGGYHcy(cL{FX!;<Fs3f3sd="].

(** pip/_internal/commands/hash.py *)
Definition pip__internal_commands_hash : list string :=
  ["bBk{k4zb8d|3t#SM6c5+{O(br`(XSJP)h>@6aWAK2mlUeH&TUvUy~yP001)w0015U003}la4%nJZggd";
   "GZeeUMV{dJ3VQyq|FKA(NXfAMheO23T+c*$?*H;i(1d;%m*k_|EP#E5(XxAy6v_R1<2wECRY$;OZC26";
   "qOf8QZ>anvT&gC&wPhcoBQj2okS!dT;-H^3MX{h*B_{A9KC4%oO(l4-x=wv*yCFQsl<q1t(AA8e8|0d";
   "WumWkNYHic4BaK~LNQt90LURnNEV#^rM^)^X=8I@Mrjm;Ld0eJse$huv;}bMus^cS2ek0zG^E_3GpG@";
   "y+d?UA?-wLhsw-_2G3~?0<vN3tP<y26)Y?&Z}>>AooTfHQKwuyXW2A!+_k(0Dpga|B3Cc_Pe+2_~CGP";
   "b9jxUHcxDC6M|1f)q@+ju`pwN<kEvZpRaFtCoBpTBmqOpSsU7ddl&aI#uV>S<UC1|N^)z-6|yvmkWKG";
   "=y#M0jBEE4KlLW$}^h7uKC3VFm8F=-Lw|HWzPTT=aqWvwh4y59WoPc->HMtkABb!Zh7Yf}CeD}gY56W";
   "562nob#Qfu5FfIEJY5RrsJ{U!3a#1lWf4VRWAy&Q~g$!Fw9Xl1{U7Xj)ep_Hbhf2%Z>^mH4$19gXPx5";
   "mQ=R0HNx*K7jFEXZa`K0JQ}c414hoNQi_gI2H{1xs4>(bdv3Mz&alC*AP0z~2p*t;T}s`m|UXU{$*^e";
   "eSgCw5Y(At6E)~@G9I|rq*GizkoN~OINNde`V5v9Lf|08>L+W338xvTY@<U!T<d)rHwW{ck2YlEHOp;";
   "RST7^0?qS$O;@aALs3*PZsLozM*AWAvsg2lpY<_bMO_LqsZ?OOwe~5Q#@;Am7kswPe2KbYOD?9^ZA!Z";
   "cuw5ncIKaW63yVdT;W)z?RD&`3%H9ADOEr$7WH~wWSI*JWWpA-UBC&Ja*b2Wy@_4Xh>80KNqsGoD@%z";
   "&Lr19zrpv5_eg0SGnbi+blWIr80l4r_ho~TI@i2uFw81zCtvW*ft6B)<%+_1+H+07MJixx|MoFM_1&O";
   ";`S2t9zBZc5E5%?Y>jY&nw@amx8`h$^_x&S9-cj<Y(j{AhA#6JEY%J)luP)Z9T94M(Jjn0VU3k1_fzP"].

(** pip/_internal/commands/help.py *)
Definition pip__internal_commands_help : list string :=
  ["yPo`O9KQH0000801jt2QVPl|=_&#M01gEJ03HAU0B~t=FJEbHbY*gGVQepBZ*6U1Ze(*WXk~10E^v8u";
   "Q`?H$Fc5wBR}5K-9mtwKFWr3!p}VvVrRf%y5QGws9ksTk>ay8T`tKcI<U}FWi!9HaqcdklrBMwqR(j_";
   "RG6tg2$~fR#t7`9%_2(oh+dM6F&V+PmB(L*bE%Gh5$abn}xGVy8-XH%5v5q@$2~?mBkk#{izF4iULGW";
   "#d+6g7?1^>brWv(H-6Sd9VQ43iG%$Jw1FKqs}n15p5o|ns~<;Nru<(1!e3DD|Tm3EpNi-F?@uRYpRJi";
   "g(xuw+xRtGTuCh_xPMX2U-1nJ1IUYOfBkrwk~Sfx$dWfuzgumRAV(ZDw}{c&Cl3;KPvl5CWo-ih5@7w";
   "->a(qI@OTcjK`qDzF6OWoEH1XKgjDi8J7)vV)j*-L!S!9b|oZv#yY}b!Ib#+Xo<5$JA>L9n=RGvN5?`";
   "A<7D|bF(;Pkh^ho;#h@_S<#4^n~-2n8PjC^bmn*$A#WfheVw@}9E970R9(R!EbNJ=#sap-z6h#9IL7j";
   ">$z)G9jTJTple}qL(K4*xZ#uK~7|MbJf<z(=y&U2F%)*l_@U0uuSfxRFY;qj>F-8M9UMiI%?_&pJmWs";
   "M%N!&HJvcPj@R=XNo5n`Qs`Ae$9NDq@ge<x{9B{bZfu$u@=>bfgq6$5L|wMH8DwBg4s!clo>kV_Xccl"].

(** pip/_internal/commands/install.py *)
Definition pip__internal_commands_install : list string :=
  ["harCc_22vGYfrrEm*r{!<B=5%)PD2)@4<ptFK6Qv3FrTpJo%*0w4;<GX0ZKTt~p1QY-O00;mMXE#zb=";
   "$Xq@8UO$iYXATt0001RX>c!JX>N37a&BR4FJo_QZDDR?b1!Lbb97;BY%Xwl%{^;#<G7LE=T{({ni5qj";
   "(Yv|2yOb~5x>>K2oyun8nnzM8uZy8b$l{tNwFGI8ZffqgUw7j{00br3*(9f$nvqDL(dc&r4a}x(?pc~";
   "{`mS$znzHhK*R&nW)}pEUj;HeXix=uSZ`-=jKdR>TwybaU&t}KltZQ2HTj+0M+jnJUew7`6vB7bhUAN";
   "0x!S$%`K3rYBy?pmB{qFMns~57(uG}T*1Fwsw)y;Nyw`t2o)3-SnqgKf-%kMHoEWuHQ?v-bCQ<r&GmH";
   ")%jI=kog0A=0rw$7>~&+@Io=Pz5%s|$P*Y+98D_I&|!DVthMG)#sTy3c)f$I~urZ+VyQ_T9Frr~0=1=";
   "QMBb@3Xqlo!|1G`?BTtyzVaKn+1C;yKS0RJgfWN6e!VUT`vGy!3`ppZ{Pmu?E;8@aRIas_2eIO?jo-S";
   "y=>d2U9dMbz^$qbo6w^WkgCZu2S!nfjyRMGpzwW=#!{xRR|0MFJ40~%0nKP!m`=T^%Df9wAE>8$>Gro";
   "Jhzf|%&r=<U<XsDb#EsM;pW1=!`gI5b%_<q@2TV4zCV@}gchfL7WyQr_bo^fT@3`pF$F}UUb%k&aAaG";
   "xbTz89KF!=CVpqfLk1^vc3DWdQK^rsa->fsdtbsz59rsKJMfy1WvO;K)2$=DSBJeHt>k3zOaEP2}W-L";
   "CHzFXq#T!t{2Clt%VF{Qef`oP#ylALzE<ftKq|fBfs!U(<{4E-(I&zWwmS4{v_>{dCWVvhDh;;`M{>J";
   "v>S4CcUkibykJ?KcY!U*L_(PgJ{st1(>;}uL}7x-88KwpQJ5dMK=L7&xu$;gZSsH>cPaB_wJ0}08S_c";
   "3-&#T(}MkpbQJI&I=ILKw>Sz_)81ztYE9QRm4@~^dU_!rPC=N`#|x!_-|{X40#9|<s-*~HCL(`YMr{f";
   "}ko@12b=K}*S5@=Ki>sCwD3D;@U!a46W-INf5)kU|=~<kT3rN#BG%NUq#9bPdH9<==2`+YtHJ8kKiJa";
   "i)EOv-CXUngrkilL!PH+q$i302ZACrYfST~A4_yLJRqV`}@c6|5mU;XC*2R|(bzh1NVZO_ef;|PfaK%";
   "J3iM1&IjGB=$Rs;MN0fL<<PkhH1SD0W90fGMmZNrnjQvJYR1uxb~g8L%y{G9k3=D2Eh}9iyUb6h-u}Y";
   "R_bp0A3KK>|BnwWLNvEH!Ma++jLu$u)5$MxtOzFpyFBfpNSpM!S;c9OjPGTU%W#L`4iYJ*0+^;{yliU";
   "%DgF*VJo@U00JBU4F;CU(1vAgz6DPO&7|=ycR(i5FwyT&?uGVeh#BchWZ?%BL*EfWT(B+kEe`)s7E%h";
   "bn(<8R*<-e6U882QXBjkYDh^%(tYK5rEaCN<Gvgx?LreP73m_rLf+j9wuV9>8cCBKa8}{2E$-ZXSivC";
   "NY@Y1wTl4JtXvUPyT`8@~F^^yZ#54o_J_4UyXmBYnd)@={<`K@9e!ag&N4dKufWJQsx_OamACS(Fg;e";
   "TlAL3^<!Mw8f8Bm<0ih%ghIO!0jFq`sif0z#Ye8C}6~7JT>QZo8IamnZcBvq}NbNn<${aklJc3;25}L";
   "+{zbc?)52x0<P_95mH?eGl&KA!}E&@hjkH)>qvMndQFO@@lu5jqDCkxM9BqKwl?p=5&yFezVswS+^|(";
   "g!j<9ZaOd$yD9_oz(0c5C*4OyKif3u6A^9@oEqr^1Q*L?zq@U-f}?hipjik?^n&0p*<dw)WGX%s$<S(";
   "GiN!JGhm-9%vTyiyiX3?ST!Ql(a|8K^UJ+lWm~wh8vK(QpW&%tx<YC|-X92cFnr%QSa0uWZ5Osz?wNW";
   "$%eUC1Y?ZI}lXiTvP$lRfKOW1pe;=q<vd-lI)lonNI3$*^PUSC~(`}+OsS3mx!#(_T}P=Aq8cEaL!oZ";
   "EO6P2Qu{Q;0_B;LMW`?=Ih_-@JZz8H9$-Ha$*625-qcdb(0A>*kl>!v-8&kP*((z%$Tmn<lL5_##CE{";
   "fnu(kr@uU0eq2x17^n$T*?t>b5>DA3(g)92=c|qRq`BufK}a;AA?htul_NUmXaq&fN+AhoK@v|!PXe#";
   "nXsyBcFPLLQ%wk@v}74{CgW5@PjnA51%pXE*|CT=Kdp~P?+?<cD8m}og5bN;?9l9kve+nBI*cj?Tdm9";
   "!7-SfV0T0Ux-DA*nD~k<w2zqRRDHK398$ff%A&9DT2u;-wfhGtchXAPwEiqo``0XCeV&V9KXV`KN<{?";
   "U^lZ~XP&YHT~FU!rc=DgsA*DBvOWzNOwden@~I1sg+-Gmqc87^<{%Nj_uZ5{`j!R!euq@`R4z`&Wv3y";
   "cbp?^@w`&R(f+H{nPiB6K216dVqrdMHX1U|?>u7KVb12sjz^*jp}j54f54Z3}J!Jdla(wIgQ&R9I|qf";
   "GNH^Q8<i-?F=GHBx5n3n2bwpoRvEhe2<oc<PKt>hJv0DD2eHw#y=IOzfU^BRpxxzaz(YEa8jFes?CY&";
   "{#JKqPRs}<v&NL4D1%hXs+MQPenLH$U9&7eLz3AuCi_NOwDPtFOqWJZf^(LQ(y2x#PWlZ&A=V9Ispk$";
   "65=ba6DWZl!oBObQy+`kwLx#Hs%G}9tOs}9yvG60^AefS*D1+c`v*D;KMn520dd!4{;beGh_ts<GXEi";
   "GGubw7{mV;8HR`M=XF#U{FP5Q`EG}3236~eIM^o+6H&QF`aT2s~8!xIOWE4y~@Cn`p?T;|RF4pOctDC";
   "E%~<WWFXqHt&JvT&g;6kT1&UOLWK3q+Lo(GtzR<G80|L4D4|Acj9>ZWN?HVRCW`-%3NC|FdTDn6>p%<";
   "ZZd@mU{2$nbSg0sRWfyfI7xNHG704otw3GCn1Bu={r$EjCb|={ddm%pFMrEG4}UNJX-@|=@h7^Oq?Kr";
   "VQ%h#0Cp_%L~eVAj24EUY6vjQcxG43ZXlU`UT0;v(`_cU{26Oy%`I4ck*+g0x1rTf>WK^bLkHSrmOs+";
   "lw&{1StT=`hAy6BakAxR(OSRK%lJC(v^R{yb{BmJoH-AdE(8|z%JKNk!0$JPFw2ri3YB~#s8>^uuRk^";
   "1o_sp&#gSeqJ)>7>`5iK_wO5&_s$OKls8P*6H#0n_lm>GM!FIg$LvsWHR7Z92#I|u^A&H5DqAC@KUjM";
   "rYBb@sib3zse}R!s&1`&kmM(?dY0qUI$kKop#_?B`A;0L*J|UL8Ojx4p4+qiajDK(XPLd@m<Yw#1Qb$";
   "K_i?`)?pNyS^DZ%Kg8j;OqW2jy}*9&MVv!@iw<@Eevyh1yYuSZI+MJu&ycvJGz==ExfF3W1^n9jRyf+";
   "jb+YlYSyq!OY_8SD5E`I;J!UKjh&}K6;}hBefkv%`=C^M=lR;%xxbm}Pnb;uL8S}{<}m&9Am#lm1V(T";
   "+KJB)a`hqwC8vvsuTMPU*9ygl1WZbY=_n~Y;gu0MMgQ}0y1H?mhF9ohr1$xiVNBsikBnUftPhe<|N@h";
   "EPt-<jsJCzM9){9|RA+QjKpm2M)tb3k}-&^v5pO@?cGA^`|irwDAxZFXd#0ax6)ke-dB>0xFIZ_qhfj";
   "3!2vQ;!c)K$xw_n0U@c5xhw3}`=_f9ztfk2P60g|MuV_rfzq0^By{k1IJE@ma=Bsd_b-a9?p`k_TPKM";
   "Pp;Tzd>)?>T#5lQ2A#nUj{9gwg<lVC)`%*-=K|>n5>*%p5X~*tt(G+z1N`-SQdcDD!r9epl4KwUXh73";
   "eDO*+2I|^XUaOE0Ow@cik=G#QzMy(>a>YBoLRGV3SBhg?Qc3YvM$8MgrG!D?Dwh!oFY2}hr``LNAU_L";
   "R_MAOpjFqg=NeanA^WIbRmg5e%NrY0`+W_z3XXa!31t=`0e7Dou8xedY1d0QbNDFMf=mz64Nq^0Dz-q";
   "93qm~D?K%uV%U}b$DH$12^_>uHoDKd{<I}ya{gt%hv@dy0*!-!h);g~|2b}Rkm$@m_noTaoY>-#S-bN";
   "u*j-?u8}#bnp#nk7RYcgc5U86Nw2V7^}Hyz(D}NhFuf9Qw#dzF3T%911Om>`|0C5N6ZFlBpvVA9PEAm";
   "tGm6O4OGr?Ur%8s!#%>K<pNd*&BkKL)eZC7=AEj$9mqCkD+hU;s~00!GWw|W`E#&ik-&LshD*SQ3~b;";
   "Fvjn2UBm?e561movNs#{$Y(9L>N7Cd$!fDeZ!Kt-yD?W^TKx?gtn8AbNGg&fdfTQ**L#fgoT4G3-HEl";
   "kW6nB5uAE<oI2bD11B53lEho&5=e`e(h$5JFYH1sWx*iKDg`!xyF_IwLAtn#BND$A*7Gra?%r_jAw~K";
   "Hcqu<UQ^2VKDx?pP9tgL!aMVKT#2&<!^#ou9)LFa+pf#p5?NMyAAzrGo_aAV?8lTi*~G)bllSC>}|?H";
   "WA9O&wH^qA?ka)+!H%Xs|hwh+zSOt3%RIrVbgYJXM4RhU#G1kflnW5OM)htUUf;eXeDoUFHr@&0>_FX";
   "HKI#l^>1{V@xE87qmx>6qV{CEj3N#(`QvQ3W!hSg_<*z<SNeCg`$c>)jm@C8^(fQEm)NN)Rc8RJ=w7$";
   ";%EGHBu~GC>D0|53D8fya2BEslW0H`w~F6p`Q8Iz8-@kT1PUl5%^NBU+qO-AyTzRgEtFnwy^o7@h3G+";
   "e;y58UW9EV^kaL+V_12#@k+U#n2^^51<ncHE_8-6ToNQxC@hul`oeELTp&jLnG?HsU4=eTs9T&jqnw<";
   "okHZBF|y-|!br1B4&BQCXuu9J&L-bn;kp_J(kZEFC;@eJ*-MFoRy2}V6O;JSTikONWs;8;Q($E>yymx";
   "+F%D^rGU@xb5_L%wb5nWGMJ8_Ec*bzW=Zb=9lXYzx}3=DZ$ClAM;IeKTvlB=p*+$+5M+1H;Jh%>`&J4";
   "UP|k1+qs&zCiBa=C8+GUm%}sn(o+wEq=DmJzs@Zw#H56V)F5|<teJILJxnTG;Oz6Tfe4*`h74WsLFLZ";
   "NTQ4$?PuvN#A%Rdk9mivoQm5MNPH^Sp27;f0Do*nUed?@_1Ls`7>dgz%{dsG{6)Td$Gg~};(S6U5&<b";
   "&e8=}IeUdlHx(;aqb|s#nAD+!UqXopGxXCrM<kYyp()F?)1_(GcEX!G`wiIcNRWOtXI(X|{93>s2=hK";
   "mgHSWSD<;wbgV&Fj-ZN^B2aW`}SV#Q|58T(?~anw(xub28PZW!_|6Cy}vkz_mcTrvLeMPOq)<*D6F{7";
   "6p|@=#$ao7ZEZ$Bzy<(ub@qv$|Um{K1j=@6BTO7~GUpgIg3ih{lY~WROY382MheeZa?9XIaBjoxSUGP";
   "&<L8^me}gO3W4>_z?E`n`ZNH28)7tj63;w*#bg_M_P#FYY3t+h9L?9$<_^+x;^`P#lG@L1L3qfww2R{";
   "O^SzJ33jSpjVH+EL2q}s#VLE9E~V9uEP;#FXbYS(Ek><e_;ZXk>gMOn&+_S1ARSw`Hi?hN3ZNPsPf)v";
   "de!NDO%BtOTfHNjYU`y5qyzqC(r~I6nkUoG<&#|Z>fQPJcI5?;pEL8dc3FgAxqgc>s((x&?;h=bIZ-Q";
   "DNDW1oiY29>Nwu9E-WGEZNgD&{pI_O9q!RUYm#V%ln^zpuV0FA+7c5esKbU{ys&bfkwSvsD7Jx=oa0<";
   "016ZZwEzp!%WMf_5MW%}|)C-A>u}dZwPv2H&b?;kT1dt#(D$WnLqEG`n%t#ofWSknr}NZJKK@Vz)j7b";
   "ijCSGlH=D)ykgv31eEo4veX1f5I$G(}6H36&gVZUhG~jJQ5!&E3Od(Y=G(#CZWRAFmGje6n5i<TbMwO";
   "OZQkX>B2+(V2rHZ#{w_<Xgh(s?QucGr^8_WjIPg@U)=;y)gQh4KaR?zJR>4$09D&Sg^?Yz%>y}sm0AV";
   "~)+pH@<!CTc0fR6d0^(=(-mh19CCtLT#4cg))FJ6WwYLq*Ia^8lKl+3vy7FWej)U~aqrqg`F!S*<$ua";
   "y`L@z~E)^{fo9Y4P?LCF|EsCk5(8ACJ^I{R))RkFTo?je_vXDIan)+3M*j#z;G;hErc(EfqT+Y=0TPQ";
   "VAEH<(lL|A~*5k3NBo@+zjJz3*DiNBx4`!kb?D(_l#}5_1e}oIS|FsdW&bV?>mpQWhjk@MDCYThUZ#e";
   "N4qu!zx)IYNECI@m(CUZuI!NW1tely47NIg^{ylXIOAB_tQbOemkaZBy)(zEmq#=I!baDV-t2IRRc@$";
   "ap$rWqUYfg$hf&W6RL$OgE(i~uG@+8v$I=pI{g|~cg}YEU3LbI&#0+5tNEh~&97V_%1|Ua@GY2aO2+B";
   "msXDs67-f_phI*`mw5DsvA+WBP61-cm_#S2eG#iG5A9GBhJPho(gf??!KV1uGcMnO$3v2kclS?ayc8S";
   "P<xiiM#B9dDGkvjx|)S=H5Q)N&4T%)NcDH<;HB=Dd@YqttW$*`tCCmw)hJa?`bz$2(7t{`u-hY}BJmG";
   "aPG0G2u@qE7a08r(faP!<M*C{M}Q*pjJ~Fi68+fBEY#m-<cgbV?p3p*exsWp`X&29f1?)7PO=%t-Dva";
   "Vt03W*waX9G36?NyN1D>4!hPzdXld#E6Gr0x}&|^t(zG70~XhyqAuty>W3y)+gBw*%MkJb*qZJkO*Q_";
   "r8O?EhGjlWHLvZiH`iZ|7b2}m4UpY#fl?5&Ml!K``UyLJW}g&NpY>*#V4tjQvCoUCx>~uvs@B>D9tNs";
   "x5AL5L7At!$VK=F;TsfDy`5z1K)j+iCuL8UJ<3PdD2t_?FtMZvVX$qguXh{P4rl-p2{y%55e;)I(>iW";
   "~Z=|3}2%8)8ba2j&}X`!w+;Y&>0aIXZEYFz~@vHvA90^h@p^mJB+Ba_Yapf<;Xje&@(ID)^UNuTH1Yc";
   "lo>d(5gT3RMdDPmYMNin4M%fee{P9Q|19vIXoow{Ma=yhBAhQ?xs|7<{{Ps~fEu(M=o2jz`dT)JZMPC";
   "ey)@)wb24lNs(EcyW>>6g;`X$>B9Iq5%G-mdEg~g`5libvU`QrlP+rG~V(b$y*goUXRw(7UQL}8^t_a";
   "zt*+#!d$Z%6H;ba{}MolJl2Y;A*{m0IWjc5$1^VEB29tT3JjjB%#%_z5N%8rwOgkpbMgq2yL=zuJI+M";
   "%)jq;>RP3xHOh?-eXPAyQbx$z`#o1?(7E;5KD2mKY9?V>g(a7pD=X$3#Bt?b32BoZb{ZJAjjl-LbOF%";
   "T(3aPrmTi!}J0hxHodpio4V=~#BitQln#qZP!5Rl25bOL3CTRRk2(S14u$RITZRniq_q3;zNVny$^7w";
   "ZN<b(O33MCuyBg01Df8}dFM;BzkvCpB>u`QOwsD$Ie1g2m{BOLbXc*L<8WJS^$n23ZJ%@i6Wkcl=gO@";
   "Fi<Ab%O~O))FuE?S`{32WIRMOKPyt1=J?rO7!sf)~LPS^OVcfF)cFMZLCDnJyr;vmaf3y8W#q^Wk>!J";
   "6y5Sa$`)9~DW%7&VIZvk8}#ky+0t>Kf9$ZSx+DrW7wJlo@_ttZQ@P<H3%f9Es1cgVxL^jMn|0%PXfh{";
   "ME}9wbc#AO)h=G}t!i?^?lNX;YO}Z3HsZ_c3Ln$z<lEr8s2m`*8d8B`?^r_6JQ;Awbu;7(!g3Oj|Q4%";
   "t2l(m(RL2Jmg>PfJ9ah5$asE`CsrL#fR*8@7TY6q6mplG2u(?wodMlDIiqivy0)+35h^t39jM?fg1l1";
   "y5!gL?8(Sv8A1nuokbFIr%Ub<+quf>?Wl>serHx)bm6hu7bHf0@$Nc<<go9(%HS^E`tG5))U-Al4x~j";
   "!)x}OV;kt1IcrNXyC_qFVG`lvcFKB$>2Vsx{O?vv2F*VnAK3SG>#X@p+3RTDN49Rph^iG?;sTvXgY!d";
   "o|ya*UF_31Q<7#z4^(58Qyo`rWzKy}9POis=+vWZZV9k1Lh)jZsdeJvV(x1bBj32|jo>if(9WH)sLLF";
   "j9Nt+CDx$DaciRrm7NiJo$U~*4_&`n4z6h(;9$l@!EUQul0W}qKVAV1QbyN#BYIn!=;z%fU21C<BUDO";
   "~;vqLvmtDDJ(`xVAZmpVL;mdj6{O_ex;Ow^uC9Hm$rzKrHFGS&+R_ULL$y8-u9)1`q!O@ORI8*U$V&w";
   "N-Vwd4B*tag*<6phdf-9mT!$6kNOH~KKVbM1Ok(<_aie${@K;gm(gVD{v3&>uOu<9ob~WMR+!NYXqv@";
   "yiJPQ;G8rCW`)FGf?V(5%Qc&5vm;5sGfU5uWmO#5Wz*?kL-Y^<fiFs$`O6Ta1JtHg)EU=4~9Q|ZO-FS";
   "e1W^E>iSI$v?}lDUSLegZ4la5FPOYSbwQD%@!E(0&x#~W+vvaa!45--fn08CI$4P}QFunDgGRx*u|Iz";
   "G+(IP_CN&33q-~tM!k_L$r%f`w`bYk_9u?xLoDcv1mOX3oyvJ7iuB4^!R^3epks8l?GO22jUHeQWk*<";
   "Xu_Ih-P@JAS~)X5m3Rhl>vMeDXv&Qck1Lz)4e)(`8Tk49n$SY$*Nn5J@>I%0CjKZvtC&^fbQzViymEj";
   "g()$lZu>p(Oh1o0sg}uB6+q4Gro-Z!M5|XLQFDA9xna`j`1Yh3n;4H&|tht91r!53z@!FnQBg>M|^Ih";
   "bjt{7AF>erLX=EgnNKd{Oh?oA*VS%M07$^kdRO4zfQu1O8SyqzQ$_5fe0ka%CjNncw5hf-e;32Ao#yY";
   "CH<QYm<J*b;|~4l%#DXt<P?F)Jl9dC(54~(*dcSq=i_{|!Cxa?qCi2shhT!|AKTd5*uOcnTjvOh4{t*"].

(** pip/_internal/commands/list.py *)
Definition pip__internal_commands_list : list string :=
  ["BqU6U~OO*b9C!BTL1aBkS#dG$B6q5e~P)h>@6aWAK2mlUeH&W5(*9)Qx0093i0015U003}la4%nJZgg";
   "dGZeeUMV{dJ3VQyq|FKlUZbS`jt-5Onw+cxsuzk+ZOST4Lm`?`Pv+-=j|;&MsQqy>t_LX{=jW-LoOQr";
   "ca&=zs6bkd#P?c6PJrJ)99_ZIUyb?=NX1>jO*EP1kmkrzsPMrj{+s)~YVMmZ$pnY-ZL!sk*Y?%X+&N)";
   "pj=9AdW^faeBwAqLvnk5)baCs9G+otc>$g*dzI&sGC;Ql{#@Smi)hIULOuwRal_ws^AYl%DQW=^u{Sz";
   ")n;v{0KDMJ0)P1V>gx4}4<Qi#kaJCpJ#6s5ma>*12!WKud0mz~ZwJQTh-!aj7f-`AS-#J<Jl){W9{9a";
   "p{ec!kzz1NbRI%cSAE-?m$u|RkcKJQ5a>=Wl2W8u}0+4`Yo2=~>))u8$r_FwQ2IL@AZULehgHIt;n+l";
   "ckLbTbs<SSa;a#*ZD1t5na#WPZ@I})!x0B5^0Yt8X{DZt$7u5G$@HCvv(UrP-P&l2HY6cm_+lX#-EV2";
   "7+p4_(=cb|-ljv>^@H9vkPj|NQ#?*YxUNudn`{{`B+Px7Tlf1n1ZUmM@7d!U`r1w<~UO{F0R&Xr<rxZ";
   "@7lrGccSL*pX^ipi%hmW7m{?Hh?(p7K6T0$yMFSe6aKH9f6PGdIl@r-q&&uwxkrC>rGHJAN0y>hF%WF";
   "nOJv^LELX>ElSfWJ3!D_&StZ`%#<R6jn70AFI{Sh%;$6Zi)UGHAj~*}TESXgb_EK=8kCAP2gWrN%Oqz";
   "dzyqA9SjO^9@e9DkD<xWS$C&~)V6&FsLvepCeG%KLhENA_r4#TMWOxVMeUu%i?M}fBuwcn#>}4bCExR";
   "#s>b6Hz@D0m~A~hQkION9gh@TgzR({E%CA)aV-qscGxA0^Pp$|b-Jm84>6ZlzN)Qc7Te*sQWfS(kLmA";
   "9Xfn<op^B0nuKFggGPW?<mS4_T?WzqR9KlPpLD7JILO#q!C7cAC(xX=}vw_Yi8aKZj7R3AKjx_Yi8aG";
   "ccS_5R6s)1(cSW(z4F8@@tbBEv`4(aqfg{yR1YXXm^kZc9~+^vR-E;+yc=A+_9)xRk!4BY~kTDr0VnK";
   "@nY)C!1!?e(`9hcDK00xsWw>zHlDA%cU5_0Is^3_I1vg2hSy#|h~baY=uq6mD7_Ri?Jin=ffyjce{~a";
   ">UsISxBjpzoiUtUw42!IS-|@0;4!mmF9hZveXa77}lq)t5Siu|;3#(CpSj{LXCCCGM1ar?2o-Tq-Ee~";
   "0HP6|OgA-M-(t$^lGy>*95&He3sR|~Lza22zU?zoYh|4tzU>tNTmd%4ba{RQ5{ttsj2S$3$a?IknlSY";
   "!xTu9!v}l<ORdO1x|SJn4Z0UzmjV1z7|I2^i877&PA$`FgLRV1ij1Lr1|IC{&;l6|hrpf_w&I$1{0`Y";
   "98(Taj|}bZW3f%S0g+<fksD;*ZM9e@@pnc`A2pTFP;?&4IR%&U61C*Mux|7qtR=3!aC|ne2#;pQJWhl";
   "saqmIsLP!5hiuOcnskeWrY|(-q{cvJR+<#5$K^=_)7vqYl(O~j_;%$Gw0sJfCxhisM5gObltt>dgH%q";
   "gnBf3{sUQy(n7W-<Ib}PQoPHx|p@zDau`6hNpq|PG1?x^UYoKyzq`=L#24@yZ=YP|P$3bi*biL`&3nz";
   "XX9OradWccVgOUz$K122GdXeJ;W)c5HztM<Imc?^ls<vY{MLw<4f;I+j`up{;@WqQ*pun+$uPLnHp!e";
   "dwqMk>kMPFB7etQ0)-zTgu7r%%a<yJYlxLI;|c?5eRbWpb;|SrP{G8|WWz$&jF39DH$OvBZ7jfK`KCv";
   "_<-*N4CraXwRLd_!1yfdS_-YL&HOuhqeORybANlnxi4EMa2uKD+Yl(4xjIMzEAtA%LbdNt*JfKEeXiA";
   "jhyMnGQ_WmOv+~s5dhanUo<}H+|y^q<lJCnWEWWbr&v_=wnj_7NnlOtAHo&?Oy5ZR2mOIf&+;fo43<9";
   "L@!?R=j#t31)kIPW{ulI?7bF+A%wUI3X=UreU?Zezp}>SXocel<1{ko=N*pvBQMRxNHiUlb7aw^oCHP";
   "BujM+P=(BwUuWgq?=Bw%R^x?2EfD>ed+Q87ar)y8X{XCP^&>H}s-iECENE~dIG3&f=9!l6Wmz)%(PIA";
   "mt72rfqg?rn%t$yi{~FhiLddcbi%kKLXOVeW0KbWn%gKZM$zJWDj4)&)nO9?_{qwLM3YiM)2y+ebo=B";
   "^?r{SOQ^@!l64*yIq+X9>vG$_L!0zzgEIj3i{Vyz?_Lq=qjaUQl&T;#i?qwsnt1FjcO57Y+y`IWUurp";
   ")g*;o?E!CnvGnTrzZXlAJVh>^fBjEn0|6`D^P@6ZX*nSMz)!)rQnTdwE@-jZROLjn7}g1c8{GgANy)4";
   "!tj8TL`^phW#5fF4^&MwL*OVf6XLKvd;dzF%(aDS|NmpPs+jHJf$878Z*@eJaDID<vG54a~dCofu`K|";
   "$vZ47UV{(z)TEaG2BMrb3jL=wQt0=YJV`qQbP&e-7BGYLEPKcQlh0eOUJ7fd1D*EE=)%$l!yQ`9FO^r";
   "+dGv>CIJ^=z2Kc7&#}^l$N4by*<hyr&UkFf6Pg;T8h*hjy=tit$hCZ_>@EuH^&^s1jA^ROM3wHIYAQV";
   "|8lz;K2!5H~lZNrQsKjQoX}LeAAC1xrd8QFp7n8I*r@e1RcKvyUBEyWrRh|aE~eNPfQDK{Fuo!J-|tH";
   "ICNH46PT&E*Juob2$F%O7$3f*{(j`kC#by<M(8>5p-EVY#<}UK%H#kBqm~Z=e}p+6hy0T?#Mp|VGVXV";
   "rmtji4;^Bq`otTctIrNfe;S>sg3ipD2#HJhm6+*U02A;!E!^(t7d~UO$@Az;VD&>5~a<G=l>GbU<m;^";
   "^cItv7qE2og0Ak_hJlP(a#*M*yvMo(KKCz=f5GZ0ct5=Tj(tDLroqu@|y4@6+dI#D@(y_oGi)pM&{di";
   "?0SUVopr3ZX11v%|W`i1tf1aYpF*?jb@4AEY>yw=?O+5~m+qQ~o_s6J%|+VmnX=r3Vd+I8p=rxeDt{d";
   "ETRNFFDaPj7c|R_REvT6lP~65U}iZ4gJ}xgnbt_8TXZgX#P?q$xFqemufj*P1P`siIWe(7>6<#uwSPn";
   "_=Lz1A}dIdci|&tOAjvmd%gP{Bfz5p3s`>6zk1bcKl2RWl#BHPr`z%H$#bz6OpjJ6@)^UWvA`v}=d9v";
   "T8DcqE)%SEliQhTKNlg$#p()pQN?wtDE}>WYcIq2uj*FvPYrliD@3$#Ng=&jM6WoJtZ{KLqNJI59PAi";
   "In>SlZ&1+(QN334v9bbYsCb2g7Z)uM_ZzD6dFJY2HH#e#jq9t>qmw{}NAf=o?rG@v|V5pWn^@IZZsBE";
   ")_>iJ*^-p7c)3&1wDX;@6Ituj=Z~s@~44QC2vftZ53<?(n6NPT^>ZK-S04m}u<XAiJu<&A!V>CL<HW-";
   "#>~^IGb{<5X6c<f5YdXG%Fv*n7`5cDf%w4nOrl-z7NGWb2Bvtzn}l29UQ;Dp{$ADK7xejT0njzIgi73";
   "w<tF_a%*V{1x*GlWz{hnzupx+EQ#F*V?%D@)VIf3gG0Ay{>FsA`SRRFC&91nTU~a_OD!CPKzp+rP5}8";
   "mUr5gIjV3e%D05IFi~jW)(#y)a9zCDM6Aq41m4xn!rabhN5LiHLNWv%-(~^O^^`>s8)on0Zb_s<~!SX";
   "R@ZFv?R_Kh_<(I%o=euk(?7JF2lb<lY4=;<pRaw*uFlK^CPY+dQ(k7*n_k))m$h+sY77UwGttX$#jA0";
   "EdGG=@c>i1Vw5g;6h@RN^6S`9qr`rIDA=2be#fCU+$5W?_}KxMhi7j06t%x}np)wy4>E{2bZb?%6S64"].

(** pip/_internal/commands/search.py *)
Definition pip__internal_commands_search : list string :=
  ["X}F7+C4nh#vNw-ji4<dilu8yXf1Kk9U5g)^j}a*0|XQR000O84rez~FQ`?B^9KL`krw~}AOHXWaA|Na";
   "UukZ1WpZv|Y%gPPZEaz0WOFZbWnpq-XfAMhwOHwI+eQ}uuD@d7ARw7igtG?%XsZCJ<8FiXg~;BvPz7Q";
   "_jihNPl9?IW)*AZX_q{pD;bFI5Dg&}O^RD^5bGQ-Zo}}rfR<&ShO8CAig(CEeEc05i)I3inc0Dh*TV8";
   "D4qdZ9WQ?W<&AZRt&pv0`qbCxMy7Sf5l7HcNh`XkRkoF=Mxm8AEqSeL>PRbRKMV6v=5#^iu1sc80<q5";
   ";W06B491d{jtAs5C!PyE~b@B3IY9=QHxl<;CZlGjf)5Rw%+HDM~nG0pC=yHQ@zOhl<G^{01Q)_iv|f-";
   "%U^7P2awY$-|CkJ75B7=JT*SkOxNiwkQQ7YR5D;vZ)<+2Oe54`D3y#?^y%M<31NvmS)B(@=A-DS-Cz)";
   "yiiOOG*5su`9k4@S-IcSV(lcInaAf?1pC(KSTKnYS;kBL$cyK=C4f{*5U_4dzq(E@Kir=EbiPP`yuQ2";
   "o7?Z`_+1dGGF(!mPW~}N2gH?MjL@CBN_Mj`52`|>{(ed0IZa$6C7EC>q;%j2iY^Ztli(a@Dw2(cAG`z";
   "Lqpa!6+sB)ZJrc&76b0A11{~vpv(WZmrL~{$3!s_!ZdoD9y)0#^q_?H^tflw11lCG>(Rli^_go&s1^4";
   "FVRQ}D#uf6~u)S682|{tfB68Cjl9FnG1pvQj2xtc?HCyoQ8p_PZJ|XJc{!md4~-JCf#;K5+^KfECjB@";
   "-2k3NqD5yj@Xo9&(=S2Mds~xII)REf-X@IH#<*3LH8_}5r8Wufvh2b#G!e%882Z0?Oej@>S(y5$prnx";
   "1gNwQO91%`y%we^%1u+Cnq)bZ5;B8|Y-b}hwEyF=gozBICnqO{hk)TaOo=H}kS-6q5>Q4J1oo`eP#z0";
   "KIRN$jx0;E=`vgQ7Kx+wXU??t_gTJmsxh2ceB+$ySI092FplE)pxxmU-+#|H2W=7zeZ3tbjQ_CMpmT#";
   "=x_;EESjL7soxhf0RY$0Wm?KP`RS{bdkw8y4A0Q{#@ovWV1jB=^w!Pw58DSA)EJh=OOF<{!zI#+W9GN";
   "~Z8(puzQk{!#ddGG@iLIV7x+yLro2le;H;7&g2!Vy|g<hA_~1<|B?KAi;u3JrWKd%$!n%DM_q<1PeI3";
   "#h0I4P;C#tTCZtE5~p(nH9HDsey)sZb%_lbvFV5v(706<#0g1REEJNhbV;1wEkWrTfN8j0S4(9)Zq~&";
   "a8f5nuRu_shGtO%yW>j2hCZfY4>fUfu2zU8RW3g@Z`erjaBXVm17E8h@N}XIP76~5^prJJxr9rq)FF(";
   "z2Omfnl;kj4o~~Mzl>k6-Z~!065bcS3LgwAa$hW6CL=S!jGf~m>wcc{S0k*+mfi&^agL5Q6n!t!{71j";
   "ZwSFtuOb$!GARckXwH)aJuV<nqb=?Ay2R?fM))0iAc?N->hxb>WCmB2RapJAgmcH*N>I008@qDdA^Kw";
   "Z8O<>SF;Zq!7c=0g{J8*V7pMP}0hET&!$&?`q+DuoyKX6)$M^rJ2aFyv`4X1$^$UHP>GBc>VDFd*hRB";
   "-;{apc#3>f5+8t#S`}KVtYJEFeRw!mPY&_<y@;u^!FJ&#{()O#;058l`duUN7cdFAN6Au!G!jP!P(1S";
   "ow^2uZb0@zuZ_uWgI>7?XgWMh!Z}B{^yGpe0pqY>G|vx&nk}f+u2(1IXGR_<)UIYvi)ouDhwN8QsK*I";
   "Ll|s+$IWJfOia`%FRoI8H0S+yvZ%Uy`n9&)I?inqh)v}~xexrBpUsj+qHrRN}2AnZ8a0mcg@lw$(DtZ";
   "c-<KohUa+}d^FtEEWvReXo-?0StG4N_2wh>f-y#!Rd!z5qXLG}x*+gu{Y3WPolLeeE0{u>6YKYy8DBQ";
   ")MjwzR)jU9w}FtGQ$^*|=<_trA*QaH9(CidVo)90L;O9;QP90Nd^`hb?&w0a@iVV-4tdE0P&rxqLZ%(";
   "}F&CLfp+VeBQbq)MH0!+>7Pe{5EH>`HF$tXh`mLR|uoXrtny^(=#kwy6b&m`yDpjK@-Hq(RA;{aXaQO";
   "L0A8=J1W}or5ozzAkBW?I&=*R=;lV3WKQ<<F<f@Q%vlk7=@XIf>{8b`K!P1FY`qebWiSPXs9QsOsoLy";
   "m$^S4ufzePw0b}dbs}IX6fwBB|mMMLG(1I$RcK!>D1n;GIHInQvs110b2!e(zrwXHd7^*Lz;TMnI&}H";
   "9|biITh1!E*k6V6FJw&{o`r{tgg%<2evPu`vmljaq{*GW1#&Aqw-0?PP?t48y%n;N<ldxM@??W?H-zd";
   "~29IyOYl2?6#n_^k*a9s>A#L&D+tz9WB+qU86I7sLKPu*a)b_zd!cCoR(WZ}v2he>?($Pgck=7#%e{3";
   "3DUwNWv$xaEuzBH*fMXqd69nZXxzIo}bD5mlGixANAd;qZnd)m@`BF;)@SE+WYT7G`>T3z{MPTyJ7M|";
   "b3ms@hW0&7zwvptqNv2H@D~43^1<nYPgjfE4;L5bA7|vXB%xuBAhUe2!(-rQ*y{eInm;Aop04vA)R_l";
   "0>jlk2?H3<z&lk5d+`vNu_f)W)!L|Ee&c(rt;yRzeIOn9|mE$JUDF{75+^mVuihCKgKd^m7zP%jW6&y"].

(** pip/_internal/commands/show.py *)
Definition pip__internal_commands_show : list string :=
  ["$O^Fn{)6y2Xfq#K?4b=8&A(T3XG^x=o!+OelO#+bltHt%>Un*1M7O9KQH0000801jt2Qc>;3Jx2%t08";
   "|?Q03HAU0B~t=FJEbHbY*gGVQepBZ*6U1Ze(*Wb7*gOE^v9xSzB-8wi15#uOPfABm=Ur&&Khd6XdcDn";
   "#~4ITA(ltm6m9mjV!66lr&rPzjtORN~9z^-M3>bVvCv?&gJ9BA$M2iM;1l9x~fYNMNA%xysQ}CsywYL";
   "5$Wg2q!~~1{a$8!^O&p24h@JSmuXn=Qi;--xDg_Gppl6dDr6BxFCt6wR;GB~N2O4CUB*HUq`+YO%yGW";
   "3u4Jl=R?M?JlQB=_HxXt0DC`MjR*5p>X&9$6+;SzNI6oeFmKg0z{dh`6RlKSdC?%qu@OriSx(e9i&zG";
   "0ikB?)T<X?D{DmFT=rG)h5byd{WX^rZwfbfjYmtP-#jV^z@zWga#{d|9ad;b{{zZ)4|Oc;E~YF<>7cV";
   "puhp4O1d_Psm9m5i%^-GUFi%FBS=Nd?8lszTwGro7=^RChGyN0i_wnoTB?IOR&Q$3y<w<j`-vXWF0Xb";
   "V}bS!DP0}%OkI3o&lO54=m3FgVG=K5}eH-&uJ<WrfV!zI3eAq0|-&ln1uXiY;|)vhYA*{<XOcKXY3$&";
   "0`6-2VLLVbs1+E4NQ^Ix{ZN$oo~<EI;ELL?|1>jxVqq8>F}cscEx_U*wS;fL-wPOdDr=$5CSu2Ul0=O";
   "aUx{?rM2(*hm}aqH{*28(v3rQLeT9-?d?ZyBb~gN00zck-=LPV0zLTj?Uf{e0Bvwmr><y36)Y4NGdS8";
   "LN1Jxa`(`tFcQzhJ22ay&_k7`vx(sy;5vJ~LJ@|{&4niW&c1dk7<TA??axDo2LAA+JNt0u%~U*>h;e+";
   "=9t%(|48bw;TSSd-X*@p7-mGOKZ|5xZ7ZxuI0Ua%x3krDS<U1{O}F8s6b6FEaqQ@6mEzu!mFtJuraBi";
   "%bOLCOC$ON2KDn!cc8vr2wYPG$phz{-{Oy27tl2yTkyqLGBfdE5Xb75E-mTxHx=Ln)Tf;N{A_HR9%o*";
   "HUlbEMAca~xeMtjU@xNF=1R1~&GT&WejLr9A-c%~i*&|$ZL+PATN}eNYa|^U1{}b<jl&h6Ie@POFjO2";
   "Fo+ztBUjhb8xvg~|>;ZG*3{s6Wt|3eXBaoRqCfWfkA?v$P4%uxF+s&F+jFTB)X|@*`x(*^<tFBjOSp8";
   "XfNK3e69PgMHiv50$$?-J4!DtNOzlBb~oj*(V*Wa3_0c!;sb+*IsH7}n5uaOc}SGrbxJ=g{PA_Oe|4w";
   "KU3Yy&eC8jVyf8bvgYsFDIXLf{8qNJZBQwl#%&2;dm@5Rr7KT$8j>3oroG{U!?ykiedKh7d;yggHpHq";
   "3BukN&t~&x-RDa`hCzy^uZ#U+U0eYEZ7eU85I77zvnXZ8!I!5ZD3bx7#`DV@a#7~bkatc2Z~I1ZqeO}";
   "w0R_5$j?YkY~%fPwsuw|q{b<r#)Z!4Nn|({AbCBPWY%Ypk>WQiAPGAZn4u8^<fmCQ{;bQ!X40Y=R|dM";
   "h?%)bq8#^K!k_|2#Omu}Xv<&OT-7`_yThL@q;@o}CYly)}8lG^43~3mtmPA}J6E}#h6HyH71%ns|*|3";
   "r{ZYGJgZ(!*JE(dXS`1!m2g{&0Ow!L)wjw3K?!YdBro@Z||Qc;q#SkMeX4_j9-b_*nSWszHN>-fM{*O";
   "y;cSBj}aUZ)A$!Y;~7>KsC}Ni5iUp!yi4zz$qRM#A^BL9aIveo~ncX^|3U$|yzjrc)i_6t)(kI}{8Rb";
   "dZ(r1>S7^Q3DZ&u~uYfb6P!DA^z61;(~(}GmE`ZVQ9y$P;0A%<_o_4B5>h0H1{u(_vQNO;_Bk*Vk~_Y";
   "3<eprHCsgijbgvtUvZCqmC!8J*f7b$Q%K6>Yq#tDn>vqerz2jQ+@CD^sGaXAA$U!V%>PLVAAb5gzrDZ";
   "t`u!#BG$)hubBL@0#w{QP)o9}F_vdmywBv4Ln!nbLoQKVbJ@B5hxA%`v7k78ptG<`^%021gN$qAr%?Q";
   "A6g+C(TL}8FtQV6!<sNS{|{J9J61N&c<C;0-;#K@FGu5CNn1Ah@s52`hP!^ltparzs=;E*T(?U-M{{?";
   "S~yEUnuX%P~tN#NWQjQzv5VM+r3PV8>R8Q#dx*<{<UY;tezJd&bn<Y_HIHsrq>2<y-FzYChf}KZ<z)S";
   "w&f1LpWvkYfg7a_?*gEz%jC4I#UtwfI3^-aRh-6FJ^Y;Z}GY+e+H_O&%#O&_DI+_CW5EzRaOV+b_zl5";
   "zP?%Lh>UJL<W9mEF8z&@3WGwE3BAQ=1onLIAP3u|!a05KvbDWnV=%Sm4tY_CEb-CCIu+SKd1DpS0N2t";
   "d=vvRt;%mumJl)N`!=~&0TZL}YH!0HgDyKO%x(8Y3tmK?t_0>dsYNf~i!Sd8mGGN<0PxW8w(ea0K+|o";
   "xzJgwOmQs<7D`aIzt+L|aLiiwVH<YwFN%Ajp|MOGi_@aTqY6?kZj?wPETNcM?+bjx91C;HR*d_J|X?!";
   "LT-RuPXw)1W0tU-!zexV+iygxW899S=0E^?h3TQLp@ga?1$klz%k5Fi>|G<FtVbVvvD$M=|fIYVtW@p";
   "kt=fX6`g+4J;TgJFnby4nu8oC^@UXYK|F=dUpiw47JCW07z{1o~2~IeS6;+9bSw*8@<g+K8N2gX7g}B";
   "H@a)kr<;6i+p$wKoXgzz4Dr!z?e7}t_*N~Zt{|@ej$7@v#CJHDQZ=M`cOIsF?DWn#b&dVhT=!FBUQxg";
   "0I^^_Z-{TP}n$E|$wCt$-T*YrlV8qFOFXx+!?(cBU?#kR5z`rTko0?mvWU$kXR9iO)wEV39tLV-eO&r"].

(** pip/_internal/commands/uninstall.py *)
Definition pip__internal_commands_uninstall : list string :=
  ["ZNPLI$h{{T=+0|XQR000O84rez~KQ6<6b_4(b?+gF{BLDyZaA|NaUukZ1WpZv|Y%gPPZEaz0WOFZdZf";
   "S0FbYX04E^v9BS8Z?GHW2>qUvcm-NGcSfpMxr2ykIN32F0=r2!cRnq?1ilA~lk->lOX)J5n!}ETwxfk";
   "|-kY<+;0ucXXju1!-C|w$YfTAgWqv3;e~Xvay)9@2gee<Z4l~^nfx~n$<k}%y&ZWSYt(Ldc}-OB}K+d";
   "@fW6&S2$J`(xR5UWLYWL3pbc%s;aomd+km8`kIQyKQA@z(HNm*r}$BP5%M){W4Ub%8OU*fd;hT6+}__";
   "Wso<9kYfH8V;rEhElqGkIw^}Q`q(&Hf`I>7Akro=Eu|jFhD+(+lFIG31ReJCiu7EzG_35mnPB|@w#CU";
   "nj`^(1;<5jfe(pQXC!ej$ftt@6XCArpCrE*bF9bK#`{Tu~V{kRxFYt5c&B13QQ<Kw5tbo0yY=0p11!`";
   "<EcyPsDpQ7kN9`%t`9Ra+lHZ{rVMHfYZKQxCriL$q9FB{v2hWS5MN2VwV&m-rF2KG*BDe-66PQW_0g`";
   "3;H^grTEQB3K2@AXh14`|M+WR)Y^x9VLv2!!=&F#;)KK9WclVb$ecVt&yRluzT2U>yzCp2?lLbv-;Ev";
   "Y_~BS_afVSdjKW!1HudLsWKoHRA_n5Eq7RRq}o)(6w=@p3Q>}yBNBkY8|z@*XIj)2j+)ms>M@*`(*l?";
   "r4_K;tyJbTX{XdPNU?3T?3h*OwY6nlMO~o_3>mt4Z#@H(|R~p`p&x=Ry6$VE+7Qpj7?Q}weWzkjCeSU";
   "B>!D|R3xVnKmC2`ntk}Rvds$pjv;UM8Y!IchT`g=9P5yTS_>K`@<#yBqoc;@UTflH~(XW9jCN}D`APu";
   "E@j4qPXJi}^xlk7b<%XQsMeyT>z$O5zojOh~`H6V#+(lE`3UuZ`3>VgSGIiREo7T>B<UQ8md}MJPq>$";
   "S*2l_Xtw-pL2R@b9%zdRJFOBulFf5)DkhJ-nf{O^-oF$G_A~MD3k_jqlM6wZ(5*=(UHxuM9&wtj#g9j";
   "zUOF0lBjJ5Kiz57)ZyEB8env$pl+n6UfgBQ#B|tqW{HVyAB%m*dZIS}?5RoZbA-b;DLOvh-41Qqu_W!";
   "b!p_SGJeAj^R;A}46ZraV*mn7F^Vf00A-kSr&rPXhdANi#rZ_V(wL(Rs5A&ph!uka_D{xwzX!1sl-wi";
   "ou=6Ys)7RJ-;3K90&(KCUjmr0P0#eJYXv@!LkE}h1CPCA|Wl%8k6Yj%F(#of+xpPXf(u9!*pj25%8RG";
   "0Z=U&eTrTL$p`8qQRr*~)iI*#+?b%SqOyvU3|3+~tBU3A4-CJR`xQYN(6Ruyzd*Xb{rOq&FH0<L2lF=";
   "2w649H?(V=NcFKWw3S^0@rrN((5Q-#3|}I;hQ(5qA*PuMHh!*c>TB6tZ6J>=tOrPr<XVwYe(E!npO)Q";
   "9p5{m&*a&`cc$=yhr>S6&hBaQw^d@p`aILTA-i4o9k_LJP49sEMHx(d#@ZKQPjCZo|Dj{dP|W!@6JhS"].

(** pip/_internal/commands/wheel.py *)
Definition pip__internal_commands_wheel : list string :=
  ["lfw1AEOVSq`Io$LA22e`_1QY-O00;mMXE#zHg_`oo2LJ$)8UO$v0001RX>c!JX>N37a&BR4FJo_QZDD";
   "R?b1!#jWo2wGaCxm+ZExE)5dQ98!MP|b54O^M7&Zh|F*I$rVqG_^dqEKd0xg|vF0`nUloRjQ@AxK*mY";
   "mMn48)PhyCd)Jxfjw;$nwi2DMZQY^(AR_wfxqMOeU2STaxEht6K?qPS~~)QWLsTg0~uS_dc2UaW2+t6";
   "cJv93Qua&YR0|1hBax<Y7MfcJS}Lkfgt$L4FJC~Bcr681;S!mibgY0s}qE&gim=Pwp&`4f$3NH)G`TM";
   "sP&bbS&%!XH+jK<)@^f2l+skU3Z<2xf~*g}UtPWa@L`Mv?h9~x3&ei4*HQ{O#({ga`_+;bw;%)C8gwo";
   "Xdk)iM5{!9Ox@D>e%up-ivy#aLsfFB9&i;nHp?Y(gU&FRB96`o!`2Gr4FSL;R2iW!vdOa}x^zoOE`PC";
   "1vuYSyb{r&y>x9`6n<GeGT&Q~qt<w0Tlx<IsumX~fauY}AUvG*pTtr}V6azgN9S3+boRH_bDe^B0nI?";
   "TuWea93cxSJgJ466|YoClt_?zIP~$;5ykRmnmWr0BkPb}Y&Bnr<<E=99^!;8ZCObf-`<#O2&+Go4QD|";
   "Ch!Rj)zcLY}gKgh=w71(Mr;Th$05=B{Wc%P!|kT>Qr;Q4Ck$p^|C=I(KQ$;TdEh9PgE61MKs1EEqAom";
   "hCoyZA8myo5X81&+!)WUtVE^ns032B(hR~5<eqq2rQ{9na4XC-Xo^5V&jJ|nR+@DxDMg_!$wuo&U0z(";
   "+F*G<Wk;+V^Ok6;H!KntNFPtttb0Mn&-8NbXu3lu%(r=w6PL3m=p-0`ojI;`zeyb9_?r_zUK;T|u++g";
   "T>pdh8Cv4Vohv~WO0MN770WlOoE3dS~Wvk$E@^jYUeLY_8KtjV>{T{q-;&v`^OP_T-Dd_mGQJ;AY*5f";
   "kEoad?Q~dI`ABu22Lg{=!%$t>m9);G#gi0*lET5Ai(rur#tSI^xa{B~%EhGWYa}0$zEHo6i#yl5k0qI";
   "a$6S??nxhZqAUVnC=a)N)JMkj>0;5c{f|&_tH9Ii8*YxhzKxs>ulx{$#8ay0NqiU&Bhoj+H#!<l@_fu";
   "=`@<&0B^En>LS#k0C9m3d5)wn7G_9V%m+ax2+iv>65~EoTtONn+zEMW0;&wjH=WK8>&`!KoI`y~Ymu*";
   "5P31nBpT{U_zJDZZBLP#%Im}1iT-pd*y2(*jy6WH;Jmt>uX<C@kY(^WCCubuLoxZ-uVvD(U-MSz%F%L";
   "wwO~V<K=5=P%M%wKAxn!13|BIWfN(_4|YG=<hIwrTgf#&P4zB!i@*M2;6fnR7W1id<!6-uV*io>~l{r";
   "q<>uad>NENqPp6oghx<;`Ai&UX(Q84L5-`*oneL~wo#iZ$+5<tu7=&yT@cEU}=oYCjr)sL$wZh%Tj#(";
   "X?#gL`Ho>xq`9adxasdi4#t+*|Qys?-ww8?y!|D<3KxKw>1|l${$KFj^adyc`${1CjIm?j9Y|w!jUv%";
   "N=27x;+ionOh>wcO85#h>t`b3+hwdAk1!7=@c-Mb$@Fbq@U{eODqtxA&s^A|yMA>CTr{=^La!?eU-EJ";
   "vL@vgQrRnQTjlvG7E)`KWl^g`b74tFqCErlB0Tl%gE(Q0N7yG&%%a-1Pmz1xiXq(ui{cK_-Sen>Mc4z";
   "kBB2Vw!&7%<f*71VR7QNlg&tZ#f;#d4GIvINh6WP|bd0Pa?E=-YBW4)X^buH}q>KZG=jcx9*Omw9EBC";
   ">(vHk`72A#|~kc#_Bv%J%4)+qgL<d!*!kYJ|yv#2(Kqk6*&K^tqc%I-R_jgAx4+)ZSHOy=#i3Q^35r(";
   "{>ngM=LzG)>;bQ+e#qlx=|DvAJLNm$zdypgZ&s)N7lbj@JfR@)!O~wIVU-ByAYwh>pxLMbQzEwg+2!j";
   "8J-h6-LN`X?8FeqrnbzccDvJf#yJ}sPRv>8kuv)YGt6ih;GR|A^-(imz}Um4^J~waofOPL7!wEE*!b<";
   "6BM`)z+8dItBxjv{VrBgLS=dK3*>g<Rdp^zucEg$fA5S{1GOt|h32|3*LEY{K@Q7(m%ZGn5R}7tZl(r";
   "*-V@J9hn92>t<_Sj2!o$Db_=6_vMPJr?j)}&*w9W|Q(?g56Cb(le44ux&#)E)umSP2_uu3FO!5Fh0u&";
   "|n=C4>D^|BxJG1kvk~qUi>N)KI#@u54tS3XEL)V+1a7eRIghHVF@Jt!@tKQP_(l%+JT0jk@i0XR~_JO";
   "Ze9ImElU6a(j#?`@l#Q-9gS-eT(|^1Sj}BkGO!N(1&jVEz@wV$PTIN(472Uky`Z*?A@?iN3}(PVP|TW";
   "UzjqEDc58jJ23QBx7;Ie>-yX*Im(`HcplS6hu#jO(I`PjUf+x**8yKVe9Sl>!^V+?V&hX~x(ka0<6+y";
   "|g_jN+CppZ0Q*JJ^+$D9N><Kor*#6o(Iah;CXN<WXL#a!_ah{g@Au!yp5UG)sj4Zhr7Um;J+KYYi^9O";
   "s8kDDhjT*O@ir*~A=tX?OBdGm4CMdpIX9cqk$pDJQ-2IVC_9u>#%F`G6w$qNEQg85)1MsE}efdpfWL!"].

(** The line in which the last one ends, up to a group of digits. *)
Definition after_commands : list string :=
  ["HEwbMi$-p2e!+0Ux{d{tp>L)uwN(0*4DyQ3DBgz%JC{Mm|bjx|MbJv&uhEO9KQH0000801jt2QUID0m";
   "S+I~0KWqO04D$d0B~t=FJEbHbY*gGVQepCX>)XPX<~JBX>V?GFJE72ZfSI1UoLQYl~Z3&gD?<(@29xT"].

(** The end of the member before, up to a group of digits. *)
Definition before_req : list string :=
  ["x2=K-<t;QQV4y9LzUg{|UM3r9<KK*JD+(shh>^cxl|T&t*`qog)WC6$QCfmK^YpKZhAv%i?D;K;^|}5";
   "Tf@Q)-2G1Wl3&9*3`P4HbEajhcCZspnUhn_+r$$IE=t8ofs)i1h!iz^=61JoX-gSalca>c8H+0U&|3m"].

(** pip/_internal/req/__init__.py *)
Definition pip__internal_req___init__ : list string :=
  ["&A5)=DjEt3H}d^h$I@jmpX&}+u5KGYoVy>`5`p9Y2+V&~AqepipV?qk21<EZ@<Hk$4H4^T@31QY-O00";
   ";mMXE###J+1Wb0{{R$3;+Nf0001RX>c!JX>N37a&BR4FLGsZFJE72ZfSI1UoLQYtyXP|+c*&Z?q8uxI";
   "o1ZRf53tdj$XMgZMVm^_n|C7DE2r}t4OXSXB$fYdq?t{yw-+toMA~KJu~yn%roO{v^o+>o6dF`C?)*Z";
   "Ds2hd86`RkwEvwX!+E8IfXZ?u&3Gi#e$VATNgC&><!wQ^w4fyuMQ6D%#ef)nb6JD56i=TwvFA3hc=zd";
   "_PxR&MS1;et`+x85Ztwmcq7@px(uNBdkuB2(D4up)!x6)n0LZ1WOo$PC+yA_u!2#BQ9dQBR1GrK&5kf";
   "Z!!N=P#x!+=5%qpFex7^sAyl-9gn8?Wo^b4|roP6wB0ZBqB(!m~-<iUH}EF*7nvRQN9<UMwsxx)`B(>";
   "*_dbhmh#Y?H*b1T;n(dQ<GdzV&A*rIH;{3R#jQm0-q<g<_8QJ(y0|RP8>a46;7!8XA-km)ugC8W2rRo";
   "QvVsJuh5Q;D)5e>Wp0fLGF}<>DHMP&I0+kk0kJ_q1A)em_P3folZ9zP{?vBRLI%6F2Db#e`K4YQToVi";
   "Iz@KL`hX`Uc+Kpxl4;Vro=@_bgKO)<x-Z*g;5%_Gio(+!74hKP{($WBh!(foUQtTBz&JFE_;V?+L4Y#";
   "DOP`4Exle*vb-jb@K><*Q_BZ7FkEsZFo=xt~97G*>!*4@r)>8U!WpOs6FXe|}Wrii`aeJY5ECw5AXNG";
   "E}YycR?Yz7>Z%jW{1)zI*77a@;KOKK|3TerU|udcvgr<Cxx4o4CHG&S5p4A7n{b!>5QJ-vKRG+{XdQT";
   "Mbqn~nb*?g^YgpY6eKAxZ23h;JGZ=%nbUE47O3fK<ISSc94*2X=BMwR)67vD%%>nsl;d)ffEX{J5`d4";
   "<=j0wQAa}W%!CH-s>7P)PM2Hrq7I4_#?}Da=2k<m$TISrB!g*sB}7X&()B)V?TsPz9ZKg^1Hdpmj*ex";
   "Dn2VN(>YG@1<oeTvKcwDnI;Gq^R_>G<n|D}$kJdp4HHYJ`5Dvmy_mzHGL9xR95N3q3Ug4MsIg$HTEuE";
   "{^`}LjC|WE-Cr1;X{lq9+dAN{D_)HF=rY*Av_kt`JWG6%#b>JS>VF4;78?KM#N8Ldbx#S4Kz?xE=j(@";
   "EzuvVYf#v$vAoS*KgDCo(OielV$D*cLzUc22?`UMre?l)68ET||XwwcQ4x{7x<Tv+9DeZ?t_3#^=1*$";
   "Viik>4t4EqUcXkjc6)FP#3zO;Y14Oe#xES5*KtN*E`5hcoTUapI~ovj|q6&`(SuZl5`y5dqL44%EM_|"].

(** pip/_internal/req/constructors.py *)
Definition pip__internal_req_constructors : list string :=
  ["6*j6uBS>fZr~Sme1YiyL=wAm<TlNgb1~rx*0vz)H1ZGAv@-_V;eV^iH2DcoO9KQH0000801jt2Qjv(A";
   "RG|?700%z+03iSX0B~t=FJEbHbY*gGVQepQWpOWKZ*FsRa&=>LZ*p@kaCzlhZI9fx5&pivg4H#Zlv^u";
   "ykfOi^n<jPa#%Ssqj?*Hzy9iu~yDOho+KAGfH-`UvXNE5#^>TN%1GGgKux}-jLvm&~^UMr42!g-x?5e";
   "1?tk@q)u@_a#+oG=6rf%4?O18W#Uy5J4qM^1>vTNQHbthR?Lu=DzZQaPl;?+*DA{U(PL<8R>Yj?bb|A";
   "Z7sYA<re*`B`!s@blqu2{X9CNGO$#X{Cgwy&>oSwLdXc$G8R9S(KV!o0a)xyXx*w?MV6RhPPJB`g5x(";
   "$rbWrCjVpd4Q!h0{TkY(^|BxXjoU}qJinFoUe<rXphtglvpEVtEdQ?E1}K7HaKi-FL>4BoNK{43Db*G";
   "iW}PVP0{X(iXDmrwyP;wfm^IHn7iIA#`{ecK@cn!z<S(SS#P(nW%F1|^Q{q!#iptENIXfeMU~f0asat";
   ";?4Rs;a|N4Wy7%Ad@wNd?zXChzS#{0JB6k+IWX{8F<m5qQ#inqU@Pm0XG3;ua0*mXeL9Xcj&O|SGBgK";
   "=ZshcG`;P=#Bt;>g^0zp>1OvIZ^98hVU%@C(alZn>UussO3lt}@a@Wu>$aeVP?$zFj9;I~^wl?CXq9`";
   "rqYzojdvhbT?of8oPa=fm;P)UQR>nx1=pB~tq~J@9rnH4eCg|I$KjdBA~b3EIJ3TfhQyacD%Qj=dgkU";
   "Wt5u*rq5&dpz_~EM&@?Y*$>16x-%U?hBbYgY?q*x)f<%Ov*})gW0sDB0c}<#ZT$u@18vVTl(_H=g*%#";
   "|Lgq7t|{#@k&|g#r|@oSz;)(s2s$kpyn;iznV9ix!Qeww{Kb7!9hdCeB7;-(57JEzbbb)<_^JatyJSC";
   "B@N&@)pOz}}(ds6i2KRt27K=0m#-%A+v2!97XkMl?80e;8C|l%gu$*WFErtd)QXMwieQ~*1pg{s#xiX";
   "e1*^2gidKaZ>#rGmj<3)WC4M!&c{p`6<Qu{i&5=R-uu-IH|SPDL)IHclD+i)47C}PFK6J($`V-a+S*@";
   "LeXpU&Z_=O8{^UQ+ix%+?4neQmajn(*f+IgO)>^YfoCE-z0nF5};aOA>TUz14Iu<au2QdIQqjtBLVLD";
   "pA#`?YB?1P2C-$N3rcQYWrN%1`luxB|5j%+=#YoszHyXrmNWlPW4(et>KUQGvtuR4&oIk7Co4)RduWB";
   "_AArVOVLKLyB<fOqTo>SOzi3soMXUFHI1aKZ$RX6oOo;X6(%xYP`hrIski<mBN3Y&s4ak3ByE@A`I#Z";
   "i97h0-wXOTTJpgdwwxVvjjTQUx<@e4Dy$|PwnWI*Ygqps|(64}#cRf%)sl2XEcWrw(`|PuI$#?kg>qc";
   "Cki0yXuw652@IbZW%FaIFBHCQ!)K<T&w=}MR&RWB{A<XqNpoM>H^1xjte0)ZO2++AqqKHI>y$wHt`A?";
   "PxmI43m1jEd2j0|cT#jTWjQKGsE;&OfHmD_$7gs%3)HC540yL>_^-XO31v(^<SJWGf@{__{8tXfSsOn";
   "%Nz|4~DTrht9g(!jdBI9e%>6xc9(}3uwko4bUzD)2lhoGG5{PwFYBl3ET<Cv<gSj&~cx!x9`FPp(}6g";
   "y7^k--@&e9kDCAFJ8-lfW4Asa=Z*Imj<SyYu>)2acAZY~i}ra@Mc;t2H$;-Q-j{*Wq8lz1`<86owLLq";
   "=+#*WIC6;wf1IMB~nnMCdmKlk#HAjrR?us%`;xQS2s|_yzWsjg+1pCq2ho2Mn3ZXT*+Lm#t;sJvEJ9y";
   "$HwB|6g5EVokBD;bGKx|;gd%V{6S)+lW9E`?$uZ=NGV3|!T@tj2=vhOU6T{nQ>Sdf#1Nf03ps3%}1zz";
   "Op$d2&bGL%U6^QKot<Qg@!^sMSAVqvrRw{L2|l_kEzVVsCvzYolC|f<O>_8Pf<pux)BUvK0a^&!hl>N";
   "&dfmcV^G(fXvXCD02!UPMz~T7(*-dm2(Yhb!9aoJPpa%z!IUS<6~!3*dqmVqpimAoKes<>Ee>XxeK4Q";
   "Oz!Hggzm6ufuSrAAhQAiCkK$0@sgP+0vO8KKOg^qo^MDgS_^=46`mpT6X?m7Y+JPO|85KaVVwMHa~da";
   ">L!NiH)U@=jvlJaY@D&9l4-ijBz@jC46rVr5G!nDi!<~a<5lyCRP!I?VBTd2)mTti_ir7{8jPo_VO6X";
   "Xff*4?Pp$_Y@t5TW7483$T6y=cag_NL<Nb)HRdhoz(YxVXW%)u@uEggP>x&j*qlEW-OZ}fChLgayA)G";
   "P&Bg~P?A-C=yE{&=g`jGQqs6NW{z+#T?qDjPf|y+bOwXi>d}Xp4jZnvJl#6kzr>7CACN+$`{^k<t-PI";
   "@Vp2x(f^LQaD=kjB&9hh45)E@-7o8rhqnGnSvXMZh@xo*Wj*~L|!sIk{l{%R))LsQYYj!^IAv^xB=rR";
   "3yE1S3p)rW=ZTWq89ed5L^@}#0hT?Gv+xi9D(s^l95A2(RlgypGs9#Y*#%k~bxj-@pbI^s&7hT0a*aG";
   "C(l0RT_0hCiT4IN{&CxfhBu<F;s)*D&Y{D2F^X4$dCMSB%P0`4fVfe}LV2%1!;3J}O`X|~P67=ujk>b";
   "&qTX9c-JmJl@BaH>MLqmC8fQ}55(+-H<zJqNX4gyx8Gk$!g>jbwDoD(RaRH&F6h&r{zOd=uk@IeFCtm";
   "IpqPovejkuAxX4!{uigRT~BG9DP4v*jHrl|7qI!TADI>3}2`>ux*da`0Gbyb^Hui40K*Mw|g#PFe!fr";
   "bV@>SFf5*c*Lf{YAxG<5#&cZGdOoiFxs595-=1D0;Pioo5X-*jm}aZA<9p{qKY<6{ryQ%ZhY+1xOq}*";
   "O>AWAOmyk<5X|(_K8?nq754||<nD52fJ*lILkzz1hj=*x$7tZ*+>9_KR{9*1*Nw8CE82wLU{cU4vtGa";
   "1qV0(U!YEU9uS~*FlGMv_1ZtwR24vS@SzvW*x}t|B=*l!W!(7qXyw!toK-I<2ICylf#(DJtnHm2Z=z*";
   "><&PemErqg^=r$sG|a$O6fbS^~j@=>ERLB~_+DUulR68-B5V5bKU$kFhu?ErVW<sbk9C4fHaqh&ptms";
   "AJM2S!%h#wlktU>_Q{QcD^i1j?tLkJH|i{m^M8u(Rnw9RB#|PqSp!bzSN-nygDqfUlnNQo4Pyi}La+S";
   "2Rlt)4wW#`Av1yOHgd$Mb*yJg=ID=BFnOvn|^pKk|d#HF_HGyU=bv155XNr&Qp&u#oja$Ro8a(Hqwz;";
   "|Fv)Sx9C0foh&#<7ty~))m*8mNlTqMEpPj;-ke7I{nx(P%G-Q#nzZs7f$P5*z(m2I5&YZvWlT^_*QD@";
   "l!n>Z_wyf8DhMM1Y4`MqmchjV>MIZ?TGD8v&?>LqU&$ni&8|d4leOcF6GA#>CU17qCEYFN(wrUIz_A$";
   "ar$!>On0#?K<m{^3kGa!--Nd_j0tt;w*C_x@&EA|>QzuJLCw(ed*RhMK7xK6a%5J6C;u<??RC41fF5b";
   "&uA%}xOg1?sRYt0ypkAMBSvPVwq!D!|H;;fg_}Kp$0=QFT=e_|z<43dHtc|FE6%Xe`o^x<T#G1!Du7P";
   "Apq^6Mt#x<aO%|zS$Mo4$k4B5t8r|m84bd$!tnFPP~A@i4kx%z=DH#PaSKEx}5%MIj;Mo*kIUv4~p2q";
   "P0$2M5YG?L&t&L~#$j#%(?w*aNaygsC7aPavht*UUU9+W%u|dxmKfn=zFP7=7BGo)UNNUC*)y96MIzZ";
   "INQV-RHrp8!=%)Z`srMu`Ob6~MO@j^_WzTKIWqRmobp=(0gOTh&18A1yW>;!aqu1SZRYnC{y_X@OJ_^";
   "zExgB=8_5ss<O$@my$`VvsV7$_*`CdGE!M^z7A*GL8bch<E1=jCvpn%i%!c!(yJs4!LG5#EtgNL0Qjd";
   "63geX)-^+$*cm7YW|t3V+ww#GJE+ggw`%xUWzQ6B-pJKm43}s4Ec`t$q3_CFo=n57QYsKQkzw5BIJ2>";
   "{c*`m4V3t(@cUVL;(gDr~|7KcVAQD&dgB?s?^xdG5c!8J||h?qDP{3`<_3%bk=jCVq&d>m}&+8EE&v4";
   ")Kp7@DHGtBKt;4RA186>;B4CJE)kg1C7|21m*gpUp3HJn$F?`T!L(?vC!qs;*e4C^-IhLMD(1j?2}SV";
   "zz=`Bg*!x^tp&VqihO(NBlrV1+sfqDxs&3Ovn#FOgcrtQQCl9A}3@m<BIG3W~U$O8@y}?0n?)M1|Md$";
   "s<X{gofU@?X0LgNBY6?+0!Bm4RMQKNSWRWPI2H7+QKQO7~8(FU?sHO3qEJE{;o8WEn%V~ok`{H=DG{h";
   "CqQ?hfq$T}U*CA8gN_PTsIc>4b+m0JJ1@L^mRTyDqq4WFPAe?msN2h)>-5=wUe(WTqUx_V%s>vGZhjK";
   "3rcP=AM922&Ju$;IUkyL#HYS-T~62akOi!z5}B~6&ds&#vy|}k?wkMP$IzxqYPK-(1+Sb0{%jK9yQ@b";
   "a*=!%s-POLBE|FT9;MY>lW?cVX#!%en;<=5>IxcN${H>nL`|)Olr9Zesq1QrtTA>m63hTP7#~Y%3hMY";
   "&cNykMJY5Lh5^<{Gyj!jGldizMyVYHePvHroFMVzE7kw9$iS3q|0!Tu8sgw?&+Mp)~1!y6r7*HY*v=$";
   "hyA~FiQ3YVCNlj*Rjoe`V7>WfxD|8k1GE;*gK85zTcb7bMw<P{;;>QHy|8VJ3$Z-`px=lSB9@`qLpa=";
   "N{1nM7Yma_CR7wi!{d1wp4R9%4`5Rar~pZ}>wqZyuHRPQi^sCXe2@iox?d)wPyqtq%!^$~g6IMx3r@%";
   "2HFySLy+)i^5enS{7QF(L79*m8)Y^k2gX!I`!V(&Ks7;2isc>E7fKo-muB3j)GUB(f0j07%Y5vR(;Z;";
   "Uz1iZU5y=$4JR|AZvnN3PVRq>k)vxhdMUH_XTpo>yMkuu>FY7?ac^aw9VhHtbIH~mZoa{*>HT%;Gl(p";
   "}0DQH2lsr6FeJ+Cm5lW8q1?ii*0cBht8P76^Xe)%%8OH*X?}KB7DTg)?Gaq^}g$nQl25lQRb)&#~t#8";
   "CjehqPRQ4I)9qD=EaJ;YsV4ec+GkA;CvxN=Yq_&>tOape!BY5FBtP*;~iF2f1kHUb9Se&RA+`yWcM_c";
   "5EHI-ZgQFX++?(&~S#VA!Xl7(=%g>U2S`zi^Fuvoy4ke=Gfc$+ln@Av|6MpMydK_sRU<BgbzGO!nH-b";
   "i$s34vSbnCP`0$$vCh4zm=qSyxA;mn}YgnGy2#MldJkyEqp3TuQHxo%SvSu_r-QcHxjrBF!~~i&2X8(";
   "9M!o`cr2Y*7Y;ALVDCPIhZTU4n(F|!wav(d%$j0NH;(AnGI&y`{Ez8QuQY(hLEkrLhpsu)cn#QGzo<8";
   "KBN*+gpLLokaLh!?A5r0O)O<NAMVP~+-<hM;$2yZGi2vi#!yP4?*~-NDP)*d3W=$D>QHmMaP+L8Jm|2";
   "^!W%smB?`7<Mdn@8W>uFf+<udNZ(;rdJc4jj{OufexVF~~gf9F!)0ManObioh)MvLN77*{uV6-<rjb;";
   "SIVYrdEL%>>Sm!MVB*WraR?R97H|(0kCHRHB9G6|L697Q8U*$s3SnRv>iC3rRij&Un$^?V(#l01pU=R";
   "d^)mCqkIIkax1(TV?RV(Clx*(-x6K=E7P(lU>2^_8vJC#C{YQl(J@k2Jv?iFo>9aQ4NMbRH*1m>;q3$";
   "=nm(UnVz~|dJjX5fX1;Z<BIbwHujFf@Q2$Ob@R`?!4?^3rQbW}cl`4%Z`uE?CZyOn+rey-soD<>%N;j";
   "B%*P=%d9lEk@5<>uCG~rVR}r*s$RjxRNO!2xz4XP=>?!nq3-bPtGU<+O8zA6JreA#wuU(k!ba!5V5c3"].

(** pip/_internal/req/req_file.py *)
Definition pip__internal_req_req_file : list string :=
  ["tc$*SNFs{Rd7O9KQH0000801jt2Qufe{(RvgB0HR0$0384T0B~t=FJEbHbY*gGVQepQWpOWZWpQ6-X>";
   "4UKaCzN4YjfN-lHcc7prTX_XEUNKJGVa1M!8CCc~^I~rL&am=43BT&0sW)D3V8zlBXR1_w8=H2~f7Yo";
   "BMDqmn9NF1KsF%1N!Q#uO_eg|Mo@8uX)u8wk}G}n!FW7bvgM8S|{tazGhjr?z_I_S;mU%rfxfyUx>Qw";
   "JD$n+$wYmxn+}I_^Dgvnt@$Q4C4X;Twn9zP6iu4l@M=}JsVLs3*Yyn-Y2TJ*aiOOr*en-Je$M1v&iJD";
   "0cw6OVx-1JlXnDPYWfgTLVjcPWC6}$b|4}8nyexD4c-XdeJ7+GDo&$|ea9(PQfxNC)ycDV6dAr<XVp%";
   "s_!#<^Nr}!y0vf|xs-Cm`ASCnQwZC(hTt?M>}b#;9d3mTB}YFV#f>&!0oU7f8se2mT}2X))V8S?U%lV";
   "7r@e>r^mU)k%QUcEYc_2==CunA_7m%Pj19kAU1ndZ1b8BE^f-3FLr9f7-;Fn9>K<{Ay`=e+E>u<ia56";
   "KcTchiW@FFHdpLE=q2{JS&!+eLI4+=N;^(`SPL=PW!9+H3ufI?3ZKWi@da7&iH$0#980y>1GqVTAx%!";
   "wc_v7CSP9Vm#~ZY+G<Qr<k#o)aSVXw3BiSc<(RQWb1J{csewh2GhY-H7wo`bdrpfy2WWFz{oA*)JN6?";
   "kZlSX#-T66nnM=&hMF*@e_X3AavJCox4me=vQ`)brb>w0ST~1+#Umj+!51~)X(`9|#z?zbF`uAkhb<J";
   "=1pZE>6%xp28W0#}Z<mvItmxr&;BBPSO|Mo_FGuui3@bwfZyu)7R9q^Z6yt*mcy25$cP2Lu`_+8O$L3";
   "`cMdRbAi>DM1#{*wLt!|S6TetdD5?SGuI+oIdBZo>hT9>%KtnzJRyKX3zbS-oa;Rc=||G`wBrz?CKMf";
   "SO{?R>frjTC#2t2AgJ6fRpsNc_8F1pQY?<Q-Bt&%d)-|)am5-^yqI41h-n{?TW29Z~$N7@{SG<57}wA";
   "V*3vsJWBWH0PEp{{YUI@RUq4?lfzd(<LYB{`Hz$DVEx~}`TETV{2fvF{``mC|9P<cBzybK?9Im+((Cl";
   "6lau4uXNS+S<CC+a<5#D+bF}+bB})E8(VY)lfEC(28*i^_*%&k+F<~h1oCw-njtOT3)U60R4JbBQSyW";
   "fy7+A$cQRVG6Xu(|^YinA*=IvOkT4c7#1#nwzaPX~bd(rV#wyCvFaT<FNm5SeHYo4PSolo8}wu4%YFG";
   "vZU8v#tybZ*pPDisjQ-VRf+SXZ+Pw9!HU8^Mc9&~V3rdHy@T>ty3H^&YJFvaB!i@n$5<7hyqiv*Mzgf";
   "=sk1Zc<+3E6<)Co}S_Ip>I+rvlK_pK)za5qX<O@p{81vKp#f>ZRObRq`vr-FT0sEJs^wV*%VdLWtp`p";
   "f|qNn;vMSF4Ysfv)1eTV;aW?Mi@GjN7m!;nGSuu&4;O}&moX5E?gy{x%AH0VsB^S*QeA^d1WN01ATm4";
   "?b>A-e=vWvg2Pm@OqdO(AlQXvaJ;T8siCjS@^<>`sZVr8*oAc&(vowNU_Qmg{Mc_cwV+cc&kznW-zmr";
   "1|=;gc(xCZUx{n-UA8!F?GjmGJ!+G%u`m$#Q<WE`ODHaYImr`hLzyQ&cY+UQ?H`c<_eT~!Agq;}^sx5";
   "kRmn(()4bs5NKwX?S8(QXc(J<m%K>Er{#2~8hf!V+-d#t8k(78CT@VSnXpRaa98f56K?Z|=G;y8?VJw";
   "#&i$fPb6_{3#Ut1)o27>)<2!=O7>{HJKoHhd!O;^E<d&Ii*gE<Cn^@=pKzKAI}4ptN)a)Gj>IJrqVVU";
   "o;o0mhLWJ9Admp#CI_}c!i5<4M8=$+p_PF$_;hSr@NyMe8b$`TT0#UXnS23j&aVwA7x?W2f+KV$!MQ@";
   "OGngQCM=DCwK!?a?qST)T=_&ilcour#92i>2h{U73H&|_e9F1|bw)$=-OK|9Sv}WM{0MS+I0I20iJkb";
   "iMyy56K=T*$Ox(H+50e_NmZgh--0jBdMktoinr|A@p)7!*wsRKYqY(RhdK>j61uR^w`^dqsnZ!vOIsu";
   "~KI!0dqAs^kPG@kGy=VD2?&UibVg{V36qKjs5jCWH=zBWd`|T!rea4T6%Y?nvMJN<p%(?Wr|E%bT_a?";
   "iC53-Eo7n5g-f{NrK$CQ*YmCQx;&1fOa5WbCQ!^YoII=K*;x&Vr^g)Np&TLlL3q2%nNcF)eG`4z6Pul";
   "a1N;8sz+}Ee;{<OQAq_ZkNPCDImTvfcd$RR$OR~Q@DP(sj<(-tVZY+Cf|xJ^XGW^hJ3I6D4NwK%ZZaL";
   "1h9eZs>}R!GitiknI6O#9=cs4n-F%s{9aE%%2ArsVz)B!ZH=HC5w+<E$ffB={6r=Qzk#)}roPPMo;2#";
   "kIewj^E0C1gmR<fqM%PI0X_HaE6G=0$6PNlr3R)pzQIbm+v27@Uu!qn_rNZGC@aqPP5RXqpHjJ@{)Ty";
   "{G&^bK!!W6rV(@PHv}_A3OFdb^QkQb1kUsiQ@yTNvzkg6<4GAY9zY#_Q=Ic`(G<?`ikzV6cC~e#STt_";
   "G&)RT)x*LJu<RI1OMq+A&A(w8_qEYDV0KxMgT%nCK|ph)&)@PqAx(d4Z{Uml#{R6@a0veLt+||$pAPp";
   "n?egmcWX9r_6&>?&1{16P2RD*Y07O7nmZej*+AyQM;ki;7h!xm8rV`a>{9{|*F($#(=1y-IGAOmXT#6";
   "uIO44jXRt8YMLGGg(Ut~&JT+C)ifa19M<cSX-1#y&`+vs9_-LK#5Y+GBM&-`$t}u9tT>^1*`glBehpR";
   "pseEuJ~=-Ou)oyYjJft49VtXd}r%3%l9>#{Dv*c*}To7=oy4Rp#d#kYuU;GmBVxBRaGV3p%T1C6Y<ih";
   "~~Z!elG2R!Jb0YtjpAl<+9{U;wORP0pSi5uME&G}D$^@J{i9r!Wzq3@4m4hfc>*o`50<`^}O>r;eR&_";
   "FF(X(=^a=E|hb>=i2~?PD-Q8i-GrDu)@)Ul(!fgt+y*WXcqE>q0P{cJwN)}%R>;wj@{NhSgH%~j|xzw";
   "U_GulZy>A!>C;ZHN>up}RGTw}@ilV#x+^!Tte1Id9WD!?<yh*xp*bT_Zt8WXY^|0AJExm@zz0>|s=$b";
   ">7Aek|!W-(PM8D@30)LwLYBn1Hkc+|^A^-z*Tu?4W4@W0FQM1hDs(b)QdexV|F9i7CQINCH4r&ym{eu";
   "8a;-7-eM}ANXaT!3z?O_I};xdEZH!D<FxQlt;ZI~>pR%{sD;iJB#a*V@tiOYXZ^35qhAGp=$WCW9gVX";
   "4KSV&EUxUx)sih6RE?nA&}v1Ofs<!Xj7@0qL;jSl?3R5qiO<@LXWv76oE!I-}scUdd<d73yEC>KGO5m";
   "U^fdcpmYlKF1|OYaBX4!>!I&tIVA;p%Rmt;6VNuI1ImA^k->#A9vxOu>8jGJMhO6b$=n`L5E=qs*D9q";
   "g6Q!lS*2a(6|{-I#GRE%#1`x%jNPNG2<EZ;U=CAtD0kSRbuQ-4+@u9gu+Uq0W<xjP0#&<{nH4blqgl7";
   "7FOH&FH!rVuW|qKql@b91vIXN`xgn;^7mVi;5sW@t@Hub@kUT0OfY@Q`Q&vrMP$u&`!Z$6<row8>3*H";
   "ujs|Y}lkEf==$eN~=krgIzz~3Hh3k6_UvG<~|O@4zJTE^FFSd9$xTP_b+M8hkYmjYm0>PVW3^fR6pz~";
   "OH6&5kLZsb`EsW!L#uZa5cIK)mQXge~1FN)N5#h^}gK;l2Q08AcP%ci@{Uc^X?em5pKb1TBJrSv_)(;";
   "A-iJu3oY!Xt=Iql9%14?k_hCv=$(_q~k+~385nyMR_lLHIq96nxDEWL4r?mGbN6$94b8!<ZK-B-JQ7&";
   "GH6nLDinfP)k&KY)xG4!SnQ@B6IzF{q0Lx@O>Xu|Kd}sPH1O1U@QBq`D9QLrRYFIy>G!URezHiUu~Vs";
   "er=vZlB=dFmDrRO{tsMlulx+7a49?rc;3lg8gb({fEx@dZ3h`KWij|lUBkL?X^`%SjH7lB9&Wr(atcO";
   "V5QC`|eS1u%0vW$o6<d!e{&nRNxBMSjkbF}*!Li*hZF@^?C^*QSYaSwxM)S(e2V04K4BsSOOc?@b@vc";
   ");s<U4GUIATYiR@E8rc+FyfM0^z?bbK)W!3f7o)VafkVVR)|EhzJ<@?pswpRkO4=j0B3?lU)4$Rh--+";
   "u{=Z^iq}(!8X)4nBncZCPq4Q_)x_jHnxmou!Ckcr|K(Jr$lXIVZ=-@Ja_pi<lU3Vcp{b}Q_HZrXXxJ#";
   "(L-COI7Pm<Y8jDDDP)Q#z}U=oC&vE-wqE=l?TpVb=r<c-=`oKEo`qb1ilL|~2-!ZR<?dYjJY>9Z2_s~";
   "ay3sDe>lBxeJJcy@wBJpSW^+?2l{IsmBU7IozVr;_%+KeWs$`@LJP9;*27NEkXzTs4Abh%X!>Ak|JcN";
   "@Ge(La0V3|oV`{E<d>?<GkM4maI)A)EbAhH`f41#C~z}LJYs~T(~KG)(B!}X);CNB$5TQ4ARe^U*D_c";
   "`M!3<>3$j_coXV<4eX5##F|JPV~D>JjP<(_1i3-Jm7(Jn<P54xL{ZIfOBY*++5##JmHC&K^55{&q|N%";
   "xQ!0V7k-!M=JJJ{8k?bK^EotawAz2xMYb(4OqTh_7I;yoGX}2+<6BQcl^*BALAp+;-JFb?meK9L%@Ul";
   "t4@y~rPS9<9&wFyw~1^R==raaq`NmzG9t-!TbE82-urI3%o8)j4POwSmgiR)wW@}Jxb3i$w!q4L%^s$";
   "Y(?@f8eFw8AXn|H7%om-i@2i4J`oQpQ;nzjPR-|CKQPV)Au&&v6EO|I*kLT>sY?v3N8v={Hy-R@EU*N";
   "gWy=DtRW3_j^ZMJ)b5J1Yk{r$(^#=;$imGdU=#PDR=ck6$jI)^-D1nU-azhG)vh|BD@E2{+b^ktZcCJ";
   "&w@&g#G*>MgxvY5J^;rz$5Cr^$+t64bGM9XrM2$Q4}y(XsT82#58Jlgg>EP9Rr9K8wym$n)GO!_+p#^";
   "S3z|A?Pgcdm+F?Wmqb6IDF=o&*$XSP#zqBr;=+aPiL|Ud3yznM8Ix01xPk}Nz1xz`$lE0B&AI*0DpG%";
   "6{l)DIjV9KrffQ!Xvwg}AX}N2gU%N!=}960U(mqGChwdAeM;#lkw9@srn|swdXV1$Ek4)NW|=RcLqXI";
   "~6$XMgi}8Ni)J^ihJ1GQ6N>2?T0I!*MozVz+PKExVX-y9GMY&kyFZ~&`Y;pHxBtn-q7yj35>#5fPvl5";
   "KKtpdlC=-qy;PnJ1GK%Ywt(wW{!qvfNMB$$Zb@Ul@7B@db^ORmy9>wF20SwY3(Fdg_!Jke$t%mcEu1z";
   "Zbu;c6b4+3*KBMn-8QT(#_@cHPu_f81*2V=v&Ls^;(Ml2c`<#&Q2a9zn3ROy9P7qjv|hkGR$zFu1Llx";
   "loz<7QW38@ZFq(7y6iG7rB*I50YmUVNK(Q?XXwJXNL=h3Y)D8k;{u%z|p|pl(xtC=bD37U#S7|`8?hK";
   "@Y{!v9Zn%i8Qo9l#g(|LrCY`7@neJomUmAgj-IysPk<!!NlNA6;`O&T_P!f>@;61@%K`{XlmmT>s#xA";
   "u!wbI%PajvDrLr=B%QWSS{E8D}AVgVZH`V7>s8owDQEdS#dz(2<s_W_CohX8g`gd@d$eN*h1sW<crlk";
   "Nal+JzgMrvbw)iAxrtAs;`Q$hHgZkqWEyp1UEbcLZE8Ku0u&9|5n#~X`4K=3x(0DwXs^fD-iASyvz6o";
   "taMb&EC(VU&cAI@uW82j@)iNcb8V1vW&P5Iui5r?;#3ij}<`zQZ7@O&%vsobQ}BZ$ylgDY`R_<Q$_h!";
   "8A(N(hiAWZziKVbx+#gi{@%UXUETu7pm02M3X~&ldpl%Q20}&Xzn<N{3Y6kex4$6T!yb!>a;iG*G;!|";
   "6V`gny~J4Yk0XepzeuL)NbhXe&)G5W^i9YeW6UOL^{HdnUqZ0gyeVm8$})OyS=Tnf&Ap%^C>Z)1&=@y";
   "G&fe7mBS{$cP8ABzbn%Z&8|Dfr;*+6n6uNWeI8w<psnvJG+tTmQSW4B#x?3!Rf{g$Vgdpsv!~^ibugt";
   "=dzkY}M56?V9oL#J74p{1zC1Cx!0)L$;GV22P!;~G$Y1A!j2-yI?Wm|(I3bgAGML`%27cMMSz%yv-LT";
   "g`nM}Ug^V4`yL1(v-m1}XdXPMUhw^kr#?f@f)W9{t<?x9q#9N6_SZP0{S(m_6+F{ku%9;Acu2EjM`!j";
   "u?a}NN(?nxxN-IC-<*~69k$OCT#i(k=CGyF59|q(z?CegAIo*#D={me|+-f$^MhaPoC_-<g!58VrX_<";
   "bn0Lq9VznfuA8gtDga~evUmQ?^)DAy#d#<&coM74=>8ydw)fZRq!?^{%#NB9Wt!6y4I?<vg({P}hYBD";
   "0uc(Gq1Xnw>QVbJkss355yEQ|QO2r%Tx~w?V3lvA&8t0u6_MdqthBsVtV(vd-u1Xyt$emm<{<dI0y?%";
   "iwQV0xj4t`1P$&3UK{B=}z)wx?}eX1q_fmaEeR0U0VW*%0u!*>6$%jBOCS%B_<aIno~OsoXQYA9C%)y";
   "Wb(y=ln*T>do~bII)s?z3r*lz&!4rL^te8NpqcnR>tK1gv*HMUsHEpr2y;){QmPnad@5W=zyDLIyZaz";
   "C|>)W{hkp=P~VrKgg2cfS{C)A5-EI`mKXamn)_6jYbHZKP2PSE>LCzoxh*rAnB#h$+<^GA$f7yUVxLE";
   "gP!rl!<GY_KL?ZGP11aosAHEZ9ymI-S@ieIg^zIfcX9j_*Yqi!U_~LtMTO<gg?s)D;9H7$Nee<oEqd|"].

(** pip/_internal/req/req_install.py *)
Definition pip__internal_req_req_install : list string :=
  ["~P)h>@6aWAK2mlUeH&Rx6@0U6v004}F001BW003}la4%nJZggdGZeeUMa%FKZa%FK}X>N0LVQg$JaCy";
   "Z&Ym?i?k>B@M;HYvDw6L(`vy;@uaANBbt4_9bdL)<AsUR#cOCk#bH~`!gy`}$t-97IIxLhT<uu3a(Fw";
   "-;B)6?%6+>739Sai`fO?O?l>!|FuTh>m|xaoFH6`iwaVB7ABRZ#(j-IhgtSHttVjV5fkn|1?BPwqwAe";
   "ZN18#%ZX_>9p&ox@(Ijds;LjJ2|-+x^0x_ymp>P^|tSZDJss#uGvj2=f6)*M0wM#*Dx6Qvm52NakHE1";
   "M*Z5W2fJNe$?w0`{YBl#Ui-RF^DEX?-5|T|FW33N#%?#1Y)qoD{^(Ur`=Y!oa1iOh{&!ac5&$csgz!q";
   "29cqe$Rc*?m?b^C5n)+9kx5btnYI((m5ils*{+a*0LyNu`Mivz#|B_$L0$}~O4}Y6p4@KWY9ohUP75~";
   "(Amye33VS|ZGSbjFZ;-=@jx~X#3UddL!bT9fJvG7TIRS#Y3;72uNA4^6QqWXK*juUiLVBwQt=!Q_UrY";
   "j4p)tXKDSZ<hwOI3Z_Rje7)rfx4~gXi!)RJDV-bI^QJ>6T4JRZNBMsl^&Bmk;g)C2!ceDEAUrd=kOO1";
   "Bt8U6^f?G$?BFKYmUK`RrOSyH!RqvsFce}*ri)`=N|2jp3^U}o==OqfgS%@fJCV|L|)-YXxAIY8V6WT";
   "g&_d_z8|{3v2uzO4=So$mF82oZIWnPTr#7uFQ!ch7_bcdm+x9R2?6x2EO-emU$fxmAf}O4tREOBciC7";
   "LvFboG;7TyC-O%J4)|flmc!I6-W@amJIGbYJFxB=a`ZZr$@N13i3O0TYrSna;^;p`pS&Wy2(42j&$7x";
   "Kc@ErKtuFqlc{C8E4eN*hIqAHmHcs|y!YdAY(qy1<%BKMnEBKF;s<CCF2-ywQ+saP9UNp{H}ZR(04-u";
   "SP9RR!R&*uh8%k@O_ESNKd7i#EB|AvVIBO>9f^maX2v@5i);-LOw0d<;+XOF;I4m6`Uv(euxLefih?(";
   "N9kv{YU=l?JvJP`{hsbErEegyP`3;`><<)eAhtL6&rH>JOtyaRKx>cL9ky0IzJ<XQfqshKeRBz$Dl|g";
   "(K7&uTqyzGJ;Lu7LbFJs*C2ygTf!6ARUq0lu&{vK7Q>~nAAY8vw>27jR@N7_(eAY@!R;GvZK@Zt*<*v";
   "^+@a13R8N?moZwz#LzGD+DFt$RPGxaUYDJ!}pjyQ)qFj=CtfWaLDQLx!e-AOw&Y~Dbw~9``x5tS!7K_";
   "Cz25MUy6}IA(npHuA97rJq)_4W`rJ}Y<vZ-!U2~%%Sr132BN0<%>zK^>x9a+CR5#uG4z*vxj{w(2l=g";
   "5x}fm3)AO`QUnMrWYfUY-et0@@I=6V*8(4Mx!6R-HDm<V`)r^6AQ+Nao<c97XKIR-=B*V2QVN%LqwjH";
   "{c{KWQ#e_dT=bko{?};psew_o;L9!W$X26-ClGHv4jedCFq*&_`Ky*wL`OJAN9nk!s^|F_tXp&DW<zC";
   "M&PJZaCBHEhIicPo<ZGzz$nGCElw9SX2Gh7Ze{ne0<9KGl}L$>;4;;-el7_hlVA8F+-YS4=#UDmVHm`";
   "GLB%Rbl7EFld?Z@}t*L2)Y;W3takVY>Xl^MX6oEDj8y%z&J=zpk_z?ElworH~&b!?dfl@Otr1%Rql^d";
   "e4fi>)^06WdFUZSFfjnj-B&|f<h&=K;Gy2QO}YKMG8EE<ctGTZCD%Qr7_7~oy?l;;|?BWo@++Mso!nT";
   "+J!?+h%xS9QViWFv{xP!r<u?|@8_0IJ_>C{l~%mZt&fyz3fO3zeVjm#$@@uFy!(0EO6?t<B|#t`Eva&";
   "W)<sCO8z`pavTlmAb<tmI^GltmlV=QWDW*pk&>2=f!8WL@n^vb||O$!e|KQs=~krAhzl7{9scL#hAq_";
   "qk@$E1k*(DkdM0__WL2E8Qf6`xin2l$l+96W(K4ROF@q!bQO$*anLVfB4UHuV2Ds;Q9Nq<z^1%nP1Ep";
   "H|8Ofw6j3Gl!>*((woH+@U4h$1Qila5TZ|x7GCm=H)oR>&28K9G<_hOX+aIm%MoVtVW$+1X5N5FkXk)";
   "-4JDpVt;&IoaGR3MCwrx}b-xVdK?Tt~(ScNr981IB-z@rREeb?_A{=gn!g|j-}({PNXc{#AY7}$`)v?";
   "m;_H7@M0o1jmSJ!3J{4R7yGQQ3DX8htp45d=vOCSq`!(JANOI3nnwJ4e<E#aDHqW}oZPn|hF1JY#aRD";
   "`ss1&<!lI(8O+#G?{p2IkdvEv<5P)-A3WTNXgrR+`%ug*9JebR&hR3CF%vcAVY2CwOO5*GvOW@vG-6&";
   ";cgQDr(j;$<GdHWeDX5-_QCI>x38X?L}=9_m>D^IVgY95Y#3gHzIQ_nx->9JQD|Y#uaN@+!LB4{LS7c";
   "-2DhbfbsEDIdT7z^fnKj$^e6yb06i5AkbAX1B}*5HTiC4*RnQL16&mkI8Z;HeqWTqH_nEGAD^+SO8fV";
   "x6Q2YV%Df*&0d;_guDGoKc@hHVs7{}s*<y1SSzbmpk=qq}paiN`F@$<<T!x);q>K`_GyfSC0j7FO}Z5";
   "Xl=2>@Yd+AFDRh;JsHya6s1ZMvr7eD{EnB}@bu7jm{B?Gu+1^c59XMcvr!f$wl&sUz61RSqn4ma5FI-";
   "y0qLWdmv}<K|v%_-#>%M$Rf@2NQ5qAb;%yE80j>yaCSi#ef0~3(9Ow)Sju!IjJu|nCwJuL<7GJjp+hL";
   "L-utf-N-heoE$FP0zb%yEk}%rm)C5<`Mw!;KqnWdyN|mP5puC>EJWEIONmXDQ5w#7Z7Yt@qtJpPp`(Q";
   "Xi-!Q#EdfGui*ScT@7~*xYz-0sIRya6DG7ox)ky$i{R9x!Zvt@h=~(pkB=|WQb_ccxje}PvM7y-|b|k";
   "n0t(NfwWXV24d09`OIN&2TqWDJ+6kOeVQb9qDmDGVp&z}LD^^V7qpq&+4LOwet=<n|Oz8eAb)FlQqma";
   "bED0yA{4mNnKDj0+%Xy>WDQh@~&Xl&#+<4#@~x1ZhQlwJT^3RThl)#4Am<zVk}Y<tYrA#Q4MCCP5|an";
   "n@H(w-T{F<u}!!)(mZFXo^baUl^&BoB)7YdbG{qe?D#!*a@hT1QUJB%u+W?<WTLnBR#j^J@YUE*xV&L";
   "#IZy<gW{2Kg&1cdjcCEtpibS4D`zcyFV`(X-4YXEl21TlrQl;0@x<KqWvQ-?!lUCBqUAW>xnT?%L-^6";
   "}m+%CObzKAR1r(K+v{RJi@ysOEG@rVhH^_if=rO3S-N_4jk?V%N3P}SbtrpoN7ia!tmFKeg?A+bhr!|";
   "ltIBo7mludF(-1%v<oIjY2h+R2$1+Y61cdU)LUdXpW*8*?3Dw?{&zd-(kP2_n7I8;K2ai!6ZTwWpw7*";
   "N8e1Owq9;w>xCWgjgFL%7Y@MX_t9g+Z9aS%vMTI2`X?iemxZodNWNe54!D*fZJQZW0_?HYDU+G{xG;E";
   "11ya!@L4STT#)}ebyy>DV%SKAD;4L@@d@uW3<I#n?gY<78Hla?vYp=0->fkHqFhZmTJ$vUO=9C9%G}B";
   "n}K``P{mWpeeD-@&S{9{Q`=H9HTi(87TwRHC3kt>d|Ia5GZ=^BQ?XX&(GJqRkWN0+2iIqB1$Icc1_;a";
   "Ve0SaVOAj-aMk?%dq-7T%O&K(OW5Q-gF!q3{q=D7S>r^{r&Ro13?jNTr<%^`KvbO6S7kpg#Yh(F+Tu;";
   "y~_FEX2w?R#5c?bs{5zWohKxr(<Xr<7q8)<mLp+1^h0XE8=_JV-1{O;zHuxHMoU+uTO`M2TI_i7Zrt(";
   "NEHaL@BphPx8Ag;t5}6<O(la(H>g&UfqM2fJ7-erUmhIi0w!$7AZm@7IE9qDW>56%lZX$(aDOqjBPP4";
   "$0lCVi@^2)N`B-F$7|$v94}-OQ<)fV<Tp9^NH}bkZ8lUiP7OZ{Q90-%lH+ykm!bb)r0UB8x{(y7>jjt";
   "L!<cgX>Oe;h%&cW_KG5)Y>`BZ^lx3=#`JrY7^6Ai3-ku#BtqLjiOA&}O$YQ23WB5FZ|WCZ0RIsr7A)D";
   "cSCoL`I7|VD{VIl|*xpV8VU}}Q?igShT(Lya5eJ+aYE+awLQyR-d4C2fD1CSuUZmO_knBmpn(M3{^S*";
   "9dpp=81S<ZYNGrktS0<e29*o|<wOAIs(kSvi%v`96DKP87wvF$PDk0G*C;T+4dhw0adc@F0H*2C|`Gm";
   "snM&1VGi1@F`|cW@Io3@B06Uqx9KJ+vItiqJ6>Sx>kSy822aBavAc-7K?gnMCk6TYj2dQ7`l4a|l!nK";
   "bXnFNsGuz^F%Uga^aDp8q%W7m3d2HpU^<m7_2DGd!HC!-=H*i0eeneo;bis1O0hGCb%;|A7-eG78BQC";
   "r31}wjnQWeh0>I`F1zP&Y`N+T0y*h&nfR)K;r9!xA_CdajqedRA*6Ef@y(KYU!L(%eDb~GmM_yC>LEo";
   "-42H~v843eyBR3r^f7fnC<X*Pjb$hz*x+)UMV#t@}KB%}GgJ<OF%?)N8W~G)>eTD0JdMX(9sQ`f~o4=";
   "RvELfn8Psri*dZPEg>iCWiZh3(foJ;KapNwt5yA$+34LeF2!;Bm@Wr)%cmJldmN~Fg5xGD(lDX38tk>";
   "a8Yy);1NKv>(oK+h?eb1<1x%u3KaMj!#rT4o^InCnj>N3X@!<LN2T=oqo>Ijhi#C=#?i4^u(}jdc|uB";
   "RD~7AZ$TQ;rj@LJOKYVJtd32*>>X;^$bUk+l^pERyY$ayfMX9-bY*s-}`GEODY0e?7E-?Dd|)*TquUC";
   "O_EEsBFmDmxhA4|N~3M{Ee~~Uim$)^hA0v0Xw3_=+c{2XhzU?~U2dc?+U}|~Sc|L!nF9#FE`};1!Y-P";
   "1H=<L?fOK8#$LPf?(mT`|t!YNUJ+Hu?S9qayF&69$P0Fo9VrSZ)-tkA87^3(d%q*j@^~NT&(7JJlJO@";
   "jDM6jhq1eH<TDqe+m3Qjf`lgWHvEtnbo-Y_f7$Qh5_T{x5C?pr@_X7X7TpCVHd`?HyvF{pH8lki-`sy";
   "5HiiQc_mrI@?kR{D{r#PY2Y8z4>7Kv_<oA#?$aPe}!a4d2!!E<jb6B>ho<ZMtg}I0sp>AghXcTm)C*v";
   "y{wvFT%gp(*2j3w5Q)Mqx+$p3*U$pnmP9oOMiio2Pz;08)`S<i2{b^9`0n&uNvNH3=s{b#Gstue?8k$";
   "1nG6e$<Q^t1$3iRvwDeu8fru#`VcYQUintCycfO3vq9q?RF&<>lhwYOwmov80*be^+d0<-A$YMHVH=d";
   "dG8`(o$MFGDV%$MhXx;9%{eFc)Wruv5c@Fx46;0$#jpCqueymEZM>F9*E3W4&b!cN|R@Qa;>dAlRKfZ";
   "nT{Ba_}U(Fu0=@!h9DzjX+_%T@TQK&ZvihP_RD~BA!AkT}M9J_r}luU<Ap!XdP1LF@yzNv+sdn#9VQh";
   "`yOml8djD2oNV;mJ8%EfpS>k@sZ)t0y@$?lPw68>)8WPzn_%H75hou2tJdt~LeNTI`^LeO6(9@7uS}9";
   "+ODiFyYu&gEXK~e(2amTM!L3if;i>C<!EwE(kfOv9JPYszYI`DZ<DA_D*P-R+F(6oXv0V1OwjU=2L#7";
   "oig%CLZ{VI{PRt`N;mA|$_kA=`>&s$oJG$Fsi=5?0yt6pfYusNLdjB0V+M)l4^h0K?5XJdS2GZ$qG8q";
   "yNCgx*JN&pstROi|p68pV+;O&iB=fX%0PBl!X|PF~Q$rtkWCqI34m1la@d$yn3+1TD9b_<HmFsKF?E~";
   "_m4^rYX9gG?n+76sO$enqLY^PrDFz!oS+z!=_+?}UX!x|}_L*t`_{cw#5wbw|$C<;zF6w}+sr9)l}YZ";
   "+YvTx+qxwIVy@EKRq0=7Z?STuj++G!8z~-P?~3vMyWa3b8T69cQp6^8NzWa>K$ntUy_U4U`@X=vxtX3";
   "K@wLa7be+fj{g{H6)!Omx9mralU|zH7nX#hN`MDqem2I-<7EF88Ho+o1+wQd6KX4W7f9TWgXCrt>L~~";
   "h=ZSt_p3x60(JIh*CVINGL0Bt(~@<vg%j`RX{%<^y47wW+_LXxTpVhczrfC1yidGpUGJC8&Css--gHS";
   "Tf&<g6&AT?=)}!?F<hT2Ct<_c`_`^)!otwozXWA&wEqV;Ceq3eg2`u-X=l)}06y&t6qHwNYlHD_yJX?";
   "Y|K$(zm(Xd3_N}?i-o_8Ps2u0)oqoV<};SLp?TvV`Edif`R+mYZG{#D@e(b8_w4_&n@4f^KwMWO~__X";
   "{wdpVl9vJ?tvC`8~E?XJ4Q#RIJH6kuIIsfRw$7jmtzoF-XK}<&(7q!5}C~K*;M0ap+Je{TOQIX)^V6*";
   "!|=3w5K(mv1pA`99DW82`Cw!lzBTBO<hjfvL{W&%_c}hCZ}XmX1KI-k`29-I53Zgt{-aPMrMfpGwe>o";
   "J;U?(=y(|>ggJ*QoekmY9#->UM}AN8fO}@QPKkdiN4MLPALvNs>6h3AonXcQo}4MbI&ocp8ohq<q-&j";
   "8^y3?-@?e*7G&Q#76tJ`BS2v41TZ8b1q5XL7%qB3#P(VX|f`@9IG0qHfC~8o0yz~6wym9<2{(`APTwC";
   "We5?Vi{&EW_@0WJ&7U_p-|R$j~l10DGi%}~-*a6N%T;VDrBdh>~=4lIIEOAmoIl^F-b66cvpF$lu5OT";
   "%uEqgK{$diWH;(SYUW9#?LS<XdI-k=K~y6`)k-tqTV#yE39^8k%qc&kX98ZFC4xc2jFHoPe>86H^`^=";
   "d!^dCq2JIRK(;je)5b^>w~(!m5<LaB$ylYh*O#y^z7l1J11jUMpuC2Dfj^i9XMt%?#|U%aw*?Y*e#dy";
   "F>O3zllS{09I*i>nmf#B@k=L8458&nxHR^?op&L-cCAmIf;NZbBwEU2K}*Yie+i0R*M5!H-QdBATtyj";
   "xTF&wKQ(b~RXi47sWBT&1UlSHBcPt+l_rv0`SMtJoGD(eIeocYlK^HNyK@iN8S4@sMDo5RKWsF!+C2u";
   "^pK=xG_|AJ)_;|yHEamz{>>R#YdkGt8d&jA2;soANJh-1Ue#S=bD>j(p=<29b3L<TIJWJX31s2yZ1f|";
   "wFnr3#ohR)LU0iKg7yN|~gvhIGyjgQa!3Yl?v^1qI2-r&L|be8?S7I5#|pGES%RY!w`SU6e|FMtCqVa";
   "eYfHx5X+#DkT3!Sm|^~N*u5ct&z`m^i%>oDL|`%S{BQ3^O6RK`s@>Hp^*pGW<QP9773cL9n0KmV@Ye7";
   "yq(BI=!9D_>bE?>6&R#vCIz#x>3_RwFn3&jb*j2))^0v^Xf@}#teT`byUhIIrHhHXFPxi{?v(ZSti9?";
   "kF(E<PwgMcG`Ngg+DJ+^uQ%yzLD}B0S*342$gI?kJ2+k~Cg29Bj%cFcfR~_TX>{A^fZ;i1@vfK6zwNO";
   "LNZdqI3Fp@{%t-~mOJ#o4sQ;q;+KMRq<YKae0NNf$<*vTfU9kLC2|K{*)BltMvijJ~C=RtxNhn9{cXI";
   "E}LF@k39SsFSqD9>vcLhLQtjQW&LNv4@THxq4ON7ES_J~HcUOzJ=pvO$Y70Z*N*mbaSR?(5ZLq=!lyQ";
   "C~Y1hwS#?*&7~z^B2_8=zb_MVTR_{vg>9a@a-lMPuP&vkS0-`Q~8aG#0?JMdj|P%T(A1U9D8gr>lR%(";
   "QibDD?nH5@N%@{<mGk3h?uT~oPIFU?sAvec+EU?n8CoEH5ng89k;ON%y2~i2yPD1Qo>6TMjyrh!jDVb";
   "5AObXG?9ju=J$}2+5W9S={b07EdMO?(gDK0}|7FspaJvL*1%rS=*D-#UuT)0m7pR!*Cew=`JHtp}(4z";
   "NCtqa)X=g>Z|!j%5_UUMU(#zD}@D?KKa45r+&rg9w|bKuB{TBp^KlL^mVCA?!A^mzwdO_@iUNJm;i<(";
   "p9iDDqe^)l-jW?rI)n+3jQ-^*U53?o}~sn;~!W@v*rtheT50T<?K~jF~lx(O5cQ$Rpo{k-DIA1NgCc!";
   "Fz>)6*>Z3kL_~e8I{rA>PO_~Y0R9_xx>1m43oMyo~RrOJ#IUK!{aF!H6Djjwa{r46scEnZ|&>RP|i3D";
   "I-6w#A^*LN#u<CWy5NI55Q7;|9=(QWCO|tzqErZkMM%!?1G_=pfMXuE*2KT-E0o}}mJm7oHkRAdc-^F";
   "{1FpTpoM!Q;Xt6OL4iI49jWsD71u~Q0n<Wy_xKzGNd$DVYNEb69)H$!5t?fE-8&kG;_Xyo0c+8`MDZh";
   "3X1D#9seJs6nFn&@QIV9cIv!r`31zM^jhPb@HRFX*^HcX=bv05(9iz>nkVxk+Xo_Q4N%P;9}lQA|90A";
   "7{kNlUP;b=3*{78l7u_eu27Y%&@qE&L*dM3lq=pcUsbT6kW2i@eYc43&Lnx4OeA9H>|jU&Lu5yZiH_*";
   "UpVh(K(|`9d&Ii9<)n+LR%dShgit*+Xe<rc}g^ffLmW6z(M&`43oG)a9vOL;olz@bMYk${(-O(0@_Sd";
   "Kc0Q{6#^88iZH?St29lMLs2AbJC2*rXxXWIQCNxMO-v^YDGbNQsb0dE(?nvTA&J(2<s8`D;_HX$gGB;";
   "sKkiue+i$=9#)h@2D=?9APWAFy+qv_+_<@z;9MoS6gS=B-$JK;rdu6)MV*+6&RQ3^%mLCt*hbUOdgCs";
   "yF%eO6b07^X5+Av0jhpr*%5XBTLT%DO`jSugTL^76@KDXHQrwzMe4H}WQypq@A2uX!PGp8K2VJmO7gK";
   "?dAqfo}?<d>mhnYSfc_e@*)>V|2qBCZ=-!;FA-QPel;97p&n9tG;<&~5u^l*jDpodMVcw!^loYTlj#5";
   "ioK1t9^zaKA1EA@BtYYifaS-E5`GM$vaJnbPBA1+3hAgSA%@;!v~7~4(y`-2+&RylxedYHP*S{MV3?J";
   "Ssf7>2NhafS3-_)%!5@BM3<zo1{#RtA3_Z^?@!jV6<6oMOn9mt#kb`l#&PB#lauMD%0Dmn!cVzyth>e";
   "Q%etrQn88-U13HuRhN-NUbYW!SgcJ^&@rw@7zY{N?c006QWC+<@k29W3O6dg}6>7~G_xEBJOy*ss&QA";
   "-Fsm|LUXrA(STEr&hsomy9oB{wWKl79qL%FH1j8w3M6rV&W%*3^ZuAA)aTH9KZf0Q>`FEe&iHmqp#U+";
   "bQC!qX5qm9Jdg%K_{8w+)&?IHvgJ5TpD0#$DF0LhN%vW)>X{2W<;9JVs^}f#U8s0qTbTk1Cl5<dBYrA";
   "N!X`*u($c;SpUidl>A)v-fi~Qz0m0V?s%^{AwAbT1qN2j9!YPSV3W9MeVB%MW60MaXOHTA9P$%%lkMc";
   "_^U@iE+tM_?pc(B=W$0m=^x6sEw1R4CV}LRTYgu!25fqNN0ItJ7R1So!)A`EIhyA)KcJl~>wdVCH&;F";
   "eK4l$rnN3DhW!x<wx1k#_Gj}K6NOJS(6!c(Np`{fmFmelZ^5>PxzxBX{sKY!hWb|qW51qt&6W+?5=h%";
   "bJfTMQaju6mi=si9l4e2%ws+58bvs$+uCXB|{s~RnyrQa|<U(s6@pi;3q$7|;g>pPbB%Nl*a_Z2T|Jp";
   "O)-f6nnwv0QmNrk*D(PrdZjLT`cnD5|(#(g1WF0OW|e<ztb<uLRHB%sfc2ic*T06>k~Sd0<Qx8z;&Yf";
   "qCioT^s-#m`HG;mOqM%c6U9Ba@g@fZzhdlcIHRaR}%<S_D9a&;gou)OEe;G!(tJ@B5Hj=_EUWN(B5vS";
   "xY+b_n3*8!27R*Mp_U=uC6)en-9Lr@Z9LnfCmL7vpS{c<KY9B6hc{0iC;a>|fcVWf?tu#RjYOvI+B;L";
   "^T*ZqwDf^4=Uc-A^Ud;SL(RDWUAl9WG=$4p-_zS<Lrlzd1>!P`g{WC)b1Y){%t6+qUdOVl{*c2RE2IU";
   ";ZYS!o$unl!9Q)3sBHw*eK{dvm|tOQ58K>+xsg4i7CeP55T+vCNu^k$EoF5StZ2Ol3kc^rNBUG(rbD7";
   "qhXV585q7nG1*4>jICG{hWcLRoYnY|F)=WA1XH!uY1lw9iMlg#M4jxEj49QWacTVHV*Q!eTu}bFv0&u";
   "#6JajjG#)fKtq)?XIBN!4>CLRpWkoeY>Hod*t=}@^v@P75#|q*)~=`n{LaFtH~AX<LXlAc`S#zpH$$0";
   "Gr5_I{;k~j!|w#>_jr2-tR4aUd+zv`-fH8Gae*u(`;{MJutR2z*nUnp#Xoj2Eeigzi;qcf5xD37d5Iu";
   "Cy&Q8HuaV2*UCetpg?#4Sa6V^n3Erz<4=E5A3eWo%MB~RMr~`|IAAL2Mzu5S>d%DxHIZMZ<T+IsXJLO";
   "ZYeEJUEH0>P(aMdA6ATn2dK3UDVL*CV3#M|d)j?54Q>#mT1qHF>Qz0dA|f7SvWmP-etYV*MSmjT?S1z";
   "Rs8oVh+~jy!!l2Wk<6%lLo(V|+6qsM^G{ky~3=hXi(};=<~iUnwXCLWQAZ3b~M({u&&$xRFd|PwHE&|";
   "2dR@FM9Lh@e914XD=d{*9<Qfm_*pki%5@uFdIJs-LI|03sXjNjtHMG<@pQGyX4V$QMJe)>rA1BDF!k}";
   "jxy#{&Z)j;D0t74dBN`s(TToMi@z+vZV`b+HVo)SpEjL!E4pqc^4st&!Q$#3^qJIjzzQc?;6$mnXbpO";
   "kdBPsA!_n_ikyGH_boh<==X%VZkV6#4b}4%PcxsqcJg0<7AWpG@;*{&9oQA!VM8WT!H!jpaQY>b76qD";
   "I)QgcSpz|R4Rd5f&QlR!O+JKVyM{&_+dS>0_S|NmPs%W)maf{pkly)`-bf?f2$!s9@$Pl)sR&NDn<G%";
   "z~48Gi|YQf}9IeLs;eZa%UnpT}Ys?n?&(4aF9-)ey1m^kK8`E3dNXcmMvI-#H!>9YGH)2DZy)k}PgM@";
   "muQDfo^{FJ8?Un)V$PejaOREBnT|<eSaMuWf13C3-NY=(mWtW7nAe1N=)e@4MKAL)`2%Hg@{h23}g#@";
   "TVVasc*6nDqod3L%268VZuWDK34sJ8C*dHlKQRFTm%&TuIx&vjw{+4m*YB>N=sCWx$$dSke~GvqC%YF";
   "tqQff}^vW@HD?K5KON4&tKvd&3V<HkET!S)Bs_Dh3`L@MJ&MObZ?Skr7L7)!f?He4peA$tcKW2c&H&f";
   "jamix*j1KK0q2;<f~_xg&7TSUdRA9!$yH!<EEI<qlmH-*&|4xg@ylH<pt+r=eU24rSZp)QdKB)O?f`9";
   "fu3=#%=<3p#*CiwMdWb|y4$=rRDT$CGQ5c&R|qMnzfH6`eihF?qadk`|GxqLimhV1wCrRaeqk9(=FJ8";
   "=m{`K+tKXAc0``u#_QCP1ml)Yh{2cN%a{ydPXM&$l0~#jt#5?e=NC?@ftzW5eq9-<6uAcz$C-#r6?g*"].

(** pip/_internal/req/req_set.py *)
Definition pip__internal_req_req_set : list string :=
  ["o|aYz9`y8pZ_)jQ;x0xDhGYrkHFDe@#0<WE_`r2%h$yHa%9H;CP)h>@6aWAK2mlUeH&QqKp9and007S";
   "(000~S003}la4%nJZggdGZeeUMa%FKZa%FK}b7gccaCx;^ZI9cy5&pivg6H61>8h&N5B=iShaPfiySV";
   "G7NOCwF77Kxv#x}FGsEE>T-0lAN&X9T`CCW*PtAR}{ku#jvXJ+Vqtxhb<_HEPFkY!AqDpfa(@3fL_1D";
   "Soky6WCbbvTIfaJ470TuBLeBUGt-y4Q69H55OH9BIs^N>pj~0A-=-wBq?aC;GH)gdB)+UaC^$T#A1~R";
   "`L_Lq@rw~F1bwMV-A&f*mbEJE+wazuj*RWA+nPyK<f1I2q1gHU+5vU*%wQlD&)NrQZ(nR;Rn4)k~ZfG";
   ")#@q#`Rl)a&0hZF)yp5VH$UIpT;Kd14Y&`y-dr*K7_L4CGGM~4@eIC`kg%VG#^={Ye=ZaDuB{}RX`uF";
   "Hs^J6u;R|D+iM`&yhgQ^Zf)agnMIMEkZF|?I2WWmW@1o2&Bg<mkmP@WRb4cGp6RF*M^nbjuf)udFND`";
   "%JvMkad_X*37kl$yzt>}CxGUElkeOI>-TixmNf|Q31i*`!MnEn1ccB4udmRGCQ%NlqCj86ne-91;s1D";
   "#F!_d7Le=LBXHk4Mt;t#0ZhV4OSJR;mwt!(RRA+dum3!<yki;f0BCZAq3bvWbwlccWzF@!Nn<uB}n<&";
   "eS1m8cX7qVP$ffHUdV&GJPW4!}hACy-bvIQ>G7GwxE$Y26U+!+L&UdfX*lo<HTck59h7qr(MBm-)5fa";
   "bY4nd9KzTU7*VNYYqn0`D^W(MOw`48>`Lhh7`q0lq57>Yv}}>zMD^h-s(0cIxtL&K%hrE+GC4>T&&+1";
   "tpV?Ec+Om0e1&?&RVNdu%KYzELn$qK%+9zMX;gGG-G|SA3EK7Sd@YOWuZzYtG=LCNf3A0@%U*yJ_QOK";
   "jbD6&BAbZFDT9j%1CJx``N)}X3@NJ)Y1a5HZDbOxuqs<6;St{lGX|9{D6QV$!dT2agx83?Cl@i--omj";
   "U(GWp;<$99myvS67eU=wF968I=wct3eZ9<0I`i=Wodl4rN~@3D@riBKX+UTpM{nV^$lg08w9a4Yef?x";
   "g<?f;{#KOZ<oM2arn+xmkJCPv+s+-wF`QeaW_9$qx$u9bnyl)!%tKDY}mUaFynT$XAOS$7#%srJ3s*i";
   "eizzHT=XCm=}0d$Yc+1%LC*0D!{S!5Q!5*RR$yIDczHa*0qiOtfP^P8G_fR-ggpWwi7c4Hh5At-Z_Fg";
   "tR_swUM~o&)EGYA{$4`p#URw<+1eS)Ww$Y*h!~Knm<r<p>$1W(dZhTE8wiv}3HS3kWQ4Lt$CQ`76k^;";
   "KZ$WUYqPUfin`hb-mH+oh`*aPk@(PMk4u?u0yFr9jB8lW3P(M2P9&Tg;{KnnuZ9d2X<PXZ_(M6F8W-4";
   "n0xq1Mh}wh(L>Mwqan=~q4EtPvZ?>8L2`2!dQfy@}X+=S(9B_Y!V$(m%ItD`NYt6UM}1ChmmANRIj!?";
   "1&n_M`xj9Fx0GTysmG|%xfFmoyx3GMjR|~`4JKJP^ucN<D3&mUR^umf}kPII)2gAKMpFGSTsFziY``u";
   "K{bM2)A3Zuzt)>U!u8jBjbfJTPD*xGZSA^mmCQIzK{}a8Y&iR5@x<Jw5x7NcGWBC_z;0Bs-W(d)gw>q";
   "V5`z+G)=C}1w?~t^ruDTZ=6eiWwigorBegLx*^X-y`k?^DuygpKI_i<>3UaYO6L}%_m^rk+>$3-5B(T";
   "Hp53k>nMHqLuY2+Zmk8+d@Jm0%kBv>)QH+`83ZTorO_10ipJ61+BB09^jr}UwDlFIOG$fN;moF5{e3M";
   "Gv$%^xH+xy?MLBNt*EPa@VtgYoHXke)}diQ=c{A<4(U=+rm9z|{)bP+ys@g6-wZZVTq2PwWQgJ7Qj96";
   "0)5zK!JEI<(VYmIC7qC^o>4U=;R2mvjL+KpC-kUINN^0mwRQQ-h+3hP25xd9{B@}r<U0WN}dKk2g)Nu";
   "0)w|DF7N}V&@GD@v_2Y;*nyiP1ckOQ7^@?e;6}(U`wUxZ^DkkXX%OZE&Qhc8wYFX$b+F>1{S;xE`s^P";
   "CAF*#j2~A1f+LI~zgH7Y0#I#KfHF1Htc|4Tvk=T!LHlcn|B42*2MOm)OJ=Ujw&)}i$BwiN6ioCmg;B=";
   "9k<!-=18x_Nx#RD%fO1oBJ>ow;6+l!R+XMtB>2z})<@D>B}I>y%p8~K+0Y~)$}pxT{}-|QeB0DBn3qo";
   "{A(Fms-s6Vpy^pT4S}<JF8)4@lm?;cB1EgKJVrodo=adf!qF3_JnNOPx@b&XSp2;P7#>*VG)$b|ED-q";
   "7z)8q@LxnEB-<re?b<bR<K4y=XS!tejP=aHBAitHR*c8=|7ta?HS)|-JVR}TEm*^iJ3q8&NJx{5WCMu";
   "SQD&T4?7IdSaj_`7kXAWx<m-Vo$F60d2suM+}Z?HyYpjZRH#s(Gh~-(3}d}NXU;)WSO~Qlvy`9bfG22";
   ">F2p>=&f-WQFe5iB3r(Vz&KGq1U(@-e=@m_HX?e1dr}gCe>3O|j^ZZ>2hkbYNO&TIeTT8mpAg-7=0n*";
   "_N8)%$8VAqLkRsm25W`6(8w8<ElShq`TQadurf9@!fn8wz2r=9T~4)*r0yZXWb%++fQ-zDVVvcGYu;j";
   "<)~^(@0k>X6Sw?FB@n(rtcR%qXv!S}vrMrfbXS{y(f{U$|I9_bO5N0=9_)G%@>+S(+C-C$z_}-MCi3u";
   "02dTy|>Ubc2w&}?nZ6!X)=xZg(DzQ=tlbmdt>3mGq;Pa6coIh&HIZI+e~;l|6;&9TOLLq^?2n<6vQsN";
   "qC0jIt$!V9;y-Zdg%M~jz36wE&%al+*))}J(k{77Lcco%f$|ggl1|cuE|aI7=I7~t>0a^+ErHqeNxg%";
   "$=o5N7wl=8Tx4O~lM)fD!d$p#&*n6UXv1=OO@SAU>LeX^;$DPD~Mal|Cs`GfiYtw9y;_~k-i$7?Elne"].

(** pip/_internal/req/req_tracker.py *)
Definition pip__internal_req_req_tracker : list string :=
  ["eq_B$q#N3{G4OnmiUP)h>@6aWAK2mlUeH&QODMI;mk002`G001BW003}la4%nJZggdGZeeUMa%FKZa%";
   "FK}baG*1Yh`jSaCxm)ZExE)5dQ98!8s@_7cM^(`&1yqy42{5c4?QU9||K7XzOfqkx7-L5_`k``|e0lF";
   "P5AZ+XMu$NZ#?e=U%ljde72yQ@YYXnliaBv~f(Vtj<dZX?P!vs`a&24h}AttGEKjC>>vR!tPpox!!K2";
   "+QwIHN23khSIB~=51=w_SWofG_92O@Mv0u4PUe<7*cWLgYpGj&e<Ka7oi@iO#Eu2Rh(f=8`S>Nh`gMN";
   "wF1`7DeZ9DTi{@<xmS2q+K3*$o09)T`#2Qv&eSeFqoinXl-pI9^u?6A~2yVtc6i#Y{G-ICtH%N5GJ}X";
   "=sH7dH`_c{YapG$QgwZ6yS=Z+irN`JUuoyhYjvIws?@U=vy_Mp(4<QOpQGJ1$_!M*ouNt!CL$4HotMx";
   "&n_ukh;UUMPXbMj32aS!4o31k^)X?WWas^8ERFC)5_~G>~}V8GOYO>&%qB_^Bpld94-P`7=%!gn^*6<";
   ")~AdNX-TNBp!f0h`dB61g>`w&kL2Ya2c)cxffAdrErkep}7dk+<R;F>JJQ+Wa^Jt)S0D~(o6Q&-wjIg";
   "-4c;j4q67e8N;Q!fOUhBOFYe(g2$kQNmb#nTw<Wwq_W-HW{%Cv>FrC>bcYy%Md7tR4Tm)pj=h89+!$@";
   "XL(PEk4UpCqbTpz5Om|=&CFEJKR$_eRt*r}o0~WmpOdGkS-RK=8q45o`1scAhKto#FhCXxjV0NC0*&!";
   ">tQuJT~4YTT*%`NmrgtdTaBdyOPwT7g7w-19UaX?1xkHxX4;)LX`{I~N8WmD6nYwEDxpmoV<E_D;BmE";
   "gBQAXsa(?j{u_douaB_?X_ze@}03USGYN-%LVMJW97~*J3_DNcYL1I=oF-wswbxF?5Spj?SPg?owG@i";
   "voBrVvHps>9N%*;>o>K+2sVye^HrTA&bwH7sBm2OZ_{Zs7xnzUlPt~_li&*c?PR;n~WDqIw^AbCuD3@";
   "$~<Ep7?pbA*fTqxd0VHWT8AgG?~cSDBNi*mx`g?3i(42Z>l`C-NKL3l7!0Ej;T!DV5<#YEVj<sDaN5a";
   "wQhUi+^)89<wDK1HJK4dDjr0}LV%SU@b=bz1{oc}KSeL~s1L%<sgGfN2uYoXa+Z0?Hj2be>+tTOf41h";
   "Ul`wjqg`~pry%5QZ*9X!z;l4k8%ojTvyYnZX`FR9}%e-ReuzM$jcU8l%Xbr_QCigd494c*h8PQv*i_B";
   "iKff?=J5P-T&{ok3A>OeyoK7^9(NNG%O0UM~h)y-Q;uQhyoeLvDBC<;x!vQo>7<r<5_ebm_*3Ex8iYd";
   "5yzQGM(}r95RVLHMZ@RZ?L2hBL0V#DrtN;tL|&z7g-i_1HKNy?gw(8obh=4I?Hh07#OLT(<jA&x8<7J";
   "P<0oY)$%yY1tf2AmZ8?UkvWjMM}xf(`y+Oly&&J>P>vko8LYRh_Rw6^ILT*g%-+gx@yb@Ay1-HPh`K~";
   "Z)vO+@2mxn{4U;(DQ-`%-$U@6k;E(&WGbVz~Eqw@0<aFXloxL!6YrtB}FpY=bYkgl9eu|-kMo0@;1HU";
   "&T`8ui#P)TEkub-Qu-?n|7SB?tRrr-pj6)@EdwfGP&M-?aC>VldX*$xq%P)B4MY0<cBa1X5?d*5UlX!";
   "@wQq4H0L@Qyyz2Hbxdu^%qOHxi#;f0$q2_K|z>25N68*&~D4y3nu*4yi4MS3vm41@0BjuM-|ZrQczr>";
   "t{7f-G=88wB3_bcXnb01L6^|Gc)7^d?qoAS&K1`aBw{IoM3?XnDFf};N%0r@6Srr?J@1kaOS|1b*DWa";
   "^g}^1W0S|pV5DGZ_`ITCNEy-U{2eHqDhBO0m^$rbf|UR(+B18S_!ueA%*2y(rmrD>{Q&<<HM;St&J-k";
   "{&Hu3^y@4E@|Eyx`s(<?oplaY3wZZf*wDRtb)YS^GK9`DACg+RMIsPk}o^nAj-#g*d*l)WbHn}H<iw@"].

(** pip/_internal/req/req_uninstall.py *)
Definition pip__internal_req_req_uninstall : list string :=
  ["y5?Nj9XsC7vP?#cIx-}|-&<7mO@Ok#$Hq9;BYqETMMzY48^&+*!jIu+t-^I<q>>_1RT0|XQR000O84r";
   "ez~uj(hL?->99+gtzuA^-pYaA|NaUukZ1WpZv|Y%g+UaW8UZabI<AX>N0LVQg$JaCyZ%Yjfi^lHdI+5";
   "KW~dP9!>ys=Ym5`7Wt>+)nLglA1|&F6D7?C=rqvQzS!BmUXl9-><vz20>d+Qg!-ZOCZo_H2RGO*Ilz?";
   "S+?Hy`;KQBD|c<v^(<eCrrP&BlfTc-RQpQY>aXj4z3Q8$61t&kHk-2E=%0;wAdc?WRa39a&Dq%+XKu?";
   "j&2D*JG@YKhz1d_P7tOv~ap86=>z;RYUZwnQ#oNAYYN5ycT$i=z^Qy|R`9;??U2I_0ta5MMvaGZAIH&";
   ")6!J~ureOZZg)$H25*W=#3dj0%|cW>uxm9Mru!%>;Uc+LQh0HE|_9G)VU23Xbwulo#I$A|1nvC{o#XA";
   "C|s^BexMtoWRM<>E$uDN502YDJ>#x!Wo-Btj*d_-2z;Wqp&u(zde6?@%}0F0ab}<xY=|*ZGbM^<&p}9";
   "41J{(eC-K&5F|O?{~$o`3e^M6SO}sI}S|L!4`Nw?}2t~9kPA@%a6Zg&;It}+26A_Kfiwc>h*sEr>-N-";
   "7lbWA^&v<?;^({iI5$6@Aula8W%2X8T=n+XD?rMBPA!1DZTSZf-2VE3I93xDKX1A7_@{lVp(SS)Sw}u";
   "nPcSt8&ta0TT<#J0*%@*b@7Sf5#dO2_e^A>j%W&JW44|JCe9bbk>dLmKRxv~7m@}toj-0UBmx-j@6C@";
   "kIU^90<7|?ehJfH*;w)jt4@D(&&(~!wz@~q=|&so3ape?HE$bQ=cH?2!vFr0%mYxxXVSg;j!F4*!&!#";
   "{$a03F2VfW#+-tYB-<6F6j30#Vq94~X}N4=Ig!!$F6EY~%9^+7Ud0rn!X1NpksmAS6TrwOah3N<gl?w";
   "90`*rV@OtQ!6p&cbrHFt&K=gaME9!vYx5V9+?vwfqg{QH?Y0C<`xHDX&~1cU!`*F+`*tUZ(HD#nVJ0y";
   "HU&+|r^#bSq`SN>*Ie|@P(VQPgPs3Ghzq&ev^^dics>~)4N5`kXvf2$n!)#V`P-h))^*6kTDY&$G@Tp";
   "4y#fVreNBvfUk3v9tucP-q03u=lSm~C6RUZj=G{ij+0&;t2ZyZ;5~yxa=g@@S6sE7>z~h(jub(A$B&Z";
   "F)8_EPQ@D7X!Th}A=>P^Icb%O?n!22Eaq-kChGwhlS9v@3y6$HlJ0l8!#{I`ngXNnMxRVEW6TrrC(6`";
   "vliHlhE&(EI?C#N3}jG6K;9XJN}+fIfltH!q(3@aFmAQ1;tq-!FiHu2#+UnFCOc>>C4F>ZDSSP1#F;%";
   "E6{H7%kO`c{pc4F9L=m;rWW?b%9?R?1YU1S-8;VEtOLnujNOW9k!Lop0FOQI;g|EGYT@({scH^3i;Hd";
   "3Thy5%~DXI1?YP17Z9=024p+l=SAM<XzoGXPbK2hB#}FeB<q?3V%zx|CRAbsQTtJI9CY>NwPll|p{A=";
   "kXgEl-z#W)PNq~LMD*)EIb|w>TRrWLd>hmD(DRf)cR~L(Kt_K=qfG)tLA*kDch*KY01l<!MHRF(^`XP";
   "sLC6^#VhS%-`@i%ciO0{P?<#3iuWIzWXcY;mqbH!4-vM#|nWA%Qw1e@PTGD|yGb8rzv-W}aR$l8+6HB";
   "$o1u~%z$o}Xj;IdUxx*A0CG-;meS{ti$9hFms)j2%8_70<z7H8mJ_Xrs|$3yuk3M6^Q=m94yWx0koJu";
   "ha~2O=oC=EJ~z6&4m*blC*Pn!;hC0uN{s8sQaqO#7&8F=Jjzl*xnQbuj?g45)#zdp&n{ylc$p;G1PE}";
   "UBN{0{`xztEJ?1}C9bCR#^VaiP+Epvyy@tfTvXJ~T6~dlMw8;OvZ9o-3*Pc1c#t9kR5Izu|6cyo&Q?y";
   "WsaOpCYUB*1O}7v*)f`kXFyWG`z@bpe@271kXzVUO0x?$AzOWjy1O<55a>-}#6MR|Vbiu*0)GO}ux*A";
   "(Be#<+hnnCA-qPp>w<O-xW+vUg-1vvAwnPx_ea`54-P3EjkB&*>DN!loy?$iP$n`&V4DR={0zPbS<E;";
   "Vyvr$Ct{pehFjHDC~$R|8LP^J)+3I!P>-6M#cm6<{EW`-H~$Be=YbblB58=7~UW+G6-`9x4_ZP{>n>0";
   "8Ym$WIv=^VQ6vTvN8(c02&TSTuD3(91es`cF8O`upCb$CmGwywmEQRg_iILTn9X~1wpQm@7!U?v1N@u";
   "i*5n+m`SUDzar9o#eNBsp3+-7B%KVa)UdhrFn}zFyt<Lp@E7OIlkQtE;CyCx6Z_9C;9}^kMQB-&;*lV";
   "e!CZvXgEOrkm<i`ulQ)Xs5{Ki!*!T|C0lqYQaF)=xAT9QtBWkD~R1k;GnFC0A`g4R-s~`A%r$T&;0P`";
   "M=5Q0Ew3^XL@D$PU=Bpp#Y&Y6CwH1N!F#=;^O?38Iwi*mi@9qOq}5z>tJ>1H^Z)HjLG7sw1~LC!oy4*";
   "Uh$!04Pb%fP2YA3V$E4n_(4mjxPA`QZGv`#!_q82X>8`YAPWrMY@;_&Z_?dhCi@_BA3c@Y`Wqg41mLY";
   "f#H=m6KmWF}1P<$PZvZU1K6#Gjc#9h(@H~6$kYS{y1$2On@HJ>L%Yv=L7i&Hw{P%+8B2pH@9!vMFsYu";
   "a`c4qt<_+uHrVv(R1THEdg=n6E9^XAEXoZ;#z%<~GIH5Z1>wtUSS`*idC?j<bd#V%;jc__v|ZU2y(rR";
   "FXy{vBXeTRQVni#Yssi6$SevFTL1ohh$SID|qKC>0A|-XE_WC){umcB@Yp6si!pfb?45KzzHx67f2M<";
   "s0`>y{4eeg*jIz|<b56d#(@IK36_#^>`fK5^iL>6VeZYJ7N`%pExP`0$;Q5sCTN>&)9*0Vm8B2wEmOO";
   "OQIZZI$n5Nq4_t++Tp-vCnkCFX?B+atu3_4)4D9?wf5z*?Vw^Y330giPDH!m}$V$)P1w)*x}L2(Vhy@";
   "v~q%bX1{Q46bAY(Td3Q7bayvzEFoM>w@fya<Ky>8NchhTtn63kIc9$H`|_VxRRgLY_sf3I$e&k#8%dg";
   "62vScGcho2a!?ZP5WuC}PFb5#!-NEI1NC}<iw4{@c#80|VLYoaU)ywCFuU2UQXq&K!5M}J?q}fXs4*(";
   "@5^~1KQl7APoRkXb1nFFtQhB88y8_cNxUD*ri^4D}fcRUY5z`!U%l^ea8Ymu_<Oa?eMmlkZpmCo(yXD";
   "L<w}^mYT2(o4;oCkJTV8}&kXf_*6;!mM2`IYnTt7fX5v*x3LqumesF)Fyb}6>-PiA94D?=Yp`$wB8QZ";
   "dRd)nNhU3YC5Vuf1Bwd}K0&uR#YmkG{|4rjW}a)A9;MH06NRl|JgY_768K2%;om4L%U>q!30t5kxD^1";
   "Q>}-`J5j=S?us=;)+u7-aOaNM6*U^C*}~59q3ykt+mXTQD#edQMruCFmiJVK`|Vl2}B4H!-0s@)wM;6";
   "4g;j?K&VNN!BQNvQf8$YZ6Hy9E|EJiPJvC7Y=p);%&+0+xf4;6C`qOR{U*0Y2~gSDFjHr@K=y4atP!H";
   "b^By!ln7k%p73Zs_Ey-9bIYgfZTmn4vLUe5UgZQyK1|huKP#|6OR7~0<OM*BX$>UJ=!&^G{9G$_3d{f";
   "rN<-|zEBpKtit6`LkNL`~fQ+@0TwZp0&q%t4o?K!ESKV`c~58An3p|>t&4}Cduroe>XmSD){WWG@aAr";
   "tG9rh)5kJ&-!Kn~J%#;vl~8Glf2lOs_2jqkuwHWcbbL?>QuMU%@zANA2bTDL8`3KD#tf{e2&>S^zQJW";
   "P~uxO)P;>H(smawZHRYgxMrPgzy?4Tst<y+VP)d>A~?3_^f3?_H$igI9DGbiY<GLRA|o!bB<B@5#lj5";
   ";t?c!qtqJ_h$>(a)iRUHm=^CkzIp)q<NEt&cJylB0sJuZ^l~+1uRRHzYe>n7g8C<jrzclTnK`v887-C";
   "&F`+He>ed>Szfr=5iQ^876F}5Wz|^q(wgEoaH4tSVb-Gb?WPRR&h7qZYk0+^E{vdbTx^(bcsaZr08O%";
   "OIr~%ig*hE3{Hv(3Zsoj<w60>nWxFMrQfjCOj2~jL7k^$C7rZZ#bvmnqxXV#?yuGpu99TbWmsMiCZc4";
   "YXF@Q%5iV;V;#dV^6mH3N)=SqEuZWw5VJDY&spH3y@~#^SDn7=jv?!T6obUc}raISQQSU-tlBt9e6Fa";
   "M6HVKq>G>8a-<;c&S2oR4hJVAXK;WXyizftfB}AA4;2kU<D1rxn0>m!t0bLLpzim@BEW3j}mW6n<*bh";
   "#<i{xpv8j_&8R&(1@?4VifJV=OX6-sx~h0y@7r1EE?5unUZ2&jylbjznXhghxAvdG{p69Q#}>{I{9yI";
   "1T{GeAuT$2~q?lHiO}>{vf&D%g?`!Gie=a6-_Ox{b5P|BAo!b+tu^FO<SxsB;<$g1pzTs_^uW;(mg`R";
   "af4<?C5szIP?7!f5c&}!ycJoJR#``Yg~=*KH>N>4Q6P-V5)Js=+vB%0Q9chNZTyHS#I>@%CZ%z+-HNj";
   "lI%4QMgi$Z<rx9htn)1&0@M9KQ=Suo7g|{4MyM5TEu(E9iNhoyPK5O%*B*Y@0bOm6#a%k-@V`!!Avx(";
   ")hZ5DFr50RV@G89yIL^Vw3TZdCr3BsqxYd-^ax@opSnXI%geU?*%`#drO8i9xPkh_1hP9k0D|(nyN@H";
   "X>AdGSD16_u}ntd#6B%1Tzh#kc#2=;@qw$wWVW6C)a^OSysd_lx<_Uz4>ECNCUq^d-1u|pL(SRC9Bps";
   "|aJoY&+=$AZRdJ#&4|UxTTplKuPFt6^|1vn}K{`iDKO8vdW9V{JS~Yq3QluNO>M(PM0loD)wF5b4z<=";
   "o4xmaPA6y^nESmKfLK@~9^a+wpb=EXum=TPPfl&3is29gWz*UsuNXAmhO5{a`=b?Bt~k-H-m;^4#ycf";
   "=hhS<^CFWRMlOpk@F+Lub?#xiCR4>FAawsXES_N)HZf-?Ds-XK+(RN?t6aOVZ!<Q{+_Tq0Jq5#h#PHN";
   "7b#uU7g1s{7!Mm)mKz&K{Z9>&${K;k;UL521VQYK)_|^tnEz*1RgUY4vHVt#BqeXDaAEpaXlE=Bj5=A";
   "B)NAFb*Diop8;&j`J}#!mGsFcS9%D>suArM!6-hQs3>XiDCRNXts6+XNYOdp_f1CE1G?QMsiir)<=wI";
   "oT>gwv9`&SCgB*H{Z)5->HFb$4!&U@7d|-H<z|@q|@Xf&Q;Z6?Y!v_~F7y^8Yx;OE2d%9Z303UZO2m3";
   "R5me<qXQ8`m^_)=JkIVA7&F}bUm(#br&)l{PgE(m%8vY6ZJm&DYFX`{MmDiy!Q!srHz@@B(*9n8VLV3";
   "WlJ{@TY1z}awOmmJfd-PHW&;$k`<BH`#9+A@1zA`Dfq*2LK`bbTcw!UW9$j5a(2yjKve&J=S+yjAHMT";
   "@I~%<XFknQmON~u)@mnL=qhxmbKY4J`Ey_#yu?4SYE;XgwcfxmSmw+=h#aMGXf3o;pxOS@ZD4=#gS_%";
   "*+t?Vf#-3++x-gb73CcP!{4w0gwYr?kXsemRjEvdd+Vu;sE_qr6(`7=1tokz<pCKPm}&<x2ol9r9-il";
   "9B?|FWbq}+h*vy$*crn0^Ov$hc!&7YdQ5q+rZ159`bx3o-BdkWbSF8*V#CcV&XoM5oc?0%Ri%^?&5nv";
   "QMJ`9B{sA+M9O#_N$lV8<(QcNcDxhYKX>yu=q2dLjoqjCX*B$cj68N*$LDlx=N&tZ)Qehkx0-w_k4@`";
   "~x)1)q#|N5U!;X7XSkxOkV>`y9oL4)_xT3^6zj6cC(}aae>2#=X2FAg;0Z9Gd9XI`A>^2OK1k((8Lbj";
   "V6N=r(E33rawvrz-GtuI{7aKaAwmZ{GHa*Bq1;HIQ^p;s5fd9@yKeM*Bjsx!1cCl_5xRs18H<J4m6*a";
   "fO4G#*Qlg!dLZgJ$UMfF=YT^g-31EsKOlq=G>xN3|4dIIz)WgzBnt`%Az>XE;1N>c@yTLIL`@O1J5HI";
   "-$tH+Qj|E_}Fux<+svJl>18h31sK<;Z8qEvCK{9(?H$ajauit@~>GNW5`y>1Ar;RA5v*Z1?DGbgOrXc";
   "BNt4cf~&k`mhd<RbjtU*NLUG5lEqI(xe!|QS(M+{l@wabz!y9vtmb6AvCDZIWdyQaom6D8UPKnTGbev";
   "ChHE~&a7afHZ`G}Xi0&49>qX`YR;Gy~@Q*xF3;M{}W>uGtV3C!#N^aydzcs6;<85TG1;4d&B07z_hH{";
   "YjgU<B=RjH~M-<51vlm6%3F-#*c*?kKT_{X-?wd-H5cE%oJGA*|eFy#SERi3(XI7r!Pn*7&ra+DTSX@";
   "PdH82C>4EhXT-gHn*w6!ACO%dsx`;+P*Y?wjiYjjshQb5fK!<suY+4V{kG++GOy@zfVtyFm!g?<nB7u";
   "Xy$#gIT`jO#-uIoHDpNHQ;B-zAkEtv}@RB@6m(b(_q6REhDjKkMRAikSrXl30{#T6<s?OGdMt9*9qI1";
   "0AOlOC}&$<z?eTNx6u&M=kSSxhC!;lhBG(#dIQ9UZUSI^8Y#|!who{Nkf<)7hMsnQsa0)mIA0T@*izs";
   "7rDioOG$M}qr|>PrqKUPgFI5s;p4b73wC&Y}ssk$}K-&Ge<n!KK5Y9@3xqL^8!EZz_%jm&3Xn68X`Yh";
   "L;#MJ?6m@;z4x0HAd`VApV5CeDy!yzqpWR<T>~fqF2R7pl<0HZ3#y8CK%MLKmddc%oYnQ=B@Zb3BZEi";
   "$=4!O#|60bAW6mfVgZ3Xh^98DA-FZln%78EN4CEQ4x@7Uv5k)pqq92@Z1g5bx<?rYKc=@)iyqI6LK^@";
   "ZhIi2^u7>qZv<G^v8K`(<->Xp`Qg(mzd6f4<VtULy4hl9)W*T&Q*RJLIB$0^S*7er<M>zVS-s+NUWV2";
   "2f6<*RkaTwmnbwYl{qQ3D9PEhg^tX1UQG4Vjli>cVh&$>@3dqo~o9=FBPCt#ByG<h#&Pxqfz5^|2xp7";
   "&f?J9#_9O++m@h8Hnty)0&-zA{}^siQGE(!vWeU5~DVlRAz%Ir{TJSco5gi(-^Fd>5GCP#-)oS8y!pA";
   "b{q%IA*FP=>N_T4OReaZfa|8DG$5kt9&mDi|90}!t4i7;x>0`JSD6$<tgS}_AR~6Vew`9m(^EaE!yMP";
   ">0b~ayA{FX&U=2E?H$HcL@H;A$fAQYP=D;zSJ&gi+oAA><&QqJ6N3}=nc`#%%{?$#Afu6$(*atDBRHA";
   "q`4l8JTzkktk8<kFU7(P++>GTzZ=-l<BZJJP<nzEC3praoXCb4IO>bIW4;(@uP=~&$VC%?9o{Vi8dM8";
   "q>?0CJUS3sb3nc>A+ypW#wJCzH;@x4brs7n@b2ODaJ=?n0k$?5#~iBTPv6+tVyrg|Ry4d^!=f|)_U`S";
   "DW{kF#PcoktWByGO1bWX%E9?~%(>1S^F0|0P=iP3}p6duKw!Ey6T`*hBb%=lE`1h6PY;!Jgp_?+eQ9M";
   "I-+Jl`se31cOw~ZLOzz&(o#;5+-2+k5l!M!JO=1-gF`>(rlNZW{{7J+vdC@MfCTLb?~|G4N~rB<ZV*!";
   "XWWgAzGce&#8~{kS5GBF2P^i5sXsIYd1cGIpANTMz1b@Z_gFXhZ^E)hFBs>B4OEPPccW*UuGzPj)1dF";
   "vPb2GFhe0n)Weq~kAyz2{Uv)8yy+TbYCt0nKgbUy7%fX_ZwtE-k^cz`>)8kKD2vs@+)vlE683KFYbzW";
   "E?Haxcpx<%?5ZFP!Q+88N8jFigUUwuaTcvYLD2m24XociSAL_8ZP<U5wswH-S|zX0%xZpJN-Jw$TXUd";
   "fSK$9+Xc!$nZ<m@g32=R9FQ)a)H_VRI0}GBlKgTks2ny71n2`ii~-0M9x^MfW>W^#T_x;%Yi9AduGx6";
   "}{v=MvgqP<mP3f4k%fV;~XWT0$u1pUl#1?G$55G3d9BHIQXw`(D*n_o)2AgC8&{-h8N_fU})61h0B1R";
   "jTrEkOL?qNLr14x=v64($%T{9D^6L^UEbZ4^+tg2asvdtSU1i4W!^c^@D&3d6bc|gS2Wh2!W_<~#u~?";
   ";Uq91zOO!%|z_6*OZV@BBHDHJ3%s}v(P2Rs3_!6A=Vw-n-lCpp1Rar28m+$bR=Y{OhnI7*atZ~r`AIq";
   "D)0Ov=#<j%fM|1JIN7vLDQ@};YQAD+b-GJ9{%P}XE{tHyR$9D4O-kkHT^P5;54#cFsyo4$XKN4e+IBr";
   "2kANt%%<r@HL4^S+T%8T0`)Ypa5MbLQ<7v`OHv>`N_aSMh+Bf|xmi$Cr@g9lhPeUWRh%=HEb~I(|D()";
   "QMB@#*-GxmU=4yjwYn=sEtsi!ge#$gNHVz$%Zm!Fvc*;co6dh`jZNxI!!ix-@UJ=5=MLc=0*y>dSoAb";
   "o!<EiR|?h%cfw>^Odr#Km)7`FqNTzCIJuH9#OUM~)ezR{fW4&0mkRlNoNTwN)A5OVBN4refvQTnyrjd";
   "pnjdh0i=xC`3laUgT6}eFqhB=%G_0C}&nEkRz4+@SJd-d3H5usp7i?s-XYZvv>Qi^cMZe=#ixMURCu0";
   "W|*eDNMT|6eG+TxlFmg*B-UJv;v76zPhM>WpBhY|h-jyrT<swB%v{&;LjiC1-IN`75d1#^XJ=`occQ!"].

(** The line in which the last one ends, up to a group of digits. *)
Definition after_req : list string :=
  ["VSJ6hs%N(EX)33B0T%#S)e2V`N>rvtvrKF$c-AE~YW%FnEOAb6-*Z8Dt+2Y;e;K-PW`J15ir?1QY-O0";
   "0;mMXE#y+00002000000000a0001RX>c!JX>N37a&BR4FLGsbZ)|mRX>V>XUtei%X>?y-E^v7R08mQ<"].

(** The first lines of the data. *)
Definition DATA_first : list string :=
  concat [pip___init__; pip___main__; pip__internal___init__; pip__internal_build_env;
    pip__internal_cache; pip__internal_configuration; pip__internal_exceptions;
    pip__internal_locations; pip__internal_main; pip__internal_pyproject;
    pip__internal_self_outdated_check; pip__internal_wheel_builder; pip__internal_cli___init__;
    pip__internal_cli_autocompletion; pip__internal_cli_base_command; pip__internal_cli_cmdoptions;
    pip__internal_cli_command_context; pip__internal_cli_main; pip__internal_cli_main_parser;
    pip__internal_cli_parser; pip__internal_cli_progress_bars; pip__internal_cli_req_command;
    pip__internal_cli_spinners; pip__internal_cli_status_codes; pip__internal_commands___init__;
    pip__internal_commands_cache; pip__internal_commands_check; pip__internal_commands_completion;
    pip__internal_commands_configuration; pip__internal_commands_debug;
    pip__internal_commands_download; pip__internal_commands_freeze; pip__internal_commands_hash;
    pip__internal_commands_help; pip__internal_commands_install; pip__internal_commands_list;
    pip__internal_commands_search; pip__internal_commands_show; pip__internal_commands_uninstall;
    pip__internal_commands_wheel; after_commands].

(** The lines of the package req. *)
Definition DATA_req : list string :=
  concat [before_req; pip__internal_req___init__; pip__internal_req_constructors;
    pip__internal_req_req_file; pip__internal_req_req_install; pip__internal_req_req_set;
    pip__internal_req_req_tracker; pip__internal_req_req_uninstall; after_req].

