(* ===== verification/PipZip.v ===== *)
(** scripts/get-pip.py: the archive with pip in the data of the script, as far as the script
    relies on it: the directory of the archive, which holds the name, the place and the size
    of every member, and the packages of the modules the bootstrap imports, whose members
    are unpacked.  The other members are not looked into. *)

From S2P Require Import Prelude PyStr PyDict PyPath Effect Os B85 Inflate PipMembers.

(** * The data *)

(** The lines from the one on in which the directory begins, up to the last. *)
Definition DATA_directory : list string :=
  ["=%dg_p^rizg+2;>H2P@t(deVmN28BMAB{d5eKh)L^wH>}(MO|?Mjwqn8hr?T2z>~B2z>~B2z>~B2z>~";
   "B2z>~B2z>~B2z>~B2z?Ct81ymdW6;N-k3k=UJ_daZ`WW;v=wr~wppQWxgFeRjbn1VvPxu2wRR8xjHox";
   "V<*N6YIN|tG++qb_>{{v7<0Rj{Q6aWAK2mlUeH&TV5jz=Q_0074U000jF0000000000005+c00000aA";
   "|NaUtei%X>?y-E^v8JO928D0~7!N00;mMXE#!42oF5i0RRAx0{{RI00000000000001_flvVe0B~t=F";
   "JE76VQFq(UoLQYP)h*<6ay3h000O84rez~VtUS3DFFZg?*RY+82|tP0000000000q=8if003}la4%nJ";
   "ZggdGZeeUMUtei%X>?y-E^v8JO928D0~7!N00;mMXE#zbQ3{T82><|@9{>Ov00000000000001_fwcq";
   "x0B~t=FJEbHbY*gGVQepAb!lv5UuAA~E^v8JO928D0~7!N00;mMXE#y>FjquA3;+PxF8}}*00000000";
   "000001_fnW{*0B~t=FJEbHbY*gGVQepBVPj}zE^v8JO928D0~7!N00;mMXE#!(J<XCn5C8yBHUIz~00";
   "000000000001_fzlcP0B~t=FJEbHbY*gGVQepBZ*FF3XLWL6bZKvHE^v8JO928D0~7!N00;mMXE#zF?";
   "19134*&qmG5`P@00000000000001_flMm^0B~t=FJEbHbY*gGVQepDcw=R7bZKvHb1rasP)h*<6ay3h";
   "000O84rez~uT9vb5()qSOBw(G8UO$Q0000000000q=8pE003}la4%nJZggdGZeeUMY;R*>bZKvHb1ra";
   "sP)h*<6ay3h000O84rez~a(m4*6#)PMwE+MC6#xJL0000000000q=BJD003}la4%nJZggdGZeeUMZDD";
   "C{E^v8JO928D0~7!N00;mMXE#!Lz*)Mu2><}-8~^|s00000000000001_f$2s70B~t=FJEbHbY*gGVQ";
   "epOd2n)XYGq?|E^v8JO928D0~7!N00;mMXE#!8b9sL>2><|D8UO$!00000000000001_f!R<10B~t=F";
   "JEbHbY*gGVQepRWo%|&Z*_EJVRU6=Ut?%xV{0yOc~DCM0u%!j0000801jt2QYR^T({u~~04Od103HAU";
   "00000000000HlFWS^xlWX>c!JX>N37a&BR4FL!8VWo%z!b!lv5WpXZXc~DCM0u%!j0000801jt2QqFh";
   "kG-v<-0E7Sl0384T00000000000HlHcW&i+iX>c!JX>N37a&BR4FJo+JFJE72ZfSI1UoLQYP)h*<6ay";
   "3h000O84rez~C7Ak#^9KL`lNkU2BLDyZ0000000000q=BMm003}la4%nJZggdGZeeUMV{B<JVRdwGV{";
   "dJ6Y-Mz5Z*DGdc~DCM0u%!j0000801jt2Qe#64ozDvZ0C^+;03iSX00000000000HlG|ZvX&rX>c!JX";
   ">N37a&BR4FJo+JFJfVHWnW`&ZEaz0WG--dP)h*<6ay3h000O84rez~#*@f1mL32A%5MMw9{>OV00000";
   "00000q=Dpn003}la4%nJZggdGZeeUMV{B<JV{K$_aCB*JZgVbhc~DCM0u%!j0000801jt2Qpb~1sCEG";
   "W0M7#e03-ka00000000000HlGpng9TBX>c!JX>N37a&BR4FJo+JFJo_QZDDR?Ut@1>bY*ySE^v8JO92";
   "8D0~7!N00;mMXE##PrU`h_1ONay3IG5Z00000000000001_fp44u0B~t=FJEbHbY*gGVQepBY-ulTVQ";
   "FqIaCuNm0Rj{Q6aWAK2mlUeH&W@@_AgWf000gP001BW0000000000005+cccB0PaA|NaUukZ1WpZv|Y";
   "%gPMX)kSIX>MO|VRCb2axQRrP)h*<6ay3h000O84rez~byzY|cMJdklqdiI8vp<R0000000000q=5;h";
   "003}la4%nJZggdGZeeUMV{B<JaA9(DWpXZXc~DCM0u%!j0000801jt2Qe-WqEHDcI0HGrQ03rYY0000";
   "0000000HlGrvH$>ZX>c!JX>N37a&BR4FJo+JFK}{iXL4n8b6;X%a&s<lc~DCM0u%!j0000801jt2Qp=";
   "y<-4qc307pOo03ZMW00000000000HlE_z5oDlX>c!JX>N37a&BR4FJo+JFLGsZUt@1=ZDDR?E^v8JO9";
   "28D0~7!N00;mMXE#zIhqgHH1^@ts6#xJo00000000000001_fqTyY0B~t=FJEbHbY*gGVQepBY-ulZa";
   "A|ICWpZ;aaCuNm0Rj{Q6aWAK2mlUeH&WZIclLb%005i-001EX0000000000005+crPcrdaA|NaUukZ1";
   "WpZv|Y%gPMX)kkhVRUtKUt@1%WpgfYc~DCM0u%!j0000801jt2QvE^;u!RKx00j^L03rYY000000000";
   "00HlFo*8l);X>c!JX>N37a&BR4FJo_QZDDR?b1z?CX>MtBUtcb8c~DCM0u%!j0000801jt2Qv5-y!Ho";
   "z20D~O>03QGV00000000000HlE?-2eb^X>c!JX>N37a&BR4FJo_QZDDR?b1!3IV`ybAaCuNm0Rj{Q6a";
   "WAK2mlUeH&STJu7Ono004~!0018V0000000000005+c@Z|siaA|NaUukZ1WpZv|Y%gPPZEaz0WOFZLX";
   "k}w-E^v8JO928D0~7!N00;mMXE#!Ea18$&1ONaD3;+Nm00000000000001_fr97&0B~t=FJEbHbY*gG";
   "VQepBZ*6U1Ze(*WV{dJ6Y-Mz5Z*DGdc~DCM0u%!j0000801jt2QcU<V9}fxu0B<A!04D$d000000000";
   "00HlH6>;M38X>c!JX>N37a&BR4FJo_QZDDR?b1!3WZf0p`b#h^JX>V>WaCuNm0Rj{Q6aWAK2mlUeH&R";
   "RPXCYGw005I50018V0000000000005+cGxq=haA|NaUukZ1WpZv|Y%gPPZEaz0WOFZMWny(_E^v8JO9";
   "28D0~7!N00;mMXE#!FxCk!G1pojy6951r00000000000001_fx`d+0B~t=FJEbHbY*gGVQepBZ*6U1Z";
   "e(*WWN&wFY;R#?E^v8JO928D0~7!N00;mMXE#zd_`Y7~1ONaZ4*&ol00000000000001_fzAd20B~t=";
   "FJEbHbY*gGVQepBZ*6U1Ze(*WW^!d^dSxzfc~DCM0u%!j0000801jt2QiXqClOqEF05b;w03HAU0000";
   "0000000HlHR3jqLdX>c!JX>N37a&BR4FJo_QZDDR?b1!INb7(Gbc~DCM0u%!j0000801jt2QVPl|=_&";
   "#M01gEJ03HAU00000000000HlFa4*>vhX>c!JX>N37a&BR4FJo_QZDDR?b1!IRY;Z1cc~DCM0u%!j00";
   "00801jt2QZ(q9%TyWw01|5e03iSX00000000000HlGr5di>jX>c!JX>N37a&BR4FJo_QZDDR?b1!Lbb";
   "97;BY%XwlP)h*<6ay3h000O84rez~(dX9-q6+{3|11Ci9smFU0000000000q=8H<0RV7ma4%nJZggdG";
   "ZeeUMV{dJ3VQyq|FKlUZbS`jtP)h*<6ay3h000O84rez~FQ`?B^9KL`krw~}AOHXW0000000000q=70";
   "p0RV7ma4%nJZggdGZeeUMV{dJ3VQyq|FLPyKa${&NaCuNm0Rj{Q6aWAK2mlUeH&RjU#yv*}002}Q001";
   "5U0000000000005+cTR;H-aA|NaUukZ1WpZv|Y%gPPZEaz0WOFZbXm58eaCuNm0Rj{Q6aWAK2mlUeH&";
   "Q<?!+&-J008d{001KZ0000000000005+c-beueaA|NaUukZ1WpZv|Y%gPPZEaz0WOFZdZfS0FbYX04E";
   "^v8JO928D0~7!N00;mMXE#zHg_`oo2LJ$)8UO$v00000000000001_ft5`G0B~t=FJEbHbY*gGVQepB";
   "Z*6U1Ze(*WcW7m0Y%XwlP)h*<6ay3h000O84rez~0Gbn)X8`~JzXJdOCjbBd0000000000q=B1N0RV7";
   "ma4%nJZggdGZeeUMWNCABa%p09bZKvHb1z?CX>MtBUtcb8c~DCM0u%!j0000801jt2QZ1i{M_K{^0Fn";
   "g&03!eZ00000000000HlFOR{;QUX>c!JX>N37a&BR4FJx(RbaH88b#!TOZgVeUVRL0JaCuNm0Rj{Q6a";
   "WAK2mlUeH&VI$&W>&Y008*{001Ze0000000000005+c;#mOzaA|NaUukZ1WpZv|Y%gSKb98cPVs&(BZ";
   "*FrhX>N0LVQg$=WG--dP)h*<6ay3h000O84rez~=0U0%B?SNg_YVL7Bme*a0000000000q=A-O0RV7m";
   "a4%nJZggdGZeeUMWNCABa%p09bZKvHb1!pbX>)WgaCuNm0Rj{Q6aWAK2mlUeH&S2581fVX000jK001N";
   "a0000000000005+c{a^tAaA|NaUukZ1WpZv|Y%gSKb98cPVs&(BZ*FrhcW7m0Y%XwlP)h*<6ay3h000";
   "O84rez~LqAK-AOHXW9smFU9{>OV0000000000q=8do0RV7ma4%nJZggdGZeeUMX>Md?crRaHX>MtBUt";
   "cb8c~DCM0u%!j0000801jt2QqeeB;dL4S05(<t03ZMW00000000000HlGiV*vngX>c!JX>N37a&BR4F";
   "KKRMWq2=RZ)|L3V{~tFE^v8JO928D0~7!N00;mMXE#!CvRy*+A^-qRk^lfD00000000000001_fn$CF";
   "0B~t=FJEbHbY*gGVQepHZe(S6FK}UFYhh<)UuJ1;WMy(LaCuNm0Rj{Q6aWAK2mlUeH&T1aDE>PD002J";
   "#001BW0000000000005+cnV|syaA|NaUukZ1WpZv|Y%gtZWMyn~FJE72ZfSI1UoLQYP)h*<6ay3h000";
   "O84rez~UByq4x&Z(HtONi6ApigX0000000000q=6Em0RV7ma4%nJZggdGZeeUMZEs{{Y;!MTVQyq;WM";
   "On=E^v8JO928D0~7!N00;mMXE#zS@!D-C2LJ%%8UO$y00000000000001_feWMo0B~t=FJEbHbY*gGV";
   "QepLZ)9a`b1!6Ra%E$5Uv+Y9E^v8JO928D0~7!N00;mMXE#zU3{zXO0{{RA3jhEn00000000000001_";
   "fpV(>0B~t=FJEbHbY*gGVQepLZ)9a`b1!CZa&2LBUt@1>baHQOE^v8JO928D0~7!N00;mMXE#z(u>=k";
   "80RRAr1ONaX00000000000001_foQJ*0B~t=FJEbHbY*gGVQepLZ)9a`b1!LbWMz0RaCuNm0Rj{Q6aW";
   "AK2mlUeH&U-5_PkXH001u?000~S0000000000005+clCc2*aA|NaUukZ1WpZv|Y%gtZWMyn~FKlUUYc";
   "6nkP)h*<6ay3h000O84rez~OXR53aRC4T3IhND9smFU0000000000q=6y20RV7ma4%nJZggdGZeeUMZ";
   "Es{{Y;!MjV`yb<WiD`eP)h*<6ay3h000O84rez~KuW3qk_G?(j}ia?Bme*a0000000000q=C-60RV7m";
   "a4%nJZggdGZeeUMZEs{{Y;!MjWnpq-XkT+<Z*XNUaCuNm0Rj{Q6aWAK2mlUeH&QyJ>eLSd008|5001W";
   "d0000000000005+cqQU_HaA|NaUukZ1WpZv|Y%gtZWMyn~FLPyVWn*+{Z*E_3a%E<7E^v8JO928D0~7";
   "!N00;mMXE##BYd%p31pol%4*&oq00000000000001_f%e4#0B~t=FJEbHbY*gGVQepLZ)9a`b1!sZa%";
   "W|9UvPPJXm4&VaCuNm0Rj{Q6aWAK2mlUeH&P{Y*`7HB007hq0012T0000000000005+cLCXOEaA|NaU";
   "ukZ1WpZv|Y%gtZWMyn~FL!8VWo#~Rc~DCM0u%!j0000801jt2QVt)1N-_Wd05Sjo03iSX0000000000";
   "0HlGn&jA2%X>c!JX>N37a&BR4FK%UYcW-iQFJE72ZfSI1UoLQYP)h*<6ay3h000O84rez~j6}mh#S8!";
   "dge?F79RL6T0000000000q=6>T0RV7ma4%nJZggdGZeeUMZe?_LZ*prdVRdw9E^v8JO928D0~7!N00;";
   "mMXE#!z@oI*10{{RS2><{d00000000000001_fhOGn0B~t=FJEbHbY*gGVQepMWpsCMa%(SRVPj}zE^";
   "v8JO928D0~7!N00;mMXE#zye2_IN2LJ#882|tw00000000000001_fz{vv0B~t=FJEbHbY*gGVQepMW";
   "psCMa%(SSZ+C8NZ((FEaCuNm0Rj{Q6aWAK2mlUeH&SQLjKm2F006lk001KZ0000000000005+cKIj1e";
   "aA|NaUukZ1WpZv|Y%gwQba!uZYcFhJdU;=WXk}$=E^v8JO928D0~7!N00;mMXE#!LI2ltz6aWBOJOBV";
   "700000000000001_fr#<}0B~t=FJEbHbY*gGVQepMWpsCMa%(ShWpi_BZ*DGdc~DCM0u%!j0000801j";
   "t2QcE4|&*lXH089`703HAU00000000000HlEl2Lb?aX>c!JX>N37a&BR4FK%UYcW-iQFLiWjY;!Jfc~";
   "DCM0u%!j0000801jt2QWRACarXiM09ywD03QGV00000000000HlE{4FUjgX>c!JX>N37a&BR4FK%UYc";
   "W-iQFL-Tia&TiVaCuNm0Rj{Q6aWAK2mlUeH&Orq0006200000001Na0000000000005+cUl0NSaA|Na";
   "UukZ1WpZv|Y%gzcWpZJ3X>V?GFJE72ZfSI1UoLQYP)h*<6ay3h000O84rez~s|D6RT?POEU=#oVApig";
   "X0000000000q=BOl0swGna4%nJZggdGZeeUMZ*XODVRUJ4ZgVeVXk}w-E^v8JO928D0~7!N00;mMXE#";
   "y=J=@%13jhGCC;$K=00000000000001_fj<`l0B~t=FJEbHbY*gGVQepNaAk5~bZKvHb1!CcWo3G0E^";
   "v8JO928D0~7!N00;mMXE#zNSDQaQ7ytmgR{#Jb00000000000001_f!`tm0B~t=FJEbHbY*gGVQepNa";
   "Ak5~bZKvHb1!gmWpH6~WiD`eP)h*<6ay3h000O84rez~000000ssI200000DgXcg0000000000q=8*K";
   "0swGna4%nJZggdGZeeUMZ*XODVRUJ4ZgVeUb!lv5FJE72ZfSI1UoLQYP)h*<6ay3h000O84rez~4wLl";
   "?FaiJo=L7%%DgXcg0000000000q=Bb90swGna4%nJZggdGZeeUMZ*XODVRUJ4ZgVeUb!lv5FKuOXVPs";
   ")+VJ>iaP)h*<6ay3h000O84rez~kKr12{sI61+XnyuF#rGn0000000000q=6qk0swGna4%nJZggdGZe";
   "eUMZ*XODVRUJ4ZgVeUb!lv5FKuOXVPs)+VP9-zXJKP`E^v8JO928D0~7!N00;mMXE##lw?m(10ssKI1";
   "poji00000000000001_fowqn0B~t=FJEbHbY*gGVQepNaAk5~bZKvHb1!0bX>4RKcW7m0Y%XwlP)h*<";
   "6ay3h000O84rez~3F*#6L<9f;6Ab_WE&u=k0000000000q=6Si0swGna4%nJZggdGZeeUMZ*XODVRUJ";
   "4ZgVeUb!lv5FL!8VWo%z;WoKbyc`k5yP)h*<6ay3h000O84rez~;oTH_H2?qrGXMYpEC2ui00000000";
   "00q=BbM0swGna4%nJZggdGZeeUMZ*XODVRUJ4ZgVebZgX^DY-}%IUukY>bYEXCaCuNm0Rj{Q6aWAK2m";
   "lUeH&R%exGFjV007Vh001)p0000000000005+cCP@MSaA|NaUukZ1WpZv|Y%gzcWpZJ3X>V?GFKKRbb";
   "YX04FJ)wDbYWs_WnXM%XJKP`E^v8JO928D0~7!N00;mMXE#zwqfJ$n1polK5C8xw00000000000001_";
   "fw4;h0B~t=FJEbHbY*gGVQepNaAk5~bZKvHb1!Lbb97;BY%gqOXJKP`E^v8JO928D0~7!N00;mMXE#y";
   "@BnjAPBme*pdH?_^00000000000001_fsRoE0B~t=FJEbHbY*gGVQepNaAk5~bZKvHb1!Lbb97;BY%h";
   "0cWo2wGaCuNm0Rj{Q6aWAK2mlUeH&XaLt@Q5$002D<0012T0000000000005+cJ$3>BaA|NaUukZ1Wp";
   "Zv|Y%g+UaW7wAX>MtBUtcb8c~DCM0u%!j0000801jt2Qjv(ARG|?700%z+03iSX00000000000HlFud";
   "IA7&X>c!JX>N37a&BR4FLGsZFJo_Rb98cbV{~tFb1rasP)h*<6ay3h000O84rez~_Rx&cdK3TvqDTM$";
   "9RL6T0000000000q=83_0swGna4%nJZggdGZeeUMa%FKZa%FK}W@&6?E^v8JO928D0~7!N00;mMXE#z";
   "-d+(PzA^-r4f&c&@00000000000001_f&8EX0B~t=FJEbHbY*gGVQepQWpOWZWpQ6=ZgX^DY-}!Yc~D";
   "CM0u%!j0000801jt2QaAmd2F?fo0M8x(02}}S00000000000HlF*!vX+sX>c!JX>N37a&BR4FLGsZFL";
   "GsZUvp)2E^v8JO928D0~7!N00;mMXE#zVszoFe1^@t45&!@o00000000000001_fqcvY0B~t=FJEbHb";
   "Y*gGVQepQWpOWZWpQ70a$#d@WpXZXc~DCM0u%!j0000801jt2Qm^VKsP7p70NY#u03rYY0000000000";
   "0HlG=(gFZ*X>c!JX>N37a&BR4FLGsZFLGsZUv+M2ZgX^DY-}!Yc~DCM0u%!j0000801jt2QUCw|00IC";
   "20000003-ka00000000000HlHa>;eFAX>c!JX>N37a&BR4FLGsbZ)|mRX>V>XUtei%X>?y-E^v8JO92";
   "8D0~7!N00;mMXE#!?RYHv?0RRB20ssIY00000000000001_fkEv80B~t=FJEbHbY*gGVQepQWpi(Ab#";
   "!TOZZBeCb7d}Yc~DCM0u%!j0000801jt2QUCw|00IC20000004o3h00000000000HlGY?g9XCX>c!JX";
   ">N37a&BR4FLGsbZ)|mRX>V>XY-ML*V|g!MUukY>bYEXCaCuNm0Rj{Q6aWAK2mlUeH&UykRd$UO0025i";
   "001ih0000000000005+c@$LcuaA|NaUukZ1WpZv|Y%g+Ub8l>QbZKvHFKlIJVPknOa%FRGY<6XGE^v8";
   "JO928D0~7!N00;mMXE#y+00002000000000l00000000000001_fyV;_0B~t=FJEbHbY*gGVQepQWpi";
   "(Ab#!TOZZC3Wb8l>RWo&6;FJE72ZfSI1UoLQYP)h*<6ay3h000O84rez~msZ5{xC8(I#S;JkD*ylh00";
   "00000000q=6O$0|0Poa4%nJZggdGZeeUMa%FRGY;|;LZ*DJgWpi(Ac4cg7VlQH0b7d}Yc~DCM0u%!j0";
   "000801jt2QXzA%h1?JT07Fgy05Jdn00000000000HlEz2?GFdX>c!JX>N37a&BR4FLGsbZ)|mRX>V>X";
   "a%FRGY<6XAX<{#9VQyq;WMOn=b1rasP)h*<6ay3h000O84rez~oDzp!h7$k)0!jb?E&u=k000000000";
   "0q=7;j0|0Poa4%nJZggdGZeeUMa%FRGY;|;LZ*DJgWpi(Ac4cg7VlQT4V{~tFc`k5yP)h*<6ay3h000";
   "O84rez~;zM&cJ_P^(y$%2XHvj+t0000000000q=6JJ0|0Poa4%nJZggdGZeeUMa%FRGY;|;LZ*DJgWp";
   "i(Ac4cg7VlQTIb#7!|V_|M&X=Gt^WpgfYc~DCM0u%!j0000801jt2Qtv<1Y6A)Y0IM7T051Rl000000";
   "00000HlGZGXnr{X>c!JX>N37a&BR4FLGsbZ)|mRX>V>Xa%FRGY<6XAX<{#Ma&LBNWMy(LaCuNm0Rj{Q";
   "6aWAK2mlUeH&U6g5&e4u001cq001ul0000000000005+c_dNpuaA|NaUukZ1WpZv|Y%g+Ub8l>QbZKv";
   "HFLGsbZ)|pDY-wUIa%FIDa&%>KE^v8JO928D0~7!N00;mMXE#y^$m3%H1pok17XSb=0000000000000";
   "1_fxkfm0B~t=FJEbHbY*gGVQepQWpi(Ab#!TOZZC3Wb8l>RWo&6;FLGsZb!l>CZDnqBb1rasP)h*<6a";
   "y3h000O84rez~D`NAmy$t{WaxDM=F8}}l0000000000q=6Af0|0Poa4%nJZggdGZeeUMa%FRGY;|;LZ";
   "*DJgWpi(Ac4cg7VlQ%Kb8l>RWpXZXc~DCM0u%!j0000801jt2QUCw|00IC20000003QGV0000000000";
   "0HlE%RRaKUX>c!JX>N37a&BR4FLiWjY;!MPUukY>bYEXCaCuNm0Rj{Q6aWAK2mlUeH&VG`gs*V|002b";
   "=0015U0000000000005+cT2%u8aA|NaUukZ1WpZv|Y%g_mX>4;ZVQ_F{X>xNeaCuNm0Rj{Q6aWAK2ml";
   "UeH&VRA<~$S*000ps0012T0000000000005+c2Ur6DaA|NaUukZ1WpZv|Y%g_mX>4;ZV{dJ6VRSBVc~";
   "DCM0u%!j0000801jt2Qol?IK+OgK06G=`04V?f00000000000HlFdW&;3lX>c!JX>N37a&BR4FLiWjY";
   ";!MTZ*6d4bZKH~Y-x0PUvyz-b1rasP)h*<6ay3h000O84rez~s4$j)v;Y7ACjkHe9{>OV0000000000";
   "q=9N}0|0Poa4%nJZggdGZeeUMb#!TLb1!6JbY*mDZDlTSc~DCM0u%!j0000801jt2Qi)w8=QafZ0QL+";
   "303rYY00000000000HlFiZUX>tX>c!JX>N37a&BR4FLiWjY;!MUWpHw3V_|e@Z*DGdc~DCM0u%!j000";
   "0801jt2QrWV>KU4((05T8&04V?f00000000000HlG@a{~ZyX>c!JX>N37a&BR4FLiWjY;!MUX>w&_bY";
   "FFHY+q<)Y;a|Ab1rasP)h*<6ay3h000O84rez~gzWMdJ^}y$Mg;%>B>(^b0000000000q=9UC0|0Poa";
   "4%nJZggdGZeeUMb#!TLb1!6Rb98ldX>4;}VRC14E^v8JO928D0~7!N00;mMXE##3(r;%+0ssI61poja";
   "00000000000001_f$e((0B~t=FJEbHbY*gGVQepTbZKmJFJ*3HZ)9n1XD)DgP)h*<6ay3h000O84rez";
   "~IAzW@YXSfOfCK;lA^-pY0000000000q=9jM0|0Poa4%nJZggdGZeeUMb#!TLb1!9XbaHucZ)t9Hb1r";
   "asP)h*<6ay3h000O84rez~HhT4W`UwC49~%GwApigX0000000000q=6iP0|0Poa4%nJZggdGZeeUMb#";
   "!TLb1!CTY-MwKb97~GE^v8JO928D0~7!N00;mMXE##(x~qzS0RR9`0{{RZ00000000000001_fmMqG0";
   "B~t=FJEbHbY*gGVQepTbZKmJFJ@_MWpsIPWpgfYc~DCM0u%!j0000801jt2Qlo#G%5nt&0O1S(02}}S";
   "00000000000HlEvjROF1X>c!JX>N37a&BR4FLiWjY;!MXY-wU+E^v8JO928D0~7!N00;mMXE##a@#qL";
   "62LJ%E6aWAn00000000000001_fxnUi0B~t=FJEbHbY*gGVQepTbZKmJFKA(NXk~LQaCuNm0Rj{Q6aW";
   "AK2mlUeH&TzjdNZj3001fj001oj0000000000005+c9hw6GaA|NaUukZ1WpZv|Y%g_mX>4;ZX>Mv|V{";
   "~70Wn*=6Wpr|3ZgX&Na&#_mc~DCM0u%!j0000801jt2QeZ0^b7v0#03|a303HAU00000000000HlEto";
   "C5%GX>c!JX>N37a&BR4FLiWjY;!McZ)ay|Zf7oVc~DCM0u%!j0000801jt2Qtdc<M3y1|0FP||02=@R";
   "00000000000HlGms{;UVX>c!JX>N37a&BR4FLiWjY;!MdX>(&PaCuNm0Rj{Q6aWAK2mlUeH&W-EFfED";
   "!006NB0012T0000000000005+cgU$m0aA|NaUukZ1WpZv|Y%g_mX>4;ZZEs{{Y;!Jfc~DCM0u%!j000";
   "0801jt2QZ!uEA5a7U0Ne`z03ZMW00000000000HlFP&;tN)X>c!JX>N37a&BR4FLiWjY;!MgVPk7yXK";
   "8L{E^v8JO928D0~7!N00;mMXE#!9$_d-j1ONa`4FCWi00000000000001_f!5Rm0B~t=FJEbHbY*gGV";
   "QepTbZKmJFK}UUVQg$=Y%XwlP)h*<6ay3h000O84rez~9S6%m;Q;^u<^%u$Bme*a0000000000q=Dtx";
   "0|0Poa4%nJZggdGZeeUMb#!TLb1!gfXJ2w<b8mHWV`XzLaCuNm0Rj{Q6aWAK2mlUeH&RO?EA}-7006=";
   "h001Wd0000000000005+c2;2hzaA|NaUukZ1WpZv|Y%g_mX>4;Zb7gdOaCC2PY;#{?b!lv5E^v8JO92";
   "8D0~7!N00;mMXE#!1oA&p24FCXgDgXc>00000000000001_fr8-!0B~t=FJEbHbY*gGVQepTbZKmJFL";
   "QNbaB^>BWpi^baCuNm0Rj{Q6aWAK2mlUeH&W^J*u6Om005050018V0000000000005+cIPU`haA|NaU";
   "ukZ1WpZv|Y%g_mX>4;ZbY*RDUu0==E^v8JO928D0~7!N00;mMXE#zu%B76V0ssJc1pojY0000000000";
   "0001_fv)-k0B~t=FJEbHbY*gGVQepTbZKmJFLZfuX>MmOaCuNm0Rj{Q6aWAK2mlUeH&VfYvdxPM000m";
   "r001BW0000000000005+cwfzGCaA|NaUukZ1WpZv|Y%g_mX>4;Zb#8EBV{2({XD)DgP)h*<6ay3h000";
   "O84rez~#*`TZvH}1A_XPj|8vp<R0000000000q=9}21ORYpa4%nJZggdGZeeUMb#!TLb1!vrY;!Jfc~";
   "DCM0u%!j0000801jt2QkR*|C3Xb>0D2Ap03iSX00000000000HlFw3j_dgX>c!JX>N37a&BR4FLiWjY";
   ";!MmX>xRRVQgh?b}n#vP)h*<6ay3h000O84rez~2-ge*B?$lkha3O^8~^|S0000000000q=6n01ORYp";
   "a4%nJZggdGZeeUMb#!TLb1!#jWo2wGaCuNm0Rj{Q6aWAK2mlUeH&S2j!BI^C003zM0012T000000000";
   "0005+ceHsJ+aA|NaUukZ1WpZv|Y%g|Wb1z?CX>MtBUtcb8c~DCM0u%!j0000801jt2QrzN6rC|jC0I&";
   "}L02=@R00000000000HlEh90UMxX>c!JX>N37a&BR4FLq;dFJfVOVPSGEaCuNm0Rj{Q6aWAK2mlUeH&";
   "QRe`kFx!008ei000;O0000000000005+cpCJSQaA|NaUukZ1WpZv|Y%g|Wb1!FUbS`jtP)h*<6ay3h0";
   "00O84rez~yRbJTf(8HpycGZd9smFU0000000000q=6PR1ORYpa4%nJZggdGZeeUMc4KodZDn#}b#iH8";
   "Y%XwlP)h*<6ay3h000O84rez~X?3OOG!Fm(4lw`#9{>OV0000000000q=D2r1ORYpa4%nJZggdGZeeU";
   "Mc4Kodb9G{NWpZ<AZ*DGdc~DCM0u%!j0000801jt2Qll4h-eMR40M}dq03!eZ00000000000HlFMN(2";
   "CKX>c!JX>N37a&BR4FLq;dFLq^eb7^mGV{dMBa&K%daCuNm0Rj{Q6aWAK2mlUeH&RJA`g}YF006WS00";
   "0*N0000000000005+c=wbu_aA|NaUv_0~WN&gWUtei%X>?y-E^v8JO928D0~7!N00;mMXE##1UmwR}6";
   "aWA-WdHyc00000000000001_fmvw;0B~t=FJE?LZe(wAFJW+SWNC79E^v8JO928D0~7!N00;mMXE##v";
   "_P~6v6951cLI40700000000000001_f$x0;0B~t=FJE?LZe(wAFJo_RbY*ySY-wULE^v8JO928D0~7!";
   "N00;mMXE#!G9*ho&CjbC!ssI2L00000000000001_f!2`(0B~t=FJE?LZe(wAFJx(RbaHPlaCuNm0Rj";
   "{Q6aWAK2mlUeH&R|L5@CWn0009x0RR{P0000000000005+clDPx`aA|NaUv_0~WN&gWX>eg=WO8M5b1";
   "rasP)h*<6ay3h000O84rez~1`i|L^ZNh*@+$-Y7ytkO0000000000q=8EH1ORYpa4%nWWo~3|axZXsa";
   "A9(DX>MmOaCuNm0Rj{Q6aWAK2mlUeH&P*cyb8|=008tR000*N0000000000005+cbMXZLaA|NaUv_0~";
   "WN&gWa%FUKd1-EEE^v8JO928D0~7!N00;mMXE#!EfhZcPAOHYwg#Z8&00000000000001_fp_}_0B~t";
   "=FJE?LZe(wAFLP;lE^v8JO928D0~7!N00;mMXE#!Rer%%>0RRBC0RR9N00000000000001_fl(X=0B~";
   "t=FJE?LZe(wAFLq^aWN&gVba-@7O928D0~7!N00;mMXE#z>_@eQw0000k0RR9b00000000000001_ft";
   "MWy0B~t=FJE?LZe(wAFJob2Xk}w>Zgg^QY%gD5X>MtBUtcb8c~DCM0u%!j0000801jt2Qc9b7rvd^10";
   "1pKK03ZMW00000000000HlG19tHq#X>c!Jc4cm4Z*nhVVPj}zV{dMBa&K%eUt?`#E^v8JO928D0~7!N";
   "00;mMXE#zuX&48Q1pojN6951s00000000000001_fyE#O0B~t=FJE?LZe(wAFJob2Xk}w>Zgg^QY%gJ";
   "CVQ_S1axQRrP)h*<6ay3h000O84rez~#$vopG64VpB?ABeApigX0000000000q=A<v1^{qra4%nWWo~";
   "3|axY_HV`yb#Z*FvQZ)`7PVPj}zE^v8JO928D0~7!N00;mMXE#!XmShtW0RRBE0ssIa000000000000";
   "01_fe0uD0B~t=FJE?LZe(wAFJob2Xk}w>Zgg^QY%gPPZE#_9E^v8JO928D0~7!N00;mMXE#!o{%>s%5";
   "C8y0Hvj-800000000000001_fm$gB0B~t=FJE?LZe(wAFJob2Xk}w>Zgg^QY%gPPZgg^QY;0w6E^v8J";
   "O928D0~7!N00;mMXE##w(f%6x0{{T!2><{m00000000000001_fv!0Q0B~t=FJE?LZe(wAFJob2Xk}w";
   ">Zgg^QY%gYMY-M+HVQ_F|axQRrP)h*<6ay3h000O84rez~lqGFmuLS@A<_`b>CIA2c0000000000q=D";
   "@{1^{qra4%nWWo~3|axY_HV`yb#Z*FvQZ)`7UWp#3Cb98BAb1rasP)h*<6ay3h000O84rez~x5&L(7z";
   "qFXvl{>aB>(^b0000000000q=Dc=1^{qra4%nWWo~3|axY_HV`yb#Z*FvQZ)`7fWpZg@Y-xIBE^v8JO";
   "928D0~7!N00;mMXE#!(J-O2E000280ssIb00000000000001_fjdnG0B~t=FJE?LZe(wAFJob2Xk}w>";
   "Zgg^QY%h0mVQ_F|axQRrP)h*<6ay3h000O84rez~8NawNHvj+tRsaA1D*ylh0000000000q=9Nq1^{q";
   "ra4%nWWo~3|axY_HV`yb#Z*FvQZ)`7PVPj}zb1z?CX>MtBUtcb8c~DCM0u%!j0000801jt2QvA*@$q5";
   "Dk067o<04)Fj00000000000HlHHP6hyQX>c!Jc4cm4Z*nhVVPj}zV{dMBa&K%eV_{=xWpgiPX>4U*V_";
   "{=xWiD`eP)h*<6ay3h000O84rez~sK-IyX8`~JSOWk6E&u=k0000000000q=7zF1^{qra4%nWWo~3|a";
   "xY_HV`yb#Z*FvQZ)`7PVPj}zb1!mbWNC9>V_{=xWiD`eP)h*<6ay3h000O84rez~2s3VmKmY&$J^%m!";
   "9{>OV0000000000q=E5P1^{qra4%nWWo~3|axY_La&&2CX)j-2X>MtBUtcb8c~DCM0u%!j0000801jt";
   "2QZFE_;hq2h0RI3003QGV00000000000HlF#R|WuZX>c!Jc4cm4Z*nhVWpZ?BW@#^9Uu|J&ZeL$6aCu";
   "Nm0Rj{Q6aWAK2mlUeH&P?gS87#E0ssh11OOfY0000000000005+cNmvE|aA|NaUv_0~WN&gWV`Xx5X=";
   "Z6JV_{=ua&#_mWo=MP0Rj{Q6aWAK2mlUeH&XebIvU;s000XK000{R0000000000005+c+N1~oaA|NaU";
   "v_0~WN&gWV`Xx5X=Z6JV{dY0E^v8JO928D0~7!N00;mMXE##t&ks}N0ssIP1^@sb00000000000001_";
   "f$^va0B~t=FJE?LZe(wAFJow7a%5$6FJE72ZfSI1UoLQYP)h*<6ay3h000O84rez~IlqJu?>PVf7J2{";
   "x9{>OV0000000000q=6Ew2mo+ta4%nWWo~3|axY_OVRB?;bT49QXEkPWWpOTWc~DCM0u%!j0000801j";
   "t2Qp@LOW;_D`0Nn-v03iSX00000000000HlFF<_G|AX>c!Jc4cm4Z*nhVXkl_>WppoMX=gQXa&KZ~ax";
   "QRrP)h*<6ay3h000O84rez~;8`d=JqZ8+!z2IzCjbBd0000000000q=C8V2mo+ta4%nWWo~3|axY_OV";
   "RB?;bT4CQVRB??b98cPVs&(BZ*DGdc~DCM0u%!j0000801jt2Qi)k4h;jq~0Lu;l04V?f0000000000";
   "0HlFC^9TTNX>c!Jc4cm4Z*nhVXkl_>WppoNXkl`5Wprn9Z*_2Ra&KZ~axQRrP)h*<6ay3h000O84rez";
   "~;Fn=qzXt#S_7eaABme*a0000000000q=EGJ2mo+ta4%nWWo~3|axY_OVRB?;bT4CQVRCb2bZ~NSVr6";
   "nJaCuNm0Rj{Q6aWAK2mlUeH&R^tH%O!f000IK001cf0000000000005+c_5TO}aA|NaUv_0~WN&gWV`";
   "yP=WMy<OV{c?>ZfA3JVRU6}VPj}%Ze=cTc~DCM0u%!j0000801jt2QhbKxWk~`60B!^T0384T000000";
   "00000HlH71qlFfX>c!Jc4cm4Z*nhVXkl_>WppoNZ*6d4bS`jtP)h*<6ay3h000O84rez~y+WEXXafKM";
   "KL-E+A^-pY0000000000q=94z2>@_ua4%nWWo~3|axY_OVRB?;bT4CYIW#$Na&KZ~axQRrP)h*<6ay3";
   "h000O84rez~L<FqKzybgOeFgvk8~^|S0000000000q=5_!2>@_ua4%nWWo~3|axY_OVRB?;bT4IYb!~";
   "GlaCuNm0Rj{Q6aWAK2mlUeH&O(M1wAzd003?e001BW0000000000005+c1`i1UaA|NaUv_0~WN&gWV`";
   "yP=WMy<OWpiV2a&KZ~axQRrP)h*<6ay3h000O84rez~!3toa6b1kQ4k-Wt8~^|S0000000000q=9)92";
   ">@_ua4%nWWo~3|axY_OVRB?;bT4IdV{>gTaCuNm0Rj{Q6aWAK2mlUeH&P%s#Ly}Q005;9001HY00000";
   "00000005+c#~KL$aA|NaUv_0~WN&gWV`yP=WMy<OWp!g}aBy;OVr6nJaCuNm0Rj{Q6aWAK2mlUeH&XO";
   "L19@Q>008PV001BW0000000000005+cF(3&5aA|NaUv_0~WN&gWV`yP=WMy<OWp!g~a%OU6aV~IqP)h";
   "*<6ay3h000O84rez~CIy%HI0FCx)CK?mA^-pY0000000000q=C>l2>@_ua4%nWWo~3|axY_OVRB?;bT";
   "4IfV{3A7a&KZ~axQRrP)h*<6ay3h000O84rez~%-c!TGdchOg?j)1AOHXW0000000000q=8602>@_ua";
   "4%nWWo~3|axY_OVRB?;bT4IfV{~_Ba%FKYaCuNm0Rj{Q6aWAK2mlUeH&UQMjTkrs007el001HY00000";
   "00000005+cxpoNvaA|NaUv_0~WN&gWV`yP=WMy<OWp!h8cW`oVVr6nJaCuNm0Rj{Q6aWAK2mlUeH&Pi";
   "z($`}r008Sy001EX0000000000005+cF?tCAaA|NaUv_0~WN&gWV`yP=WMy<OXJRrlF*0UyWpOTWc~D";
   "CM0u%!j0000801jt2Qhuxck2V7U0NMrs03!eZ00000000000HlG_p$PzRX>c!Jc4cm4Z*nhVXkl_>Wp";
   "poRVlp!^GH`NlVr6nJaCuNm0Rj{Q6aWAK2mlUeH&P8L)3TWo000g)001KZ0000000000005+cN~H+^a";
   "A|NaUv_0~WN&gWV`yP=WMy<OXk}t@Wp{9LZ(?O~E^v8JO928D0~7!N00;mMXE##98aZJVFaQ9tWB>pj";
   "00000000000001_fh4#I0B~t=FJE?LZe(wAFJow7a%5$6FKTIXW^!e5E^v8JO928D0~7!N00;mMXE#y";
   "?c_nI26953aOaK5K00000000000001_fpzE!0B~t=FJE?LZe(wAFJow7a%5$6FKTdOZghAqaCuNm0Rj";
   "{Q6aWAK2mlUeH&XCu$;u!L001X4001cf0000000000005+c{`(04aA|NaUv_0~WN&gWV`yP=WMy<OY+";
   "-I^Vs&h1VRC6<Zf$R5Wo#~Rc~DCM0u%!j0000801jt2QpoXEn*s~~031dD04M+e00000000000HlFs2";
   "MPdiX>c!Jc4cm4Z*nhVXkl_>WppoWVQyz*d2(rNY-wX{Z)9a`E^v8JO928D0~7!N00;mMXE##*yRRu~";
   "2><|)F#rH100000000000001_fvpn?0B~t=FJE?LZe(wAFJow7a%5$6FKl6MXJ>L{WovD3WMynFaCuN";
   "m0Rj{Q6aWAK2mlUeH&Tygtr)!t002=e001Tc0000000000005+cS{(`iaA|NaUv_0~WN&gWV`yP=WMy";
   "<OY+-I^Xk}t@Wp{0FWMynFaCuNm0Rj{Q6aWAK2mlUeH&VmFRe;qB001yC001cf0000000000005+cTP";
   "F$taA|NaUv_0~WN&gWV`yP=WMy<OY+-I^XmxI9VRC6<Zf$R5Wo#~Rc~DCM0u%!j0000801jt2QX&u1K";
   "k^Cy02(X+03-ka00000000000HlF;G7122X>c!Jc4cm4Z*nhVXkl_>WppoWVQy!1Xklq>Z)9a`E^v8J";
   "O928D0~7!N00;mMXE#!{GQ(uZ3IG6JD*yl|00000000000001_fvY_V0B~t=FJE?LZe(wAFJow7a%5$";
   "6FKl6MXLNOPYiV<6ZEs{{Y%XwlP)h*<6ay3h000O84rez~<m~XImj(a;`V;^FBLDyZ0000000000q=C";
   "3d3IK3va4%nWWo~3|axY_OVRB?;bT4dSbZKreaB^>AWpXZXc~DCM0u%!j0000801jt2QZ{uMP2B_l09";
   "6eD044wc00000000000HlGCPYM8VX>c!Jc4cm4Z*nhVXkl_>WppoXVq<7wa&u*LaB^>AWpXZXc~DCM0";
   "u%!j0000801jt2QmxYwsB!}U0Ne)v044wc00000000000HlGjR0;raX>c!Jc4cm4Z*nhVXkl_>WppoX";
   "Vq<e>a&L8TaB^>AWpXZXc~DCM0u%!j0000801jt2Qfc<#59JI10EuG&0384T00000000000HlFuSPB4";
   "eX>c!Jc4cm4Z*nhVXkl_>WppoXVq<f2Z7y(mP)h*<6ay3h000O84rez~9(C^?p9cT{85RHlCIA2c000";
   "0000000q=AQJ3IK3va4%nWWo~3|axY_OVRB?;bT4yaV`yP=b7gdJa&KZ~axQRrP)h*<6ay3h000O84r";
   "ez~ivCZag#-Wq+6@2zCIA2c0000000000q=9N}3IK3va4%nWWo~3|axY_OVRB?;bT4yaV{>P6Z*_2Ra";
   "&KZ~axQRrP)h*<6ay3h000O84rez~){$p2AO!#bz77BYApigX0000000000q=7SX3IK3va4%nWWo~3|";
   "axY_OVRB?;bT4yiX>)LLZ(?O~E^v8JO928D0~7!N00;mMXE#!HfJZ%W4FCYeFaQ8300000000000001";
   "_fs%I$0B~t=FJE?LZe(wAFJow7a%5$6FLiEdc4cyNVQge&bY)|7Z*nehc~DCM0u%!j0000801jt2QuV";
   "*QJw*fn0L}^k03iSX00000000000HlFPg$e+0X>c!Jc4cm4Z*nhVXkl_>WppofbY?hka&KZ~axQRrP)";
   "h*<6ay3h000O84rez~N5_!Yxc~qF@&Et;9smFU0000000000q=C$d3IK3va4%nWWo~3|axY_OVRB?;b";
   "T4*ga&u{KZZ2?nP)h*<6ay3h000O84rez~lLpr^0{{R30RR91BLDyZ0000000000q=CVT3IK3va4%nW";
   "Wo~3|axY_OVRB?;bT4CUX)j-2X>MtBUtcb8c~DCM0u%!j0000801jt2QuijbpP&Q)0M-fs03`qb0000";
   "0000000HlEhiwXd6X>c!Jc4cm4Z*nhVXkl_>WppoNY-ulJXkl_>Wprg@bS`jtP)h*<6ay3h000O84re";
   "z~hKOs`vj6}9?*IS*AOHXW0000000000q=D#<3IK3va4%nWWo~3|axY_VY;SU5ZDB88UukY>bYEXCaC";
   "uNm0Rj{Q6aWAK2mlUeH&RmBt%iyN007zv000~S0000000000005+c*^mkVaA|NaUv_0~WN&gWV{dG4a";
   "$#*@FJW$TX)bViP)h*<6ay3h000O84rez~%fu1WaSH$d6)6A!BLDyZ0000000000q=B833IK3va4%nW";
   "Wo~3|axY_VY;SU5ZDB8AZgXjLZ+B^KGcqo4c~DCM0u%!j0000801jt2QX6kYa)SZ@0DA`j03rYY0000";
   "0000000HlFWpb7wRX>c!Jc4cm4Z*nhVZ)|UJVQpbAX>MtBX<=+>b7d}Yc~DCM0u%!j0000801jt2QV1";
   "Ii5l{sH02~zn0384T00000000000HlEuqY40UX>c!Jc4cm4Z*nhVZ)|UJVQpbAcWG`jGA?j=P)h*<6a";
   "y3h000O84rez~qA1qp?gan<CK&(#9{>OV0000000000q=B8N3IK3va4%nWWo~3|axY_VY;SU5ZDB8WX";
   ">N37a&0bfc~DCM0u%!j0000801jt2QhKgaH(db$07U`-03QGV00000000000HlG)t_lEfX>c!Jc4cm4";
   "Z*nhWX>)XJX<{#5UukY>bYEXCaCuNm0Rj{Q6aWAK2mlUeH&T>|r7Jco006+D0012T0000000000005+";
   "cVz3GTaA|NaUv_0~WN&gWWNCABY-wUIV{dJ6VRSBVc~DCM0u%!j0000801jt2Qiecd{P-^b0CUFx03Q";
   "GV00000000000HlG_+X?`1X>c!Jc4cm4Z*nhWX>)XJX<{#AVRT_)VRL0JaCuNm0Rj{Q6aWAK2mlUeH&";
   "UOcF3d9(002r-000~S0000000000005+c2n-7VaA|NaUv_0~WN&gWWNCABY-wUIX>Md?crI{xP)h*<6";
   "ay3h000O84rez~RZ%J}b29({gv$T`9{>OV0000000000q=9uI3jlCwa4%nWWo~3|axY|Qb98KJVlQlO";
   "V_|e}a&s<lc~DCM0u%!j0000801jt2Qh25{XKWAv0NXhL03QGV00000000000HlE>RSN)cX>c!Jc4cm";
   "4Z*nhWX>)XJX<{#JVQy(=Wpi{caCuNm0Rj{Q6aWAK2mlUeH&V8@h-L!@001Kq0015U0000000000005";
   "+c&SeV#aA|NaUv_0~WN&gWWNCABY-wUIZDDe2WpZ;aaCuNm0Rj{Q6aWAK2mlUeH&Q_wVBe)A001(W00";
   "18V0000000000005+c4QvYlaA|NaUv_0~WN&gWWNCABY-wUIZDn*}WMOn+E^v8JO928D0~7!N00;mMX";
   "E#!g-GmaT3jhEPDgXc=00000000000001_f$xwD0B~t=FJE?LZe(wAFJx(RbZlv2FLGsbZ*_8GWpgfY";
   "c~DCM0u%!j0000801jt2QvDpYIGYpz031UA03HAU00000000000HlG{oC^SOX>c!Jc4cm4Z*nhWX>)X";
   "JX<{#PV{&P5baO6nc~DCM0u%!j0000801jt2Qm}y50++b}004Rc02=@R00000000000HlGeu?qljX>c";
   "!Jc4cm4Z*nhWX>)XJX<{#QGcqn^cx6ya0Rj{Q6aWAK2mlUeH&S^abMBJK0001<0RS5S000000000000";
   "5+cd}|B<aA|NaUv_0~WN&gWWNCABY-wUIbT%|DWq4&!O928D0~7!N00;mMXE#z(1;r?5KL7y5=>Py50";
   "0000000000001_fk!nB0B~t=FJE?LZe(wAFJx(RbZlv2FLiWjY%XwlP)h*<6ay3h000O84rez~_Gl<9";
   "P8k3IUt0hG9smFU0000000000q=Dyj4FGUya4%nWWo~3|axY|Qb98KJVlQ@Oa&u{KZZ2?nP)h*<6ay3";
   "h000O84rez~92gG9H?RNz0AK+C8vp<R0000000000q=9jc4FGUya4%nWWo~3|axY|Qb98KJVlQ_yGA?";
   "C!Wl&220u%!j0000801jt2Qu`XR{Aa)b004#o02=@R00000000000HlH8J`MnIX>c!Jc4cm4Z*nhWX>";
   ")XJX<{#THZ(3}cx6ya0Rj{Q6aWAK2mlUeH&Wyix*TXH006k4000~S0000000000005+cf&UHwaA|NaU";
   "v_0~WN&gWWNCABY-wUIcW7m0Y%XwlP)h*<6ay3h000O84rez~BkyPY!vFvP5&-}JDF6Tf0000000000";
   "q=6$R4*+m!a4%nWWo~3|axY|Qb98KJVlQ7}VPk7>Z*p`mUtei%X>?y-E^v8JO928D0~7!N00;mMXE#!";
   ">iZ5l(0RRBY0{{Re00000000000001_fh{Nx0B~t=FJE?LZe(wAFJx(RbZlv2FJEF|V{344a&#|kX>(";
   "&PaCuNm0Rj{Q6aWAK2mlUeH&Vtq2Gda-003)b001Wd0000000000005+cJ}M6YaA|NaUv_0~WN&gWWN";
   "CABY-wUIUt(cnYjAIJbT4ygb#!TLE^v8JO928D0~7!N00;mMXE#!B767gG0RR9w3IG5r00000000000";
   "001_fz(D10B~t=FJE?LZe(wAFJx(RbZlv2FJEF|V{344a&#|qd2?fLZf0p`E@NhAP)h*<6ay3h000O8";
   "4rez~{(0-8sU83T=4b!_DgXcg0000000000q=6Gj4*+m!a4%nWWo~3|axY|Qb98KJVlQ7}VPk7>Z*p`";
   "mb9r-PZ*FF3XD)DgP)h*<6ay3h000O84rez~L_!}!Vp#wH)M)_#C;$Ke0000000000q=5uz4*+m!a4%";
   "nWWo~3|axY|Qb98KJVlQ7}VPk7>Z*p`mbYXI4X>4UKaCuNm0Rj{Q6aWAK2mlUeH&Th0Z>U59004*t00";
   "1BW0000000000005+cticZeaA|NaUv_0~WN&gWXmo9CHEd~OFJE72ZfSI1UoLQYP)h*<6ay3h000O84";
   "rez~%BL;iEffF%SU~^)ApigX0000000000q=7EP4*+m!a4%nWWo~3|axZ9fZEQ7cX<{#5X=q_|Wq56D";
   "E^v8JO928D0~7!N00;mMXE#!cHW57z9{>PhegFU@00000000000001_ftuJ40B~t=FJE?LZe(wAFKBd";
   "aY&C3YVlQ85Zg6#Ub98cLVQnsOc~DCM0u%!j0000801jt2QZ)|XZBHEl0PrjU03rYY00000000000Hl";
   "HH_YVMYX>c!Jc4cm4Z*nhabZu-kY-wUIUvzJ4Wo~JDWpXZXc~DCM0u%!j0000801jt2QjXJ!N!<nj07";
   "DZ103HAU00000000000HlF=6%YV$X>c!Jc4cm4Z*nhabZu-kY-wUIUv+e8Y;!Jfc~DCM0u%!j000080";
   "1jt2Qd=?uCO}9400>3_03iSX00000000000HlGE91s9-X>c!Jc4cm4Z*nhabZu-kY-wUIV{dMAbYX6E";
   "b1rasP)h*<6ay3h000O84rez~v8%nG-$Vca!pQ*uBLDyZ0000000000q=6A-5CCv#a4%nWWo~3|axZ9";
   "fZEQ7cX<{#EbZu-kaA9(DWpXZXc~DCM0u%!j0000801jt2QiyZe;kpn20FONY03rYY00000000000Hl";
   "F2st^EhX>c!Jc4cm4Z*nhabZu-kY-wUIb7gXAVQgu7WpXZXc~DCM0u%!j0000801jt2QqtvJR9XN40B";
   "ryO044wc00000000000HlE{yAS|yX>c!Jc4cm4Z*nhabZu-kY-wUIUvzS5WiMY}X>MtBUtcb8c~DCM0";
   "u%!j0000801jt2QW+ZOfu;cf0QCa^03!eZ00000000000HlG*yAS|yX>c!Jc4cm4Z*nhabZu-kY-wUI";
   "UvzS5WiMZ1VRL0JaCuNm0Rj{Q6aWAK2mlUeH&RPaZq6M7008d>001BW0000000000005+cu)PofaA|N";
   "aUv_0~WN&gWXmo9CHEd~OFJE+WX=N{Pc`k5yP)h*<6ay3h000O84rez~000000ssI200000C;$Ke000";
   "0000000q=5^-5CCv#a4%nWWo~3|axZ9fZEQ7cX<{#CX>4?5a&s?VUukY>bYEXCaCuNm0Rj{Q6aWAK2m";
   "lUeH&TGG1Q5aj005T*001@s0000000000005+cQ@{`aaA|NaUv_0~WN&gWXmo9CHEd~OFJ@_MbY*gLF";
   "JWwOXklVybZKK@Y+-bCa%p09bY*icaCuNm0Rj{Q6aWAK2mlUeH&P;i`^1$10015V001Na0000000000";
   "005+cX~GZyaA|NaUv_0~WN&gWXmo9CHEd~OFJ@_MbY*gLFJfVHWiD`eP)h*<6ay3h000O84rez~^T0n";
   "B76SkPfeQctGXMYp0000000000q=7)g5CCv#a4%nWWo~3|axZ9fZEQ7cX<{#CX>4?5a&s?fZfa#?bYE";
   ">{bYWj(Xkl`5WpplZc~DCM0u%!j0000801jt2Qj*bRplkyG06Pu<03-ka00000000000HlGZ#t;B-X>";
   "c!Jc4cm4Z*nhabZu-kY-wUIW@&76WpZ;bY-w(EE^v8JO928D0~7!N00;mMXE#z8b($*W1^@tDDF6U00";
   "0000000000001_fmO;70B~t=FJE?LZe(wAFKBdaY&C3YVlQTCY;<LEb1!djbZKvHVQh3^XLBxac~DCM";
   "0u%!j0000801jt2Qc=EPO$itP01;^b04V?f00000000000HlG0(GUP|X>c!Jc4cm4Z*nhabZu-kY-wU";
   "IW@&76WpZ;bb75|2bZL5JaxQRrP)h*<6ay3h000O84rez~U~>Nt^#K3?z61aODgXcg0000000000q=D";
   "4w5CCv#a4%nWWo~3|axZ9fZEQ7cX<{#CX>4?5a&s?tXlZn1b8ul}WiD`eP)h*<6ay3h000O84rez~o;";
   "h(^X8`~Jrvd-~EdT%j0000000000q=6Ca5CCv#a4%nWWo~3|axZ9fZEQ7cX<{#Qa%E*<WMOc0WpZ;bU";
   "tei%X>?y-E^v8JO928D0~7!N00;mMXE#z(j1ehR0ssKB1^@sn00000000000001_fy3<(0B~t=FJE?L";
   "Ze(wAFKBdaY&C3YVlQ-ZWo2PxVQ_S1a&s?dWo~n5X)bViP)h*<6ay3h000O84rez~fN80hL;?T+@CE<";
   "?C;$Ke0000000000q=8`Y5CCv#a4%nWWo~3|axZ9fZEQ7cX<{#Qa%E*<WMOc0WpZ;bb76QcaCuNm0Rj";
   "{Q6aWAK2mlUeH&SKWYfMuG000OM001oj0000000000005+c>hcf(aA|NaUv_0~WN&gWXmo9CHEd~OFL";
   "ZKcWny({Y-D9}b1z?CX>MtBUtcb8c~DCM0u%!j0000801jt2Qa(Ot{PGR}0OdFU04V?f00000000000";
   "HlG4_z(baX>c!Jc4cm4Z*nhabZu-kY-wUIbaG{7Vs&Y3WMy)5FJfVHWiD`eP)h*<6ay3h000O84rez~";
   "Pz0y3{|5j7-68-0C;$Ke0000000000q=CT)5dd&$a4%nWWo~3|axZ9fZEQ7cX<{#Qa%E*=b!lv5WpZ;";
   "bWN&RQaCuNm0Rj{Q6aWAK2mlUeH&RWl(1%hA001O1001fg0000000000005+c1`rVdaA|NaUv_0~WN&";
   "gWXmo9CHEd~OFLZKcWny({Y-D9}b1!9da%E*MaCuNm0Rj{Q6aWAK2mlUeH&U?~w}2TA006Ez001ul00";
   "00000000005+cpc)YXaA|NaUv_0~WN&gWXmo9CHEd~OFLZKcWny({Y-D9}b1!9da%E*-Y<O*KE^v8JO";
   "928D0~7!N00;mMXE##Yc4~#51^@t8761S&00000000000001_fd(lN0B~t=FJE?LZe(wAFKBdaY&C3Y";
   "VlQ-ZWo36^Y-?q5b1z?CX>MtBUtcb8c~DCM0u%!j0000801jt2QXwtcLKg=B05lx{04M+e000000000";
   "00HlHLFA)H6X>c!Jc4cm4Z*nhabZu-kY-wUIbaG{7cVTR6WpZ;bVqtS-E^v8JO928D0~7!N00;mMXE#";
   "!1if^g+0RRAn1poji00000000000001_flD_L0B~t=FJE?LZe(wAFKBdaY&C3YVlQ-ZWo36^Y-?q5b1";
   "!6XZ7y(mP)h*<6ay3h000O84rez~*3ZX7>jVG*#}NPkDF6Tf0000000000q=APy5dd&$a4%nWWo~3|a";
   "xZ9fZEQ7cX<{#Qa%E+AVQgz<a&s?bbaG{7E^v8JO928D0~7!N00;mMXE#zX14MLr1^@un7ytk+00000";
   "000000001_fw?{r0B~t=FJE?LZe(wAFKBdaY&C3YVlQ-ZWo36^Y-?q5b1!9da%E*-Y<O*KE^v8JO928";
   "D0~7!N00;mMXE#z4Uu_V`0ssI72><{p00000000000001_fqq310B~t=FJE?LZe(wAFKBdaY&C3YVlQ";
   "-ZWo36^Y-?q5b1!FQZgXg9E^v8JO928D0~7!N00;mMXE#y+M_ijT0000w0000S00000000000001_fs";
   "RNK0B~t=FJE?LZe(wAFKJ|MVJ}}_X>MtBUtcb8c~DCM0u%!j0000801jt2Qu9dE=^6t70OJe*02u%P0";
   "0000000000HlHYND%;VX>c!Jc4cm4Z*nhbWNu+EV{c?-V=i!cP)h*<6ay3h000O84rez~e1Vp5j{pDw";
   "=l}o!8UO$Q0000000000q=8IK5dd&$a4%nWWo~3|axZCQZecHDZ*6d4bS`jtP)h*<6ay3h000O84rez";
   "~9Gf&OEDHbtuPy)p7ytkO0000000000q=6Gn5dd&$a4%nWWo~3|axZCQZecHDZ*pZWaCuNm0Rj{Q6aW";
   "AK2mlUeH&WNEN;GdH003^K000~S0000000000005+cbyyJqaA|NaUv_0~WN&gWX=H9;FKJ|MVPs)+VJ";
   ">iaP)h*<6ay3h000O84rez~w`26O<^li!)dm0n9RL6T0000000000q=6oM5dd&$a4%nWWo~3|axZCQZ";
   "ecHJZgg^CZf9k4E^v8JO928D0~7!N00;mMXE#zE)NA(`0000M0000W00000000000001_fj@r{0B~t=";
   "FJE?LZe(wAFKJ|MVJ~oDV{2h&WnW}rbYU)Vc~DCM0u%!j0000801jt2Qa&?DR_T@i0Av*d0384T0000";
   "0000000HlGHe-Qw1X>c!Jc4cm4Z*nhbWNu+Eb#!wyHe_LRVJ>iaP)h*<6ay3h000O84rez~jVD)F-~j";
   "*tUIYLD9{>OV0000000000q=C5>5&&>%a4%nWWo~3|axZOjXK-O-YcF44X>MtBUtcb8c~DCM0u%!j00";
   "00801jt2QeP}9#1sGk02BZK03QGV00000000000HlG|7!m+*X>c!Jc4cm4Z*nhfb7yd2V{0#8c4cyNX";
   ">V>WaCuNm0Rj{Q6aWAK2mlUeH&Q!0oztxW0021z001EX0000000000005+cCm9j|aA|NaUv_0~WN&gW";
   "ZF6UEVPk7AWq4y{aCB*JZgVbhc~DCM0u%!j0000801jt2Qf{7W5A+5A0FoB~02%-Q00000000000HlE";
   "v8xjC;X>c!Jc4cm4Z*nhfb7yd2V{0#Ecyumsc~DCM0u%!j0000801jt2QcuxS4dxsG01c4<03QGV000";
   "00000000HlFGA`$>_X>c!Jc4cm4Z*nhfb7yd2V{0#FVQg$-VPk79aCuNm0Rj{Q6aWAK2mlUeH&WCfhB";
   "Ar)007nk001HY0000000000005+cVm}f9aA|NaUv_0~WN&gWaA9L>VP|P>XD?r0VPbD}bYEXCaCuNm0";
   "Rj{Q6aWAK2mlUeH&SIA5kwRL001%q001EX0000000000005+cEI|?gaA|NaUv_0~WN&gWaA9L>VP|P>";
   "XD?r0X>MtBUtcb8c~DCM0u%!j0000801jt2QW{DFdO`vK0B8gN03ZMW00000000000HlF`LJ|OQX>c!";
   "Jc4cm4Z*nhiVPk7yXK8L{FJEJCZE#_9E^v8JO928D0~7!N00;mMXE##nUHsRc0RRBz2LJ#h00000000";
   "000001_f&WAj0B~t=FJE?LZe(wAFK}UFYhh<;Zf7rFb98cbV{~<LWpgfYc~DCM0u%!j0000801jt2QX";
   "qkG2xkKT03Zhd03ZMW00000000000HlH6MiKyUX>c!Jc4cm4Z*nhiVPk7yXK8L{FJE+daA|I5E^v8JO";
   "928D0~7!N00;mMXE#!4MAZm>3jhEUB>(^*00000000000001_frLsD0B~t=FJE?LZe(wAFK}UFYhh<;";
   "Zf7rTVRCC_a&s<lc~DCM0u%!j0000801jt2Qco6YGIIw200k5P03`qb00000000000HlFHRuTYkX>c!";
   "Jc4cm4Z*nhiVPk7yXK8L{FLGsZb!l>CZDnqBb1rasP)h*<6ay3h000O84rez~V>>}gWE%hg(0u>^BLD";
   "yZ0000000000q=EKb5&&>%a4%nWWo~3|axZXUV{2h&X>MmPb8uy2X=Z6<a&s<lc~DCM0u%!j0000801";
   "jt2QdDX^FlitF019yc0384T00000000000HlGNc@h9{X>c!Jc4cm4Z*nhiVPk7yXK8L{FLYsNb1rasP";
   ")h*<6ay3h000O84rez~HcnId6$1bOdj|jj9smFU0000000000q=7%05&&>%a4%nWWo~3|axZXUV{2h&";
   "X>MmPb#!TLb1rasP)h*<6ay3h000O84rez~IZ_JKY7hVbW<CG_AOHXW0000000000q=Ar~5&&>%a4%n";
   "WWo~3|axZXUV{2h&X>MmPc4cyNX>V>WaCuNm0Rj{Q6aWAK2mlUeH&VBWHLZ34004mi0015U00000000";
   "00005+cIIa=^aA|NaUv_0~WN&gWaAj~cF*h$?UukY>bYEXCaCuNm0Rj{Q6aWAK2mlUeH&Pzth#3S500";
   "8zN001EX0000000000005+c>aG$1aA|NaUv_0~WN&gWaAj~cF*h$?X>MO|a&Kd0b8{|mc~DCM0u%!j0";
   "000801jt2QXq3Ozv~1500#{K02=@R00000000000HlE}xe@?yX>c!Jc4cm4Z*nhiWpFhyH!os!X>4RJ";
   "aCuNm0Rj{Q6aWAK2mlUeH&S-7_fd%j002oB000{R0000000000005+cQN9uYaA|NaUv_0~WN&gWaAj~";
   "cF*h$`Xk}w-E^v8JO928D0~7!N00;mMXE#y}u~yKE1^@s85C8xk00000000000001_ffK|M0B~t=FJE";
   "?LZe(wAFK}gWH8D3YV{dG4a%^vBE^v8JO928D0~7!N00;mMXE##H7hMc30RR9D0{{RV000000000000";
   "01_f!WFu0B~t=FJE?LZe(wAFK}gWH8D3YV{dJ6VRSBVc~DCM0u%!j0000801jt2QajJMM$Z8N0BHmO0";
   "3HAU00000000000HlFH%n|@_X>c!Jc4cm4Z*nhiWpFhyH!oyqa&&KRY;!Jfc~DCM0u%!j0000801jt2";
   "Ql<(;Xb=bh0GSs603HAU00000000000HlFS&JqA{X>c!Jc4cm4Z*nhiWpFhyH!o#wc4BpDY-BEQc~DC";
   "M0u%!j0000801jt2QkT2w-q8a90G|l}02%-Q00000000000HlGJ))D}4X>c!Jc4cm4Z*nhiWpFhyH!p";
   "2vbYU)Vc~DCM0u%!j0000801jt2Ql_SJ0+0*<02(X+03HAU00000000000HlGS+7bY8X>c!Jc4cm4Z*";
   "nhiWpFhyH!pW`VQ_F|a&s<lc~DCM0u%!j0000801jt2Qa$5y0mO3v0QIH;03`qb00000000000HlFz=";
   "Mn&LX>c!Jc4cm4Z*nhiYiD0_Wpi(Ja${w4FJE72ZfSI1UoLQYP)h*<6ay3h000O84rez~VI%|AO921?";
   "G6DbqCjbBd0000000000q=9o=698~&a4%nWWo~3|axZXeXJ2w<b8mHWV`XzMaCtK^V{dJ6VRSBVc~DC";
   "M0u%!j0000801jt2QbK7HOKb)J0QnLC03ZMW00000000000HlEfT@wIsX>c!Jc4cm4Z*nhia&KpHWpi";
   "^cUtei%X>?y-E^v8JO928D0~7!N00;mMXE#!p%(b|t1ONag3jhEc00000000000001_fvsZ`0B~t=FJ";
   "E?LZe(wAFK}{iXL4n8b1!0HaxQRrP)h*<6ay3h000O84rez~c;LB#@d5w<Tm=9C9{>OV0000000000q";
   "=AfR698~&a4%nWWo~3|axZXlZ)b94b8|0aZ*^{TWpXZXc~DCM0u%!j0000801jt2QZL}$x(WjT0AvLK";
   "03QGV00000000000HlGsYZCx)X>c!Jc4cm4Z*nhia&KpHWpi^cb8u;HZe?;VaCuNm0Rj{Q6aWAK2mlU";
   "eH&P24^JL-%0040j001BW0000000000005+c0dErkaA|NaUv_0~WN&gWa%FLKWpi|MFJE72ZfSI1UoL";
   "QYP)h*<6ay3h000O84rez~XU82k1_1y7xd8wGBLDyZ0000000000q=6xJ698~&a4%nWWo~3|axZdaad";
   "l;LbaO9XUv_13b7^mGUtcb8c~DCM0u%!j0000801jt2Qi!QJyA%Qd07wJ?04D$d00000000000HlFvc";
   "M||`X>c!Jc4cm4Z*nhkWpQ<7b98erUukZ1WpZv|Y+rSBX>4;YaCuNm0Rj{Q6aWAK2mlUeH&UEAE<}tJ";
   "001mh001BW0000000000005+c!Fdw^aA|NaUv_0~WN&gWa%FLKWpi|MFJWY1aCBvIb1rasP)h*<6ay3";
   "h000O84rez~wi2;va0UPXU>N`a8vp<R0000000000q=Ac$698~&a4%nWWo~3|axZdaadl;LbaO9ZaA_";
   "`Zc~DCM0u%!j0000801jt2QoFQ?D{~6~0N*D702}}S00000000000HlF5l@kDPX>c!Jc4cm4Z*nhkWp";
   "Q<7b98erVRdw9E^v8JO928D0~7!N00;mMXE#!UvZBu}0RRBe0RR9U00000000000001_f#IMN0B~t=F";
   "JE?LZe(wAFLGsZb!BsOb1!3Ma&&VpaCuNm0Rj{Q6aWAK2mlUeH&U-=f^_5p008|50015U0000000000";
   "005+cN}>}0aA|NaUv_0~WN&gWa%FLKWpi|MFJo_QaA9;VaCuNm0Rj{Q6aWAK2mlUeH&VSP7dpTb0090";
   "+0018V0000000000005+cYNZnZaA|NaUv_0~WN&gWa%FLKWpi|MFJo_SYiVV3E^v8JO928D0~7!N00;";
   "mMXE#!ZU)3=;1ONbK3;+Nk00000000000001_foHiB0B~t=FJE?LZe(wAFLGsZb!BsOb1!9hV`Xr3X>";
   "V?GE^v8JO928D0~7!N00;mMXE#!<JxA|K1ONc~4FCWf00000000000001_f!@6n0B~t=FJE?LZe(wAF";
   "LGsZb!BsOb1!IRY;Z1cc~DCM0u%!j0000801jt2QX5Kh;duc70QCX@0384T00000000000HlFp!V>^+";
   "X>c!Jc4cm4Z*nhkWpQ<7b98erXm4+8b1rasP)h*<6ay3h000O84rez~-MIw5VI}|oMTP(X9smFU0000";
   "000000q=6R1698~&a4%nWWo~3|axZdaadl;LbaO9lZ)9a`b1rasP)h*<6ay3h000O84rez~5<K34YXJ";
   "ZNw*mkFAOHXW0000000000q=B>Q698~&a4%nWWo~3|axZdaadl;LbaO9oVPk7yXJvCPaCuNm0Rj{Q6a";
   "WAK2mlUeH&VB@y5=$=006gj001BW0000000000005+cT<jA7aA|NaUv_0~WN&gWa%FLKWpi|MFLPycb";
   "7^mGb1rasP)h*<6ay3h000O84rez~J<H#EjRpV!To3>NBme*a0000000000q=C#06aa8(a4%nWWo~3|";
   "axZdaadl;LbaO9rbYXOLb6;a`WMy+MaCuNm0Rj{Q6aWAK2mlUeH&O_VwcmUM006xU001HY000000000";
   "0005+cn-mlPaA|NaUv_0~WN&gWa%FLKWpi|MFLQKqbz^jOa%FQaaCuNm0Rj{Q6aWAK2mlUeH&STX&TW";
   "Jx005JA0012T0000000000005+cR~ZxlaA|NaUv_0~WN&gWa%FLKWpi|MFLiWjY;!Jfc~DCM0u%!j00";
   "00801jt2QeU%QiP!)D02u-R03rYY00000000000HlEyKNJ9PX>c!Jc4cm4Z*nhkWpi(Ac4cg7VlQ7`X";
   ">MtBUtcb8c~DCM0u%!j0000801jt2Qgeu2FWm+J0OJz?03!eZ00000000000HlE~KokIQX>c!Jc4cm4";
   "Z*nhkWpi(Ac4cg7VlQxVZ+2;9WpZ;aaCuNm0Rj{Q6aWAK2mlUeH&V+1U)|~f002}4001KZ000000000";
   "0005+cOh*&|aA|NaUv_0~WN&gWa%FRGY<6XAX<{#OWpHnDbY*gLE^v8JO928D0~7!N00;mMXE##95fF";
   "R#5dZ+1KmY(E00000000000001_fp<w10B~t=FJE?LZe(wAFLGsbZ)|pDY-wUIa%FRGY<6XGb1rasP)";
   "h*<6ay3h000O84rez~ToGKF?*sq<I1vB<ApigX0000000000q=Bzn6aa8(a4%nWWo~3|axZdab8l>RW";
   "o&6;FLQKqbz^jME^v8JO928D0~7!N00;mMXE#y+00002000000000f00000000000001_f!$yf0B~t=";
   "FJE?LZe(wAFLGsbZ)|pDY-wUIV{dJ6VRSEFUukY>bYEXCaCuNm0Rj{Q6aWAK2mlUeH&S6#x$08@004g";
   "g001xm0000000000005+cCSeo+aA|NaUv_0~WN&gWa%FRGY<6XAX<{#9Z*6d4bT4CXY;0v?bZKvHb6;";
   "U%V=i!cP)h*<6ay3h000O84rez~OPmnL5CH%H>jD4(8~^|S0000000000q=Cm_6aa8(a4%nWWo~3|ax";
   "ZjmZEP=JUukY>bYEXCaCuNm0Rj{Q6aWAK2mlUeH&P5AGm6U~001hO000{R0000000000005+c5n~hpa";
   "A|NaUv_0~WN&gWbZ>2JFJxt7Z)9b1E^v8JO928D0~7!N00;mMXE#z0rQ{f@3IG7?CIA2%0000000000";
   "0001_ffa-l0B~t=FJE?LZe(wAFLZBhY%gVQV{c?-axQRrP)h*<6ay3h000O84rez~qF0L5l>h($dI10";
   "c8vp<R0000000000q=ER36aa8(a4%nWWo~3|axZjmZEP=Za%5$4Wn?aJc~DCM0u%!j0000801jt2Ql0";
   "9)yAJ^X0KEbL02TlM00000000000HlG&j}!oKX>c!Jc4cm4Z*nhmZ*6QZbb2muc~DCM0u%!j0000801";
   "jt2QXxrg98m-S0Luyh03QGV00000000000HlElkrV)MX>c!Jc4cm4Z*nhna%^mAVlyvaUukY>bYEXCa";
   "CuNm0Rj{Q6aWAK2mlUeH&Pux6LJC#0028G001KZ0000000000005+cmz5L%aA|NaUv_0~WN&gWb#iQM";
   "X<{=kUt@1<Y-M9~X>V?GE^v8JO928D0~7!N00;mMXE#!?bJlb}0000#0000V00000000000001_f!d-";
   "J0B~t=FJE?LZe(wAFLiQkY-wUMFJE?La&u{KZZ2?nP)h*<6ay3h000O84rez~Qw&p9EfxR(IY<BiApi";
   "gX0000000000q=8nW6aa8(a4%nWWo~3|axZmqY;0*_GcRLrZf<2`bZKvHE^v8JO928D0~7!N00;mMXE";
   "#z;q8|hvC;$KrkpKWC00000000000001_fx@{I0B~t=FJE?LZe(wAFLiQkY-wUMFJo_RZe?S1X>V?DZ";
   "*OcaaCuNm0Rj{Q6aWAK2mlUeH&V7`nI2aO004p>001EX0000000000005+cBjOYQaA|NaUv_0~WN&gW";
   "b#iQMX<{=kWq4y{aCB*JZgVbhc~DCM0u%!j0000801jt2QpYGuEFcO10D~a_0384T00000000000HlG";
   "r>l6TRX>c!Jc4cm4Z*nhna%^mAVlyvhX=Q9=b1rasP)h*<6ay3h000O84rez~hpWG%eggmihzS4y9{>";
   "OV0000000000q=6Ln6aa8(a4%nWWo~3|axZmqY;0*_GcRUoY-Mn7b963nc~DCM0u%!j0000801jt2Qs";
   "|<Qi)a=A05eSh03rYY00000000000HlG>`4j+fX>c!Jc4cm4Z*nhna%^mAVlyvrZ*OdEVQyh(WpXZXc";
   "~DCM0u%!j0000801jt2Qv8qZ0;dN60AUvZ03HAU00000000000HlF;5ETG$X>c!Jc4cm4Z*nhna%^mA";
   "VlyvtWpQ<7b963nc~DCM0u%!j0000801jt2QYkMO2xA=p04r_)03QGV00000000000HlFh7!?3;X>c!";
   "Jc4cm4Z*nhna%^mAVlyvtWpi+EZgXWWaCuNm0Rj{Q6aWAK2mlUeH&Orq0006200000001Wd00000000";
   "00005+c`ZW~*aA|NaUv_0~WN&gWb#iQMX<{=kV{dMBa%o~OUtei%X>?y-E^v8JO928D0~7!N00;mMXE";
   "#zRgXtBu0RRBK0{{Rq00000000000001_fk8GE0B~t=FJE?LZe(wAFLiQkY-wUMFJo_RbaH88FJEDBa";
   "Aj_1X>Mg-Wo~w9a&K-faCuNm0Rj{Q6aWAK2mlUeH&O$i5Ljaj000^*001Ze0000000000005+cMK~1z";
   "aA|NaUv_0~WN&gWb#iQMX<{=kV{dMBa%o~OVQ_F|Zf9w3WiD`eP)h*<6ay3h000O84rez~`a*bUp#=Z";
   "{Ko9@`CjbBd0000000000q=D{46##H)a4%nWWo~3|axZmqY;0*_GcRLrZgg^KVlQrVY;ACFZ)`4bc~D";
   "CM0u%!j0000801jt2Qj#b;m1PtF0GmMo04M+e00000000000HlG`N)-TbX>c!Jc4cm4Z*nhna%^mAVl";
   "yveZ*FvQX<{#Md2euKZgX>NE^v8JO928D0~7!N00;mMXE##u1Q@HMB>({bg#Z9900000000000001_f";
   "q!2W0B~t=FJE?LZe(wAFLiQkY-wUMFJo_RbaH88FLPyMb#i5Na$#<BaBp&SE^v8JO928D0~7!N00;mM";
   "XE#zmyQPIz2mk=N8vp<#00000000000001_fo_Er0B~t=FJE?LZe(wAFLiQkY-wUMFJo_RbaH88FLQ5";
   "WYjZAec~DCM0u%!j0000801jt2QUCw|00IC20000005|{u00000000000HlEijuilKX>c!Jc4cm4Z*n";
   "hna%^mAVlyveZ*FvQX<{#5b7f<7a%FUKVQzD9Z*p`mUtei%X>?y-E^v8JO928D0~7!N00;mMXE#zZ&w";
   "xqz5C8!2L;wId00000000000001_fnJUk0B~t=FJE?LZe(wAFLiQkY-wUMFJo_RbaH88FJE(IV|8+6b";
   "aG*Cb8v5RbT49QZe(e0XLBxac~DCM0u%!j0000801jt2Qhq7cd{_|x08};r0672v00000000000HlGe";
   "pA`UbX>c!Jc4cm4Z*nhna%^mAVlyveZ*FvQX<{#5b7f<7a%FUKVQzD9Z*p`mY;Sj8Y-M(3Y%XwlP)h*";
   "<6ay3h000O84rez~tT~LVPyhe`YybcNC;$Ke0000000000q=8$p6##H)a4%nWWo~3|axZmqY;0*_GcR";
   "yqV{2h&WpgiIUukY>bYEXCaCuNm0Rj{Q6aWAK2mlUeH&U`y7Lyep000<&001KZ0000000000005+c@v";
   "#*EaA|NaUv_0~WN&gWb#iQMX<{=kaA9L>VP|D?FLP;lE^v8JO928D0~7!N00;mMXE#y+00002000000";
   "000o00000000000001_fk)950B~t=FJE?LZe(wAFLiQkY-wUMFK}UFYhh<)b1!0HV{344a&&VqUtei%";
   "X>?y-E^v8JO928D0~7!N00;mMXE##bxMQ<O0ssJs1pojt00000000000001_ftk@20B~t=FJE?LZe(w";
   "AFLiQkY-wUMFK}UFYhh<)b1!0HV{344a&&VqZDDI=W@&6?E^v8JO928D0~7!N00;mMXE##(lyjz50RR";
   "B?0ssIz00000000000001_fict-0B~t=FJE?LZe(wAFLiQkY-wUMFK}UFYhh<)b1!pqY+r3*bYo~=Xm";
   "4|LZeeX@FJE72ZfSI1UoLQYP)h*<6ay3h000O84rez~!+g}>y9fXPKo$T1LI3~&0000000000q=Deo6";
   "##H)a4%nWWo~3|axZmqY;0*_GcRyqV{2h&Wpgicb8KI2VRU0?UubW0bZ%j7WiMZ8ZE$R5ZDnqBVRUJ4";
   "ZZ2?nP)h*<6ay3h000O84rez~=8Bn`*Z}|lg9HEoBme*a0000000000q=Eb16##H)a4%nWWo~3|axZm";
   "qY;0*_GcR>?X>2cFUukY>bYEXCaCuNm0Rj{Q6aWAK2mlUeH&PQl{<)?H0024@001Tc0000000000005";
   "+c72y>CaA|NaUv_0~WN&gWb#iQMX<{=kb#!TLFJo_RZe?S1X>V>WaCuNm0Rj{Q6aWAK2mlUeH&QoBuA";
   "N*0002Y=001EX0000000000005+c|L7F}aA|NaUv_0~WN&gWb#iQMX<{=kb#!TLFK}{iczG^xc~DCM0";
   "u%!j0000801jt2QceT*pZov-0P+C<03iSX00000000000HlGM>lFZSX>c!Jc4cm4Z*nhna%^mAVlyvw";
   "bZKlaadl;NWiD`eP)h*<6ay3h000O84rez~l4P$`>IDD*8xQ~hBLDyZ0000000000q=D7!6##H)a4%n";
   "WWo~3|axZmqY;0*_GcR>?X>2cYWpQ<7b963nc~DCM0u%!j0000801jt2QZ^{nv|t4Q0JaSP03-ka000";
   "00000000HlEc^A!MaX>c!Jc4cm4Z*nhna%^mAVlyvwbZKlaa%FRHZ*FsCE^v8JO928D0~7!N00;mMXE";
   "#!8j-jf|761TtQvd)V00000000000001_fui^o0B~t=FJE?LZe(wAFLiQkY-wUMFLiWjY%g+UbaHtva";
   "CuNm0Rj{Q6aWAK2mlUeH&Tt*&zhwb005ak001BW0000000000005+ctq&FeaA|NaUv_0~WN&gWb#iQM";
   "X<{=kb#!TLFLQHjUoLQYP)h*<6ay3h000O84rez~^`%T&4F~`L6dM2lC;$Ke0000000000q=Aqn765Q";
   "*a4%nWWo~3|axZmqY;0*_GcR>?X>2cZb8K{SVQzD9Z*p`laCuNm0Rj{Q6aWAK2mlUeH&P_Y=m@|I000";
   "vw001KZ0000000000005+c<1H2daA|NaUv_0~WN&gWb#iQMX<{=kb#!TLFLY^bWp8zKE^v8JO928D0~";
   "7!N00;mMXE#zF13WB?5&!_5HUI!000000000000001_f#f+B0B~t=FJE?LZe(wAFLiQkY-wUMFLiWjY";
   "%g_kY%XwlP)h*<6ay3h000O84rez~qDH@Qzy|;T92EcnAOHXW0000000000q=BqV765Q*a4%nWWo~3|";
   "axZmqY;0*_GcR>?X>2cdVQF+OaCuNm0Rj{Q6aWAK2mlUeH&S@eA8|4Z002`d001Na0000000000005+";
   "cs#F#LaA|NaUv_0~WN&gWcV%K_Zewp`X>Mn8FJE72ZfSI1UoLQYP)h*<6ay3h000O84rez~$E^s91qJ";
   "{B6C(fsA^-pY0000000000q=6n_765Q*a4%nWWo~3|axZsfVr6b)Z)9n1XLB!XVPa)$b1rasP)h*<6a";
   "y3h000O84rez~P=7HWL;?T+83h0UBme*a0000000000q=92*765Q*a4%nWWo~3|axZsfVr6b)Z)9n1X";
   "LB!YYiwa+Wo&aUaCuNm0Rj{Q6aWAK2mlUeH&SOfaHqKi005&I001EX0000000000005+c>1Y-JaA|Na";
   "Uv_0~WN&gWcV%K_Zewp`X>Mn8FLY&dbaO6nc~DCM0u%!j0000801jt2Qrian)};gh0Mifv04e|g0000";
   "0000000HlH8ZWaJ=X>c!Jc4cm4Z*nhpWnyJ+V{c?>ZfA2ZcwcpMWpZC+WoBt^Wn?aJc~DCQ1^@s60D1";
   "v>0cUmq0M2t30000"].

Definition text_of (l : list string) : bytes := String.list_ascii_of_string (sconcat l).

(** * Archives *)

(** Numbers of two and four bytes, the lowest first. *)
Fixpoint le (l : bytes) : Z := match l with [] => 0 | c :: l' => byte_Z c + 256 * le l' end.

Definition field (l : bytes) (i n : nat) : Z := le (take n (drop i l)).
Definition text (l : bytes) (i n : nat) : string := String.string_of_list_ascii (take n (drop i l)).

(** The marks of a member, of an entry of the directory and of its end. *)
Definition member_mark : Z := 67324752.
Definition entry_mark : Z := 33639248.
Definition end_mark : Z := 101010256.

Record member := Member {
  m_name : string;
  m_method : Z;
  m_crc : Z;
  m_packed : Z;
  m_size : Z;
  m_offset : Z
}.

(** An entry, and what follows it; [None] when there is none. *)
Definition read_entry (l : bytes) : option (member * bytes) :=
  if field l 0 4 =? entry_mark then
    let n := Z.to_nat (field l 28 2) in
    let skip := (46 + n + Z.to_nat (field l 30 2) + Z.to_nat (field l 32 2))%nat in
    Some (Member (text l 46 n) (field l 10 2) (field l 16 4) (field l 20 4) (field l 24 4) (field l 42 4),
          drop skip l)
  else None.

(** The entries up to something else. *)
Fixpoint read_entries (fuel : nat) (l : bytes) : list member * bytes :=
  match fuel with
  | O => ([], l)
  | S fuel' =>
      match read_entry l with
      | None => ([], l)
      | Some (m, l') => let r := read_entries fuel' l' in (m :: r.1, r.2)
      end
  end.

(** The directory of an archive, as the importer of Python reads it: the last 22 bytes say
    where it is and how long, and it reaches up to them. *)
Definition read_directory (zip : bytes) : option (list member) :=
  let tail_ := drop (length zip - 22) zip in
  let size := field tail_ 12 4 in
  let start := field tail_ 16 4 in
  if (field tail_ 0 4 =? end_mark) && (start + size + 22 =? Z.of_nat (length zip)) then
    let r := read_entries (Z.to_nat (field tail_ 10 2)) (drop (Z.to_nat start) zip) in
    if (Z.of_nat (length r.1) =? field tail_ 10 2) && bool_decide (r.2 = tail_) then Some r.1 else None
  else None.

(** The header of a member, at the start of [l], agrees with its entry. *)
Definition agrees (l : bytes) (m : member) : bool :=
  (field l 0 4 =? member_mark) && (field l 8 2 =? m_method m) && (field l 14 4 =? m_crc m) &&
  (field l 18 4 =? m_packed m) && (field l 22 4 =? m_size m) &&
  String.eqb (text l 30 (Z.to_nat (field l 26 2))) (m_name m).

(** Where the contents of a member begin and end, and the contents unpacked, as the importer of
    Python gets them. *)
Definition contents_start (l : bytes) : nat :=
  (30 + Z.to_nat (field l 26 2) + Z.to_nat (field l 28 2))%nat.

Definition contents_end (l : bytes) (m : member) : nat := (contents_start l + Z.to_nat (m_packed m))%nat.

Definition contents (l : bytes) (m : member) : option bytes :=
  if (field l 0 4 =? member_mark) && Nat.leb (contents_end l m) (length l) then
    let raw := take (Z.to_nat (m_packed m)) (drop (contents_start l) l) in
    if m_method m =? 0 then Some raw else inflate raw
  else None.

(** The bytes of an archive from a member on. *)
Definition at_member (zip : bytes) (m : member) : bytes := drop (Z.to_nat (m_offset m)) zip.

(** A member is intact: its header is the one of the directory, and it unpacks to as many
    bytes as that says, with the checksum it has. *)
Definition intact_at (l : bytes) (m : member) : bool :=
  agrees l m &&
  match contents l m with
  | Some t => (Z.of_nat (length t) =? m_size m) && (Z.of_N (crc32 t) =? m_crc m)
  | None => false
  end.

Definition intact (zip : bytes) (m : member) : bool := intact_at (at_member zip m) m.

(** * What the script needs of it *)

(** The modules [bootstrap] imports from and the name it takes of each, and the data it asks
    for. *)
Definition bootstrap_imports : list (string * string) :=
  [("pip._internal.cli.main", "main"); ("pip._internal.commands.install", "InstallCommand");
   ("pip._internal.req.constructors", "install_req_from_line")].
Definition bootstrap_data : string * string := ("pip._vendor.certifi", "cacert.pem").

(** The files an import of a dotted name reads: every package on the way, then the module. *)
Fixpoint packages (path : string) (names : list string) : list string :=
  match names with
  | [] => []
  | n :: names' =>
      let p := if String.eqb path "" then n else path +:+ "/" +:+ n in
      (p +:+ "/__init__.py") :: packages p names'
  end.

Definition module_file (name : string) : string := join "/" (split name ".") +:+ ".py".

Definition module_files (name : string) : list string :=
  let names := split name "." in
  packages "" (take (length names - 1) names) ++ [module_file name].

Definition data_files (pkg file : string) : list string :=
  packages "" (split pkg ".") ++ [join "/" (split pkg ".") +:+ "/" +:+ file].

Definition needed : list string :=
  flat_map (fun i => module_files i.1) bootstrap_imports ++ data_files bootstrap_data.1 bootstrap_data.2.

(** The packages of the modules that are imported. *)
Definition imported_packages : list string :=
  ["pip"; "pip/_internal"; "pip/_internal/cli"; "pip/_internal/commands"; "pip/_internal/req"].

Definition imported (m : member) : bool := bool_decide (dirname (m_name m) ∈ imported_packages).

(** A line of a source begins with [p]; [start] says that the text is at the start of one. *)
Fixpoint begins_line (p : string) (start : bool) (l : bytes) : bool :=
  match l with
  | [] => false
  | c :: l' =>
      if (if start then String.prefix p (String.string_of_list_ascii (take (String.length p) l)) else false) then true
      else begins_line p (Ascii.eqb c LF) l'
  end.

(** A source defines a name at its top level, as a function or as a class. *)
Definition defines (name : string) (source : bytes) : bool :=
  begins_line ("def " +:+ name +:+ "(") true source || begins_line ("class " +:+ name +:+ "(") true source.

Definition defines_at (name : string) (l : bytes) (m : member) : bool :=
  match contents l m with Some source => defines name source | None => false end.

(** * The embedded archive *)

(** The data of the script, with [mid1] and [mid2] for the lines in between. *)
Definition DATA_with (mid1 mid2 : bytes) : bytes :=
  text_of DATA_first ++ mid1 ++ text_of DATA_req ++ mid2 ++ text_of DATA_directory.

(** The lines in between, 79 digits each. *)
Definition mid1_length : Z := 79 * 1165.
Definition mid2_length : Z := 79 * 20245.

(** Members that follow each other without a gap from [pos] on: where the last ends. *)
Fixpoint laid_out (pos : Z) (ms : list member) : option Z :=
  match ms with
  | [] => Some pos
  | m :: ms' =>
      if m_offset m =? pos
      then laid_out (pos + 30 + Z.of_nat (String.length (m_name m)) + m_packed m) ms'
      else None
  end.

(** What the directory of the archive says of its members. *)
Record good_directory (ms : list member) : Prop := {
  good_count : length ms = 378%nat;
  good_names : NoDup (map m_name ms);
  good_layout : laid_out 0 ms = Some 1471438;
  good_needed : Forall (fun f => f ∈ map m_name ms) needed;
  good_first : m_name <$> head ms = Some "pip/__init__.py"
}.

(** A number for a name; names with different numbers differ. *)
Fixpoint name_key (acc : Z) (s : string) : Z :=
  match s with EmptyString => acc | String c s' => name_key (acc * 4 + byte_Z c) s' end.

(** The decoded end of the data: 142 bytes of the last member, the directory, its end. *)
Definition directory_check (dir : bytes) : bool :=
  let end_ := drop (Z.to_nat 30453) dir in
  let r := read_entries (Z.to_nat 378) (drop (Z.to_nat 142) dir) in
  let names := map m_name r.1 in
  (Z.of_nat (length dir) =? 30475) && (field end_ 0 4 =? end_mark) && (field end_ 10 2 =? 378) &&
  (field end_ 12 4 =? 30311) && (field end_ 16 4 =? 1471438) && bool_decide (r.2 = end_) &&
  (Z.of_nat (length r.1) =? 378) && bool_decide (NoDup (map (name_key 0) names)) && bool_decide (laid_out 0 r.1 = Some 1471438) &&
  forallb (fun f => bool_decide (f ∈ names)) needed &&
  bool_decide (m_name <$> head r.1 = Some "pip/__init__.py").

(** Where the lines of the package req begin in the archive. *)
Definition req_start : Z := 161160.

(** A test of a member, in the first part of the archive or in that of req. *)
Definition in_part (test : bytes → member → bool) (part : bytes) (start : Z) (m : member) : bool :=
  let l := drop (Z.to_nat (m_offset m - start)) part in
  (start <=? m_offset m) && Nat.leb (contents_end l m) (length l) && Nat.leb 30 (length l) && test l m.

Definition in_parts (test : bytes → member → bool) (a b : bytes) (m : member) : bool :=
  if m_offset m <? req_start then in_part test a 0 m else in_part test b req_start m.

(** The imported members are intact, and the imported names are defined. *)
Definition members_check (a b : bytes) (ms : list member) : bool :=
  forallb (fun m => if imported m then in_parts intact_at a b m else true) ms.

Definition names_check (a b : bytes) (ms : list member) : bool :=
  forallb (fun i => existsb (fun m => if String.eqb (m_name m) (module_file i.1)
                                      then in_parts (defines_at i.2) a b m else false) ms)
    bootstrap_imports.

(** The members in the decoded end of the data. *)
Definition listed (dir : bytes) : list member := (read_entries (Z.to_nat 378) (drop (Z.to_nat 142) dir)).1.

Record good_parts (a b dir : bytes) : Prop := {
  good_dir : directory_check dir = true;
  good_members : members_check a b (listed dir) = true;
  good_imports : names_check a b (listed dir) = true
}.

Lemma data_checks :
  ∃ a b dir, b85decode (text_of DATA_first) = Ret a ∧ b85decode (text_of DATA_req) = Ret b ∧
    b85decode (text_of DATA_directory) = Ret dir ∧ good_parts a b dir.
Proof.
  assert (Hall : match decode_fast (text_of DATA_first), decode_fast (text_of DATA_req),
                       decode_fast (text_of DATA_directory) with
                 | Some a, Some b, Some dir =>
                     directory_check dir && (let ms := listed dir in members_check a b ms && names_check a b ms)
                 | _, _, _ => false
                 end = true) by (vm_compute; reflexivity).
  destruct (decode_fast (text_of DATA_first)) as [a|] eqn:Ea; [|done].
  destruct (decode_fast (text_of DATA_req)) as [b|] eqn:Eb; [|done].
  destruct (decode_fast (text_of DATA_directory)) as [dir|] eqn:Ed; [|done].
  apply andb_true_iff in Hall as [H1 [H2 H3]%andb_true_iff].
  exists a, b, dir. split_and!; [by apply decode_fast_sound..|exact (Build_good_parts _ _ _ H1 H2 H3)].
Qed.

Lemma drop_beyond {A} (x y : list A) n : (length x ≤ n)%nat → drop n (x ++ y) = drop (n - length x) y.
Proof. apply drop_app_ge. Qed.

(** The directory found in the whole archive is the one in its end. *)
Lemma directory_found x dir :
  Z.of_nat (length x) = 1471296 → directory_check dir = true →
  ∃ ms, read_directory (x ++ dir) = Some ms ∧ good_directory ms ∧
    ms = listed dir.
Proof.
  intros Hx Hc. unfold directory_check in Hc. cbv zeta in Hc.
  repeat match goal with H : _ && _ = true |- _ => apply andb_true_iff in H as [? ?] end.
  repeat match goal with
         | H : (_ =? _) = true |- _ => apply Z.eqb_eq in H
         | H : bool_decide _ = true |- _ => apply bool_decide_eq_true in H
         end.
  set (end_ := drop (Z.to_nat 30453) dir) in *. set (r := read_entries _ _) in *.
  assert (Ht : drop (length (x ++ dir) - 22) (x ++ dir) = end_).
  { rewrite drop_beyond by (rewrite length_app; lia). unfold end_. f_equal. rewrite length_app. lia. }
  exists r.1. split_and!; [| |done].
  - unfold read_directory. rewrite Ht.
    repeat match goal with H : field end_ _ _ = _ |- _ => rewrite H end.
    rewrite Z.eqb_refl. rewrite (proj2 (Z.eqb_eq (1471438 + 30311 + 22) _)) by (rewrite length_app; lia). cbn [andb].
    replace (drop (Z.to_nat 1471438) (x ++ dir)) with (drop (Z.to_nat 142) dir)
      by (rewrite drop_beyond by lia; f_equal; lia).
    fold r. rewrite bool_decide_true by done.
    match goal with H : Z.of_nat (length r.1) = 378 |- _ => rewrite H end. done.
  - constructor; [lia|by eapply NoDup_fmap_1|done| |done]. rewrite Forall_forall. intros f Hf.
    match goal with H : forallb _ needed = true |- _ => rewrite forallb_forall in H;
      apply list_elem_of_In, H, bool_decide_eq_true in Hf end. done.
Qed.

Lemma field_app x y i n : (i + n ≤ length x)%nat → field (x ++ y) i n = field x i n.
Proof. intros Hi. unfold field. rewrite drop_app_le, take_app_le by (rewrite ?length_drop; lia). done. Qed.

Lemma text_app x y i n : (i + n ≤ length x)%nat → text (x ++ y) i n = text x i n.
Proof. intros Hi. unfold text. rewrite drop_app_le, take_app_le by (rewrite ?length_drop; lia). done. Qed.

(** What follows a member does not matter to it. *)
Lemma contents_start_app l y : (30 ≤ length l)%nat → contents_start (l ++ y) = contents_start l.
Proof. intros Hl. unfold contents_start. by rewrite !field_app by lia. Qed.

Lemma contents_app l y m :
  (30 ≤ length l)%nat → (contents_end l m ≤ length l)%nat → contents (l ++ y) m = contents l m.
Proof.
  intros Hl He. unfold contents, contents_end in *. rewrite contents_start_app, field_app by lia.
  rewrite !(proj2 (Nat.leb_le _ _)) by (rewrite ?length_app; lia).
  rewrite drop_app_le, take_app_le by (rewrite ?length_drop; lia). done.
Qed.

(** A test of a member that looks at nothing beyond it. *)
Definition local_test (test : bytes → member → bool) : Prop := ∀ l y m,
  (30 ≤ length l)%nat → (contents_end l m ≤ length l)%nat → test (l ++ y) m = test l m.

Lemma intact_at_local : local_test intact_at.
Proof.
  intros l y m Hl He. unfold intact_at. rewrite contents_app by done.
  replace (agrees (l ++ y) m) with (agrees l m); [done|].
  unfold contents_end in He. unfold agrees. rewrite !field_app by lia.
  rewrite text_app; [done|]. unfold contents_start in He. lia.
Qed.

Lemma defines_at_local name : local_test (defines_at name).
Proof. intros l y m Hl He. unfold defines_at. by rewrite contents_app. Qed.

(** A member in a part of the archive. *)
Lemma in_part_whole test x part y start m :
  local_test test → in_part test part start m = true → Z.of_nat (length x) = start → 0 ≤ start →
  test (at_member (x ++ part ++ y) m) m = true.
Proof.
  unfold in_part. cbv zeta.
  intros Hloc [[[H1%Z.leb_le H2%Nat.leb_le]%andb_true_iff H3%Nat.leb_le]%andb_true_iff H4]%andb_true_iff Hx Hs.
  unfold at_member. rewrite drop_app_ge by lia.
  replace (Z.to_nat (m_offset m) - length x)%nat with (Z.to_nat (m_offset m - start)) by lia.
  rewrite drop_app_le; [by rewrite Hloc|].
  destruct (Nat.le_gt_cases (Z.to_nat (m_offset m - start)) (length part)) as [|Hgt]; [done|].
  rewrite drop_ge in H3 by lia. simpl in H3. lia.
Qed.

Lemma in_parts_whole test a zmid1 b rest m :
  local_test test → in_parts test a b m = true → Z.of_nat (length (a ++ zmid1)) = req_start →
  test (at_member (a ++ zmid1 ++ b ++ rest) m) m = true.
Proof.
  intros Hloc Hm Hr. unfold in_parts in Hm. destruct (m_offset m <? req_start).
  - by apply (in_part_whole _ [] a _ 0).
  - rewrite (app_assoc a zmid1). by apply (in_part_whole _ _ b _ req_start).
Qed.

(** The parts decode one by one. *)
Lemma parts_decode n x y p q :
  Z.of_nat (length p) = 5 * n → b85decode p = Ret x → b85decode q = Ret y →
  b85decode (p ++ q) = Ret (x ++ y) ∧ Z.of_nat (length x) = 4 * n.
Proof.
  intros Hp Hx Hy. split; [by apply (b85decode_app (Z.to_nat n)); [lia|..]|].
  rewrite (b85decode_length _ _ Hx), Hp. replace (4 * (5 * n)) with (4 * n * 5) by lia. by apply Z.div_mul.
Qed.

(** The whole is put together of the parts. *)
Lemma archive_parts mid1 zmid1 mid2 zmid2 :
  Z.of_nat (length mid1) = mid1_length → b85decode mid1 = Ret zmid1 →
  Z.of_nat (length mid2) = mid2_length → b85decode mid2 = Ret zmid2 →
  ∃ a b dir, let zip := a ++ zmid1 ++ b ++ zmid2 ++ dir in
    b85decode (DATA_with mid1 mid2) = Ret zip ∧ Z.of_nat (length zip) = 1501771 ∧
    Z.of_nat (length (a ++ zmid1)) = req_start ∧ good_parts a b dir ∧
    read_directory zip = Some (listed dir) ∧ good_directory (listed dir).
Proof.
  unfold mid1_length, mid2_length. intros L1 E1 L2 E2. destruct data_checks as (a & b & dir & Ea & Eb & Ed & Hp).
  assert (La : Z.of_nat (length (text_of DATA_first)) = 5 * 21883) by (vm_compute; reflexivity).
  assert (Lb : Z.of_nat (length (text_of DATA_req)) = 5 * 7663) by (vm_compute; reflexivity).
  change (79 * 1165) with (5 * (79 * 233)) in L1. change (79 * 20245) with (5 * (79 * 4049)) in L2.
  destruct (parts_decode _ _ _ _ _ L2 E2 Ed) as [F2 N2].
  destruct (parts_decode _ _ _ _ _ Lb Eb F2) as [Fb Nb].
  destruct (parts_decode _ _ _ _ _ L1 E1 Fb) as [F1 N1].
  destruct (parts_decode _ _ _ _ _ La Ea F1) as [Fa Na].
  exists a, b, dir. cbv zeta.
  replace (a ++ zmid1 ++ b ++ zmid2 ++ dir) with ((a ++ zmid1 ++ b ++ zmid2) ++ dir) in * by by rewrite <- !app_assoc.
  assert (Hx : Z.of_nat (length (a ++ zmid1 ++ b ++ zmid2)) = 1471296) by (rewrite !length_app; lia).
  pose proof (good_dir _ _ _ Hp) as Hc. destruct (directory_found _ _ Hx Hc) as (ms & Hr & Hg & ->).
  split_and!; [done| | |done|done|done].
  - unfold directory_check in Hc. do 10 (apply andb_true_iff in Hc as [Hc _]). apply Z.eqb_eq in Hc.
    rewrite length_app. lia.
  - rewrite length_app. unfold req_start. lia.
Qed.

(** C17: the data of the script is the archive with pip it is said to be, as far as the script
    relies on it.  Whatever the lines hold that are not given here, provided they decode: the
    whole decodes to an archive with a directory of 378 members of distinct names, which
    follow each other without a gap from the first byte to the directory; every module the
    bootstrap imports, with the packages around it, and the certificates it asks for are
    among them; and every member of the packages of these modules is intact: its header is
    where the directory says and agrees with it, and it unpacks to the size and the checksum
    recorded for it. *)
Theorem embedded_archive mid1 zmid1 mid2 zmid2 :
  Z.of_nat (length mid1) = mid1_length → b85decode mid1 = Ret zmid1 →
  Z.of_nat (length mid2) = mid2_length → b85decode mid2 = Ret zmid2 →
  ∃ zip ms, b85decode (DATA_with mid1 mid2) = Ret zip ∧ Z.of_nat (length zip) = 1501771 ∧
    read_directory zip = Some ms ∧ good_directory ms ∧
    Forall (fun m => imported m = true → intact zip m = true) ms.
Proof.
  intros L1 E1 L2 E2. destruct (archive_parts _ _ _ _ L1 E1 L2 E2) as (a & b & dir & Hd & Hl & Hr & Hp & Hms & Hg).
  eexists _, (listed dir). split_and!; [exact Hd|exact Hl|exact Hms|exact Hg|].
  rewrite Forall_forall. intros m Hin Hi. pose proof (good_members _ _ _ Hp) as Hm.
  unfold members_check in Hm. rewrite forallb_forall in Hm. apply list_elem_of_In, Hm in Hin. rewrite Hi in Hin.
  apply in_parts_whole; [apply intact_at_local|exact Hin|exact Hr].
Qed.

Lemma embedded_archive_witness :
  let zeros n := replicate (5 * Z.to_nat n) "0"%char in
  ∃ zip ms, b85decode (DATA_with (zeros (79 * 233)) (zeros (79 * 4049))) = Ret zip ∧
    read_directory zip = Some ms ∧ length ms = 378%nat.
Proof.
  intros zeros.
  destruct (embedded_archive (zeros (79 * 233)) (replicate (4 * Z.to_nat (79 * 233)) zero)
              (zeros (79 * 4049)) (replicate (4 * Z.to_nat (79 * 4049)) zero))
    as (zip & ms & H1 & _ & H2 & H3 & _).
  - unfold zeros, mid1_length. rewrite length_replicate. lia.
  - apply b85decode_zeros.
  - unfold zeros, mid2_length. rewrite length_replicate. lia.
  - apply b85decode_zeros.
  - exists zip, ms. split; [exact H1|split; [exact H2|apply H3]].
Defined.

(** C18: the imports of the bootstrap find what they ask for.  Whatever the lines hold that are
    not given here, provided they decode: for each name [bootstrap] imports from a module, the
    file of the module is a member of the archive, it unpacks, and its source has a line
    that begins the definition of a function or a class of that name at the top level. *)
Theorem imports_defined mid1 zmid1 mid2 zmid2 :
  Z.of_nat (length mid1) = mid1_length → b85decode mid1 = Ret zmid1 →
  Z.of_nat (length mid2) = mid2_length → b85decode mid2 = Ret zmid2 →
  ∃ zip ms, b85decode (DATA_with mid1 mid2) = Ret zip ∧ read_directory zip = Some ms ∧
    ∀ module name, (module, name) ∈ bootstrap_imports →
      ∃ m source, m ∈ ms ∧ m_name m = module_file module ∧
        contents (at_member zip m) m = Some source ∧ defines name source = true.
Proof.
  intros L1 E1 L2 E2. destruct (archive_parts _ _ _ _ L1 E1 L2 E2) as (a & b & dir & Hd & _ & Hr & Hp & Hms & _).
  eexists _, (listed dir). split_and!; [exact Hd|exact Hms|]. intros module name Hin.
  pose proof (good_imports _ _ _ Hp) as Hm. unfold names_check in Hm. rewrite forallb_forall in Hm.
  apply list_elem_of_In, Hm, existsb_exists in Hin as (m & Hin%list_elem_of_In & Ht).
  destruct (String.eqb _ _) eqn:Hn; [apply String.eqb_eq in Hn|discriminate Ht].
  apply (in_parts_whole _ _ zmid1 _ (zmid2 ++ dir)) in Ht; [|apply defines_at_local|exact Hr].
  unfold defines_at in Ht. destruct (contents _ m) as [source|] eqn:Ec; [|discriminate Ht]. exists m, source.
  split_and!; [exact Hin|exact Hn|exact Ec|exact Ht].
Qed.

Lemma imports_defined_witness :
  let zeros n := replicate (5 * Z.to_nat n) "0"%char in
  ∃ zip ms, b85decode (DATA_with (zeros (79 * 233)) (zeros (79 * 4049))) = Ret zip ∧
    read_directory zip = Some ms ∧
    ∃ m source, m ∈ ms ∧ m_name m = "pip/_internal/cli/main.py" ∧
      contents (at_member zip m) m = Some source ∧ defines "main" source = true.
Proof.
  intros zeros.
  destruct (imports_defined (zeros (79 * 233)) (replicate (4 * Z.to_nat (79 * 233)) zero)
              (zeros (79 * 4049)) (replicate (4 * Z.to_nat (79 * 4049)) zero))
    as (zip & ms & H1 & H2 & H3).
  - unfold zeros, mid1_length. rewrite length_replicate. lia.
  - apply b85decode_zeros.
  - unfold zeros, mid2_length. rewrite length_replicate. lia.
  - apply b85decode_zeros.
  - exists zip, ms. split; [exact H1|split; [exact H2|]].
    apply (H3 "pip._internal.cli.main" "main"). apply list_elem_of_here.
Defined.
