(* ===== verification/Metis.v ===== *)
(** benchmarks/metis/__init__.py: the Metis benchmark as a task of the benchmark manager.  The
    manager and the objects that measure (the packages mparts and support) are not part of
    the repository; their methods are the fields of the class [Parts]. *)

From S2P Require Import Prelude PyStr PyDict PyPath Effect.

(** * What the tasks use *)

(** [St] is the state of the machine and of the manager; a time has the type [V]. *)
Class Parts (St V : Type) := {
  fs_clean : M St unit;
  wrap : list string → string → string → M St (list string);
  getSeqStr : M St string;
  getLogPath : M St string;
  here : M St string;
  lock_start : M St unit;
  lock_end : M St unit;
  perf_enter : string → bool → string → M St unit;
  perf_exit : M St unit;
  show_cmd : list string → M St unit;
  run_checked : list string → string → list (string * string) → M St unit;
  readFile : string → M St string;
  parseLog : string → M St (list (string * V));
  setResults : Z → string → string → V → M St unit
}.

(** * MetisLoad *)

Record MetisLoad := MkMetisLoad {
  trial : Z;
  cores : Z;
  metisPath : string;
  streamflow : bool;
  model : string;
  fs : bool;
  perfRecord : bool;
  resultPath : string;
  perfBin : string;
  lockStats : bool
}.

Definition known_model (m : string) : bool := String.eqb m "default" || String.eqb m "hugetlb".

(** The constructor asserts that the memory model is known. *)
Definition init_load {S} (t c : Z) (path : string) (sf : bool) (m : string) (has_fs rec : bool)
    (res bin : string) (ls : bool) : M S MetisLoad :=
  if known_model m then ret (MkMetisLoad t c path sf m has_fs rec res bin ls)
  else raise CAssertionError ("Unknown Metis memory model " +:+ repr_str m).

Section Load.
Context {St V : Type} `{Parts St V} (l : MetisLoad).

Definition obj : string := join2 (metisPath l) ("obj." +:+ model l).

Definition metis_cmd : list string :=
  [path_join obj ["app"; "wrmem" +:+ (if streamflow l then ".sf" else "")]; "-p"; str_Z (cores l)].

Definition perf_file (cur : string) : string :=
  path_join cur [resultPath l; "perf-metis-" +:+ str_Z (cores l) +:+ ".dat"].

(** The measured part: recording ends however the command ends. *)
Definition recorded (cur logPath : string) (cmd : list string) : M St unit :=
  perf_enter (perf_file cur) (perfRecord l) (perfBin l) ;;
  finally (show_cmd cmd ;; run_checked cmd logPath [("LD_LIBRARY_PATH", join2 obj "lib")]) perf_exit.

(** The sequence of processors is read twice and not used. *)
Definition wait : M St (list (string * V)) :=
  when (fs l) fs_clean ;;
  do cmd <- wrap metis_cmd "Starting mapreduce" "Finished mapreduce";
  do newcpuseq1 <- getSeqStr;
  do newcpuseq2 <- getSeqStr;
  do logPath <- getLogPath;
  do cur <- here;
  when (lockStats l) lock_start ;;
  recorded cur logPath cmd ;;
  when (lockStats l) lock_end ;;
  do log <- readFile logPath;
  do out <- parseLog log;
  do real <- of_option (dget "time.real" out) CKeyError (repr_str "time.real");
  setResults 1 "job" "jobs" real ;;
  ret out.
End Load.

(** * MetisRunner *)

(** [str(runner)] *)
Definition runner_name : string := "metis".

(** The tasks in the order they are added to the manager. *)
Inductive task :=
| THost
| THostInfo
| TFileSystem (kind : string) (clean : bool)
| TSetCPUs (num : Z) (hotplug : bool) (seq : string)
| TSystemMonitor
| TLockStats (path : string)
| TLoad (l : MetisLoad).

Record cfg := Cfg {
  c_model : string;
  c_benchRoot : string;
  c_cores : Z;
  c_hotplug : bool;
  c_order : string;
  c_lockStats : bool;
  c_trials : Z;
  c_streamflow : bool;
  c_precord : bool;
  c_perfBin : string
}.

Section Runner.
(** [m.tasks()[0].getPath()], for the tasks there are. *)
Context (getPath : list task → string).

Definition add (t : task) : M (list task) unit := modify (fun ts => ts ++ [t]).

(** [MetisRunner.run(m, cfg)] up to [m.run()], which runs the tasks that were added. *)
Definition metis_tasks (c : cfg) : M (list task) unit :=
  add THost ;; add THostInfo ;;
  let huge := String.eqb (c_model c) "hugetlb" in
  when huge (add (TFileSystem "hugetlb" false)) ;;
  let path := join2 (c_benchRoot c) "metis" in
  add (TSetCPUs (c_cores c) (c_hotplug c) (c_order c)) ;;
  add TSystemMonitor ;;
  when (c_lockStats c) (do p <- gets getPath; add (TLockStats (join2 p "lock_stat"))) ;;
  for_each (seqZ 0 (c_trials c)) (fun trial =>
    do p <- gets getPath;
    do l <- init_load trial (c_cores c) path (c_streamflow c) (c_model c) huge (c_precord c) p
              (c_perfBin c) (c_lockStats c);
    add (TLoad l)).
End Runner.

(** * Facts *)

Section Wait.
Context {St V : Type} `{HP : Parts St V} (l : MetisLoad).

(** Everything before the command. *)
Definition prepared (s s1 : St) (cmd : list string) (logPath cur : string) : Prop :=
  (when (fs l) fs_clean ;;
   do cmd <- wrap (metis_cmd l) "Starting mapreduce" "Finished mapreduce";
   do _ <- getSeqStr; do _ <- getSeqStr;
   do logPath <- getLogPath; do cur <- here; ret (cmd, logPath, cur)) s = (Ret (cmd, logPath, cur), s1).

Lemma wait_prepared s s1 cmd logPath cur :
  prepared s s1 cmd logPath cur →
  wait l s =
    (when (lockStats l) lock_start ;; recorded l cur logPath cmd ;; when (lockStats l) lock_end ;;
     do log <- readFile logPath;
     do out <- parseLog log;
     do real <- of_option (dget "time.real" out) CKeyError (repr_str "time.real");
     setResults 1 "job" "jobs" real ;; ret out) s1.
Proof.
  unfold prepared, wait. intros ([] & s2 & H1 & E)%bind_Ret_inv. rewrite (bind_Ret _ _ _ _ _ H1).
  do 5 (apply bind_Ret_inv in E as (? & ? & Hx & E); rewrite (bind_Ret _ _ _ _ _ Hx); clear Hx).
  injection E as -> -> -> ->. done.
Qed.

(** A benchmark that fails ends the task with its exception: the recording of perf is ended,
    the lock statistics are left running and no result is stored. *)
Theorem wait_failed s s1 cmd logPath cur u2 s2 u3 s3 u4 s4 e s5 u6 s6 :
  prepared s s1 cmd logPath cur →
  when (lockStats l) lock_start s1 = (Ret u2, s2) →
  perf_enter (perf_file l cur) (perfRecord l) (perfBin l) s2 = (Ret u3, s3) →
  show_cmd cmd s3 = (Ret u4, s4) →
  run_checked cmd logPath [("LD_LIBRARY_PATH", join2 (obj l) "lib")] s4 = (Raise e, s5) →
  perf_exit s5 = (Ret u6, s6) →
  wait l s = (Raise e, s6).
Proof.
  intros Hp H2 H3 H4 H5 H6. rewrite (wait_prepared _ _ _ _ _ Hp), (bind_Ret _ _ _ _ _ H2).
  apply bind_Raise. unfold recorded. rewrite (bind_Ret _ _ _ _ _ H3). unfold finally.
  rewrite (bind_Ret _ _ _ _ _ H4), H5. by rewrite H6.
Qed.
End Wait.

Section RunnerFacts.
Context (getPath : list task → string) (c : cfg).

(** The tasks before the trials. *)
Definition setting : list task :=
  [THost; THostInfo] ++ (if String.eqb (c_model c) "hugetlb" then [TFileSystem "hugetlb" false] else []) ++
  [TSetCPUs (c_cores c) (c_hotplug c) (c_order c); TSystemMonitor].

(** The trial of a number, with the path of the first task. *)
Definition load (path : string) (t : Z) : MetisLoad :=
  MkMetisLoad t (c_cores c) (join2 (c_benchRoot c) "metis") (c_streamflow c) (c_model c)
    (String.eqb (c_model c) "hugetlb") (c_precord c) path (c_perfBin c) (c_lockStats c).

Lemma add_run t ts : add t ts = (Ret tt, ts ++ [t]).
Proof. done. Qed.

Lemma metis_tasks_setting ts :
  (∀ ts ts', getPath (ts ++ ts') = getPath ts) →
  let ls := if c_lockStats c then [TLockStats (join2 (getPath ts) "lock_stat")] else [] in
  metis_tasks getPath c ts =
    for_each (seqZ 0 (c_trials c)) (fun trial =>
      do p <- gets getPath;
      do l <- init_load trial (c_cores c) (join2 (c_benchRoot c) "metis") (c_streamflow c) (c_model c)
                (String.eqb (c_model c) "hugetlb") (c_precord c) p (c_perfBin c) (c_lockStats c);
      add (TLoad l)) (ts ++ setting ++ ls).
Proof.
  intros Hp. unfold metis_tasks, setting.
  rewrite (bind_Ret _ _ _ _ _ (add_run _ _)), (bind_Ret _ _ _ _ _ (add_run _ _)).
  set (h := if String.eqb (c_model c) "hugetlb" then [TFileSystem "hugetlb" false] else []).
  rewrite (bind_Ret _ _ _ tt (((ts ++ [THost]) ++ [THostInfo]) ++ h)).
  2: { unfold h. destruct (String.eqb (c_model c) "hugetlb"); [done|by rewrite app_nil_r]. }
  rewrite (bind_Ret _ _ _ _ _ (add_run _ _)), (bind_Ret _ _ _ _ _ (add_run _ _)).
  erewrite (bind_Ret _ _ _ tt).
  2: { instantiate (1 := ts ++ setting ++ (if c_lockStats c then [TLockStats (join2 (getPath ts) "lock_stat")] else [])).
       unfold setting. fold h. destruct (c_lockStats c); simpl.
       - unfold bind, gets. rewrite add_run. rewrite <- !app_assoc, Hp. done.
       - by rewrite <- !app_assoc. }
  done.
Qed.

(** The manager gets the tasks that set the machine up, in their order, and then one load for
    each trial, with the numbers 0, 1, ... in their order, all with the same settings. *)
Theorem metis_tasks_known ts :
  known_model (c_model c) = true → (∀ ts ts', getPath (ts ++ ts') = getPath ts) →
  metis_tasks getPath c ts =
    (Ret tt, ts ++ setting ++ (if c_lockStats c then [TLockStats (join2 (getPath ts) "lock_stat")] else []) ++
             map (fun t => TLoad (load (getPath ts) t)) (seqZ 0 (c_trials c))).
Proof.
  intros Hm Hp. rewrite metis_tasks_setting by done. cbv zeta.
  set (ls := if c_lockStats c then _ else _).
  replace (ts ++ setting ++ ls ++ map (fun t => TLoad (load (getPath ts) t)) (seqZ 0 (c_trials c)))
    with ((ts ++ setting ++ ls) ++ map (fun t => TLoad (load (getPath ts) t)) (seqZ 0 (c_trials c)))
    by by rewrite <- !app_assoc.
  generalize (setting ++ ls). generalize (seqZ 0 (c_trials c)). intros trials.
  induction trials as [|t trials IH]; intros x; [by rewrite app_nil_r|]. cbn [for_each map].
  rewrite (bind_Ret _ _ _ tt ((ts ++ x) ++ [TLoad (load (getPath ts) t)])).
  - rewrite <- (app_assoc ts x), IH. by rewrite <- !app_assoc.
  - rewrite (bind_Ret _ _ _ (getPath ts) (ts ++ x)) by (unfold gets; by rewrite Hp).
    unfold init_load. by rewrite Hm.
Qed.

(** A memory model that is not known is met by the constructor of the first trial only: with
    no trial at all the run goes on. *)
Theorem metis_tasks_unknown ts :
  known_model (c_model c) = false → (∀ ts ts', getPath (ts ++ ts') = getPath ts) →
  (metis_tasks getPath c ts).1 =
    if c_trials c <=? 0 then Ret tt
    else Raise (Exn CAssertionError ("Unknown Metis memory model " +:+ repr_str (c_model c))).
Proof.
  intros Hm Hp. rewrite metis_tasks_setting by done. destruct (Z.leb_spec (c_trials c) 0) as [H0|H0].
  - by rewrite seqZ_nil.
  - rewrite seqZ_cons by lia. cbn [for_each]. unfold init_load at 1. rewrite Hm. done.
Qed.
End RunnerFacts.

Definition demo_cfg : cfg := Cfg "hugetlb" "/bench" 4 false "seq" true 2 true false "perf".

Lemma metis_tasks_known_witness :
  ∃ ts, metis_tasks (fun _ => "out") demo_cfg [] = (Ret tt, ts) ∧
    ts = [THost; THostInfo; TFileSystem "hugetlb" false; TSetCPUs 4 false "seq"; TSystemMonitor;
          TLockStats "out/lock_stat"; TLoad (load demo_cfg "out" 0); TLoad (load demo_cfg "out" 1)].
Proof.
  eexists. split; [apply (metis_tasks_known (fun _ => "out") demo_cfg []); reflexivity|]. vm_compute. reflexivity.
Defined.
